(* ===== verification/_CoqProject ===== *)
-Q . S2P
Prelude.v
Mem.v
CList.v
HeapSpec.v
Miniheap.v
HeapProof.v
HeapClient.v
HeapTheorems.v
CString.v
CStringProof.v
CStringTheorems.v
Printf.v
PrintfProof.v
PrintfTheorems.v
Io.v
IoProof.v
Spinlock.v
SpinlockProof.v
SpinlockTheorems.v
Once.v
OnceProof.v
OnceTheorems.v
Exclusive.v
ExclusiveProof.v
Atomic.v
AtomicProof.v
AtomicTheorems.v
Rwlock.v
RwlockProof.v
RwlockTheorems.v
GicRegs.v
Gic.v
GicIntr.v
GicProof.v
GicIntrProof.v
GicOpsProof.v
GicInitProof.v
GicTheorems.v
Icc.v
Console.v
ConsoleProof.v
ConsoleTheorems.v
Host.v
HostProof.v
ConsoleHost.v
Stress.v
StressProof.v
StressTheorems.v
SelfTest.v
SelfTestTheorems.v
Timer.v
TimerProof.v
TimerTheorems.v
TimerInitProof.v
Exception.v
ExceptionProof.v
IrqProof.v
ExceptionTheorems.v
Preempt.v
PreemptProof.v
PreemptTheorems.v
PreemptHeap.v
PreemptHeapTheorems.v
Vectors.v
VectorsProof.v
VectorsTheorems.v
IrqEntry.v
IrqEntryTheorems.v
Boot.v
BootProof.v
BootTheorems.v
Vcpu.v
VcpuProof.v
VcpuTheorems.v
Layout.v
LayoutProof.v
LayoutTheorems.v
