(* ===== verification/Prelude.v ===== *)
(** z-hyper: a bare-metal AArch64 hypervisor, verified.

    * The program and its parts

    z-hyper runs at EL2 on a GICv3 machine. _start sets the stack and calls platform_init
    (platform/aarch64/main/main.c), which installs the exception vectors, brings the console up,
    initialises the heap, the interrupt controller and the timer of this CPU, starts one periodic
    timer and idles. From then on everything happens in exceptions: the vectors save the
    registers and call el2_irq, which acknowledges the interrupt, finds its context, calls the
    handler (the timer's, which runs the callbacks of the active timers) and ends it; or el2_sync
    and el2_fiq, which report and stop. Below are a C library (strings, printf, a first-fit heap,
    rand), circular lists, spin locks, reader-writer locks and atomic counters in inline
    assembly, and a vCPU scheduler that nothing calls yet.

    * How it is modelled

    Programs are functions in the state and error monad [M S] of this file: a call returns
    [Ok a s] or stops with [Stop w s], where [w] says why: a panic of the program, an access to an
    address without an object ([Fault]), undefined behaviour of C ([Undef]), an instruction that
    the processor refuses ([Trap]: an unaligned access, an [msr] to a read-only register), the
    program's own endless wait ([Hang]), or fuel used up ([Spin]). [zoom] runs a component on its part of a
    larger state, so that a program calls another component's operations as they are. Machine
    integers are [Z] with the conversions of C written out ([wrap], [swrap], [u32]). Memory (Mem)
    is a finite map from addresses to bytes; structures that no code looks at as bytes are records
    in stores keyed by address, and their embedded list heads are objects of the link store of
    CList. Device and system registers (Io) belong to a machine that is a parameter (class
    [Hardware]); every access and every printed character goes to a trace, and the theorems are
    about traces, for all machines that meet the stated conditions. Inline assembly on shared
    words (Spinlock, Exclusive) is run one instruction at a time, interleaved over CPUs, with
    exclusive monitors that may fail for no reason; the accesses of one word are coherent.
    Ordering between several words matters in run_once, which Once runs over store buffers with
    fences and releases that order stores and wait for none. The addresses the program starts
    with are computed (Layout) from its linker script and the declarations of its structures.

    * Files

    Prelude: machine integers, the monad, generic lemmas, the hint database [zmem].
    Mem: byte memory, loads and stores.
    CList: include/list/list.h; [clist] is the list that a ring of nodes represents.

    Heap (src/libc/miniheap.c, include/utils/miniheap.h).
    - HeapSpec: blocks in address order, first fit, release with merging: the contract.
    - Miniheap: miniheap_init, miniheap_alloc, miniheap_free, malloc and free over memory.
    - HeapProof: [repr], the memory that represents a list of blocks, and the refinement.
    - HeapClient: the heap as callers see it, a step relation over live pointers, its invariant.
    - HeapTheorems: calls return aligned, disjoint memory and keep data; first fit; coalescing;
      the round trip; panics on a double free; what requests near 4 GiB do.

    Strings and output.
    - CString, CStringProof, CStringTheorems: string.c; memcpy and memset are exact on aligned
      pointers and trap on others when there is a word to move.
    - Printf, PrintfProof, PrintfTheorems: printf.c over any [Output]; a renderer of formats is
      the reference, and printed numbers read back.

    Hardware and devices.
    - Io, IoProof: aarch64_utils.h and barriers; [runs] relates a call to the trace it adds,
      [effects] are its register writes.
    - GicRegs: gicd_regs.h, gicr_regs.h, layout.h.
    - Gic, GicIntr: gicd.c, gicr.c, intr/sgi.c, intr/ppi.c, intr/spi.c, gicv3.c,
      gicv3_internal.h, gicv3.h. GicProof, GicIntrProof, GicOpsProof (the operations of the
      tables) and GicInitProof (the set-up) lead to GicTheorems.
    - Icc: icc.h, and its agreement with the set-up in gicv3.c.
    - Console, ConsoleProof, ConsoleTheorems: console.c and pl011.c; what is printed reaches the
      UART in order, and never a full queue.
    - Host: what the reports need of a machine (a class); HostProof over any such machine;
      ConsoleHost makes the console and its UART one.

    Concurrency.
    - Spinlock, SpinlockProof, SpinlockTheorems: the ticket lock of arch_spinlock.h refines a
      first-in first-out lock for up to 65535 CPUs, event for event: CPUs enter in the order of
      their tickets; run_once of utils.h on one CPU.
    - Once, OnceProof, OnceTheorems: run_once between CPUs, the lock one instruction at a time
      and stores that become visible out of order, after a CPU has returned, too: what it
      guarantees, and the fast path that its barriers do not protect.
    - Exclusive, ExclusiveProof: routines of load- and store-exclusives that implement one
      indivisible step, once for all objects (class [Object]).
    - Atomic, AtomicProof, AtomicTheorems: atomic.h is linearizable.
    - Rwlock, RwlockProof, RwlockTheorems: the reader-writer locks of arch_spinlock.h: writers
      are alone, readers share.

    Timers, exceptions, boot, scheduler.
    - Timer, TimerProof, TimerInitProof, TimerTheorems: timer.c on the heap, the lists and the
      interrupt controller. Callbacks are code by address (class [Callbacks]).
    - Exception, ExceptionProof, IrqProof, ExceptionTheorems: el2_sync.c: the report over any
      [Host], and the interrupt entry over the timers.
    - Preempt, PreemptProof, PreemptTheorems: start_timer one load or store at a time, with timer
      interrupts before each: harmless when no timer expires; when timers expire, harmless up to
      the load of list_next and a write into a freed timer right after it.
    - PreemptHeap, PreemptHeapTheorems: the same for malloc and free, whose heap the interrupt
      frees into; that an expiry is not harmless there is shown on one machine only.
    - Vectors, VectorsProof, VectorsTheorems: exception.S: what an exception does to the
      interrupted program, over any state with a core in it (class [HasCore]).
    - IrqEntry, IrqEntryTheorems: the vectors around el2_irq on one state: the program that is
      interrupted goes on as it was, which is what Preempt takes for granted.
    - Boot, BootProof, BootTheorems: platform_init on one state with everything it calls, its
      register writes in order, and any number of timer interrupts after it.
    - Vcpu, VcpuProof, VcpuTheorems: vcpu.c and sched/vcpu.h. A context restore traps at the
      [msr] of the read-only MPIDR_EL1; the lists and states are proved up to there, and what
      later operations do to them is followed past it.
    - Layout, LayoutProof, LayoutTheorems: lds/linker.lds run on a location counter, the sizes
      and offsets of the structures, main/start.S, and the boot of the linked program from its
      entry; [declared_sizes] checks the offsets the other files use.
    - Stress, StressProof, StressTheorems: unittest/miniheap_stress_test.c with rand.c and
      dump_miniheap; the test passes on every machine and from every seed.
    - SelfTest, SelfTestTheorems: src/app/test.c on the memory of its stack frames.

    In each group the first file has the definitions, named as in the source, a file ending in
    Proof the invariants and the lemmas, and a file ending in Theorems the properties, each with
    a concrete machine or memory on which its hypotheses hold (the lemmas ending in _witness).

    * Bounds and fuel

    - Walks of the heap's free list take [walk_fuel], one more than the number of 16-byte units
      of the heap; the blocks of a represented heap are fewer, so that the heap theorems conclude
      that the calls return.
    - Walks of lists take a fuel of at least the number of nodes, which the theorems ask for;
      a list that was corrupted into a cycle without the head shows as [Spin].
    - String scans take a fuel of at least the length of the string.
    - vprintf takes the length of its format, each step of the loop consuming a character of it.
    - Polls of a device register give up after [patience] (class [Config]) more reads; the
      theorems ask the machine to settle within it, and hold for every value of it. NR_CPU and
      HZ are build parameters, in the same class.
    - The instruction machines have no bound: their theorems are about every reachable state;
      progress is an enabled step of a waiting CPU, or the return of a CPU that is left alone
      ([left_alone]), within sixteen steps.
    - The stress test runs its own 20000 iterations.
    - A schedule of Preempt lists the interrupts before each access of start_timer, any number
      before each; it has ten accesses, or nine when the caller names the manager.

    * What is assumed of code that is not in the repository

    The machine answers registers ([Hardware]); the compiler gives its sections sizes and
    alignments ([inputs]) and code its addresses ([TimerLayout], [BootLayout]; Layout ties those
    of the heap and of .bss to the linker script); interrupt handlers other than the timer's are
    functions by address ([IrqHandlers]), and timer callbacks work on a state of their own
    ([Callbacks]). The boot assumes statically allocated objects as the C source declares them
    ([powered_on], [loaded]). The function run_once is given is any stores to its data and any
    result.

    * What is not modelled

    - PHDRS of linker.lds and sections it does not name; the stack's depth: C code has no stack
      of its own here, so that 32 KiB are enough is not shown.
    - Constants that no code uses: fields of registers in gicd_regs.h, gicr_regs.h and icc.h.
    - Memory barriers beyond their place in the traces and instruction lists, except smp_wmb in
      Once; loads out of order; store buffers under the lock words and the counters, whose
      exclusive accesses act on memory.
    - Alignment, outside the [uint64_t] accesses of memcpy and memset: the heap's headers, aligned
      when the arena is, and the frame pointers that the backtrace follows.
    - SAVE_CPU_CONTEXT of vcpu.h, a macro nothing uses and no assembler accepts (its str sp has
      no encoding), and restore_cpu_context, which is declared and defined nowhere.
    - Interrupts between the accesses of code other than start_timer, malloc and free: the
      initialisation of a new timer, printf. The exception entry masks interrupts, so that el2_irq and the
      callbacks it runs are not interrupted. The trees of Preempt keep the order of the C source;
      a compiler may reorder plain accesses.
    - In Boot, printed text is recorded where printf calls putchar; that the console carries it to
      the UART is proved in Console for the same putchar, and interrupts between the statements
      of platform_init are left out.

    * Plan

    Done: all C files with code, exception.S, start.S and linker.lds. Left out for now: printf of
    Boot through the console of the same board (both halves are proved, over the same putchar),
    and interrupts between the accesses of printf and while platform_init still runs. *)
From Stdlib Require Import ZArith Lia Btauto.
From stdpp Require Import base gmap list strings.

Open Scope Z_scope.

Create HintDb zmem.

(** * Machine integers

    A C integer of width [w] is a [Z] in range, and every operation that can leave
    the range is followed by the conversion C performs. *)

Definition wrap (w x : Z) : Z := x mod 2 ^ w.

Abbreviation u8 := (wrap 8) (only parsing).
Abbreviation u16 := (wrap 16) (only parsing).
Abbreviation u32 := (wrap 32) (only parsing).
Abbreviation u64 := (wrap 64) (only parsing).

(** Two's complement reading of the low [w] bits. *)
Definition swrap (w x : Z) : Z := (x + 2 ^ (w - 1)) mod 2 ^ w - 2 ^ (w - 1).

(** Bitwise complement of a [w]-bit unsigned integer. *)
Definition bnot (w x : Z) : Z := wrap w (Z.lnot x).

(** C truth of an integer. *)
Definition truth (x : Z) : bool := negb (x =? 0).

Definition bool_Z (b : bool) : Z := if b then 1 else 0.

Lemma wrap_range w x : 0 <= w -> 0 <= wrap w x < 2 ^ w.
Proof. intros; apply Z.mod_pos_bound, Z.pow_pos_nonneg; lia. Qed.

Lemma wrap_small w x : 0 <= x < 2 ^ w -> wrap w x = x.
Proof. apply Z.mod_small. Qed.

Lemma wrap_wrap w x : wrap w (wrap w x) = wrap w x.
Proof. apply Zmod_mod. Qed.

Lemma wrap_land w x : 0 <= w -> wrap w x = Z.land x (Z.ones w).
Proof. intros; symmetry; by apply Z.land_ones. Qed.

Lemma swrap_small w x : 0 < w -> - 2 ^ (w - 1) <= x < 2 ^ (w - 1) -> swrap w x = x.
Proof.
  intros Hw Hx. unfold swrap.
  assert (2 ^ w = 2 * 2 ^ (w - 1)).
  { rewrite <- Z.pow_succ_r by lia. f_equal; lia. }
  rewrite Z.mod_small; lia.
Qed.

Lemma truth_true x : truth x = true <-> x <> 0.
Proof. unfold truth; destruct (Z.eqb_spec x 0); simpl; split; congruence. Qed.

(** * Bit-level reasoning *)

Lemma wrap_testbit w x i :
  0 <= w -> 0 <= i -> Z.testbit (wrap w x) i = (i <? w) && Z.testbit x i.
Proof.
  intros Hw Hi. unfold wrap. destruct (Z.ltb_spec i w); simpl.
  - by rewrite Z.mod_pow2_bits_low.
  - by rewrite Z.mod_pow2_bits_high by lia.
Qed.

Lemma bnot_testbit w x i :
  0 <= w -> 0 <= i -> Z.testbit (bnot w x) i = (i <? w) && negb (Z.testbit x i).
Proof. intros. unfold bnot. rewrite wrap_testbit by done. by rewrite Z.lnot_spec. Qed.

Lemma testbit_high w x i :
  0 <= x < 2 ^ w -> w <= i -> Z.testbit x i = false.
Proof.
  intros Hx Hi. destruct (Z.ltb_spec i 0); [by rewrite Z.testbit_neg_r|].
  rewrite <- (Z.mod_small x (2 ^ w)) by done.
  destruct (Z.ltb_spec w 0).
  { rewrite Z.pow_neg_r in Hx by done. lia. }
  by rewrite Z.mod_pow2_bits_high by lia.
Qed.

Lemma testbit_shiftl x n i :
  0 <= i -> Z.testbit (Z.shiftl x n) i = Z.testbit x (i - n).
Proof. apply Z.shiftl_spec. Qed.

Lemma ones_testbit n i :
  0 <= n -> 0 <= i -> Z.testbit (Z.ones n) i = (i <? n).
Proof.
  intros. destruct (Z.ltb_spec i n).
  - by rewrite Z.ones_spec_low by lia.
  - by rewrite Z.ones_spec_high by lia.
Qed.

(** Equality of two integers by their bits of non-negative index. *)
Ltac bit_ext i Hi := apply Z.bits_inj'; intros i Hi.

Lemma land_mod_pow2 x n : 0 <= n -> Z.land x (2 ^ n - 1) = x mod 2 ^ n.
Proof.
  intros. rewrite <- Z.land_ones by done. f_equal. rewrite Z.ones_equiv. lia.
Qed.

(** [x & ~(2^n - 1)] on [w] bits rounds down to a multiple of [2^n]. *)
Lemma land_bnot_round w n x :
  0 <= n <= w -> 0 <= x < 2 ^ w ->
  Z.land x (bnot w (2 ^ n - 1)) = 2 ^ n * (x / 2 ^ n).
Proof.
  intros Hn Hx. replace (2 ^ n - 1) with (Z.ones n) by (rewrite Z.ones_equiv; lia).
  rewrite Z.mul_comm, <- Z.shiftl_mul_pow2, <- Z.shiftr_div_pow2 by lia.
  bit_ext i Hi.
  rewrite Z.land_spec, bnot_testbit, ones_testbit, Z.shiftl_spec by lia.
  destruct (Z.ltb_spec i w), (Z.ltb_spec i n); simpl.
  - rewrite andb_false_r, Z.testbit_neg_r by lia. done.
  - rewrite andb_true_r, Z.shiftr_spec by lia. f_equal; lia.
  - lia.
  - rewrite andb_false_r, Z.shiftr_spec by lia.
    rewrite (testbit_high w); [done | lia | lia].
Qed.

(** The test of one bit, [v & (1 << k)]. *)
Lemma truth_bit v k : 0 <= k -> truth (Z.land v (Z.shiftl 1 k)) = Z.testbit v k.
Proof.
  intros Hk. rewrite Z.shiftl_1_l. destruct (Z.testbit v k) eqn:Ht.
  - apply truth_true. intros E. assert (Hb : Z.testbit (Z.land v (2 ^ k)) k = true)
      by (by rewrite Z.land_spec, Ht, Z.pow2_bits_true). by rewrite E, Z.bits_0 in Hb.
  - unfold truth. apply negb_false_iff, Z.eqb_eq. bit_ext i Hi.
    rewrite Z.land_spec, Z.bits_0. destruct (Z.eq_dec k i) as [->|Hne]; [by rewrite Ht|].
    by rewrite (Z.pow2_bits_false k), andb_false_r by lia.
Qed.

(** Masking keeps a value within its width. *)
Lemma wrap_land_small w v m : 0 <= w -> 0 <= v < 2 ^ w -> wrap w (Z.land v m) = Z.land v m.
Proof.
  intros Hw Hv. bit_ext i Hi. rewrite wrap_testbit, Z.land_spec by done.
  destruct (Z.ltb_spec i w); [done|]. by rewrite (testbit_high w v) by lia.
Qed.

(** * Computations that may stop

    A call either returns a value in a new state or never returns: [Panic] is the
    program's own [panic], [Fault] an access to an unmapped address, [Spin] a busy
    wait or list walk that used up the bound a model puts on it, [Hang] the endless
    [wfi] loop the program enters on purpose, [Undef] an operation C leaves undefined,
    [Trap] an instruction the processor refuses with an exception: an [msr] to a read-only
    register, an unaligned access while the MMU is off. *)

Inductive stop :=
  | Panic (why : string)
  | Fault (addr : Z)
  | Spin
  | Hang
  | Undef (what : string)
  | Trap (what : string).

Inductive res (S A : Type) :=
  | Ok (a : A) (s : S)
  | Stop (w : stop) (s : S).
Arguments Ok {S A} a s.
Arguments Stop {S A} w s.

Definition M (S A : Type) : Type := S -> res S A.

#[global] Instance M_ret {S} : MRet (M S) := fun A a s => Ok a s.
#[global] Instance M_bind {S} : MBind (M S) := fun A B k m s =>
  match m s with
  | Ok a s' => k a s'
  | Stop w s' => Stop w s'
  end.

Definition stop_with {S A} (w : stop) : M S A := fun s => Stop w s.
Definition panic {S A} (why : string) : M S A := stop_with (Panic why).
Definition get {S} : M S S := fun s => Ok s s.
Definition put {S} (s' : S) : M S unit := fun _ => Ok tt s'.
Definition gets {S A} (f : S -> A) : M S A := fun s => Ok (f s) s.
Definition modify {S} (f : S -> S) : M S unit := fun s => Ok tt (f s).

(** Running a computation on one component of a larger state. *)
Definition zoom {S T A} (view : T -> S) (upd : T -> S -> T) (m : M S A) : M T A := fun t =>
  match m (view t) with
  | Ok a s => Ok a (upd t s)
  | Stop w s => Stop w (upd t s)
  end.

Definition when {S} (b : bool) (m : M S unit) : M S unit := if b then m else mret tt.

Lemma bind_gets {S A B} (f : S -> A) (k : A -> M S B) s : (gets f ≫= k) s = k (f s) s.
Proof. reflexivity. Qed.

Lemma bind_modify {S B} (f : S -> S) (k : unit -> M S B) s : (modify f ≫= k) s = k tt (f s).
Proof. reflexivity. Qed.

Lemma bind_ret {S A B} (a : A) (k : A -> M S B) s : (mret a ≫= k) s = k a s.
Proof. reflexivity. Qed.

Lemma bind_Ok {S A B} (m : M S A) (k : A -> M S B) s a s' :
  m s = Ok a s' -> (m ≫= k) s = k a s'.
Proof. intros H. unfold mbind, M_bind. by rewrite H. Qed.

Lemma bind_Stop {S A B} (m : M S A) (k : A -> M S B) s w s' :
  m s = Stop w s' -> (m ≫= k) s = Stop w s'.
Proof. intros H. unfold mbind, M_bind. by rewrite H. Qed.

Lemma bind_assoc {S A B C} (m : M S A) (f : A -> M S B) (g : B -> M S C) s :
  ((m ≫= f) ≫= g) s = (m ≫= (fun a => f a ≫= g)) s.
Proof. unfold mbind, M_bind. by destruct (m s). Qed.

Lemma bind_inv_Ok {S A B} (m : M S A) (k : A -> M S B) s b s' :
  (m ≫= k) s = Ok b s' -> exists a s1, m s = Ok a s1 /\ k a s1 = Ok b s'.
Proof. unfold mbind, M_bind. destruct (m s); naive_solver. Qed.

Lemma Ok_inj {S A} (a b : A) (s t : S) : Ok a s = Ok b t -> a = b /\ s = t.
Proof. intros H. by injection H. Qed.

(** Concrete runs: the value a call returns and the state it leaves. *)
Definition returned {S A} (m : M S A) (s : S) : option A :=
  match m s with Ok a _ => Some a | Stop _ _ => None end.

Definition state_after {S A} (m : M S A) (s : S) : S :=
  match m s with Ok _ s' => s' | Stop _ s' => s' end.

Lemma returned_Ok {S A} (m : M S A) s a : returned m s = Some a -> m s = Ok a (state_after m s).
Proof. unfold returned, state_after. destruct (m s); congruence. Qed.

(** [mstep H] runs the first call of a sequence with the equation [H] for it. *)
Ltac mstep H := rewrite (bind_Ok _ _ _ _ _ H); cbn beta.

(** * Error numbers (include/utils/errno.h) *)

Definition ENOENT : Z := 2.
Definition EINVAL : Z := 22.
Definition ENOTSUP : Z := 95.
(** POSIX's [ENODEV]: console.c takes it from the C library's errno.h. *)
Definition ENODEV : Z := 19.
