(* ===== verification/Mem.v ===== *)
(** Byte-addressed memory: a finite map from addresses to bytes, with the little-endian
    loads and stores the compiled C performs.  An access to an unmapped address stops
    the run with [Fault]. *)
From Stdlib Require Import ZArith Lia.
From stdpp Require Import base gmap list strings.
From Stdlib Require Import Strings.Byte.
From S2P Require Import Prelude.

Definition byte_to_Z (b : byte) : Z := Z.of_N (Byte.to_N b).

Definition byte_of_Z (z : Z) : byte :=
  match Byte.of_N (Z.to_N (z mod 256)) with
  | Some b => b
  | None => x00
  end.

Lemma byte_to_Z_range b : 0 <= byte_to_Z b < 256.
Proof. unfold byte_to_Z. pose proof (Byte.to_N_bounded b). lia. Qed.

Lemma byte_to_of_Z z : byte_to_Z (byte_of_Z z) = z mod 256.
Proof.
  unfold byte_to_Z, byte_of_Z. pose proof (Z.mod_pos_bound z 256 ltac:(lia)).
  destruct (Byte.of_N (Z.to_N (z mod 256))) eqn:E.
  - apply Byte.to_of_N in E. rewrite E. lia.
  - apply Byte.of_N_None_iff in E. lia.
Qed.

Lemma byte_of_to_Z b : byte_of_Z (byte_to_Z b) = b.
Proof.
  unfold byte_of_Z. rewrite Z.mod_small by apply byte_to_Z_range.
  unfold byte_to_Z. by rewrite N2Z.id, Byte.of_to_N.
Qed.

Lemma byte_to_Z_inj a b : byte_to_Z a = byte_to_Z b -> a = b.
Proof. intros H. rewrite <- (byte_of_to_Z a), H. apply byte_of_to_Z. Qed.

#[global] Instance byte_eq_dec : EqDecision byte := Byte.byte_eq_dec.

Abbreviation mem := (gmap Z byte).

(** [n] bytes from address [a], least significant first. *)
Fixpoint mload (n : nat) (a : Z) (m : mem) : option Z :=
  match n with
  | O => Some 0
  | S n' => b ← m !! a; r ← mload n' (a + 1) m; Some (byte_to_Z b + 256 * r)
  end.

Fixpoint mstore (n : nat) (a v : Z) (m : mem) : option mem :=
  match n with
  | O => Some m
  | S n' => _ ← m !! a; mstore n' (a + 1) (v / 256) (<[a := byte_of_Z v]> m)
  end.

Definition load {S} (view : S -> mem) (n : nat) (a : Z) : M S Z := fun s =>
  match mload n a (view s) with
  | Some v => Ok v s
  | None => Stop (Fault a) s
  end.

Definition store {S} (view : S -> mem) (upd : S -> mem -> S) (n : nat) (a v : Z) : M S unit :=
  fun s => match mstore n a v (view s) with
           | Some m => Ok tt (upd s m)
           | None => Stop (Fault a) s
           end.

(** Loads and stores of a computation whose whole state is the memory. *)
Abbreviation ld n a := (load id n a).
Abbreviation st n a v := (store id (fun _ m => m) n a v).

(** * Ranges of addresses *)

Definition mapped (m : mem) (a n : Z) : Prop := forall i, a <= i < a + n -> is_Some (m !! i).

(** [m'] differs from [m] only inside [[a, a+n)]. *)
Definition same_outside (m m' : mem) (a n : Z) : Prop :=
  forall i, ~ (a <= i < a + n) -> m' !! i = m !! i.

Definition same_dom (m m' : mem) : Prop := forall i, is_Some (m !! i) <-> is_Some (m' !! i).

#[global] Instance same_dom_equiv : Equivalence same_dom.
Proof. split; [intros ? ?|intros ? ? ? ?|intros ? ? ? ? ? ?]; unfold same_dom in *; naive_solver. Qed.

Lemma same_dom_insert m a b : is_Some (m !! a) -> same_dom m (<[a := b]> m).
Proof.
  intros Ha i. destruct (decide (a = i)) as [->|].
  - rewrite lookup_insert_eq. naive_solver.
  - by rewrite lookup_insert_ne.
Qed.

Lemma mapped_same_dom m m' a n : same_dom m m' -> mapped m a n -> mapped m' a n.
Proof. intros Hd H i Hi. by apply Hd, H. Qed.

Lemma mapped_sub m a n b k : mapped m a n -> a <= b -> b + k <= a + n -> mapped m b k.
Proof. intros H ? ? i Hi. apply H. lia. Qed.

Lemma mload_ext n a m m' :
  (forall i, a <= i < a + Z.of_nat n -> m !! i = m' !! i) -> mload n a m = mload n a m'.
Proof.
  revert a. induction n as [|n IH]; intros a H; [done|]. cbn [mload].
  rewrite <- (H a) by lia. destruct (m !! a); [|done]. cbn.
  rewrite (IH (a + 1)); [done|]. intros i Hi. apply H. lia.
Qed.

Lemma mload_same_outside n b m m' a k :
  same_outside m m' a k -> b + Z.of_nat n <= a \/ a + k <= b -> mload n b m' = mload n b m.
Proof. intros Hs Hd. apply mload_ext. intros i Hi. apply Hs. lia. Qed.

Lemma mload_range n a m v : mload n a m = Some v -> 0 <= v < 256 ^ Z.of_nat n.
Proof.
  revert a v. induction n as [|n IH]; intros a v; cbn [mload].
  - intros [= <-]. cbn. lia.
  - destruct (m !! a) as [b|]; [|done]. cbn. destruct (mload n (a + 1) m) as [r|] eqn:E; [|done].
    cbn. intros [= <-]. apply IH in E. pose proof (byte_to_Z_range b).
    rewrite Nat2Z.inj_succ, Z.pow_succ_r by lia. lia.
Qed.

Lemma mload_mapped n a m : mapped m a (Z.of_nat n) -> is_Some (mload n a m).
Proof.
  revert a. induction n as [|n IH]; intros a H; cbn [mload]; [by eexists|].
  destruct (H a) as [b ->]; [lia|]. cbn.
  destruct (IH (a + 1)) as [r ->]; [|by eexists].
  eapply mapped_sub; [exact H|lia|lia].
Qed.

Lemma mload_Some_mapped n a m v : mload n a m = Some v -> mapped m a (Z.of_nat n).
Proof.
  revert a v. induction n as [|n IH]; intros a v; cbn [mload]; [intros _ i Hi; lia|].
  destruct (m !! a) as [b|] eqn:Eb; [|done]. cbn.
  destruct (mload n (a + 1) m) as [r|] eqn:E; [|done]. intros _ i Hi.
  destruct (decide (i = a)) as [->|]; [by rewrite Eb|]. eapply IH; [exact E|lia].
Qed.

Lemma mload_split n k a m x y :
  mload n a m = Some x -> mload k (a + Z.of_nat n) m = Some y ->
  mload (n + k) a m = Some (x + 256 ^ Z.of_nat n * y).
Proof.
  revert a x. induction n as [|n IH]; intros a x; cbn [mload Nat.add].
  - intros [= <-] H. rewrite Z.add_0_r in H. rewrite H. f_equal. lia.
  - destruct (m !! a) as [b|]; [|done]. cbn.
    destruct (mload n (a + 1) m) as [r|] eqn:E; [|done]. cbn. intros [= <-] H.
    erewrite (IH (a + 1)); [cbn|exact E|].
    + f_equal. rewrite Nat2Z.inj_succ, Z.pow_succ_r by lia. ring.
    + rewrite <- H. f_equal. lia.
Qed.

(** * What a store does *)

Lemma mstore_spec n a v m m' :
  mstore n a v m = Some m' ->
  mload n a m' = Some (v mod 256 ^ Z.of_nat n) /\ same_outside m m' a (Z.of_nat n) /\
  same_dom m m'.
Proof.
  revert a v m m'. induction n as [|n IH]; intros a v m m'; cbn [mstore mload].
  - intros [= <-]. rewrite Z.mod_1_r. done.
  - destruct (m !! a) as [b|] eqn:Eb; [|done]. cbn. intros H.
    apply IH in H as (Hl & Ho & Hd). split_and!.
    + rewrite (Ho a) by lia. rewrite lookup_insert_eq. cbn. rewrite Hl. cbn. f_equal.
      rewrite byte_to_of_Z, Nat2Z.inj_succ, Z.pow_succ_r by lia.
      rewrite Z.rem_mul_r; [done | lia | apply Z.pow_pos_nonneg; lia].
    + intros i Hi. rewrite (Ho i) by lia. apply lookup_insert_ne. lia.
    + etrans; [|exact Hd]. apply same_dom_insert. by rewrite Eb.
Qed.

Lemma mstore_mapped n a v m : mapped m a (Z.of_nat n) -> is_Some (mstore n a v m).
Proof.
  revert a v m. induction n as [|n IH]; intros a v m H; cbn [mstore]; [by eexists|].
  destruct (H a) as [b Hb]; [lia|]. rewrite Hb. cbn. apply IH.
  intros i Hi. apply same_dom_insert; [by rewrite Hb|]. apply H. lia.
Qed.

(** The form in which proofs use it: a store to a mapped range succeeds. *)
Lemma mstore_ok n a v m :
  mapped m a (Z.of_nat n) ->
  exists m', mstore n a v m = Some m' /\ mload n a m' = Some (v mod 256 ^ Z.of_nat n) /\
             same_outside m m' a (Z.of_nat n) /\ same_dom m m'.
Proof.
  intros H. destruct (mstore_mapped n a v m H) as [m' E]. exists m'.
  split; [done|]. by apply mstore_spec.
Qed.

Lemma load_Some {S} (view : S -> mem) n a s v :
  mload n a (view s) = Some v -> load view n a s = Ok v s.
Proof. intros H. unfold load. by rewrite H. Qed.

Lemma store_Some {S} (view : S -> mem) upd n a v s m' :
  mstore n a v (view s) = Some m' -> store view upd n a v s = Ok tt (upd s m').
Proof. intros H. unfold store. by rewrite H. Qed.

(** Composition of frames. *)
Lemma same_outside_weaken m m' a n b k :
  same_outside m m' a n -> b <= a -> a + n <= b + k -> same_outside m m' b k.
Proof. intros H ? ? i Hi. apply H. lia. Qed.

Lemma same_outside_trans m1 m2 m3 a n :
  same_outside m1 m2 a n -> same_outside m2 m3 a n -> same_outside m1 m3 a n.
Proof. intros H1 H2 i Hi. rewrite (H2 i Hi). by apply H1. Qed.

Lemma same_outside_refl m a n : same_outside m m a n.
Proof. by intros i _. Qed.

(** A memory of [n] zero bytes from address [a], for concrete runs. *)
Fixpoint zeros (a : Z) (n : nat) : mem :=
  match n with
  | O => ∅
  | S n' => <[a := x00]> (zeros (a + 1) n')
  end.

Lemma zeros_mapped a n : mapped (zeros a n) a (Z.of_nat n).
Proof.
  revert a. induction n as [|n IH]; intros a i Hi; [lia|]. cbn [zeros].
  destruct (decide (a = i)) as [->|]; [by rewrite lookup_insert_eq|].
  rewrite lookup_insert_ne by done. apply IH. lia.
Qed.

#[export] Hint Resolve same_outside_refl load_Some store_Some zeros_mapped : zmem.

#[global] Arguments mload : simpl never.
#[global] Arguments mstore : simpl never.

Lemma mload_S n a m :
  mload (S n) a m = (b ← m !! a; r ← mload n (a + 1) m; Some (byte_to_Z b + 256 * r)).
Proof. reflexivity. Qed.

Lemma mstore_S n a v m :
  mstore (S n) a v m = (_ ← m !! a; mstore n (a + 1) (v / 256) (<[a := byte_of_Z v]> m)).
Proof. reflexivity. Qed.
