(* ===== verification/CList.v ===== *)
(** The circular doubly linked lists of include/list/list.h.

    A [struct list_head] is an object of a store [links] keyed by its address; reading
    or writing a field of an address without such an object (NULL among them) faults.
    [clist L h xs] says that the list with head [h] holds the nodes [xs], in order. *)
From Stdlib Require Import ZArith Lia.
From stdpp Require Import base gmap list.
From S2P Require Import Prelude.

Open Scope Z_scope.

(** [prev] and [next] of include/list/list.h. *)
Record list_head := { prev : Z; next : Z }.

Abbreviation links := (gmap Z list_head).

Definition NULL : Z := 0.

(** Field access of the object at [p]. *)
Definition get_node (p : Z) : M links list_head := fun L =>
  match L !! p with Some n => Ok n L | None => Stop (Fault p) L end.
Definition list_next (p : Z) : M links Z := n ← get_node p; mret (next n).
Definition list_prev (p : Z) : M links Z := n ← get_node p; mret (prev n).
Definition set_next (p v : Z) : M links unit :=
  n ← get_node p; modify (<[p := {| prev := prev n; next := v |}]>).
Definition set_prev (p v : Z) : M links unit :=
  n ← get_node p; modify (<[p := {| prev := v; next := next n |}]>).

Definition list_init (list : Z) : M links unit :=
  set_next list list ;; set_prev list list.

Definition __list_add (node prev next : Z) : M links unit :=
  set_prev next node ;; set_next node next ;; set_prev node prev ;; set_next prev node.

Definition list_add (node head : Z) : M links unit :=
  n ← list_next head; __list_add node head n.

Definition list_add_tail (node head : Z) : M links unit :=
  p ← list_prev head; __list_add node p head.

Definition __list_del (prev next : Z) : M links unit :=
  set_prev next prev ;; set_next prev next.

Definition list_del (node : Z) : M links unit :=
  p ← list_prev node; n ← list_next node;
  __list_del p n ;; set_next node NULL ;; set_prev node NULL.

(** [list_entry ptr type member]: the address of the enclosing structure. *)
Definition list_entry (ptr offset : Z) : Z := ptr - offset.

Section Loops.
Context {S : Type} (view : S -> links) (upd : S -> links -> S).

(** [list_for_each_safe]: [n] is read before the body runs. [fuel] bounds the number of
    nodes visited; a walk that exceeds it is reported as [Spin]. *)
Fixpoint safe_loop (fuel : nat) (pos n head : Z) (body : Z -> M S unit) : M S unit :=
  if pos =? head then mret tt
  else match fuel with
       | O => stop_with Spin
       | Datatypes.S fuel' =>
           body pos ;;
           n' ← zoom view upd (list_next n);
           safe_loop fuel' n n' head body
       end.

Definition list_for_each_safe (fuel : nat) (head : Z) (body : Z -> M S unit) : M S unit :=
  pos ← zoom view upd (list_next head);
  n ← zoom view upd (list_next pos);
  safe_loop fuel pos n head body.

Fixpoint each_loop (fuel : nat) (pos head : Z) (body : Z -> M S unit) : M S unit :=
  if pos =? head then mret tt
  else match fuel with
       | O => stop_with Spin
       | Datatypes.S fuel' =>
           body pos ;;
           n ← zoom view upd (list_next pos);
           each_loop fuel' n head body
       end.

Definition list_for_each (fuel : nat) (head : Z) (body : Z -> M S unit) : M S unit :=
  pos ← zoom view upd (list_next head);
  each_loop fuel pos head body.

(** The same loops over the structures that hold the nodes, [offset] being the member's. *)
Definition list_next_entry (pos offset : Z) : M links Z := n ← list_next (pos + offset); mret (list_entry n offset).
Definition list_prev_entry (pos offset : Z) : M links Z := p ← list_prev (pos + offset); mret (list_entry p offset).

Fixpoint entry_loop (fuel : nat) (pos head offset : Z) (body : Z -> M S unit) : M S unit :=
  if pos + offset =? head then mret tt
  else match fuel with
       | O => stop_with Spin
       | Datatypes.S fuel' =>
           body pos ;;
           n ← zoom view upd (list_next_entry pos offset);
           entry_loop fuel' n head offset body
       end.

Definition list_for_each_entry (fuel : nat) (head offset : Z) (body : Z -> M S unit) : M S unit :=
  n ← zoom view upd (list_next head);
  entry_loop fuel (list_entry n offset) head offset body.

Fixpoint entry_safe_loop (fuel : nat) (pos n head offset : Z) (body : Z -> M S unit) : M S unit :=
  if pos + offset =? head then mret tt
  else match fuel with
       | O => stop_with Spin
       | Datatypes.S fuel' =>
           body pos ;;
           n' ← zoom view upd (list_next_entry n offset);
           entry_safe_loop fuel' n n' head offset body
       end.

Definition list_for_each_entry_safe (fuel : nat) (head offset : Z) (body : Z -> M S unit) : M S unit :=
  p ← zoom view upd (list_next head);
  n ← zoom view upd (list_next_entry (list_entry p offset) offset);
  entry_safe_loop fuel (list_entry p offset) n head offset body.
End Loops.

(** * The list held by a head *)

Definition nxt (L : links) (a : Z) : option Z := next <$> L !! a.
Definition prv (L : links) (a : Z) : option Z := prev <$> L !! a.

(** The nodes [xs] between [a] and [b], linked in both directions. *)
Fixpoint chain (L : links) (a : Z) (xs : list Z) (b : Z) : Prop :=
  match xs with
  | [] => nxt L a = Some b /\ prv L b = Some a
  | x :: xs' => nxt L a = Some x /\ prv L x = Some a /\ chain L x xs' b
  end.

Definition clist (L : links) (h : Z) (xs : list Z) : Prop :=
  NoDup (h :: xs) /\ chain L h xs h.

Lemma chain_app L a xs x ys b :
  chain L a (xs ++ x :: ys) b <-> chain L a xs x /\ chain L x ys b.
Proof. revert a. induction xs as [|y xs IH]; intros a; cbn; [tauto|]. rewrite IH. tauto. Qed.

Lemma chain_ext L L' a xs b :
  (forall x, x ∈ a :: xs -> nxt L' x = nxt L x) ->
  (forall x, x ∈ b :: xs -> prv L' x = prv L x) ->
  chain L a xs b -> chain L' a xs b.
Proof.
  revert a. induction xs as [|y xs IH]; intros a Hn Hp; cbn.
  - intros [? ?]. rewrite Hn, Hp by set_solver. done.
  - intros (? & ? & ?). rewrite Hn, Hp by set_solver. split_and!; [done..|].
    apply IH; [intros; apply Hn; set_solver|intros; apply Hp; set_solver|done].
Qed.

(** Operations that touch no node of a list leave the list alone. *)
Lemma clist_ext L L' h xs :
  (forall x, x ∈ h :: xs -> L' !! x = L !! x) -> clist L h xs -> clist L' h xs.
Proof.
  intros H [? ?]. split; [done|].
  eapply chain_ext; [..|done]; intros x Hx; unfold nxt, prv; by rewrite H.
Qed.

Lemma chain_dom L a xs b x : chain L a xs b -> x ∈ a :: b :: xs -> is_Some (L !! x).
Proof.
  revert a. induction xs as [|y xs IH]; intros a; cbn.
  - unfold nxt, prv. intros [Ha Hb] Hx.
    assert (x = a \/ x = b) as [-> | ->] by set_solver;
      [destruct (L !! a)|destruct (L !! b)]; by eauto.
  - intros (Ha & Hy & Hc) Hx. destruct (decide (x = a)) as [->|].
    + unfold nxt in Ha. destruct (L !! a); by eauto.
    + eapply IH; [exact Hc|]. set_solver.
Qed.

Lemma clist_dom L h xs x : clist L h xs -> x ∈ h :: xs -> is_Some (L !! x).
Proof. intros [_ Hc] ?. eapply chain_dom; [exact Hc|]. set_solver. Qed.

Lemma clist_nxt_head L h xs : clist L h xs -> nxt L h = Some (hd h xs).
Proof. intros [_ Hc]. destruct xs; cbn in *; tauto. Qed.

Lemma clist_prv_head L h xs : clist L h xs -> prv L h = Some (List.last xs h).
Proof.
  intros [_ Hc]. destruct xs as [|x xs _] using rev_ind; [cbn in *; tauto|].
  rewrite chain_app in Hc. rewrite last_last. cbn in Hc. tauto.
Qed.

Lemma clist_unique L h xs ys : clist L h xs -> clist L h ys -> xs = ys.
Proof.
  intros [Hx Hcx] [Hy Hcy]. apply NoDup_cons in Hx as [Hhx _]. apply NoDup_cons in Hy as [Hhy _].
  revert Hcx Hcy Hhx Hhy. generalize h at 1 3. revert ys.
  induction xs as [|x xs IH]; intros [|y ys] a; cbn; try done.
  - intros [? _] (? & _) _ ?. set_solver.
  - intros (? & _) [? _] ? _. set_solver.
  - intros (? & _ & ?) (? & _ & ?) ? ?. assert (x = y) as <- by congruence.
    f_equal. eapply IH; [done|done|set_solver|set_solver].
Qed.

(** * What the operations do *)

(** The objects of [L'] are those of [L], and [L'] agrees with [L] outside [touched]. *)
Definition frame (L L' : links) (touched : list Z) : Prop :=
  (forall a, is_Some (L' !! a) <-> is_Some (L !! a)) /\
  (forall a, a ∉ touched -> L' !! a = L !! a).

Lemma frame_trans L1 L2 L3 xs ys zs :
  frame L1 L2 xs -> frame L2 L3 ys -> xs ⊆ zs -> ys ⊆ zs -> frame L1 L3 zs.
Proof.
  intros [D1 F1] [D2 F2] Hx Hy. split; [intros a; by rewrite D2, D1|].
  intros a Ha. rewrite F2, F1 by set_solver. done.
Qed.

Lemma clist_frame L L' h xs ts :
  frame L L' ts -> (forall x, x ∈ ts -> x ∉ h :: xs) -> clist L h xs -> clist L' h xs.
Proof. intros [_ F] H. apply clist_ext. intros x Hx. apply F. intros ?. by eapply H. Qed.

Lemma set_next_run p v L :
  is_Some (L !! p) ->
  exists L', set_next p v L = Ok tt L' /\ frame L L' [p] /\
    (forall a, nxt L' a = if decide (a = p) then Some v else nxt L a) /\
    (forall a, prv L' a = prv L a).
Proof.
  intros [n Hn]. eexists. split.
  { unfold set_next, get_node, mbind, M_bind, modify. by rewrite Hn. }
  unfold nxt, prv, frame. split_and!.
  - intros a. destruct (decide (a = p)) as [->|].
    + rewrite lookup_insert_eq, Hn. split; by eauto.
    + by rewrite lookup_insert_ne.
  - intros a Ha. apply lookup_insert_ne. set_solver.
  - intros a. case_decide; subst; [by rewrite lookup_insert_eq|by rewrite lookup_insert_ne].
  - intros a. destruct (decide (a = p)) as [->|].
    + by rewrite lookup_insert_eq, Hn.
    + by rewrite lookup_insert_ne.
Qed.

Lemma set_prev_run p v L :
  is_Some (L !! p) ->
  exists L', set_prev p v L = Ok tt L' /\ frame L L' [p] /\
    (forall a, nxt L' a = nxt L a) /\
    (forall a, prv L' a = if decide (a = p) then Some v else prv L a).
Proof.
  intros [n Hn]. eexists. split.
  { unfold set_prev, get_node, mbind, M_bind, modify. by rewrite Hn. }
  unfold nxt, prv, frame. split_and!.
  - intros a. destruct (decide (a = p)) as [->|].
    + rewrite lookup_insert_eq, Hn. split; by eauto.
    + by rewrite lookup_insert_ne.
  - intros a Ha. apply lookup_insert_ne. set_solver.
  - intros a. destruct (decide (a = p)) as [->|].
    + by rewrite lookup_insert_eq, Hn.
    + by rewrite lookup_insert_ne.
  - intros a. case_decide; subst; [by rewrite lookup_insert_eq|by rewrite lookup_insert_ne].
Qed.

Lemma list_next_run p L n : nxt L p = Some n -> list_next p L = Ok n L.
Proof.
  unfold nxt, list_next, get_node, mbind, M_bind. destruct (L !! p); [|done].
  cbn. by intros [= ->].
Qed.

Lemma list_prev_run p L n : prv L p = Some n -> list_prev p L = Ok n L.
Proof.
  unfold prv, list_prev, get_node, mbind, M_bind. destruct (L !! p); [|done].
  cbn. by intros [= ->].
Qed.

Lemma links_fault p L : L !! p = None ->
  list_next p L = Stop (Fault p) L /\ list_prev p L = Stop (Fault p) L /\
  forall v, set_next p v L = Stop (Fault p) L /\ set_prev p v L = Stop (Fault p) L.
Proof.
  intros H. unfold list_next, list_prev, set_next, set_prev, get_node, mbind, M_bind.
  by rewrite H.
Qed.

(** Runs the next field write of a sequence, naming the state after it. *)
Ltac link_step lem L' Hf Hn Hp :=
  let E := fresh "E" in
  edestruct lem as (L' & E & Hf & Hn & Hp); [|mstep E; clear E].

Lemma frame_dom L L' ts a : frame L L' ts -> is_Some (L !! a) -> is_Some (L' !! a).
Proof. intros [D _]. by rewrite D. Qed.

#[local] Hint Resolve frame_dom : core.

Lemma list_add_between node p n L :
  is_Some (L !! node) -> is_Some (L !! p) -> is_Some (L !! n) ->
  exists L', __list_add node p n L = Ok tt L' /\ frame L L' [node; p; n] /\
    (forall a, nxt L' a = if decide (a = p) then Some node
                          else if decide (a = node) then Some n else nxt L a) /\
    (forall a, prv L' a = if decide (a = node) then Some p
                          else if decide (a = n) then Some node else prv L a).
Proof.
  intros Hnode Hp Hn. unfold __list_add.
  link_step (set_prev_run n node L) L1 F1 N1 P1; [done|].
  link_step (set_next_run node n L1) L2 F2 N2 P2; [eauto|].
  link_step (set_prev_run node p L2) L3 F3 N3 P3; [eauto|].
  edestruct (set_next_run p node L3) as (L4 & E & F4 & N4 & P4); [eauto|].
  exists L4. split; [done|]. split.
  - eapply frame_trans; [exact F1| |set_solver|done].
    eapply frame_trans; [exact F2| |set_solver|done].
    eapply frame_trans; [exact F3|exact F4|set_solver|set_solver].
  - split; intros a.
    + rewrite N4, N3, N2, N1. done.
    + rewrite P4, P3, P2, P1. done.
Qed.

Lemma list_del_run node p n L :
  prv L node = Some p -> nxt L node = Some n -> is_Some (L !! p) -> is_Some (L !! n) ->
  exists L', list_del node L = Ok tt L' /\ frame L L' [node; p; n] /\
    (forall a, nxt L' a = if decide (a = node) then Some NULL
                          else if decide (a = p) then Some n else nxt L a) /\
    (forall a, prv L' a = if decide (a = node) then Some NULL
                          else if decide (a = n) then Some p else prv L a).
Proof.
  intros Hp Hn Ip In. unfold list_del.
  assert (is_Some (L !! node)) as Inode by (unfold nxt in Hn; destruct (L !! node); by eauto).
  mstep (list_prev_run _ _ _ Hp). mstep (list_next_run _ _ _ Hn).
  unfold __list_del. rewrite bind_assoc.
  link_step (set_prev_run n p L) L1 F1 N1 P1; [done|].
  link_step (set_next_run p n L1) L2 F2 N2 P2; [eauto|].
  link_step (set_next_run node NULL L2) L3 F3 N3 P3; [eauto|].
  edestruct (set_prev_run node NULL L3) as (L4 & E & F4 & N4 & P4); [eauto|].
  exists L4. split; [done|]. split.
  - eapply frame_trans; [exact F1| |set_solver|done].
    eapply frame_trans; [exact F2| |set_solver|done].
    eapply frame_trans; [exact F3|exact F4|set_solver|set_solver].
  - split; intros a.
    + rewrite N4, N3, N2, N1. done.
    + rewrite P4, P3, P2, P1. done.
Qed.

(** Reads a link of the state after an operation at a known address. *)
Ltac nodes_apart :=
  exfalso;
  repeat match goal with
         | H : forall a, nxt _ a = _ |- _ => clear H
         | H : forall a, prv _ a = _ |- _ => clear H
         | H : chain _ _ _ _ |- _ => clear H
         | H : NoDup (_ ++ _) |- _ => rewrite NoDup_app in H; destruct H as (? & ? & ?)
         | H : NoDup (_ :: _) |- _ => rewrite NoDup_cons in H; destruct H as [? ?]
         end; set_solver.
Ltac link_at N := rewrite N; repeat case_decide; subst; try done; try nodes_apart.
Ltac link_here N P := first [done | by link_at N | by link_at P].

Lemma clist_init h L :
  is_Some (L !! h) -> exists L', list_init h L = Ok tt L' /\ frame L L' [h] /\ clist L' h [].
Proof.
  intros Hh. unfold list_init.
  link_step (set_next_run h h L) L1 F1 N1 P1; [done|].
  edestruct (set_prev_run h h L1) as (L2 & E & F2 & N2 & P2); [eauto|].
  exists L2. split; [done|]. split; [by eapply frame_trans|].
  split; [apply NoDup_singleton|]. cbn. rewrite N2, N1, P2. by repeat case_decide.
Qed.

Lemma clist_insert L L' h xs ys node p n :
  clist L h (xs ++ ys) -> node ∉ h :: xs ++ ys -> p = List.last xs h -> n = hd h ys ->
  (forall a, nxt L' a = if decide (a = p) then Some node
                        else if decide (a = node) then Some n else nxt L a) ->
  (forall a, prv L' a = if decide (a = node) then Some p
                        else if decide (a = n) then Some node else prv L a) ->
  clist L' h (xs ++ node :: ys).
Proof.
  intros [Hnd Hc] Hnode -> -> N P. split.
  { rewrite app_comm_cons, Permutation_app_comm. cbn. constructor; [set_solver|].
    by rewrite Permutation_app_comm. }
  rewrite chain_app.
  assert (chain L' h xs node /\ chain L' node ys h) as [? ?]; [|done].
  destruct ys as [|y ys]; cbn [hd] in *.
  - rewrite app_nil_r in *. destruct xs as [|x xs _] using rev_ind.
    + cbn in *. split_and!; link_here N P.
    + rewrite last_last in *. rewrite chain_app in *. destruct Hc as [Hc [Hx _]].
      cbn. split_and!; try link_here N P.
      eapply chain_ext; [..|exact Hc]; intros a Ha; [link_at N|link_at P].
  - rewrite chain_app in Hc. destruct Hc as [Hc Hy].
    assert (chain L' y ys h) as Hy'.
    { eapply chain_ext; [..|exact Hy]; intros a Ha; [link_at N|link_at P].
      destruct xs as [|x xs _] using rev_ind; try rewrite last_last in *; nodes_apart. }
    destruct xs as [|x xs _] using rev_ind; cbn.
    + split_and!; link_here N P.
    + rewrite last_last in *. rewrite chain_app in Hc |- *. destruct Hc as [Hc [Hx _]].
      cbn. split_and!; try link_here N P.
      eapply chain_ext; [..|exact Hc]; intros a Ha; [link_at N|link_at P].
Qed.

(** [list_add] puts the node first, [list_add_tail] last. *)
Lemma clist_add L h xs node :
  clist L h xs -> is_Some (L !! node) -> node ∉ h :: xs ->
  exists L', list_add node h L = Ok tt L' /\ frame L L' (node :: h :: xs) /\
             clist L' h (node :: xs).
Proof.
  intros Hc Hn Hnot. unfold list_add. mstep (list_next_run _ _ _ (clist_nxt_head _ _ _ Hc)).
  assert (hd h xs ∈ h :: xs) by (destruct xs; set_solver).
  destruct (list_add_between node h (hd h xs) L) as (L' & E & [FD F] & N & P);
    [done|eapply clist_dom; [done|set_solver]|by eapply clist_dom|].
  exists L'. split; [done|]. split; [split; [done|intros; apply F; set_solver]|].
  by eapply (clist_insert L L' h [] xs).
Qed.

Lemma clist_add_tail L h xs node :
  clist L h xs -> is_Some (L !! node) -> node ∉ h :: xs ->
  exists L', list_add_tail node h L = Ok tt L' /\ frame L L' (node :: h :: xs) /\
             clist L' h (xs ++ [node]).
Proof.
  intros Hc Hn Hnot. unfold list_add_tail.
  mstep (list_prev_run _ _ _ (clist_prv_head _ _ _ Hc)).
  assert (List.last xs h ∈ h :: xs).
  { destruct xs as [|x xs _] using rev_ind; [set_solver|]. rewrite last_last. set_solver. }
  destruct (list_add_between node (List.last xs h) h L) as (L' & E & [FD F] & N & P);
    [done|by eapply clist_dom|eapply clist_dom; [done|set_solver]|].
  exists L'. split; [done|]. split; [split; [done|intros; apply F; set_solver]|].
  eapply (clist_insert L L' h xs []); rewrite ?app_nil_r; done.
Qed.

(** [list_del] removes a node wherever it is, and clears its links. *)
Lemma clist_del L h xs node ys :
  clist L h (xs ++ node :: ys) ->
  exists L', list_del node L = Ok tt L' /\ frame L L' (node :: h :: xs ++ ys) /\
             clist L' h (xs ++ ys) /\ nxt L' node = Some NULL /\ prv L' node = Some NULL.
Proof.
  intros Hcl. pose proof Hcl as [Hnd Hc].
  assert (Hdom : forall x, x ∈ h :: xs ++ node :: ys -> is_Some (L !! x))
    by (intros x; by eapply clist_dom).
  rewrite chain_app in Hc. destruct Hc as [Hx Hy].
  destruct (list_del_run node (List.last xs h) (hd h ys) L) as (L' & E & [FD F] & N & P).
  - destruct xs as [|x xs _] using rev_ind; [by destruct Hx|].
    rewrite last_last. rewrite chain_app in Hx. by destruct Hx as [_ [_ ?]].
  - destruct ys; cbn in *; tauto.
  - apply Hdom. destruct xs as [|x xs _] using rev_ind; [set_solver|].
    rewrite last_last. set_solver.
  - apply Hdom. destruct ys; set_solver.
  - assert (List.last xs h ∈ h :: xs) as Hlast.
    { destruct xs as [|x xs _] using rev_ind; [set_solver|]. rewrite last_last. set_solver. }
    exists L'. split; [done|]. split.
    { split; [done|]. intros a Ha. apply F. destruct ys; set_solver. }
    split; [|split; [link_at N|link_at P]].
    split; [revert Hnd; rewrite !NoDup_cons, !NoDup_app, NoDup_cons; set_solver|].
    revert Hnd. rewrite NoDup_cons, NoDup_app, NoDup_cons. intros (? & ? & ? & ? & ?).
    clear Hdom Hcl FD F E.
    destruct ys as [|y ys]; (destruct xs as [|x xs _] using rev_ind);
      rewrite ?last_last, ?app_nil_r, <- ?app_assoc, ?chain_app in *; cbn in *;
      rewrite ?chain_app in *; cbn in *; destruct_and?; split_and?; try link_here N P;
      (eapply chain_ext; [..|eassumption]; intros a Ha; [link_at N|link_at P]).
Qed.

(** * Walking a list *)

Section Walk.
Context {S : Type} (view : S -> links) (upd : S -> links -> S).
Hypothesis upd_view : forall s, upd s (view s) = s.

Lemma read_next p n s : nxt (view s) p = Some n -> zoom view upd (list_next p) s = Ok n s.
Proof. intros Hn. unfold zoom. rewrite (list_next_run _ _ _ Hn). by rewrite upd_view. Qed.

(** [I xs s]: the nodes [xs] are still to be visited, and the links the walk reads next
    are in place. The body may change the list as long as that stays true. *)
Context (I : list Z -> S -> Prop) (body : Z -> M S unit) (h : Z).
Hypothesis I_links : forall xs s, I xs s ->
  (h ∉ xs) /\ exists n, nxt (view s) (hd h xs) = Some n /\ (xs <> [] -> n = hd h (tl xs)).
Hypothesis I_body : forall x xs s, I (x :: xs) s ->
  exists s', body x s = Ok tt s' /\ I xs s'.

Lemma safe_loop_walk xs fuel n s :
  I xs s -> (xs <> [] -> n = hd h (tl xs)) -> (length xs <= fuel)%nat ->
  exists s', safe_loop view upd fuel (hd h xs) n h body s = Ok tt s' /\ I [] s'.
Proof using upd_view I_links I_body.
  revert fuel n s. induction xs as [|x xs IH]; intros fuel n s HI Hn Hf.
  - exists s. destruct fuel; cbn; by rewrite Z.eqb_refl.
  - destruct fuel as [|fuel]; [cbn in Hf; lia|]. cbn [safe_loop hd].
    destruct (I_links _ _ HI) as [Hh _]. destruct (Z.eqb_spec x h); [set_solver|].
    destruct (I_body _ _ _ HI) as (s1 & E & HI1). mstep E.
    destruct (I_links _ _ HI1) as (_ & n1 & Hn1 & Hnext).
    rewrite Hn by done. cbn [tl]. mstep (read_next _ _ _ Hn1).
    apply IH; [done|done|cbn in Hf; lia].
Qed.

Lemma list_for_each_safe_walk xs fuel s :
  I xs s -> nxt (view s) h = Some (hd h xs) -> (length xs <= fuel)%nat ->
  exists s', list_for_each_safe view upd fuel h body s = Ok tt s' /\ I [] s'.
Proof using upd_view I_links I_body.
  intros HI Hfirst Hf. unfold list_for_each_safe. mstep (read_next _ _ _ Hfirst).
  destruct (I_links _ _ HI) as (_ & n & Hn & Hnext). mstep (read_next _ _ _ Hn).
  by apply safe_loop_walk.
Qed.
End Walk.

(** A node that is put on the list it already heads becomes its own successor: a walk of
    the list never ends. *)
Lemma list_add_again L h xs node :
  clist L h (node :: xs) ->
  exists L', list_add node h L = Ok tt L' /\ nxt L' h = Some node /\ nxt L' node = Some node.
Proof.
  intros Hc. unfold list_add. mstep (list_next_run _ _ _ (clist_nxt_head _ _ _ Hc)). cbn [hd].
  pose proof Hc as [Hnd _].
  destruct (list_add_between node h node L) as (L' & E & _ & N & _);
    [eapply clist_dom; [done|set_solver]..|].
  exists L'. split; [done|]. apply NoDup_cons in Hnd as [? _]. split; link_at N.
Qed.

Lemma safe_loop_self {S} (view : S -> links) upd (body : Z -> M S unit) h node (P : S -> Prop) fuel s :
  (forall s, upd s (view s) = s) -> node <> h ->
  (forall s, P s -> nxt (view s) node = Some node /\ exists s', body node s = Ok tt s' /\ P s') ->
  P s -> exists s', safe_loop view upd fuel node node h body s = Stop Spin s'.
Proof.
  intros Hupd Hne Hbody. revert s. induction fuel as [|fuel IH]; intros s Hs; cbn [safe_loop];
    destruct (Z.eqb_spec node h); try done; [by eexists|].
  destruct (Hbody s Hs) as (_ & s1 & E & Hs1). mstep E.
  destruct (Hbody s1 Hs1) as (Hn & _). mstep (read_next view upd Hupd _ _ _ Hn). by apply IH.
Qed.

(** * The loops over entries are the loops over nodes *)

Section Entries.
Context {S : Type} (view : S -> links) (upd : S -> links -> S) (offset : Z) (body : Z -> M S unit).

Lemma entry_node p : list_entry p offset + offset = p.
Proof. unfold list_entry. lia. Qed.

Lemma zoom_next_entry {A} p (k : Z -> M S A) s :
  (n ← zoom view upd (list_next_entry (list_entry p offset) offset); k n) s =
  (n ← zoom view upd (list_next p); k (list_entry n offset)) s.
Proof.
  unfold list_next_entry. rewrite entry_node. unfold zoom, mbind, M_bind. by destruct (list_next p (view s)).
Qed.

Lemma bind_pointwise {A B} (m : M S A) (k k' : A -> M S B) s : (forall a t, k a t = k' a t) -> (a ← m; k a) s = (a ← m; k' a) s.
Proof. intros Hk. unfold mbind, M_bind. by destruct (m s). Qed.

Lemma for_each_entry fuel head s :
  list_for_each_entry view upd fuel head offset body s =
  list_for_each view upd fuel head (fun p => body (list_entry p offset)) s.
Proof.
  assert (Hloop : forall fuel p s, entry_loop view upd fuel (list_entry p offset) head offset body s =
    each_loop view upd fuel p head (fun p => body (list_entry p offset)) s).
  { intros f. induction f as [|f IH]; intros p t; cbn [entry_loop each_loop]; rewrite entry_node; [done|].
    destruct (p =? head); [done|]. apply bind_pointwise. intros [] t1. rewrite zoom_next_entry.
    apply bind_pointwise. intros n t2. apply IH. }
  apply bind_pointwise. intros n t. apply Hloop.
Qed.

Lemma for_each_entry_safe fuel head s :
  list_for_each_entry_safe view upd fuel head offset body s =
  list_for_each_safe view upd fuel head (fun p => body (list_entry p offset)) s.
Proof.
  assert (Hloop : forall fuel p n s, entry_safe_loop view upd fuel (list_entry p offset) (list_entry n offset) head offset body s =
    safe_loop view upd fuel p n head (fun p => body (list_entry p offset)) s).
  { intros f. induction f as [|f IH]; intros p n t; cbn [entry_safe_loop safe_loop]; rewrite entry_node; [done|].
    destruct (p =? head); [done|]. apply bind_pointwise. intros [] t1. rewrite zoom_next_entry.
    apply bind_pointwise. intros n' t2. apply IH. }
  apply bind_pointwise. intros p t. rewrite zoom_next_entry. apply bind_pointwise. intros n t1. apply Hloop.
Qed.
End Entries.
