(* ===== verification/HeapSpec.v ===== *)
(** What the heap promises, without memory: a list of blocks in address order, first-fit
    allocation on it, and release as "mark free, then merge neighbours". *)
From Stdlib Require Import ZArith Lia.
From stdpp Require Import base gmap list strings.
From S2P Require Import Prelude.

(** A block with its size in bytes, header included. *)
Inductive blk := Used (sz : Z) | Free (sz : Z).

#[global] Instance blk_eq_dec : EqDecision blk.
Proof. solve_decision. Defined.

Definition bsize (b : blk) : Z := match b with Used s | Free s => s end.
Definition is_free (b : blk) : bool := match b with Free _ => true | Used _ => false end.

(** Bytes in a run of blocks, and bytes of its free blocks. *)
Fixpoint total (bs : list blk) : Z :=
  match bs with [] => 0 | b :: r => bsize b + total r end.
Fixpoint free_total (bs : list blk) : Z :=
  match bs with [] => 0 | Free s :: r => s + free_total r | Used _ :: r => free_total r end.

(** First fit: the offset of the block handed out and the blocks afterwards. *)
Fixpoint spec_alloc (need : Z) (bs : list blk) : option (Z * list blk) :=
  match bs with
  | [] => None
  | b :: r =>
      if is_free b && (need <=? bsize b) then
        Some (0, if bsize b =? need then Used need :: r
                 else Used need :: Free (bsize b - need) :: r)
      else p ← spec_alloc need r; Some (bsize b + p.1, b :: p.2)
  end.

(** The used block at offset [off] becomes free. *)
Fixpoint mark_free (off : Z) (bs : list blk) : option (list blk) :=
  match bs with
  | [] => None
  | b :: r =>
      if off =? 0 then match b with Used s => Some (Free s :: r) | Free _ => None end
      else cons b <$> mark_free (off - bsize b) r
  end.

Definition cons_free (b : blk) (bs : list blk) : list blk :=
  match b, bs with
  | Free s, Free t :: r => Free (s + t) :: r
  | _, _ => b :: bs
  end.

(** Merge every run of neighbouring free blocks. *)
Definition coalesce (bs : list blk) : list blk := foldr cons_free [] bs.

Definition spec_free (off : Z) (bs : list blk) : option (list blk) :=
  coalesce <$> mark_free off bs.

(** No two free blocks are neighbours. *)
Fixpoint coalesced (bs : list blk) : Prop :=
  match bs with
  | [] => True
  | b :: r => match b, r with Free _, Free _ :: _ => False | _, _ => coalesced r end
  end.

(** Sizes a heap can contain. *)
Definition good_size (s : Z) : Prop := 16 <= s /\ s mod 16 = 0.
Definition good_sizes (bs : list blk) : Prop := Forall (fun b => good_size (bsize b)) bs.

(** The bytes handed to the callers: everything of a used block but its header. *)
Fixpoint payload (a : Z) (bs : list blk) (i : Z) : Prop :=
  match bs with
  | [] => False
  | Used s :: r => a + 16 <= i < a + s \/ payload (a + s) r i
  | Free s :: r => payload (a + s) r i
  end.

(** [a] is the address of a used block of size [s]. *)
Fixpoint used_at (b0 : Z) (bs : list blk) (a s : Z) : Prop :=
  match bs with
  | [] => False
  | Used t :: r => (a = b0 /\ s = t) \/ used_at (b0 + t) r a s
  | Free t :: r => used_at (b0 + t) r a s
  end.

(** * Runs of blocks *)

Lemma total_app b1 b2 : total (b1 ++ b2) = total b1 + total b2.
Proof. induction b1; simpl; lia. Qed.

Lemma free_total_app b1 b2 : free_total (b1 ++ b2) = free_total b1 + free_total b2.
Proof. induction b1 as [|[]]; simpl; lia. Qed.

Lemma good_sizes_app b1 b2 : good_sizes (b1 ++ b2) <-> good_sizes b1 /\ good_sizes b2.
Proof. apply Forall_app. Qed.

Lemma good_sizes_cons b bs : good_sizes (b :: bs) <-> good_size (bsize b) /\ good_sizes bs.
Proof. unfold good_sizes. by rewrite Forall_cons. Qed.

Lemma total_nonneg bs : good_sizes bs -> 0 <= total bs.
Proof. induction 1 as [|b bs [? ?] ? ?]; simpl; lia. Qed.

Lemma total_mod bs : good_sizes bs -> total bs mod 16 = 0.
Proof.
  induction 1 as [|b bs [? ?] ? ?]; [done|]. simpl.
  rewrite Z.add_mod by lia. by rewrite H0, IHForall.
Qed.

Lemma free_total_bounds bs : good_sizes bs -> 0 <= free_total bs <= total bs.
Proof.
  induction 1 as [|b bs [? ?] Hbs IH]; [done|].
  pose proof (total_nonneg bs Hbs). destruct b; simpl in *; lia.
Qed.

Lemma payload_app a b1 b2 i :
  payload a (b1 ++ b2) i <-> payload a b1 i \/ payload (a + total b1) b2 i.
Proof.
  revert a. induction b1 as [|[t|t] b1 IH]; intros a; simpl.
  - rewrite Z.add_0_r. tauto.
  - rewrite IH, Z.add_assoc. tauto.
  - rewrite IH, Z.add_assoc. tauto.
Qed.

Lemma payload_range a bs i : good_sizes bs -> payload a bs i -> a <= i < a + total bs.
Proof.
  intros H. revert a. induction H as [|[t|t] bs [? ?] Hbs IH]; intros a; simpl in *; [done| |].
  - pose proof (total_nonneg bs Hbs). intros [?|H']; [|apply IH in H']; lia.
  - intros H'. apply IH in H'. lia.
Qed.

Lemma used_at_app b0 b1 b2 a s :
  used_at b0 (b1 ++ b2) a s <-> used_at b0 b1 a s \/ used_at (b0 + total b1) b2 a s.
Proof.
  revert b0. induction b1 as [|[t|t] b1 IH]; intros b0; simpl.
  - rewrite Z.add_0_r. tauto.
  - rewrite IH, Z.add_assoc. tauto.
  - rewrite IH, Z.add_assoc. tauto.
Qed.

Lemma used_at_split b0 bs a s :
  used_at b0 bs a s -> exists pre post, bs = pre ++ Used s :: post /\ a = b0 + total pre.
Proof.
  revert b0. induction bs as [|[t|t] bs IH]; intros b0; simpl; [done| |].
  - intros [[-> ->]|H]; [exists [], bs; simpl; split; [done|lia]|].
    apply IH in H as (pre & post & -> & ->). exists (Used t :: pre), post. simpl. split; [done|lia].
  - intros H. apply IH in H as (pre & post & -> & ->).
    exists (Free t :: pre), post. simpl. split; [done|lia].
Qed.

Lemma used_at_bounds b0 bs a s :
  good_sizes bs -> used_at b0 bs a s -> b0 <= a /\ a + s <= b0 + total bs /\ good_size s.
Proof.
  intros Hg H. apply used_at_split in H as (pre & post & -> & ->).
  apply good_sizes_app in Hg as [Hp Hq]. apply good_sizes_cons in Hq as [? Hq].
  rewrite total_app. simpl in *. pose proof (total_nonneg pre Hp). pose proof (total_nonneg post Hq).
  split_and!; [lia|lia|done].
Qed.

(** Two used blocks are the same block or do not overlap. *)
Lemma used_at_disjoint b0 bs a1 s1 a2 s2 :
  good_sizes bs -> used_at b0 bs a1 s1 -> used_at b0 bs a2 s2 ->
  (a1 = a2 /\ s1 = s2) \/ a1 + s1 <= a2 \/ a2 + s2 <= a1.
Proof.
  intros Hg. revert b0. induction Hg as [|[t|t] bs [? ?] Hbs IH]; intros b0; simpl in *; [done| |].
  - intros [[-> ->]|U1] [[-> ->]|U2]; [lia| | |by eauto].
    + apply used_at_bounds in U2 as (? & ? & ?); [lia|done].
    + apply used_at_bounds in U1 as (? & ? & ?); [lia|done].
  - by eauto.
Qed.

Lemma used_at_payload b0 bs a s i :
  good_sizes bs -> used_at b0 bs a s -> a + 16 <= i < a + s -> payload b0 bs i.
Proof.
  intros Hg H Hi. apply used_at_split in H as (pre & post & -> & ->).
  rewrite payload_app. simpl. lia.
Qed.

(** * First fit *)

Lemma spec_alloc_split need bs off bs' :
  spec_alloc need bs = Some (off, bs') ->
  exists pre s post, bs = pre ++ Free s :: post /\ need <= s /\
    Forall (fun b => is_free b = true -> bsize b < need) pre /\ off = total pre /\
    bs' = pre ++ Used need :: (if s =? need then [] else [Free (s - need)]) ++ post.
Proof.
  revert off bs'. induction bs as [|b bs IH]; intros off bs'; simpl; [done|].
  destruct (is_free b && (need <=? bsize b)) eqn:E.
  - apply andb_true_iff in E as [Ef En]. destruct b as [s|s]; [done|]. simpl in *.
    intros [= <- <-]. exists [], s, bs. split_and!; [done|lia|done|done|].
    by destruct (s =? need).
  - destruct (spec_alloc need bs) as [[o r]|]; [|done]. simpl. intros [= <- <-].
    destruct (IH o r eq_refl) as (pre & s & post & -> & ? & Hp & -> & ->).
    exists (b :: pre), s, post. split_and!; try done.
    constructor; [|done]. intros Hf. rewrite Hf in E. simpl in E. lia.
Qed.

Lemma spec_alloc_None need bs :
  spec_alloc need bs = None -> Forall (fun b => is_free b = true -> bsize b < need) bs.
Proof.
  induction bs as [|b bs IH]; simpl; [done|].
  destruct (is_free b && (need <=? bsize b)) eqn:E; [done|].
  destruct (spec_alloc need bs); [done|]. intros _. constructor; [|by apply IH].
  intros Hf. rewrite Hf in E. simpl in E. lia.
Qed.

(** Allocation fails exactly when no free block is large enough. *)
Lemma spec_alloc_None_iff need bs :
  spec_alloc need bs = None <-> Forall (fun b => is_free b = true -> bsize b < need) bs.
Proof.
  split; [apply spec_alloc_None|]. induction 1 as [|b bs Hb Hbs IH]; [done|]. simpl.
  destruct (is_free b) eqn:E; simpl.
  - destruct (Z.leb_spec need (bsize b)); [specialize (Hb eq_refl); lia|]. by rewrite IH.
  - by rewrite IH.
Qed.

Lemma coalesced_app_split b1 b2 :
  coalesced (b1 ++ b2) -> coalesced b1 /\ coalesced b2.
Proof.
  induction b1 as [|[s|s] b1 IH]; simpl; [done|done|].
  destruct b1 as [|[]]; simpl in *; [|tauto|tauto].
  destruct b2 as [|[]]; simpl; tauto.
Qed.

(** Swapping the run behind a used block keeps a list coalesced. *)
Lemma coalesced_replace pre n mid mid' :
  coalesced (pre ++ mid) -> coalesced mid' -> coalesced (pre ++ Used n :: mid').
Proof.
  induction pre as [|[s|s] pre IH]; simpl; [done|done|].
  destruct pre as [|[]]; simpl in *; [done|tauto|tauto].
Qed.

Lemma spec_alloc_coalesced need bs off bs' :
  coalesced bs -> spec_alloc need bs = Some (off, bs') -> coalesced bs'.
Proof.
  intros Hc (pre & s & post & -> & _ & _ & _ & ->)%spec_alloc_split.
  eapply coalesced_replace; [done|]. apply coalesced_app_split in Hc as [_ Hc].
  destruct (s =? need); simpl in *; [|by destruct post as [|[]]].
  by destruct post as [|[]].
Qed.

Lemma spec_alloc_sizes need bs off bs' :
  good_size need -> good_sizes bs -> spec_alloc need bs = Some (off, bs') ->
  good_sizes bs' /\ total bs' = total bs /\ free_total bs' = free_total bs - need.
Proof.
  intros [Hn1 Hn2] Hg (pre & s & post & -> & Hs & _ & _ & ->)%spec_alloc_split.
  apply good_sizes_app in Hg as [Hp Hq]. apply good_sizes_cons in Hq as [[Hs1 Hs2] Hq].
  simpl in *. rewrite !total_app, !free_total_app, good_sizes_app, good_sizes_cons.
  destruct (Z.eqb_spec s need); simpl.
  - subst. split_and!; [done|done|done|lia|lia].
  - split_and!; [done|done| |lia|lia]. apply good_sizes_cons. split; [|done].
    assert ((s - need) mod 16 = 0). { rewrite Zminus_mod, Hs2, Hn2. done. }
    pose proof (Z.div_mod (s - need) 16 ltac:(lia)). split; simpl; lia.
Qed.

(** * Release *)

Lemma mark_free_mid pre s post :
  good_sizes pre -> mark_free (total pre) (pre ++ Used s :: post) = Some (pre ++ Free s :: post).
Proof.
  induction 1 as [|b pre [? ?] Hp IH]; [done|]. simpl. pose proof (total_nonneg pre Hp).
  destruct (Z.eqb_spec (bsize b + total pre) 0); [lia|].
  replace (bsize b + total pre - bsize b) with (total pre) by lia. by rewrite IH.
Qed.

Lemma mark_free_total off bs bs' : mark_free off bs = Some bs' -> total bs' = total bs.
Proof.
  revert off bs'. induction bs as [|b bs IH]; intros off bs'; simpl; [done|].
  destruct (off =? 0); [destruct b; intros; by simplify_eq|].
  destruct (mark_free (off - bsize b) bs) as [r|] eqn:E; [|done]. simpl. intros [= <-].
  simpl. by rewrite (IH _ _ E).
Qed.

Lemma coalesce_id bs : coalesced bs -> coalesce bs = bs.
Proof.
  induction bs as [|b bs IH]; [done|]. simpl. intros H.
  assert (coalesced bs) as Hc by (destruct b, bs as [|[]]; simpl in *; tauto).
  rewrite IH by done. by destruct b, bs as [|[]].
Qed.

Lemma coalesce_coalesced bs : coalesced (coalesce bs).
Proof.
  induction bs as [|b bs IH]; [done|]. simpl. unfold cons_free.
  destruct b as [s|s]; [done|]. destruct (coalesce bs) as [|[t|t] r]; [done|done|].
  simpl in *. by destruct r as [|[]].
Qed.

Lemma coalesce_total bs :
  total (coalesce bs) = total bs /\ free_total (coalesce bs) = free_total bs.
Proof.
  induction bs as [|b bs [IH1 IH2]]; [done|]. simpl. unfold cons_free.
  destruct b as [s|s], (coalesce bs) as [|[t|t] r]; simpl in *; lia.
Qed.

Lemma good_size_add s t : good_size s -> good_size t -> good_size (s + t).
Proof. intros [? Hs] [? Ht]. split; [lia|]. rewrite Z.add_mod, Hs, Ht by lia. done. Qed.

Lemma coalesce_good bs : good_sizes bs -> good_sizes (coalesce bs).
Proof.
  induction 1 as [|b bs Hb Hbs IH]; [by constructor|]. simpl. unfold cons_free.
  destruct b as [s|s]; [by apply good_sizes_cons|].
  destruct (coalesce bs) as [|[t|t] r]; [by apply good_sizes_cons|by apply good_sizes_cons|].
  apply good_sizes_cons in IH as [? ?]. apply good_sizes_cons.
  split; [by apply good_size_add|done].
Qed.

Lemma coalesce_payload a bs i : payload a (coalesce bs) i <-> payload a bs i.
Proof.
  revert a. induction bs as [|b bs IH]; intros a; [done|]. simpl. unfold cons_free.
  destruct b as [s|s]; simpl; [by rewrite IH|].
  rewrite <- IH. destruct (coalesce bs) as [|[t|t] r]; simpl; [done|done|].
  by rewrite Z.add_assoc.
Qed.

Lemma coalesce_used_at b0 bs a s : used_at b0 (coalesce bs) a s <-> used_at b0 bs a s.
Proof.
  revert b0. induction bs as [|b bs IH]; intros b0; [done|]. simpl. unfold cons_free.
  destruct b as [t|t]; simpl; [by rewrite IH|].
  rewrite <- IH. destruct (coalesce bs) as [|[u|u] r]; simpl; [done|done|].
  by rewrite Z.add_assoc.
Qed.

(** Releasing the block just allocated restores the list of blocks. *)
Lemma spec_free_alloc need bs off bs' :
  good_sizes bs -> coalesced bs -> spec_alloc need bs = Some (off, bs') ->
  spec_free off bs' = Some bs.
Proof.
  intros Hg Hc (pre & s & post & -> & Hs & _ & -> & ->)%spec_alloc_split.
  apply good_sizes_app in Hg as [Hp _]. unfold spec_free. rewrite mark_free_mid by done. simpl.
  f_equal. transitivity (coalesce (pre ++ Free s :: post)); [|by apply coalesce_id].
  clear Hp. pose proof (coalesced_app_split _ _ Hc) as [_ Hq].
  unfold coalesce. rewrite !foldr_app. f_equal. simpl.
  destruct (Z.eqb_spec s need) as [->|]; [done|]. simpl.
  assert (coalesced post) as Hcp by (simpl in Hq; destruct post as [|[]]; simpl in *; tauto).
  pose proof (coalesce_id post Hcp) as Hi. unfold coalesce in Hi. rewrite Hi. unfold cons_free.
  destruct post as [|[t|t] post]; [|by repeat f_equal; lia|by simpl in Hq].
  by repeat f_equal; lia.
Qed.

(** With every block released, one free block spans the heap. *)
Lemma coalesced_all_free bs :
  coalesced bs -> Forall (fun b => is_free b = true) bs -> bs = [] \/ exists s, bs = [Free s].
Proof.
  intros Hc Hf. destruct bs as [|[s|s] bs]; [by left| |].
  - apply Forall_cons in Hf as [? _]. done.
  - right. destruct bs as [|[t|t] bs]; [by eexists| |done].
    apply Forall_cons in Hf as [_ Hf]. apply Forall_cons in Hf as [? _]. done.
Qed.

(** A free block between runs that do not touch it with free blocks is coalesced. *)
Lemma coalesced_join pre s post :
  coalesced pre -> coalesced post ->
  (forall t, last pre <> Some (Free t)) -> (forall t, head post <> Some (Free t)) ->
  coalesced (pre ++ Free s :: post).
Proof.
  intros Hp Hq Hl Hh. induction pre as [|b pre IH]; simpl.
  - destruct post as [|[t|t] post]; [done|done|]. by destruct (Hh t).
  - assert (coalesced (pre ++ Free s :: post)) as Hc.
    { apply IH; [by destruct b, pre as [|[]]|]. intros t. specialize (Hl t).
      destruct pre; [done|]. by rewrite last_cons_cons in Hl. }
    destruct b as [t|t]; [done|]. destruct pre as [|[u|u] pre]; simpl in *; [|done|done].
    by destruct (Hl t).
Qed.

(** Merging two neighbours first does not change the result of merging all. *)
Lemma coalesce_merge pre s t post :
  coalesce (pre ++ Free s :: Free t :: post) = coalesce (pre ++ Free (s + t) :: post).
Proof.
  unfold coalesce. rewrite !foldr_app. f_equal. simpl. unfold cons_free.
  destruct (foldr _ [] post) as [|[u|u] r]; [done|done|]. by rewrite Z.add_assoc.
Qed.

Lemma last_blk_cases (pre : list blk) :
  (forall t, last pre <> Some (Free t)) \/ exists p0 t, pre = p0 ++ [Free t].
Proof.
  induction pre as [|b pre _] using rev_ind; [left; by intros t|].
  destruct b as [t|t]; [left; intros u; by rewrite last_snoc|right; by eexists _, _].
Qed.

Lemma head_blk_cases (post : list blk) :
  (forall t, head post <> Some (Free t)) \/ exists t q0, post = Free t :: q0.
Proof.
  destruct post as [|[t|t] q]; [left; by intros u|left; by intros u|right; by eexists _, _].
Qed.

Lemma coalesced_cons b bs : coalesced (b :: bs) -> coalesced bs.
Proof. destruct b, bs as [|[]]; simpl; tauto. Qed.

Lemma coalesced_last_free p t : coalesced (p ++ [Free t]) -> forall u, last p <> Some (Free u).
Proof.
  intros Hc u Hu. induction p as [|p b _] using rev_ind; [done|].
  rewrite last_snoc in Hu. simplify_eq. rewrite <- app_assoc in Hc.
  by apply coalesced_app_split in Hc as [_ Hc].
Qed.

Lemma coalesced_head_free s q : coalesced (Free s :: q) -> forall u, head q <> Some (Free u).
Proof. destruct q as [|[]]; naive_solver. Qed.

(** * Which blocks are in use afterwards *)

Lemma used_at_remainder b0 s n a t :
  used_at b0 (if s =? n then [] else [Free (s - n)]) a t <-> False.
Proof. by destruct (s =? n). Qed.

Lemma spec_alloc_used_at b0 n bs off bs' a t :
  spec_alloc n bs = Some (off, bs') ->
  used_at b0 bs' a t <-> used_at b0 bs a t \/ (a = b0 + off /\ t = n).
Proof.
  intros (pre & s & post & -> & Hs & _ & -> & ->)%spec_alloc_split.
  rewrite used_at_app. simpl. rewrite used_at_app, used_at_remainder.
  rewrite (used_at_app b0 pre). simpl.
  replace (b0 + total pre + n + total (if s =? n then [] else [Free (s - n)]))
    with (b0 + total pre + s) by (destruct (Z.eqb_spec s n); simpl; lia).
  tauto.
Qed.

Lemma spec_free_total off bs bs' : spec_free off bs = Some bs' -> total bs' = total bs.
Proof.
  unfold spec_free. destruct (mark_free off bs) as [r|] eqn:E; [|done]. simpl. intros [= <-].
  rewrite (proj1 (coalesce_total r)). by eapply mark_free_total.
Qed.

(** The block handed out was not in use. *)
Lemma spec_alloc_fresh b0 n bs off bs' t :
  good_sizes bs -> spec_alloc n bs = Some (off, bs') -> ~ used_at b0 bs (b0 + off) t.
Proof.
  intros Hg (pre & s & post & -> & Hs & _ & -> & _)%spec_alloc_split.
  apply good_sizes_app in Hg as [Hp [[? ?] Hq]%good_sizes_cons]. simpl in *.
  intros [Hu|Hu]%used_at_app; simpl in *.
  - apply used_at_bounds in Hu as (? & ? & [? ?]); [lia|done].
  - apply used_at_bounds in Hu as (? & ? & [? ?]); [lia|done].
Qed.

Lemma spec_free_used_at b0 bs a sz bs' a' t :
  good_sizes bs -> used_at b0 bs a sz -> spec_free (a - b0) bs = Some bs' ->
  used_at b0 bs' a' t <-> used_at b0 bs a' t /\ a' <> a.
Proof.
  intros Hg (pre & post & -> & ->)%used_at_split.
  pose proof Hg as [Hp [[? ?] Hq]%good_sizes_cons]%good_sizes_app. simpl in *.
  unfold spec_free. replace (b0 + total pre - b0) with (total pre) by lia.
  rewrite mark_free_mid by done. intros [= <-]. rewrite coalesce_used_at.
  rewrite !used_at_app. simpl. split.
  - intros [Hu|Hu].
    + split; [by left|]. apply used_at_bounds in Hu as (? & ? & [? ?]); [lia|done].
    + split; [by right; right|]. apply used_at_bounds in Hu as (? & ? & ?); [lia|done].
  - intros [[Hu|[[-> ->]|Hu]] Hne]; [by left|done|by right].
Qed.

(** Nothing in use and nothing to merge: the heap is one free block. *)
Lemma unused_all_free b0 bs :
  (forall a t, ~ used_at b0 bs a t) -> Forall (fun b => is_free b = true) bs.
Proof.
  revert b0. induction bs as [|[s|s] bs IH]; intros b0 H; [by constructor| |].
  - destruct (H b0 s). simpl. by left.
  - constructor; [done|]. apply (IH (b0 + s)). intros a t Hu. apply (H a t). simpl. done.
Qed.
