(* ===== verification/Miniheap.v ===== *)
(** The first-fit heap of src/libc/miniheap.c, over byte memory.

    The [struct miniheap] is a record, the arena is memory: a free block carries its
    magic, its size and the address of the next free block in its first 16 bytes, a used
    block its magic and size in the first 8 of a 16-byte header. *)
From Stdlib Require Import ZArith Lia.
From stdpp Require Import base gmap list strings.
From S2P Require Import Prelude Mem.

(** * Data *)

Definition MINIHEAP_ALIGNMENT : Z := 16.
Definition MINIHEAP_MAGIC_FREE : Z := 0xDEADBEEF.
Definition MINIHEAP_MAGIC_USED : Z := 0xBEEFDEAD.

(** [sizeof(miniheap_usedheader_t)] is 8; rounded up to the alignment. *)
Definition sizeof_usedheader : Z := 8.
Definition MINIHEAP_USEDHEADER_SIZE : Z :=
  Z.land (u32 (sizeof_usedheader + MINIHEAP_ALIGNMENT - 1)) (bnot 32 (MINIHEAP_ALIGNMENT - 1)).

(** Field addresses of [miniheap_freeblock_t]; [magic] and [size] of
    [miniheap_usedheader_t] lie at the same offsets. *)
Definition fb_magic (p : Z) : Z := p.
Definition fb_size (p : Z) : Z := p + 4.
Definition fb_next (p : Z) : Z := p + 8.

Record miniheap := Miniheap {
  hp_base : Z;
  hp_size : Z;
  hp_free_bytes : Z;
  hp_align : Z;
  hp_free_list : Z
}.

Record heap_state := HeapState { hp : miniheap; hmem : mem }.

Definition set_hmem (s : heap_state) (m : mem) : heap_state := HeapState (hp s) m.
Definition set_hp (s : heap_state) (h : miniheap) : heap_state := HeapState h (hmem s).

Definition with_free_list (h : miniheap) (v : Z) : miniheap :=
  Miniheap (hp_base h) (hp_size h) (hp_free_bytes h) (hp_align h) v.

Definition with_free_bytes (h : miniheap) (v : Z) : miniheap :=
  Miniheap (hp_base h) (hp_size h) v (hp_align h) (hp_free_list h).

Definition set_free_list (v : Z) : M heap_state unit :=
  modify (fun s => set_hp s (with_free_list (hp s) v)).

Definition set_free_bytes (v : Z) : M heap_state unit :=
  modify (fun s => set_hp s (with_free_bytes (hp s) v)).

Definition hld (n : nat) (a : Z) : M heap_state Z := load hmem n a.
Definition hst (n : nat) (a v : Z) : M heap_state unit := store hmem set_hmem n a v.

(** * Operations *)

Definition miniheap_init (base size : Z) : M heap_state Z :=
  if (size =? 0) || truth (Z.land size (MINIHEAP_ALIGNMENT - 1))
  then panic "miniheap_init: invalid size"
  else
    modify (fun s => set_hp s (Miniheap base size size MINIHEAP_ALIGNMENT
                                 (hp_free_list (hp s)))) ;;
    hst 4 (fb_magic base) MINIHEAP_MAGIC_FREE ;;
    hst 4 (fb_size base) size ;;
    hst 8 (fb_next base) 0 ;;
    set_free_list base ;;
    mret 0.

(** [prev->next = v] or, when there is no [prev], [heap->free_list = v]. *)
Definition link_prev (prev v : Z) : M heap_state unit :=
  if truth prev then hst 8 (fb_next prev) v else set_free_list v.

(** The body of the search loop for a block that is large enough: unlink it, or split it
    and link what remains. *)
Definition take_block (total_size csize prev cur : Z) : M heap_state unit :=
  if csize =? total_size then
    cnext ← hld 8 (fb_next cur);
    link_prev prev cnext
  else
    let new_block := u64 (cur + total_size) in
    hst 4 (fb_magic new_block) MINIHEAP_MAGIC_FREE ;;
    csize' ← hld 4 (fb_size cur);
    hst 4 (fb_size new_block) (u32 (csize' - total_size)) ;;
    cnext ← hld 8 (fb_next cur);
    hst 8 (fb_next new_block) cnext ;;
    link_prev prev new_block.

(** The search loop of [miniheap_alloc]: returns the block it took, or NULL. *)
Fixpoint alloc_loop (fuel : nat) (total_size prev cur : Z) : M heap_state Z :=
  match fuel with
  | O => stop_with Spin
  | S fuel' =>
      if negb (truth cur) then mret 0 else
      csize ← hld 4 (fb_size cur);
      if total_size <=? csize then
        take_block total_size csize prev cur ;;
        mret cur
      else
        cnext ← hld 8 (fb_next cur);
        alloc_loop fuel' total_size cur cnext
  end.

(** Steps given to the walks of the free list: one more than the number of aligned
    blocks the arena can hold. *)
Definition walk_fuel (s : heap_state) : nat := S (Z.to_nat (hp_size (hp s) / 16)).

(** The rounding of the request: the mask is a 32-bit [~], so is the result. *)
Definition round_request (align size : Z) : Z :=
  u32 (Z.land (u64 (size + align - 1)) (bnot 32 (align - 1))).

Definition miniheap_alloc (size : Z) : M heap_state Z :=
  h ← gets hp;
  let total_size := round_request (hp_align h) size in
  if total_size =? 0 then mret 0 else
  let total_size := u32 (total_size + MINIHEAP_USEDHEADER_SIZE) in
  if hp_free_bytes h <? total_size then mret 0 else
  fuel ← gets walk_fuel;
  cur ← alloc_loop fuel total_size 0 (hp_free_list h);
  if negb (truth cur) then mret 0 else
  free_bytes ← gets (fun s => hp_free_bytes (hp s));
  set_free_bytes (u64 (free_bytes - total_size)) ;;
  hst 4 (fb_magic cur) MINIHEAP_MAGIC_USED ;;
  hst 4 (fb_size cur) total_size ;;
  mret (u64 (cur + MINIHEAP_USEDHEADER_SIZE)).

(** The search loop of [miniheap_free]: returns the final [prev] and [cur]. *)
Fixpoint free_loop (fuel : nat) (block ptr_rear prev cur : Z) : M heap_state (Z * Z) :=
  match fuel with
  | O => stop_with Spin
  | S fuel' =>
      if truth cur && (cur <? block) then
        if ptr_rear <=? cur then mret (prev, cur) else
        cnext ← hld 8 (fb_next cur);
        free_loop fuel' block ptr_rear cur cnext
      else mret (prev, cur)
  end.

(** [prev && (uintptr_t)prev + prev->size == (uintptr_t)block] *)
Definition prev_adjacent (prev block : Z) : M heap_state bool :=
  if truth prev then
    psize ← hld 4 (fb_size prev);
    mret (u64 (prev + psize) =? block)
  else mret false.

(** The merge with, or the insertion after, [prev]: returns [new_block] and [ptr_rear]. *)
Definition free_insert (block ptr_rear size prev cur : Z) : M heap_state (Z * Z) :=
  adj ← prev_adjacent prev block;
  if adj : bool then
    psize ← hld 4 (fb_size prev);
    hst 4 (fb_size prev) (u32 (psize + size)) ;;
    nsize ← hld 4 (fb_size prev);
    mret (prev, u64 (prev + nsize))
  else
    hst 4 (fb_size block) size ;;
    hst 8 (fb_next block) cur ;;
    link_prev prev block ;;
    mret (block, ptr_rear).

(** The merge with the block that follows. *)
Definition free_merge_next (new_block ptr_rear cur : Z) : M heap_state unit :=
  if truth cur && (ptr_rear =? cur) then
    nsize ← hld 4 (fb_size new_block);
    csize ← hld 4 (fb_size cur);
    hst 4 (fb_size new_block) (u32 (nsize + csize)) ;;
    cnext ← hld 8 (fb_next cur);
    hst 8 (fb_next new_block) cnext
  else mret tt.

Definition miniheap_free (ptr : Z) : M heap_state unit :=
  if negb (truth ptr) then mret tt else
  let block := u64 (ptr - MINIHEAP_USEDHEADER_SIZE) in
  magic ← hld 4 (fb_magic block);
  if negb (magic =? MINIHEAP_MAGIC_USED) then panic "miniheap_free: invalid free" else
  bsize ← hld 4 (fb_size block);
  let ptr_rear := u64 (block + bsize) in
  fuel ← gets walk_fuel;
  flist ← gets (fun s => hp_free_list (hp s));
  pc ← free_loop fuel block ptr_rear 0 flist;
  size ← hld 4 (fb_size block);
  hst 4 (fb_magic block) MINIHEAP_MAGIC_FREE ;;
  nr ← free_insert block ptr_rear size pc.1 pc.2;
  free_merge_next nr.1 nr.2 pc.2 ;;
  free_bytes ← gets (fun s => hp_free_bytes (hp s));
  set_free_bytes (u64 (free_bytes + size)).

(** The allocator behind the C names, on the one global heap. *)
Definition malloc (size : Z) : M heap_state Z := miniheap_alloc size.
Definition free (ptr : Z) : M heap_state unit := miniheap_free ptr.
