(* ===== verification/HeapProof.v ===== *)
(** The heap of Miniheap.v implements HeapSpec.v: representation invariant, and what
    [miniheap_init], [miniheap_alloc] and [miniheap_free] do to it. *)
From Stdlib Require Import ZArith Lia.
From stdpp Require Import base gmap list strings.
From S2P Require Import Prelude Mem HeapSpec Miniheap.

(** * Representation *)

(** Address of the first free block of [bs], laid out from [a]; [nx] if there is none. *)
Fixpoint nextf (a : Z) (bs : list blk) (nx : Z) : Z :=
  match bs with
  | [] => nx
  | Free _ :: _ => a
  | Used s :: r => nextf (a + s) r nx
  end.

(** Address of the last free block of [bs]; [p] if there is none. *)
Fixpoint lastf (a : Z) (bs : list blk) (p : Z) : Z :=
  match bs with
  | [] => p
  | Free s :: r => lastf (a + s) r a
  | Used s :: r => lastf (a + s) r p
  end.

(** The header of one block in memory. *)
Definition blk_ok (m : mem) (a : Z) (b : blk) (nx : Z) : Prop :=
  match b with
  | Used s => mload 4 (fb_magic a) m = Some MINIHEAP_MAGIC_USED /\
              mload 4 (fb_size a) m = Some s
  | Free s => mload 4 (fb_magic a) m = Some MINIHEAP_MAGIC_FREE /\
              mload 4 (fb_size a) m = Some s /\ mload 8 (fb_next a) m = Some nx
  end.

(** A run of blocks from [a], the free ones linked in address order up to [nx]. *)
Fixpoint blocks_ok (m : mem) (a : Z) (bs : list blk) (nx : Z) : Prop :=
  match bs with
  | [] => True
  | b :: r => blk_ok m a b (nextf (a + bsize b) r nx) /\ blocks_ok m (a + bsize b) r nx
  end.

(** The arena of [s] is divided into the blocks [bs], and the free list is theirs. *)
Record layout (b0 : Z) (bs : list blk) (s : heap_state) : Prop := Layout {
  l_base : hp_base (hp s) = b0;
  l_size : hp_size (hp s) = total bs;
  l_align : hp_align (hp s) = MINIHEAP_ALIGNMENT;
  l_list : hp_free_list (hp s) = nextf b0 bs 0;
  l_pos : 0 < b0;
  l_top : b0 + total bs < 2 ^ 64;
  l_small : total bs < 2 ^ 32;
  l_good : good_sizes bs;
  l_mapped : mapped (hmem s) b0 (total bs);
  l_blocks : blocks_ok (hmem s) b0 bs 0
}.

(** The heap [s] holds the blocks [bs]: the layout, an exact count of free bytes, and no
    two free neighbours. *)
Record repr (b0 : Z) (bs : list blk) (s : heap_state) : Prop := Repr {
  r_layout : layout b0 bs s;
  r_free : hp_free_bytes (hp s) = free_total bs;
  r_coal : coalesced bs
}.

(** Every payload byte of [bs] is the same in both memories. *)
Definition keeps_payload (b0 : Z) (bs : list blk) (m m' : mem) : Prop :=
  forall i, payload b0 bs i -> m' !! i = m !! i.

(** * Facts about the layout *)

Lemma header_size : MINIHEAP_USEDHEADER_SIZE = 16.
Proof. reflexivity. Qed.

Lemma nextf_app a b1 b2 nx : nextf a (b1 ++ b2) nx = nextf a b1 (nextf (a + total b1) b2 nx).
Proof.
  revert a. induction b1 as [|[s|s] b1 IH]; intros a; simpl; [by rewrite Z.add_0_r| |done].
  by rewrite IH, Z.add_assoc.
Qed.

Lemma lastf_range a bs p :
  good_sizes bs -> lastf a bs p = p \/ a <= lastf a bs p < a + total bs.
Proof.
  intros H. revert a p. induction H as [|[s|s] bs [? ?] Hbs IH]; intros a p; simpl in *; [by left| |].
  - pose proof (total_nonneg bs Hbs). destruct (IH (a + s) p); [by left|right; lia].
  - pose proof (total_nonneg bs Hbs). destruct (IH (a + s) a); right; lia.
Qed.

Lemma nextf_range a bs nx :
  good_sizes bs -> nextf a bs nx = nx \/ a <= nextf a bs nx < a + total bs.
Proof.
  intros H. revert a. induction H as [|[s|s] bs [? ?] Hbs IH]; intros a; simpl in *; [by left| |].
  - destruct (IH (a + s)); [by left|right; lia].
  - pose proof (total_nonneg bs Hbs). right; lia.
Qed.

Lemma blocks_ok_app m a b1 b2 nx :
  blocks_ok m a (b1 ++ b2) nx <->
  blocks_ok m a b1 (nextf (a + total b1) b2 nx) /\ blocks_ok m (a + total b1) b2 nx.
Proof.
  revert a. induction b1 as [|b b1 IH]; intros a; simpl; [rewrite Z.add_0_r; tauto|].
  rewrite IH, nextf_app, Z.add_assoc. tauto.
Qed.

(** Headers only depend on the bytes outside the payloads. *)
Lemma blocks_ok_frame m m' a bs nx :
  good_sizes bs -> (forall i, a <= i < a + total bs -> ~ payload a bs i -> m' !! i = m !! i) ->
  blocks_ok m a bs nx -> blocks_ok m' a bs nx.
Proof.
  intros H. revert a. induction H as [|b bs [? ?] Hbs IH]; intros a Hm; simpl in *; [done|].
  pose proof (total_nonneg bs Hbs). intros [Hb Hr]. split.
  - assert (forall n k, (Z.of_nat n + k <= 16) -> 0 <= k ->
      mload n (a + k) m' = mload n (a + k) m) as Hl.
    { intros n k ? ?. apply mload_ext. intros i Hi. apply Hm; [lia|].
      destruct b; simpl in *; [intros [?|Hp]; [lia|]|intros Hp];
        apply payload_range in Hp; [lia|done|lia|done]. }
    pose proof (Hl 4%nat 0 ltac:(lia) ltac:(lia)) as H0'. rewrite Z.add_0_r in H0'.
    unfold blk_ok, fb_magic, fb_size, fb_next in *.
    rewrite H0', !Hl by lia. done.
  - apply IH; [|done]. intros i Hi Hp. apply Hm; [lia|].
    destruct b; simpl in *; [intros [?|?]; [lia|done]|done].
Qed.

(** The common use: nothing in the run changed. *)
Lemma blocks_ok_same m m' a bs nx k n :
  good_sizes bs -> same_outside m m' k n -> a + total bs <= k \/ k + n <= a ->
  blocks_ok m a bs nx -> blocks_ok m' a bs nx.
Proof. intros ? Hs ? ?. eapply blocks_ok_frame; [done| |done]. intros i ? _. apply Hs. lia. Qed.

Lemma blk_ok_same m m' a b nx k n :
  good_size (bsize b) -> same_outside m m' k n -> a + bsize b <= k \/ k + n <= a ->
  blk_ok m a b nx -> blk_ok m' a b nx.
Proof.
  intros Hg Hs Hd Hb.
  assert (blocks_ok m' a [b] nx) as [? _]; [|by destruct b].
  eapply blocks_ok_same; [|done| |by split; [destruct b|]].
  - apply good_sizes_cons. split; [done|by constructor].
  - simpl. lia.
Qed.

Abbreviation all_used := (Forall (fun b => is_free b = false)).

Lemma nextf_used a bs nx : all_used bs -> nextf a bs nx = nx.
Proof.
  intros H. revert a. induction H as [|[s|s] bs Hb ? IH]; intros a; simpl; [done|by rewrite IH|done].
Qed.

Lemma lastf_used a bs p : all_used bs -> lastf a bs p = p.
Proof.
  intros H. revert a. induction H as [|[s|s] bs Hb ? IH]; intros a; simpl; [done|by rewrite IH|done].
Qed.

Lemma lastf_app a b1 b2 p : lastf a (b1 ++ b2) p = lastf (a + total b1) b2 (lastf a b1 p).
Proof.
  revert a p. induction b1 as [|[s|s] b1 IH]; intros a p; simpl; [by rewrite Z.add_0_r| |];
    by rewrite IH, Z.add_assoc.
Qed.

Lemma blocks_ok_used m a bs x y : all_used bs -> blocks_ok m a bs x -> blocks_ok m a bs y.
Proof.
  intros H. revert a. induction H as [|[s|s] bs Hb ? IH]; intros a; simpl in *; [done| |done].
  intros [? ?]. eauto.
Qed.

(** A run without free blocks, or one split at its last free block. *)
Lemma last_free_cases bs :
  all_used bs \/ exists pre s us, bs = pre ++ Free s :: us /\ all_used us.
Proof.
  induction bs as [|b bs [Hu|(pre & s & us & -> & Hu)]]; [by left| |].
  - destruct b as [s|s]; [left; by constructor|]. right. by exists [], s, bs.
  - right. by exists (b :: pre), s, us.
Qed.


(** * Single accesses *)

Lemma hld_ok n a v s : mload n a (hmem s) = Some v -> hld n a s = Ok v s.
Proof. apply load_Some. Qed.

Lemma hst_ok n a v s :
  mapped (hmem s) a (Z.of_nat n) ->
  exists m', hst n a v s = Ok tt (set_hmem s m') /\
             mload n a m' = Some (v mod 256 ^ Z.of_nat n) /\
             same_outside (hmem s) m' a (Z.of_nat n) /\ same_dom (hmem s) m'.
Proof.
  intros H. destruct (mstore_ok n a v _ H) as (m' & E & ?). exists m'. split; [|done].
  unfold hst. by apply store_Some.
Qed.

(** A write to [[k, k+n)] inside one of the first headers of free blocks keeps payloads. *)
Lemma keeps_payload_outside b0 bs m m' k n :
  same_outside m m' k n -> (forall i, payload b0 bs i -> ~ (k <= i < k + n)) ->
  keeps_payload b0 bs m m'.
Proof. intros Hs Hp i Hi. apply Hs. by apply Hp. Qed.

Lemma keeps_payload_trans b0 bs m1 m2 m3 :
  keeps_payload b0 bs m1 m2 -> keeps_payload b0 bs m2 m3 -> keeps_payload b0 bs m1 m3.
Proof. intros H1 H2 i Hi. rewrite H2 by done. by apply H1. Qed.

Lemma payload_not_free_header b0 pre s post i :
  good_sizes (pre ++ Free s :: post) -> payload b0 (pre ++ Free s :: post) i ->
  ~ (b0 + total pre <= i < b0 + total pre + s).
Proof.
  intros [Hp [? Hq]%good_sizes_cons]%good_sizes_app [Hi|Hi]%payload_app; simpl in *.
  - apply payload_range in Hi; [lia|done].
  - apply payload_range in Hi; [lia|done].
Qed.

(** * The link to the rest of the free list *)

(** [link_prev] makes the last free block of [pre], or the list head, point to [y]. *)
Lemma link_prev_ok s b0 pre x y :
  good_sizes pre -> 0 < b0 -> mapped (hmem s) b0 (total pre) -> 0 <= y < 2 ^ 64 ->
  blocks_ok (hmem s) b0 pre x -> hp_free_list (hp s) = nextf b0 pre x ->
  exists m', link_prev (lastf b0 pre 0) y s =
               Ok tt (HeapState (with_free_list (hp s) (nextf b0 pre y)) m') /\
    blocks_ok m' b0 pre y /\ same_outside (hmem s) m' b0 (total pre) /\
    same_dom (hmem s) m' /\ keeps_payload b0 pre (hmem s) m'.
Proof.
  intros Hg Hb0 Hm Hy Hb Hl. destruct (last_free_cases pre) as [Hu|(p & t & us & -> & Hu)].
  - exists (hmem s). rewrite lastf_used, nextf_used by done. split_and!; try done.
    by eapply blocks_ok_used.
  - apply good_sizes_app in Hg as [Hp [Ht Hus]%good_sizes_cons]. simpl in Ht.
    destruct Ht as [Ht1 Ht2]. pose proof (total_nonneg p Hp). pose proof (total_nonneg us Hus).
    rewrite !nextf_app in *. simpl in *. rewrite lastf_app. simpl. rewrite lastf_used by done.
    unfold link_prev. replace (truth (b0 + total p)) with true
      by (symmetry; apply truth_true; lia).
    rewrite total_app in *. simpl in *.
    destruct (hst_ok 8 (fb_next (b0 + total p)) y s) as (m' & -> & Hld & Ho & Hd).
    { eapply mapped_sub; [exact Hm|unfold fb_next; lia|unfold fb_next; lia]. }
    unfold fb_next in *. exists m'. split_and!.
    + unfold set_hmem. rewrite <- Hl. by destruct s as [[] ?].
    + apply blocks_ok_app in Hb as [Hb1 [Hb2 Hb3]]. simpl in *. apply blocks_ok_app. simpl. split.
      { eapply blocks_ok_same; [done|exact Ho|lia|done]. }
      split.
      * unfold blk_ok, fb_magic, fb_size, fb_next in *. destruct Hb2 as (? & ? & ?).
        rewrite !(mload_same_outside 4 _ _ _ _ _ Ho) by lia. rewrite nextf_used by done.
        split_and!; try done. rewrite Hld. f_equal. apply Z.mod_small. done.
      * eapply blocks_ok_used; [done|]. eapply blocks_ok_same; [done|exact Ho|lia|done].
    + eapply same_outside_weaken; [exact Ho|lia|lia].
    + done.
    + eapply keeps_payload_outside; [exact Ho|]. intros i Hi ?.
      eapply (payload_not_free_header b0 p t us i); [|done|lia].
      by apply good_sizes_app; split; [|apply good_sizes_cons].
Qed.

(** * Allocation *)

Fixpoint nfree (bs : list blk) : nat :=
  match bs with [] => O | Free _ :: r => S (nfree r) | Used _ :: r => nfree r end.

Lemma truth_pos x : 0 < x -> truth x = true.
Proof. intros. apply truth_true. lia. Qed.

Lemma nfree_total bs : good_sizes bs -> 16 * Z.of_nat (nfree bs) <= total bs.
Proof. induction 1 as [|[s|s] bs [? ?] Hbs IH]; simpl in *; lia. Qed.

(** The search passes over blocks that are used or too small. *)
Lemma alloc_loop_skip k need s pre rest nx a prev :
  good_sizes pre -> 0 < a -> blocks_ok (hmem s) a (pre ++ rest) nx ->
  Forall (fun b => is_free b = true -> bsize b < need) pre ->
  alloc_loop (nfree pre + k) need prev (nextf a (pre ++ rest) nx) s =
  alloc_loop k need (lastf a pre prev) (nextf (a + total pre) rest nx) s.
Proof.
  intros Hg. revert a prev. induction Hg as [|b pre [? ?] Hp IH]; intros a prev Ha Hb Hf.
  { simpl. by rewrite Z.add_0_r. }
  apply Forall_cons in Hf as [Hn Hf]. simpl in Hb. destruct Hb as [Hb Hr].
  destruct b as [t|t]; simpl in *; rewrite Z.add_assoc; [apply IH; [lia|done|done]|].
  rewrite truth_pos by done. simpl. destruct Hb as (_ & Hs & Hnx).
  mstep (hld_ok _ _ _ _ Hs). replace (need <=? t) with false
    by (symmetry; apply Z.leb_gt; by apply Hn).
  mstep (hld_ok _ _ _ _ Hnx). apply IH; [lia|done|done].
Qed.

(** A search that found nothing leaves the heap alone. *)
Lemma alloc_loop_none k need s bs a prev :
  good_sizes bs -> 0 < a -> blocks_ok (hmem s) a bs 0 ->
  Forall (fun b => is_free b = true -> bsize b < need) bs ->
  alloc_loop (nfree bs + S k) need prev (nextf a bs 0) s = Ok 0 s.
Proof.
  intros. rewrite <- (app_nil_r bs) at 2.
  rewrite alloc_loop_skip by (try rewrite app_nil_r; done). done.
Qed.

(** What is left of a free block of [sz] bytes after [need] are taken from it. *)
Definition remainder (sz need : Z) : list blk :=
  if sz =? need then [] else [Free (sz - need)].

Lemma remainder_good sz need :
  good_size sz -> good_size need -> need <= sz ->
  good_sizes (remainder sz need) /\ total (remainder sz need) = sz - need.
Proof.
  intros [? Hs] [? Hn] Hle. unfold remainder. destruct (Z.eqb_spec sz need).
  - split; [by constructor|simpl; lia].
  - simpl. split; [|lia]. apply good_sizes_cons. split; [|by constructor].
    assert ((sz - need) mod 16 = 0) by (rewrite Zminus_mod, Hs, Hn; done).
    pose proof (Z.div_mod (sz - need) 16 ltac:(lia)). split; simpl; lia.
Qed.

(** Rewriting size and link of a free header. *)
Lemma update_free_header (s : heap_state) q sz nx :
  mapped (hmem s) q 16 -> 0 <= sz < 2 ^ 32 -> 0 <= nx < 2 ^ 64 ->
  mload 4 (fb_magic q) (hmem s) = Some MINIHEAP_MAGIC_FREE ->
  exists m1 m2,
    hst 4 (fb_size q) sz s = Ok tt (set_hmem s m1) /\
    hst 8 (fb_next q) nx (set_hmem s m1) = Ok tt (set_hmem s m2) /\
    same_outside (hmem s) m1 (fb_size q) 4 /\ same_outside (hmem s) m2 q 16 /\
    same_dom (hmem s) m2 /\ blk_ok m2 q (Free sz) nx.
Proof.
  intros Hm Hsz Hnx Hmg. unfold blk_ok, fb_magic, fb_size, fb_next in *.
  destruct (hst_ok 4 (q + 4) sz s) as (m1 & E1 & L1 & O1 & D1).
  { eapply mapped_sub; [exact Hm|lia|lia]. }
  destruct (hst_ok 8 (q + 8) nx (set_hmem s m1)) as (m2 & E2 & L2 & O2 & D2).
  { eapply mapped_same_dom; [exact D1|]. eapply mapped_sub; [exact Hm|lia|lia]. }
  simpl in O2, D2. exists m1, m2. split_and!; try done.
  - eapply same_outside_trans; eapply same_outside_weaken; [exact O1|lia|lia|exact O2|lia|lia].
  - etrans; [exact D1|exact D2].
  - rewrite (mload_same_outside 4 _ _ _ _ _ O2), (mload_same_outside 4 _ _ _ _ _ O1) by lia. done.
  - rewrite (mload_same_outside 4 _ _ _ _ _ O2) by lia. rewrite L1. f_equal. by apply Z.mod_small.
  - rewrite L2. f_equal. by apply Z.mod_small.
Qed.

(** Writing the header of the free block that remains after a split. *)
Lemma write_free_header (s : heap_state) q sz nx :
  mapped (hmem s) q 16 -> 0 <= sz < 2 ^ 32 -> 0 <= nx < 2 ^ 64 ->
  exists m1 m2 m3,
    hst 4 (fb_magic q) MINIHEAP_MAGIC_FREE s = Ok tt (set_hmem s m1) /\
    hst 4 (fb_size q) sz (set_hmem s m1) = Ok tt (set_hmem s m2) /\
    hst 8 (fb_next q) nx (set_hmem s m2) = Ok tt (set_hmem s m3) /\
    same_outside (hmem s) m1 q 16 /\ same_outside (hmem s) m2 q 16 /\
    same_outside (hmem s) m3 q 16 /\ same_dom (hmem s) m3 /\ blk_ok m3 q (Free sz) nx.
Proof.
  intros Hm Hsz Hnx.
  destruct (hst_ok 4 (fb_magic q) MINIHEAP_MAGIC_FREE s) as (m1 & E1 & L1 & O1 & D1).
  { eapply mapped_sub; [exact Hm|unfold fb_magic; lia..]. }
  destruct (update_free_header (set_hmem s m1) q sz nx) as (m2 & m3 & E2 & E3 & O2 & O3 & D3 & B);
    try done.
  { by eapply mapped_same_dom. }
  assert (same_outside (hmem s) m1 q 16) as S1
    by (eapply same_outside_weaken; [exact O1|unfold fb_magic; lia..]).
  exists m1, m2, m3. split_and!; try done; try (by destruct B as (? & ? & ?)).
  - eapply same_outside_trans; [exact S1|].
    eapply same_outside_weaken; [exact O2|unfold fb_size; lia..].
  - eapply same_outside_trans; [exact S1|exact O3].
  - etrans; [exact D1|exact D3].
Qed.

(** Up to the final link: the free block at [a] is cut to [need] bytes. *)
Lemma take_block_cut s a sz need post prev :
  good_size need -> good_size sz -> good_sizes post -> need <= sz -> sz < 2 ^ 32 -> 0 < a ->
  a + sz + total post < 2 ^ 64 -> mapped (hmem s) a sz ->
  blocks_ok (hmem s) a (Free sz :: post) 0 ->
  let rest := remainder sz need ++ post in
  exists m1, take_block need sz prev a s = link_prev prev (nextf (a + need) rest 0) (set_hmem s m1) /\
    blocks_ok m1 (a + need) rest 0 /\ same_outside (hmem s) m1 (a + need) (sz - need) /\
    same_dom (hmem s) m1.
Proof.
  intros [Hn1 Hn2] [Hs1 Hs2] Hp Hle H32 Ha Htop Hm [Hb Hr]. simpl in Hb, Hr.
  destruct Hb as (_ & Hsz & Hnx). unfold take_block, remainder.
  destruct (Z.eqb_spec sz need) as [->|Hne]; simpl.
  { exists (hmem s). mstep (hld_ok _ _ _ _ Hnx). split_and!; try done. by destruct s. }
  pose proof (total_nonneg post Hp).
  assert (need + 16 <= sz) as Hge.
  { pose proof (Z.div_mod sz 16 ltac:(lia)). pose proof (Z.div_mod need 16 ltac:(lia)). lia. }
  rewrite (wrap_small 64 (a + need)) by lia.
  assert (0 <= nextf (a + sz) post 0 < 2 ^ 64) as Hnr
    by (destruct (nextf_range (a + sz) post 0 Hp); lia).
  destruct (write_free_header s (a + need) (sz - need) (nextf (a + sz) post 0))
    as (m1 & m2 & m3 & E1 & E2 & E3 & O1 & O2 & O3 & D3 & B3); try lia.
  { eapply mapped_sub; [exact Hm|lia|lia]. }
  exists m3. mstep E1.
  rewrite (bind_Ok _ _ _ sz (set_hmem s m1)); cbn beta.
  2: { apply hld_ok. simpl. rewrite (mload_same_outside 4 _ _ _ _ _ O1); [done|unfold fb_size; lia]. }
  rewrite (wrap_small 32 (sz - need)) by lia. mstep E2.
  rewrite (bind_Ok _ _ _ (nextf (a + sz) post 0) (set_hmem s m2)); cbn beta.
  2: { apply hld_ok. simpl. rewrite (mload_same_outside 8 _ _ _ _ _ O2); [done|unfold fb_next; lia]. }
  mstep E3. replace (a + need + (sz - need)) with (a + sz) by lia.
  split_and!; try done; [by destruct B3 as (? & ? & ?)|by destruct B3 as (? & ? & ?)
    |by destruct B3 as (? & ? & ?)| |].
  - eapply blocks_ok_same; [done|exact O3|lia|done].
  - eapply same_outside_weaken; [exact O3|lia|lia].
Qed.

(** The search loop at the block it takes. *)
Lemma alloc_loop_take k need s b0 pre sz post :
  good_sizes (pre ++ Free sz :: post) -> good_size need -> need <= sz -> 0 < b0 ->
  b0 + total (pre ++ Free sz :: post) < 2 ^ 64 -> sz < 2 ^ 32 ->
  mapped (hmem s) b0 (total (pre ++ Free sz :: post)) ->
  blocks_ok (hmem s) b0 (pre ++ Free sz :: post) 0 ->
  hp_free_list (hp s) = nextf b0 (pre ++ Free sz :: post) 0 ->
  let a := b0 + total pre in
  let rest := remainder sz need ++ post in
  exists m', alloc_loop (S k) need (lastf b0 pre 0) a s =
      Ok a (HeapState (with_free_list (hp s) (nextf b0 pre (nextf (a + need) rest 0))) m') /\
    blocks_ok m' b0 pre (nextf (a + need) rest 0) /\ blocks_ok m' (a + need) rest 0 /\
    same_dom (hmem s) m' /\ keeps_payload b0 (pre ++ Free sz :: post) (hmem s) m'.
Proof.
  intros Hg Hn Hle Hb0 Htop H32 Hm Hb Hl a rest.
  pose proof Hg as [Hp [Hs Hq]%good_sizes_cons]%good_sizes_app. simpl in Hs.
  pose proof (total_nonneg pre Hp). pose proof (total_nonneg post Hq).
  destruct (remainder_good sz need Hs Hn Hle) as [Hgr Htr].
  assert (good_sizes rest /\ total rest = sz - need + total post) as [Hgrest Htrest].
  { subst rest. rewrite total_app, Htr. split; [by apply good_sizes_app|done]. }
  apply blocks_ok_app in Hb as [Hb1 Hb2]. rewrite total_app in *. simpl in Hm, Htop, Hb1.
  rewrite nextf_app in Hl. simpl in Hl. cbn [alloc_loop]. rewrite truth_pos by (subst a; lia). cbn.
  pose proof Hb2 as [(_ & Hsz & _) _]. mstep (hld_ok _ _ _ _ Hsz).
  replace (need <=? sz) with true by lia.
  destruct (take_block_cut s a sz need post (lastf b0 pre 0)) as (m1 & E1 & B1 & O1 & D1);
    try done; try (subst a; lia).
  { eapply mapped_sub; [exact Hm|subst a; lia|subst a; lia]. }
  destruct Hn as [? ?], Hs as [? ?].
  destruct (link_prev_ok (set_hmem s m1) b0 pre (b0 + total pre) (nextf (a + need) rest 0))
    as (m2 & E2 & B2 & O2 & D2 & K2); try done; simpl.
  { eapply mapped_same_dom; [exact D1|]. eapply mapped_sub; [exact Hm|lia|lia]. }
  { destruct (nextf_range (a + need) rest 0 Hgrest); subst a; lia. }
  { eapply blocks_ok_same; [done|exact O1|subst a; lia|exact Hb1]. }
  exists m2. split_and!; try done.
  - by rewrite (bind_Ok _ _ _ _ _ (eq_trans E1 E2)).
  - eapply blocks_ok_same; [done|exact O2|subst a; lia|done].
  - etrans; [exact D1|exact D2].
  - intros i Hi. pose proof (payload_not_free_header _ _ _ _ _ Hg Hi).
    rewrite payload_app in Hi. destruct Hi as [Hi|Hi].
    + rewrite (K2 i Hi). apply O1. apply payload_range in Hi; [subst a; lia|done].
    + apply payload_range in Hi; [|by apply good_sizes_cons]. simpl in Hi.
      rewrite (O2 i) by lia. apply O1. subst a; lia.
Qed.

(** Size of the block that serves a request: rounded up to 16, plus the header. *)
Definition need (size : Z) : Z := 16 * ((size + 15) / 16) + 16.

Lemma round_request_ok size :
  0 <= size <= 2 ^ 32 - 16 -> round_request MINIHEAP_ALIGNMENT size = 16 * ((size + 15) / 16).
Proof.
  intros H. unfold round_request, MINIHEAP_ALIGNMENT.
  replace (size + 16 - 1) with (size + 15) by lia.
  rewrite (wrap_small 64) by lia. change (16 - 1) with (2 ^ 4 - 1).
  rewrite land_bnot_round by lia. change (2 ^ 4) with 16. apply wrap_small.
  pose proof (Z.div_mod (size + 15) 16 ltac:(lia)).
  pose proof (Z.mod_pos_bound (size + 15) 16 ltac:(lia)). lia.
Qed.

Lemma need_good size : 0 < size -> good_size (need size) /\ size + 16 <= need size < size + 32.
Proof.
  intros. unfold need, good_size.
  pose proof (Z.div_mod (size + 15) 16 ltac:(lia)).
  pose proof (Z.mod_pos_bound (size + 15) 16 ltac:(lia)).
  split_and!; try lia.
  rewrite <- Zplus_mod_idemp_r. change (16 mod 16) with 0.
  by rewrite Z.add_0_r, Z.mul_comm, Z_mod_mult.
Qed.

Lemma free_total_ge n bs :
  good_sizes bs -> free_total bs < n -> spec_alloc n bs = None.
Proof.
  intros Hg Hlt. apply spec_alloc_None_iff. induction Hg as [|[t|t] bs [? ?] Hbs IH]; [by constructor| |].
  - constructor; [done|]. apply IH. simpl in Hlt. lia.
  - simpl in *. pose proof (free_total_bounds bs Hbs). constructor; [simpl; lia|]. apply IH. lia.
Qed.

(** Turning the block just taken into a used one. *)
Lemma write_used_header (s : heap_state) a sz :
  mapped (hmem s) a 16 -> 0 <= sz < 2 ^ 32 ->
  exists m1 m2,
    hst 4 (fb_magic a) MINIHEAP_MAGIC_USED s = Ok tt (set_hmem s m1) /\
    hst 4 (fb_size a) sz (set_hmem s m1) = Ok tt (set_hmem s m2) /\
    same_outside (hmem s) m2 a 8 /\ same_dom (hmem s) m2 /\ forall nx, blk_ok m2 a (Used sz) nx.
Proof.
  intros Hm Hsz. unfold blk_ok, fb_magic, fb_size.
  destruct (hst_ok 4 a MINIHEAP_MAGIC_USED s) as (m1 & E1 & L1 & O1 & D1).
  { eapply mapped_sub; [exact Hm|lia|lia]. }
  destruct (hst_ok 4 (a + 4) sz (set_hmem s m1)) as (m2 & E2 & L2 & O2 & D2).
  { eapply mapped_same_dom; [exact D1|]. eapply mapped_sub; [exact Hm|lia|lia]. }
  simpl in O2, D2. exists m1, m2. split_and!; try done.
  - eapply same_outside_trans.
    + eapply same_outside_weaken; [exact O1|lia|lia].
    + eapply same_outside_weaken; [exact O2|lia|lia].
  - etrans; [exact D1|exact D2].
  - intros _. split; [|rewrite L2; f_equal; by apply Z.mod_small].
    rewrite (mload_same_outside 4 _ _ _ _ _ O2) by lia. rewrite L1. done.
Qed.

(** The search: first fit, on the memory representation. *)
Lemma alloc_search b0 bs s n :
  repr b0 bs s -> good_size n ->
  match spec_alloc n bs with
  | None => alloc_loop (walk_fuel s) n 0 (hp_free_list (hp s)) s = Ok 0 s
  | Some (off, bs') =>
      exists pre sz post m', bs = pre ++ Free sz :: post /\ n <= sz /\ off = total pre /\
        bs' = pre ++ Used n :: remainder sz n ++ post /\
        let a := b0 + off in
        let nx := nextf (a + n) (remainder sz n ++ post) 0 in
        alloc_loop (walk_fuel s) n 0 (hp_free_list (hp s)) s =
          Ok a (HeapState (with_free_list (hp s) (nextf b0 pre nx)) m') /\
        blocks_ok m' b0 pre nx /\ blocks_ok m' (a + n) (remainder sz n ++ post) 0 /\
        same_dom (hmem s) m' /\ keeps_payload b0 bs (hmem s) m'
  end.
Proof.
  intros R Hn. destruct R as [[Hbase Hsize Halign Hl Hb0 Htop H32 Hg Hm Hb] Hfree Hc].
  assert (nfree bs <= Z.to_nat (hp_size (hp s) / 16))%nat as Hfuel.
  { pose proof (nfree_total bs Hg). rewrite Hsize.
    pose proof (Z.div_le_mono (16 * Z.of_nat (nfree bs)) (total bs) 16 ltac:(lia) ltac:(lia)).
    rewrite Z.mul_comm, Z.div_mul in H0 by lia. lia. }
  rewrite Hl. destruct (spec_alloc n bs) as [[off bs']|] eqn:E.
  - apply spec_alloc_split in E as (pre & sz & post & -> & Hle & Hsmall & -> & ->).
    pose proof Hg as [Hp [Hs Hq]%good_sizes_cons]%good_sizes_app. rewrite total_app in H32.
    simpl in H32. pose proof (total_nonneg pre Hp). pose proof (total_nonneg post Hq).
    assert (nfree pre <= Z.to_nat (hp_size (hp s) / 16))%nat.
    { etrans; [|exact Hfuel]. clear. induction pre as [|[]]; simpl; lia. }
    replace (walk_fuel s) with (nfree pre + S (Z.to_nat (hp_size (hp s) / 16) - nfree pre))%nat
      by (unfold walk_fuel; lia).
    destruct (alloc_loop_take (Z.to_nat (hp_size (hp s) / 16) - nfree pre) n s b0 pre sz post)
      as (m' & E1 & B1 & B2 & D1 & K1); try done; [lia|].
    exists pre, sz, post, m'. cbv zeta. split_and!; try done.
    rewrite alloc_loop_skip by done. exact E1.
  - apply spec_alloc_None in E.
    replace (walk_fuel s) with (nfree bs + S (Z.to_nat (hp_size (hp s) / 16) - nfree bs))%nat
      by (unfold walk_fuel; lia).
    by apply alloc_loop_none.
Qed.

(** The end of [miniheap_alloc], once the search has taken a block. *)
Lemma alloc_finish b0 pre sz post s n m' :
  let bs := pre ++ Free sz :: post in
  let rest := remainder sz n ++ post in
  let a := b0 + total pre in
  let nx := nextf (a + n) rest 0 in
  let s1 := HeapState (with_free_list (hp s) (nextf b0 pre nx)) m' in
  repr b0 bs s -> good_size n -> n <= sz -> coalesced (pre ++ Used n :: rest) ->
  blocks_ok m' b0 pre nx -> blocks_ok m' (a + n) rest 0 -> same_dom (hmem s) m' ->
  exists m2,
    (hst 4 (fb_magic a) MINIHEAP_MAGIC_USED ;; hst 4 (fb_size a) n)
      (set_hp s1 (with_free_bytes (hp s1) (free_total bs - n))) =
      Ok tt (HeapState (with_free_bytes (hp s1) (free_total bs - n)) m2) /\
    repr b0 (pre ++ Used n :: rest) (HeapState (with_free_bytes (hp s1) (free_total bs - n)) m2) /\
    same_dom (hmem s) m2 /\ same_outside m' m2 a 16.
Proof.
  intros bs rest a nx s1 R Hn Hle Hc' B1 B2 D1. subst bs rest s1.
  destruct R as [[Hbase Hsize Halign Hl Hb0 Htop H32 Hg Hm _] Hfree _].
  pose proof Hg as [Hp [Hgs Hq]%good_sizes_cons]%good_sizes_app. simpl in Hgs.
  destruct (remainder_good sz n Hgs Hn Hle) as [Hgr Htr].
  pose proof (total_nonneg pre Hp). pose proof (total_nonneg post Hq). destruct Hn as [? ?].
  assert (total (pre ++ Used n :: remainder sz n ++ post) = total (pre ++ Free sz :: post)) as Ht'.
  { rewrite !total_app. simpl. rewrite total_app. lia. }
  rewrite (total_app pre) in Hm, Htop, H32, Hsize. simpl in Hm, Htop, H32, Hsize.
  edestruct (write_used_header (set_hp (HeapState (with_free_list (hp s) (nextf b0 pre nx)) m')
    (with_free_bytes (with_free_list (hp s) (nextf b0 pre nx)) (free_total (pre ++ Free sz :: post) - n)))
    a n) as (m1 & m2 & E1 & E2 & O2 & D2 & B); simpl.
  { eapply mapped_same_dom; [exact D1|]. eapply mapped_sub; [exact Hm|subst a; lia|subst a; lia]. }
  { lia. }
  simpl in O2, D2. exists m2. split_and!.
  - mstep E1. exact E2.
  - split; [split|..]; simpl; try rewrite Ht', total_app; simpl; try done; try lia.
    + by rewrite nextf_app.
    + apply good_sizes_app. split; [done|]. apply good_sizes_cons. split; [done|].
      by apply good_sizes_app.
    + eapply mapped_same_dom; [|exact Hm]. etrans; [exact D1|exact D2].
    + apply blocks_ok_app. simpl. split; [|split].
      * eapply blocks_ok_same; [done|exact O2|subst a; lia|done].
      * apply (B 0).
      * eapply blocks_ok_same; [by apply good_sizes_app|exact O2|subst a; lia|done].
    + rewrite !free_total_app. simpl. rewrite free_total_app. unfold remainder.
      destruct (Z.eqb_spec sz n); simpl; lia.
  - etrans; [exact D1|exact D2].
  - eapply same_outside_weaken; [exact O2|lia|lia].
Qed.

Theorem alloc_refines b0 bs s size :
  repr b0 bs s -> 0 < size <= 2 ^ 32 - 32 ->
  match spec_alloc (need size) bs with
  | None => miniheap_alloc size s = Ok 0 s
  | Some (off, bs') =>
      exists s', miniheap_alloc size s = Ok (b0 + off + 16) s' /\ repr b0 bs' s' /\
                 same_dom (hmem s) (hmem s') /\ keeps_payload b0 bs (hmem s) (hmem s')
  end.
Proof.
  intros R Hsz. destruct (need_good size) as [Hng Hnb]; [lia|].
  pose proof (alloc_search b0 bs s (need size) R Hng) as Hs.
  pose proof R as [[Hbase Hsize Halign Hl Hb0 Htop H32 Hg Hm Hb] Hfree Hc].
  unfold miniheap_alloc. rewrite bind_gets, Halign, round_request_ok by lia.
  replace (16 * ((size + 15) / 16)) with (need size - 16) by (unfold need; lia).
  destruct (Z.eqb_spec (need size - 16) 0); [lia|].
  rewrite header_size, (wrap_small 32) by lia.
  replace (need size - 16 + 16) with (need size) by lia. rewrite Hfree.
  destruct (Z.ltb_spec (free_total bs) (need size)).
  { by rewrite free_total_ge by done. }
  rewrite bind_gets. destruct (spec_alloc (need size) bs) as [[off bs']|] eqn:E; [|by mstep Hs].
  destruct Hs as (pre & sz & post & m' & -> & Hle & -> & -> & E1 & B1 & B2 & D1 & K1).
  pose proof (free_total_bounds _ Hg). pose proof (total_nonneg pre ltac:(by apply good_sizes_app in Hg as [? _])).
  mstep E1. rewrite truth_pos by lia. cbn [negb]. rewrite bind_gets. simpl hp_free_bytes.
  rewrite Hfree, (wrap_small 64 (free_total _ - _)) by lia. unfold set_free_bytes. rewrite bind_modify.
  edestruct (alloc_finish b0 pre sz post s (need size) m') as (m2 & E2 & R2 & D2 & O2);
    try done; [by eapply spec_alloc_coalesced|].
  eexists. split; [|split; [exact R2|split; [done|]]].
  - apply bind_inv_Ok in E2 as ([] & s3 & E2 & E3). cbn in E2, E3. mstep E2. mstep E3.
    rewrite wrap_small; [done|].
    rewrite total_app in Htop. simpl in Htop.
    pose proof Hg as [_ [[? _] Hq]%good_sizes_cons]%good_sizes_app. simpl in *.
    pose proof (total_nonneg post Hq). lia.
  - intros i Hi. simpl. rewrite (O2 i); [by apply K1|].
    pose proof (payload_not_free_header _ _ _ _ _ Hg Hi).
    pose proof Hg as [_ [[? _] Hq]%good_sizes_cons]%good_sizes_app. simpl in *. lia.
Qed.

(** * Release *)

(** The search stops right after the blocks below [block]. *)
Lemma free_loop_skip k s pre rest nx a prev block rear :
  good_sizes pre -> 0 < a -> a + total pre <= block -> block < rear ->
  blocks_ok (hmem s) a (pre ++ rest) nx ->
  free_loop (nfree pre + k) block rear prev (nextf a (pre ++ rest) nx) s =
  free_loop k block rear (lastf a pre prev) (nextf (a + total pre) rest nx) s.
Proof.
  intros Hg. revert a prev. induction Hg as [|b pre [? ?] Hp IH]; intros a prev Ha Hle Hr Hb.
  { simpl. by rewrite Z.add_0_r. }
  pose proof (total_nonneg pre Hp). simpl in Hb. destruct Hb as [Hb Hrest].
  destruct b as [t|t]; simpl in *; rewrite Z.add_assoc; [apply IH; [lia|lia|done|done]|].
  rewrite truth_pos by done. replace (a <? block) with true by lia.
  replace (rear <=? a) with false by lia. simpl. destruct Hb as (_ & Hs & Hnx).
  mstep (hld_ok _ _ _ _ Hnx). apply IH; [lia|lia|done|done].
Qed.

Lemma free_loop_stop k s block rear prev nx :
  nx = 0 \/ block <= nx -> free_loop (S k) block rear prev nx s = Ok (prev, nx) s.
Proof.
  intros H. cbn. destruct (truth nx && (nx <? block)) eqn:E; [|done].
  apply andb_true_iff in E as [?%truth_true ?]. lia.
Qed.

Lemma free_search b0 pre sz post s :
  layout b0 (pre ++ Used sz :: post) s ->
  let block := b0 + total pre in
  free_loop (walk_fuel s) block (block + sz) 0 (hp_free_list (hp s)) s =
  Ok (lastf b0 pre 0, nextf (block + sz) post 0) s.
Proof.
  intros [_ Hsize _ Hl Hb0 _ _ Hg _ Hb] block.
  pose proof Hg as [Hp [[? ?] Hq]%good_sizes_cons]%good_sizes_app. cbn [bsize] in *.
  assert (nfree pre <= Z.to_nat (hp_size (hp s) / 16))%nat.
  { pose proof (nfree_total _ Hp). pose proof (total_nonneg post Hq).
    rewrite Hsize, total_app. simpl. apply Nat2Z.inj_le. rewrite Z2Nat.id.
    - apply Z.div_le_lower_bound; lia.
    - apply Z.div_pos; lia. }
  replace (walk_fuel s) with (nfree pre + S (Z.to_nat (hp_size (hp s) / 16) - nfree pre))%nat
    by (unfold walk_fuel; lia).
  rewrite Hl, free_loop_skip by (done || (subst block; lia)). cbn [nextf].
  apply free_loop_stop. destruct (nextf_range (block + sz) post 0 Hq); subst block; lia.
Qed.

(** [prev] touches [block] exactly when the last block before it is free. *)
Lemma prev_adjacent_ok b0 pre nx s :
  good_sizes pre -> 0 < b0 -> b0 + total pre < 2 ^ 64 -> blocks_ok (hmem s) b0 pre nx ->
  prev_adjacent (lastf b0 pre 0) (b0 + total pre) s =
  Ok (match last pre with Some (Free _) => true | _ => false end) s.
Proof.
  intros Hg Hb0 Htop Hb. destruct (last_free_cases pre) as [Hu|(p & t & us & -> & Hu)].
  - rewrite lastf_used by done. unfold prev_adjacent. cbn.
    destruct (last pre) as [[u|u]|] eqn:E; [done| |done].
    apply last_Some_elem_of in E. rewrite Forall_forall in Hu. by specialize (Hu _ E).
  - pose proof Hg as [Hp [[? ?] Hus]%good_sizes_cons]%good_sizes_app. simpl in *.
    pose proof (total_nonneg p Hp). pose proof (total_nonneg us Hus).
    rewrite lastf_app. simpl. rewrite lastf_used by done. rewrite total_app in *. simpl in *.
    apply blocks_ok_app in Hb as [_ [(_ & Hs & _) _]]. unfold prev_adjacent.
    rewrite truth_pos by lia. mstep (hld_ok _ _ _ _ Hs). rewrite wrap_small by lia.
    unfold mret, M_ret. f_equal. destruct us as [|u us _] using rev_ind.
    + rewrite last_snoc. simpl. lia.
    + apply good_sizes_app in Hus as [Hus [[? ?] _]%good_sizes_cons].
      pose proof (total_nonneg us Hus).
      change (Free t :: us ++ [u]) with ((Free t :: us) ++ [u]). rewrite app_assoc, last_snoc.
      rewrite Forall_app, Forall_singleton in Hu. destruct Hu as [_ Hu].
      rewrite total_app in *. simpl in *. destruct u as [u|u]; [simpl in *|done]. lia.
Qed.

(** Merging the released block into the free block before it. *)
Lemma free_insert_merge b0 p t sz post s :
  let block := b0 + total p + t in
  let nx := nextf (block + sz) post 0 in
  good_sizes (p ++ [Free t]) -> good_sizes post -> good_size sz -> 0 < b0 ->
  block + sz + total post < 2 ^ 64 -> total p + t + sz < 2 ^ 32 ->
  mapped (hmem s) b0 (total p + t) ->
  blocks_ok (hmem s) b0 (p ++ [Free t]) nx -> blocks_ok (hmem s) (block + sz) post 0 ->
  exists m', free_insert block (block + sz) sz (b0 + total p) nx s =
      Ok (b0 + total p, b0 + total p + (t + sz)) (set_hmem s m') /\
    blocks_ok m' b0 (p ++ Free (t + sz) :: post) 0 /\ same_dom (hmem s) m' /\
    same_outside (hmem s) m' (b0 + total p) 16.
Proof.
  intros block nx Hg Hq [Hz1 Hz2] Hb0 Htop H32 Hm Hb Hbq.
  pose proof Hg as [Hp [[Ht1 Ht2] _]%good_sizes_cons]%good_sizes_app. simpl in Ht1.
  pose proof (total_nonneg p Hp). pose proof (total_nonneg post Hq).
  assert (b0 + total (p ++ [Free t]) = block) as Hbl by (subst block; rewrite total_app; simpl; lia).
  pose proof (prev_adjacent_ok b0 (p ++ [Free t]) nx s Hg Hb0 ltac:(lia) Hb) as Hadj.
  rewrite last_snoc, lastf_app, Hbl in Hadj. simpl in Hadj.
  apply blocks_ok_app in Hb as [Hb1 [(Hmg & Hs & Hn) _]]. simpl in Hb1, Hn.
  destruct (hst_ok 4 (fb_size (b0 + total p)) (t + sz) s) as (m' & E & L & O & D).
  { eapply mapped_sub; [exact Hm|unfold fb_size; lia|unfold fb_size; lia]. }
  unfold fb_size, fb_magic, fb_next in *.
  assert (mload 4 (b0 + total p + 4) m' = Some (t + sz)) as L'
    by (rewrite L; f_equal; apply Z.mod_small; change (256 ^ Z.of_nat 4) with (2 ^ 32); lia).
  exists m'. split_and!.
  - unfold free_insert. mstep Hadj. cbn [negb]. mstep (hld_ok _ _ _ _ Hs).
    rewrite (wrap_small 32) by lia. mstep E.
    rewrite (bind_Ok _ _ _ (t + sz) (set_hmem s m')) by (by apply hld_ok). cbn beta.
    by rewrite wrap_small by (subst block; lia).
  - apply blocks_ok_app. simpl. split; [|split].
    + eapply blocks_ok_same; [done|exact O|lia|done].
    + unfold blk_ok, fb_magic, fb_size, fb_next.
      rewrite (mload_same_outside 4 _ _ _ _ _ O), (mload_same_outside 8 _ _ _ _ _ O) by lia.
      split_and!; [done|done|]. rewrite Hn. subst nx block. do 2 f_equal. lia.
    + replace (b0 + total p + (t + sz)) with (block + sz) by (subst block; lia).
      eapply blocks_ok_same; [done|exact O|subst block; lia|done].
  - done.
  - eapply same_outside_weaken; [exact O|lia|lia].
Qed.

(** Linking the released block behind the free block before it, without a merge. *)
Lemma free_insert_link b0 pre sz post s :
  let block := b0 + total pre in
  let nx := nextf (block + sz) post 0 in
  good_sizes pre -> good_sizes post -> good_size sz -> 0 < b0 ->
  block + sz + total post < 2 ^ 64 -> sz < 2 ^ 32 -> (forall t, last pre <> Some (Free t)) ->
  mapped (hmem s) b0 (total pre + sz) -> hp_free_list (hp s) = nextf b0 pre nx ->
  blocks_ok (hmem s) b0 pre nx -> blocks_ok (hmem s) (block + sz) post 0 ->
  mload 4 (fb_magic block) (hmem s) = Some MINIHEAP_MAGIC_FREE ->
  exists m', free_insert block (block + sz) sz (lastf b0 pre 0) nx s =
      Ok (block, block + sz) (HeapState (with_free_list (hp s) (nextf b0 pre block)) m') /\
    blocks_ok m' b0 (pre ++ Free sz :: post) 0 /\ same_dom (hmem s) m' /\
    keeps_payload b0 (pre ++ Free sz :: post) (hmem s) m'.
Proof.
  intros block nx Hp Hq [Hz1 Hz2] Hb0 Htop H32 Hlast Hm Hl Hb Hbq Hmg.
  pose proof (total_nonneg pre Hp). pose proof (total_nonneg post Hq).
  assert (0 <= nx < 2 ^ 64) as Hnx
    by (destruct (nextf_range (block + sz) post 0 Hq); subst nx block; lia).
  pose proof (prev_adjacent_ok b0 pre nx s Hp Hb0 ltac:(subst block; lia) Hb) as Hadj.
  replace (match last pre with Some (Free _) => true | _ => false end) with false in Hadj
    by (destruct (last pre) as [[t|t]|]; [done|by destruct (Hlast t)|done]).
  destruct (update_free_header s block sz nx) as (m1 & m2 & E1 & E2 & _ & O12 & D2 & B2);
    [eapply mapped_sub; [exact Hm|subst block; lia..]|lia|done|done|].
  destruct (link_prev_ok (set_hmem s m2) b0 pre nx block) as (m3 & E3 & B3 & O3 & D3 & K3);
    try done; try (subst block; simpl; lia); simpl.
  { eapply mapped_same_dom; [exact D2|]. eapply mapped_sub; [exact Hm|lia|lia]. }
  { eapply blocks_ok_same; [done|exact O12|subst block; lia|done]. }
  exists m3. split_and!.
  - unfold free_insert. mstep Hadj. mstep E1. mstep E2. mstep E3. done.
  - apply blocks_ok_app. simpl. split; [done|]. split.
    + apply (blk_ok_same m2 m3 block (Free sz) nx b0 (total pre));
        [split; simpl; lia|done|subst block; lia|done].
    + eapply blocks_ok_same; [done|exact O3|subst block; lia|].
      eapply blocks_ok_same; [done|exact O12|subst block; lia|done].
  - etrans; [exact D2|exact D3].
  - intros i Hi. assert (~ (block <= i < block + sz)) as Hni.
    { eapply payload_not_free_header; [|exact Hi]. apply good_sizes_app. split; [done|].
      by apply good_sizes_cons. }
    apply payload_app in Hi as [Hi|Hi].
    + rewrite (K3 i Hi). apply O12. lia.
    + apply payload_range in Hi; [|by apply good_sizes_cons].
      rewrite (O3 i) by (subst block; lia). apply O12. lia.
Qed.

(** Merging with the free block that follows. *)
Lemma free_merge_ok b0 pre sz post s :
  let block := b0 + total pre in
  let nx := nextf (block + sz) post 0 in
  good_sizes (pre ++ Free sz :: post) -> 0 < b0 ->
  b0 + total (pre ++ Free sz :: post) < 2 ^ 64 -> total (pre ++ Free sz :: post) < 2 ^ 32 ->
  mapped (hmem s) b0 (total (pre ++ Free sz :: post)) ->
  blocks_ok (hmem s) b0 (pre ++ Free sz :: post) 0 ->
  exists m' sz' post', free_merge_next block (block + sz) nx s = Ok tt (set_hmem s m') /\
    ((post' = post /\ sz' = sz /\ forall t, head post <> Some (Free t)) \/
     exists t, post = Free t :: post' /\ sz' = sz + t) /\
    blocks_ok m' b0 (pre ++ Free sz' :: post') 0 /\ same_dom (hmem s) m' /\
    same_outside (hmem s) m' block 16.
Proof.
  intros block nx Hg Hb0 Htop H32 Hm Hb.
  pose proof Hg as [Hp [[Hz1 Hz2] Hq]%good_sizes_cons]%good_sizes_app. simpl in Hz1.
  pose proof (total_nonneg pre Hp). rewrite total_app in *. simpl in *.
  destruct (head_blk_cases post) as [Hh|(t & q & ->)].
  - exists (hmem s), sz, post. split_and!; try done; [|by left].
    unfold free_merge_next. subst nx. destruct post as [|[u|u] q]; [by destruct s| |by destruct (Hh u)].
    apply good_sizes_cons in Hq as [[? ?] Hq]. simpl in *.
    replace (block + sz =? _) with false; [rewrite andb_false_r; by destruct s|].
    destruct (nextf_range (block + sz + u) q 0 Hq); subst block; lia.
  - apply good_sizes_cons in Hq as [[? ?] Hq]. simpl in *. pose proof (total_nonneg q Hq).
    apply blocks_ok_app in Hb as [Hb1 [(Hmg & Hs & _) [(_ & Ht & Hn) Hbq]]]. simpl in *.
    fold block in Hmg, Hs, Ht, Hn, Hbq. subst nx.
    destruct (update_free_header s block (sz + t) (nextf (block + sz + t) q 0))
      as (m1 & m2 & E1 & E2 & O1 & O12 & D2 & B2); try done; try lia.
    { eapply mapped_sub; [exact Hm|subst block; lia..]. }
    { destruct (nextf_range (block + sz + t) q 0 Hq); subst block; lia. }
    exists m2, (sz + t), q. split_and!; [|right; by eexists| |done|done].
    + unfold free_merge_next. rewrite truth_pos by (subst block; lia).
      rewrite Z.eqb_refl. simpl.
      mstep (hld_ok _ _ _ _ Hs). mstep (hld_ok _ _ _ _ Ht). rewrite (wrap_small 32) by lia.
      mstep E1. rewrite (bind_Ok _ _ _ (nextf (block + sz + t) q 0) (set_hmem s m1)); [exact E2|].
      apply hld_ok. simpl. rewrite (mload_same_outside 8 _ _ _ _ _ O1); [done|unfold fb_size, fb_next; lia].
    + apply blocks_ok_app. simpl. fold block. rewrite !Z.add_assoc. split; [|split].
      * eapply blocks_ok_same; [done|exact O12|subst block; lia|done].
      * done.
      * eapply blocks_ok_same; [done|exact O12|lia|done].
Qed.

(** Both ways of inserting the released block: the blocks are then [pre' ++ Free sz' :: post],
    which merge to the same list. *)
Lemma free_insert_ok b0 pre sz post s :
  let bs := pre ++ Free sz :: post in
  let nx := nextf (b0 + total pre + sz) post 0 in
  good_sizes bs -> coalesced pre -> 0 < b0 -> b0 + total bs < 2 ^ 64 -> total bs < 2 ^ 32 ->
  mapped (hmem s) b0 (total bs) -> hp_free_list (hp s) = nextf b0 pre nx ->
  blocks_ok (hmem s) b0 pre nx -> blocks_ok (hmem s) (b0 + total pre + sz) post 0 ->
  mload 4 (fb_magic (b0 + total pre)) (hmem s) = Some MINIHEAP_MAGIC_FREE ->
  exists pre' sz' m',
    let bs' := pre' ++ Free sz' :: post in
    free_insert (b0 + total pre) (b0 + total pre + sz) sz (lastf b0 pre 0) nx s =
      Ok (b0 + total pre', b0 + total pre' + sz')
         (HeapState (with_free_list (hp s) (nextf b0 bs' 0)) m') /\
    b0 + total pre' + sz' = b0 + total pre + sz /\ good_sizes bs' /\ coalesced pre' /\
    (forall t, last pre' <> Some (Free t)) /\ coalesce bs = coalesce bs' /\
    blocks_ok m' b0 bs' 0 /\ same_dom (hmem s) m' /\ keeps_payload b0 bs (hmem s) m' /\
    (pre' = pre \/ b0 + total pre' + 16 <= b0 + total pre /\
       mload 4 (fb_magic (b0 + total pre)) m' = Some MINIHEAP_MAGIC_FREE).
Proof.
  intros bs nx Hg Hc Hb0 Htop H32 Hm Hl Hb Hbq Hmg. subst bs nx.
  pose proof Hg as [Hp [Hz Hq]%good_sizes_cons]%good_sizes_app. simpl in Hz.
  pose proof (total_nonneg pre Hp). pose proof (total_nonneg post Hq). pose proof Hz as [? _].
  rewrite total_app in *. simpl in *.
  destruct (last_blk_cases pre) as [Hlast|(p & t & ->)].
  - destruct (free_insert_link b0 pre sz post s) as (m' & E & B & D & K); try done; try lia.
    { eapply mapped_sub; [exact Hm|lia|lia]. }
    exists pre, sz, m'. cbv zeta. split_and!; try done; [|by left].
    rewrite E. by rewrite nextf_app.
  - pose proof Hp as [Hp' [[Ht ?] _]%good_sizes_cons]%good_sizes_app. simpl in Ht.
    pose proof (total_nonneg p Hp'). rewrite total_app in *. simpl in *. rewrite Z.add_0_r in *.
    rewrite lastf_app. simpl. rewrite !(Z.add_assoc b0 (total p) t) in *.
    destruct (free_insert_merge b0 p t sz post s) as (m' & E & B & D & O); try done; try lia.
    { eapply mapped_sub; [exact Hm|lia|lia]. }
    exists p, (t + sz), m'. cbv zeta. split_and!; try done; try lia.
    + rewrite E. unfold set_hmem. do 2 f_equal. rewrite !nextf_app in *. simpl in *.
      rewrite <- Hl. by destruct s as [[] ?].
    + apply good_sizes_app. split; [done|]. apply good_sizes_cons. split; [|done].
      by apply good_size_add.
    + by apply coalesced_app_split in Hc as [? _].
    + by eapply coalesced_last_free.
    + rewrite <- app_assoc. apply coalesce_merge.
    + eapply keeps_payload_outside; [exact O|]. intros i Hi ?. rewrite <- app_assoc in Hi, Hg.
      eapply payload_not_free_header; [exact Hg|exact Hi|lia].
    + right. split; [lia|].
      rewrite (mload_same_outside 4 _ _ _ _ _ O); [done|unfold fb_magic; lia].
Qed.

(** After both merges the blocks are the coalesced ones. *)
Lemma free_merge_coalesce b0 pre sz post s :
  let bs := pre ++ Free sz :: post in
  good_sizes bs -> coalesced pre -> coalesced post ->
  (forall t, last pre <> Some (Free t)) -> 0 < b0 -> b0 + total bs < 2 ^ 64 ->
  total bs < 2 ^ 32 -> mapped (hmem s) b0 (total bs) -> blocks_ok (hmem s) b0 bs 0 ->
  exists m', free_merge_next (b0 + total pre) (b0 + total pre + sz)
               (nextf (b0 + total pre + sz) post 0) s = Ok tt (set_hmem s m') /\
    nextf b0 (coalesce bs) 0 = nextf b0 bs 0 /\
    blocks_ok m' b0 (coalesce bs) 0 /\ same_dom (hmem s) m' /\
    keeps_payload b0 bs (hmem s) m' /\ same_outside (hmem s) m' (b0 + total pre) 16 /\
    mload 4 (fb_magic (b0 + total pre)) m' = Some MINIHEAP_MAGIC_FREE.
Proof.
  intros bs Hg Hcp Hcq Hlast Hb0 Htop H32 Hm Hb. subst bs.
  destruct (free_merge_ok b0 pre sz post s Hg Hb0 Htop H32 Hm Hb)
    as (m' & sz' & post' & E & Hcase & B & D & O).
  assert (coalesce (pre ++ Free sz :: post) = pre ++ Free sz' :: post') as Hco.
  { destruct Hcase as [(-> & -> & Hh)|(t & -> & ->)].
    - by apply coalesce_id, coalesced_join.
    - rewrite coalesce_merge. apply coalesce_id, coalesced_join; try done.
      + by eapply coalesced_cons.
      + by eapply coalesced_head_free. }
  exists m'. rewrite Hco. split_and!; try done.
  - by rewrite !nextf_app.
  - eapply keeps_payload_outside; [exact O|]. intros i Hi ?.
    eapply payload_not_free_header; [exact Hg|exact Hi|].
    apply good_sizes_app in Hg as [_ [[? _] _]%good_sizes_cons]. simpl in *. lia.
  - apply blocks_ok_app in B as [_ [[? _] _]]. done.
Qed.

(** The calls of [miniheap_free] after the search, from the insertion on. *)
Lemma free_finish b0 pre sz post s :
  let bs := pre ++ Free sz :: post in
  let nx := nextf (b0 + total pre + sz) post 0 in
  good_sizes bs -> coalesced pre -> coalesced post -> 0 < b0 ->
  b0 + total bs < 2 ^ 64 -> total bs < 2 ^ 32 ->
  mapped (hmem s) b0 (total bs) -> hp_free_list (hp s) = nextf b0 pre nx ->
  blocks_ok (hmem s) b0 pre nx -> blocks_ok (hmem s) (b0 + total pre + sz) post 0 ->
  mload 4 (fb_magic (b0 + total pre)) (hmem s) = Some MINIHEAP_MAGIC_FREE ->
  exists m', (nr ← free_insert (b0 + total pre) (b0 + total pre + sz) sz (lastf b0 pre 0) nx;
              free_merge_next nr.1 nr.2 nx) s =
      Ok tt (HeapState (with_free_list (hp s) (nextf b0 (coalesce bs) 0)) m') /\
    blocks_ok m' b0 (coalesce bs) 0 /\ same_dom (hmem s) m' /\
    keeps_payload b0 bs (hmem s) m' /\
    mload 4 (fb_magic (b0 + total pre)) m' = Some MINIHEAP_MAGIC_FREE.
Proof.
  intros bs nx Hg Hcp Hcq Hb0 Htop H32 Hm Hl Hb Hbq Hmg. subst bs nx.
  destruct (free_insert_ok b0 pre sz post s Hg Hcp Hb0 Htop H32 Hm Hl Hb Hbq Hmg)
    as (pre' & sz' & m2 & E2 & Eend & Hg2 & Hcp' & Hlast & Hco & B2 & D2 & K2 & Hpos).
  assert (total (pre' ++ Free sz' :: post) = total (pre ++ Free sz :: post)) as Ht
    by (rewrite !total_app; simpl; lia).
  destruct (free_merge_coalesce b0 pre' sz' post
      (HeapState (with_free_list (hp s) (nextf b0 (pre' ++ Free sz' :: post) 0)) m2))
    as (m3 & E3 & Hn3 & B3 & D3 & K3 & O3 & Hmg3); rewrite ?Ht; try done.
  { by eapply mapped_same_dom. }
  rewrite Eend in E3. exists m3. rewrite Hco. split_and!; try done.
  - mstep E2. simpl. rewrite Eend, E3. unfold set_hmem. simpl. by rewrite Hn3.
  - etrans; [exact D2|exact D3].
  - eapply keeps_payload_trans; [exact K2|]. intros i Hi. apply K3.
    by rewrite <- coalesce_payload, <- Hco, coalesce_payload.
  - destruct Hpos as [<-|[? Hmg']]; [done|].
    rewrite (mload_same_outside 4 _ _ _ _ _ O3); [done|unfold fb_magic; lia].
Qed.

Theorem free_refines b0 bs s a sz :
  repr b0 bs s -> used_at b0 bs a sz ->
  exists bs' s', spec_free (a - b0) bs = Some bs' /\ miniheap_free (a + 16) s = Ok tt s' /\
    repr b0 bs' s' /\ same_dom (hmem s) (hmem s') /\ keeps_payload b0 bs' (hmem s) (hmem s') /\
    mload 4 (fb_magic a) (hmem s') = Some MINIHEAP_MAGIC_FREE.
Proof.
  intros [L Hfree Hc] (pre & post & -> & ->)%used_at_split.
  pose proof L as [Hbase Hsize Halign Hl Hb0 Htop H32 Hg Hm Hb].
  pose proof Hg as [Hp [Hz Hq]%good_sizes_cons]%good_sizes_app. simpl in Hz.
  pose proof (total_nonneg pre Hp). pose proof (total_nonneg post Hq). pose proof Hz as [? _].
  pose proof (coalesced_app_split _ _ Hc) as [Hcp Hcq%coalesced_cons].
  set (bs' := pre ++ Free sz :: post).
  assert (good_sizes bs') as Hg' by (apply good_sizes_app; split; [done|by apply good_sizes_cons]).
  assert (total bs' = total (pre ++ Used sz :: post)) as Ht
    by (subst bs'; by rewrite !total_app).
  assert (free_total bs' = free_total (pre ++ Used sz :: post) + sz) as Hft
    by (subst bs'; rewrite !free_total_app; simpl; lia).
  pose proof (free_total_bounds _ Hg').
  pose proof (free_search b0 pre sz post s L) as Hsearch. cbv zeta in Hsearch.
  apply blocks_ok_app in Hb as [Hb1 [[Hmu Hsz] Hb2]]. cbn [bsize nextf] in *.
  rewrite <- Ht in Hm, Htop, H32, Hsize.
  assert (total pre + sz <= total bs') by (subst bs'; rewrite total_app; simpl; lia).
  destruct (hst_ok 4 (fb_magic (b0 + total pre)) MINIHEAP_MAGIC_FREE s) as (m1 & E1 & L1 & O1 & D1).
  { eapply mapped_sub; [exact Hm|unfold fb_magic; lia..]. }
  unfold fb_magic in O1.
  destruct (free_finish b0 pre sz post (set_hmem s m1)) as (m2 & E2 & B2 & D2 & K2 & Hmg2); try done.
  { by eapply mapped_same_dom. }
  { simpl. by rewrite Hl, nextf_app. }
  { eapply blocks_ok_same; [done|exact O1|lia|done]. }
  { eapply blocks_ok_same; [done|exact O1|lia|done]. }
  destruct (coalesce_total bs') as [Ht2 Hf2]. fold bs' in B2, K2.
  eexists (coalesce bs'), _. split_and!.
  - unfold spec_free. replace (b0 + total pre - b0) with (total pre) by lia.
    by rewrite mark_free_mid by done.
  - unfold miniheap_free. rewrite truth_pos by lia. cbn [negb]. rewrite header_size.
    replace (b0 + total pre + 16 - 16) with (b0 + total pre) by lia.
    rewrite (wrap_small 64 (b0 + total pre)) by lia. mstep (hld_ok _ _ _ _ Hmu).
    rewrite Z.eqb_refl. cbn [negb].
    mstep (hld_ok _ _ _ _ Hsz). rewrite (wrap_small 64 (b0 + total pre + sz)) by lia.
    rewrite !bind_gets. mstep Hsearch. mstep (hld_ok _ _ _ _ Hsz). mstep E1. cbn [fst snd].
    rewrite <- bind_assoc. mstep E2. rewrite bind_gets. reflexivity.
  - split; [split|..]; simpl; rewrite ?Ht2, ?Hf2; try done.
    + by apply coalesce_good.
    + eapply mapped_same_dom; [|exact Hm]. etrans; [exact D1|exact D2].
    + rewrite Hfree, wrap_small by lia. lia.
    + apply coalesce_coalesced.
  - etrans; [exact D1|exact D2].
  - intros i Hi. apply (coalesce_payload b0 bs') in Hi. simpl. rewrite (K2 i Hi). apply O1.
    pose proof (payload_not_free_header _ _ _ _ _ Hg' Hi). lia.
  - exact Hmg2.
Qed.
