(* ===== verification/HeapClient.v ===== *)
(** The heap as its callers see it: a client holds the pointers [malloc] returned, writes
    inside what it asked for, and passes live pointers to [free].  Whatever the order of
    these calls, the heap keeps its invariant and the client its data. *)
From Stdlib Require Import ZArith Lia.
From stdpp Require Import base gmap list strings.
From S2P Require Import Prelude Mem HeapSpec Miniheap HeapProof.

(** The heap and the live pointers with the sizes requested for them. *)
Record client := Client { c_heap : heap_state; c_live : gmap Z Z }.

(** Requests whose rounded size and header still fit in 32 bits. *)
Definition MAX_REQUEST : Z := 2 ^ 32 - 32.

Inductive client_step : client -> client -> Prop :=
  | client_malloc c size p s' :
      0 <= size <= MAX_REQUEST -> malloc size (c_heap c) = Ok p s' ->
      client_step c (Client s' (if p =? 0 then c_live c else <[p := size]> (c_live c)))
  | client_free c p n s' :
      c_live c !! p = Some n -> free p (c_heap c) = Ok tt s' ->
      client_step c (Client s' (delete p (c_live c)))
  | client_free_null c s' :
      free 0 (c_heap c) = Ok tt s' -> client_step c (Client s' (c_live c))
  | client_write c p n i v m' :
      c_live c !! p = Some n -> 0 <= i < n -> mstore 1 (p + i) v (hmem (c_heap c)) = Some m' ->
      client_step c (Client (set_hmem (c_heap c) m') (c_live c)).

Definition client_reachable (base size : Z) (s0 : heap_state) (c : client) : Prop :=
  exists s, miniheap_init base size s0 = Ok 0 s /\ rtc client_step (Client s ∅) c.

(** The live pointers are exactly the used blocks. *)
Definition client_inv (b0 sz : Z) (c : client) : Prop :=
  exists bs, repr b0 bs (c_heap c) /\ total bs = sz /\
    (forall p n, c_live c !! p = Some n -> 0 < n <= MAX_REQUEST /\ used_at b0 bs (p - 16) (need n)) /\
    (forall a t, used_at b0 bs a t -> exists n, c_live c !! (a + 16) = Some n /\ t = need n).

(** * Every call keeps the invariant *)

Lemma need_pos n : 0 < n -> n + 16 <= need n.
Proof. intros H. destruct (need_good n H). lia. Qed.

Lemma malloc_zero s : hp_align (hp s) = MINIHEAP_ALIGNMENT -> miniheap_alloc 0 s = Ok 0 s.
Proof. intros H. unfold miniheap_alloc. rewrite bind_gets, H. done. Qed.

(** Arenas in which [miniheap_init] makes a heap the proofs apply to. *)
Record arena_ok (base size : Z) (m : mem) : Prop := ArenaOk {
  a_base : 0 < base;
  a_top : base + size < 2 ^ 64;
  a_size : 0 < size < 2 ^ 32;
  a_mapped : mapped m base size
}.

Lemma init_repr base size s :
  arena_ok base size (hmem s) -> size mod 16 = 0 ->
  exists s', miniheap_init base size s = Ok 0 s' /\ repr base [Free size] s' /\
    same_dom (hmem s) (hmem s').
Proof.
  intros [Hb Ht Hs Hm] Hmod.
  assert (16 <= size) as H16 by (pose proof (Z.div_mod size 16 ltac:(lia)); lia).
  unfold miniheap_init, MINIHEAP_ALIGNMENT.
  replace (size =? 0) with false by lia. change (16 - 1) with (2 ^ 4 - 1).
  rewrite land_mod_pow2 by lia. change (2 ^ 4) with 16. rewrite Hmod. cbn [truth Z.eqb negb orb].
  rewrite bind_modify.
  match goal with |- context [hst 4 (fb_magic base) _ ≫= _] => idtac end.
  edestruct (write_free_header (set_hp s (Miniheap base size size 16 (hp_free_list (hp s))))
    base size 0) as (m1 & m2 & m3 & E1 & E2 & E3 & _ & _ & _ & D & B); try lia.
  { eapply mapped_sub; [exact Hm|lia|lia]. }
  mstep E1. mstep E2. mstep E3. unfold set_free_list. rewrite bind_modify. eexists. split; [done|].
  split; [|done]. split; [split|..]; simpl; try done; try lia.
  - apply good_sizes_cons. split; [split; simpl; lia|by constructor].
  - rewrite Z.add_0_r. by eapply mapped_same_dom.
Qed.

Lemma malloc_inv b0 sz c size :
  client_inv b0 sz c -> 0 <= size <= MAX_REQUEST ->
  exists p s', malloc size (c_heap c) = Ok p s' /\
    client_inv b0 sz (Client s' (if p =? 0 then c_live c else <[p := size]> (c_live c))) /\
    (p = 0 \/ 0 < size /\ forall q n, c_live c !! q = Some n -> q + n <= p - 16 \/ p + size <= q - 16).
Proof.
  intros (bs & R & Ht & Hl & Hu) Hsz. unfold malloc.
  pose proof R as [[_ _ Halign _ Hb0 Htop _ Hg _ _] _ Hc].
  destruct (decide (size = 0)) as [->|Hne].
  { exists 0, (c_heap c). rewrite malloc_zero by done. split_and!; [done| |by left].
    simpl. by exists bs. }
  unfold MAX_REQUEST in Hsz. pose proof (alloc_refines b0 bs (c_heap c) size R ltac:(lia)) as Ha.
  destruct (spec_alloc (need size) bs) as [[off bs']|] eqn:E.
  2: { exists 0, (c_heap c). rewrite Ha. split_and!; [done| |by left]. by exists bs. }
  destruct Ha as (s' & -> & R' & _ & _). exists (b0 + off + 16), s'.
  destruct (need_good size ltac:(lia)) as [Hng Hnb].
  pose proof (spec_alloc_sizes _ _ _ _ Hng Hg E) as (Hg' & Ht' & _).
  assert (used_at b0 bs' (b0 + off) (need size)) as Hnew
    by (apply (spec_alloc_used_at b0 _ _ _ _ _ _ E); by right).
  pose proof (used_at_bounds _ _ _ _ Hg' Hnew) as (Hlo & _ & _).
  replace (b0 + off + 16 =? 0) with false by lia. split_and!; [done| |].
  - exists bs'. split_and!; [done|lia| |]; simpl.
    + intros p n. destruct (decide (b0 + off + 16 = p)) as [<-|Hp].
      * rewrite lookup_insert_eq. intros [= <-]. unfold MAX_REQUEST. split; [lia|].
        by replace (b0 + off + 16 - 16) with (b0 + off) by lia.
      * rewrite lookup_insert_ne by done. intros [? Hup]%Hl. split; [done|].
        apply (spec_alloc_used_at b0 _ _ _ _ _ _ E). by left.
    + intros a t Hat%(spec_alloc_used_at b0 _ _ _ _ _ _ E).
      destruct (decide (a = b0 + off)) as [->|Hne'].
      * rewrite lookup_insert_eq. exists size. split; [done|].
        assert (used_at b0 bs' (b0 + off) t) as Hat2
          by (by apply (spec_alloc_used_at b0 _ _ _ _ _ _ E)).
        destruct (need_good size ltac:(lia)) as [[? ?] _].
        destruct (used_at_disjoint _ _ _ _ _ _ Hg' Hnew Hat2) as [[_ ?]|?]; [done|].
        apply used_at_bounds in Hat2 as (_ & _ & [? ?]); [lia|done].
      * destruct Hat as [Hat|[? _]]; [|done]. rewrite lookup_insert_ne by lia. by apply Hu.
  - right. split; [lia|]. intros q n [Hn Hq]%Hl.
    assert (used_at b0 bs' (q - 16) (need n)) as Hq'
      by (apply (spec_alloc_used_at b0 _ _ _ _ _ _ E); by left).
    destruct (need_good n ltac:(lia)) as [_ ?].
    destruct (used_at_disjoint _ _ _ _ _ _ Hg' Hnew Hq') as [[He _]|Hd]; [|lia].
    destruct (spec_alloc_fresh b0 _ _ _ _ (need n) Hg E). by rewrite He.
Qed.

Lemma free_inv b0 sz c p n :
  client_inv b0 sz c -> c_live c !! p = Some n ->
  exists s', free p (c_heap c) = Ok tt s' /\ client_inv b0 sz (Client s' (delete p (c_live c))).
Proof.
  intros (bs & R & Ht & Hl & Hu) Hp. unfold free.
  destruct (Hl p n Hp) as [Hn Hup]. pose proof (l_good _ _ _ (r_layout _ _ _ R)) as Hg.
  destruct (free_refines b0 bs (c_heap c) (p - 16) (need n) R Hup)
    as (bs' & s' & Es & Ef & R' & _ & _ & _).
  replace (p - 16 + 16) with p in Ef by lia. exists s'. split; [done|]. exists bs'.
  split_and!; [done| | |]; simpl.
  - by rewrite (spec_free_total _ _ _ Es).
  - intros q k. destruct (decide (p = q)) as [->|Hpq]; [by rewrite lookup_delete_eq|].
    rewrite lookup_delete_ne by done. intros [? Hq]%Hl. split; [done|].
    apply (spec_free_used_at b0 bs _ _ bs' _ _ Hg Hup Es). split; [done|lia].
  - intros a t Hat. apply (spec_free_used_at b0 bs _ _ bs' _ _ Hg Hup Es) in Hat as [Hat Hne].
    destruct (Hu a t Hat) as (k & Hk & ->). exists k. split; [|done].
    rewrite lookup_delete_ne by lia. done.
Qed.

(** Writing one byte inside a payload keeps the representation. *)
Lemma write_repr b0 bs s p v m' :
  repr b0 bs s -> payload b0 bs p -> mstore 1 p v (hmem s) = Some m' ->
  repr b0 bs (set_hmem s m').
Proof.
  intros [[? ? ? ? ? ? ? Hg Hm Hb] ? ?] Hp (_ & O & D)%mstore_spec.
  split; [split|..]; simpl; try done.
  - by eapply mapped_same_dom.
  - eapply blocks_ok_frame; [done| |exact Hb]. intros i _ Hi. apply O. intros Hip.
    replace i with p in Hi by lia. done.
Qed.

Lemma live_payload b0 bs c p n i :
  repr b0 bs (c_heap c) ->
  (forall p n, c_live c !! p = Some n -> 0 < n <= MAX_REQUEST /\ used_at b0 bs (p - 16) (need n)) ->
  c_live c !! p = Some n -> 0 <= i < n -> payload b0 bs (p + i).
Proof.
  intros R Hl Hp Hi. destruct (Hl p n Hp) as [Hn Hu]. destruct (need_good n) as [_ ?]; [lia|].
  eapply used_at_payload; [apply (l_good _ _ _ (r_layout _ _ _ R))|exact Hu|lia].
Qed.

Lemma client_step_inv b0 sz c c' : client_inv b0 sz c -> client_step c c' -> client_inv b0 sz c'.
Proof.
  intros Hi Hs. inversion Hs as [? size p s' Hsz E|? p n s' Hp E|? s' E|? p n i v m' Hp Hr E]; subst.
  - destruct (malloc_inv b0 sz c size Hi Hsz) as (p' & s'' & E' & Hi' & _).
    rewrite E in E'. by simplify_eq.
  - destruct (free_inv b0 sz c p n Hi Hp) as (s'' & E' & Hi'). rewrite E in E'. by simplify_eq.
  - injection E as <-. by destruct c.
  - destruct Hi as (bs & R & Ht & Hl & Hu). exists bs. split_and!; try done.
    eapply write_repr; [exact R|by eapply live_payload|exact E].
Qed.

Lemma init_inv base size s :
  arena_ok base size (hmem s) -> size mod 16 = 0 ->
  exists s', miniheap_init base size s = Ok 0 s' /\ client_inv base size (Client s' ∅).
Proof.
  intros Ha Hmod. destruct (init_repr base size s Ha Hmod) as (s' & E & R & _).
  exists s'. split; [done|]. exists [Free size]. simpl. split_and!; [done|lia| |done].
  intros p n. by rewrite lookup_empty.
Qed.

Lemma client_steps_inv b0 sz c c' :
  rtc client_step c c' -> client_inv b0 sz c -> client_inv b0 sz c'.
Proof. induction 1; eauto using client_step_inv. Qed.

Lemma reachable_inv base size s0 c :
  arena_ok base size (hmem s0) -> size mod 16 = 0 ->
  client_reachable base size s0 c -> client_inv base size c.
Proof.
  intros Ha Hmod (s & E & Hr). destruct (init_inv base size s0 Ha Hmod) as (s' & E' & Hi).
  rewrite E in E'. injection E' as <-. by eapply client_steps_inv.
Qed.

(** Reading back what is stored in a live region. *)
Definition region_same (m m' : mem) (p n : Z) : Prop := forall i, 0 <= i < n -> m' !! (p + i) = m !! (p + i).

Lemma malloc_keeps b0 sz c size p s' q n :
  client_inv b0 sz c -> 0 <= size <= MAX_REQUEST -> malloc size (c_heap c) = Ok p s' ->
  c_live c !! q = Some n -> region_same (hmem (c_heap c)) (hmem s') q n.
Proof.
  intros (bs & R & _ & Hl & _) Hsz E Hq i Hi. unfold malloc in E.
  destruct (decide (size = 0)) as [->|].
  { rewrite malloc_zero in E by apply (l_align _ _ _ (r_layout _ _ _ R)). by injection E as _ <-. }
  unfold MAX_REQUEST in Hsz. pose proof (alloc_refines b0 bs _ size R ltac:(lia)) as Ha.
  destruct (spec_alloc (need size) bs) as [[off bs']|].
  - destruct Ha as (s2 & E2 & _ & _ & K). rewrite E in E2. injection E2 as _ ->.
    apply K. by eapply live_payload.
  - rewrite E in Ha. by injection Ha as _ ->.
Qed.

Lemma free_keeps b0 sz c p k s' q n :
  client_inv b0 sz c -> c_live c !! p = Some k -> free p (c_heap c) = Ok tt s' ->
  c_live c !! q = Some n -> q <> p -> region_same (hmem (c_heap c)) (hmem s') q n.
Proof.
  intros Hinv Hp E Hq Hne i Hi. destruct (Hinv) as (bs & R & _ & Hl & _).
  destruct (Hl p k Hp) as [_ Hup]. destruct (Hl q n Hq) as [Hn Huq].
  pose proof (l_good _ _ _ (r_layout _ _ _ R)) as Hg.
  destruct (free_refines b0 bs _ _ _ R Hup) as (bs' & s2 & Es & E2 & R2 & _ & K & _).
  replace (p - 16 + 16) with p in E2 by lia. unfold free in E. rewrite E in E2. injection E2 as ->.
  apply K. destruct (need_good n) as [_ ?]; [lia|].
  eapply used_at_payload; [apply (l_good _ _ _ (r_layout _ _ _ R2))| |].
  - apply (spec_free_used_at b0 bs _ _ bs' _ _ Hg Hup Es). split; [exact Huq|lia].
  - lia.
Qed.

Lemma used_at_aligned b0 bs a t : good_sizes bs -> used_at b0 bs a t -> (a - b0) mod 16 = 0.
Proof.
  intros Hg (pre & post & -> & ->)%used_at_split. apply good_sizes_app in Hg as [Hp _].
  replace (b0 + total pre - b0) with (total pre) by lia. by apply total_mod.
Qed.

(** Once no pointer is live, the heap is one free block again. *)
Lemma client_inv_recovered b0 sz h : client_inv b0 sz (Client h ∅) -> 0 < sz -> repr b0 [Free sz] h.
Proof.
  intros (bs & R & Ht & _ & Hu) Hsz.
  assert (Forall (fun b => is_free b = true) bs) as Hf.
  { apply (unused_all_free b0). intros a t (n & Hn & _)%Hu. simpl in Hn. by rewrite lookup_empty in Hn. }
  destruct (coalesced_all_free bs (r_coal _ _ _ R) Hf) as [->|[t ->]]; simpl in Ht; [lia|].
  replace sz with t by lia. exact R.
Qed.

(** The one free block of a heap with nothing live. *)
Lemma repr_one_free b0 sz h : repr b0 [Free sz] h ->
  hp_free_bytes (hp h) = sz /\ hp_size (hp h) = sz /\ hp_free_list (hp h) = b0 /\
  mload 4 (fb_size b0) (hmem h) = Some sz /\ mload 8 (fb_next b0) (hmem h) = Some 0.
Proof.
  intros [[Hb Hs _ Hl _ _ _ _ _ Hbl] Hfb Hc]. simpl in *. destruct Hbl as [(_ & ? & ?) _]. split_and!; try done; lia.
Qed.

(** Where a live region lies. *)
Definition region_ok (base size p n : Z) : Prop :=
  0 < n /\ base + 16 <= p /\ p + n <= base + size /\ (p - base) mod 16 = 0.

Lemma client_inv_region b0 sz c p n :
  client_inv b0 sz c -> c_live c !! p = Some n -> region_ok b0 sz p n.
Proof.
  intros (bs & R & Ht & Hl & _) Hp. destruct (Hl p n Hp) as [Hn Hu].
  pose proof (l_good _ _ _ (r_layout _ _ _ R)) as Hg.
  destruct (used_at_bounds _ _ _ _ Hg Hu) as (? & ? & _). destruct (need_good n) as [_ ?]; [lia|].
  split_and!; try lia. replace (p - b0) with (p - 16 - b0 + 1 * 16) by lia.
  rewrite Z_mod_plus_full. by eapply used_at_aligned.
Qed.
