(* ===== verification/HeapTheorems.v ===== *)
(** What the heap guarantees to its callers, and what it does with requests near and
    beyond 4 GiB. *)
From Stdlib Require Import ZArith Lia.
From stdpp Require Import base gmap list strings.
From S2P Require Import Prelude Mem HeapSpec Miniheap HeapProof HeapClient.

(** A 256-byte arena at address 4096 for concrete runs. *)
Definition demo_heap : heap_state := HeapState (Miniheap 0 0 0 0 0) (zeros 4096 256).

(** The demo heap after [miniheap_init], and then after one [malloc(40)]. *)
Definition demo_ready : heap_state := state_after (miniheap_init 4096 256) demo_heap.
Definition demo_one : heap_state := state_after (malloc 40) demo_ready.

(** * Shared facts *)

Lemma demo_arena : arena_ok 4096 256 (hmem demo_heap).
Proof. split; [lia|lia|lia|apply (zeros_mapped 4096 256)]. Qed.

Lemma client_inv_disjoint b0 sz c p n q k :
  client_inv b0 sz c -> c_live c !! p = Some n -> c_live c !! q = Some k -> p <> q ->
  p + n <= q - 16 \/ q + k <= p - 16.
Proof.
  intros (bs & R & Ht & Hl & _) Hp Hq Hne.
  destruct (Hl p n Hp) as [Hn Hup], (Hl q k Hq) as [Hk Huq].
  destruct (need_good n) as [_ ?]; [lia|]. destruct (need_good k) as [_ ?]; [lia|].
  pose proof (l_good _ _ _ (r_layout _ _ _ R)) as Hg.
  destruct (used_at_disjoint _ _ _ _ _ _ Hg Hup Huq) as [[? _]|[?|?]]; lia.
Qed.

(** The mask of [miniheap_alloc] keeps 32 bits of the request. *)
Lemma round_request_mod size :
  0 <= size -> size + 15 < 2 ^ 64 ->
  round_request MINIHEAP_ALIGNMENT size = round_request MINIHEAP_ALIGNMENT (size mod 2 ^ 32).
Proof.
  intros H0 H1. unfold round_request, MINIHEAP_ALIGNMENT.
  pose proof (Z.mod_pos_bound size (2 ^ 32) ltac:(lia)).
  rewrite (wrap_small 64 (size + 16 - 1)), (wrap_small 64 (size mod _ + 16 - 1)) by lia.
  f_equal. bit_ext i Hi. rewrite !Z.land_spec. change (16 - 1) with (Z.ones 4).
  rewrite bnot_testbit by lia. destruct (Z.ltb_spec i 32); [|by rewrite !andb_false_r].
  f_equal. rewrite <- (Z.mod_pow2_bits_low (size + 16 - 1) 32) by lia.
  rewrite <- (Z.mod_pow2_bits_low (size mod 2 ^ 32 + 16 - 1) 32) by lia. f_equal.
  replace (size mod 2 ^ 32 + 16 - 1) with (size mod 2 ^ 32 + 15) by lia.
  replace (size + 16 - 1) with (size + 15) by lia. by rewrite Zplus_mod_idemp_l.
Qed.

Lemma malloc_refines b0 bs s size :
  repr b0 bs s -> 0 < size <= MAX_REQUEST ->
  match spec_alloc (need size) bs with
  | None => malloc size s = Ok 0 s
  | Some (off, bs') => exists s', malloc size s = Ok (b0 + off + 16) s' /\ repr b0 bs' s'
  end.
Proof.
  intros R Hs. unfold MAX_REQUEST in Hs. pose proof (alloc_refines b0 bs s size R ltac:(lia)) as Ha.
  destruct (spec_alloc (need size) bs) as [[off bs']|]; [|exact Ha].
  destruct Ha as (s' & ? & ? & _). by exists s'.
Qed.

(** * Properties *)

(** C1: from [miniheap_init] on, whatever legal calls and writes came before, [malloc] and
    [free] return: no panic, no access outside the arena, no endless walk.  A pointer
    [malloc] returns is 16-aligned in the arena, with room for the request, and clear of
    every live region and its header. *)
Theorem heap_calls_return base size s0 c :
  arena_ok base size (hmem s0) -> size mod 16 = 0 -> client_reachable base size s0 c ->
  (forall n, 0 <= n <= MAX_REQUEST -> exists p s', malloc n (c_heap c) = Ok p s' /\
     (p = 0 \/ region_ok base size p n /\
        forall q k, c_live c !! q = Some k -> q + k <= p - 16 \/ p + n <= q - 16)) /\
  (forall p n, c_live c !! p = Some n -> exists s', free p (c_heap c) = Ok tt s') /\
  free 0 (c_heap c) = Ok tt (c_heap c).
Proof.
  intros Ha Hm Hr. pose proof (reachable_inv _ _ _ _ Ha Hm Hr) as Hi. split_and!.
  - intros n Hn. destruct (malloc_inv _ _ _ n Hi Hn) as (p & s' & E & Hi' & Hd).
    exists p, s'. split; [done|]. destruct Hd as [?|[? Hd]]; [by left|].
    destruct (Z.eqb_spec p 0); [by left|]. right. split; [|done].
    eapply client_inv_region; [exact Hi'|]. apply lookup_insert_eq.
  - intros p n Hp. destruct (free_inv _ _ _ p n Hi Hp) as (s' & ? & _). by exists s'.
  - done.
Qed.

Lemma demo_init_ok : miniheap_init 4096 256 demo_heap = Ok 0 demo_ready.
Proof. apply returned_Ok. vm_compute. reflexivity. Qed.

Lemma demo_malloc_ok : malloc 40 demo_ready = Ok 4112 demo_one.
Proof. apply returned_Ok. vm_compute. reflexivity. Qed.

Definition demo_client : client := Client demo_one (<[4112 := 40]> ∅).

Lemma demo_reachable : client_reachable 4096 256 demo_heap demo_client.
Proof.
  exists demo_ready. split; [apply demo_init_ok|]. eapply rtc_once.
  apply (client_malloc (Client demo_ready ∅) 40 4112); [unfold MAX_REQUEST; lia|].
  apply demo_malloc_ok.
Qed.

Lemma heap_calls_return_witness :
  c_live demo_client !! 4112 = Some 40 /\
  exists s', free 4112 (c_heap demo_client) = Ok tt s'.
Proof.
  split; [reflexivity|].
  apply (proj1 (proj2 (heap_calls_return 4096 256 demo_heap _ demo_arena eq_refl demo_reachable))
           4112 40).
  reflexivity.
Defined.

(** C3: [malloc] is first fit.  A request for 0 bytes, or one that no free block can hold
    after rounding and the header, returns NULL and changes nothing; any other takes the
    first free block that is large enough, leaves the rest of it free, and the arena then
    holds exactly the blocks of the specification. *)
Theorem malloc_first_fit b0 bs s size :
  repr b0 bs s -> 0 <= size <= MAX_REQUEST ->
  if size =? 0 then malloc size s = Ok 0 s
  else match spec_alloc (need size) bs with
       | None => malloc size s = Ok 0 s
       | Some (off, bs') => exists s', malloc size s = Ok (b0 + off + 16) s' /\ repr b0 bs' s'
       end.
Proof.
  intros R Hs. unfold malloc. destruct (Z.eqb_spec size 0) as [->|].
  - apply malloc_zero, R.
  - apply malloc_refines; [done|lia].
Qed.

Lemma demo_repr : repr 4096 [Free 256] demo_ready.
Proof.
  destruct (init_repr 4096 256 demo_heap demo_arena eq_refl) as (s & E & R & _).
  rewrite demo_init_ok in E. by apply Ok_inj in E as [_ ->].
Qed.

Lemma malloc_first_fit_witness :
  exists s', malloc 40 demo_ready = Ok 4112 s' /\ repr 4096 [Used 64; Free 192] s'.
Proof. apply (malloc_first_fit 4096 [Free 256] demo_ready 40 demo_repr). unfold MAX_REQUEST. lia. Defined.

(** C4: [free] of a pointer to a used block marks that block free and merges it with its
    free neighbours, on either side, so that no two free blocks touch. *)
Theorem free_coalesces b0 bs s a sz :
  repr b0 bs s -> used_at b0 bs a sz ->
  exists bs' s', spec_free (a - b0) bs = Some bs' /\ free (a + 16) s = Ok tt s' /\
    repr b0 bs' s' /\ coalesced bs'.
Proof.
  intros R Hu. destruct (free_refines b0 bs s a sz R Hu) as (bs' & s' & E & F & R' & _).
  exists bs', s'. split_and!; try done. by apply R'.
Qed.

Lemma demo_one_repr : repr 4096 [Used 64; Free 192] demo_one.
Proof.
  destruct (malloc_refines 4096 [Free 256] demo_ready 40 demo_repr ltac:(unfold MAX_REQUEST; lia))
    as (s & E & R).
  rewrite demo_malloc_ok in E. by apply Ok_inj in E as [_ ->].
Qed.

Lemma free_coalesces_witness :
  exists bs' s', spec_free 0 [Used 64; Free 192] = Some bs' /\ free 4112 demo_one = Ok tt s' /\
    repr 4096 bs' s' /\ coalesced bs'.
Proof. apply (free_coalesces 4096 [Used 64; Free 192] demo_one 4096 64 demo_one_repr). by left. Defined.

(** C22: a block allocated and released at once leaves the heap with the blocks it had. *)
Theorem malloc_free_roundtrip b0 bs s size p s1 :
  repr b0 bs s -> 0 <= size <= MAX_REQUEST -> malloc size s = Ok p s1 -> p <> 0 ->
  exists s2, free p s1 = Ok tt s2 /\ repr b0 bs s2.
Proof.
  intros R Hs E Hp. destruct (decide (size = 0)) as [->|].
  { unfold malloc in E. rewrite malloc_zero in E by apply R. by injection E as <- _. }
  pose proof (malloc_refines b0 bs s size R ltac:(lia)) as Ha.
  destruct (spec_alloc (need size) bs) as [[off bs']|] eqn:Es.
  2: { rewrite E in Ha. by injection Ha as -> _. }
  destruct Ha as (s' & E' & R'). rewrite E in E'. injection E' as -> <-.
  assert (used_at b0 bs' (b0 + off) (need size)) as Hu
    by (apply (spec_alloc_used_at b0 _ _ _ _ _ _ Es); by right).
  destruct (free_refines b0 bs' s1 _ _ R' Hu) as (bs2 & s2 & Ef & F & R2 & _).
  exists s2. split; [exact F|]. replace (b0 + off - b0) with off in Ef by lia.
  erewrite spec_free_alloc in Ef; [|apply R|apply R|exact Es]. by simplify_eq.
Qed.

Lemma malloc_free_roundtrip_witness :
  exists s2, free 4112 demo_one = Ok tt s2 /\ repr 4096 [Free 256] s2.
Proof.
  apply (malloc_free_roundtrip 4096 [Free 256] demo_ready 40 4112 demo_one demo_repr).
  - unfold MAX_REQUEST. lia.
  - apply demo_malloc_ok.
  - lia.
Defined.

(** C21: neither [malloc] nor [free] changes a byte of a live region (other than the one
    released). *)
Theorem heap_keeps_data base size s0 c :
  arena_ok base size (hmem s0) -> size mod 16 = 0 -> client_reachable base size s0 c ->
  (forall n p s' q k, 0 <= n <= MAX_REQUEST -> malloc n (c_heap c) = Ok p s' ->
     c_live c !! q = Some k -> region_same (hmem (c_heap c)) (hmem s') q k) /\
  (forall p n s' q k, c_live c !! p = Some n -> free p (c_heap c) = Ok tt s' ->
     c_live c !! q = Some k -> q <> p -> region_same (hmem (c_heap c)) (hmem s') q k).
Proof.
  intros Ha Hm Hr. pose proof (reachable_inv _ _ _ _ Ha Hm Hr) as Hi.
  split.
  - intros n p s' q k Hn E Hq. exact (malloc_keeps _ _ _ _ _ _ _ _ Hi Hn E Hq).
  - intros p n s' q k Hp E Hq Hne. exact (free_keeps _ _ _ _ _ _ _ _ Hi Hp E Hq Hne).
Qed.

Lemma heap_keeps_data_witness :
  region_same (hmem (c_heap demo_client))
    (hmem (state_after (malloc 8) (c_heap demo_client))) 4112 40.
Proof.
  apply (proj1 (heap_keeps_data 4096 256 demo_heap _ demo_arena eq_refl demo_reachable)
           8 4176 (state_after (malloc 8) (c_heap demo_client)) 4112 40).
  - unfold MAX_REQUEST. lia.
  - apply returned_Ok. vm_compute. reflexivity.
  - reflexivity.
Defined.

(** Once every pointer is released, all bytes are free again, in one block at the base
    of the arena (what the stress test checks at its end). *)
Theorem heap_fully_recovered base size s0 c :
  arena_ok base size (hmem s0) -> size mod 16 = 0 -> client_reachable base size s0 c ->
  c_live c = ∅ ->
  hp_free_bytes (hp (c_heap c)) = size /\ hp_size (hp (c_heap c)) = size /\
  hp_free_list (hp (c_heap c)) = base /\
  mload 4 (fb_size base) (hmem (c_heap c)) = Some size /\
  mload 8 (fb_next base) (hmem (c_heap c)) = Some 0.
Proof.
  intros Ha Hm Hr He. pose proof (reachable_inv _ _ _ _ Ha Hm Hr) as Hi. destruct c as [h live]. simpl in *. subst live.
  apply repr_one_free, client_inv_recovered; [done|]. apply Ha.
Qed.

Definition demo_freed : client := Client (state_after (free 4112) (c_heap demo_client)) (delete 4112 (c_live demo_client)).

Lemma heap_fully_recovered_witness : hp_free_bytes (hp (c_heap demo_freed)) = 256.
Proof.
  apply (heap_fully_recovered 4096 256 demo_heap demo_freed demo_arena eq_refl).
  - destruct demo_reachable as (s & E & Hr). exists s. split; [done|].
    eapply rtc_r; [exact Hr|]. apply (client_free demo_client 4112 40); [reflexivity|].
    apply returned_Ok. vm_compute. reflexivity.
  - reflexivity.
Defined.

(** C35: [free] rejects what is not a used block: a pointer whose header does not carry the
    magic of a used block panics, and so does the second [free] of the same pointer. *)
Theorem double_free_panics b0 bs s a sz :
  repr b0 bs s -> used_at b0 bs a sz ->
  (forall p m, p <> 0 -> mload 4 (u64 (p - 16)) (hmem s) = Some m -> m <> MINIHEAP_MAGIC_USED ->
     free p s = Stop (Panic "miniheap_free: invalid free") s) /\
  exists s', free (a + 16) s = Ok tt s' /\
    free (a + 16) s' = Stop (Panic "miniheap_free: invalid free") s'.
Proof.
  intros R Hu.
  assert (forall p m t, p <> 0 -> mload 4 (u64 (p - 16)) (hmem t) = Some m ->
    m <> MINIHEAP_MAGIC_USED -> free p t = Stop (Panic "miniheap_free: invalid free") t) as Hbad.
  { intros p m t Hp Hm Hne. unfold free, miniheap_free.
    replace (truth p) with true by (symmetry; by apply truth_true). cbn [negb].
    rewrite header_size. mstep (hld_ok 4 (fb_magic (u64 (p - 16))) m t Hm).
    destruct (Z.eqb_spec m MINIHEAP_MAGIC_USED); done. }
  split; [intros; by eapply Hbad|].
  destruct (free_refines b0 bs s a sz R Hu) as (bs' & s' & _ & F & _ & _ & _ & Hmg).
  exists s'. split; [exact F|].
  pose proof (r_layout _ _ _ R) as [_ _ _ _ ? ? _ Hg _ _].
  destruct (used_at_bounds _ _ _ _ Hg Hu) as (? & ? & [? ?]).
  apply (Hbad _ MINIHEAP_MAGIC_FREE); [lia| |done].
  replace (a + 16 - 16) with a by lia. rewrite wrap_small by lia. exact Hmg.
Qed.

Lemma double_free_panics_witness :
  exists s', free 4112 demo_one = Ok tt s' /\
    free 4112 s' = Stop (Panic "miniheap_free: invalid free") s'.
Proof.
  apply (double_free_panics 4096 [Used 64; Free 192] demo_one 4096 64 demo_one_repr). by left.
Defined.

(** [miniheap_init] panics on a size that is zero or not a multiple of 16, and
    otherwise makes one free block of the whole arena. *)
Theorem miniheap_init_spec base size s :
  arena_ok base size (hmem s) \/ size = 0 ->
  if (size =? 0) || negb (size mod 16 =? 0)
  then miniheap_init base size s = Stop (Panic "miniheap_init: invalid size") s
  else exists s', miniheap_init base size s = Ok 0 s' /\ repr base [Free size] s'.
Proof.
  intros Ha. destruct (Z.eqb_spec (size mod 16) 0) as [Hm|Hm].
  - destruct (Z.eqb_spec size 0) as [->|Hne]; [done|]. simpl.
    destruct Ha as [Ha|?]; [|done]. destruct (init_repr base size s Ha Hm) as (s' & ? & ? & _).
    by exists s'.
  - rewrite orb_true_r. unfold miniheap_init, MINIHEAP_ALIGNMENT.
    change (16 - 1) with (2 ^ 4 - 1). rewrite land_mod_pow2 by lia. change (2 ^ 4) with 16.
    replace (truth (size mod 16)) with true by (symmetry; by apply truth_true).
    by rewrite orb_true_r.
Qed.

Lemma miniheap_init_spec_witness :
  exists s', miniheap_init 4096 256 demo_heap = Ok 0 s' /\ repr 4096 [Free 256] s'.
Proof. apply (miniheap_init_spec 4096 256 demo_heap). left. apply demo_arena. Defined.

(** [malloc] only looks at the low 32 bits of the request, because the rounding mask is
    a 32-bit value: a request for 4 GiB + n behaves as a request for n. *)
Theorem malloc_truncates s size :
  hp_align (hp s) = MINIHEAP_ALIGNMENT -> 0 <= size < 2 ^ 64 - 15 ->
  malloc size s = malloc (size mod 2 ^ 32) s.
Proof.
  intros Ha Hs. unfold malloc, miniheap_alloc. rewrite !bind_gets, Ha.
  rewrite (round_request_mod size) by lia. done.
Qed.

Lemma malloc_truncates_witness :
  malloc (2 ^ 32 + 40) demo_ready = Ok 4112 demo_one.
Proof.
  rewrite (malloc_truncates demo_ready (2 ^ 32 + 40)); [exact demo_malloc_ok|reflexivity|lia].
Defined.

(** The head of the free list is a free block with its header in memory. *)
Lemma free_list_head b0 bs s :
  repr b0 bs s -> hp_free_list (hp s) <> 0 ->
  exists sz nx, 16 <= sz < 2 ^ 32 /\ 0 <= nx < 2 ^ 64 /\ 0 < hp_free_list (hp s) /\
    hp_free_list (hp s) + sz < 2 ^ 64 /\ mapped (hmem s) (hp_free_list (hp s)) sz /\
    blk_ok (hmem s) (hp_free_list (hp s)) (Free sz) nx.
Proof.
  intros [[_ _ _ Hl Hb0 Htop H32 Hg Hm Hb] _ _] Hne. rewrite Hl in *. clear Hl.
  assert (exists pre sz post, bs = pre ++ Free sz :: post /\ all_used pre) as (pre & sz & post & -> & Hu).
  { clear -Hne. revert b0 Hne. induction bs as [|[t|t] bs IH]; intros b0 Hne; simpl in Hne; [done| |].
    - destruct (IH _ Hne) as (pre & sz & post & -> & ?). exists (Used t :: pre), sz, post.
      split; [done|by constructor].
    - by exists [], t, bs. }
  rewrite nextf_app, nextf_used in * by done. simpl in *. rewrite total_app in *. simpl in *.
  apply good_sizes_app in Hg as [Hp [[? ?] Hq]%good_sizes_cons]. simpl in *.
  pose proof (total_nonneg pre Hp). pose proof (total_nonneg post Hq).
  apply blocks_ok_app in Hb as [_ [Hb _]]. simpl in Hb.
  assert (0 <= nextf (b0 + total pre + sz) post 0 < 2 ^ 64)
    by (destruct (nextf_range (b0 + total pre + sz) post 0 Hq); lia).
  exists sz, (nextf (b0 + total pre + sz) post 0).
  split; [lia|]. split; [lia|]. split; [lia|]. split; [lia|]. split; [|exact Hb].
  eapply mapped_sub; [exact Hm|lia|lia].
Qed.

(** A split that takes 0 bytes rewrites the block in place and keeps it in the list. *)
Lemma take_block_zero s cur sz nx :
  16 <= sz < 2 ^ 32 -> 0 <= nx < 2 ^ 64 -> 0 < cur -> cur + sz < 2 ^ 64 ->
  mapped (hmem s) cur sz -> blk_ok (hmem s) cur (Free sz) nx ->
  exists m', take_block 0 sz 0 cur s = Ok tt (HeapState (with_free_list (hp s) cur) m') /\
    same_dom (hmem s) m'.
Proof.
  intros Hsz Hnx Hc Htop Hm (Hmg & Hs & Hn). unfold take_block. replace (sz =? 0) with false by lia.
  rewrite Z.add_0_r, (wrap_small 64 cur) by lia. cbv zeta.
  destruct (hst_ok 4 (fb_magic cur) MINIHEAP_MAGIC_FREE s) as (m1 & E1 & L1 & O1 & D1).
  { eapply mapped_sub; [exact Hm|unfold fb_magic; lia..]. }
  assert (mload 4 (fb_size cur) m1 = Some sz) as Hs1
    by (rewrite (mload_same_outside 4 _ _ _ _ _ O1); [done|unfold fb_size, fb_magic; lia]).
  destruct (update_free_header (set_hmem s m1) cur sz nx)
    as (m2 & m3 & E2 & E3 & O2 & _ & D3 & _); try done; try lia.
  { eapply mapped_same_dom; [exact D1|]. eapply mapped_sub; [exact Hm|lia|lia]. }
  assert (mload 8 (fb_next cur) m2 = Some nx) as Hn2.
  { simpl in O2. rewrite (mload_same_outside 8 _ _ _ _ _ O2) by (unfold fb_next, fb_size; lia).
    rewrite (mload_same_outside 8 _ _ _ _ _ O1); [done|unfold fb_next, fb_magic; lia]. }
  exists m3. split; [|by etrans]. mstep E1.
  mstep (hld_ok 4 (fb_size cur) sz (set_hmem s m1) Hs1). rewrite Z.sub_0_r, wrap_small by lia.
  mstep E2. mstep (hld_ok 8 (fb_next cur) nx (set_hmem (set_hmem s m1) m2) Hn2). mstep E3. done.
Qed.

(** C36: in the window just below 4 GiB the 32-bit size wraps to 0.  The call then succeeds
    on any heap with a free block: it returns a pointer into the first free block without
    reserving a byte, leaves that block at the head of the free list with the header of a
    used block of size 0, and no division of the arena into blocks describes the heap any
    more. *)
Theorem malloc_wraps b0 bs s size :
  repr b0 bs s -> hp_free_list (hp s) <> 0 -> MAX_REQUEST < size <= 2 ^ 32 - 16 ->
  exists s', malloc size s = Ok (u64 (hp_free_list (hp s) + 16)) s' /\
    hp_free_list (hp s') = hp_free_list (hp s) /\
    hp_free_bytes (hp s') = hp_free_bytes (hp s) /\
    mload 4 (fb_magic (hp_free_list (hp s))) (hmem s') = Some MINIHEAP_MAGIC_USED /\
    mload 4 (fb_size (hp_free_list (hp s))) (hmem s') = Some 0 /\
    forall bs', ~ repr b0 bs' s'.
Proof.
  intros R Hne Hs. unfold MAX_REQUEST in Hs.
  destruct (free_list_head b0 bs s R Hne) as (sz & nx & Hsz & Hnx & Hc & Htop & Hm & B).
  set (cur := hp_free_list (hp s)) in *.
  pose proof R as [[_ _ Halign _ _ _ H32 Hg _ _] Hfree _].
  pose proof (free_total_bounds bs Hg).
  destruct (take_block_zero s cur sz nx) as (m1 & E1 & D1); try done.
  destruct (write_used_header (set_hp (HeapState (with_free_list (hp s) cur) m1)
      (with_free_bytes (with_free_list (hp s) cur) (hp_free_bytes (hp s)))) cur 0)
    as (m2 & m3 & E2 & E3 & _ & _ & B3).
  { eapply mapped_same_dom; [exact D1|]. eapply mapped_sub; [exact Hm|lia|lia]. }
  { lia. }
  destruct (B3 0) as [Bm Bs].
  exists (HeapState (with_free_bytes (with_free_list (hp s) cur) (hp_free_bytes (hp s))) m3).
  split; [|split; [done|]; split; [done|]; split; [exact Bm|]; split; [exact Bs|]].
  2: { intros bs' R'.
       destruct (free_list_head b0 bs' _ R' Hne) as (? & ? & _ & _ & _ & _ & _ & Hmg & _).
       simpl in Hmg, Bm. rewrite Bm in Hmg. discriminate. }
  - unfold malloc, miniheap_alloc. rewrite bind_gets, Halign, round_request_ok by lia.
    replace (16 * ((size + 15) / 16)) with (2 ^ 32 - 16)
      by (replace (size + 15) with (size + 15 - (2 ^ 32 - 16) + (2 ^ 28 - 1) * 16) by lia;
          rewrite Z.div_add by lia; rewrite Z.div_small by lia; lia).
    change (u32 (2 ^ 32 - 16 + MINIHEAP_USEDHEADER_SIZE)) with 0.
    change (2 ^ 32 - 16 =? 0) with false. cbn beta iota zeta.
    replace (hp_free_bytes (hp s) <? 0) with false by lia. rewrite bind_gets. fold cur.
    assert (alloc_loop (walk_fuel s) 0 0 cur s =
            Ok cur (HeapState (with_free_list (hp s) cur) m1)) as El.
    { unfold walk_fuel. cbn [alloc_loop]. rewrite truth_pos by done. cbn [negb].
      mstep (hld_ok _ _ _ _ (proj1 (proj2 B))). replace (0 <=? sz) with true by lia.
      mstep E1. done. }
    mstep El. rewrite truth_pos by done. cbn [negb]. rewrite bind_gets, Z.sub_0_r. simpl hp_free_bytes.
    rewrite (wrap_small 64 (hp_free_bytes (hp s))) by lia. unfold set_free_bytes.
    rewrite bind_modify. mstep E2. mstep E3. rewrite header_size. done.
Qed.

Lemma malloc_wraps_witness :
  exists s', malloc 0xFFFFFFF0 demo_ready = Ok 4112 s' /\ forall bs', ~ repr 4096 bs' s'.
Proof.
  destruct (malloc_wraps 4096 [Free 256] demo_ready 0xFFFFFFF0 demo_repr)
    as (s' & E & _ & _ & _ & _ & H).
  - vm_compute. discriminate.
  - unfold MAX_REQUEST. lia.
  - exists s'. split; [|exact H]. rewrite E. f_equal.
Defined.
