(* ===== verification/CString.v ===== *)
(** The string functions of src/libc/string.c over the byte memory of Mem.

    [fuel] bounds the characters a scan may look at; a scan of an unterminated string that
    stays in mapped memory is reported as [Spin] when it is used up.

    memcpy and memset go through memory in [uint64_t]s wherever their pointers lead. The build
    says -mstrict-align and the MMU is never switched on, so that an access of eight bytes at
    an address that is no multiple of eight is an alignment fault. *)
From Stdlib Require Import ZArith Lia.
From stdpp Require Import base gmap list strings.
From S2P Require Import Prelude Mem.

Open Scope Z_scope.

(** * Block operations *)

(** An access to an element of [w] bytes, which has to be aligned. *)
Definition aligned (w : nat) (a : Z) : bool := a mod Z.of_nat w =? 0.

Definition unaligned_access : stop := Trap "unaligned access".

Definition ld_elem (w : nat) (a : Z) : M mem Z :=
  if aligned w a then ld w a else stop_with unaligned_access.

Definition st_elem (w : nat) (a v : Z) : M mem unit :=
  if aligned w a then st w a v else stop_with unaligned_access.

(** [for (i = 0; i < k; i++) d[i] = s[i]] on elements of [w] bytes. *)
Fixpoint copy_loop (w : nat) (k : nat) (d s : Z) : M mem unit :=
  match k with
  | O => mret tt
  | S k' => v ← ld_elem w s; st_elem w d v ;; copy_loop w k' (d + Z.of_nat w) (s + Z.of_nat w)
  end.

Definition memcpy (dest src n : Z) : M mem Z :=
  let steps := Z.shiftr n 3 in
  copy_loop 8 (Z.to_nat steps) dest src ;;
  let remaining := Z.land n 7 in
  copy_loop 1 (Z.to_nat remaining) (dest + 8 * steps) (src + 8 * steps) ;;
  mret dest.

Fixpoint fill_loop (w : nat) (k : nat) (d v : Z) : M mem unit :=
  match k with
  | O => mret tt
  | S k' => st_elem w d v ;; fill_loop w k' (d + Z.of_nat w) v
  end.

(** Eight copies of a byte. *)
Definition word_of (byte_c : Z) : Z :=
  Z.lor (u64 (Z.shiftl byte_c 56)) (Z.lor (Z.shiftl byte_c 48) (Z.lor (Z.shiftl byte_c 40)
    (Z.lor (Z.shiftl byte_c 32) (Z.lor (Z.shiftl byte_c 24) (Z.lor (Z.shiftl byte_c 16)
      (Z.lor (Z.shiftl byte_c 8) byte_c)))))).

Definition memset (s c n : Z) : M mem Z :=
  let steps := Z.shiftr n 3 in
  let byte_c := u8 c in
  fill_loop 8 (Z.to_nat steps) s (word_of byte_c) ;;
  let remaining := Z.land n 7 in
  fill_loop 1 (Z.to_nat remaining) (s + 8 * steps) byte_c ;;
  mret s.

(** * Comparisons *)

(** The loop of strcmp leaves the two cursors where it stops. *)
Fixpoint strcmp_loop (fuel : nat) (s1 s2 : Z) : M mem (Z * Z) :=
  a ← ld 1 s1;
  if truth a then
    b ← ld 1 s2;
    if a =? b then
      match fuel with
      | O => stop_with Spin
      | S fuel' => strcmp_loop fuel' (s1 + 1) (s2 + 1)
      end
    else mret (s1, s2)
  else mret (s1, s2).

Definition strcmp (fuel : nat) (s1 s2 : Z) : M mem Z :=
  r ← strcmp_loop fuel s1 s2;
  a ← ld 1 (r.1); b ← ld 1 (r.2);
  mret (a - b).

(** [k] characters are left to compare. *)
Fixpoint strncmp_loop (k : nat) (s1 s2 : Z) : M mem Z :=
  match k with
  | O => mret 0
  | S k' =>
      a ← ld 1 s1; b ← ld 1 s2;
      if negb (a =? b) then mret (a - b)
      else if a =? 0 then mret 0
      else strncmp_loop k' (s1 + 1) (s2 + 1)
  end.
Definition strncmp (s1 s2 n : Z) : M mem Z := strncmp_loop (Z.to_nat n) s1 s2.

Fixpoint strlen_loop (fuel : nat) (s len : Z) : M mem Z :=
  c ← ld 1 (s + len);
  if truth c then
    match fuel with
    | O => stop_with Spin
    | S fuel' => strlen_loop fuel' s (len + 1)
    end
  else mret len.
Definition strlen (fuel : nat) (s : Z) : M mem Z := strlen_loop fuel s 0.

(** * Copies *)

(** [while (( *d++ = *src++) != 0)] *)
Fixpoint copy_str (fuel : nat) (d src : Z) : M mem unit :=
  c ← ld 1 src;
  st 1 d c ;;
  if truth c then
    match fuel with
    | O => stop_with Spin
    | S fuel' => copy_str fuel' (d + 1) (src + 1)
    end
  else mret tt.

Definition strcpy (fuel : nat) (dest src : Z) : M mem Z := copy_str fuel dest src ;; mret dest.

(** [for (; i < n && src[i] != 0; i++) d[i] = src[i]]: returns the [i] it stops at. *)
Fixpoint copy_n (k : nat) (d src i : Z) : M mem Z :=
  match k with
  | O => mret i
  | S k' =>
      c ← ld 1 (src + i);
      if truth c then st 1 (d + i) c ;; copy_n k' d src (i + 1) else mret i
  end.

Definition strncpy (dest src n : Z) : M mem Z :=
  i ← copy_n (Z.to_nat n) dest src 0;
  fill_loop 1 (Z.to_nat (n - i)) (dest + i) 0 ;;
  mret dest.

(** [while ( *d != 0) d++] *)
Fixpoint to_end (fuel : nat) (d : Z) : M mem Z :=
  c ← ld 1 d;
  if truth c then
    match fuel with
    | O => stop_with Spin
    | S fuel' => to_end fuel' (d + 1)
    end
  else mret d.

Definition strcat (fuel : nat) (dest src : Z) : M mem Z :=
  d ← to_end fuel dest; copy_str fuel d src ;; mret dest.

Definition strncat (fuel : nat) (dest src n : Z) : M mem Z :=
  d ← to_end fuel dest;
  i ← copy_n (Z.to_nat n) d src 0;
  st 1 (d + i) 0 ;;
  mret dest.

(** * Search *)

(** The inner loop of strstr, from [h] and [n]: the needle cursor it stops at. *)
Fixpoint match_loop (fuel : nat) (h n : Z) : M mem Z :=
  a ← ld 1 h;
  if negb (truth a) then mret n else
  b ← ld 1 n;
  if truth b && (a =? b) then
    match fuel with
    | O => stop_with Spin
    | S fuel' => match_loop fuel' (h + 1) (n + 1)
    end
  else mret n.

(** The body of the [if ( *haystack == *needle)]: does the needle match here? *)
Definition match_at (fuel : nat) (same : bool) (haystack needle : Z) : M mem bool :=
  if same then n ← match_loop fuel haystack needle; c ← ld 1 n; mret (c =? 0)
  else mret false.

Fixpoint strstr_loop (fuel : nat) (haystack needle : Z) : M mem Z :=
  a ← ld 1 haystack;
  if negb (truth a) then mret 0 else
  b ← ld 1 needle;
  found ← match_at fuel (a =? b) haystack needle;
  if (found : bool) then mret haystack else
  match fuel with
  | O => stop_with Spin
  | S fuel' => strstr_loop fuel' (haystack + 1) needle
  end.

Definition strstr (fuel : nat) (haystack needle : Z) : M mem Z :=
  b ← ld 1 needle;
  if b =? 0 then mret haystack else strstr_loop fuel haystack needle.
