(* ===== verification/CStringProof.v ===== *)
(** What the string functions do to the byte memory. *)
From Stdlib Require Import ZArith Lia.
From stdpp Require Import base gmap list.
From S2P Require Import Prelude Mem CString.

Open Scope Z_scope.

(** * Bytes of a loaded and of a stored value *)

Lemma byte_of_Z_mod a b : a mod 256 = b mod 256 -> byte_of_Z a = byte_of_Z b.
Proof. intros E. apply byte_to_Z_inj. by rewrite !byte_to_of_Z. Qed.

Lemma mload_nth n a m v i :
  mload n a m = Some v -> 0 <= i < Z.of_nat n -> m !! (a + i) = Some (byte_of_Z (v / 256 ^ i)).
Proof.
  revert a v i. induction n as [|n IH]; intros a v i; [lia|]. rewrite mload_S.
  destruct (m !! a) as [b|] eqn:Eb; [|done]. cbn [mbind option_bind].
  destruct (mload n (a + 1) m) as [r|] eqn:Er; [|done]. intros [= <-] Hi.
  pose proof (byte_to_Z_range b). destruct (decide (i = 0)) as [->|].
  - rewrite Z.add_0_r, Z.pow_0_r, Z.div_1_r, Eb. f_equal.
    rewrite <- (byte_of_to_Z b) at 1. apply byte_of_Z_mod.
    rewrite Z.add_mod, (Z.mul_comm 256), Z.mod_mul, Z.add_0_r, Zmod_mod by lia. done.
  - replace (a + i) with (a + 1 + (i - 1)) by lia. rewrite (IH _ _ (i - 1) Er) by lia. do 2 f_equal.
    replace (256 ^ i) with (256 * 256 ^ (i - 1)) by (rewrite <- Z.pow_succ_r by lia; f_equal; lia).
    rewrite <- Z.div_div by (try apply Z.pow_pos_nonneg; lia). f_equal.
    rewrite (Z.mul_comm 256), Z.div_add by lia. rewrite (Z.div_small (byte_to_Z b)) by lia. lia.
Qed.

Lemma mstore_nth n a v m m' i :
  mstore n a v m = Some m' -> 0 <= i < Z.of_nat n -> m' !! (a + i) = Some (byte_of_Z (v / 256 ^ i)).
Proof.
  revert a v m i. induction n as [|n IH]; intros a v m i; [lia|]. rewrite mstore_S.
  destruct (m !! a) as [b|] eqn:Eb; [|done]. cbn [mbind option_bind]. intros E Hi.
  destruct (decide (i = 0)) as [->|].
  - apply mstore_spec in E as (_ & Ho & _). rewrite Ho, Z.add_0_r by lia.
    by rewrite lookup_insert_eq, Z.pow_0_r, Z.div_1_r.
  - replace (a + i) with (a + 1 + (i - 1)) by lia. rewrite (IH _ _ _ (i - 1) E) by lia. do 2 f_equal.
    replace (256 ^ i) with (256 * 256 ^ (i - 1)) by (rewrite <- Z.pow_succ_r by lia; f_equal; lia).
    by rewrite Z.div_div by (try apply Z.pow_pos_nonneg; lia).
Qed.

(** * Blocks *)

(** [m'] holds at [d] the [n] bytes that [m] holds at [s]. *)
Definition copied (m m' : mem) (d s n : Z) : Prop := forall i, 0 <= i < n -> m' !! (d + i) = m !! (s + i).

Definition filled (m' : mem) (d n c : Z) : Prop := forall i, 0 <= i < n -> m' !! (d + i) = Some (byte_of_Z c).

Definition disjoint (a n b k : Z) : Prop := a + n <= b \/ b + k <= a.

Lemma aligned_mod w a : aligned w a = true <-> a mod Z.of_nat w = 0.
Proof. apply Z.eqb_eq. Qed.

Lemma aligned_next w a : aligned w (a + Z.of_nat w) = aligned w a.
Proof.
  unfold aligned. destruct w as [|w]; [by rewrite Z.add_0_r|].
  rewrite <- (Z.mod_add a 1 (Z.of_nat (S w))) by lia. by rewrite Z.mul_1_l.
Qed.

Lemma aligned_1 a : aligned 1 a = true.
Proof. unfold aligned. by rewrite Z.mod_1_r. Qed.

Lemma ld_elem_aligned w a m : aligned w a = true -> ld_elem w a m = ld w a m.
Proof. unfold ld_elem. by intros ->. Qed.

Lemma st_elem_aligned w a v m : aligned w a = true -> st_elem w a v m = st w a v m.
Proof. unfold st_elem. by intros ->. Qed.

Lemma ld_elem_traps w a m : aligned w a = false -> ld_elem w a m = Stop unaligned_access m.
Proof. unfold ld_elem. by intros ->. Qed.

Lemma st_elem_traps w a v m : aligned w a = false -> st_elem w a v m = Stop unaligned_access m.
Proof. unfold st_elem. by intros ->. Qed.

(** A loop that runs at all stops at its first access when a pointer is unaligned. *)
Lemma copy_loop_traps w k d s m :
  mapped m s (Z.of_nat w) -> aligned w d && aligned w s = false ->
  copy_loop w (S k) d s m = Stop unaligned_access m.
Proof.
  intros Hs Ha. cbn [copy_loop]. destruct (aligned w s) eqn:E.
  - destruct (mload_mapped w s m) as [v Hv]; [done|].
    mstep (eq_trans (ld_elem_aligned _ _ m E) (load_Some id w s m v Hv)).
    apply bind_Stop, st_elem_traps. by rewrite andb_true_r in Ha.
  - by apply bind_Stop, ld_elem_traps.
Qed.

Lemma fill_loop_traps w k d v m :
  aligned w d = false -> fill_loop w (S k) d v m = Stop unaligned_access m.
Proof. intros Ha. cbn [fill_loop]. by apply bind_Stop, st_elem_traps. Qed.

Lemma copy_loop_spec w k d s m :
  (0 < w)%nat -> (k = 0%nat \/ aligned w d = true /\ aligned w s = true) ->
  let n := Z.of_nat w * Z.of_nat k in
  mapped m d n -> mapped m s n -> disjoint d n s n ->
  exists m', copy_loop w k d s m = Ok tt m' /\ copied m m' d s n /\
    same_outside m m' d n /\ same_dom m m'.
Proof.
  intros Hw. revert d s m. induction k as [|k IH]; intros d s m Hal n Hd Hs Hdis; subst n.
  - exists m. split; [done|]. split; [intros i Hi; lia|]. split; [apply same_outside_refl|done].
  - cbn [copy_loop].
    destruct (mload_mapped w s m) as [v Hv]; [eapply mapped_sub; [exact Hs|lia|lia]|].
    destruct Hal as [?|[Hd8 Hs8]]; [done|].
    mstep (eq_trans (ld_elem_aligned _ _ m Hs8) (load_Some id w s m v Hv)).
    destruct (mstore_ok w d v m) as (m1 & E1 & _ & O1 & D1); [eapply mapped_sub; [exact Hd|lia|lia]|].
    mstep (eq_trans (st_elem_aligned _ _ _ m Hd8) (store_Some id (fun _ m => m) w d v m m1 E1)).
    assert (Hsub : forall a, mapped m a (Z.of_nat w * Z.of_nat (S k)) ->
              mapped m1 (a + Z.of_nat w) (Z.of_nat w * Z.of_nat k)).
    { intros a Ha. eapply mapped_same_dom; [exact D1|]. eapply mapped_sub; [exact Ha|lia|lia]. }
    destruct (IH (d + Z.of_nat w) (s + Z.of_nat w) m1) as (m2 & E2 & C2 & O2 & D2);
      [right; by rewrite !aligned_next|by apply Hsub|by apply Hsub|unfold disjoint in *; lia|].
    exists m2. split; [done|]. split; [|split; [|by etrans]].
    + intros i Hi. destruct (Z.ltb_spec i (Z.of_nat w)).
      * rewrite (O2 (d + i)) by lia.
        by rewrite (mstore_nth _ _ _ _ _ i E1), (mload_nth _ _ _ _ i Hv) by lia.
      * replace (d + i) with (d + Z.of_nat w + (i - Z.of_nat w)) by lia.
        rewrite C2 by lia. replace (s + Z.of_nat w + (i - Z.of_nat w)) with (s + i) by lia.
        apply O1. unfold disjoint in Hdis. lia.
    + intros i Hi. rewrite O2, O1 by lia. done.
Qed.

Lemma fill_loop_spec w k d v c m :
  (0 < w)%nat -> (k = 0%nat \/ aligned w d = true) -> (forall j, 0 <= j < Z.of_nat w -> byte_of_Z (v / 256 ^ j) = byte_of_Z c) ->
  let n := Z.of_nat w * Z.of_nat k in
  mapped m d n ->
  exists m', fill_loop w k d v m = Ok tt m' /\ filled m' d n c /\
    same_outside m m' d n /\ same_dom m m'.
Proof.
  intros Hw Hal Hv. revert d m Hal. induction k as [|k IH]; intros d m Hal n Hd; subst n.
  - exists m. split; [done|]. split; [intros i Hi; lia|]. split; [apply same_outside_refl|done].
  - cbn [fill_loop].
    destruct (mstore_ok w d v m) as (m1 & E1 & _ & O1 & D1); [eapply mapped_sub; [exact Hd|lia|lia]|].
    destruct Hal as [?|Hd8]; [done|].
    mstep (eq_trans (st_elem_aligned _ _ _ m Hd8) (store_Some id (fun _ m => m) w d v m m1 E1)).
    destruct (IH (d + Z.of_nat w) m1) as (m2 & E2 & C2 & O2 & D2).
    { right. by rewrite aligned_next. }
    { eapply mapped_same_dom; [exact D1|]. eapply mapped_sub; [exact Hd|lia|lia]. }
    exists m2. split; [done|]. split; [|split; [|by etrans]].
    + intros i Hi. destruct (Z.ltb_spec i (Z.of_nat w)).
      * rewrite (O2 (d + i)) by lia. rewrite (mstore_nth _ _ _ _ _ i E1) by lia.
        by rewrite Hv by lia.
      * replace (d + i) with (d + Z.of_nat w + (i - Z.of_nat w)) by lia. apply C2. lia.
    + intros i Hi. rewrite O2, O1 by lia. done.
Qed.

(** Splitting a byte count into words and the rest. *)
Lemma split_count n : 0 <= n ->
  let steps := Z.shiftr n 3 in let rest := Z.land n 7 in
  0 <= steps /\ 0 <= rest < 8 /\ n = 8 * steps + rest.
Proof.
  intros Hn. cbv zeta. rewrite Z.shiftr_div_pow2 by lia. change 7 with (Z.ones 3).
  rewrite Z.land_ones by lia. change (2 ^ 3) with 8.
  pose proof (Z.div_mod n 8). pose proof (Z.mod_pos_bound n 8). pose proof (Z.div_pos n 8). lia.
Qed.

Lemma word_of_bytes c j : 0 <= c < 256 -> 0 <= j < 8 -> byte_of_Z (word_of c / 256 ^ j) = byte_of_Z c.
Proof.
  intros Hc Hj. apply byte_of_Z_mod.
  assert (Hall : forallb (fun c => forallb (fun j => word_of (Z.of_nat c) / 256 ^ Z.of_nat j mod 256 =? Z.of_nat c)
            (seq 0 8)) (seq 0 256) = true) by (vm_compute; reflexivity).
  rewrite forallb_forall in Hall. specialize (Hall (Z.to_nat c)).
  rewrite in_seq, forallb_forall in Hall. specialize (Hall ltac:(lia) (Z.to_nat j)).
  rewrite in_seq, !Z2Nat.id in Hall by lia. specialize (Hall ltac:(lia)).
  apply Z.eqb_eq in Hall. rewrite Hall. symmetry. apply Z.mod_small. lia.
Qed.

(** * C strings *)

(** At [a] there is the string [t], with its terminator. *)
Fixpoint cstr (m : mem) (a : Z) (t : list Z) : Prop :=
  match t with
  | [] => mload 1 a m = Some 0
  | c :: t' => mload 1 a m = Some c /\ c <> 0 /\ cstr m (a + 1) t'
  end.

Abbreviation len t := (Z.of_nat (length t)).

Lemma cstr_frame m m' a n b t :
  same_outside m m' a n -> disjoint b (len t + 1) a n -> cstr m b t -> cstr m' b t.
Proof.
  intros Hs. revert b. induction t as [|c t IH]; intros b Hd; cbn [cstr length] in *.
  - intros Hl. rewrite (mload_same_outside 1 b m m' a n Hs) by (unfold disjoint in Hd; lia). done.
  - intros (Hl & Hc & Ht). rewrite (mload_same_outside 1 b m m' a n Hs) by (unfold disjoint in Hd; lia).
    split; [done|]. split; [done|]. apply IH; [|done]. unfold disjoint in *. lia.
Qed.

Lemma cstr_range m a t : cstr m a t -> Forall (fun c => 0 < c < 256) t.
Proof.
  revert a. induction t as [|c t IH]; intros a; [constructor|]. intros (Hl & Hc & Ht).
  apply mload_range in Hl. constructor; [lia|by eapply IH].
Qed.

Lemma cstr_drop m a t i : cstr m a t -> (i <= length t)%nat -> cstr m (a + Z.of_nat i) (drop i t).
Proof.
  revert a i. induction t as [|c t IH]; intros a [|i]; cbn [length drop]; intros Ht Hi;
    rewrite ?Z.add_0_r; try done; [lia|].
  destruct Ht as (_ & _ & Ht). replace (a + Z.of_nat (S i)) with (a + 1 + Z.of_nat i) by lia.
  apply IH; [done|lia].
Qed.

(** Reading the character under a cursor. *)
Lemma ld_cstr m a t : cstr m a t -> ld 1 a m = Ok (hd 0 t) m.
Proof. intros H. apply load_Some. destruct t; cbn in *; tauto. Qed.

Lemma truth_head m a c t : cstr m a (c :: t) -> truth c = true.
Proof. intros (_ & Hc & _). by apply truth_true. Qed.

Lemma strlen_run fuel m a t i :
  cstr m (a + i) t -> (length t <= fuel)%nat -> strlen_loop fuel a i m = Ok (i + len t) m.
Proof.
  revert fuel i. induction t as [|c t IH]; intros fuel i Ht Hf; cbn [length] in *.
  - destruct fuel; cbn [strlen_loop]; mstep (ld_cstr _ _ _ Ht); cbn; by rewrite Z.add_0_r.
  - destruct fuel as [|fuel]; [lia|]. cbn [strlen_loop]. mstep (ld_cstr _ _ _ Ht). cbn [hd].
    rewrite (truth_head _ _ _ _ Ht). destruct Ht as (_ & _ & Ht).
    rewrite IH; [f_equal; lia| |lia]. by rewrite Z.add_assoc.
Qed.

Lemma to_end_run fuel m a t :
  cstr m a t -> (length t <= fuel)%nat -> to_end fuel a m = Ok (a + len t) m.
Proof.
  revert fuel a. induction t as [|c t IH]; intros fuel a Ht Hf; cbn [length] in *.
  - destruct fuel; cbn [to_end]; mstep (ld_cstr _ _ _ Ht); cbn; by rewrite Z.add_0_r.
  - destruct fuel as [|fuel]; [lia|]. cbn [to_end]. mstep (ld_cstr _ _ _ Ht). cbn [hd].
    rewrite (truth_head _ _ _ _ Ht). destruct Ht as (_ & _ & Ht).
    rewrite IH; [f_equal; lia|done|lia].
Qed.

(** * Comparison *)

(** Difference of the first characters that differ, the terminator counting as 0. *)
Fixpoint strcmp_text (s t : list Z) : Z :=
  match s, t with
  | c :: s', d :: t' => if c =? d then strcmp_text s' t' else c - d
  | c :: _, [] => c
  | [], d :: _ => - d
  | [], [] => 0
  end.

Lemma strcmp_run fuel m a b s t :
  cstr m a s -> cstr m b t -> (length s <= fuel)%nat -> strcmp fuel a b m = Ok (strcmp_text s t) m.
Proof.
  intros Hs Ht Hf. unfold strcmp.
  assert (Hl : exists a' b' s' t', strcmp_loop fuel a b m = Ok (a', b') m /\
            cstr m a' s' /\ cstr m b' t' /\ hd 0 s' - hd 0 t' = strcmp_text s t).
  { revert fuel a b t Hs Ht Hf. induction s as [|c s IH]; intros fuel a b t Hs Ht Hf.
    - exists a, b, [], t. split; [|split; [done|split; [done|]]].
      + destruct fuel; cbn [strcmp_loop]; by mstep (ld_cstr _ _ _ Hs).
      + destruct t; cbn; lia.
    - destruct fuel as [|fuel]; [cbn in Hf; lia|]. cbn [strcmp_loop].
      mstep (ld_cstr _ _ _ Hs). cbn [hd]. rewrite (truth_head _ _ _ _ Hs).
      mstep (ld_cstr _ _ _ Ht). destruct t as [|d t]; cbn [hd].
      + exists a, b, (c :: s), []. destruct (Z.eqb_spec c 0); [by destruct Hs as (_ & ? & _)|].
        split; [done|]. split; [done|]. split; [done|]. cbn. lia.
      + cbn [strcmp_text]. destruct (Z.eqb_spec c d) as [->|].
        * apply IH; [by destruct Hs as (_ & _ & ?)|by destruct Ht as (_ & _ & ?)|cbn in Hf; lia].
        * by exists a, b, (c :: s), (d :: t). }
  destruct Hl as (a' & b' & s' & t' & E & Ha & Hb & Hv). mstep E. cbn [fst snd].
  mstep (ld_cstr _ _ _ Ha). mstep (ld_cstr _ _ _ Hb). unfold mret, M_ret. by rewrite Hv.
Qed.

(** * Copies *)

(** The characters [t] at [a], whatever follows them. *)
Fixpoint chars (m : mem) (a : Z) (t : list Z) : Prop :=
  match t with
  | [] => True
  | c :: t' => mload 1 a m = Some c /\ c <> 0 /\ chars m (a + 1) t'
  end.

Lemma cstr_chars m a t : cstr m a t <-> chars m a t /\ mload 1 (a + len t) m = Some 0.
Proof.
  revert a. induction t as [|c t IH]; intros a; cbn [cstr chars length].
  - rewrite Z.add_0_r. tauto.
  - rewrite IH. replace (a + 1 + len t) with (a + Z.of_nat (S (length t))) by lia. tauto.
Qed.

Lemma chars_app m a s t : chars m a (s ++ t) <-> chars m a s /\ chars m (a + len s) t.
Proof.
  revert a. induction s as [|c s IH]; intros a; cbn [chars app length].
  - rewrite Z.add_0_r. tauto.
  - rewrite IH. replace (a + 1 + len s) with (a + Z.of_nat (S (length s))) by lia. tauto.
Qed.

Lemma chars_frame m m' a n b t :
  same_outside m m' a n -> disjoint b (len t) a n -> chars m b t -> chars m' b t.
Proof.
  intros Hs. revert b. induction t as [|c t IH]; intros b Hd; cbn [chars length] in *; [done|].
  intros (Hl & Hc & Ht). rewrite (mload_same_outside 1 b m m' a n Hs) by (unfold disjoint in Hd; lia).
  split; [done|]. split; [done|]. apply IH; [|done]. unfold disjoint in *. lia.
Qed.

(** Storing one character. *)
Lemma st_char d c m : mapped m d 1 -> 0 <= c < 256 ->
  exists m', st 1 d c m = Ok tt m' /\ mload 1 d m' = Some c /\ same_outside m m' d 1 /\ same_dom m m'.
Proof.
  intros Hm Hc. destruct (mstore_ok 1 d c m Hm) as (m' & E & Hl & Ho & Hd).
  exists m'. split; [exact (store_Some id (fun _ m => m) 1 d c m m' E)|]. split; [|done]. rewrite Hl. f_equal. apply Z.mod_small. lia.
Qed.

Lemma copy_n_run k d src i m t :
  cstr m (src + i) t -> mapped m (d + i) (len (take k t)) ->
  disjoint (d + i) (len (take k t)) (src + i) (len t + 1) ->
  exists m', copy_n k d src i m = Ok (i + len (take k t)) m' /\ chars m' (d + i) (take k t) /\
    same_outside m m' (d + i) (len (take k t)) /\ same_dom m m'.
Proof.
  revert i m t. induction k as [|k IH]; intros i m t Ht Hm Hd.
  - exists m. cbn. rewrite Z.add_0_r. split; [done|]. split; [done|]. split; [apply same_outside_refl|done].
  - cbn [copy_n]. mstep (ld_cstr _ _ _ Ht). destruct t as [|c t]; cbn [hd take length] in *.
    + exists m. cbn. rewrite Z.add_0_r. split; [done|]. split; [done|]. split; [apply same_outside_refl|done].
    + rewrite (truth_head _ _ _ _ Ht). pose proof (cstr_range _ _ _ Ht) as Hr.
      apply Forall_cons in Hr as [Hr _]. destruct Ht as (_ & Hc & Ht).
      destruct (st_char (d + i) c m) as (m1 & E1 & L1 & O1 & D1);
        [eapply mapped_sub; [exact Hm|lia|lia]|lia|]. mstep E1.
      destruct (IH (i + 1) m1 t) as (m2 & E2 & C2 & O2 & D2).
      * rewrite Z.add_assoc. eapply cstr_frame; [exact O1| |done]. unfold disjoint in *. lia.
      * eapply mapped_same_dom; [exact D1|]. eapply mapped_sub; [exact Hm|lia|lia].
      * unfold disjoint in *. lia.
      * exists m2. split; [rewrite E2; f_equal; lia|]. split; [|split; [|by etrans]].
        -- cbn [chars]. rewrite <- Z.add_assoc. split; [|done].
           rewrite (mload_same_outside 1 (d + i) m1 m2 _ _ O2) by lia. done.
        -- intros j Hj. rewrite O2, O1 by lia. done.
Qed.

Lemma copy_str_run fuel d src m t :
  cstr m src t -> mapped m d (len t + 1) -> disjoint d (len t + 1) src (len t + 1) ->
  (length t <= fuel)%nat ->
  exists m', copy_str fuel d src m = Ok tt m' /\ cstr m' d t /\
    same_outside m m' d (len t + 1) /\ same_dom m m'.
Proof.
  revert fuel d src m. induction t as [|c t IH]; intros fuel d src m Ht Hm Hd Hf; cbn [length] in *.
  - destruct (st_char d 0 m) as (m1 & E1 & L1 & O1 & D1); [done|lia|].
    exists m1. split; [|done]. destruct fuel; cbn [copy_str]; mstep (ld_cstr _ _ _ Ht); by mstep E1.
  - destruct fuel as [|fuel]; [lia|]. cbn [copy_str]. mstep (ld_cstr _ _ _ Ht). cbn [hd].
    pose proof (truth_head _ _ _ _ Ht) as Htr. pose proof (cstr_range _ _ _ Ht) as Hr.
    apply Forall_cons in Hr as [Hr _]. destruct Ht as (_ & Hc & Ht).
    destruct (st_char d c m) as (m1 & E1 & L1 & O1 & D1);
      [eapply mapped_sub; [exact Hm|lia|lia]|lia|]. mstep E1. rewrite Htr.
    destruct (IH fuel (d + 1) (src + 1) m1) as (m2 & E2 & C2 & O2 & D2).
    + eapply cstr_frame; [exact O1| |done]. unfold disjoint in *. lia.
    + eapply mapped_same_dom; [exact D1|]. eapply mapped_sub; [exact Hm|lia|lia].
    + unfold disjoint in *. lia.
    + lia.
    + exists m2. split; [done|]. split; [|split; [|by etrans]].
      * cbn [cstr]. split; [|done]. rewrite (mload_same_outside 1 d m1 m2 _ _ O2) by lia. done.
      * intros j Hj. rewrite O2, O1 by lia. done.
Qed.

(** * Search *)

Lemma match_run fuel m h n hs ns :
  cstr m h hs -> cstr m n ns -> (length hs <= fuel)%nat ->
  exists n' ns', match_loop fuel h n m = Ok n' m /\ cstr m n' ns' /\
    (ns' = [] <-> ns `prefix_of` hs).
Proof.
  revert fuel h n ns. induction hs as [|c hs IH]; intros fuel h n ns Hh Hn Hf.
  - exists n, ns. split; [destruct fuel; cbn [match_loop]; by mstep (ld_cstr _ _ _ Hh)|].
    split; [done|]. split; [intros ->; apply prefix_nil|]. by intros ->%prefix_nil_inv.
  - destruct fuel as [|fuel]; [cbn in Hf; lia|]. cbn [match_loop]. mstep (ld_cstr _ _ _ Hh).
    cbn [hd]. rewrite (truth_head _ _ _ _ Hh). cbn [negb]. mstep (ld_cstr _ _ _ Hn).
    destruct ns as [|d ns]; cbn [hd].
    + exists n, []. split; [done|]. split; [done|]. split; [intros _; apply prefix_nil|done].
    + rewrite (truth_head _ _ _ _ Hn). cbn [andb]. destruct (Z.eqb_spec c d) as [->|Hne].
      * destruct (IH fuel (h + 1) (n + 1) ns) as (n' & ns' & E & Hc & Hp);
          [by destruct Hh as (_ & _ & ?)|by destruct Hn as (_ & _ & ?)|cbn in Hf; lia|].
        exists n', ns'. split; [done|]. split; [done|]. rewrite Hp. split; [apply prefix_cons|].
        by intros ?%prefix_cons_inv_2.
      * exists n, (d :: ns). split; [done|]. split; [done|]. split; [done|].
        intros ?%prefix_cons_inv_1. congruence.
Qed.

Lemma strstr_run fuel m h n hs ns :
  cstr m h hs -> cstr m n ns -> ns <> [] -> (length hs <= fuel)%nat ->
  (exists i, (i < length hs)%nat /\ strstr_loop fuel h n m = Ok (h + Z.of_nat i) m /\
     ns `prefix_of` drop i hs /\ forall j, (j < i)%nat -> ~ ns `prefix_of` drop j hs) \/
  (strstr_loop fuel h n m = Ok 0 m /\ forall j, ~ ns `prefix_of` drop j hs).
Proof.
  intros Hh Hn Hne. revert fuel h Hh. induction hs as [|c hs IH]; intros fuel h Hh Hf.
  - right. split; [destruct fuel; cbn [strstr_loop]; by mstep (ld_cstr _ _ _ Hh)|].
    intros j. rewrite drop_nil. by intros ->%prefix_nil_inv.
  - assert (Hat : exists b : bool, match_at fuel (c =? hd 0 ns) h n m = Ok b m /\
              (b = true <-> ns `prefix_of` c :: hs)).
    { unfold match_at. destruct (Z.eqb_spec c (hd 0 ns)) as [_|Hc].
      - destruct (match_run fuel m h n _ _ Hh Hn Hf) as (n' & ns' & E & Hc & Hp). mstep E.
        mstep (ld_cstr _ _ _ Hc). exists (hd 0 ns' =? 0). split; [done|]. rewrite <- Hp.
        destruct ns' as [|d ns']; cbn; [done|].
        destruct (Z.eqb_spec d 0); [by destruct Hc as (_ & ? & _)|done].
      - exists false. split; [done|]. split; [done|]. destruct ns as [|d ns]; [done|].
        intros ->%prefix_cons_inv_1. done. }
    destruct fuel as [|fuel]; [cbn in Hf; lia|]. cbn [strstr_loop]. mstep (ld_cstr _ _ _ Hh).
    cbn [hd]. rewrite (truth_head _ _ _ _ Hh). cbn [negb]. mstep (ld_cstr _ _ _ Hn).
    destruct Hat as (b & E & Hb). mstep E. destruct b.
    + left. exists O. rewrite Z.add_0_r. split; [cbn; lia|]. split; [done|]. split; [by apply Hb|lia].
    + assert (Hnot : ~ ns `prefix_of` c :: hs) by (intros ?%Hb; done).
      destruct Hh as (_ & _ & Hh). cbn in Hf. destruct (IH fuel (h + 1) Hh ltac:(lia)) as [(i & Hi & E' & Hp & Hmin)|[E' Hno]].
      * left. exists (S i). split; [cbn; lia|]. split; [rewrite E'; f_equal; lia|]. split; [done|].
        intros [|j] Hj; [done|]. apply Hmin. lia.
      * right. split; [done|]. intros [|j]; [done|apply Hno].
Qed.

(** The result of a comparison is the difference at the first place the strings differ. *)
Lemma strcmp_text_diff s t :
  Forall (fun c => 0 < c) s -> Forall (fun c => 0 < c) t ->
  exists p s' t', s = p ++ s' /\ t = p ++ t' /\ strcmp_text s t = hd 0 s' - hd 0 t' /\
    (strcmp_text s t = 0 <-> s = t).
Proof.
  intros Hs. revert t. induction Hs as [|c s Hc Hs IH]; intros t Ht.
  - exists [], [], t. split; [done|]. split; [done|].
    destruct Ht as [|d t Hd _]; cbn; [done|]. split; [lia|]. split; [lia|done].
  - destruct Ht as [|d t Hd Ht]; cbn [strcmp_text].
    + exists [], (c :: s), []. cbn. split; [done|]. split; [done|]. split; [lia|]. split; [lia|done].
    + destruct (Z.eqb_spec c d) as [->|Hne].
      * destruct (IH t Ht) as (p & s' & t' & -> & -> & E & Hiff). exists (d :: p), s', t'.
        split; [done|]. split; [done|]. split; [done|]. rewrite Hiff. split; [by intros ->|by intros [= ->]].
      * exists [], (c :: s), (d :: t). cbn. split; [done|]. split; [done|]. split; [done|].
        split; [lia|congruence].
Qed.

(** * Whole blocks *)

(** The words of a block of [n] bytes: there are none, or the pointer has to be aligned. *)
Definition words_aligned (n a : Z) : Prop := n < 8 \/ a mod 8 = 0.

Lemma words_aligned_steps n a : 0 <= n -> words_aligned n a ->
  Z.to_nat (Z.shiftr n 3) = 0%nat \/ aligned 8 a = true.
Proof.
  intros Hn [H|H]; [left|right; by apply aligned_mod].
  rewrite Z.shiftr_div_pow2 by lia. change (2 ^ 3) with 8. by rewrite Z.div_small by lia.
Qed.

Lemma memcpy_run d s n m : 0 <= n -> words_aligned n d -> words_aligned n s -> mapped m d n -> mapped m s n -> disjoint d n s n ->
  exists m', memcpy d s n m = Ok d m' /\ copied m m' d s n /\ same_outside m m' d n /\ same_dom m m'.
Proof.
  intros Hn Ad As Hd Hs Hdis. destruct (split_count n Hn) as (H1 & H2 & H3).
  pose proof (words_aligned_steps n d Hn Ad). pose proof (words_aligned_steps n s Hn As).
  unfold memcpy. set (steps := Z.shiftr n 3) in *. set (rest := Z.land n 7) in *.
  assert (Hpart : forall a m1, mapped m1 a n -> mapped m1 a (Z.of_nat 8 * Z.of_nat (Z.to_nat steps)) /\
            mapped m1 (a + 8 * steps) (Z.of_nat 1 * Z.of_nat (Z.to_nat rest))).
  { intros a m1 Ha. split; eapply mapped_sub; [exact Ha|lia|lia|exact Ha|lia|lia]. }
  destruct (copy_loop_spec 8 (Z.to_nat steps) d s m) as (m1 & E1 & C1 & O1 & D1);
    [lia|tauto|by apply Hpart|by apply Hpart|unfold disjoint in *; lia|].
  destruct (copy_loop_spec 1 (Z.to_nat rest) (d + 8 * steps) (s + 8 * steps) m1) as (m2 & E2 & C2 & O2 & D2);
    [lia|right; by rewrite !aligned_1|apply Hpart; by eapply mapped_same_dom|apply Hpart; by eapply mapped_same_dom
    |unfold disjoint in *; lia|].
  mstep E1. mstep E2. exists m2. split; [done|]. split; [|split; [|by etrans]].
  - intros i Hi. destruct (Z.ltb_spec i (8 * steps)).
    + rewrite O2 by lia. apply C1. lia.
    + replace (d + i) with (d + 8 * steps + (i - 8 * steps)) by lia. rewrite C2 by lia.
      replace (s + 8 * steps + (i - 8 * steps)) with (s + i) by lia. apply O1.
      unfold disjoint in Hdis. lia.
  - intros i Hi. rewrite O2, O1 by lia. done.
Qed.

Lemma memset_run d n c m : 0 <= n -> words_aligned n d -> mapped m d n ->
  exists m', memset d c n m = Ok d m' /\ filled m' d n c /\ same_outside m m' d n /\ same_dom m m'.
Proof.
  intros Hn Ad Hd. destruct (split_count n Hn) as (H1 & H2 & H3).
  pose proof (words_aligned_steps n d Hn Ad).
  unfold memset. set (steps := Z.shiftr n 3) in *. set (rest := Z.land n 7) in *.
  pose proof (wrap_range 8 c ltac:(lia)) as Hc.
  assert (Hb : byte_of_Z (u8 c) = byte_of_Z c) by (apply byte_of_Z_mod, Zmod_mod).
  destruct (fill_loop_spec 8 (Z.to_nat steps) d (word_of (u8 c)) c m) as (m1 & E1 & C1 & O1 & D1);
    [lia|done|intros j Hj; rewrite word_of_bytes by lia; done|eapply mapped_sub; [exact Hd|lia|lia]|].
  destruct (fill_loop_spec 1 (Z.to_nat rest) (d + 8 * steps) (u8 c) c m1) as (m2 & E2 & C2 & O2 & D2);
    [lia|right; apply aligned_1|intros j Hj; replace j with 0 by lia; by rewrite Z.pow_0_r, Z.div_1_r
    |eapply mapped_same_dom; [exact D1|eapply mapped_sub; [exact Hd|lia|lia]]|].
  mstep E1. mstep E2. exists m2. split; [done|]. split; [|split; [|by etrans]].
  - intros i Hi. destruct (Z.ltb_spec i (8 * steps)).
    + rewrite O2 by lia. apply C1. lia.
    + replace (d + i) with (d + 8 * steps + (i - 8 * steps)) by lia. apply C2. lia.
  - intros i Hi. rewrite O2, O1 by lia. done.
Qed.

(** With a word to copy or to set, an unaligned pointer stops both before they write. *)
Lemma more_than_a_word n : 8 <= n -> exists k, Z.to_nat (Z.shiftr n 3) = S k.
Proof.
  intros Hn. exists (pred (Z.to_nat (Z.shiftr n 3))). rewrite Z.shiftr_div_pow2 by lia.
  change (2 ^ 3) with 8. pose proof (Z.div_le_mono 8 n 8 ltac:(lia) Hn) as H.
  change (8 / 8) with 1 in H. lia.
Qed.

Lemma memcpy_traps d s n m : 8 <= n -> mapped m s n -> (d mod 8 <> 0 \/ s mod 8 <> 0) ->
  memcpy d s n m = Stop unaligned_access m.
Proof.
  intros Hn Hs Ha. destruct (more_than_a_word n Hn) as [k Ek]. unfold memcpy. rewrite Ek.
  apply bind_Stop, copy_loop_traps; [eapply mapped_sub; [exact Hs|lia|lia]|].
  apply andb_false_iff. rewrite <- !not_true_iff_false, !aligned_mod. done.
Qed.

Lemma memset_traps d n c m : 8 <= n -> d mod 8 <> 0 -> memset d c n m = Stop unaligned_access m.
Proof.
  intros Hn Ha. destruct (more_than_a_word n Hn) as [k Ek]. unfold memset. rewrite Ek.
  apply bind_Stop, fill_loop_traps. by rewrite <- not_true_iff_false, aligned_mod.
Qed.

(** * Strings in blocks *)

Lemma mload_byte m a b : m !! a = Some b -> mload 1 a m = Some (byte_to_Z b).
Proof. intros E. rewrite mload_S, E. change (Some (byte_to_Z b + 256 * 0) = Some (byte_to_Z b)). f_equal. lia. Qed.

Lemma mload_one m m' a b : m' !! a = m !! b -> mload 1 a m' = mload 1 b m.
Proof. intros E. by rewrite !mload_S, E. Qed.

Lemma chars_filled m a n c : 0 < c < 256 -> (forall i, 0 <= i < Z.of_nat n -> m !! (a + i) = Some (byte_of_Z c)) ->
  chars m a (replicate n c).
Proof.
  intros Hc. revert a. induction n as [|n IH]; intros a Hm; cbn [replicate chars]; [done|].
  pose proof (Hm 0 ltac:(lia)) as H0. rewrite Z.add_0_r in H0. split.
  - rewrite (mload_byte _ _ _ H0), byte_to_of_Z. f_equal. apply Z.mod_small. lia.
  - split; [lia|]. apply IH. intros i Hi. replace (a + 1 + i) with (a + (i + 1)) by lia. apply Hm. lia.
Qed.

Lemma cstr_copied m m' d s t : copied m m' d s (len t + 1) -> cstr m s t -> cstr m' d t.
Proof.
  revert d s. induction t as [|c t IH]; intros d s Hcp; cbn [cstr length] in *;
    pose proof (Hcp 0 ltac:(lia)) as H0; rewrite !Z.add_0_r in H0; rewrite (mload_one _ _ _ _ H0); [done|].
  intros (Hl & Hc & Ht). split; [done|]. split; [done|]. apply (IH _ (s + 1)); [|done].
  intros i Hi. replace (d + 1 + i) with (d + (i + 1)) by lia. replace (s + 1 + i) with (s + (i + 1)) by lia. apply Hcp. lia.
Qed.
