(* ===== verification/CStringTheorems.v ===== *)
(** The properties of the string functions (string.c), each with a concrete instance. *)
From Stdlib Require Import ZArith Lia.
From stdpp Require Import base gmap list.
From S2P Require Import Prelude Mem CString CStringProof.

Open Scope Z_scope.

Lemma strncmp_run k m a b s t :
  cstr m a s -> cstr m b t -> strncmp_loop k a b m = Ok (strcmp_text (take k s) (take k t)) m.
Proof.
  revert a b s t. induction k as [|k IH]; intros a b s t Hs Ht; [done|]. cbn [strncmp_loop].
  mstep (ld_cstr _ _ _ Hs). mstep (ld_cstr _ _ _ Ht).
  destruct s as [|c s], t as [|d t]; cbn [hd take strcmp_text].
  - done.
  - destruct (Z.eqb_spec 0 d); [by destruct Ht as (_ & ? & _)|]. done.
  - destruct (Z.eqb_spec c 0); [by destruct Hs as (_ & ? & _)|]. cbn [negb].
    unfold mret, M_ret. f_equal. lia.
  - destruct (Z.eqb_spec c d) as [->|]; cbn [negb]; [|done].
    destruct (Z.eqb_spec d 0); [by destruct Hs as (_ & ? & _)|].
    apply IH; [by destruct Hs as (_ & _ & ?)|by destruct Ht as (_ & _ & ?)].
Qed.

Lemma cstr_pos m a t : cstr m a t -> Forall (fun c => 0 < c) t.
Proof. intros H. eapply Forall_impl; [by eapply cstr_range|]. naive_solver lia. Qed.

(** * A concrete memory: "ab" at 100, "abc" at 200, 64 zero bytes at 300. *)
Definition demo_mem : mem :=
  state_after (st 1 100 97 ;; st 1 101 98 ;; st 1 200 97 ;; st 1 201 98 ;; st 1 202 99)
    (zeros 100 3 ∪ zeros 200 4 ∪ zeros 300 64).

Lemma demo_ab : cstr demo_mem 100 [97; 98].
Proof. vm_compute. intuition congruence. Qed.

Lemma demo_abc : cstr demo_mem 200 [97; 98; 99].
Proof. vm_compute. intuition congruence. Qed.

Lemma demo_mapped a n : 300 <= a -> a + n <= 364 -> mapped demo_mem a n.
Proof.
  intros Ha Hn i Hi.
  assert (Hall : forallb (fun k => bool_decide (is_Some (demo_mem !! (300 + Z.of_nat k)))) (seq 0 64) = true)
    by (vm_compute; reflexivity).
  rewrite forallb_forall in Hall. specialize (Hall (Z.to_nat (i - 300))).
  rewrite in_seq, bool_decide_eq_true in Hall. replace i with (300 + Z.of_nat (Z.to_nat (i - 300))) by lia.
  apply Hall. lia.
Qed.

(** * Properties *)

(** C33: memcpy makes its destination an exact copy of the source, eight bytes at a time, for
    every length and any two ranges that do not overlap, and memset fills its range with the
    low byte of its argument, neither changing a byte elsewhere, provided that the pointers
    are multiples of eight or fewer than eight bytes are asked for. Otherwise both stop at
    their first access, an unaligned one, with the memory as it was. *)
Theorem block_operations d s n c m :
  0 <= n -> mapped m d n -> mapped m s n -> disjoint d n s n ->
  (if decide (n < 8 \/ (d mod 8 = 0 /\ s mod 8 = 0))
   then exists m', memcpy d s n m = Ok d m' /\ copied m m' d s n /\ same_outside m m' d n
   else memcpy d s n m = Stop unaligned_access m) /\
  (if decide (n < 8 \/ d mod 8 = 0)
   then exists m', memset d c n m = Ok d m' /\ filled m' d n c /\ same_outside m m' d n
   else memset d c n m = Stop unaligned_access m).
Proof.
  intros Hn Hd Hs Hdis. split; case_decide as Ha.
  - destruct (memcpy_run d s n m Hn) as (m' & E & C & O & _); [unfold words_aligned; tauto..|done|done|done|].
    by exists m'.
  - apply memcpy_traps; [lia|done|lia].
  - destruct (memset_run d n c m Hn) as (m' & E & C & O & _); [done|done|]. by exists m'.
  - apply memset_traps; lia.
Qed.

Lemma block_operations_witness :
  (if decide (13 < 8 \/ (304 mod 8 = 0 /\ 320 mod 8 = 0))
   then exists m', memcpy 304 320 13 demo_mem = Ok 304 m' /\ copied demo_mem m' 304 320 13 /\
          same_outside demo_mem m' 304 13
   else memcpy 304 320 13 demo_mem = Stop unaligned_access demo_mem) /\
  (if decide (13 < 8 \/ 304 mod 8 = 0)
   then exists m', memset 304 0x1FF 13 demo_mem = Ok 304 m' /\ filled m' 304 13 0x1FF /\
          same_outside demo_mem m' 304 13
   else memset 304 0x1FF 13 demo_mem = Stop unaligned_access demo_mem).
Proof.
  apply (block_operations 304 320 13 0x1FF demo_mem); [lia|apply demo_mapped; lia..|left; lia].
Defined.

(** Strcmp and strncmp return the difference of the first characters that differ, and 0
    exactly for equal strings (for strncmp: equal in their first [n] characters); strlen
    returns the number of characters before the terminator. All three end on terminated
    strings and leave the memory alone. *)
Theorem strcmp_order fuel a b s t n m :
  cstr m a s -> cstr m b t -> (length s <= fuel)%nat ->
  strlen fuel a m = Ok (len s) m /\
  (exists p s' t', s = p ++ s' /\ t = p ++ t' /\ strcmp fuel a b m = Ok (hd 0 s' - hd 0 t') m) /\
  (strcmp fuel a b m = Ok 0 m <-> s = t) /\
  (strncmp a b n m = Ok 0 m <-> take (Z.to_nat n) s = take (Z.to_nat n) t).
Proof.
  intros Hs Ht Hf. pose proof (cstr_pos _ _ _ Hs) as Ps. pose proof (cstr_pos _ _ _ Ht) as Pt.
  destruct (strcmp_text_diff s t Ps Pt) as (p & s' & t' & Es & Et & Ed & Hiff).
  rewrite (strcmp_run _ _ _ _ _ _ Hs Ht Hf). split; [|split; [|split]].
  - unfold strlen. rewrite (strlen_run fuel m a s 0); [done|by rewrite Z.add_0_r|done].
  - exists p, s', t'. by rewrite Ed.
  - rewrite <- Hiff. split; [by intros [? _]%Ok_inj|by intros ->].
  - unfold strncmp. rewrite (strncmp_run _ _ _ _ _ _ Hs Ht).
    destruct (strcmp_text_diff (take (Z.to_nat n) s) (take (Z.to_nat n) t)) as (_ & _ & _ & _ & _ & _ & Hn);
      [by apply Forall_take|by apply Forall_take|].
    rewrite <- Hn. split; [by intros [? _]%Ok_inj|by intros ->].
Qed.

Lemma strcmp_order_witness :
  strlen 9 100 demo_mem = Ok (len [97; 98]) demo_mem /\
  (exists p s' t', [97; 98] = p ++ s' /\ [97; 98; 99] = p ++ t' /\
     strcmp 9 100 200 demo_mem = Ok (hd 0 s' - hd 0 t') demo_mem) /\
  (strcmp 9 100 200 demo_mem = Ok 0 demo_mem <-> [97; 98] = [97; 98; 99]) /\
  (strncmp 100 200 2 demo_mem = Ok 0 demo_mem <->
     take (Z.to_nat 2) [97; 98] = take (Z.to_nat 2) [97; 98; 99]).
Proof. apply (strcmp_order 9 100 200 _ _ 2 demo_mem demo_ab demo_abc). cbn; lia. Defined.

(** Strcpy makes a copy of its source; strcat, on a destination that holds a string and
    has room, leaves the concatenation there. Both end, return the destination and change
    nothing outside it. *)
Theorem string_building fuel d a s t m :
  cstr m a s -> mapped m d (len t + len s + 1) -> disjoint d (len t + len s + 1) a (len s + 1) ->
  (length s <= fuel)%nat -> (length t <= fuel)%nat ->
  (exists m', strcpy fuel d a m = Ok d m' /\ cstr m' d s /\ same_outside m m' d (len s + 1)) /\
  (cstr m d t -> exists m', strcat fuel d a m = Ok d m' /\ cstr m' d (t ++ s) /\
     same_outside m m' d (len t + len s + 1)).
Proof.
  intros Hs Hm Hd Hfs Hft. split.
  - destruct (copy_str_run fuel d a m s) as (m' & E & C & O & _);
      [done|eapply mapped_sub; [exact Hm|lia|lia]|unfold disjoint in *; lia|done|].
    exists m'. unfold strcpy. by mstep E.
  - intros Ht. unfold strcat. mstep (to_end_run fuel m d t Ht Hft).
    destruct (copy_str_run fuel (d + len t) a m s) as (m' & E & C & O & _);
      [done|eapply mapped_sub; [exact Hm|lia|lia]|unfold disjoint in *; lia|done|].
    mstep E. exists m'. split; [done|]. split.
    + apply cstr_chars in Ht as [Ht _]. apply cstr_chars in C as [C Cz].
      apply cstr_chars. rewrite chars_app. split; [split; [|done]|].
      * eapply chars_frame; [exact O| |exact Ht]. left. lia.
      * rewrite length_app. replace (d + Z.of_nat (length t + length s)) with (d + len t + len s) by lia.
        done.
    + eapply same_outside_weaken; [exact O|lia|lia].
Qed.

Lemma string_building_witness :
  (exists m', strcpy 9 300 200 demo_mem = Ok 300 m' /\ cstr m' 300 [97; 98; 99] /\
     same_outside demo_mem m' 300 4) /\
  (cstr demo_mem 300 [] -> exists m', strcat 9 300 200 demo_mem = Ok 300 m' /\
     cstr m' 300 ([] ++ [97; 98; 99]) /\ same_outside demo_mem m' 300 4).
Proof.
  apply (string_building 9 300 200 [97; 98; 99] [] demo_mem demo_abc);
    [apply demo_mapped; cbn; lia|right; cbn; lia|cbn; lia|cbn; lia].
Defined.

(** Strncpy writes exactly [n] bytes: the first [n] characters of the source, then
    zeros, so that the copy has a terminator only when the source is shorter than [n].
    strncat appends at most [n] characters and always terminates the result. *)
Theorem bounded_copies fuel d a s t n m :
  0 <= n -> cstr m a s ->
  (mapped m d n -> disjoint d n a (len s + 1) ->
   exists m', strncpy d a n m = Ok d m' /\ chars m' d (take (Z.to_nat n) s) /\
     filled m' (d + len (take (Z.to_nat n) s)) (n - len (take (Z.to_nat n) s)) 0 /\
     same_outside m m' d n) /\
  (cstr m d t -> (length t <= fuel)%nat ->
   mapped m d (len t + len (take (Z.to_nat n) s) + 1) ->
   disjoint d (len t + len (take (Z.to_nat n) s) + 1) a (len s + 1) ->
   exists m', strncat fuel d a n m = Ok d m' /\ cstr m' d (t ++ take (Z.to_nat n) s) /\
     same_outside m m' d (len t + len (take (Z.to_nat n) s) + 1)).
Proof.
  intros Hn Hs. set (s' := take (Z.to_nat n) s).
  assert (Hl : len s' <= n) by (unfold s'; rewrite length_take; lia). split.
  - intros Hm Hd. unfold strncpy.
    destruct (copy_n_run (Z.to_nat n) d a 0 m s) as (m1 & E1 & C1 & O1 & D1);
      [by rewrite Z.add_0_r|fold s'; eapply mapped_sub; [exact Hm|lia|lia]
      |fold s'; unfold disjoint in *; lia|].
    fold s' in E1, C1, O1. mstep E1. rewrite Z.add_0_l in *. rewrite Z.add_0_r in C1, O1.
    destruct (fill_loop_spec 1 (Z.to_nat (n - len s')) (d + len s') 0 0 m1) as (m2 & E2 & C2 & O2 & _);
      [lia|right; apply aligned_1|intros j Hj; replace j with 0 by lia; done
      |eapply mapped_same_dom; [exact D1|]; eapply mapped_sub; [exact Hm|lia|lia]|].
    mstep E2. exists m2. split; [done|]. split; [|split].
    + eapply chars_frame; [exact O2| |exact C1]. left. lia.
    + intros i Hi. apply C2. lia.
    + intros i Hi. rewrite O2, O1 by lia. done.
  - intros Ht Hf Hm Hd. unfold strncat. mstep (to_end_run fuel m d t Ht Hf).
    destruct (copy_n_run (Z.to_nat n) (d + len t) a 0 m s) as (m1 & E1 & C1 & O1 & D1);
      [by rewrite Z.add_0_r|fold s'; eapply mapped_sub; [exact Hm|lia|lia]
      |fold s'; unfold disjoint in *; lia|].
    fold s' in E1, C1, O1. mstep E1. rewrite Z.add_0_l in *. rewrite Z.add_0_r in C1, O1.
    destruct (st_char (d + len t + len s') 0 m1) as (m2 & E2 & L2 & O2 & _);
      [eapply mapped_same_dom; [exact D1|]; eapply mapped_sub; [exact Hm|lia|lia]|lia|].
    mstep E2. exists m2. split; [done|]. split.
    + apply cstr_chars in Ht as [Ht _]. apply cstr_chars. rewrite chars_app, length_app.
      split; [split|].
      * eapply chars_frame; [exact O2|left; lia|]. eapply chars_frame; [exact O1|left; lia|done].
      * eapply chars_frame; [exact O2|left; lia|done].
      * replace (d + Z.of_nat (length t + length s')) with (d + len t + len s') by lia. done.
    + intros i Hi. rewrite O2, O1 by lia. done.
Qed.

Lemma bounded_copies_witness :
  (mapped demo_mem 300 2 -> disjoint 300 2 200 (len [97; 98; 99] + 1) ->
   exists m', strncpy 300 200 2 demo_mem = Ok 300 m' /\ chars m' 300 (take (Z.to_nat 2) [97; 98; 99]) /\
     filled m' (300 + len (take (Z.to_nat 2) [97; 98; 99])) (2 - len (take (Z.to_nat 2) [97; 98; 99])) 0 /\
     same_outside demo_mem m' 300 2) /\
  (cstr demo_mem 300 [] -> (length (@nil Z) <= 9)%nat ->
   mapped demo_mem 300 (len (@nil Z) + len (take (Z.to_nat 2) [97; 98; 99]) + 1) ->
   disjoint 300 (len (@nil Z) + len (take (Z.to_nat 2) [97; 98; 99]) + 1) 200 (len [97; 98; 99] + 1) ->
   exists m', strncat 9 300 200 2 demo_mem = Ok 300 m' /\ cstr m' 300 ([] ++ take (Z.to_nat 2) [97; 98; 99]) /\
     same_outside demo_mem m' 300 (len (@nil Z) + len (take (Z.to_nat 2) [97; 98; 99]) + 1)).
Proof. apply (bounded_copies 9 300 200 [97; 98; 99] [] 2 demo_mem); [lia|exact demo_abc]. Defined.

(** Strstr finds the first occurrence: it returns the haystack for an empty needle,
    else the first position at which the needle is a prefix of the rest of the haystack,
    else NULL. It always ends. *)
Theorem strstr_first fuel h n hs ns m :
  cstr m h hs -> cstr m n ns -> (length hs <= fuel)%nat ->
  (exists i, strstr fuel h n m = Ok (h + Z.of_nat i) m /\ (i <= length hs)%nat /\
     ns `prefix_of` drop i hs /\ forall j, (j < i)%nat -> ~ ns `prefix_of` drop j hs) \/
  (strstr fuel h n m = Ok 0 m /\ forall j, ~ ns `prefix_of` drop j hs).
Proof.
  intros Hh Hn Hf. unfold strstr. mstep (ld_cstr _ _ _ Hn). destruct ns as [|d ns].
  - left. exists O. cbn [hd]. rewrite Z.add_0_r. split; [done|]. split; [lia|].
    split; [apply prefix_nil|lia].
  - cbn [hd]. destruct (Z.eqb_spec d 0); [by destruct Hn as (_ & ? & _)|].
    destruct (strstr_run fuel m h n hs _ Hh Hn ltac:(done) Hf) as [(i & Hi & ?)|?]; [left|by right].
    exists i. split; [tauto|]. split; [lia|tauto].
Qed.

Lemma strstr_first_witness :
  (exists i, strstr 9 200 100 demo_mem = Ok (200 + Z.of_nat i) demo_mem /\ (i <= length [97; 98; 99])%nat /\
     [97; 98] `prefix_of` drop i [97; 98; 99] /\
     forall j, (j < i)%nat -> ~ [97; 98] `prefix_of` drop j [97; 98; 99]) \/
  (strstr 9 200 100 demo_mem = Ok 0 demo_mem /\ forall j, ~ [97; 98] `prefix_of` drop j [97; 98; 99]).
Proof. apply (strstr_first 9 200 100 _ _ demo_mem demo_abc demo_ab). cbn; lia. Defined.
