(* ===== verification/Printf.v ===== *)
(** Formatted output: src/libc/printf.c, and puts of console.c.

    Text is a list of character codes; a C string is one without its terminator, and the
    cursor [fmt] is the rest of it, so that the terminator is read at the end of the list
    and a step past it is undefined. *)
From Stdlib Require Import ZArith Lia.
From stdpp Require Import base list strings.
From S2P Require Import Prelude.

Open Scope Z_scope.

Definition text := list Z.

Definition str (s : string) : text := (fun c => Z.of_N (Ascii.N_of_ascii c)) <$> String.list_ascii_of_string s.
(** A line of text in a format. *)
Definition ln (s : string) : string := s +:+ String (Ascii.ascii_of_nat 10) EmptyString.

(** What printf.c needs of the console: on every state in which output works, [putchar]
    appends to the text [out] what the device makes of the character. *)
Class Output (S : Type) := {
  putchar : Z -> M S unit;
  out : S -> text;
  sent : Z -> Z;
  ready : S -> Prop;
  putchar_spec : forall c s, ready s ->
    exists s', putchar c s = Ok tt s' /\ ready s' /\ out s' = out s ++ [sent c] }.

(** A value of the variable argument list: an eight-byte slot, or a string pointer. *)
Inductive arg :=
  | AInt (z : Z)
  | AStr (s : option text).

Definition chr_pct : Z := 37.
Definition chr_minus : Z := 45.
Definition chr_0 : Z := 48.
Definition chr_9 : Z := 57.
Definition chr_space : Z := 32.
Definition chr_x : Z := 120.
Definition chr_d : Z := 100.
Definition chr_u : Z := 117.
Definition chr_p : Z := 112.
Definition chr_l : Z := 108.
Definition chr_L : Z := 76.
Definition chr_c : Z := 99.
Definition chr_s : Z := 115.

Definition INT_MAX : Z := 2 ^ 31 - 1.

(** The string literal that print64 indexes. *)
Definition digit_chars : text := str "0123456789abcdef".

(** The [do ... while(unum /= base)] loop; [cur] is what the buffer holds from the cursor
    on. A 64-bit number has at most 64 digits, which is the fuel. *)
Fixpoint digits_loop (fuel : nat) (unum base : Z) (cur : text) : option text :=
  match fuel with
  | O => None
  | S fuel' =>
      c ← digit_chars !! Z.to_nat (unum mod base);
      if truth (unum / base) then digits_loop fuel' (unum / base) base (c :: cur)
      else Some (c :: cur)
  end.

(** [enum printopt] *)
Definition PRINT_0X : Z := 1.
Definition ZERO_PADDING : Z := 2.

(** The characters of a number: digits, then [0x], then the sign, built backwards. *)
Definition number_text (num base : Z) (sign : bool) (opt : Z) : option text :=
  let neg := sign && (num <? 0) in
  let unum := if neg then u64 (u64 (- (num + 1)) + 1) else u64 num in
  ds ← digits_loop 64 unum base [];
  let pre := if truth (Z.land opt PRINT_0X) then chr_0 :: chr_x :: ds else ds in
  Some (if neg then chr_minus :: pre else pre).

Definition isdigit (c : Z) : bool := (chr_0 <=? c) && (c <=? chr_9).

(** Reading the character at the cursor, and moving the cursor on. *)
Definition at_cursor (fmt : text) : Z := hd 0 fmt.
Definition advance {S} (fmt : text) : M S text :=
  match fmt with
  | _ :: fmt' => mret fmt'
  | [] => stop_with (Undef "cursor past the end of the format string")
  end.

(** [while(isdigit( *fmt)) n = n * 10 + *fmt++ - '0'] *)
Fixpoint digit_run {S} (n : Z) (fmt : text) : M S (Z * text) :=
  match fmt with
  | c :: fmt' =>
      if isdigit c then
        if n * 10 + c <=? INT_MAX then digit_run (n * 10 + c - chr_0) fmt'
        else stop_with (Undef "signed overflow in a field width")
      else mret (n, fmt)
  | [] => mret (n, [])
  end.

Definition fetch_digit {S} (fmt : text) : M S (Z * bool * text) :=
  let neg := at_cursor fmt =? chr_minus in
  fmt ← if neg then advance fmt else mret fmt;
  let zero_padding := at_cursor fmt =? chr_0 in
  fmt ← if zero_padding then advance fmt else mret fmt;
  r ← digit_run 0 fmt;
  mret ((if neg then - r.1 else r.1), zero_padding, r.2).

(** [va_arg(ap, T)]: the next slot, read at the width and signedness of [T]. *)
Definition va_int {S} (conv : Z -> Z) (ap : list arg) : M S (Z * list arg) :=
  match ap with
  | AInt z :: ap' => mret (conv z, ap')
  | _ => stop_with (Undef "va_arg without a matching argument")
  end.

Definition va_str {S} (ap : list arg) : M S (option text * list arg) :=
  match ap with
  | AStr s :: ap' => mret (s, ap')
  | _ => stop_with (Undef "va_arg without a matching argument")
  end.

Section Printf.
Context {S : Type} `{Output S}.

(** [puts] of console.c: no newline is added. *)
Fixpoint puts (s : text) : M S unit :=
  match s with
  | c :: s' => putchar c ;; puts s'
  | [] => mret tt
  end.

(** [while(digit-- > len) putchar(c)], with [digit] after the loop. *)
Fixpoint pad_loop (fuel : nat) (digit len c : Z) : M S Z :=
  if digit >? len then
    match fuel with
    | O => stop_with Spin
    | Datatypes.S fuel' => putchar c ;; pad_loop fuel' (digit - 1) len c
    end
  else mret (digit - 1).

Definition print64 (num base : Z) (sign : bool) (digit opt : Z) : M S unit :=
  match number_text num base sign opt with
  | None => stop_with Spin
  | Some cur =>
      let len := Z.of_nat (length cur) in
      digit ← if 0 <? digit
              then pad_loop (Z.to_nat digit) digit len
                     (if truth (Z.land opt ZERO_PADDING) then chr_0 else chr_space)
              else mret digit;
      puts cur ;;
      when (digit <? 0)
           (_ ← pad_loop (Z.to_nat (- digit)) (- digit) len chr_space; mret tt)
  end.

Definition pad_opt (zero_padding : bool) : Z := if zero_padding then ZERO_PADDING else 0.

(** One integer conversion of the switch. *)
Definition conv_int (conv : Z -> Z) (base : Z) (sign : bool) (digit opt : Z) (ap : list arg) :
    M S (list arg) :=
  r ← va_int conv ap;
  print64 (swrap 64 r.1) base sign digit opt ;;
  mret (r.2).

(** The switch after [%l]. *)
Definition long_directive (c digit : Z) (zero_padding : bool) (ap : list arg) : M S (list arg) :=
  if c =? chr_d then conv_int (swrap 64) 10 true digit (pad_opt zero_padding) ap
  else if c =? chr_u then conv_int (wrap 64) 10 false digit (pad_opt zero_padding) ap
  else if c =? chr_x then conv_int (wrap 64) 16 false digit (pad_opt zero_padding) ap
  else putchar chr_pct ;; putchar chr_l ;; putchar c ;; mret ap.

(** The switch on the letter; the result is the cursor on the last character used. *)
Definition dispatch (digit : Z) (zero_padding : bool) (fmt : text) (ap : list arg) :
    M S (text * list arg) :=
  let c := at_cursor fmt in
  if c =? chr_d then
    ap ← conv_int (swrap 32) 10 true digit (pad_opt zero_padding) ap; mret (fmt, ap)
  else if c =? chr_u then
    ap ← conv_int (wrap 32) 10 false digit (pad_opt zero_padding) ap; mret (fmt, ap)
  else if c =? chr_x then
    ap ← conv_int (wrap 64) 16 false digit (pad_opt zero_padding) ap; mret (fmt, ap)
  else if c =? chr_p then
    ap ← conv_int (wrap 64) 16 false digit PRINT_0X ap; mret (fmt, ap)
  else if (c =? chr_l) || (c =? chr_L) then
    fmt ← advance fmt;
    ap ← long_directive (at_cursor fmt) digit zero_padding ap; mret (fmt, ap)
  else if c =? chr_c then
    r ← va_int (swrap 32) ap; putchar (r.1) ;; mret (fmt, r.2)
  else if c =? chr_s then
    r ← va_str ap; puts (default (str "(null)") (r.1)) ;; mret (fmt, r.2)
  else if c =? chr_pct then putchar chr_pct ;; mret (fmt, ap)
  else putchar chr_pct ;; putchar c ;; mret (fmt, ap).

(** What follows the percent sign. *)
Definition directive (fmt : text) (ap : list arg) : M S (text * list arg) :=
  d ← fetch_digit fmt;
  let '(digit, zero_padding, fmt) := d in dispatch digit zero_padding fmt ap.

(** The body of the loop of vprintf, with its [fmt++]. *)
Definition vprintf_step (fmt : text) (ap : list arg) : M S (text * list arg) :=
  let c := at_cursor fmt in
  r ← if c =? chr_pct then fmt ← advance fmt; directive fmt ap
      else putchar c ;; mret (fmt, ap);
  fmt ← advance (r.1);
  mret (fmt, r.2).

(** Every iteration uses up a character of the format: its length is fuel enough. *)
Fixpoint vprintf_loop (fuel : nat) (fmt : text) (ap : list arg) : M S Z :=
  if truth (at_cursor fmt) then
    match fuel with
    | O => stop_with Spin
    | Datatypes.S fuel' => r ← vprintf_step fmt ap; vprintf_loop fuel' (r.1) (r.2)
    end
  else mret 0.

Definition vprintf (fmt : text) (ap : list arg) : M S Z := vprintf_loop (length fmt) fmt ap.

Definition printf (fmt : string) (ap : list arg) : M S Z := _ ← vprintf (str fmt) ap; mret 0.

Definition __printf_chk (flag : Z) (fmt : string) (ap : list arg) : M S Z :=
  _ ← vprintf (str fmt) ap; mret 0.
End Printf.

(** Output collected in a list, for concrete runs. *)
#[global, refine] Instance text_output : Output text := {
  putchar := fun c s => Ok tt (s ++ [c]);
  out := id;
  sent := fun c => c;
  ready := fun _ => True;
  putchar_spec := _ }.
Proof. intros c s _. by exists (s ++ [c]). Defined.

Example printf_demo :
  returned (printf (S:=text) "X%-3d|%3u|%03d|0x%lx %s%c%%" [AInt 5; AInt 7; AInt 42; AInt 255; AStr None; AInt 33] ;; gets id) []
  = Some (str "X5  |  7|042|0xff (null)!%").
Proof. vm_compute. reflexivity. Qed.
