(* ===== verification/PrintfProof.v ===== *)
(** What vprintf prints: the reference renderer of a format and the proof that the program
    follows it, over any output that satisfies [Output]. *)
From Stdlib Require Import ZArith Lia Wf_nat.
From stdpp Require Import base list strings.
From S2P Require Import Prelude Printf.

Open Scope Z_scope.

(** * Calls that only print *)

Section Emits.
Context {S : Type} `{Output S}.

(** [m] returns [a] after printing exactly [t]. *)
Definition emits {A} (m : M S A) (t : text) (a : A) : Prop :=
  forall s, ready s -> exists s', m s = Ok a s' /\ ready s' /\ out s' = out s ++ (sent <$> t).

Lemma emits_ret {A} (a : A) : emits (mret a) [] a.
Proof. intros s Hs. exists s. by rewrite app_nil_r. Qed.

Lemma emits_bind {A B} (m : M S A) (k : A -> M S B) t1 t2 a b :
  emits m t1 a -> emits (k a) t2 b -> emits (m ≫= k) (t1 ++ t2) b.
Proof.
  intros Hm Hk s Hs. destruct (Hm s Hs) as (s1 & E1 & H1 & O1).
  destruct (Hk s1 H1) as (s2 & E2 & H2 & O2). exists s2. rewrite (bind_Ok _ _ _ _ _ E1).
  split; [done|]. split; [done|]. by rewrite O2, O1, fmap_app, app_assoc.
Qed.

(** Binding a call that prints nothing. *)
Lemma emits_pure {A B} (m : M S A) (k : A -> M S B) t a b :
  emits m [] a -> emits (k a) t b -> emits (m ≫= k) t b.
Proof. exact (emits_bind m k [] t a b). Qed.

Lemma emits_putchar c : emits (putchar c) [c] tt.
Proof. intros s Hs. by apply putchar_spec. Qed.

Lemma emits_puts t : emits (puts t) t tt.
Proof.
  induction t as [|c t IH]; [apply emits_ret|].
  eapply (emits_bind _ _ [c]); [apply emits_putchar|done].
Qed.

Lemma emits_pad fuel digit len c :
  digit - len <= Z.of_nat fuel ->
  emits (pad_loop fuel digit len c) (replicate (Z.to_nat (digit - len)) c)
        (Z.min digit len - 1).
Proof.
  revert digit. induction fuel as [|fuel IH]; intros digit Hf; cbn [pad_loop];
    (destruct (Z.gtb_spec digit len) as [Hgt|Hle]; [|
      replace (Z.to_nat (digit - len)) with O by lia;
      replace (Z.min digit len - 1) with (digit - 1) by lia; apply emits_ret]); [lia|].
  replace (Z.to_nat (digit - len)) with (Datatypes.S (Z.to_nat (digit - 1 - len))) by lia.
  replace (Z.min digit len - 1) with (Z.min (digit - 1) len - 1) by lia.
  eapply (emits_bind _ _ [c]); [apply emits_putchar|]. apply IH. lia.
Qed.
End Emits.

(** * Digits *)

Definition digit_val (c : Z) : Z := if c <=? chr_9 then c - chr_0 else c - 87.

(** The number a string of digits denotes. *)
Definition value (base : Z) (ds : text) : Z := foldl (fun a c => a * base + digit_val c) 0 ds.

Definition is_digit_of (base c : Z) : Prop :=
  exists d, 0 <= d < base /\ digit_chars !! Z.to_nat d = Some c.

Lemma digit_char d : 0 <= d < 16 ->
  exists c, digit_chars !! Z.to_nat d = Some c /\ digit_val c = d /\ c <> 0 /\
            (d < 10 -> c = chr_0 + d) /\ chr_0 <= c /\ (c = chr_0 -> d = 0) /\ c <> chr_minus.
Proof.
  intros Hd. assert (d = 0 \/ d = 1 \/ d = 2 \/ d = 3 \/ d = 4 \/ d = 5 \/ d = 6 \/ d = 7 \/
    d = 8 \/ d = 9 \/ d = 10 \/ d = 11 \/ d = 12 \/ d = 13 \/ d = 14 \/ d = 15) as Hc by lia.
  repeat (destruct Hc as [->|Hc]; [eexists; split; [reflexivity|]; vm_compute; intuition congruence|]).
  subst. eexists; split; [reflexivity|]; vm_compute; intuition congruence.
Qed.

Lemma value_snoc base ds c : value base (ds ++ [c]) = value base ds * base + digit_val c.
Proof. unfold value. by rewrite foldl_app. Qed.

Lemma digits_loop_spec fuel u base cur :
  2 <= base <= 16 -> 0 <= u < 2 ^ Z.of_nat fuel -> (0 < fuel)%nat ->
  exists ds, digits_loop fuel u base cur = Some (ds ++ cur) /\ ds <> [] /\
    value base ds = u /\ Forall (is_digit_of base) ds /\ (hd 0 ds = chr_0 -> u = 0) /\
    (length ds <= fuel)%nat.
Proof.
  intros Hb. revert u cur. induction fuel as [|fuel IH]; intros u cur Hu Hf; [lia|].
  cbn [digits_loop]. assert (Hm := Z.mod_pos_bound u base ltac:(lia)).
  destruct (digit_char (u mod base)) as (c & Hc & Hv & _ & _ & _ & Hz & _); [lia|].
  rewrite Hc. cbn [mbind option_bind]. pose proof (Z.div_mod u base ltac:(lia)) as Hdm.
  assert (0 <= u / base) by (apply Z.div_pos; lia).
  assert (Hdig : is_digit_of base c) by (exists (u mod base); split; [lia|done]).
  destruct (truth (u / base)) eqn:Ht.
  - apply truth_true in Ht. rewrite Nat2Z.inj_succ, Z.pow_succ_r in Hu by lia.
    destruct fuel as [|fuel]; [cbn in Hu; nia|].
    destruct (IH (u / base) (c :: cur)) as (ds & E & Hne & Hval & Hall & Hlead & Hlen); [nia|lia|].
    exists (ds ++ [c]). rewrite <- app_assoc. split; [done|]. split; [by destruct ds|].
    split; [rewrite value_snoc, Hval, Hv; lia|]. split; [by apply Forall_app; split; [|constructor]|].
    split; [|rewrite length_app; cbn; lia]. destruct ds; [done|]. intros E0. by apply Hlead in E0.
  - exists [c]. split; [done|]. split; [done|]. unfold truth in Ht.
    destruct (Z.eqb_spec (u / base) 0) as [Hq|]; [|done]. split; [cbn; lia|].
    split; [by constructor|]. split; [|cbn; lia]. cbn. intros E0. rewrite Hz in Hdm by done. lia.
Qed.

(** * Numbers *)

(** The magnitude print64 prints, and whether with a sign. *)
Definition magnitude (num : Z) (sign : bool) : Z := if sign && (num <? 0) then - num else u64 num.

Lemma number_text_spec num base sign opt :
  2 <= base <= 16 -> - 2 ^ 63 <= num < 2 ^ 63 ->
  exists ds, number_text num base sign opt =
      Some ((if sign && (num <? 0) then [chr_minus] else []) ++
            (if truth (Z.land opt PRINT_0X) then [chr_0; chr_x] else []) ++ ds) /\
    ds <> [] /\ value base ds = magnitude num sign /\ Forall (is_digit_of base) ds /\
    (length ds <= 64)%nat.
Proof.
  intros Hb Hn. unfold number_text, magnitude. set (neg := sign && (num <? 0)).
  set (unum := if neg then _ else _).
  assert (Hu : unum = (if neg then - num else u64 num) /\ 0 <= unum < 2 ^ 64).
  { unfold unum, neg. destruct sign; cbn; [|split; [done|by apply wrap_range]].
    destruct (Z.ltb_spec num 0); [|split; [done|by apply wrap_range]].
    rewrite (wrap_small 64 (- (num + 1))) by lia. rewrite wrap_small by lia. lia. }
  destruct Hu as [Hu Hr].
  destruct (digits_loop_spec 64 unum base [] Hb Hr ltac:(lia)) as (ds & E & Hne & Hv & Hd & _ & Hl).
  rewrite E, app_nil_r. cbn [mbind option_bind]. exists ds. rewrite <- Hu.
  split; [|done]. by destruct neg, (truth (Z.land opt PRINT_0X)).
Qed.

Lemma number_text_Some num base sign opt :
  2 <= base <= 16 -> - 2 ^ 63 <= num < 2 ^ 63 ->
  exists cur, number_text num base sign opt = Some cur /\ (0 < length cur)%nat.
Proof.
  intros Hb Hn. destruct (number_text_spec num base sign opt Hb Hn) as (ds & -> & Hne & _).
  eexists. split; [done|]. rewrite !length_app. destruct ds; [done|cbn; lia].
Qed.

(** A number in a field: a positive width pads on the left, a negative one on the right. *)
Definition in_field (digit opt : Z) (cur : text) : text :=
  let len := Z.of_nat (length cur) in
  if 0 <? digit
  then replicate (Z.to_nat (digit - len)) (if truth (Z.land opt ZERO_PADDING) then chr_0 else chr_space) ++ cur
  else cur ++ replicate (Z.to_nat (- digit - len)) chr_space.

Definition num_text (num base : Z) (sign : bool) (opt : Z) : text :=
  default [] (number_text num base sign opt).

Section Print64.
Context {S : Type} `{Output S}.

Lemma emits_print64 num base sign digit opt :
  2 <= base <= 16 -> - 2 ^ 63 <= num < 2 ^ 63 ->
  emits (S:=S) (print64 num base sign digit opt) (in_field digit opt (num_text num base sign opt)) tt.
Proof.
  intros Hb Hn. unfold print64, num_text, in_field.
  destruct (number_text_Some num base sign opt Hb Hn) as (cur & -> & Hlen). cbn [default]. unfold id.
  cbv zeta. destruct (Z.ltb_spec 0 digit) as [Hd|Hd].
  - eapply emits_bind; [apply emits_pad; lia|].
    rewrite <- (app_nil_r cur) at 2. eapply emits_bind; [apply emits_puts|].
    destruct (Z.ltb_spec (Z.min digit (Z.of_nat (length cur)) - 1) 0); [lia|]. apply emits_ret.
  - eapply emits_pure; [apply emits_ret|]. eapply emits_bind; [apply emits_puts|].
    unfold when. destruct (Z.ltb_spec digit 0).
    + rewrite <- (app_nil_r (replicate _ _)).
      eapply emits_bind; [apply emits_pad; lia|apply emits_ret].
    + assert (digit = 0) as -> by lia. replace (Z.to_nat _) with O by lia. apply emits_ret.
Qed.
End Print64.

(** * Field widths *)

Definition dec (n : Z) : text := default [] (digits_loop 64 n 10 []).

(** The flags and width between the percent sign and the letter. *)
Definition spec_text (minus zero : bool) (width : Z) : text :=
  (if minus then [chr_minus] else []) ++ (if zero then [chr_0] else []) ++
  (if 0 <? width then dec width else []).

Lemma foldl_ge ds n :
  Forall (is_digit_of 10) ds -> 0 <= n -> n <= foldl (fun a c => a * 10 + digit_val c) n ds.
Proof.
  intros Hd. revert n. induction Hd as [|c ds [d [Hd Hc]] _ IH]; intros n Hn; cbn; [lia|].
  destruct (digit_char d ltac:(lia)) as (c' & Hc' & Hv & _). assert (c' = c) as -> by congruence.
  rewrite Hv. etrans; [|apply IH]; lia.
Qed.

Lemma digit10 c : is_digit_of 10 c ->
  isdigit c = true /\ digit_val c = c - chr_0 /\ chr_0 <= c <= chr_9 /\ c <> chr_minus.
Proof.
  intros (d & Hd & Hc). destruct (digit_char d ltac:(lia)) as (c' & Hc' & Hv & _ & H10 & _).
  assert (c' = c) as -> by congruence. specialize (H10 ltac:(lia)).
  unfold isdigit, chr_0, chr_9, chr_minus in *. split; [apply andb_true_intro; lia|lia].
Qed.

Section Fetch.
Context {S : Type}.

Lemma digit_run_spec ds n w k rest (s : S) :
  Forall (is_digit_of 10) ds -> 0 <= n -> foldl (fun a c => a * 10 + digit_val c) n ds = w ->
  w <= INT_MAX - chr_0 -> isdigit k = false ->
  digit_run n (ds ++ k :: rest) s = Ok (w, k :: rest) s.
Proof.
  intros Hd Hn Hw Hmax Hk. revert n Hn Hw.
  induction Hd as [|c ds Hc Hd IH]; intros n Hn Hw; cbn [app digit_run].
  - rewrite Hk. cbn in Hw. by subst.
  - destruct (digit10 c Hc) as (-> & Hv & Hr & _). cbn [foldl] in Hw. rewrite Hv in Hw.
    assert (Hge : n * 10 + (c - chr_0) <= w).
    { rewrite <- Hw. apply foldl_ge; [done|]. lia. }
    destruct (Z.leb_spec (n * 10 + c) INT_MAX) as [_|?]; [|unfold chr_0 in *; lia].
    apply IH; [lia|]. rewrite <- Hw. f_equal. lia.
Qed.

Lemma fetch_digit_spec minus zero width k rest (s : S) :
  0 <= width <= INT_MAX - chr_0 -> isdigit k = false -> k <> chr_minus ->
  fetch_digit (spec_text minus zero width ++ k :: rest) s =
    Ok ((if minus then - width else width), zero, k :: rest) s.
Proof.
  intros Hw Hk Hkm. unfold spec_text.
  set (ds := if 0 <? width then _ else _).
  assert (Hdec : Forall (is_digit_of 10) ds /\ value 10 ds = width /\ hd 0 ds <> chr_0).
  { unfold ds. destruct (Z.ltb_spec 0 width).
    - destruct (digits_loop_spec 64 width 10 []) as (ds' & E & Hne & Hv & Hall & Hlead & _);
        [lia|unfold INT_MAX, chr_0 in *; lia|lia|].
      unfold dec. rewrite E, app_nil_r. cbn [default]. unfold id. split; [done|].
      split; [done|]. intros E0. apply Hlead in E0. lia.
    - split; [done|]. split; [cbn; lia|]. done. }
  clearbody ds. destruct Hdec as (Hall & Hv & Hlead).
  assert (Hnext : forall b : bool,
    (at_cursor ((if b then [chr_0] else []) ++ ds ++ k :: rest) =? chr_0) = b).
  { intros []; [done|]. cbn [app]. apply Z.eqb_neq. destruct ds; [|done]. cbn.
    intros ->. by vm_compute in Hk. }
  assert (Hm : at_cursor ((if zero then [chr_0] else []) ++ ds ++ k :: rest) <> chr_minus).
  { destruct zero; [done|]. destruct ds as [|c ds]; [done|]. cbn.
    apply Forall_cons in Hall as [Hc _]. by apply digit10. }
  rewrite <- !app_assoc. unfold fetch_digit.
  replace (at_cursor _ =? chr_minus) with minus.
  2: { destruct minus; [done|]. symmetry. by apply Z.eqb_neq. }
  destruct minus; cbn [app]; unfold advance, mbind, M_bind, mret, M_ret;
    cbv beta iota zeta; rewrite (Hnext zero); destruct zero; cbn [app];
    rewrite (digit_run_spec ds 0 width k rest s Hall ltac:(lia) Hv ltac:(lia) Hk); reflexivity.
Qed.
End Fetch.

(** * The reference renderer *)

Inductive conv := CvD | CvU | CvX | CvLD | CvLU | CvLX.

(** A piece of a format string: literal text, an integer conversion with flags and width,
    a pointer, a character, a string or a percent sign. *)
Inductive item :=
  | Lit (c : Z)
  | Num (minus zero : bool) (width : Z) (cv : conv) (z : Z)
  | Ptr (minus zero : bool) (width : Z) (z : Z)
  | Chr (z : Z)
  | Str (s : option text)
  | Percent.

Definition letters (cv : conv) : text :=
  match cv with
  | CvD => [chr_d] | CvU => [chr_u] | CvX => [chr_x]
  | CvLD => [chr_l; chr_d] | CvLU => [chr_l; chr_u] | CvLX => [chr_l; chr_x]
  end.

Definition item_format (i : item) : text :=
  match i with
  | Lit c => [c]
  | Num minus zero width cv _ => chr_pct :: spec_text minus zero width ++ letters cv
  | Ptr minus zero width _ => chr_pct :: spec_text minus zero width ++ [chr_p]
  | Chr _ => [chr_pct; chr_c]
  | Str _ => [chr_pct; chr_s]
  | Percent => [chr_pct; chr_pct]
  end.

Definition item_args (i : item) : list arg :=
  match i with
  | Lit _ | Percent => []
  | Num _ _ _ _ z | Ptr _ _ _ z | Chr z => [AInt z]
  | Str s => [AStr s]
  end.

Definition field_width (minus : bool) (width : Z) : Z := if minus then - width else width.

(** The 64-bit value, base and signedness a conversion prints. *)
Definition conv_value (cv : conv) (z : Z) : Z :=
  match cv with
  | CvD => swrap 64 (swrap 32 z)
  | CvU => swrap 64 (u32 z)
  | CvLD => swrap 64 (swrap 64 z)
  | CvX | CvLU | CvLX => swrap 64 (u64 z)
  end.
Definition conv_base (cv : conv) : Z := match cv with CvX | CvLX => 16 | _ => 10 end.
Definition conv_signed (cv : conv) : bool := match cv with CvD | CvLD => true | _ => false end.

Definition render (i : item) : text :=
  match i with
  | Lit c => [c]
  | Num minus zero width cv z =>
      in_field (field_width minus width) (pad_opt zero)
        (num_text (conv_value cv z) (conv_base cv) (conv_signed cv) (pad_opt zero))
  | Ptr minus zero width z =>
      in_field (field_width minus width) PRINT_0X (num_text (swrap 64 (u64 z)) 16 false PRINT_0X)
  | Chr z => [swrap 32 z]
  | Str s => default (str "(null)") s
  | Percent => [chr_pct]
  end.

Definition valid_item (i : item) : Prop :=
  match i with
  | Lit c => c <> 0 /\ c <> chr_pct
  | Num _ _ width _ _ | Ptr _ _ width _ => 0 <= width <= INT_MAX - chr_0
  | _ => True
  end.

Lemma swrap_range w x : 0 < w -> - 2 ^ (w - 1) <= swrap w x < 2 ^ (w - 1).
Proof.
  intros Hw. unfold swrap. assert (2 ^ w = 2 * 2 ^ (w - 1)) as ->.
  { rewrite <- Z.pow_succ_r by lia. f_equal; lia. }
  pose proof (Z.mod_pos_bound (x + 2 ^ (w - 1)) (2 * 2 ^ (w - 1))).
  pose proof (Z.pow_pos_nonneg 2 (w - 1)). lia.
Qed.

Section Vprintf.
Context {S : Type} `{Output S}.

Lemma emits_const {A} (m : M S A) a : (forall s, m s = Ok a s) -> emits (S:=S) m [] a.
Proof. intros Hm s Hs. exists s. by rewrite Hm, app_nil_r. Qed.

Lemma emits_map {A B} (m : M S A) (f : A -> B) t a :
  emits m t a -> emits (x ← m; mret (f x)) t (f a).
Proof. intros Hm. rewrite <- (app_nil_r t). eapply emits_bind; [done|apply emits_ret]. Qed.

Lemma emits_conv cnv base sign digit opt z ap :
  2 <= base <= 16 ->
  emits (S:=S) (conv_int cnv base sign digit opt (AInt z :: ap))
    (in_field digit opt (num_text (swrap 64 (cnv z)) base sign opt)) ap.
Proof.
  intros Hb. unfold conv_int. eapply (emits_pure _ _ _ (cnv z, ap)); [by apply emits_const|].
  eapply (emits_map _ (fun _ => ap)), emits_print64; [done|]. by apply (swrap_range 64).
Qed.

(** A directive: flags and width are read, then the letter decides. *)
Lemma emits_directive minus zero width k rest ap t r :
  0 <= width <= INT_MAX - chr_0 -> isdigit k = false -> k <> chr_minus ->
  emits (S:=S) (dispatch (field_width minus width) zero (k :: rest) ap) t r ->
  emits (S:=S) (directive (spec_text minus zero width ++ k :: rest) ap) t r.
Proof.
  intros ? ? ? Hm. unfold directive.
  eapply (emits_pure _ _ _ (field_width minus width, zero, k :: rest)); [|done].
  apply emits_const. intros s. by apply fetch_digit_spec.
Qed.

Lemma emits_num minus zero width cv z rest ap :
  0 <= width <= INT_MAX - chr_0 ->
  exists k, emits (S:=S)
    (directive (spec_text minus zero width ++ letters cv ++ rest) (AInt z :: ap))
    (render (Num minus zero width cv z)) (k :: rest, ap).
Proof.
  intros Hw. destruct cv; eexists; cbn [letters app];
    (apply emits_directive; [done|done|done|]; cbn [dispatch at_cursor hd]);
    try (apply (emits_map _ (fun ap => (_, ap))), emits_conv; lia);
    (eapply emits_pure; [by apply emits_const|];
     apply (emits_map _ (fun ap => (_, ap))), emits_conv; lia).
Qed.

Lemma emits_step i rest ap :
  valid_item i ->
  emits (S:=S) (vprintf_step (item_format i ++ rest) (item_args i ++ ap)) (render i) (rest, ap).
Proof.
  intros Hi. unfold vprintf_step. rewrite <- (app_nil_r (render i)).
  assert (Hk : forall k, emits (S:=S) (fmt ← advance (k :: rest); mret (fmt, ap)) [] (rest, ap))
    by (intros k; by apply emits_const).
  destruct i as [c|minus zero width cv z|minus zero width z|z|s|];
    cbn [item_format item_args app at_cursor hd].
  - destruct Hi as [_ Hc]. rewrite (proj2 (Z.eqb_neq c chr_pct)) by done.
    eapply (emits_bind _ _ _ _ (c :: rest, ap)); [|apply Hk].
    eapply (emits_map _ (fun _ => (_, _))), emits_putchar.
  - rewrite <- app_assoc. destruct (emits_num minus zero width cv z rest ap Hi) as [k Hn].
    eapply (emits_bind _ _ _ _ (k :: rest, ap)); [|apply Hk].
    rewrite Z.eqb_refl. eapply emits_pure; [by apply emits_const|exact Hn].
  - rewrite <- app_assoc. eapply (emits_bind _ _ _ _ (chr_p :: rest, ap)); [|apply Hk].
    rewrite Z.eqb_refl. eapply emits_pure; [by apply emits_const|].
    apply emits_directive; [done|done|done|]. apply (emits_map _ (fun ap => (_, ap))), emits_conv; lia.
  - eapply (emits_bind _ _ _ _ (chr_c :: rest, ap)); [|apply Hk].
    rewrite Z.eqb_refl. eapply emits_pure; [by apply emits_const|].
    apply (emits_directive false false 0); [done|done|done|].
    eapply (emits_pure _ _ _ (swrap 32 z, ap)); [by apply emits_const|].
    eapply (emits_map _ (fun _ => (_, _))), emits_putchar.
  - eapply (emits_bind _ _ _ _ (chr_s :: rest, ap)); [|apply Hk].
    rewrite Z.eqb_refl. eapply emits_pure; [by apply emits_const|].
    apply (emits_directive false false 0); [done|done|done|].
    eapply (emits_pure _ _ _ (s, ap)); [by apply emits_const|].
    eapply (emits_map _ (fun _ => (_, _))), emits_puts.
  - eapply (emits_bind _ _ _ _ (chr_pct :: rest, ap)); [|apply Hk].
    rewrite Z.eqb_refl. eapply emits_pure; [by apply emits_const|].
    apply (emits_directive false false 0); [done|done|done|].
    eapply (emits_map _ (fun _ => (_, _))), emits_putchar.
Qed.

Lemma vprintf_loop_items items rest ap fuel t a :
  Forall valid_item items -> (length items <= fuel)%nat ->
  emits (S:=S) (vprintf_loop (fuel - length items) rest ap) t a ->
  emits (S:=S) (vprintf_loop fuel (concat (item_format <$> items) ++ rest)
                  (concat (item_args <$> items) ++ ap))
    (concat (render <$> items) ++ t) a.
Proof.
  intros Hv. revert fuel. induction Hv as [|i items Hi Hv IH]; intros fuel Hf Hk.
  - cbn in *. by rewrite Nat.sub_0_r in Hk.
  - cbn [fmap list_fmap concat]. rewrite <- !app_assoc.
    destruct fuel as [|fuel]; [cbn in Hf; lia|]. cbn [vprintf_loop].
    replace (truth _) with true.
    + eapply emits_bind; [by apply emits_step|]. apply IH; [cbn in Hf; lia|done].
    + symmetry. apply truth_true. destruct i; cbn; try done. by destruct Hi.
Qed.
End Vprintf.

Lemma vprintf_emits {S} `{Output S} items s :
  Forall valid_item items -> ready s ->
  exists s', vprintf (concat (item_format <$> items)) (concat (item_args <$> items)) s = Ok 0 s' /\
    ready s' /\ out s' = out s ++ (sent <$> concat (render <$> items)).
Proof.
  intros Hv Hs. unfold vprintf.
  rewrite <- (app_nil_r (concat (item_format <$> items))), <- (app_nil_r (concat (item_args <$> items))).
  rewrite <- (app_nil_r (concat (render <$> items))).
  apply (vprintf_loop_items items [] [] _ [] 0 Hv); [|intros t Ht|done].
  - rewrite app_nil_r. clear Hv. induction items as [|i items IH]; [done|].
    cbn [fmap list_fmap concat length]. rewrite length_app.
    assert (1 <= length (item_format i))%nat by (destruct i; cbn; lia). lia.
  - exists t. split; [|split; [done|by rewrite app_nil_r]].
    by match goal with |- vprintf_loop ?n _ _ _ = _ => destruct n end.
Qed.

(** * Formats without flags and widths

    [scan] reads such a format together with its arguments; the drivers' calls are of this
    kind, so that running [scan] shows what they print. *)
Fixpoint scan (fmt : text) (ap : list arg) : option (list item) :=
  match fmt with
  | [] => match ap with [] => Some [] | _ => None end
  | c :: fmt' =>
      if c =? chr_pct then
        match fmt', ap with
        | d :: r, AInt z :: ap' =>
            if d =? chr_d then cons (Num false false 0 CvD z) <$> scan r ap'
            else if d =? chr_u then cons (Num false false 0 CvU z) <$> scan r ap'
            else if d =? chr_x then cons (Num false false 0 CvX z) <$> scan r ap'
            else if d =? chr_l then
              match r with
              | e :: r' =>
                  if e =? chr_u then cons (Num false false 0 CvLU z) <$> scan r' ap'
                  else if e =? chr_x then cons (Num false false 0 CvLX z) <$> scan r' ap'
                  else if e =? chr_d then cons (Num false false 0 CvLD z) <$> scan r' ap'
                  else None
              | [] => None
              end
            else None
        | _, _ => None
        end
      else if c =? 0 then None else cons (Lit c) <$> scan fmt' ap
  end.

Lemma scan_sound fmt ap items : scan fmt ap = Some items ->
  concat (item_format <$> items) = fmt /\ concat (item_args <$> items) = ap /\
  Forall valid_item items.
Proof.
  remember (length fmt) as n eqn:Hn. revert fmt ap items Hn.
  induction (lt_wf n) as [n _ IH]. intros fmt ap items -> Hs.
  destruct fmt as [|c fmt]; cbn [scan] in Hs.
  { destruct ap; [|done]. by injection Hs as <-. }
  assert (Hnum : forall cv z r ap', (length r < length (c :: fmt))%nat ->
            c :: fmt = chr_pct :: letters cv ++ r -> ap = AInt z :: ap' ->
            cons (Num false false 0 cv z) <$> scan r ap' = Some items ->
            concat (item_format <$> items) = c :: fmt /\ concat (item_args <$> items) = ap /\
            Forall valid_item items).
  { intros cv z r ap' Hlen -> -> Hc. destruct (scan r ap') as [its|] eqn:E; [|done].
    cbn in Hc. injection Hc as <-. destruct (IH (length r) Hlen r ap' its eq_refl E) as (Hf & Ha & Hv).
    cbn [fmap list_fmap concat item_format item_args app]. rewrite Hf, Ha. split; [done|]. split; [done|].
    constructor; [|done]. cbn. unfold INT_MAX, chr_0. lia. }
  destruct (Z.eqb_spec c chr_pct) as [->|Hc].
  - destruct fmt as [|d r]; [done|]. destruct ap as [|[z|] ap']; try done.
    destruct (Z.eqb_spec d chr_d) as [->|_]; [by eapply (Hnum CvD); [|done|done|]; [cbn; lia|]|].
    destruct (Z.eqb_spec d chr_u) as [->|_]; [by eapply (Hnum CvU); [|done|done|]; [cbn; lia|]|].
    destruct (Z.eqb_spec d chr_x) as [->|_]; [by eapply (Hnum CvX); [|done|done|]; [cbn; lia|]|].
    destruct (Z.eqb_spec d chr_l) as [->|_]; [|done]. destruct r as [|e r]; [done|].
    destruct (Z.eqb_spec e chr_u) as [->|_]; [by eapply (Hnum CvLU); [|done|done|]; [cbn; lia|]|].
    destruct (Z.eqb_spec e chr_x) as [->|_]; [by eapply (Hnum CvLX); [|done|done|]; [cbn; lia|]|].
    destruct (Z.eqb_spec e chr_d) as [->|_]; [by eapply (Hnum CvLD); [|done|done|]; [cbn; lia|]|done].
  - destruct (Z.eqb_spec c 0) as [|Hz]; [done|]. destruct (scan fmt ap) as [its|] eqn:E; [|done].
    cbn in Hs. injection Hs as <-.
    destruct (IH (length fmt) ltac:(cbn; lia) fmt ap its eq_refl E) as (Hf & Ha & Hv).
    cbn [fmap list_fmap concat item_format item_args app]. rewrite Hf, Ha.
    split; [done|]. split; [done|]. by constructor.
Qed.

(** Whether a format takes [n] integers does not depend on the integers. *)
Definition scan_ok (fmt : string) (n : nat) : bool :=
  bool_decide (is_Some (scan (str fmt) (AInt <$> replicate n 0))).

Lemma scan_shape fmt zs zs' : length zs = length zs' ->
  is_Some (scan fmt (AInt <$> zs)) -> is_Some (scan fmt (AInt <$> zs')).
Proof.
  remember (length fmt) as n eqn:Hn. revert fmt zs zs' Hn.
  induction (lt_wf n) as [n _ IH]. intros fmt zs zs' -> Hl Hs.
  destruct fmt as [|c fmt]; cbn [scan] in *.
  { destruct zs, zs'; try done; by destruct Hs. }
  assert (Hm : forall (r : text) (ws ws' : list Z) (f f' : list item -> list item),
            (length r < length (c :: fmt))%nat -> length ws = length ws' ->
            is_Some (f <$> scan r (AInt <$> ws)) -> is_Some (f' <$> scan r (AInt <$> ws'))).
  { intros r ws ws' f f' Hr Hw. rewrite !fmap_is_Some. by apply (IH (length r)). }
  destruct (Z.eqb_spec c chr_pct) as [_|_].
  - destruct fmt as [|d r]; [by destruct Hs|].
    destruct zs as [|z zs], zs' as [|z' zs']; try (by destruct Hs); try done.
    cbn [fmap list_fmap] in *.
    repeat (case_match; [by eapply Hm; [cbn; lia|injection Hl as Hl; exact Hl|exact Hs]|]).
    case_match; [|by destruct Hs]. destruct r as [|e r]; [by destruct Hs|].
    repeat (case_match; [by eapply Hm; [cbn; lia|injection Hl as Hl; exact Hl|exact Hs]|]).
    by destruct Hs.
  - case_match; [by destruct Hs|]. eapply Hm; [cbn; lia|done|exact Hs].
Qed.

Lemma scan_ok_Some fmt zs :
  scan_ok fmt (length zs) = true -> is_Some (scan (str fmt) (AInt <$> zs)).
Proof.
  intros Hok%bool_decide_eq_true. eapply scan_shape; [|exact Hok]. by rewrite length_replicate.
Qed.
