(* ===== verification/PrintfTheorems.v ===== *)
(** The properties of formatted output (printf.c), each with a concrete instance. *)
From Stdlib Require Import ZArith Lia.
From stdpp Require Import base list strings.
From S2P Require Import Prelude Printf PrintfProof.

Open Scope Z_scope.

(** * Reading a printed number back *)

Definition digit_ok (base c : Z) : bool :=
  (isdigit c || ((97 <=? c) && (c <=? 102))) && (digit_val c <? base).

Definition read_digits (base : Z) (t : text) : option Z :=
  match t with
  | [] => None
  | _ => if forallb (digit_ok base) t then Some (value base t) else None
  end.

Definition read_number (base : Z) (t : text) : option Z :=
  if at_cursor t =? chr_minus then Z.opp <$> read_digits base (tl t) else read_digits base t.

Lemma digit_ok_of base c : base <= 16 -> is_digit_of base c -> digit_ok base c = true.
Proof.
  intros Hb (d & Hd & Hc). unfold digit_ok.
  assert (d = 0 \/ d = 1 \/ d = 2 \/ d = 3 \/ d = 4 \/ d = 5 \/ d = 6 \/ d = 7 \/
    d = 8 \/ d = 9 \/ d = 10 \/ d = 11 \/ d = 12 \/ d = 13 \/ d = 14 \/ d = 15) as Hc' by lia.
  assert (Hall : digit_val c = d /\ (isdigit c || ((97 <=? c) && (c <=? 102)) = true)).
  { repeat (destruct Hc' as [->|Hc']; [vm_compute in Hc; injection Hc as <-; done|]).
    subst. vm_compute in Hc. injection Hc as <-; done. }
  destruct Hall as [-> ->]. cbn. apply Z.ltb_lt. lia.
Qed.

Lemma read_digits_spec base ds :
  2 <= base <= 16 -> ds <> [] -> Forall (is_digit_of base) ds ->
  read_digits base ds = Some (value base ds) /\ at_cursor ds <> chr_minus.
Proof.
  intros Hb Hne Hd. split.
  - unfold read_digits. destruct ds; [done|]. rewrite (proj2 (forallb_forall _ _)); [done|].
    intros c Hc. apply digit_ok_of; [lia|]. rewrite Forall_forall in Hd.
    apply Hd. by apply list_elem_of_In.
  - destruct Hd as [|c ds (d & Hd & Hc) _]; [done|]. cbn.
    destruct (digit_char d ltac:(lia)) as (c' & Hc' & H'). assert (c' = c) as -> by congruence. tauto.
Qed.

(** The value each conversion reads from its argument. *)
Definition conv_arg (cv : conv) (z : Z) : Z :=
  match cv with
  | CvD => swrap 32 z
  | CvU => u32 z
  | CvLD => swrap 64 z
  | CvX | CvLU | CvLX => u64 z
  end.

Lemma wrap_swrap w z : 0 < w -> wrap w (swrap w z) = wrap w z.
Proof.
  intros Hw. unfold wrap, swrap. rewrite Zminus_mod_idemp_l.
  f_equal. lia.
Qed.

Lemma u32_in_u64 z : u64 (swrap 64 (u32 z)) = u32 z.
Proof.
  rewrite wrap_swrap by lia. pose proof (wrap_range 32 z). apply wrap_small. lia.
Qed.

Lemma conv_magnitude cv z :
  let v := conv_value cv z in
  magnitude v (conv_signed cv) =
    (if conv_signed cv && (v <? 0) then - conv_arg cv z else conv_arg cv z) /\
  (conv_signed cv = true -> v = conv_arg cv z).
Proof.
  assert (H64 : forall z, swrap 64 (swrap 64 z) = swrap 64 z).
  { intros x. apply swrap_small; [lia|]. by apply swrap_range. }
  assert (H32 : swrap 64 (swrap 32 z) = swrap 32 z).
  { apply swrap_small; [lia|]. pose proof (swrap_range 32 z). lia. }
  pose proof (swrap_range 32 z). pose proof (swrap_range 64 z).
  unfold magnitude. destruct cv; cbn [conv_value conv_signed conv_arg andb];
    rewrite ?H32, ?H64; (split; [|done]).
  - destruct (Z.ltb_spec (swrap 32 z) 0); [done|]. apply wrap_small. lia.
  - apply u32_in_u64.
  - rewrite wrap_swrap by lia. apply wrap_wrap.
  - destruct (Z.ltb_spec (swrap 64 z) 0); [done|]. apply wrap_small. lia.
  - rewrite wrap_swrap by lia. apply wrap_wrap.
  - rewrite wrap_swrap by lia. apply wrap_wrap.
Qed.

Lemma conv_base_range cv : 2 <= conv_base cv <= 16.
Proof. destruct cv; cbn; lia. Qed.

Lemma conv_value_range cv z : - 2 ^ 63 <= conv_value cv z < 2 ^ 63.
Proof. destruct cv; apply (swrap_range 64); lia. Qed.

(** The text of a conversion without width: sign and digits, which read back. *)
Lemma conv_text cv z opt :
  truth (Z.land opt PRINT_0X) = false ->
  exists ds, num_text (conv_value cv z) (conv_base cv) (conv_signed cv) opt =
      (if conv_signed cv && (conv_value cv z <? 0) then [chr_minus] else []) ++ ds /\
    ds <> [] /\ Forall (is_digit_of (conv_base cv)) ds /\
    read_number (conv_base cv)
      (num_text (conv_value cv z) (conv_base cv) (conv_signed cv) opt) = Some (conv_arg cv z).
Proof.
  intros Hopt. destruct (number_text_spec (conv_value cv z) (conv_base cv) (conv_signed cv) opt)
    as (ds & E & Hne & Hv & Hd & _); [apply conv_base_range|apply conv_value_range|].
  destruct (read_digits_spec (conv_base cv) ds (conv_base_range cv) Hne Hd) as [Hr Hm].
  unfold num_text. rewrite E, Hopt. cbn [default app]. unfold id. exists ds.
  split; [done|]. split; [done|]. split; [done|].
  rewrite (proj1 (conv_magnitude cv z)) in Hv.
  destruct (conv_signed cv && (conv_value cv z <? 0)); cbn [app].
  - unfold read_number. cbn [at_cursor hd tl]. rewrite Z.eqb_refl, Hr, Hv. cbn. f_equal. lia.
  - unfold read_number. rewrite (proj2 (Z.eqb_neq _ _) Hm). by rewrite Hr, Hv.
Qed.

Lemma vprintf_loop_S {S} `{Output S} fuel c rest ap :
  c <> 0 ->
  vprintf_loop (S:=S) (Datatypes.S fuel) (c :: rest) ap =
  (r ← vprintf_step (c :: rest) ap; vprintf_loop fuel (r.1) (r.2)).
Proof. intros Hc. cbn [vprintf_loop at_cursor hd]. by rewrite (proj2 (truth_true c)). Qed.

(** * Properties *)

(** C18: vprintf prints a format made of literal text, integer conversions with flags and
    widths, pointers, characters, strings and percent signs as the reference renderer does:
    each piece in order, each argument used once, on every output that works. *)
Theorem vprintf_renders {S} `{Output S} items s :
  Forall valid_item items -> ready s ->
  exists s', vprintf (concat (item_format <$> items)) (concat (item_args <$> items)) s = Ok 0 s' /\
    ready s' /\ out s' = out s ++ (sent <$> concat (render <$> items)).
Proof. apply vprintf_emits. Qed.

Lemma vprintf_renders_witness :
  exists s', vprintf (S:=text)
      (concat (item_format <$> [Lit 88; Num true false 3 CvD 5; Percent; Ptr false false 0 255; Str None]))
      (concat (item_args <$> [Lit 88; Num true false 3 CvD 5; Percent; Ptr false false 0 255; Str None])) []
    = Ok 0 s' /\ ready (S:=text) s' /\ out (S:=text) s' = out (S:=text) [] ++ (sent (S:=text) <$> concat (render <$> [Lit 88; Num true false 3 CvD 5; Percent; Ptr false false 0 255; Str None])).
Proof.
  apply (vprintf_renders (S:=text) [Lit 88; Num true false 3 CvD 5; Percent; Ptr false false 0 255; Str None] []);
    [|done]. repeat constructor; done.
Defined.

(** C29: what a conversion without a width prints reads back as the argument, at the width
    and signedness of the conversion, in base 10 or 16: INT_MIN and UINT64_MAX included. *)
Theorem printed_number_reads_back {S} `{Output S} cv z s :
  ready s ->
  exists s' t, vprintf (chr_pct :: letters cv) [AInt z] s = Ok 0 s' /\
    ready s' /\ out s' = out s ++ (sent <$> t) /\ read_number (conv_base cv) t = Some (conv_arg cv z).
Proof.
  intros Hs. destruct (vprintf_emits [Num false false 0 cv z] s) as (s' & E & Hs' & Ho).
  - constructor; [cbn; unfold INT_MAX, chr_0; lia|constructor].
  - done.
  - exists s', (render (Num false false 0 cv z)). split; [|split; [done|split]].
    + rewrite <- E. unfold vprintf. cbn [fmap list_fmap concat item_format item_args].
      by rewrite !app_nil_r.
    + rewrite Ho. f_equal. f_equal. cbn [fmap list_fmap concat]. by rewrite app_nil_r.
    + destruct (conv_text cv z (pad_opt false) eq_refl) as (ds & _ & _ & _ & Hr).
      cbn [render field_width]. unfold in_field. cbn [Z.ltb Z.compare].
      replace (Z.to_nat _) with O by lia. by rewrite app_nil_r.
Qed.

Lemma printed_number_reads_back_witness :
  exists s' t, vprintf (S:=text) (chr_pct :: letters CvD) [AInt (2 ^ 31)] [] = Ok 0 s' /\
    ready (S:=text) s' /\ out (S:=text) s' = out (S:=text) [] ++ (sent (S:=text) <$> t) /\ read_number 10 t = Some (conv_arg CvD (2 ^ 31)).
Proof. apply (printed_number_reads_back (S:=text) CvD (2 ^ 31) []). exact I. Defined.

(** With zero padding a negative number narrower than its field comes out with the
    zeros before the sign: %05d of -42 prints 00-42, which does not read as a number. *)
Theorem zero_padded_negative {S} `{Output S} cv z width s :
  ready s -> conv_signed cv = true -> conv_arg cv z < 0 -> width <= INT_MAX - chr_0 ->
  Z.of_nat (length (num_text (conv_value cv z) 10 true ZERO_PADDING)) < width ->
  exists s' k ds, vprintf (chr_pct :: spec_text false true width ++ letters cv) [AInt z] s = Ok 0 s' /\
    out s' = out s ++ (sent <$> replicate (Datatypes.S k) chr_0 ++ chr_minus :: ds) /\
    read_number 10 (replicate (Datatypes.S k) chr_0 ++ chr_minus :: ds) = None.
Proof.
  intros Hs Hsig Hneg Hmax Hw. destruct (vprintf_emits [Num false true width cv z] s) as (s' & E & _ & Ho).
  - constructor; [cbn; lia|constructor].
  - done.
  - destruct (conv_text cv z (pad_opt true) eq_refl) as (ds & Et & _).
    assert (conv_base cv = 10) as Hb by (by destruct cv).
    rewrite (proj2 (conv_magnitude cv z) Hsig), Hsig, Hb in Et.
    rewrite (proj2 (conv_magnitude cv z) Hsig) in Hw.
    rewrite (proj2 (Z.ltb_lt _ _) Hneg) in Et. cbn [andb app pad_opt] in Et.
    set (t := num_text (conv_arg cv z) 10 true ZERO_PADDING) in *.
    exists s', (Z.to_nat (width - Z.of_nat (length t)) - 1)%nat, ds. split; [|split].
    + rewrite <- E. unfold vprintf. cbn [fmap list_fmap concat item_format item_args].
      by rewrite !app_nil_r.
    + rewrite Ho. f_equal. f_equal. cbn [fmap list_fmap concat render field_width]. rewrite app_nil_r.
      rewrite (proj2 (conv_magnitude cv z) Hsig), Hsig, Hb. cbn [pad_opt]. fold t.
      unfold in_field. rewrite (proj2 (Z.ltb_lt 0 width)) by lia.
      cbv zeta. change (truth (Z.land ZERO_PADDING ZERO_PADDING)) with true. cbn match.
      rewrite <- Et. f_equal. f_equal. lia.
    + unfold read_number. cbn [replicate app at_cursor hd]. change (chr_0 =? chr_minus) with false.
      cbn match. unfold read_digits. destruct (forallb _ _) eqn:Hall; [exfalso|done].
      rewrite forallb_forall in Hall.
      assert (Hin : In chr_minus (chr_0 :: replicate (Z.to_nat (width - Z.of_nat (length t)) - 1) chr_0 ++ chr_minus :: ds))
        by (right; apply in_or_app; right; by left).
      by specialize (Hall _ Hin).
Qed.

Lemma zero_padded_negative_witness :
  exists s' k ds, vprintf (S:=text) (chr_pct :: spec_text false true 5 ++ letters CvD) [AInt (-42)] []
      = Ok 0 s' /\
    out (S:=text) s' = out (S:=text) [] ++ (sent (S:=text) <$> replicate (Datatypes.S k) chr_0 ++ chr_minus :: ds) /\
    read_number 10 (replicate (Datatypes.S k) chr_0 ++ chr_minus :: ds) = None.
Proof.
  apply (zero_padded_negative (S:=text) CvD (-42) 5 []); [exact I|reflexivity|vm_compute..]; easy.
Defined.

(** A format that ends in a percent sign, after any literal text, is read past its
    terminator: vprintf prints the text, the percent sign and the terminating zero, and then
    steps over the end of the string. *)
Theorem trailing_percent_overruns {S} `{Output S} lits ap s :
  Forall (fun c => c <> 0 /\ c <> chr_pct) lits -> ready s ->
  exists s', vprintf (lits ++ [chr_pct]) ap s =
      Stop (Undef "cursor past the end of the format string") s' /\
    out s' = out s ++ (sent <$> lits ++ [chr_pct; 0]).
Proof.
  intros Hl Hs. unfold vprintf. rewrite length_app, Nat.add_comm. cbn [length Nat.add].
  revert s Hs. induction Hl as [|c lits [Hc0 Hcp] _ IH]; intros s Hs.
  - destruct (putchar_spec chr_pct s Hs) as (s1 & E1 & H1 & O1).
    destruct (putchar_spec 0 s1 H1) as (s2 & E2 & H2 & O2).
    exists s2. split; [|by rewrite O2, O1, <- app_assoc].
    cbn [app length]. rewrite vprintf_loop_S by done. apply bind_Stop. unfold vprintf_step, directive, dispatch. cbn [at_cursor hd].
    rewrite Z.eqb_refl.
    unfold fetch_digit, advance, mbind, M_bind, mret, M_ret. cbn. by rewrite E1, E2.
  - destruct (putchar_spec c s Hs) as (s1 & E1 & H1 & O1).
    destruct (IH s1 H1) as (s2 & E2 & O2). exists s2.
    split; [|by rewrite O2, O1, <- app_assoc].
    cbn [app length]. rewrite vprintf_loop_S by done.
    assert (Est : vprintf_step (c :: lits ++ [chr_pct]) ap s = Ok (lits ++ [chr_pct], ap) s1).
    { unfold vprintf_step. cbn [at_cursor hd]. rewrite (proj2 (Z.eqb_neq c chr_pct)) by done.
      unfold mbind, M_bind. by rewrite E1. }
    mstep Est. exact E2.
Qed.

Lemma trailing_percent_overruns_witness :
  exists s', vprintf (S:=text) (str "100" ++ [chr_pct]) [] [] =
      Stop (Undef "cursor past the end of the format string") s' /\
    out (S:=text) s' = out (S:=text) [] ++ (sent (S:=text) <$> str "100" ++ [chr_pct; 0]).
Proof. apply (trailing_percent_overruns (S:=text) (str "100") [] []); [repeat constructor; done|exact I]. Defined.
