(* ===== verification/Io.v ===== *)
(** The hardware the program drives: device registers behind volatile loads and stores, and
    system registers behind mrs and msr.

    What a device answers is not code of the repository, so it is a parameter: a type [D] of
    hardware states with the four accesses of [Hardware]. Every access the program makes, and
    every character it prints, is recorded in a trace, and the theorems are about traces. *)
From Stdlib Require Import ZArith Lia.
From stdpp Require Import base list strings.
From S2P Require Import Prelude Printf.

Open Scope Z_scope.

(** Accesses of [n] bytes at an address, and of a system register by name. *)
Class Hardware (D : Type) := {
  mmio_read : nat -> Z -> D -> Z * D;
  mmio_write : nat -> Z -> Z -> D -> D;
  sys_read : string -> D -> Z * D;
  sys_write : string -> Z -> D -> D }.

Inductive event :=
  | ERead (n : nat) (a v : Z)
  | EWrite (n : nat) (a v : Z)
  | EMrs (r : string) (v : Z)
  | EMsr (r : string) (v : Z)
  | EBarrier (b : string)
  | EPutc (c : Z).

#[global] Instance event_eq_dec : EqDecision event.
Proof. solve_decision. Defined.

(** Hardware state and what the program has done, oldest first. *)
Record io (D : Type) := { dev : D; trace : list event }.
Arguments dev {D} _.
Arguments trace {D} _.
Arguments Build_io {D} _ _.

Section Io.
Context {D : Type} `{Hardware D}.

Definition access {A} (f : D -> A * D) (e : A -> event) : M (io D) A := fun s =>
  let r := f (dev s) in Ok (r.1) (Build_io (r.2) (trace s ++ [e (r.1)])).

(** The value of an access is what the register width keeps of it. *)
Definition mmio_load (n : nat) (a : Z) : M (io D) Z :=
  access (fun d => let r := mmio_read n a d in (wrap (8 * Z.of_nat n) (r.1), r.2)) (ERead n a).

Definition mmio_store (n : nat) (a v : Z) : M (io D) unit :=
  let v := wrap (8 * Z.of_nat n) v in
  access (fun d => (tt, mmio_write n a v d)) (fun _ => EWrite n a v).

Definition read32 (a : Z) : M (io D) Z := mmio_load 4 a.
Definition write32 (a v : Z) : M (io D) unit := mmio_store 4 a v.
Definition read64 (a : Z) : M (io D) Z := mmio_load 8 a.
Definition write64 (a v : Z) : M (io D) unit := mmio_store 8 a v.

Definition read_sysreg (r : string) : M (io D) Z :=
  access (fun d => let r := sys_read r d in (u64 (r.1), r.2)) (EMrs r).
Definition write_sysreg (r : string) (v : Z) : M (io D) unit :=
  access (fun d => (tt, sys_write r (u64 v) d)) (fun _ => EMsr r (u64 v)).

Definition barrier (b : string) : M (io D) unit := access (fun d => (tt, d)) (fun _ => EBarrier b).
Definition isb : M (io D) unit := barrier "isb".

(** [read_sysreg(MPIDR_EL1) & 0xFF] *)
Definition cpu_id : M (io D) Z := v ← read_sysreg "MPIDR_EL1"; mret (Z.land v 0xFF).

Definition tick_el2 : M (io D) Z := read_sysreg "CNTVCT_EL0".
Definition read_esr_el2 : M (io D) Z := read_sysreg "ESR_EL2".
Definition read_far_el2 : M (io D) Z := read_sysreg "FAR_EL2".
Definition pstate : M (io D) Z := v ← read_sysreg "SPSR_EL2"; mret (u32 v).
Definition get_current_el : M (io D) Z :=
  v ← read_sysreg "CurrentEL"; mret (Z.land (Z.shiftr v 2) 3).
Definition set_vbar_el2 (a : Z) : M (io D) unit := write_sysreg "VBAR_EL2" a.

Definition HCR_EL2_IMO : Z := Z.shiftl 1 4.
Definition HCR_EL2_FMO : Z := Z.shiftl 1 5.

Definition irq_enable : M (io D) Z :=
  v ← read_sysreg "HCR_EL2";
  write_sysreg "HCR_EL2" (Z.lor v (Z.lor HCR_EL2_IMO HCR_EL2_FMO)) ;;
  write_sysreg "DAIFClr" 2 ;;
  isb ;; mret 0.

Definition irq_disable : M (io D) Z := write_sysreg "DAIFSet" 2 ;; isb ;; mret 0.

(** Output as the trace sees it: the character handed to putchar. The console behind
    putchar is the subject of Console. *)
Definition emit_char (c : Z) : M (io D) unit := access (fun d => (tt, d)) (fun _ => EPutc c).
End Io.

Definition printed (e : event) : option Z := match e with EPutc c => Some c | _ => None end.

#[global, refine] Instance io_output {D} `{Hardware D} : Output (io D) := {
  putchar := emit_char;
  out := fun s => omap printed (trace s);
  sent := fun c => c;
  ready := fun _ => True;
  putchar_spec := _ }.
Proof.
  intros c s _. eexists. split; [reflexivity|]. split; [done|]. cbn. by rewrite omap_app.
Defined.

(** Everything but the printed characters. *)
Definition is_access (e : event) : bool := match e with EPutc _ => false | _ => true end.
Definition accesses (l : list event) : list event := filter is_access l.

(** The build parameters of CMakeLists.txt, and the number of polls after which the model
    reports a busy wait as [Spin]. *)
Class Config := { NR_CPU : Z; HZ : Z; patience : nat }.

(** A busy wait: [cond] is evaluated again while it holds, at most [fuel] times more. *)
Fixpoint spin_while {S} (fuel : nat) (cond : M S bool) : M S unit :=
  b ← cond;
  if (b : bool) then
    match fuel with
    | O => stop_with Spin
    | Datatypes.S fuel' => spin_while fuel' cond
    end
  else mret tt.

(** Hardware that reads as memory does: a list of the values to be answered, in order. *)
#[global] Instance script_hardware : Hardware (list Z) := {
  mmio_read := fun _ _ d => (hd 0 d, tl d);
  mmio_write := fun _ _ _ d => d;
  sys_read := fun _ d => (hd 0 d, tl d);
  sys_write := fun _ _ d => d }.
