(* ===== verification/IoProof.v ===== *)
(** Runs of programs that drive hardware: what a call adds to the trace, the effects among the
    events, busy waits that end, and printing to the trace. *)
From Stdlib Require Import ZArith Lia.
From stdpp Require Import base gmap list strings.
From S2P Require Import Prelude Printf PrintfProof Io.

Open Scope Z_scope.

(** * Effects

    The events that change the hardware, in order: register writes of both kinds. *)
Definition effect (e : event) : bool :=
  match e with EWrite _ _ _ | EMsr _ _ => true | _ => false end.
Definition effects (l : list event) : list event := filter effect l.

Lemma effects_app l1 l2 : effects (l1 ++ l2) = effects l1 ++ effects l2.
Proof. apply filter_app. Qed.

Lemma effects_putc t : effects (EPutc <$> t) = [].
Proof. by induction t. Qed.

(** * Runs *)

(** A state that holds a trace. *)
Class Traced (S : Type) := trace_of : S -> list event.
#[global] Instance io_traced {D} : Traced (io D) := trace.

(** The call returns [a] in [s'], having added [l] to the trace. *)
Definition runs {S A} `{Traced S} (m : M S A) (s : S) (a : A) (s' : S) (l : list event) : Prop :=
  m s = Ok a s' /\ trace_of s' = trace_of s ++ l.

Section Runs.
Context {S : Type} `{Traced S}.

Lemma runs_ret {A} (a : A) s : runs (mret a) s a s [].
Proof. split; [done|by rewrite app_nil_r]. Qed.

Lemma runs_bind {A B} (m : M S A) (k : A -> M S B) s a s1 b s2 l1 l2 :
  runs m s a s1 l1 -> runs (k a) s1 b s2 l2 -> runs (m ≫= k) s b s2 (l1 ++ l2).
Proof.
  intros [E1 T1] [E2 T2]. split; [by rewrite (bind_Ok _ _ _ _ _ E1)|].
  by rewrite T2, T1, app_assoc.
Qed.

Lemma runs_modify (f : S -> S) s : trace_of (f s) = trace_of s -> runs (modify f) s tt (f s) [].
Proof. intros Hf. split; [done|]. by rewrite Hf, app_nil_r. Qed.

Lemma runs_gets {A} (f : S -> A) s : runs (gets f) s (f s) s [].
Proof. split; [done|by rewrite app_nil_r]. Qed.
End Runs.

(** Chains runs, given in order, through a sequence of calls. *)
Ltac chain_one r :=
  lazymatch goal with
  | |- runs (mbind _ _) _ _ _ _ => eapply runs_bind; [exact r|]
  | _ => exact r
  end.
Ltac chain rs :=
  lazymatch rs with
  | (?rs', ?r) => chain rs'; chain_one r
  | ?r => chain_one r
  end.

Section Hardware.
Context {D : Type} `{Hardware D}.

(** Printing: only characters are added to the trace, and the hardware stays. *)
Definition io_output_from (s0 : io D) : Output (io D).
Proof.
  refine {| putchar := emit_char; out := fun s => omap printed (trace s); sent := fun c => c;
            ready := fun s => exists t, trace s = trace s0 ++ (EPutc <$> t) /\ dev s = dev s0 |}.
  intros c s (t & Ht & Hd). eexists. split; [reflexivity|]. split; [|cbn; by rewrite omap_app].
  exists (t ++ [c]). cbn. by rewrite Ht, Hd, fmap_app, app_assoc.
Defined.

(** Reading the register at [a] again and again finds [bit] clear within [n] more reads. *)
Fixpoint settles (n : nat) (a bit : Z) (d : D) : Prop :=
  let r := mmio_read 4 a d in
  truth (Z.land (u32 (r.1)) bit) = false \/
  match n with O => False | Datatypes.S n' => settles n' a bit (r.2) end.
End Hardware.
