(* ===== verification/Spinlock.v ===== *)
(** Spin locks: arch_spinlock.h and spinlock.h, and run_once of utils.h.

    The lock word is 32 bits, [owner] in its low half and [next] in its high half. Each
    CPU runs the instructions of arch_spin_lock, arch_spin_trylock or arch_spin_unlock one
    at a time, interleaved with the others. A load-exclusive sets the CPU's monitor, any
    store to the lock word clears the monitors of the other CPUs, and a store-exclusive
    needs the monitor; it may also fail for no reason. *)
From Stdlib Require Import ZArith Lia.
From stdpp Require Import base list fin_maps relations.
From S2P Require Import Prelude.

Open Scope Z_scope.

(** * The lock word *)

Definition TICKET_SHIFT : Z := 16.

(** [arch_spinlock_t] *)
Record arch_spinlock := { owner : Z; next : Z }.
Definition __ARCH_SPIN_LOCK_UNLOCKED : arch_spinlock := {| owner := 0; next := 0 |}.

Definition word (l : arch_spinlock) : Z := owner l + Z.shiftl (next l) TICKET_SHIFT.
Definition lock_of (w : Z) : arch_spinlock := {| owner := u16 w; next := u16 (Z.shiftr w TICKET_SHIFT) |}.

(** [eor w1, w0, w0, ror #16], zero when both halves agree. *)
Definition ror16 (w : Z) : Z := Z.lor (Z.shiftr w 16) (u32 (Z.shiftl w 16)).
Definition halves_differ (w : Z) : bool := truth (Z.lxor w (ror16 w)).

Definition arch_spin_value_unlocked (l : arch_spinlock) : bool := owner l =? next l.
Definition arch_spin_is_locked (l : arch_spinlock) : bool := negb (arch_spin_value_unlocked l).

(** [(lockval.next - lockval.owner) > 1], in [int]. *)
Definition arch_spin_is_contended (l : arch_spinlock) : bool := 1 <? next l - owner l.

(** * The instructions *)

(** Where a CPU is. The argument of a state is the register the instruction needs. *)
Inductive pc :=
  | Outside
  | LockLd                (** 1: ldaxr w0 *)
  | LockSt (w0 : Z)       (** stxr w2, w0 + (1 << 16), and the first ownership test *)
  | LockWait (w0 : Z)     (** 2: wfe; ldaxrh w2; compare with w0 >> 16 *)
  | Critical
  | TryLd                 (** 1: ldaxr w0, and the test of both halves *)
  | TrySt (w0 : Z)        (** stxr *)
  | UnlockLd              (** lock->owner + 1 *)
  | UnlockSt (w1 : Z).    (** stlrh *)

Record machine := { mem : Z; pcs : Z -> pc; monitor : Z -> bool }.

Definition at_cpu {A} (f : Z -> A) (c : Z) (a : A) : Z -> A := fun d => if decide (d = c) then a else f d.

(** A step that touches no memory, one that loads exclusively, and one that stores. *)
Definition goto (c : Z) (p : pc) (m : machine) : machine :=
  {| mem := mem m; pcs := at_cpu (pcs m) c p; monitor := monitor m |}.
Definition goto_ex (c : Z) (p : pc) (m : machine) : machine :=
  {| mem := mem m; pcs := at_cpu (pcs m) c p; monitor := at_cpu (monitor m) c true |}.
Definition goto_st (c : Z) (p : pc) (v : Z) (m : machine) : machine :=
  {| mem := v; pcs := at_cpu (pcs m) c p; monitor := fun _ => false |}.

(** The new word [add w1, w0, #(1 << 16)]. *)
Definition take_ticket (w0 : Z) : Z := u32 (w0 + Z.shiftl 1 TICKET_SHIFT).
(** [stlrh] writes the low half. *)
Definition store_owner (w v : Z) : Z := Z.shiftl (Z.shiftr w 16) 16 + u16 v.

(** Where the lock sequence goes after its store-exclusive succeeded. *)
Definition after_ticket (w0 : Z) : pc := if halves_differ w0 then LockWait w0 else Critical.

(** One instruction of one of the CPUs [0 .. ncpu - 1]. *)
Inductive step (ncpu : Z) (m : machine) : machine -> Prop :=
  | step_lock c : 0 <= c < ncpu -> pcs m c = Outside -> step ncpu m (goto c LockLd m)
  | step_lock_ld c : pcs m c = LockLd -> step ncpu m (goto_ex c (LockSt (mem m)) m)
  | step_lock_st c w0 : pcs m c = LockSt w0 -> monitor m c = true ->
      step ncpu m (goto_st c (after_ticket w0) (take_ticket w0) m)
  | step_lock_retry c w0 : pcs m c = LockSt w0 -> step ncpu m (goto c LockLd m)
  | step_wait c w0 : pcs m c = LockWait w0 ->
      step ncpu m (goto_ex c (if truth (Z.lxor (u16 (mem m)) (Z.shiftr w0 16)) then LockWait w0 else Critical) m)
  | step_try c : 0 <= c < ncpu -> pcs m c = Outside -> step ncpu m (goto c TryLd m)
  | step_try_ld c : pcs m c = TryLd ->
      step ncpu m (goto_ex c (if halves_differ (mem m) then Outside else TrySt (mem m)) m)
  | step_try_st c w0 : pcs m c = TrySt w0 -> monitor m c = true ->
      step ncpu m (goto_st c Critical (take_ticket w0) m)
  | step_try_retry c w0 : pcs m c = TrySt w0 -> step ncpu m (goto c TryLd m)
  | step_unlock c : pcs m c = Critical -> step ncpu m (goto c UnlockLd m)
  | step_unlock_ld c : pcs m c = UnlockLd -> step ncpu m (goto c (UnlockSt (u16 (mem m) + 1)) m)
  | step_unlock_st c w1 : pcs m c = UnlockSt w1 -> step ncpu m (goto_st c Outside (store_owner (mem m) w1) m).

Definition initial : machine :=
  {| mem := word __ARCH_SPIN_LOCK_UNLOCKED; pcs := fun _ => Outside; monitor := fun _ => false |}.

(** What a step means to the callers: a CPU takes a ticket, enters, and leaves. An instruction
    shows by where it takes its CPU. *)
Inductive lock_event := Asked (c : Z) | Entered (c : Z) | Released (c : Z).

Definition happened (c : Z) (before after : pc) : list lock_event :=
  match before, after with
  | LockSt _, LockWait _ => [Asked c]
  | LockSt _, Critical | TrySt _, Critical => [Asked c; Entered c]
  | LockWait _, Critical => [Entered c]
  | UnlockSt _, Outside => [Released c]
  | _, _ => []
  end.

(** A run from the free lock, with what has happened. *)
Inductive traced (ncpu : Z) : list lock_event -> machine -> Prop :=
  | traced_nil : traced ncpu [] initial
  | traced_step l m c m' : traced ncpu l m -> step ncpu m m' -> (forall d, d <> c -> pcs m' d = pcs m d) ->
      traced ncpu (l ++ happened c (pcs m c) (pcs m' c)) m'.

Definition asked (l : list lock_event) : list Z := omap (fun e => if e is Asked c then Some c else None) l.
Definition entered (l : list lock_event) : list Z := omap (fun e => if e is Entered c then Some c else None) l.
Definition released (l : list lock_event) : list Z := omap (fun e => if e is Released c then Some c else None) l.

(** A CPU that holds the lock: between the acquire and the releasing store. *)
Definition holds (p : pc) : bool :=
  match p with Critical | UnlockLd | UnlockSt _ => true | _ => false end.

(** * run_once, and the lock as one CPU alone sees it *)

Record once_flag := { flag : Z; lock : arch_spinlock }.
Definition ONCE_INITIALIZER : once_flag := {| flag := 0; lock := __ARCH_SPIN_LOCK_UNLOCKED |}.

(** With no other CPU to release it, waiting for a held lock never ends. *)
Definition spin_lock : M arch_spinlock unit :=
  l ← get;
  put (lock_of (take_ticket (word l))) ;;
  if halves_differ (word l) then stop_with Spin else mret tt.

Definition spin_unlock : M arch_spinlock unit :=
  l ← get; put (lock_of (store_owner (word l) (owner l + 1))).

Section Once.
Context {S : Type} (view : S -> once_flag) (upd : S -> once_flag -> S).

Definition with_lock (o : once_flag) (l : arch_spinlock) : once_flag := {| flag := flag o; lock := l |}.
Definition on_lock {A} (m : M arch_spinlock A) : M S A := zoom view upd (zoom lock with_lock m).

Definition run_once (func : M S Z) : M S Z :=
  o ← gets view;
  if flag o =? 0 then
    on_lock spin_lock ;;
    o ← gets view;
    ret ← (if flag o =? 0 then
             ret ← func;
             when (ret =? 0) (modify (fun s => upd s {| flag := 1; lock := lock (view s) |})) ;;
             mret ret
           else mret 0) : M S Z;
    on_lock spin_unlock ;;
    mret ret
  else mret 0.
End Once.
