(* ===== verification/SpinlockProof.v ===== *)
(** The ticket lock implements a first-in first-out lock. *)
From Stdlib Require Import ZArith Lia.
From stdpp Require Import base list fin_maps relations.
From S2P Require Import Prelude Spinlock.

Open Scope Z_scope.

(** * The lock word as a pair of halves *)

Definition pair_word (o n : Z) : Z := o + 65536 * n.

Lemma word_u16 o n : 0 <= o < 65536 -> u16 (pair_word o n) = o.
Proof.
  intros. unfold wrap, pair_word. change (2 ^ 16) with 65536.
  rewrite (Z.mul_comm 65536), Z.mod_add, Z.mod_small by lia. done.
Qed.

Lemma word_high o n : 0 <= o < 65536 -> Z.shiftr (pair_word o n) 16 = n.
Proof.
  intros. rewrite Z.shiftr_div_pow2 by lia. unfold pair_word. change (2 ^ 16) with 65536.
  rewrite (Z.mul_comm 65536), Z.div_add, Z.div_small by lia. lia.
Qed.

Lemma lor_halves a b : 0 <= a < 65536 -> 0 <= b -> Z.lor a (65536 * b) = a + 65536 * b.
Proof.
  intros Ha Hb.
  assert (Hland : Z.land a (65536 * b) = 0).
  { bit_ext i Hi. rewrite Z.land_spec, Z.bits_0. replace (65536 * b) with (Z.shiftl b 16)
      by (rewrite Z.shiftl_mul_pow2 by lia; lia).
    rewrite Z.shiftl_spec by done. destruct (Z.ltb_spec i 16).
    - rewrite (Z.testbit_neg_r b) by lia. apply andb_false_r.
    - rewrite (testbit_high 16 a); [done|exact Ha|lia]. }
  rewrite <- Z.lxor_lor by done. symmetry. by apply Z.add_nocarry_lxor.
Qed.

Lemma halves_differ_spec o n :
  0 <= o < 65536 -> 0 <= n < 65536 -> halves_differ (pair_word o n) = negb (o =? n).
Proof.
  intros Ho Hn. unfold halves_differ, ror16. rewrite word_high by done.
  rewrite Z.shiftl_mul_pow2 by lia. unfold wrap.
  replace (pair_word o n * 2 ^ 16) with (65536 * o + n * 2 ^ 32) by (unfold pair_word; lia).
  rewrite Z.mod_add, Z.mod_small, lor_halves by lia. unfold truth. f_equal.
  destruct (Z.eqb_spec o n) as [->|Hne].
  - apply Z.eqb_eq. unfold pair_word. by rewrite Z.lxor_nilpotent.
  - apply Z.eqb_neq. intros E. apply Z.lxor_eq in E. unfold pair_word in E. lia.
Qed.

Lemma take_ticket_spec o n :
  0 <= o < 65536 -> 0 <= n < 65536 -> take_ticket (pair_word o n) = pair_word o ((n + 1) mod 65536).
Proof.
  intros Ho Hn. unfold take_ticket, TICKET_SHIFT, wrap, pair_word. change (Z.shiftl 1 16) with 65536.
  destruct (Z.eq_dec n 65535) as [->|].
  - change ((65535 + 1) mod 65536) with 0. change (2 ^ 32) with (65536 * 65536).
    replace (o + 65536 * 65535 + 65536) with (o + 1 * (65536 * 65536)) by lia.
    rewrite Z.mod_add, Z.mod_small by lia. lia.
  - rewrite (Z.mod_small (n + 1)) by lia. rewrite Z.mod_small by lia. lia.
Qed.

Lemma store_owner_spec o n v :
  0 <= o < 65536 -> store_owner (pair_word o n) v = pair_word (v mod 65536) n.
Proof.
  intros Ho. unfold store_owner. rewrite word_high by done. rewrite Z.shiftl_mul_pow2 by lia.
  unfold wrap, pair_word. change (2 ^ 16) with 65536. lia.
Qed.

(** * The abstract lock *)

(** CPUs in the order in which they asked; the first holds the lock when [held]. *)
Record fifo_lock := { queue : list Z; held : bool }.

Inductive fifo_step (a : fifo_lock) : lock_event -> fifo_lock -> Prop :=
  | fifo_ask c : c ∉ queue a -> fifo_step a (Asked c) {| queue := queue a ++ [c]; held := held a |}
  | fifo_enter c q : queue a = c :: q -> held a = false ->
      fifo_step a (Entered c) {| queue := queue a; held := true |}
  | fifo_release c q : queue a = c :: q -> held a = true ->
      fifo_step a (Released c) {| queue := q; held := false |}.

Inductive fifo_run (a : fifo_lock) : list lock_event -> fifo_lock -> Prop :=
  | fifo_nil : fifo_run a [] a
  | fifo_snoc l b e b' : fifo_run a l b -> fifo_step b e b' -> fifo_run a (l ++ [e]) b'.

Definition fifo_empty : fifo_lock := {| queue := []; held := false |}.

Lemma fifo_once a e b : fifo_step a e b -> fifo_run a [e] b.
Proof. intros Hs. apply (fifo_snoc a [] a e); [constructor|done]. Qed.

Lemma fifo_app a l b l' b' : fifo_run a l b -> fifo_run b l' b' -> fifo_run a (l ++ l') b'.
Proof.
  intros H1 H2. induction H2 as [|l' x e y _ IH Hs]; [by rewrite app_nil_r|]. rewrite app_assoc. by eapply fifo_snoc.
Qed.

(** CPUs enter and leave in the order in which they asked. *)
Lemma fifo_order l a : fifo_run fifo_empty l a ->
  asked l = released l ++ queue a /\ entered l = released l ++ (if held a then take 1 (queue a) else []).
Proof.
  intros Hr. assert (H : (held a = true -> queue a <> []) /\ asked l = released l ++ queue a /\
    entered l = released l ++ (if held a then take 1 (queue a) else [])); [|by destruct H].
  induction Hr as [|l b e b' _ (IH0 & IH1 & IH2) Hs]; [done|].
  unfold asked, entered, released in *. rewrite !omap_app, IH1, IH2.
  destruct Hs as [c Hc|c q Hq Hh|c q Hq Hh]; cbn; rewrite ?app_nil_r.
  - rewrite app_assoc. split; [by intros _ [_ ?]%app_nil|]. split; [done|]. destruct (held b); [|done].
    destruct (queue b); [by destruct IH0|done].
  - rewrite Hh, Hq. cbn. by rewrite <- app_assoc.
  - rewrite Hh, Hq. cbn. by rewrite <- !app_assoc.
Qed.

(** * The simulation relation *)

Definition waits (p : pc) : Prop := exists w0, p = LockWait w0.

Record sim (ncpu : Z) (m : machine) (a : fifo_lock) (o : Z) : Prop := {
  sim_o : 0 <= o < 65536;
  sim_mem : mem m = pair_word o ((o + Z.of_nat (length (queue a))) mod 65536);
  sim_nodup : NoDup (queue a);
  sim_range : forall c, pcs m c <> Outside -> 0 <= c < ncpu;
  sim_queue : forall c, c ∈ queue a <-> holds (pcs m c) = true \/ waits (pcs m c);
  sim_held : forall c, holds (pcs m c) = true <-> held a = true /\ head (queue a) = Some c;
  sim_ticket : forall i c w0, queue a !! i = Some c -> pcs m c = LockWait w0 ->
    Z.shiftr w0 16 = (o + Z.of_nat i) mod 65536;
  sim_lock_st : forall c w0, pcs m c = LockSt w0 -> monitor m c = true -> mem m = w0;
  sim_try_st : forall c w0, pcs m c = TrySt w0 -> halves_differ w0 = false /\ (monitor m c = true -> mem m = w0);
  sim_unlock : forall c w1, pcs m c = UnlockSt w1 -> w1 = o + 1;
  sim_held_queue : held a = true -> queue a <> [] }.

Lemma sim_initial ncpu : sim ncpu initial fifo_empty 0.
Proof.
  split; cbn; try done; try lia; try (intros; done).
  - constructor.
  - intros c. split; [by intros ?%not_elem_of_nil|]. intros [?|[? ?]]; done.
Qed.

Lemma cpus_bounded ncpu (l : list Z) :
  NoDup l -> (forall c, c ∈ l -> 0 <= c < ncpu) -> Z.of_nat (length l) <= Z.max 0 ncpu.
Proof.
  intros Hnd Hr. assert (Hsub : l ⊆ (Z.of_nat <$> seq 0 (Z.to_nat ncpu))).
  { intros c Hc%Hr. apply list_elem_of_fmap. exists (Z.to_nat c). split; [lia|].
    apply elem_of_seq. lia. }
  pose proof (submseteq_length _ _ (NoDup_submseteq _ _ Hnd Hsub)) as Hl.
  rewrite length_fmap, length_seq in Hl. lia.
Qed.

Lemma sim_queue_range ncpu m a o c : sim ncpu m a o -> c ∈ queue a -> 0 <= c < ncpu.
Proof.
  intros Hs Hc. apply (sim_range _ _ _ _ Hs).
  apply (sim_queue _ _ _ _ Hs) in Hc as [?|[w ?]]; destruct (pcs m c); done.
Qed.

Lemma sim_length ncpu m a o : sim ncpu m a o -> Z.of_nat (length (queue a)) <= Z.max 0 ncpu.
Proof.
  intros Hs. apply cpus_bounded; [by eapply sim_nodup|]. intros c. by eapply sim_queue_range.
Qed.

(** Two tickets less than 2^16 apart agree only if they are the same. *)
Lemma ticket_eq o k : 0 <= o < 65536 -> 0 <= k < 65536 -> (o + k) mod 65536 = o -> k = 0.
Proof.
  intros Ho Hk E. pose proof (Z.div_mod (o + k) 65536 ltac:(lia)).
  assert (0 <= (o + k) / 65536 < 2); [|lia].
  split; [apply Z.div_pos; lia|apply Z.div_lt_upper_bound; lia].
Qed.

Lemma at_cpu_eq {A} (f : Z -> A) c a : at_cpu f c a c = a.
Proof. unfold at_cpu. by rewrite decide_True. Qed.
Lemma at_cpu_ne {A} (f : Z -> A) c a d : d <> c -> at_cpu f c a d = f d.
Proof. intros. unfold at_cpu. by rewrite decide_False. Qed.

(** Splits on whether a CPU is the one that moves. *)
Ltac on_cpu d c :=
  destruct (decide (d = c)) as [->|]; [rewrite ?at_cpu_eq in * |rewrite ?at_cpu_ne in * by done].

Section Steps.
Context (ncpu : Z).
Hypothesis Hncpu : ncpu < 65536.

(** Steps after which the CPU still holds, waits or does neither, as before. *)
Lemma sim_local m a o c p' m' :
  sim ncpu m a o -> mem m' = mem m -> pcs m' = at_cpu (pcs m) c p' ->
  (forall d, d <> c -> monitor m' d = monitor m d) ->
  holds p' = holds (pcs m c) -> (waits (pcs m c) -> p' = pcs m c) -> (waits p' -> p' = pcs m c) ->
  (p' <> Outside -> 0 <= c < ncpu) ->
  (forall w0, p' = LockSt w0 -> mem m = w0) ->
  (forall w0, p' = TrySt w0 -> halves_differ w0 = false /\ mem m = w0) ->
  (forall w1, p' = UnlockSt w1 -> w1 = o + 1) ->
  sim ncpu m' a o.
Proof using Hncpu.
  intros Hs Hmem Hpcs Hmon Hh Hw Hw' Hr Hl Ht Hu. destruct Hs as [S1 S2 S3 S4 S5 S6 S7 S8 S9 S10 S11].
  split; rewrite ?Hmem, ?Hpcs; try done.
  - intros d Hd. on_cpu d c; auto.
  - intros d. on_cpu d c; [|apply S5]. rewrite Hh, S5.
    assert (waits p' <-> waits (pcs m c)) as ->; [|done].
    split; intros Hd; [by rewrite <- (Hw' Hd)|by rewrite (Hw Hd)].
  - intros d. on_cpu d c; [rewrite Hh|]; apply S6.
  - intros i d w0 Hi Hd. on_cpu d c; [|by eapply S7]. eapply S7; [done|].
    rewrite <- Hw'; [done|by exists w0].
  - intros d w0 Hd Hm. on_cpu d c; [by apply Hl|]. apply (S8 d); [done|]. by rewrite <- Hmon.
  - intros d w0 Hd. on_cpu d c; [by destruct (Ht _ Hd)|].
    destruct (S9 d w0 Hd) as [? Hx]. split; [done|]. intros Hm. apply Hx. by rewrite <- Hmon.
  - intros d w1 Hd. on_cpu d c; [by apply Hu|by eapply S10].
Qed.

Lemma queue_head_waits m a o c w0 i :
  sim ncpu m a o -> pcs m c = LockWait w0 -> queue a !! i = Some c ->
  truth (Z.lxor (u16 (mem m)) (Z.shiftr w0 16)) = negb (i =? 0)%nat.
Proof using Hncpu.
  intros Hs Hc Hi. pose proof (sim_length _ _ _ _ Hs) as Hl. pose proof (sim_o _ _ _ _ Hs) as Ho.
  rewrite (sim_mem _ _ _ _ Hs), word_u16 by done. rewrite (sim_ticket _ _ _ _ Hs i c w0 Hi Hc).
  apply lookup_lt_Some in Hi. unfold truth. f_equal.
  destruct (Nat.eqb_spec i 0) as [->|Hne].
  - apply Z.eqb_eq. rewrite Z.add_0_r, Z.mod_small by lia. apply Z.lxor_nilpotent.
  - apply Z.eqb_neq. intros E. apply Z.lxor_eq in E.
    symmetry in E. apply ticket_eq in E; lia.
Qed.

(** The first of the queue stops waiting. *)
Lemma sim_enter m a o c w0 q m' :
  sim ncpu m a o -> pcs m c = LockWait w0 -> queue a = c :: q ->
  mem m' = mem m -> pcs m' = at_cpu (pcs m) c Critical ->
  (forall d, d <> c -> monitor m' d = monitor m d) ->
  held a = false /\ sim ncpu m' {| queue := queue a; held := true |} o.
Proof using Hncpu.
  intros Hs Hc Hq Hmem Hpcs Hmon. destruct Hs as [S1 S2 S3 S4 S5 S6 S7 S8 S9 S10 S11].
  assert (Hheld : held a = false).
  { destruct (held a) eqn:Hh; [|done].
    assert (holds (pcs m c) = true) by (apply S6; by rewrite Hq). by rewrite Hc in *. }
  split; [done|]. split; cbn [queue held]; rewrite ?Hmem, ?Hpcs; try done.
  - intros d Hd. on_cpu d c; [apply S4; by rewrite Hc|auto].
  - intros d. on_cpu d c; [|apply S5]. split; [by left|]. intros _. rewrite Hq. set_solver.
  - intros d. on_cpu d c; [by rewrite Hq|]. rewrite S6, Hheld, Hq. cbn. split; [by intros [? _]|].
    intros [_ [= ->]]. done.
  - intros i d w1 Hi Hd. on_cpu d c; [done|by eapply S7].
  - intros d w1 Hd Hm. on_cpu d c; [done|]. apply (S8 d); [done|]. by rewrite <- Hmon.
  - intros d w1 Hd. on_cpu d c; [done|].
    destruct (S9 d w1 Hd) as [? Hx]. split; [done|]. intros Hm. apply Hx. by rewrite <- Hmon.
  - intros d w1 Hd. on_cpu d c; [done|by eapply S10].
  - by rewrite Hq.
Qed.

(** A store-exclusive takes the next ticket: the CPU joins the queue, and holds the lock at
    once when the queue was empty. *)
Lemma sim_asked m a o c w0 :
  sim ncpu m a o -> 0 <= c < ncpu -> mem m = w0 -> c ∉ queue a ->
  let e := bool_decide (queue a = []) in
  halves_differ w0 = negb e /\ (e = true -> held a = false) /\
  take_ticket w0 = pair_word o ((o + Z.of_nat (length (queue a ++ [c]))) mod 65536) /\
  Z.shiftr w0 16 = (o + Z.of_nat (length (queue a))) mod 65536 /\
  fifo_run a (Asked c :: (if e then [Entered c] else [])) {| queue := queue a ++ [c]; held := held a || e |}.
Proof using Hncpu.
  intros Hs Hcr Hw0 Hcq e. assert (Hlen : Z.of_nat (length (queue a ++ [c])) <= Z.max 0 ncpu).
  { apply cpus_bounded.
    - apply NoDup_app. split; [by eapply sim_nodup|]. split; [|apply NoDup_singleton].
      by intros x Hx ->%list_elem_of_singleton.
    - intros d [Hd| ->%list_elem_of_singleton]%elem_of_app; [by eapply sim_queue_range|done]. }
  rewrite length_app in Hlen |- *. cbn in Hlen |- *. destruct Hs as [S1 S2 S3 S4 S5 S6 S7 S8 S9 S10 S11].
  set (n := (o + Z.of_nat (length (queue a))) mod 65536) in *.
  assert (Hn : 0 <= n < 65536) by (apply Z.mod_pos_bound; lia).
  assert (He : e = true -> held a = false).
  { intros Hq%bool_decide_eq_true. destruct (held a); [by destruct S11|done]. }
  split; [|split; [done|split; [|split]]].
  - rewrite <- Hw0, S2, halves_differ_spec by done. f_equal. unfold e.
    case_bool_decide as Hq.
    + apply Z.eqb_eq. unfold n. rewrite Hq. cbn. rewrite Z.add_0_r, Z.mod_small by lia. done.
    + apply Z.eqb_neq. intros E. symmetry in E. apply ticket_eq in E; [|done|lia].
      by destruct (queue a).
  - rewrite <- Hw0, S2, take_ticket_spec by done. f_equal. unfold n.
    rewrite Zplus_mod_idemp_l. f_equal. lia.
  - by rewrite <- Hw0, S2, word_high.
  - pose proof (fifo_once _ _ _ (fifo_ask a c Hcq)) as Hask. destruct e eqn:Ee.
    + rewrite He in * by done. apply bool_decide_eq_true in Ee. rewrite Ee in *. cbn in *.
      eapply (fifo_snoc a [Asked c]); [exact Hask|]. by eapply (fifo_enter {| queue := [c]; held := false |} c []).
    + by rewrite orb_false_r.
Qed.

Lemma sim_ticket_taken m a o c w0 :
  sim ncpu m a o -> 0 <= c < ncpu -> mem m = w0 ->
  holds (pcs m c) = false -> ~ waits (pcs m c) ->
  exists a', fifo_run a (happened c (LockSt w0) (after_ticket w0)) a' /\
    sim ncpu (goto_st c (after_ticket w0) (take_ticket w0) m) a' o.
Proof using Hncpu.
  intros Hs Hcr Hw0 Hh Hw.
  assert (Hcq : c ∉ queue a) by (rewrite (sim_queue _ _ _ _ Hs), Hh; intros [?|?]; done).
  destruct (sim_asked m a o c w0 Hs Hcr Hw0 Hcq) as (Hdiff & Hfree & Htake & Hhigh & Hsteps).
  exists {| queue := queue a ++ [c]; held := held a || bool_decide (queue a = []) |}.
  unfold after_ticket. rewrite Hdiff, Htake. split; [by destruct (bool_decide (queue a = []))|].
  set (e := bool_decide (queue a = [])) in *.
  assert (He : e = true <-> queue a = []) by apply bool_decide_eq_true.
  destruct Hs as [S1 S2 S3 S4 S5 S6 S7 S8 S9 S10 S11].
  split; cbn [queue held mem pcs monitor goto_st]; try done.
  - apply NoDup_app. split; [done|]. split; [|apply NoDup_singleton].
    by intros x Hx ->%list_elem_of_singleton.
  - intros d Hd. on_cpu d c; auto.
  - intros d. rewrite elem_of_app, list_elem_of_singleton. on_cpu d c.
    + split; [intros _|by right]. destruct e; cbn; [by left|right; by eexists].
    + rewrite S5. naive_solver.
  - intros d. on_cpu d c.
    + destruct e eqn:Ee; cbn.
      * rewrite (proj1 He eq_refl). cbn. by rewrite orb_true_r.
      * split; [done|]. rewrite orb_false_r. intros [Hheld Hhd].
        destruct (queue a) as [|x q] eqn:Hq; [by destruct (proj2 He)|]. cbn in Hhd.
        injection Hhd as ->. destruct Hcq. set_solver.
    + rewrite S6. destruct e eqn:Ee.
      * rewrite (proj1 He eq_refl). cbn. split; [by intros [_ ?]|]. intros [_ [= ?]]. done.
      * rewrite orb_false_r. destruct (queue a) as [|x q]; [by destruct (proj2 He)|done].
  - intros i d w1 Hi Hd. apply lookup_app_Some in Hi as [Hi|[Hi Hi']].
    + apply list_elem_of_lookup_2 in Hi as Hin. on_cpu d c; [done|by eapply S7].
    + apply list_lookup_singleton_Some in Hi' as [Hi0 ->]. rewrite at_cpu_eq in Hd.
      destruct (negb e); [|done]. injection Hd as <-. rewrite Hhigh. f_equal. lia.
  - intros d w1 Hd. on_cpu d c; [by destruct (negb e)|]. by destruct (S9 d w1 Hd).
  - intros d w1 Hd. on_cpu d c; [by destruct (negb e)|by eapply S10].
  - intros _. by destruct (queue a).
Qed.

(** The releasing store takes the head off the queue. *)
Lemma sim_released m a o c w1 :
  sim ncpu m a o -> pcs m c = UnlockSt w1 ->
  exists a', fifo_run a [Released c] a' /\
    sim ncpu (goto_st c Outside (store_owner (mem m) w1) m) a' ((o + 1) mod 65536).
Proof using Hncpu.
  intros Hs Hc. destruct Hs as [S1 S2 S3 S4 S5 S6 S7 S8 S9 S10 S11].
  destruct (proj1 (S6 c)) as [Hheld Hhd]; [by rewrite Hc|].
  destruct (queue a) as [|x q] eqn:Hq; [done|]. injection Hhd as ->.
  apply NoDup_cons in S3 as [Hcq S3]. rewrite (S10 _ _ Hc).
  exists {| queue := q; held := false |}. split; [apply fifo_once; by eapply fifo_release|].
  assert (Hnw : forall d, d <> c -> holds (pcs m d) = false).
  { intros d Hd. apply not_true_is_false. intros [_ [= ?]]%S6. done. }
  split; cbn [queue held mem pcs monitor goto_st]; try done.
  - apply Z.mod_pos_bound. lia.
  - rewrite S2, store_owner_spec by done. f_equal. rewrite Zplus_mod_idemp_l. f_equal. cbn. lia.
  - intros d Hd. on_cpu d c; auto.
  - intros d. on_cpu d c.
    + split; [done|]. by intros [?|[? ?]].
    + rewrite <- S5. set_solver.
  - intros d. on_cpu d c; [|rewrite Hnw by done]; split; try done; by intros [? _].
  - intros i d w2 Hi Hd. on_cpu d c; [done|]. rewrite (S7 (Datatypes.S i) d w2 Hi Hd).
    rewrite Zplus_mod_idemp_l. f_equal. lia.
  - intros d w2 Hd. on_cpu d c; [done|]. by destruct (S9 d w2 Hd).
  - intros d w2 Hd. on_cpu d c; [done|]. pose proof (Hnw d ltac:(done)) as Hx. by rewrite Hd in Hx.
Qed.
End Steps.

Lemma not_outside ncpu m a o c : sim ncpu m a o -> pcs m c <> Outside -> 0 <= c < ncpu.
Proof. intros Hs. by apply (sim_range _ _ _ _ Hs). Qed.

Lemma monitor_goto_ex c p m d : d <> c -> monitor (goto_ex c p m) d = monitor m d.
Proof. intros. cbn. by rewrite at_cpu_ne. Qed.

(** The side conditions of [sim_local] that hold by the shape of the states. *)
Ltac local_step Hc :=
  rewrite ?Hc; try done; try (by intros; apply monitor_goto_ex); try (by intros [? ?]);
  try (intros _; eapply not_outside; [done|by rewrite Hc]).

(** Every instruction is matched by the steps of the abstract lock that it shows. *)
Lemma sim_step ncpu m m' a o :
  ncpu < 65536 -> sim ncpu m a o -> step ncpu m m' ->
  exists c p a' o', pcs m' = at_cpu (pcs m) c p /\ fifo_run a (happened c (pcs m c) p) a' /\ sim ncpu m' a' o'.
Proof.
  intros Hn Hs Hstep. destruct Hstep as [c Hr Hc|c Hc|c w0 Hc Hm|c w0 Hc|c w0 Hc|c Hr Hc|c Hc|c w0 Hc Hm|c w0 Hc|c Hc|c Hc|c w1 Hc];
    exists c; rewrite Hc.
  - eexists _, a, o. split; [done|]. split; [constructor|]. eapply (sim_local ncpu Hn m a o c LockLd); local_step Hc.
  - eexists _, a, o. split; [done|]. split; [constructor|].
    eapply (sim_local ncpu Hn m a o c (LockSt (mem m))); local_step Hc. by intros ? [= ->].
  - destruct (sim_ticket_taken ncpu Hn m a o c w0 Hs) as (a' & ? & ?).
    + eapply not_outside; [done|by rewrite Hc].
    + by eapply sim_lock_st.
    + by rewrite Hc.
    + rewrite Hc. by intros [? ?].
    + eexists _, a', o. by split; [reflexivity|].
  - eexists _, a, o. split; [done|]. split; [constructor|]. eapply (sim_local ncpu Hn m a o c LockLd); local_step Hc.
  - assert (Hq : c ∈ queue a) by (apply (sim_queue _ _ _ _ Hs); right; by exists w0).
    apply list_elem_of_lookup in Hq as [i Hi].
    rewrite (queue_head_waits ncpu Hn m a o c w0 i Hs Hc Hi). destruct i as [|i]; cbn [Nat.eqb negb].
    + destruct (queue a) as [|x q] eqn:Hqa; [done|]. injection Hi as ->.
      destruct (sim_enter ncpu Hn m a o c w0 q (goto_ex c Critical m) Hs Hc Hqa) as [Hheld Hs'];
        [done|done|by intros; apply monitor_goto_ex|].
      eexists _, _, o. split; [reflexivity|]. split; [|exact Hs']. apply fifo_once. by eapply fifo_enter.
    + eexists _, a, o. split; [reflexivity|]. split; [constructor|].
      eapply (sim_local ncpu Hn m a o c (LockWait w0)); local_step Hc.
  - eexists _, a, o. split; [done|]. split; [constructor|]. eapply (sim_local ncpu Hn m a o c TryLd); local_step Hc.
  - eexists _, a, o. split; [reflexivity|].
    destruct (halves_differ (mem m)) eqn:Hd; (split; [constructor|]);
      [eapply (sim_local ncpu Hn m a o c Outside)|eapply (sim_local ncpu Hn m a o c (TrySt (mem m)))];
      local_step Hc.
    by intros ? [= <-].
  - destruct (sim_try_st _ _ _ _ Hs c w0 Hc) as [Hd Hm'].
    destruct (sim_ticket_taken ncpu Hn m a o c w0 Hs) as (a' & Hf & Hs').
    + eapply not_outside; [done|by rewrite Hc].
    + by apply Hm'.
    + by rewrite Hc.
    + rewrite Hc. by intros [? ?].
    + eexists _, a', o. unfold after_ticket in *. rewrite Hd in *. by split; [reflexivity|].
  - eexists _, a, o. split; [done|]. split; [constructor|]. eapply (sim_local ncpu Hn m a o c TryLd); local_step Hc.
  - eexists _, a, o. split; [done|]. split; [constructor|]. eapply (sim_local ncpu Hn m a o c UnlockLd); local_step Hc.
  - eexists _, a, o. split; [done|]. split; [constructor|].
    eapply (sim_local ncpu Hn m a o c (UnlockSt (u16 (mem m) + 1))); local_step Hc.
    intros w1 [= <-]. rewrite (sim_mem _ _ _ _ Hs), word_u16 by (by eapply sim_o). done.
  - destruct (sim_released ncpu Hn m a o c w1 Hs Hc) as (a' & ? & ?). eexists _, a', ((o + 1) mod 65536).
    by split; [reflexivity|].
Qed.

Lemma happened_same c p : happened c p p = [].
Proof. by destruct p. Qed.

Lemma sim_steps ncpu m0 m a0 o0 :
  ncpu < 65536 -> rtc (step ncpu) m0 m -> sim ncpu m0 a0 o0 -> exists a o, sim ncpu m a o.
Proof.
  intros Hn Hrun. revert a0 o0. induction Hrun as [m0|m0 m1 m Hstep _ IH]; intros a0 o0 Hs.
  - by exists a0, o0.
  - destruct (sim_step _ _ _ _ _ Hn Hs Hstep) as (_ & _ & a1 & o1 & _ & _ & Hs1). by eapply IH.
Qed.

(** A run shows exactly a run of the abstract lock. *)
Lemma sim_traced ncpu l m :
  ncpu < 65536 -> traced ncpu l m -> exists a o, fifo_run fifo_empty l a /\ sim ncpu m a o.
Proof.
  intros Hn Hl. induction Hl as [|l m c m' _ (a & o & Hr & Hs) Hstep Ho].
  - exists fifo_empty, 0. split; [constructor|apply sim_initial].
  - destruct (sim_step _ _ _ _ _ Hn Hs Hstep) as (d & p & a' & o' & Hp & Hf & Hs'). exists a', o'. split; [|done].
    eapply fifo_app; [exact Hr|]. destruct (decide (d = c)) as [->|Hd].
    + by rewrite Hp, at_cpu_eq.
    + specialize (Ho d Hd). rewrite Hp, at_cpu_eq in Ho. subst p. rewrite happened_same in Hf.
      rewrite Hp, at_cpu_ne, happened_same by done. done.
Qed.

(** * The lock and run_once on one CPU *)

Lemma word_pair l : word l = pair_word (owner l) (next l).
Proof. unfold word, pair_word, TICKET_SHIFT. rewrite Z.shiftl_mul_pow2 by lia. lia. Qed.

Lemma lock_of_pair o n : 0 <= o < 65536 -> 0 <= n < 65536 -> lock_of (pair_word o n) = {| owner := o; next := n |}.
Proof.
  intros. unfold lock_of, TICKET_SHIFT. rewrite word_u16, word_high by done. f_equal. by apply wrap_small.
Qed.

(** A free lock taken and released by one CPU: both tickets move on. *)
Lemma spin_lock_free o : 0 <= o < 65536 ->
  spin_lock {| owner := o; next := o |} = Ok tt {| owner := o; next := (o + 1) mod 65536 |}.
Proof.
  intros Ho. unfold spin_lock, get, put, mbind, M_bind. rewrite word_pair. cbn [owner next].
  rewrite halves_differ_spec, Z.eqb_refl, take_ticket_spec by done.
  rewrite lock_of_pair by (done || apply Z.mod_pos_bound; lia). done.
Qed.

Lemma spin_unlock_held o n : 0 <= o < 65536 -> 0 <= n < 65536 ->
  spin_unlock {| owner := o; next := n |} = Ok tt {| owner := (o + 1) mod 65536; next := n |}.
Proof.
  intros Ho Hn. unfold spin_unlock, get, put, mbind, M_bind. rewrite word_pair. cbn [owner next].
  rewrite store_owner_spec by done. rewrite lock_of_pair by (done || apply Z.mod_pos_bound; lia). done.
Qed.

Section Once.
Context {S : Type} (view : S -> once_flag) (upd : S -> once_flag -> S) (func : M S Z).
Hypothesis Hlens : forall s x, view (upd s x) = x.

Lemma run_once_skips s : flag (view s) <> 0 -> run_once view upd func s = Ok 0 s.
Proof using. intros Hf. unfold run_once. rewrite bind_gets. by rewrite (proj2 (Z.eqb_neq _ _) Hf). Qed.

(** The flag while the function runs, and after it. *)
Definition once_held (o : Z) : once_flag := {| flag := 0; lock := {| owner := o; next := (o + 1) mod 65536 |} |}.
Definition once_left (o r : Z) : once_flag :=
  {| flag := bool_Z (r =? 0); lock := {| owner := (o + 1) mod 65536; next := (o + 1) mod 65536 |} |}.

Lemma run_once_first s o r s2 :
  0 <= o < 65536 -> view s = {| flag := 0; lock := {| owner := o; next := o |} |} ->
  func (upd s (once_held o)) = Ok r s2 -> view s2 = once_held o ->
  run_once view upd func s =
    Ok r (upd (if r =? 0 then upd s2 {| flag := 1; lock := lock (once_held o) |} else s2) (once_left o r)).
Proof using Hlens.
  intros Ho Hs Hfunc Hv. unfold run_once. rewrite bind_gets, Hs. cbn [flag Z.eqb].
  assert (Hn : 0 <= (o + 1) mod 65536 < 65536) by (apply Z.mod_pos_bound; lia).
  assert (E1 : on_lock view upd spin_lock s = Ok tt (upd s (once_held o))).
  { unfold on_lock, zoom. rewrite Hs. cbn [lock]. rewrite spin_lock_free by done. done. }
  mstep E1. rewrite bind_gets, Hlens. cbn [flag once_held Z.eqb]. rewrite bind_assoc. mstep Hfunc.
  assert (Hun : forall t fl, view t = {| flag := fl; lock := lock (once_held o) |} ->
            on_lock view upd spin_unlock t = Ok tt (upd t {| flag := fl; lock := {| owner := (o + 1) mod 65536; next := (o + 1) mod 65536 |} |})).
  { intros t fl Ht. unfold on_lock, zoom. rewrite Ht. cbn [lock once_held].
    rewrite spin_unlock_held by done. done. }
  rewrite bind_assoc. unfold once_left. destruct (Z.eqb_spec r 0) as [->|Hr]; cbn [when bool_Z].
  - rewrite bind_modify, bind_ret, Hv.
    mstep (Hun (upd s2 {| flag := 1; lock := lock (once_held o) |}) 1 (Hlens _ _)). done.
  - rewrite !bind_ret. mstep (Hun s2 0 Hv). done.
Qed.
End Once.
