(* ===== verification/SpinlockTheorems.v ===== *)
(** The properties of the spin lock and of run_once, each with a concrete instance. *)
From Stdlib Require Import ZArith Lia.
From stdpp Require Import base list fin_maps relations.
From S2P Require Import Prelude Spinlock SpinlockProof.

Open Scope Z_scope.

(** The lock word of [k] CPUs that hold or wait, the lock having been released [o] times. *)
Lemma sim_lock_of ncpu m a o : sim ncpu m a o ->
  lock_of (mem m) = {| owner := o; next := (o + Z.of_nat (length (queue a))) mod 65536 |}.
Proof.
  intros Hs. unfold lock_of, TICKET_SHIFT. pose proof (sim_o _ _ _ _ Hs).
  rewrite (sim_mem _ _ _ _ Hs), word_u16, word_high by done. f_equal. apply wrap_small.
  apply Z.mod_pos_bound. lia.
Qed.

(** arch_spin_is_contended compares in [int]: when [next] has wrapped and [owner] has not, it
    misses the waiters. *)
Lemma contended_wraps o k :
  0 <= o < 65536 -> 0 <= k < 65536 ->
  arch_spin_is_contended {| owner := o; next := (o + k) mod 65536 |} =
    (1 <? k) && (o + k <? 65536).
Proof.
  intros Ho Hk. unfold arch_spin_is_contended. cbn [owner next].
  destruct (Z.ltb_spec (o + k) 65536).
  - rewrite Z.mod_small by lia. rewrite andb_true_r. f_equal. lia.
  - rewrite andb_false_r. apply Z.ltb_ge.
    replace ((o + k) mod 65536) with (o + k - 65536); [lia|].
    rewrite <- (Z.mod_small (o + k - 65536) 65536) by lia.
    rewrite <- (Z.mod_add (o + k - 65536) 1) by lia. f_equal. lia.
Qed.

(** A run of two CPUs: CPU 0 holds the lock and CPU 1 waits for it. *)
Definition demo_run : machine :=
  goto_st 1 (after_ticket 0x10000) (take_ticket 0x10000)
   (goto_ex 1 (LockSt 0x10000) (goto 1 LockLd
     (goto_st 0 (after_ticket 0) (take_ticket 0) (goto_ex 0 (LockSt 0) (goto 0 LockLd initial))))).

(** CPU 0 asks and enters, then CPU 1 asks. *)
Lemma demo_run_traced : traced 2 [Asked 0; Entered 0; Asked 1] demo_run.
Proof.
  set (m1 := goto 0 LockLd initial). set (m2 := goto_ex 0 (LockSt 0) m1).
  set (m3 := goto_st 0 (after_ticket 0) (take_ticket 0) m2). set (m4 := goto 1 LockLd m3).
  set (m5 := goto_ex 1 (LockSt 0x10000) m4).
  assert (T3 : traced 2 [Asked 0; Entered 0] m3).
  { apply (traced_step 2 [] m2 0 m3); [|by apply (step_lock_st 2 m2 0 0)|by apply at_cpu_ne].
    apply (traced_step 2 [] m1 0 m2); [|by apply (step_lock_ld 2 m1 0)|by apply at_cpu_ne].
    apply (traced_step 2 [] initial 0 m1); [constructor|by apply (step_lock 2 initial 0)|by apply at_cpu_ne]. }
  apply (traced_step 2 [Asked 0; Entered 0] m5 1 demo_run); [|by apply (step_lock_st 2 m5 1 0x10000)|by apply at_cpu_ne].
  apply (traced_step 2 [Asked 0; Entered 0] m4 1 m5); [|by apply (step_lock_ld 2 m4 1)|by apply at_cpu_ne].
  by apply (traced_step 2 [Asked 0; Entered 0] m3 1 m4); [exact T3|apply (step_lock 2 m3 1)|apply at_cpu_ne].
Qed.

Lemma traced_reachable ncpu l m : traced ncpu l m -> rtc (step ncpu) initial m.
Proof. induction 1 as [|l m c m' _ IH Hs _]; [constructor|]. by eapply rtc_r. Qed.

Lemma demo_run_reachable : rtc (step 2) initial demo_run.
Proof. exact (traced_reachable _ _ _ demo_run_traced). Qed.

(** * Properties *)

(** C7: the ticket lock is first-in first-out. In every run of up to 65535 CPUs, one
    instruction at a time and with store-exclusives that fail at will, what happens (a CPU asks
    by the store that takes its ticket, enters, and releases) is a run of a lock with a queue:
    asking joins at the back, only the front enters, only the front leaves, and the queue is
    exactly the CPUs that hold a ticket, with the holder in front. So CPUs enter in the order in
    which they asked, each release being by the CPU that entered last: those that have entered
    are those that have left and then the holder, and those that have asked are those that have
    left and then the queue. *)
Theorem ticket_lock_fifo ncpu l m :
  ncpu < 65536 -> traced ncpu l m ->
  exists a, fifo_run fifo_empty l a /\ NoDup (queue a) /\
    (forall c, holds (pcs m c) = true <-> held a = true /\ head (queue a) = Some c) /\
    (forall c, c ∈ queue a <-> holds (pcs m c) = true \/ waits (pcs m c)) /\
    asked l = released l ++ queue a /\
    entered l = released l ++ (if held a then take 1 (queue a) else []) /\
    entered l `prefix_of` asked l.
Proof.
  intros Hn Hm. destruct (sim_traced ncpu l m Hn Hm) as (a & o & Hr & Hs). destruct (fifo_order l a Hr) as [Ha He].
  exists a. split; [done|]. split; [by eapply sim_nodup|]. split; [by eapply sim_held|]. split; [by eapply sim_queue|].
  split; [done|]. split; [done|]. rewrite Ha, He. apply prefix_app.
  destruct (held a); [|apply prefix_nil]. destruct (queue a) as [|c q]; [done|]. by exists q.
Qed.

Lemma ticket_lock_fifo_witness :
  exists a, fifo_run fifo_empty [Asked 0; Entered 0; Asked 1] a /\ NoDup (queue a) /\
    (forall c, holds (pcs demo_run c) = true <-> held a = true /\ head (queue a) = Some c) /\
    (forall c, c ∈ queue a <-> holds (pcs demo_run c) = true \/ waits (pcs demo_run c)) /\
    [0; 1] = [] ++ queue a /\ [0] = [] ++ (if held a then take 1 (queue a) else []) /\ [0] `prefix_of` [0; 1].
Proof. apply (ticket_lock_fifo 2 [Asked 0; Entered 0; Asked 1] demo_run); [lia|exact demo_run_traced]. Defined.

(** Mutual exclusion: at most one CPU is between its acquire and its release, whether it
    came through arch_spin_lock or arch_spin_trylock, also when the 16-bit tickets wrap. *)
Theorem spinlock_mutual_exclusion ncpu m c d :
  ncpu < 65536 -> rtc (step ncpu) initial m ->
  holds (pcs m c) = true -> holds (pcs m d) = true -> c = d.
Proof.
  intros Hn Hm Hc Hd.
  destruct (sim_steps ncpu initial m fifo_empty 0 Hn Hm (sim_initial ncpu)) as (a & o & Hs).
  apply (sim_held _ _ _ _ Hs) in Hc as [_ Hc]. apply (sim_held _ _ _ _ Hs) in Hd as [_ Hd].
  congruence.
Qed.

Lemma spinlock_mutual_exclusion_witness : holds (pcs demo_run 0) = true /\ 0 = 0.
Proof.
  split; [reflexivity|].
  apply (spinlock_mutual_exclusion 2 demo_run 0 0); [lia|exact demo_run_reachable|reflexivity..].
Defined.

(** C31: the lock cannot get stuck: whenever a CPU waits and none holds the lock, some
    waiting CPU enters at its next poll; and the lock word is truthful: spin_is_locked says
    whether any CPU holds the lock or a ticket. *)
Theorem spinlock_progress ncpu m :
  ncpu < 65536 -> rtc (step ncpu) initial m ->
  ((exists c, waits (pcs m c)) -> (forall c, holds (pcs m c) = false) ->
   exists d w0, pcs m d = LockWait w0 /\ step ncpu m (goto_ex d Critical m)) /\
  (arch_spin_is_locked (lock_of (mem m)) = true <->
   exists c, holds (pcs m c) = true \/ waits (pcs m c)).
Proof.
  intros Hn Hm.
  destruct (sim_steps ncpu initial m fifo_empty 0 Hn Hm (sim_initial ncpu)) as (a & o & Hs).
  split.
  - intros [c Hc] Hno. assert (Hq : c ∈ queue a) by (apply (sim_queue _ _ _ _ Hs); by right).
    destruct (queue a) as [|d q] eqn:Hqa; [by apply not_elem_of_nil in Hq|].
    destruct (proj1 (sim_queue _ _ _ _ Hs d)) as [Hd|[w0 Hd]]; [rewrite Hqa; set_solver|by rewrite Hno in Hd|].
    exists d, w0. split; [done|].
    pose proof (step_wait ncpu m d w0 Hd) as Hstep.
    rewrite (queue_head_waits ncpu Hn m a o d w0 0 Hs Hd) in Hstep by (by rewrite Hqa). exact Hstep.
  - rewrite (sim_lock_of _ _ _ _ Hs). unfold arch_spin_is_locked, arch_spin_value_unlocked. cbn [owner next].
    pose proof (sim_o _ _ _ _ Hs) as Ho. pose proof (sim_length _ _ _ _ Hs) as Hl.
    rewrite negb_true_iff, Z.eqb_neq. split.
    + intros Hne. destruct (queue a) as [|c q] eqn:Hq.
      * destruct Hne. cbn. by rewrite Z.add_0_r, Z.mod_small.
      * exists c. apply (sim_queue _ _ _ _ Hs). rewrite Hq. set_solver.
    + intros [c Hc%(sim_queue _ _ _ _ Hs)] E. symmetry in E. apply ticket_eq in E; [|lia|lia].
      destruct (queue a); [by apply not_elem_of_nil in Hc|done].
Qed.

Lemma spinlock_progress_witness :
  ((exists c, waits (pcs demo_run c)) -> (forall c, holds (pcs demo_run c) = false) ->
   exists d w0, pcs demo_run d = LockWait w0 /\ step 2 demo_run (goto_ex d Critical demo_run)) /\
  (arch_spin_is_locked (lock_of (mem demo_run)) = true <->
   exists c, holds (pcs demo_run c) = true \/ waits (pcs demo_run c)).
Proof. apply (spinlock_progress 2 demo_run); [lia|exact demo_run_reachable]. Defined.

(** Run_once runs its function only while the flag is clear, holding the lock, sets the
    flag exactly when the function returns 0, and releases the lock either way: after a
    success every later call returns 0 without running the function, after a failure the
    next call tries again. *)
Theorem run_once_spec {S} (view : S -> once_flag) (upd : S -> once_flag -> S) (func : M S Z) s o r s2 :
  (forall s x, view (upd s x) = x) ->
  0 <= o < 65536 -> lock (view s) = {| owner := o; next := o |} ->
  (flag (view s) <> 0 -> run_once view upd func s = Ok 0 s) /\
  (flag (view s) = 0 ->
   let held := {| flag := 0; lock := {| owner := o; next := (o + 1) mod 65536 |} |} in
   func (upd s held) = Ok r s2 -> view s2 = held ->
   exists s3, run_once view upd func s = Ok r s3 /\
     view s3 = {| flag := bool_Z (r =? 0);
                  lock := {| owner := (o + 1) mod 65536; next := (o + 1) mod 65536 |} |} /\
     (s3 = upd s2 (view s3) \/ s3 = upd (upd s2 {| flag := 1; lock := lock (view s2) |}) (view s3))).
Proof.
  intros Hlens Ho Hl. split; [by apply run_once_skips|]. intros Hf held Hfunc Hv.
  eexists. split.
  { apply (run_once_first view upd func Hlens s o r s2); [done| |done|done].
    destruct (view s) as [fl lk]. cbn in *. by subst. }
  rewrite Hlens. split; [done|].
  destruct (r =? 0); [right; by rewrite Hv|by left].
Qed.

Lemma run_once_spec_witness :
  let s := (ONCE_INITIALIZER, 0) in
  (flag (fst s) <> 0 -> run_once fst (fun s x => (x, snd s)) (modify (fun s => (fst s, snd s + 1)) ;; mret 0) s = Ok 0 s) /\
  (flag (fst s) = 0 ->
   let held := {| flag := 0; lock := {| owner := 0; next := (0 + 1) mod 65536 |} |} in
   (modify (fun s => (fst s, snd s + 1)) ;; mret 0) (held, snd s) = Ok 0 (held, 1) -> fst (held, 1) = held ->
   exists s3, run_once fst (fun s x => (x, snd s)) (modify (fun s => (fst s, snd s + 1)) ;; mret 0) s = Ok 0 s3 /\
     fst s3 = {| flag := bool_Z (0 =? 0);
                 lock := {| owner := (0 + 1) mod 65536; next := (0 + 1) mod 65536 |} |} /\
     (s3 = (fst s3, snd (held, 1)) \/ s3 = (fst s3, snd (held, 1)))).
Proof.
  apply (run_once_spec fst (fun s x => (x, snd s)) (modify (fun s => (fst s, snd s + 1)) ;; mret 0)
           (ONCE_INITIALIZER, 0) 0 0 ({| flag := 0; lock := {| owner := 0; next := 1 |} |}, 1));
    [done|lia|reflexivity].
Defined.
