(* ===== verification/Once.v ===== *)
(** run_once (include/utils/utils.h) as several CPUs run it at once, over memory that becomes
    visible out of order.

    The lock is the machine of Spinlock.v, one instruction at a time. The flag, and a word of
    data that stands for what the function writes, are ordinary memory: a CPU's store enters
    its store buffer, the CPU reads its own pending stores first, and the stores reach memory
    one by one. Barriers only order. [smp_wmb] puts a fence into the buffer, which no later store
    overtakes, and the CPU goes on; the releasing store of the unlock ([stlrh]) becomes visible
    only when everything before it is, and the CPU goes on, too: it may return, and call
    run_once again, while its stores and the release are still pending. Only the load-acquire of
    its own next spin_lock waits for that release, as the architecture has it. Without a fence
    between them, stores keep their order only when they are to the same location;
    [once_step] has a second mode in which all of them do, to tell what the code owes to that.
    Loads are done in program order, so that [smp_rmb] has nothing to do. *)
From Stdlib Require Import ZArith.
From stdpp Require Import base list.
From S2P Require Import Prelude Spinlock.

Open Scope Z_scope.

(** * Memory with store buffers *)

(** [Flag] is [once->flag.counter]; [Data] is a word that the function initialises. *)
Inductive loc := Flag | Data.

#[export] Instance loc_eq_dec : EqDecision loc.
Proof. solve_decision. Defined.

(** What a store buffer holds, oldest first. *)
Inductive pending_op := Store (l : loc) (v : Z) | Fence.

(** The last pending store to a location. *)
Fixpoint pending (l : loc) (b : list pending_op) : option Z :=
  match b with
  | [] => None
  | Fence :: b' => pending l b'
  | Store l' v :: b' =>
      match pending l b' with
      | Some w => Some w
      | None => if decide (l' = l) then Some v else None
      end
  end.

(** The store after [b] may reach memory before [b] does. *)
Definition may_overtake (ordered : bool) (l : loc) (b : list pending_op) : Prop :=
  if ordered then b = [] else ((Fence ∉ b) /\ pending l b = None).

Definition write_cell (cells : loc -> Z) (l : loc) (v : Z) : loc -> Z :=
  fun l' => if decide (l' = l) then v else cells l'.

(** * Where a CPU is in run_once *)

Inductive once_pc :=
  | Idle                              (** not in run_once *)
  | Reading                           (** smp_rmb done, before the first atomic_read *)
  | Locking                           (** in spin_lock *)
  | Rereading                         (** before the second atomic_read *)
  | Running                           (** in func *)
  | Setting                           (** func returned 0, before atomic_set *)
  | Fencing                           (** before smp_wmb *)
  | Unlocking (ret : Z)               (** in spin_unlock *)
  | Returned (locked : bool) (ret : Z).  (** by which way, and with which value *)

(** [published] is a ghost: the value of [Data] that the function had written when it
    returned 0. *)
Record once_state := {
  lk : machine;
  at_pc : Z -> once_pc;
  buf : Z -> list pending_op;
  cells : loc -> Z;
  published : option Z }.

(** What a CPU reads. *)
Definition look (s : once_state) (c : Z) (l : loc) : Z := default (cells s l) (pending l (buf s c)).

(** * Steps *)

Definition turn (c : Z) (p : once_pc) (s : once_state) : once_state :=
  {| lk := lk s; at_pc := at_cpu (at_pc s) c p; buf := buf s; cells := cells s; published := published s |}.

Definition set_lk (m : machine) (s : once_state) : once_state :=
  {| lk := m; at_pc := at_pc s; buf := buf s; cells := cells s; published := published s |}.

Definition set_buf (c : Z) (b : list pending_op) (s : once_state) : once_state :=
  {| lk := lk s; at_pc := at_pc s; buf := at_cpu (buf s) c b; cells := cells s; published := published s |}.

Definition buffer (c : Z) (l : loc) (v : Z) (s : once_state) : once_state := set_buf c (buf s c ++ [Store l v]) s.

(** [dmb ishst]: later stores become visible after the earlier ones. *)
Definition smp_wmb (c : Z) (s : once_state) : once_state := set_buf c (buf s c ++ [Fence]) s.

(** A pending store, with what is left of the buffer, reaches memory. *)
Definition commit (c : Z) (b : list pending_op) (l : loc) (v : Z) (s : once_state) : once_state :=
  {| lk := lk s; at_pc := at_pc s; buf := at_cpu (buf s) c b; cells := write_cell (cells s) l v;
     published := published s |}.

Definition publish (v : Z) (s : once_state) : once_state :=
  {| lk := lk s; at_pc := at_pc s; buf := buf s; cells := cells s; published := Some v |}.

(** An instruction of the lock by CPU [c]. *)
Definition lock_moves (ncpu c : Z) (m m' : machine) : Prop :=
  Spinlock.step ncpu m m' /\ forall d, d <> c -> pcs m' d = pcs m d.

(** Inside spin_lock, and not yet through it. *)
Definition asks (p : pc) : bool :=
  match p with LockLd | LockSt _ | LockWait _ => true | _ => false end.

(** The releasing store has been issued and is not yet visible. *)
Definition releasing (p : pc) : bool := match p with UnlockSt _ => true | _ => false end.

(** [if (atomic_read(&once->flag) == 0)], before the lock and under it. *)
Definition first_test (v : Z) : once_pc := if v =? 0 then Locking else Returned false 0.
Definition second_test (v : Z) : once_pc := if v =? 0 then Running else Unlocking 0.

(** [if (ret == 0)], after the function: on 0 the CPU goes on to set the flag. *)
Definition after_func (c ret : Z) (s : once_state) : once_state :=
  if ret =? 0 then turn c Setting (publish (look s c Data) s) else turn c (Unlocking ret) s.

(** [ordered] makes every buffer first-in first-out, as on a machine with total store order; the
    code's own machine is the one without. *)
Inductive once_step (ordered : bool) (ncpu : Z) (s : once_state) : once_state -> Prop :=
  | once_call c : at_pc s c = Idle -> once_step ordered ncpu s (turn c Reading s)
  | once_read c : at_pc s c = Reading -> once_step ordered ncpu s (turn c (first_test (look s c Flag)) s)
  | once_lock c m' : at_pc s c = Locking -> lock_moves ncpu c (lk s) m' ->
      (asks (pcs m' c) || holds (pcs m' c)) = true -> holds (pcs (lk s) c) = false ->
      once_step ordered ncpu s (set_lk m' s)
  | once_locked c : at_pc s c = Locking -> pcs (lk s) c = Critical -> once_step ordered ncpu s (turn c Rereading s)
  | once_reread c : at_pc s c = Rereading -> once_step ordered ncpu s (turn c (second_test (look s c Flag)) s)
  | once_write c v : at_pc s c = Running -> once_step ordered ncpu s (buffer c Data v s)
  | once_func c ret : at_pc s c = Running -> once_step ordered ncpu s (after_func c ret s)
  | once_set c : at_pc s c = Setting -> once_step ordered ncpu s (turn c Fencing (buffer c Flag 1 s))
  | once_fence c : at_pc s c = Fencing -> once_step ordered ncpu s (turn c (Unlocking 0) (smp_wmb c s))
  | once_unlock c r m' : at_pc s c = Unlocking r -> lock_moves ncpu c (lk s) m' ->
      holds (pcs (lk s) c) = true -> holds (pcs m' c) = true -> once_step ordered ncpu s (set_lk m' s)
  | once_return c r : at_pc s c = Unlocking r -> releasing (pcs (lk s) c) = true ->
      once_step ordered ncpu s (turn c (Returned true r) s)
  | once_again c b r : at_pc s c = Returned b r -> once_step ordered ncpu s (turn c Idle s)
  | once_flush c b1 l v b2 : buf s c = b1 ++ Store l v :: b2 -> may_overtake ordered l b1 ->
      once_step ordered ncpu s (commit c (b1 ++ b2) l v s)
  | once_fenced c b : buf s c = Fence :: b -> once_step ordered ncpu s (set_buf c b s)
  | once_release c m' : (forall r, at_pc s c <> Unlocking r) -> releasing (pcs (lk s) c) = true -> buf s c = [] ->
      lock_moves ncpu c (lk s) m' -> pcs m' c = Outside -> once_step ordered ncpu s (set_lk m' s).

(** ONCE_INITIALIZER, and the data not yet initialised. *)
Definition once_initial : once_state :=
  {| lk := Spinlock.initial; at_pc := fun _ => Idle; buf := fun _ => []; cells := fun _ => 0; published := None |}.
