(* ===== verification/OnceProof.v ===== *)
(** run_once under interference: the invariant of the machine of Once.v, in three phases
    (before the function has succeeded, while the CPU that ran it still holds the lock, and
    afterwards), and that every step preserves it. *)
From Stdlib Require Import ZArith Lia.
From stdpp Require Import base list relations.
From S2P Require Import Prelude Spinlock SpinlockProof Once.

Open Scope Z_scope.

(** * Store buffers *)

Lemma pending_app l b1 b2 :
  pending l (b1 ++ b2) = match pending l b2 with Some w => Some w | None => pending l b1 end.
Proof.
  induction b1 as [|[l' v|] b1 IH]; cbn; [by destruct (pending l b2)| |done].
  rewrite IH. by destruct (pending l b2).
Qed.

Lemma pending_store l b l' v :
  pending l (b ++ [Store l' v]) = if decide (l' = l) then Some v else pending l b.
Proof. rewrite pending_app. cbn. by case_decide. Qed.

Lemma pending_fence l b : pending l (b ++ [Fence]) = pending l b.
Proof. by rewrite pending_app. Qed.

(** Committing the first pending store to a location changes nothing for the CPU itself. *)
Lemma pending_commit l b1 l' v b2 cells :
  pending l' b1 = None ->
  default (write_cell cells l' v l) (pending l (b1 ++ b2)) = default (cells l) (pending l (b1 ++ Store l' v :: b2)).
Proof.
  intros H1. rewrite !pending_app. cbn. unfold write_cell.
  destruct (pending l b2); [done|]. destruct (decide (l' = l)) as [->|]; cbn.
  - by rewrite H1, decide_True.
  - rewrite decide_False by done. done.
Qed.

Lemma pending_elem l v b1 b2 : pending l (b1 ++ Store l v :: b2) <> None.
Proof. rewrite pending_app. cbn. destruct (pending l b2); [done|]. by rewrite decide_True. Qed.

Lemma pending_drop l b1 p b2 : pending l (b1 ++ p :: b2) = None -> pending l (b1 ++ b2) = None.
Proof. destruct p as [l' v|]; rewrite !pending_app; cbn; destruct (pending l b2); try done. by case_decide. Qed.

Definition only_fences (b : list pending_op) : Prop := Forall (fun p => p = Fence) b.

Lemma only_fences_pending l b : only_fences b -> pending l b = None.
Proof. induction 1 as [|p b -> _ IH]; done. Qed.

Lemma may_overtake_pending ordered l b : may_overtake ordered l b -> pending l b = None.
Proof. destruct ordered; [by intros ->|by intros [_ ?]]. Qed.

(** * The lock under run_once *)

(** The CPU holds the lock from [Rereading] until its release is visible, which may be long
    after it has returned. *)
Definition agrees (p : once_pc) (q : pc) : Prop :=
  match p with
  | Idle | Reading | Returned _ _ => q = Outside \/ releasing q = true
  | Locking => q = Outside \/ asks q = true \/ q = Critical \/ releasing q = true
  | Rereading | Running | Setting | Fencing => q = Critical
  | Unlocking _ => holds q = true
  end.

Record guarded (ncpu : Z) (s : once_state) : Prop := {
  guarded_lock : rtc (Spinlock.step ncpu) Spinlock.initial (lk s);
  guarded_agrees : forall c, agrees (at_pc s c) (pcs (lk s) c);
  guarded_buf : forall c, buf s c <> [] -> holds (pcs (lk s) c) = true }.

Lemma releasing_holds q : releasing q = true -> holds q = true.
Proof. by destruct q. Qed.

Lemma lock_exclusive ncpu m c d :
  ncpu < 65536 -> rtc (Spinlock.step ncpu) Spinlock.initial m ->
  holds (pcs m c) = true -> holds (pcs m d) = true -> c = d.
Proof.
  intros Hn Hm Hc Hd.
  destruct (sim_steps ncpu _ m fifo_empty 0 Hn Hm (sim_initial ncpu)) as (a & o & Hs).
  apply (sim_held _ _ _ _ Hs) in Hc as [_ Hc], Hd as [_ Hd]. congruence.
Qed.

(** A CPU that is past the lock, in run_once's terms, holds it. *)
Definition inside (p : once_pc) : bool :=
  match p with Rereading | Running | Setting | Fencing => true | _ => false end.

Lemma inside_holds ncpu s c : guarded ncpu s -> inside (at_pc s c) = true -> holds (pcs (lk s) c) = true.
Proof.
  intros Hg Hi. pose proof (guarded_agrees _ _ Hg c) as Ha. by destruct (at_pc s c); cbn in *; rewrite ?Ha.
Qed.

Lemma asks_moves ncpu m m' c :
  Spinlock.step ncpu m m' -> agrees Locking (pcs m c) ->
  (asks (pcs m' c) || holds (pcs m' c)) = true -> holds (pcs m c) = false -> agrees Locking (pcs m' c).
Proof.
  intros Hs Ha Hp Hh.
  destruct Hs as [d Hd E|d E|d w0 E Hm|d w0 E|d w0 E|d Hd E|d E|d w0 E Hm|d w0 E|d E|d E|d w1 E];
    cbn in *; unfold at_cpu, after_ticket in *; case_decide as D; try (exact Ha); subst d; rewrite E in *;
    cbn in *; try (destruct Ha as [|[|[|]]]; done); try done; try (by auto); repeat case_match; cbn in *; auto.
Qed.

(** * The three phases *)

(** Nothing has succeeded yet: the flag is clear everywhere and no call has returned 0. *)
Definition early (p : once_pc) : Prop :=
  match p with
  | Idle | Reading | Locking | Rereading | Running => True
  | Setting | Fencing => False
  | Unlocking r => r <> 0
  | Returned locked r => locked = true /\ r <> 0
  end.

Record before (s : once_state) : Prop := {
  before_published : published s = None;
  before_cells : cells s Flag = 0;
  before_pending : forall c, pending Flag (buf s c) = None;
  before_pc : forall c, early (at_pc s c) }.

(** CPU [c] ran the function with success and its release is not visible yet: it may have
    returned, and called again, since. *)
Definition closing (p : once_pc) : Prop :=
  match p with
  | Setting | Fencing | Idle | Reading => True
  | Unlocking r | Returned _ r => r = 0
  | _ => False
  end.
Definition aside (p : once_pc) : Prop :=
  match p with
  | Idle | Reading | Locking => True
  | Unlocking r => r <> 0
  | Returned locked r => if locked then r <> 0 else r = 0
  | _ => False
  end.

(** With ordered buffers, the flag is the last store of the CPU that publishes: while it is
    pending it is the newest, and once it is in memory only fences are pending. *)
Definition flag_last (c : Z) (s : once_state) : Prop :=
  (at_pc s c = Setting -> cells s Flag = 0 /\ pending Flag (buf s c) = None) /\
  (at_pc s c <> Setting ->
     (cells s Flag = 0 /\ exists b b', buf s c = b ++ Store Flag 1 :: b' /\ pending Flag b = None /\ only_fences b') \/
     only_fences (buf s c)).

Record publishing (ordered : bool) (c v : Z) (s : once_state) : Prop := {
  publishing_published : published s = Some v;
  publishing_holds : holds (pcs (lk s) c) = true;
  publishing_data : look s c Data = v;
  publishing_flag : at_pc s c <> Setting -> look s c Flag = 1;
  publishing_pc : closing (at_pc s c);
  publishing_others : forall d, d <> c -> aside (at_pc s d);
  publishing_order : ordered = true -> flag_last c s;
  publishing_fast : ordered = true -> forall d r, d <> c -> at_pc s d = Returned false r ->
    at_pc s c <> Setting /\ only_fences (buf s c) }.

(** The release has become visible, and everything is in memory. *)
Definition late (p : once_pc) : Prop :=
  match p with Running | Setting | Fencing => False | Returned false r => r = 0 | _ => True end.

Record settled (v : Z) (s : once_state) : Prop := {
  settled_published : published s = Some v;
  settled_data : cells s Data = v;
  settled_flag : cells s Flag = 1;
  settled_buf : forall c, buf s c = [];
  settled_pc : forall c, late (at_pc s c) }.

Definition phase (ordered : bool) (s : once_state) : Prop :=
  before s \/ (exists c v, publishing ordered c v s) \/ (exists v, settled v s).

(** Moving one CPU, in each phase. *)
Lemma before_turn c p s : before s -> early p -> before (turn c p s).
Proof. intros [H1 H2 H3 H4] Hp. split; cbn; try done. intros d. by on_cpu d c. Qed.

Lemma settled_turn v c p s : settled v s -> late p -> settled v (turn c p s).
Proof. intros [H1 H2 H3 H4 H5] Hp. split; cbn; try done. intros d. by on_cpu d c. Qed.

Section Turning.
Context (ordered : bool) (c v : Z) (s : once_state).
Hypothesis Hp : publishing ordered c v s.

(** Another CPU moves; it may return by the fast path only when nothing is pending. *)
Lemma publishing_turn_other d p :
  d <> c -> aside p ->
  (ordered = true -> forall r, p = Returned false r -> at_pc s c <> Setting /\ only_fences (buf s c)) ->
  publishing ordered c v (turn d p s).
Proof using Hp.
  intros Hd Ha Hfast. destruct Hp as [H1 H2 H3 H4 H5 H6 H7 H8].
  assert (Hc : at_cpu (at_pc s) d p c = at_pc s c) by (by apply at_cpu_ne).
  split; unfold flag_last in *; cbn; rewrite ?Hc; try done.
  - intros e He. on_cpu e d; auto.
  - intros Ho e r He. on_cpu e d; eauto.
Qed.

Lemma publishing_turn_self p :
  closing p -> at_pc s c <> Setting -> p <> Setting -> publishing ordered c v (turn c p s).
Proof using Hp.
  intros Ha Hs Hps. destruct Hp as [H1 H2 H3 H4 H5 H6 H7 H8].
  split; unfold flag_last in *; cbn; rewrite ?at_cpu_eq; try done; auto.
  - intros d Hd. rewrite at_cpu_ne by done. auto.
  - intros Ho. destruct (H7 Ho) as [_ H]. split; [by intros ?|auto].
  - intros Ho d r Hd. rewrite at_cpu_ne by done. intros E. by destruct (H8 Ho d r Hd E).
Qed.

Lemma publishing_machine m' : holds (pcs m' c) = true -> publishing ordered c v (set_lk m' s).
Proof using Hp. intros Hh. destruct Hp. by split. Qed.
End Turning.

(** A step of the lock by a CPU that keeps what it holds. *)
Lemma before_machine m' s : before s -> before (set_lk m' s).
Proof. intros [H1 H2 H3 H4]. by split. Qed.
Lemma settled_machine v m' s : settled v s -> settled v (set_lk m' s).
Proof. intros [H1 H2 H3 H4 H5]. by split. Qed.

(** * Every step keeps the lock discipline *)

Section Guarded.
Context (ordered : bool) (ncpu : Z).

Lemma guarded_turn c p s : guarded ncpu s -> agrees p (pcs (lk s) c) -> guarded ncpu (turn c p s).
Proof. intros [H1 H2 H3] Ha. split; cbn; [done| |done]. intros d. on_cpu d c; auto. Qed.

Lemma guarded_publish v s : guarded ncpu s -> guarded ncpu (publish v s).
Proof. intros [H1 H2 H3]. by split. Qed.

Lemma guarded_machine c m' s :
  guarded ncpu s -> lock_moves ncpu c (lk s) m' -> agrees (at_pc s c) (pcs m' c) ->
  (holds (pcs m' c) = false -> buf s c = []) -> guarded ncpu (set_lk m' s).
Proof.
  intros [H1 H2 H3] [Hs Ho] Ha Hb. split; cbn.
  - eapply rtc_r; [exact H1|exact Hs].
  - intros d. destruct (decide (d = c)) as [->|]; [done|]. rewrite Ho by done. auto.
  - intros d Hd. destruct (decide (d = c)) as [->|]; [|rewrite Ho by done; auto].
    destruct (holds (pcs m' c)) eqn:E; [done|]. by destruct Hd; apply Hb.
Qed.

Lemma guarded_set_buf c b s : guarded ncpu s -> holds (pcs (lk s) c) = true -> guarded ncpu (set_buf c b s).
Proof. intros [H1 H2 H3] Hh. split; cbn; try done. intros d. on_cpu d c; auto. Qed.

Lemma guarded_commit c b l v s : guarded ncpu s -> buf s c <> [] -> guarded ncpu (commit c b l v s).
Proof. intros [H1 H2 H3] Hb. split; cbn; try done. intros d. on_cpu d c; auto. Qed.

Lemma guarded_empty s c : guarded ncpu s -> holds (pcs (lk s) c) = false -> buf s c = [].
Proof.
  intros Hg Hw. destruct (buf s c) eqn:E; [done|].
  pose proof (guarded_buf _ _ Hg c) as Hh. rewrite E, Hw in Hh. by specialize (Hh ltac:(done)).
Qed.

Lemma guarded_step s s' : guarded ncpu s -> once_step ordered ncpu s s' -> guarded ncpu s'.
Proof.
  intros Hg Hs. destruct Hs as [c E|c E|c m' E Hm Ha Hh|c E Hp|c E|c v E|c r E|c E|c E|c r m' E Hm Hh Hh'|c r E Hp|c b r E
      |c b1 l v b2 E Hb|c b E|c m' Hr Hre Hb Hm Ho];
    try (pose proof (guarded_agrees _ _ Hg c) as Hag; rewrite E in Hag; cbn in Hag).
  - by apply guarded_turn.
  - apply guarded_turn; [done|]. unfold first_test. case_match; cbn; tauto.
  - apply (guarded_machine c); [done|done| |intros _; by apply guarded_empty]. rewrite E. destruct Hm as [Hm _]. by eapply asks_moves.
  - by apply guarded_turn.
  - apply guarded_turn; [done|]. unfold second_test. case_match; cbn; [done|]. by rewrite Hag.
  - apply guarded_set_buf; by rewrite ?Hag.
  - unfold after_func. destruct (r =? 0).
    + apply guarded_turn; [by apply guarded_publish|done].
    + apply guarded_turn; [done|]. cbn. by rewrite Hag.
  - apply guarded_turn; [apply guarded_set_buf; by rewrite ?Hag|done].
  - apply guarded_turn; [apply guarded_set_buf; by rewrite ?Hag|]. cbn. by rewrite Hag.
  - apply (guarded_machine c); [done|done| |by rewrite Hh']. by rewrite E.
  - apply guarded_turn; [done|]. by right.
  - by apply guarded_turn.
  - apply guarded_commit; [done|]. rewrite E. by destruct b1.
  - apply guarded_set_buf; [done|]. apply (guarded_buf _ _ Hg). by rewrite E.
  - apply (guarded_machine c); [done|done| |done]. rewrite Ho. pose proof (guarded_agrees _ _ Hg c) as Hag.
    destruct (at_pc s c); cbn in *; try (by left); try (by rewrite Hag in Hre). by destruct (Hr ret).
Qed.
End Guarded.

(** * The phases follow one another *)

Lemma early_look s c : before s -> look s c Flag = 0.
Proof. intros [_ H2 H3 _]. unfold look. by rewrite H3. Qed.

Section Phases.
Context (ordered : bool) (ncpu : Z).
Hypothesis Hncpu : ncpu < 65536.

(** While CPU [c] is past the lock no other CPU is. *)
Lemma outside_others s c d :
  guarded ncpu s -> holds (pcs (lk s) c) = true -> d <> c -> inside (at_pc s d) = false.
Proof using Hncpu.
  intros Hg Hc Hd. destruct (inside (at_pc s d)) eqn:E; [|done]. destruct Hd.
  by eapply lock_exclusive; [exact Hncpu|apply Hg|eapply inside_holds|].
Qed.

Lemma before_func s c r :
  guarded ncpu s -> before s -> at_pc s c = Running -> phase ordered (after_func c r s).
Proof using Hncpu.
  intros Hg Hb E. unfold after_func. destruct (Z.eqb_spec r 0) as [->|Hr].
  2:{ left. by apply before_turn. }
  assert (Hh : holds (pcs (lk s) c) = true) by (by eapply inside_holds; [|rewrite E]).
  right. left. exists c, (look s c Data). split; unfold flag_last; cbn; rewrite ?at_cpu_eq; try done.
  - intros d Hd. rewrite at_cpu_ne by done.
    pose proof (outside_others s c d Hg Hh Hd) as Ho. pose proof (before_pc _ Hb d) as He.
    destruct (at_pc s d) as [| | | | | | | |[] ?]; cbn in *; naive_solver.
  - intros _. split; [|done]. intros _. split; apply Hb.
  - intros _ d r' Hd. rewrite at_cpu_ne by done. intros Ed.
    pose proof (before_pc _ Hb d) as He. rewrite Ed in He. by destruct He.
Qed.

Lemma before_step s s' : guarded ncpu s -> before s -> once_step ordered ncpu s s' -> phase ordered s'.
Proof using Hncpu.
  intros Hg Hb Hs. destruct Hs as [c E|c E|c m' E Hm Ha Hh|c E Hp|c E|c v E|c r E|c E|c E|c r m' E Hm Hh Hh'|c r E Hp|c b r E
      |c b1 l v b2 E Hbf|c b E|c m' Hr Hre Hbf Hm Ho];
    try (pose proof (before_pc _ Hb c) as He; rewrite E in He; cbn in He; try done).
  all: try (left; apply before_machine; exact Hb).
  all: try (left; apply before_turn; [exact Hb|rewrite ?(early_look s c Hb); by cbn]).
  - left. destruct Hb as [H1 H2 H3 H4]. split; cbn; try done.
    intros d. on_cpu d c; [|done]. by rewrite pending_store, H3.
  - by apply before_func.
  - left. destruct Hb as [H1 H2 H3 H4]. pose proof (H3 c) as Hc. rewrite E in Hc.
    split; cbn; try done.
    + unfold write_cell. case_decide as D; [|done]. subst l. by apply pending_elem in Hc.
    + intros d. on_cpu d c; [|done]. by eapply pending_drop.
  - left. destruct Hb as [H1 H2 H3 H4]. pose proof (H3 c) as Hc. rewrite E in Hc.
    split; cbn; try done. intros d. by on_cpu d c.
Qed.

(** The release becomes visible: everything the CPU wrote is in memory by then. *)
Lemma publishing_release s m' c v :
  guarded ncpu s -> publishing ordered c v s -> at_pc s c <> Setting -> at_pc s c <> Fencing -> buf s c = [] ->
  settled v (set_lk m' s).
Proof using Hncpu.
  intros Hg [H1 H2 H3 H4 H5 H6 _ _] E E' Hb. unfold look in *. rewrite Hb in *. cbn in *.
  split; cbn; auto.
  - intros d. destruct (decide (d = c)) as [->|Hd]; [done|].
    destruct (buf s d) eqn:Ed; [done|]. destruct Hd.
    eapply lock_exclusive; [exact Hncpu|apply Hg|apply (guarded_buf _ _ Hg d); by rewrite Ed|done].
  - intros d. destruct (decide (d = c)) as [->|Hd]; [by destruct (at_pc s c) as [| | | | | | | |[] ?]|].
    specialize (H6 d Hd). by destruct (at_pc s d) as [| | | | | | | |[] ?].
Qed.

Lemma flag_last_commit s c b1 l w b2 :
  flag_last c s -> buf s c = b1 ++ Store l w :: b2 -> b1 = [] -> flag_last c (commit c (b1 ++ b2) l w s).
Proof using.
  intros [Hs Hn] E ->. cbn in E. unfold flag_last. cbn. rewrite at_cpu_eq. unfold write_cell. split; intros Hpc.
  - destruct (Hs Hpc) as [H1 H2]. rewrite E in H2. split; [|by apply (pending_drop Flag [] (Store l w))].
    case_decide; [subst l; by apply (pending_elem Flag w []) in H2|done].
  - destruct (Hn Hpc) as [(H1 & b & b' & Hb & H2 & H3)|Hb]; rewrite E in Hb.
    + destruct b as [|p b]; cbn in Hb; [injection Hb as -> -> ->; by right|].
      left. injection Hb as <- ->. split; [|exists b, b'; split; [done|split; [by apply (pending_drop Flag [] (Store l w))|done]]].
      case_decide; [subst l; by apply (pending_elem Flag w []) in H2|done].
    + by inversion Hb.
Qed.

(** A step of the publishing CPU that changes nothing but its buffer, and not what it reads. *)
Lemma publishing_buffer s c v b :
  publishing ordered c v s -> (forall l, pending l b = pending l (buf s c)) ->
  (ordered = true -> flag_last c s -> flag_last c (set_buf c b s)) -> (only_fences (buf s c) -> only_fences b) ->
  publishing ordered c v (set_buf c b s).
Proof using.
  intros [H1 H2 H3 H4 H5 H6 H7 H8] Hl Hf Ho. unfold look in *.
  split; unfold look; cbn; rewrite ?at_cpu_eq, ?Hl; auto.
  intros Hord d r Hd Ed. destruct (H8 Hord d r Hd Ed). auto.
Qed.

Lemma flag_last_fenced s c b : buf s c = Fence :: b -> flag_last c s -> flag_last c (set_buf c b s).
Proof using.
  intros E [Hs Hn]. unfold flag_last. cbn. rewrite at_cpu_eq. rewrite E in *. split; intros Hpc.
  - by apply Hs.
  - destruct (Hn Hpc) as [(H1 & b1 & b2 & Hb & H2 & H3)|Hb].
    + left. split; [done|]. destruct b1 as [|p b1]; [done|]. injection Hb as <- ->. exists b1, b2. done.
    + right. by inversion Hb.
Qed.

Lemma publishing_fenced s c v b : publishing ordered c v s -> buf s c = Fence :: b -> publishing ordered c v (set_buf c b s).
Proof using.
  intros Hp E. apply publishing_buffer; [done| | |].
  - intros l. by rewrite E.
  - intros _. by apply flag_last_fenced.
  - rewrite E. intros Hf. by inversion Hf.
Qed.

Lemma flag_last_fence s c : flag_last c s -> flag_last c (smp_wmb c s).
Proof using.
  intros [Hs Hn]. unfold flag_last. cbn. rewrite at_cpu_eq, pending_fence. split; [done|].
  intros Hpc. destruct (Hn Hpc) as [(H1 & b1 & b2 & Hb & H2 & H3)|Hb].
  - left. split; [done|]. exists b1, (b2 ++ [Fence]). rewrite Hb, <- app_assoc. split; [done|]. split; [done|].
    apply Forall_app. split; [done|]. by constructor.
  - right. apply Forall_app. split; [done|]. by constructor.
Qed.

Lemma publishing_fence s c v : publishing ordered c v s -> publishing ordered c v (smp_wmb c s).
Proof using.
  intros Hp. apply publishing_buffer; [done| | |].
  - intros l. apply pending_fence.
  - intros _. apply flag_last_fence.
  - intros Hf. apply Forall_app. split; [done|]. by constructor.
Qed.

Lemma publishing_commit s c v b1 l w b2 :
  publishing ordered c v s -> buf s c = b1 ++ Store l w :: b2 -> may_overtake ordered l b1 ->
  publishing ordered c v (commit c (b1 ++ b2) l w s).
Proof using.
  intros [H1 H2 H3 H4 H5 H6 H7 H8] E Hb.
  assert (Hl : forall l', look (commit c (b1 ++ b2) l w s) c l' = look s c l').
  { intros l'. unfold look. cbn. rewrite at_cpu_eq, E. apply pending_commit. by eapply may_overtake_pending. }
  split; try done; rewrite ?Hl; auto.
  - intros Ho. apply flag_last_commit; [by auto|done|]. by rewrite Ho in Hb.
  - intros Ho d r Hd Ed. destruct (H8 Ho d r Hd Ed) as [_ Hc]. rewrite E in Hc. apply Forall_app in Hc as [_ Hc]. by inversion Hc.
Qed.

Lemma publishing_set s c v :
  publishing ordered c v s -> at_pc s c = Setting -> publishing ordered c v (turn c Fencing (buffer c Flag 1 s)).
Proof using.
  intros [H1 H2 H3 H4 H5 H6 H7 H8] E. unfold look in *.
  split; unfold look, flag_last; cbn; rewrite ?at_cpu_eq, ?pending_store; cbn; try done.
  - intros d Hd. rewrite at_cpu_ne by done. auto.
  - intros Ho. split; [done|]. intros _. left. destruct (H7 Ho) as [Hs _]. destruct (Hs E) as [H9 H10].
    split; [done|]. exists (buf s c), []. split; [done|]. split; [done|constructor].
  - intros Ho d r Hd. rewrite at_cpu_ne by done. intros Ed. by destruct (H8 Ho d r Hd Ed).
Qed.

(** A CPU that finds the flag set by its first test, with ordered buffers, finds nothing
    pending. *)
Lemma publishing_read s c v d r :
  guarded ncpu s -> publishing ordered c v s -> d <> c -> ordered = true ->
  first_test (look s d Flag) = Returned false r -> at_pc s c <> Setting /\ only_fences (buf s c).
Proof using Hncpu.
  intros Hg Hp Hd Ho Hf. destruct (publishing_order _ _ _ _ Hp Ho) as [Hs Hn].
  assert (Hh : holds (pcs (lk s) d) = false).
  { destruct (holds (pcs (lk s) d)) eqn:Eh; [|done]. destruct Hd.
    eapply lock_exclusive; [exact Hncpu|apply Hg|done|by eapply publishing_holds]. }
  unfold first_test, look in Hf. rewrite (guarded_empty _ _ d Hg Hh) in Hf. cbn in Hf.
  destruct (Z.eqb_spec (cells s Flag) 0) as [|Hne]; [done|]. split.
  - intros Ec. by destruct (Hs Ec).
  - destruct Hn as [[? _]|]; [|done..]. intros Ec. by destruct (Hs Ec).
Qed.

Lemma publishing_step s s' c v :
  guarded ncpu s -> publishing ordered c v s -> once_step ordered ncpu s s' -> phase ordered s'.
Proof using Hncpu.
  intros Hg Hp Hs. pose proof (publishing_pc _ _ _ _ Hp) as Hcl. pose proof (guarded_agrees _ _ Hg c) as Hag.
  pose proof (publishing_holds _ _ _ _ Hp) as Hh.
  assert (Hex : forall d, holds (pcs (lk s) d) = true -> d = c)
    by (intros d Hd; by eapply lock_exclusive; [exact Hncpu|apply Hg| |]).
  assert (Hin : forall s1, publishing ordered c v s1 -> phase ordered s1)
    by (intros s1 H1; right; left; by exists c, v).
  destruct Hs as [d E|d E|d m' E Hm Ha Hd|d E Hd|d E|d w E|d r E|d E|d E|d r m' E Hm Hd Hd'|d r E Hd|d b r E
      |d b1 l w b2 E Hb|d b E|d m' Hr Hre Hb Hm Ho];
    (destruct (decide (d = c)) as [->|Hne]; [try (rewrite E in Hcl, Hag; cbn in Hcl, Hag; done)|
       try (pose proof (publishing_others _ _ _ _ Hp d Hne) as Hds; rewrite E in Hds; cbn in Hds; try done)]);
    try (apply Hin; by apply publishing_turn_other); try (apply Hin; apply publishing_turn_self; by rewrite ?E).
  - apply Hin, publishing_turn_self; rewrite ?E; [done| |done|];
      unfold first_test; by rewrite (publishing_flag _ _ _ _ Hp) by (by rewrite E).
  - apply Hin, publishing_turn_other; [done|done| |].
    + unfold first_test. by case_match.
    + intros Ho r. by eapply publishing_read.
  - apply Hin, publishing_machine; [done|]. by rewrite (proj2 Hm).
  - destruct Hne. apply Hex. by rewrite Hd.
  - by apply Hin, publishing_set.
  - apply Hin, publishing_turn_self; cbn; rewrite ?E; [by apply publishing_fence|done..].
  - by apply Hin, publishing_machine.
  - by destruct Hne; apply Hex.
  - rewrite E in Hcl. apply Hin, publishing_turn_self; rewrite ?E; done.
  - apply Hin. by apply publishing_commit.
  - destruct Hne. apply Hex, (guarded_buf _ _ Hg). rewrite E. by destruct b1.
  - apply Hin. by apply publishing_fenced.
  - destruct Hne. apply Hex, (guarded_buf _ _ Hg). by rewrite E.
  - right. right. exists v. apply (publishing_release s m' c v); try done; intros Es; rewrite Es in Hag; cbn in Hag; by rewrite Hag in Hre.
  - destruct Hne. apply Hex. by apply releasing_holds.
Qed.

Lemma settled_step s s' v : settled v s -> once_step ordered ncpu s s' -> settled v s'.
Proof using.
  intros Hp Hs. assert (Hl : forall d, look s d Flag = 1).
  { intros d. unfold look. by rewrite (settled_buf _ _ Hp), (settled_flag _ _ Hp). }
  destruct Hs as [d E|d E|d m' E Hm Ha Hd|d E Hd|d E|d w E|d r E|d E|d E|d r m' E Hm Hd Hd'|d r E Hd|d b r E
      |d b1 l w b2 E Hb|d b E|d m' Hr Hre Hb Hm Ho];
    try (pose proof (settled_pc _ _ Hp d) as Hds; rewrite E in Hds; done);
    try (by apply settled_machine); try (apply settled_turn; [done|rewrite ?Hl; done]);
    rewrite (settled_buf _ _ Hp) in E; try done; by destruct b1.
Qed.

Lemma phases s : rtc (once_step ordered ncpu) once_initial s -> guarded ncpu s /\ phase ordered s.
Proof using Hncpu.
  apply (rtc_ind_r (fun s => guarded ncpu s /\ phase ordered s)).
  - split; [split; [apply rtc_refl|intros c; by left|done]|]. left. by split.
  - intros s1 s2 _ Hs [Hg Hp]. split; [by eapply guarded_step|].
    destruct Hp as [Hp|[(c & v & Hp)|(v & Hp)]].
    + by eapply before_step.
    + by eapply publishing_step.
    + right. right. exists v. by eapply settled_step.
Qed.
End Phases.
