(* ===== verification/OnceTheorems.v ===== *)
(** What run_once promises to callers that race, and what its barriers leave open. *)
From Stdlib Require Import ZArith Lia.
From stdpp Require Import base list relations.
From S2P Require Import Prelude Spinlock SpinlockProof Once OnceProof.

Open Scope Z_scope.

(** Only the return of the function publishes. *)
Lemma published_kept ordered ncpu s s' :
  once_step ordered ncpu s s' -> (forall c, at_pc s c <> Running) -> published s' = published s.
Proof. intros [] Hr; try done. by destruct (Hr c). Qed.

Lemma published_not_running ordered s v c :
  phase ordered s -> published s = Some v -> at_pc s c <> Running.
Proof.
  intros [Hp|[(b & w & Hp)|(w & Hp)]] Hv E.
  - by rewrite (before_published _ Hp) in Hv.
  - destruct (decide (c = b)) as [->|Hne].
    + pose proof (publishing_pc _ _ _ _ Hp) as Hc. by rewrite E in Hc.
    + pose proof (publishing_others _ _ _ _ Hp c Hne) as Hc. by rewrite E in Hc.
  - pose proof (settled_pc _ _ Hp c) as Hc. by rewrite E in Hc.
Qed.

Lemma settled_look s v c : settled v s -> look s c Flag = 1 /\ look s c Data = v.
Proof.
  intros Hp. unfold look. rewrite (settled_buf _ _ Hp c). split; [apply (settled_flag _ _ Hp)|apply (settled_data _ _ Hp)].
Qed.

(** A call that returned 0 through the lock, or any call where stores stay in order. *)
Lemma returned_zero ordered ncpu s c l :
  ncpu < 65536 -> guarded ncpu s -> phase ordered s -> at_pc s c = Returned l 0 ->
  exists v, published s = Some v /\
    (l = true -> look s c Flag = 1 /\ look s c Data = v) /\ (ordered = true -> look s c Data = v).
Proof.
  intros Hn Hg [Hp|[(b & v & Hp)|(v & Hp)]] E.
  - pose proof (before_pc _ Hp c) as Hc. rewrite E in Hc. by destruct Hc.
  - exists v. split; [apply (publishing_published _ _ _ _ Hp)|]. pose proof (publishing_data _ _ _ _ Hp) as Hd.
    destruct (decide (c = b)) as [->|Hne].
    { split; [intros _|intros _; exact Hd]. split; [|exact Hd]. apply (publishing_flag _ _ _ _ Hp). by rewrite E. }
    pose proof (publishing_others _ _ _ _ Hp c Hne) as Hc. rewrite E in Hc. destruct l; [done|]. split; [done|].
    intros Ho. destruct (publishing_fast _ _ _ _ Hp Ho c 0 Hne E) as [_ Hf].
    assert (Hh : holds (pcs (lk s) c) = false).
    { destruct (holds (pcs (lk s) c)) eqn:Eh; [|done]. destruct Hne.
      eapply lock_exclusive; [exact Hn|apply Hg|done|by eapply publishing_holds]. }
    unfold look in *. rewrite (only_fences_pending _ _ Hf) in Hd. by rewrite (guarded_empty _ _ c Hg Hh).
  - exists v. split; [apply (settled_published _ _ Hp)|]. split; intros _; by apply settled_look.
Qed.

Lemma returned_fast ordered s c r : phase ordered s -> at_pc s c = Returned false r -> r = 0.
Proof.
  intros [Hp|[(b & v & Hp)|(v & Hp)]] E.
  - pose proof (before_pc _ Hp c) as Hc. rewrite E in Hc. by destruct Hc.
  - destruct (decide (c = b)) as [->|Hne].
    + pose proof (publishing_pc _ _ _ _ Hp) as Hc. by rewrite E in Hc.
    + pose proof (publishing_others _ _ _ _ Hp c Hne) as Hc. by rewrite E in Hc.
  - pose proof (settled_pc _ _ Hp c) as Hc. by rewrite E in Hc.
Qed.

(** When the lock is free again, everything has arrived. *)
Lemma free_visible ordered s v :
  phase ordered s -> published s = Some v -> (forall c, holds (pcs (lk s) c) = false) ->
  forall d, look s d Flag = 1 /\ look s d Data = v.
Proof.
  intros [Hp|[(b & w & Hp)|(w & Hp)]] Hv Hno d.
  - by rewrite (before_published _ Hp) in Hv.
  - pose proof (publishing_holds _ _ _ _ Hp) as Hh. by rewrite Hno in Hh.
  - rewrite (settled_published _ _ Hp) in Hv. injection Hv as <-. by apply settled_look.
Qed.

(** * Two CPUs *)

(** CPU 0 takes the free lock, the function writes 7 and returns 0, and the flag is set: both
    stores are pending. *)
Definition lock_taken : machine :=
  goto_st 0 (after_ticket 0) (take_ticket 0) (goto_ex 0 (LockSt 0) (goto 0 LockLd Spinlock.initial)).

Definition set_pending : once_state :=
  turn 0 Fencing (buffer 0 Flag 1 (after_func 0 0 (buffer 0 Data 7 (turn 0 Running (turn 0 Rereading
    (set_lk lock_taken (turn 0 Locking (turn 0 Reading once_initial)))))))).

(** The flag reaches memory first, and CPU 1 returns by the fast path. *)
Definition stale_state : once_state :=
  turn 1 (Returned false 0) (turn 1 Reading (commit 0 [Store Data 7] Flag 1 set_pending)).

(** CPU 0 goes on through the fence, issues the release and returns, everything still pending. *)
Definition release_issued : machine := goto 0 (UnlockSt 1) (goto 0 UnlockLd lock_taken).
Definition returned_state : once_state :=
  turn 0 (Returned true 0) (set_lk release_issued (turn 0 (Unlocking 0) (smp_wmb 0 set_pending))).

(** One instruction of the lock by CPU 0. *)
Lemma lock_once ordered s m' :
  at_pc s 0 = Locking -> lock_moves 2 0 (lk s) m' -> (asks (pcs m' 0) || holds (pcs m' 0)) = true ->
  holds (pcs (lk s) 0) = false -> once_step ordered 2 s (set_lk m' s).
Proof. apply once_lock. Qed.

Lemma unlock_once ordered s m' :
  at_pc s 0 = Unlocking 0 -> lock_moves 2 0 (lk s) m' -> holds (pcs (lk s) 0) = true ->
  holds (pcs m' 0) = true -> once_step ordered 2 s (set_lk m' s).
Proof. apply once_unlock. Qed.

Lemma set_pending_reachable ordered : rtc (once_step ordered 2) once_initial set_pending.
Proof.
  eapply rtc_l; [by apply (once_call _ _ _ 0)|]. eapply rtc_l; [by apply (once_read _ _ _ 0)|].
  eapply rtc_l; [apply lock_once; [done|split; [by apply (step_lock _ _ 0)|by apply at_cpu_ne]|done|done]|].
  eapply rtc_l; [apply lock_once; [done|split; [by apply (step_lock_ld _ _ 0)|by apply at_cpu_ne]|done|done]|].
  eapply rtc_l; [apply lock_once; [done|split; [by apply (step_lock_st _ _ 0 0)|by apply at_cpu_ne]|done|done]|].
  eapply rtc_l; [by apply (once_locked _ _ _ 0)|]. eapply rtc_l; [by apply (once_reread _ _ _ 0)|].
  eapply rtc_l; [by apply (once_write _ _ _ 0 7)|]. eapply rtc_l; [by apply (once_func _ _ _ 0 0)|].
  eapply rtc_l; [by apply (once_set _ _ _ 0)|]. apply rtc_refl.
Qed.

Lemma stale_reachable : rtc (once_step false 2) once_initial stale_state.
Proof.
  etrans; [apply set_pending_reachable|].
  eapply rtc_l.
  { apply (once_flush false 2 set_pending 0 [Store Data 7] Flag 1 []); [done|]. split; [|done].
    intros [|[]%not_elem_of_nil]%elem_of_cons. done. }
  eapply rtc_l; [by apply (once_call _ _ _ 1)|]. eapply rtc_l; [by apply (once_read _ _ _ 1)|]. apply rtc_refl.
Qed.

Lemma returned_reachable : rtc (once_step true 2) once_initial returned_state.
Proof.
  etrans; [apply set_pending_reachable|].
  eapply rtc_l; [by apply (once_fence _ _ _ 0)|].
  eapply rtc_l; [apply unlock_once; [done|split; [by apply (step_unlock _ _ 0)|by apply at_cpu_ne]|done|done]|].
  eapply rtc_l; [apply unlock_once; [done|split; [by apply (step_unlock_ld _ _ 0)|by apply at_cpu_ne]|done|done]|].
  eapply rtc_l; [by apply (once_return _ _ _ 0 0)|]. apply rtc_refl.
Qed.

(** * Properties *)

(** C9: run_once between racing CPUs, each step one instruction of the lock, a read, a store, a
    barrier or the arrival of a store in memory, with up to 65535 CPUs and stores that may
    arrive out of order and long after their CPU has gone on. At most one CPU is in the function
    at a time; once the function has returned 0 it is never entered again, by anyone; a call
    returns 0 only after that success; a call that took the lock and returns 0 sees the flag and
    what the function wrote, be it its own function or that of another CPU; and whenever nobody
    holds the lock after the success, its release being visible, every CPU sees them. A call that
    finds the flag set without taking the lock sees what the function wrote on a machine that
    keeps the order of loads and stores. *)
Theorem run_once_concurrent ordered ncpu s :
  ncpu < 65536 -> rtc (once_step ordered ncpu) once_initial s ->
  (forall c d, at_pc s c = Running -> at_pc s d = Running -> c = d) /\
  (forall v, published s = Some v ->
     (forall c, at_pc s c <> Running) /\
     (forall s', once_step ordered ncpu s s' -> published s' = Some v) /\
     ((forall c, holds (pcs (lk s) c) = false) -> forall d, look s d Flag = 1 /\ look s d Data = v)) /\
  (forall c locked, at_pc s c = Returned locked 0 -> exists v, published s = Some v /\
     (locked = true -> look s c Flag = 1 /\ look s c Data = v) /\
     (ordered = true -> look s c Data = v)) /\
  (forall c r, at_pc s c = Returned false r -> r = 0).
Proof.
  intros Hn Hs. destruct (phases ordered ncpu Hn s Hs) as [Hg Hp].
  split; [|split; [|split]].
  - intros c d Hc Hd. eapply lock_exclusive; [exact Hn|apply Hg| |];
      (eapply inside_holds; [exact Hg|by rewrite ?Hc, ?Hd]).
  - intros v Hv. assert (Hr : forall c, at_pc s c <> Running) by (intros c; by eapply published_not_running).
    split; [done|]. split; [|by eapply free_visible]. intros s' Hs'. by rewrite (published_kept _ _ _ _ Hs' Hr).
  - intros c l E. by eapply returned_zero.
  - intros c r E. by eapply returned_fast.
Qed.

Lemma run_once_concurrent_witness :
  (forall c, at_pc returned_state c <> Running) /\
  exists v, published returned_state = Some v /\
    (true = true -> look returned_state 0 Flag = 1 /\ look returned_state 0 Data = v) /\
    (true = true -> look returned_state 0 Data = v).
Proof.
  destruct (run_once_concurrent true 2 returned_state) as (_ & H2 & H3 & _); [lia|exact returned_reachable|].
  split; [by apply (H2 7)|by apply (H3 0 true)].
Defined.

(** C34: [smp_wmb] stands after the store to the flag and [smp_rmb] before its first read, so
    nothing orders the function's stores before the flag: a second CPU can find the flag set,
    return 0 without taking the lock, and not see what the function wrote, although the
    function has returned 0. *)
Theorem run_once_stale :
  exists s, rtc (once_step false 2) once_initial s /\
    at_pc s 1 = Returned false 0 /\ published s = Some 7 /\ look s 1 Data = 0 /\ look s 0 Data = 7.
Proof. exists stale_state. split; [exact stale_reachable|]. by vm_compute. Qed.
