(* ===== verification/Exclusive.v ===== *)
(** Inline assembly on one shared word: the load-exclusive and store-exclusive sequences that
    atomic.h and the reader-writer locks of arch_spinlock.h are made of.

    A routine is the list of its instructions, a C loop around an asm statement included, and
    several CPUs run routines interleaved, one instruction at a time. The accesses of one word
    are coherent, so one value stands for it. A load-exclusive sets the monitor of its CPU, any
    store to the word clears the monitors of the others, a store-exclusive succeeds at most
    when the monitor is set, may fail for no reason, and leaves the monitor clear.

    An object is a set of routines with, for each, the relation between the value it finds, the
    value it leaves and its result. The specification is a machine where each routine takes
    effect at once, between its call and its return. *)
From Stdlib Require Import ZArith Lia.
From stdpp Require Import base list.
From S2P Require Import Prelude.

Open Scope Z_scope.

(** * Instructions *)

(** The operands [%0], [%1] of an asm statement and a variable of the C code around it. *)
Record regs := { r0 : Z; r1 : Z; r2 : Z }.

Definition set_r0 (rs : regs) (v : Z) : regs := {| r0 := v; r1 := r1 rs; r2 := r2 rs |}.
Definition set_r1 (rs : regs) (v : Z) : regs := {| r0 := r0 rs; r1 := v; r2 := r2 rs |}.
Definition set_r2 (rs : regs) (v : Z) : regs := {| r0 := r0 rs; r1 := r1 rs; r2 := v |}.

Inductive instr :=
  | Ldxr (dst : regs -> Z -> regs)                     (** ldxr, ldaxr *)
  | Stxr (dst : regs -> Z -> regs) (val : regs -> Z)   (** stxr, stlxr; 0 into [dst] on success *)
  | Ldr (dst : regs -> Z -> regs)                      (** a volatile load *)
  | Str (val : regs -> Z)                              (** a volatile store, stlr *)
  | Alu (f : regs -> regs)
  | Branch (cond : regs -> bool) (target : nat)
  | Hint.                                              (** dmb, sevl, wfe: no effect on the word *)

(** * Objects *)

(** [may_call] and [after] are the protocol the callers of the object keep. *)
Class Object := {
  width : Z;
  op : Type;
  code : op -> list instr;
  entry : op -> regs -> regs;      (** the registers at the first instruction, from any *)
  out : op -> regs -> Z;
  effect : op -> Z -> Z -> Z -> Prop;
  phase : Type;
  at_start : phase;
  may_call : phase -> op -> Prop;
  after : phase -> op -> Z -> phase }.

Inductive event (O : Type) :=
  | Call (c : Z) (o : O)
  | Return (c : Z) (o : O) (r : Z).
Arguments Call {O} c o.
Arguments Return {O} c o r.

Definition at_cpu {A} (f : Z -> A) (c : Z) (a : A) : Z -> A := fun d => if decide (d = c) then a else f d.

Section Machine.
Context `{Object}.

Inductive thread :=
  | Idle (h : phase)
  | Running (h : phase) (o : op) (pc : nat) (rs : regs).

Record machine := { value : Z; threads : Z -> thread; monitor : Z -> bool }.

(** A step of CPU [c] that only moves it; one that loads exclusively; a store. *)
Definition move (c : Z) (t : thread) (m : machine) : machine :=
  {| value := value m; threads := at_cpu (threads m) c t; monitor := monitor m |}.
Definition reserve (c : Z) (t : thread) (b : bool) (m : machine) : machine :=
  {| value := value m; threads := at_cpu (threads m) c t; monitor := at_cpu (monitor m) c b |}.
Definition store (c : Z) (t : thread) (v : Z) (m : machine) : machine :=
  {| value := wrap width v; threads := at_cpu (threads m) c t; monitor := fun _ => false |}.

Inductive step (m : machine) : option (event op) -> machine -> Prop :=
  | step_call c h o g : threads m c = Idle h -> may_call h o ->
      step m (Some (Call c o)) (move c (Running h o 0 (entry o g)) m)
  | step_return c h o pc rs : threads m c = Running h o pc rs -> code o !! pc = None ->
      step m (Some (Return c o (out o rs))) (move c (Idle (after h o (out o rs))) m)
  | step_ldxr c h o pc rs dst : threads m c = Running h o pc rs -> code o !! pc = Some (Ldxr dst) ->
      step m None (reserve c (Running h o (S pc) (dst rs (value m))) true m)
  | step_stxr c h o pc rs dst val : threads m c = Running h o pc rs -> code o !! pc = Some (Stxr dst val) ->
      monitor m c = true ->
      step m None (store c (Running h o (S pc) (dst rs 0)) (val rs) m)
  | step_stxr_fails c h o pc rs dst val : threads m c = Running h o pc rs -> code o !! pc = Some (Stxr dst val) ->
      step m None (reserve c (Running h o (S pc) (dst rs 1)) false m)
  | step_ldr c h o pc rs dst : threads m c = Running h o pc rs -> code o !! pc = Some (Ldr dst) ->
      step m None (move c (Running h o (S pc) (dst rs (value m))) m)
  | step_str c h o pc rs val : threads m c = Running h o pc rs -> code o !! pc = Some (Str val) ->
      step m None (store c (Running h o (S pc) rs) (val rs) m)
  | step_alu c h o pc rs f : threads m c = Running h o pc rs -> code o !! pc = Some (Alu f) ->
      step m None (move c (Running h o (S pc) (f rs)) m)
  | step_branch c h o pc rs cond target : threads m c = Running h o pc rs ->
      code o !! pc = Some (Branch cond target) ->
      step m None (move c (Running h o (if cond rs then target else S pc) rs) m)
  | step_hint c h o pc rs : threads m c = Running h o pc rs -> code o !! pc = Some Hint ->
      step m None (move c (Running h o (S pc) rs) m).

Definition initial (v : Z) : machine :=
  {| value := wrap width v; threads := fun _ => Idle at_start; monitor := fun _ => false |}.

(** * The specification: routines that take effect at once *)

Inductive athread :=
  | AIdle (h : phase)
  | ACalled (h : phase) (o : op)
  | ADone (h : phase) (o : op) (r : Z).

Record spec_machine := { avalue : Z; athreads : Z -> athread }.

Definition amove (c : Z) (t : athread) (v : Z) (a : spec_machine) : spec_machine :=
  {| avalue := v; athreads := at_cpu (athreads a) c t |}.

Inductive spec_step (a : spec_machine) : option (event op) -> spec_machine -> Prop :=
  | spec_call c h o : athreads a c = AIdle h -> may_call h o ->
      spec_step a (Some (Call c o)) (amove c (ACalled h o) (avalue a) a)
  | spec_effect c h o v r : athreads a c = ACalled h o -> effect o (avalue a) v r ->
      spec_step a None (amove c (ADone h o r) v a)
  | spec_return c h o r : athreads a c = ADone h o r ->
      spec_step a (Some (Return c o r)) (amove c (AIdle (after h o r)) (avalue a) a).

Definition spec_initial (v : Z) : spec_machine :=
  {| avalue := wrap width v; athreads := fun _ => AIdle at_start |}.

(** Runs with the calls and returns they show. *)
Inductive run {T} (R : T -> option (event op) -> T -> Prop) : T -> list (event op) -> T -> Prop :=
  | run_nil s : run R s [] s
  | run_snoc s t l e s' : run R s l t -> R t e s' -> run R s (l ++ option_list e) s'.

(** The calls that have taken effect, one after the other: CPU, routine and result. *)
Fixpoint serial (v : Z) (calls : list (Z * op * Z)) (v' : Z) : Prop :=
  match calls with
  | [] => v' = v
  | (_, o, r) :: rest => exists x, effect o v x r /\ serial x rest v'
  end.

(** The calls that have returned. *)
Fixpoint returns (l : list (event op)) : list (Z * op * Z) :=
  match l with
  | [] => []
  | Call _ _ :: rest => returns rest
  | Return c o r :: rest => (c, o, r) :: returns rest
  end.

(** The one step CPU [c] makes when no store-exclusive fails for no reason. *)
Definition tick (c : Z) (m : machine) : option (option Z * machine) :=
  match threads m c with
  | Idle _ => None
  | Running h o pc rs =>
      let go t m' := Some (None, m' (Running h o (S pc) t)) in
      match code o !! pc with
      | None => Some (Some (out o rs), move c (Idle (after h o (out o rs))) m)
      | Some (Ldxr dst) => go (dst rs (value m)) (fun t => reserve c t true m)
      | Some (Stxr dst val) =>
          if monitor m c then go (dst rs 0) (fun t => store c t (val rs) m) else go (dst rs 1) (fun t => reserve c t false m)
      | Some (Ldr dst) => go (dst rs (value m)) (fun t => move c t m)
      | Some (Str val) => go rs (fun t => store c t (val rs) m)
      | Some (Alu f) => go (f rs) (fun t => move c t m)
      | Some (Branch cond target) => Some (None, move c (Running h o (if cond rs then target else S pc) rs) m)
      | Some Hint => go rs (fun t => move c t m)
      end
  end.

(** CPU [c] alone, until it returns, for at most [k] steps: the result and what is left. *)
Fixpoint left_alone (k : nat) (c : Z) (m : machine) : option (Z * machine) :=
  match k with
  | O => None
  | S k' =>
      match tick c m with
      | Some (None, m') => left_alone k' c m'
      | Some (Some r, m') => Some (r, m')
      | None => None
      end
  end.

(** CPU [c] at the first instruction of a routine. *)
Definition called (c : Z) (h : phase) (o : op) (g : regs) (m : machine) : machine := move c (Running h o 0 (entry o g)) m.

(** One CPU alone: its instructions with no other CPU in between and no store-exclusive that
    fails for no reason; [mon] is its monitor. *)
Fixpoint alone (fuel : nat) (l : list instr) (pc : nat) (rs : regs) (mon : bool) (v : Z) : option (regs * bool * Z) :=
  match fuel with
  | O => None
  | S fuel =>
      match l !! pc with
      | None => Some (rs, mon, v)
      | Some (Ldxr dst) => alone fuel l (S pc) (dst rs v) true v
      | Some (Stxr dst val) =>
          if mon then alone fuel l (S pc) (dst rs 0) false (wrap width (val rs))
          else alone fuel l (S pc) (dst rs 1) false v
      | Some (Ldr dst) => alone fuel l (S pc) (dst rs v) mon v
      | Some (Str val) => alone fuel l (S pc) rs false (wrap width (val rs))
      | Some (Alu f) => alone fuel l (S pc) (f rs) mon v
      | Some (Branch cond target) => alone fuel l (if cond rs then target else S pc) rs mon v
      | Some Hint => alone fuel l (S pc) rs mon v
      end
  end.
End Machine.
