(* ===== verification/ExclusiveProof.v ===== *)
(** Routines that implement their effect in one indivisible step, and the simulation that
    carries this from the assertions at each instruction to every interleaving. *)
From Stdlib Require Import ZArith Lia.
From stdpp Require Import base list.
From S2P Require Import Prelude Exclusive.

Open Scope Z_scope.

Section Machine.
Context `{Object}.

(** * When the instructions implement the effect *)

(** [state] is the result once the effect has happened. *)
Definition effects (o : op) (v v' : Z) (state state' : option Z) : Prop :=
  (state' = state /\ v' = v) \/ (state = None /\ exists r, state' = Some r /\ effect o v v' r).

(** [holds pc rs reserved state] is an assertion at each instruction; [reserved] is the word's
    value while the monitor is set. What the instruction at [pc] has to preserve, where the
    word is [v]: *)
Definition obligation (o : op) (holds : nat -> regs -> option Z -> option Z -> Prop)
    (pc : nat) (rs : regs) (ex st : option Z) (v : Z) : Prop :=
  match code o !! pc with
  | None => st = Some (out o rs)
  | Some (Ldxr dst) => exists st', effects o v v st st' /\ holds (S pc) (dst rs v) (Some v) st'
  | Some (Stxr dst val) =>
      (ex = Some v -> exists st', effects o v (wrap width (val rs)) st st' /\ holds (S pc) (dst rs 0) None st') /\
      (exists st', effects o v v st st' /\ holds (S pc) (dst rs 1) None st')
  | Some (Ldr dst) => exists st', effects o v v st st' /\ holds (S pc) (dst rs v) ex st'
  | Some (Str val) => exists st', effects o v (wrap width (val rs)) st st' /\ holds (S pc) rs None st'
  | Some (Alu f) => holds (S pc) (f rs) ex st
  | Some (Branch cond target) => holds (if cond rs then target else S pc) rs ex st
  | Some Hint => holds (S pc) rs ex st
  end.

Record annotated (o : op) (holds : nat -> regs -> option Z -> option Z -> Prop) : Prop := {
  an_entry g ex : holds 0%nat (entry o g) ex None;
  an_lose pc rs v st : holds pc rs (Some v) st -> holds pc rs None st;
  an_step pc rs ex st v : holds pc rs ex st -> (ex = None \/ ex = Some v) -> 0 <= v < 2 ^ width ->
    obligation o holds pc rs ex st v }.

(** * The simulation *)

Section Simulation.
Context (holds : op -> nat -> regs -> option Z -> option Z -> Prop).
Context (Hann : forall o, annotated o (holds o)) (Hwidth : 0 <= width).

Definition thread_sim (t : thread) (ex : option Z) (a : athread) : Prop :=
  match t with
  | Idle h => a = AIdle h
  | Running h o pc rs => exists st, holds o pc rs ex st /\
      a = match st with None => ACalled h o | Some r => ADone h o r end
  end.

Definition reserved (m : machine) (c : Z) : option Z := if monitor m c then Some (value m) else None.

Definition sim (m : machine) (a : spec_machine) : Prop :=
  0 <= value m < 2 ^ width /\ avalue a = value m /\
  forall c, thread_sim (threads m c) (reserved m c) (athreads a c).

Lemma serial_sim_initial (v : Z) : sim (initial v) (spec_initial v).
Proof using Hwidth. split; [by apply wrap_range|done]. Qed.

Lemma thread_sim_lose t ex (a : athread) : thread_sim t ex a -> thread_sim t None a.
Proof using Hann.
  destruct t as [|h o pc rs]; [done|]. intros (st & Hh & Ha). exists st. split; [|done].
  destruct ex; [by eapply an_lose|done].
Qed.

(** [a'] is [a] after CPU [c] has gone to [t'] and the word to [v]. *)
Definition moved (a : spec_machine) (c : Z) (t' : athread) (v : Z) (a' : spec_machine) : Prop :=
  avalue a' = v /\ athreads a' c = t' /\ forall d, d <> c -> athreads a' d = athreads a d.

Lemma moved_amove a c (t' : athread) v : moved a c t' v (amove c t' v a).
Proof.
  split; [done|]. split; unfold amove, at_cpu; cbn; [by rewrite decide_True|].
  intros d Hd. by rewrite decide_False.
Qed.

Lemma sim_at m a a' c t (t' : athread) (b : bool) :
  sim m a -> moved a c t' (value m) a' -> thread_sim t (if b then Some (value m) else None) t' ->
  sim {| value := value m; threads := at_cpu (threads m) c t; monitor := at_cpu (monitor m) c b |} a'.
Proof.
  intros (Hv & _ & Ht) (Hv' & Hc & Hd) Ht'. split; [exact Hv|]. split; [exact Hv'|].
  intros d. unfold reserved, at_cpu. cbn. destruct (decide (d = c)) as [->|Hne]; [by rewrite Hc|].
  rewrite (Hd d Hne). apply Ht.
Qed.

(** A step that leaves the monitor as it is. *)
Lemma sim_move m a a' c t (t' : athread) :
  sim m a -> moved a c t' (value m) a' -> thread_sim t (reserved m c) t' -> sim (move c t m) a'.
Proof.
  intros (Hv & _ & Ht) (Hv' & Hc & Hd) Ht'. split; [exact Hv|]. split; [exact Hv'|].
  intros d. unfold reserved, move, at_cpu. cbn. destruct (decide (d = c)) as [->|Hne]; [rewrite Hc; exact Ht'|].
  rewrite (Hd d Hne). apply Ht.
Qed.

Lemma sim_store m a a' c t (t' : athread) v :
  sim m a -> moved a c t' (wrap width v) a' -> thread_sim t None t' -> sim (store c t v m) a'.
Proof using Hann Hwidth.
  intros (Hv & _ & Ht) (Hv' & Hc & Hd) Ht'. split; [by apply wrap_range|]. split; [exact Hv'|].
  intros d. unfold reserved, store, at_cpu. cbn. destruct (decide (d = c)) as [->|Hne]; [rewrite Hc; exact Ht'|].
  rewrite (Hd d Hne). eapply thread_sim_lose, Ht.
Qed.

(** The specification's side of an effect: no step, or one. *)
Lemma effects_follow a c h o v' st st' :
  athreads a c = match st with None => ACalled h o | Some r => ADone h o r end ->
  effects o (avalue a) v' st st' ->
  exists a', moved a c (match st' with None => ACalled h o | Some r => ADone h o r end) v' a' /\
    (a' = a \/ spec_step a None a').
Proof.
  intros Ha [[-> ->]|(-> & r & -> & He)].
  - exists a. split; [|by left]. split; [done|]. by split.
  - eexists. split; [apply moved_amove|]. right. by eapply spec_effect.
Qed.

Lemma reserved_or m c : reserved m c = None \/ reserved m c = Some (value m).
Proof. unfold reserved. destruct (monitor m c); [by right|by left]. Qed.

(** One step of the machine is matched by at most one of the specification. *)
Lemma serial_sim_step m e m' a : sim m a -> step m e m' ->
  exists a', sim m' a' /\ (e = None /\ a' = a \/ spec_step a e a').
Proof using Hann Hwidth.
  intros Hs Hstep. pose proof Hs as (Hv & Ha & Ht).
  destruct Hstep as [c h o g Hc Hcall|c h o pc rs Hc Hcode|c h o pc rs dst Hc Hcode|c h o pc rs dst val Hc Hcode Hm
    |c h o pc rs dst val Hc Hcode|c h o pc rs dst Hc Hcode|c h o pc rs val Hc Hcode|c h o pc rs f Hc Hcode
    |c h o pc rs cond target Hc Hcode|c h o pc rs Hc Hcode];
    specialize (Ht c); rewrite Hc in Ht;
    [|destruct Ht as (st & Hh & Hat);
      pose proof (an_step _ _ (Hann o) pc rs _ st (value m) Hh (reserved_or m c) Hv) as Hob;
      unfold obligation in Hob; rewrite Hcode in Hob..].
  - eexists. split; [|right; by apply spec_call with (h := h)].
    eapply sim_move; [done|rewrite <- Ha; apply moved_amove|]. exists None. split; [|done].
    apply (an_entry _ _ (Hann o)).
  - subst st. eexists. split; [|right; by apply spec_return with (h := h)].
    eapply sim_move; [done|rewrite <- Ha; apply moved_amove|done].
  - destruct Hob as (st' & He & Hh').
    rewrite <- Ha in He at 1. destruct (effects_follow _ _ _ _ _ _ _ Hat He) as (a' & Hm & Hor).
    exists a'. split; [|tauto]. apply sim_at with (1 := Hs) (2 := Hm). by exists st'.
  - destruct Hob as [Hob _]. unfold reserved in Hob. rewrite Hm in Hob. destruct (Hob eq_refl) as (st' & He & Hh').
    rewrite <- Ha in He at 1. destruct (effects_follow _ _ _ _ _ _ _ Hat He) as (a' & Hmv & Hor).
    exists a'. split; [|tauto]. apply sim_store with (1 := Hs) (2 := Hmv). by exists st'.
  - destruct Hob as [_ Hob]. destruct Hob as (st' & He & Hh').
    rewrite <- Ha in He at 1. destruct (effects_follow _ _ _ _ _ _ _ Hat He) as (a' & Hm & Hor).
    exists a'. split; [|tauto]. apply sim_at with (1 := Hs) (2 := Hm). by exists st'.
  - destruct Hob as (st' & He & Hh').
    rewrite <- Ha in He at 1. destruct (effects_follow _ _ _ _ _ _ _ Hat He) as (a' & Hm & Hor).
    exists a'. split; [|tauto]. apply sim_move with (1 := Hs) (2 := Hm). by exists st'.
  - destruct Hob as (st' & He & Hh').
    rewrite <- Ha in He at 1. destruct (effects_follow _ _ _ _ _ _ _ Hat He) as (a' & Hm & Hor).
    exists a'. split; [|tauto]. apply sim_store with (1 := Hs) (2 := Hm). by exists st'.
  - exists a. split; [|by left]. apply sim_move with (1 := Hs) (t' := athreads a c); [by split|].
    exists st. split; [exact Hob|done].
  - exists a. split; [|by left]. apply sim_move with (1 := Hs) (t' := athreads a c); [by split|].
    exists st. split; [exact Hob|done].
  - exists a. split; [|by left]. apply sim_move with (1 := Hs) (t' := athreads a c); [by split|].
    exists st. split; [exact Hob|done].
Qed.

(** What a CPU is doing, as its caller sees it. *)
Definition matches (t : thread) (a : athread) : Prop :=
  match t with
  | Idle h => a = AIdle h
  | Running h o _ _ => a = ACalled h o \/ exists r, a = ADone h o r
  end.

Lemma sim_run v l m : run step (initial v) l m -> exists a, run spec_step (spec_initial v) l a /\ sim m a.
Proof using Hann Hwidth.
  remember (initial v) as m0 eqn:E. induction 1 as [s|s t l e s' Hr IH Hstep]; subst.
  - exists (spec_initial v). split; [constructor|apply serial_sim_initial].
  - destruct (IH eq_refl) as (a & Ha & Hs). destruct (serial_sim_step _ _ _ _ Hs Hstep) as (a' & Hs' & [[-> ->]|Hstep']).
    + exists a. cbn. by rewrite app_nil_r.
    + exists a'. split; [by econstructor|done].
Qed.

(** Every interleaving of the instructions is a run of the specification, with the same calls,
    returns and values. *)
Lemma runs_atomically v l m : run step (initial v) l m ->
  exists a, run spec_step (spec_initial v) l a /\ avalue a = value m /\ 0 <= value m < 2 ^ width /\
    forall c, matches (threads m c) (athreads a c).
Proof using Hann Hwidth.
  intros Hr. destruct (sim_run v l m Hr) as (a & Ha & Hv & Hav & Ht). exists a. split; [done|]. split; [done|].
  split; [done|]. intros c. specialize (Ht c). destruct (threads m c); [done|].
  destruct Ht as ([r|] & _ & ->); [by right; exists r|by left].
Qed.

(** * Calls in one order *)

Lemma serial_snoc v calls v' c o x r : serial v calls v' -> effect o v' x r -> serial v (calls ++ [(c, o, r)]) x.
Proof.
  revert v. induction calls as [|[[d p] q] calls IH]; intros v.
  - intros -> He. cbn. by exists x.
  - intros (y & Hy & Hs) He. exists y. split; [done|]. by apply IH.
Qed.

Lemma returns_app (l1 l2 : list (event op)) : returns (l1 ++ l2) = returns l1 ++ returns l2.
Proof. induction l1 as [|[c o|c o r] l1 IH]; cbn; by rewrite ?IH. Qed.

(** The calls that have taken effect and have not returned. *)
Definition pending (a : spec_machine) (p : list (Z * op * Z)) : Prop :=
  NoDup p.*1.*1 /\ forall c o r, (c, o, r) ∈ p <-> exists h, athreads a c = ADone h o r.

Lemma pending_other a p c (t t' : athread) v : pending a p -> athreads a c = t ->
  (forall h o r, t <> ADone h o r) -> (forall h o r, t' <> ADone h o r) -> pending (amove c t' v a) p.
Proof.
  intros [Hnd Hp] Ht Hn Hn'. split; [done|]. intros d o r. rewrite Hp. unfold amove, at_cpu. cbn.
  destruct (decide (d = c)) as [->|]; [|done]. rewrite Ht. split; intros [h E]; exfalso; by eapply Hn + eapply Hn'.
Qed.

Lemma pending_add a p c h o r v : pending a p -> athreads a c = ACalled h o ->
  pending (amove c (ADone h o r) v a) ((c, o, r) :: p).
Proof.
  intros [Hnd Hp] Ht. split.
  - cbn. apply NoDup_cons. split; [|done]. rewrite list_elem_of_fmap. intros ([d o'] & -> & Hin).
    apply list_elem_of_fmap in Hin as ([[d' o''] r'] & E & Hin). cbn in *. injection E as -> ->.
    apply Hp in Hin as [h' Hd]. by rewrite Ht in Hd.
  - intros d o' r'. rewrite elem_of_cons, Hp. unfold amove, at_cpu. cbn. destruct (decide (d = c)) as [->|Hne].
    + rewrite Ht. split; [intros [[= -> ->]|[h' ?]]; [by exists h|done]|]. intros [h' [= -> -> ->]]. by left.
    + split; [intros [[= -> _]|?]; done|by right].
Qed.

Lemma pending_return a p c h o r (t' : athread) v : pending a p -> athreads a c = ADone h o r ->
  (forall h o r, t' <> ADone h o r) -> exists q, p ≡ₚ (c, o, r) :: q /\ pending (amove c t' v a) q.
Proof.
  intros [Hnd Hp] Ht Hn. assert (Hin : (c, o, r) ∈ p) by (apply Hp; by exists h).
  apply elem_of_Permutation in Hin as [q Hq]. exists q. split; [done|].
  rewrite Hq in Hnd. cbn in Hnd. apply NoDup_cons in Hnd as [Hc Hnd]. split; [done|].
  assert (Hother : forall o' r', (c, o', r') ∉ q).
  { intros o' r' Hin. apply Hc, list_elem_of_fmap. exists (c, o'). split; [done|].
    apply list_elem_of_fmap. by exists (c, o', r'). }
  intros d o' r'. unfold amove, at_cpu. cbn. destruct (decide (d = c)) as [->|Hne].
  - split; [intros Hin; by apply Hother in Hin|]. intros [h' E]. by apply Hn in E.
  - rewrite <- Hp, Hq, elem_of_cons. split; [by right|]. intros [[= -> _]|?]; done.
Qed.

Lemma spec_run_serial v l a : run spec_step (spec_initial v) l a ->
  exists calls p, serial (wrap width v) calls (avalue a) /\ calls ≡ₚ returns l ++ p /\ pending a p.
Proof.
  remember (spec_initial v) as a0 eqn:E. induction 1 as [s|s t l e s' Hr IH Hstep]; subst.
  - exists [], []. split; [done|]. split; [done|]. split; [constructor|]. intros c o r.
    split; [by intros ?%not_elem_of_nil|by intros [h ?]].
  - destruct (IH eq_refl) as (calls & p & Hs & Hperm & Hp). rewrite returns_app.
    destruct Hstep as [c h o Hc Hcall|c h o x r Hc He|c h o r Hc]; cbn.
    + exists calls, p. rewrite app_nil_r. split; [done|]. split; [done|]. by eapply pending_other.
    + exists (calls ++ [(c, o, r)]), ((c, o, r) :: p). split; [by eapply serial_snoc|].
      split; [|by apply pending_add]. rewrite app_nil_r, Hperm, <- app_assoc. f_equiv. symmetry. apply Permutation_cons_append.
    + destruct (pending_return t p c h o r (AIdle (after h o r)) (avalue t) Hp Hc) as (q & Hq & Hp'); [done|].
      exists calls, q. split; [done|]. split; [|done]. by rewrite Hperm, Hq, <- app_assoc.
Qed.

(** Once every call has returned, the calls have some order in which, one after the other, they
    give the results they gave and the value the word has. *)
Lemma run_serial v l m : run step (initial v) l m -> (forall c, exists h, threads m c = Idle h) ->
  exists calls, calls ≡ₚ returns l /\ serial (wrap width v) calls (value m).
Proof using Hann Hwidth.
  intros Hr Hidle. destruct (runs_atomically v l m Hr) as (a & Ha & Hv & _ & Ht).
  destruct (spec_run_serial v l a Ha) as (calls & p & Hs & Hperm & _ & Hp). exists calls.
  assert (p = []) as ->.
  { destruct p as [|[[c o] r] p]; [done|]. destruct (proj1 (Hp c o r)) as [h Hd]; [by left|].
    specialize (Ht c). destruct (Hidle c) as [h' Hi]. rewrite Hi, Hd in Ht. done. }
  rewrite app_nil_r in Hperm. rewrite <- Hv. done.
Qed.
End Simulation.

(** * A CPU alone *)

Lemma run_app {T} (R : T -> option (event op) -> T -> Prop) s l t l' u : run R s l t -> run R t l' u -> run R s (l ++ l') u.
Proof.
  intros H1. induction 1 as [|t x l' e u H2 IH Hstep]; [by rewrite app_nil_r|].
  rewrite app_assoc. econstructor; [by apply IH|done].
Qed.

Lemma run_one {T} (R : T -> option (event op) -> T -> Prop) s e t : R s e t -> run R s (option_list e) t.
Proof. intros Hs. apply (run_snoc R s s [] e t); [constructor|done]. Qed.

Lemma run_silent {T} (R : T -> option (event op) -> T -> Prop) s t l u : R s None t -> run R t l u -> run R s l u.
Proof. intros Hs Hr. apply (run_app R s [] t l u); [by apply (run_one R s None t)|done]. Qed.

Lemma run_shows {T} (R : T -> option (event op) -> T -> Prop) s e t l u : R s (Some e) t -> run R t l u -> run R s (e :: l) u.
Proof. intros Hs Hr. apply (run_app R s [e] t l u); [by apply (run_one R s (Some e) t)|done]. Qed.

Lemma step_return_with m c h o pc rs r : threads m c = Running h o pc rs -> code o !! pc = None -> out o rs = r ->
  step m (Some (Return c o r)) (move c (Idle (after h o r)) m).
Proof. intros Hc Hcode <-. by eapply step_return. Qed.

Section Alone.
Context (fuel : nat) (l : list instr) (pc : nat) (rs : regs) (v : Z) (res : option (regs * bool * Z)).

Lemma alone_ldxr mon dst : l !! pc = Some (Ldxr dst) -> alone fuel l (S pc) (dst rs v) true v = res -> alone (S fuel) l pc rs mon v = res.
Proof. intros E. cbn. by rewrite E. Qed.
Lemma alone_stxr dst val : l !! pc = Some (Stxr dst val) ->
  alone fuel l (S pc) (dst rs 0) false (wrap width (val rs)) = res -> alone (S fuel) l pc rs true v = res.
Proof. intros E. cbn. by rewrite E. Qed.
Lemma alone_ldr mon dst : l !! pc = Some (Ldr dst) -> alone fuel l (S pc) (dst rs v) mon v = res -> alone (S fuel) l pc rs mon v = res.
Proof. intros E. cbn. by rewrite E. Qed.
Lemma alone_str mon val : l !! pc = Some (Str val) ->
  alone fuel l (S pc) rs false (wrap width (val rs)) = res -> alone (S fuel) l pc rs mon v = res.
Proof. intros E. cbn. by rewrite E. Qed.
Lemma alone_alu mon f : l !! pc = Some (Alu f) -> alone fuel l (S pc) (f rs) mon v = res -> alone (S fuel) l pc rs mon v = res.
Proof. intros E. cbn. by rewrite E. Qed.
Lemma alone_branch mon cond target b : l !! pc = Some (Branch cond target) -> cond rs = b ->
  alone fuel l (if b then target else S pc) rs mon v = res -> alone (S fuel) l pc rs mon v = res.
Proof. intros E <-. cbn. by rewrite E. Qed.
Lemma alone_hint mon : l !! pc = Some Hint -> alone fuel l (S pc) rs mon v = res -> alone (S fuel) l pc rs mon v = res.
Proof. intros E. cbn. by rewrite E. Qed.
Lemma alone_end mon : l !! pc = None -> alone (S fuel) l pc rs mon v = Some (rs, mon, v).
Proof. intros E. cbn. by rewrite E. Qed.
End Alone.

(** A tick is a step; any other step of the same CPU but a call is a store-exclusive that fails
    although the monitor is set. *)
Lemma tick_step c m r m' : tick c m = Some (r, m') ->
  exists h o pc rs, threads m c = Running h o pc rs /\ step m (Return c o <$> r) m'.
Proof.
  unfold tick. intros E. destruct (threads m c) as [h|h o pc rs] eqn:Hc; [done|]. exists h, o, pc, rs. split; [done|].
  destruct (code o !! pc) as [[dst|dst val|dst|val|f|cond target|]|] eqn:Hcode; [| |..|].
  2: destruct (monitor m c) eqn:Hm.
  all: injection E as <- <-; cbn; by econstructor.
Qed.

(** What the instructions compute alone is what the machine does while the others stand still. *)
Lemma alone_ticks fuel c h o pc rs mon v rs' mon' v' m :
  alone fuel (code o) pc rs mon v = Some (rs', mon', v') ->
  threads m c = Running h o pc rs -> monitor m c = mon -> value m = v ->
  exists m', left_alone fuel c m = Some (out o rs', m') /\ run step m [Return c o (out o rs')] m' /\
    threads m' c = Idle (after h o (out o rs')) /\ value m' = v' /\ (forall d, d <> c -> threads m' d = threads m d).
Proof.
  assert (Hat : forall {A} (f : Z -> A) a, at_cpu f c a c = a) by (intros; unfold at_cpu; by rewrite decide_True).
  assert (Hne : forall {A} (f : Z -> A) a d, d <> c -> at_cpu f c a d = f d) by (intros; unfold at_cpu; by rewrite decide_False).
  revert pc rs mon v m. induction fuel as [|fuel IH]; intros pc rs mon v m E Hc Hm Hv; [done|]. cbn in E.
  assert (Hgo : forall m1 pc1 rs1 mon1 v1, tick c m = Some (None, m1) -> (forall d, d <> c -> threads m1 d = threads m d) ->
    alone fuel (code o) pc1 rs1 mon1 v1 = Some (rs', mon', v') ->
    threads m1 c = Running h o pc1 rs1 -> monitor m1 c = mon1 -> value m1 = v1 ->
    exists m', left_alone (S fuel) c m = Some (out o rs', m') /\ run step m [Return c o (out o rs')] m' /\
      threads m' c = Idle (after h o (out o rs')) /\ value m' = v' /\ (forall d, d <> c -> threads m' d = threads m d)).
  { intros m1 pc1 rs1 mon1 v1 Ht Ho E1 Hc1 Hm1 Hv1.
    destruct (IH pc1 rs1 mon1 v1 m1 E1 Hc1 Hm1 Hv1) as (m' & Hl & Hr & Hi & Hv' & Ho').
    exists m'. cbn [left_alone]. rewrite Ht. split; [done|].
    destruct (tick_step _ _ _ _ Ht) as (? & ? & ? & ? & _ & Hs). split; [by eapply run_silent|]. split; [done|]. split; [done|].
    intros d Hd. by rewrite Ho', Ho. }
  assert (Ht : tick c m = tick c m) by done. unfold tick at 2 in Ht. rewrite Hc in Ht.
  destruct (code o !! pc) as [[dst|dst val|dst|val|f|cond target|]|] eqn:Hcode.
  2: destruct (monitor m c) eqn:Em; destruct mon; try done.
  9: { injection E as <- <- <-. exists (move c (Idle (after h o (out o rs))) m). cbn [left_alone]. rewrite Ht. split; [done|].
       destruct (tick_step _ _ _ _ Ht) as (h1 & o1 & pc1 & rs1 & Hc1 & Hs). rewrite Hc in Hc1. injection Hc1 as <- <- <- <-.
       split; [by apply (run_one step m (Some _))|]. split; [apply Hat|]. split; [done|]. intros d Hd. by apply Hne. }
  all: subst v; (eapply Hgo; [exact Ht|intros d Hd; by apply Hne|exact E|apply Hat|..]); try done; try apply Hat.
Qed.

(** A call made while the others stand still returns, after at most [fuel] steps. *)
Lemma alone_call fuel m c h o g rs' mon' v' :
  alone fuel (code o) 0 (entry o g) (monitor m c) (value m) = Some (rs', mon', v') ->
  threads m c = Idle h -> may_call h o ->
  exists m', left_alone fuel c (called c h o g m) = Some (out o rs', m') /\
    run step m [Call c o; Return c o (out o rs')] m' /\
    threads m' c = Idle (after h o (out o rs')) /\ value m' = v' /\ (forall d, d <> c -> threads m' d = threads m d).
Proof.
  intros E Hc Hcall. set (m1 := called c h o g m).
  assert (Hc1 : threads m1 c = Running h o 0 (entry o g)) by (cbn; unfold at_cpu; by rewrite decide_True).
  destruct (alone_ticks _ c h o _ _ _ _ _ _ _ m1 E Hc1 eq_refl eq_refl) as (m2 & Hl & Hr & Hi & Hv & Ho).
  exists m2. split; [done|]. split; [|split; [done|split; [done|]]].
  - apply (run_app _ m [Call c o] m1); [apply (run_one step m (Some _)); by apply step_call|done].
  - intros d Hd. rewrite Ho by done. cbn. unfold at_cpu. by rewrite decide_False.
Qed.

(** * Assertions that recur *)

(** The value [v] a reservation was taken at. *)
Definition at_value (ex : option Z) (x : Z) : Prop := forall v, ex = Some v -> v = x.

(** A store-exclusive that gave [status]: the effect has happened, or the loop starts again. *)
Definition stored (status : Z) (r : Z) (st : option Z) : Prop :=
  (status = 1 /\ st = None) \/ (status = 0 /\ st = Some r).

Lemma at_value_some x : at_value (Some x) x.
Proof. by intros v [= ->]. Qed.

Lemma at_value_eq v x : at_value (Some v) x -> v = x.
Proof. intros Hat. by apply Hat. Qed.

Lemma stored_retry status r st : stored status r st ->
  (truth status = true /\ st = None) \/ (truth status = false /\ st = Some r).
Proof. intros [[-> ->]|[-> ->]]; [by left|by right]. Qed.

(** A store-exclusive whose success is the effect. *)
Lemma store_effects o v v' r st ex :
  st = None -> (ex = Some v -> effect o v v' r) ->
  (ex = Some v -> exists st', effects o v v' st st' /\ stored 0 r st') /\
  (exists st', effects o v v st st' /\ stored 1 r st').
Proof.
  intros -> He. split.
  - intros Hex. exists (Some r). split; [right; split; [done|]; exists r; split; [done|by apply He]|by right].
  - exists None. split; [by left|by left].
Qed.

(** An effect that leaves the value, at a load or a failed store. *)
Lemma load_effect o v r : effect o v v r -> effects o v v None (Some r).
Proof. intros He. right. split; [done|]. by exists r. Qed.
End Machine.

#[export] Hint Resolve at_value_some : core.

(** No effect here. *)
Ltac keep := eexists; split; [left; split; reflexivity|].

(** Follow the instructions of a CPU alone; a branch is decided by the conditions at hand. *)
Ltac alone_step :=
  first [ eapply alone_ldxr; [reflexivity|] | eapply alone_stxr; [reflexivity|] | eapply alone_ldr; [reflexivity|]
        | eapply alone_str; [reflexivity|] | eapply alone_alu; [reflexivity|] | eapply alone_hint; [reflexivity|]
        | eapply alone_branch; [reflexivity|cbn [r0 r1 r2 set_r0 set_r1 set_r2]; first [eassumption|reflexivity]|] ];
  cbv iota; cbn [r0 r1 r2 set_r0 set_r1 set_r2].
Ltac alone_run := repeat alone_step; apply alone_end; reflexivity.
