(* ===== verification/Atomic.v ===== *)
(** The atomic counters: platform/aarch64/include/atomic/atomic.h.

    Each function is the list of its instructions, with the C loop around the inlined
    compare-and-exchange of [__atomic_add_unless] as branches. A 32-bit [int] and a 64-bit
    [long] live in a register as their residue; the conversion to the C type is made where the
    function returns. *)
From Stdlib Require Import ZArith Lia.
From stdpp Require Import base list.
From S2P Require Import Prelude Exclusive.

Open Scope Z_scope.

(** * Instructions

    [w] is 32 for [atomic_t] and 64 for [atomic64_t]. *)
Section Code.
Context (w : Z).

(** The retry branch, [cbnz %w1, 1b]. *)
Definition retry (status : regs -> Z) (target : nat) : instr := Branch (fun rs => truth (status rs)) target.

Definition atomic_add_asm (i : Z) : list instr :=
  [ Ldxr set_r0;
    Alu (fun rs => set_r0 rs (wrap w (r0 rs + i)));
    Stxr set_r1 r0;
    retry r1 0 ].

Definition atomic_sub_asm (i : Z) : list instr :=
  [ Ldxr set_r0;
    Alu (fun rs => set_r0 rs (wrap w (r0 rs - i)));
    Stxr set_r1 r0;
    retry r1 0 ].

Definition smp_mb : instr := Hint.

Definition atomic_add_return_asm (i : Z) : list instr := atomic_add_asm i ++ [smp_mb].
Definition atomic_sub_return_asm (i : Z) : list instr := atomic_sub_asm i ++ [smp_mb].

(** Placed at instruction [base]; [old] and [new_val] are the operands. *)
Definition atomic_cmpxchg_asm (base : nat) (old new_val : regs -> Z) : list instr :=
  [ smp_mb;
    Ldxr set_r1;
    Branch (fun rs => negb (r1 rs =? old rs)) (base + 5);
    Stxr set_r0 new_val;
    retry r0 (base + 1);
    smp_mb ].

(** [c] is in [r2], [old] in [r1]. *)
Definition atomic_add_unless_asm (a u : Z) : list instr :=
  [ Ldr set_r2;
    Branch (fun rs => r2 rs =? wrap w u) 11 ]
  ++ atomic_cmpxchg_asm 2 r2 (fun rs => wrap w (r2 rs + a)) ++
  [ Branch (fun rs => r1 rs =? r2 rs) 11;
    Alu (fun rs => set_r2 rs (r1 rs));
    Branch (fun _ => true) 1 ].

(** [b.mi] tests the sign of the difference. *)
Definition atomic64_dec_if_positive_asm : list instr :=
  [ Ldxr set_r0;
    Alu (fun rs => set_r0 rs (wrap w (r0 rs - 1)));
    Branch (fun rs => Z.testbit (r0 rs) (w - 1)) 6;
    Stxr set_r1 r0;
    retry r1 0;
    smp_mb ].
End Code.

(** The 64-bit functions are the same instructions on [%0] instead of [%w0]. *)
Definition atomic64_add_asm (i : Z) : list instr := atomic_add_asm 64 i.
Definition atomic64_add_return_asm (i : Z) : list instr := atomic_add_return_asm 64 i.
Definition atomic64_sub_asm (i : Z) : list instr := atomic_sub_asm 64 i.
Definition atomic64_sub_return_asm (i : Z) : list instr := atomic_sub_return_asm 64 i.
Definition atomic64_cmpxchg_asm (old new_val : Z) : list instr :=
  atomic_cmpxchg_asm 0 (fun _ => u64 old) (fun _ => u64 new_val).
Definition atomic64_add_unless_asm (a u : Z) : list instr := atomic_add_unless_asm 64 a u.

(** * The counters as objects *)

Inductive atomic_op :=
  | atomic_read
  | atomic_set (i : Z)
  | atomic_add (i : Z)
  | atomic_add_return (i : Z)
  | atomic_sub (i : Z)
  | atomic_sub_return (i : Z)
  | atomic_cmpxchg (old new_val : Z)
  | atomic_add_unless (a u : Z)
  | atomic_dec_if_positive.

Definition atomic_code (w : Z) (o : atomic_op) : list instr :=
  match o with
  | atomic_read => [Ldr set_r0]
  | atomic_set i => [Str (fun _ => wrap w i)]
  | atomic_add i => atomic_add_asm w i
  | atomic_add_return i => atomic_add_return_asm w i
  | atomic_sub i => atomic_sub_asm w i
  | atomic_sub_return i => atomic_sub_return_asm w i
  | atomic_cmpxchg old new_val => atomic_cmpxchg_asm 0 (fun _ => wrap w old) (fun _ => wrap w new_val)
  | atomic_add_unless a u => atomic_add_unless_asm w a u
  | atomic_dec_if_positive => atomic64_dec_if_positive_asm w
  end.

(** [ret] converts the register to the type the functions return, [unless] makes the result of
    the add-unless from the last value of [c]; a function returning void gives 0. *)
Section Counter.
Context (w : Z) (ret : Z -> Z) (unless : Z -> Z -> Z).

Definition atomic_out (o : atomic_op) (rs : regs) : Z :=
  match o with
  | atomic_read => swrap w (r0 rs)
  | atomic_set _ | atomic_add _ | atomic_sub _ => 0
  | atomic_add_return _ | atomic_sub_return _ => ret (r0 rs)
  | atomic_cmpxchg _ _ => ret (r1 rs)
  | atomic_add_unless _ u => unless (r2 rs) u
  | atomic_dec_if_positive => swrap w (r0 rs)
  end.

(** What each operation means: the value it leaves and its result, from the value it finds. *)
Definition atomic_meaning (o : atomic_op) (v : Z) : Z * Z :=
  match o with
  | atomic_read => (v, swrap w v)
  | atomic_set i => (wrap w i, 0)
  | atomic_add i => (wrap w (v + i), 0)
  | atomic_add_return i => (wrap w (v + i), ret (wrap w (v + i)))
  | atomic_sub i => (wrap w (v - i), 0)
  | atomic_sub_return i => (wrap w (v - i), ret (wrap w (v - i)))
  | atomic_cmpxchg old new_val => (if v =? wrap w old then wrap w new_val else v, ret v)
  | atomic_add_unless a u => (if v =? wrap w u then v else wrap w (v + a), unless v u)
  | atomic_dec_if_positive =>
      let d := wrap w (v - 1) in (if Z.testbit d (w - 1) then v else d, swrap w d)
  end.

Definition counter : Object := {|
  width := w; op := atomic_op; code := atomic_code w; entry := fun _ rs => rs; out := atomic_out;
  effect := fun o v v' r => (v', r) = atomic_meaning o v;
  phase := unit; at_start := tt; may_call := fun _ _ => True; after := fun _ _ _ => tt |}.
End Counter.

(** [atomic_t]: the functions return [int], __atomic_add_unless the old value. *)
Definition atomic_t : Object := counter 32 (swrap 32) (fun c _ => swrap 32 c).
(** [atomic64_t]: the functions return [uint64_t], atomic64_add_unless [c != u]. *)
Definition atomic64_t : Object := counter 64 (fun v => v) (fun c u => bool_Z (negb (c =? wrap 64 u))).

(** The instructions of an [atomic64_t] are those of the 64-bit functions. *)
Lemma atomic64_code i a u : let code := code (Object := atomic64_t) in
  code (atomic_add i) = atomic64_add_asm i /\ code (atomic_add_return i) = atomic64_add_return_asm i /\
  code (atomic_sub i) = atomic64_sub_asm i /\ code (atomic_sub_return i) = atomic64_sub_return_asm i /\
  code (atomic_cmpxchg a u) = atomic64_cmpxchg_asm a u /\ code (atomic_add_unless a u) = atomic64_add_unless_asm a u /\
  code atomic_dec_if_positive = atomic64_dec_if_positive_asm 64.
Proof. repeat split. Qed.

Definition atomic_inc : atomic_op := atomic_add 1.
Definition atomic_dec : atomic_op := atomic_sub 1.
Definition atomic_inc_return : atomic_op := atomic_add_return 1.
Definition atomic_dec_return : atomic_op := atomic_sub_return 1.
Definition atomic64_inc_not_zero : atomic_op := atomic_add_unless 1 0.

(** The macros that test a result. *)
Definition atomic_and_test (r : Z) : Z := bool_Z (r =? 0).
Definition atomic_add_negative (r : Z) : Z := bool_Z (r <? 0).
