(* ===== verification/AtomicProof.v ===== *)
(** The instruction sequences of atomic.h implement what the operations mean. *)
From Stdlib Require Import ZArith Lia.
From stdpp Require Import base list.
From S2P Require Import Prelude Exclusive ExclusiveProof Atomic.

Open Scope Z_scope.

Section Annotations.
Context (w : Z) (ret : Z -> Z) (unless : Z -> Z -> Z).

#[local] Existing Instance counter.
#[local] Abbreviation obj := (counter w ret unless).

(** The load, change and store of add and sub; [f] is the change. *)
Definition change_holds (f : Z -> Z) (res : regs -> Z) (pc : nat) (rs : regs) (ex st : option Z) : Prop :=
  match pc with
  | 0%nat => st = None
  | 1%nat => st = None /\ at_value ex (r0 rs)
  | 2%nat => st = None /\ exists v, at_value ex v /\ r0 rs = wrap w (f v)
  | 3%nat => stored (r1 rs) (res rs) st
  | _ => st = Some (res rs)
  end.

Definition cmpxchg_holds (old : Z) (pc : nat) (rs : regs) (ex st : option Z) : Prop :=
  match pc with
  | 0%nat | 1%nat => st = None
  | 2%nat => (r1 rs = old /\ st = None /\ at_value ex old) \/ (r1 rs <> old /\ st = Some (ret (r1 rs)))
  | 3%nat => r1 rs = old /\ st = None /\ at_value ex old
  | 4%nat => stored (r0 rs) (ret (r1 rs)) st
  | _ => st = Some (ret (r1 rs))
  end.

(** The comparison of [c] with [u]: equal values have ended the operation. *)
Definition decided (u c : Z) (st : option Z) : Prop :=
  (c = wrap w u /\ st = Some (unless c u)) \/ (c <> wrap w u /\ st = None).

Definition unless_holds (u : Z) (pc : nat) (rs : regs) (ex st : option Z) : Prop :=
  let going := r2 rs <> wrap w u in
  let swapped := r1 rs = r2 rs /\ going /\ st = Some (unless (r2 rs) u) in
  let again := r1 rs <> r2 rs /\ decided u (r1 rs) st in
  match pc with
  | 0%nat => st = None
  | 1%nat | 10%nat => decided u (r2 rs) st
  | 2%nat | 3%nat => going /\ st = None
  | 4%nat => (r1 rs = r2 rs /\ going /\ st = None /\ at_value ex (r2 rs)) \/ again
  | 5%nat => r1 rs = r2 rs /\ going /\ st = None /\ at_value ex (r2 rs)
  | 6%nat => r1 rs = r2 rs /\ going /\ stored (r0 rs) (unless (r2 rs) u) st
  | 7%nat | 8%nat => swapped \/ again
  | 9%nat => again
  | _ => st = Some (unless (r2 rs) u)
  end.

Definition dec_holds (pc : nat) (rs : regs) (ex st : option Z) : Prop :=
  let neg v := Z.testbit (wrap w (v - 1)) (w - 1) in
  match pc with
  | 0%nat => st = None
  | 1%nat => (neg (r0 rs) = true /\ st = Some (swrap w (wrap w (r0 rs - 1)))) \/
             (neg (r0 rs) = false /\ st = None /\ at_value ex (r0 rs))
  | 2%nat => (Z.testbit (r0 rs) (w - 1) = true /\ st = Some (swrap w (r0 rs))) \/
             (Z.testbit (r0 rs) (w - 1) = false /\ st = None /\ exists v, at_value ex v /\ r0 rs = wrap w (v - 1))
  | 3%nat => Z.testbit (r0 rs) (w - 1) = false /\ st = None /\ exists v, at_value ex v /\ r0 rs = wrap w (v - 1)
  | 4%nat => stored (r1 rs) (swrap w (r0 rs)) st
  | _ => st = Some (swrap w (r0 rs))
  end.

Definition atomic_holds (o : atomic_op) : nat -> regs -> option Z -> option Z -> Prop :=
  match o with
  | atomic_read => fun pc rs _ st => match pc with 0%nat => st = None | _ => st = Some (swrap w (r0 rs)) end
  | atomic_set i => fun pc rs _ st => match pc with 0%nat => st = None | _ => st = Some 0 end
  | atomic_add i => change_holds (fun v => v + i) (fun _ => 0)
  | atomic_add_return i => change_holds (fun v => v + i) (fun rs => ret (r0 rs))
  | atomic_sub i => change_holds (fun v => v - i) (fun _ => 0)
  | atomic_sub_return i => change_holds (fun v => v - i) (fun rs => ret (r0 rs))
  | atomic_cmpxchg old _ => cmpxchg_holds (wrap w old)
  | atomic_add_unless a u => unless_holds u
  | atomic_dec_if_positive => dec_holds
  end.

Ltac change_lose :=
  intros [|[|[|[|pc]]]] rs v st; cbn; try done; [by intros [-> _]|]; intros (-> & x & _ & Hr); split; [done|]; by exists x.

(** add, sub and the two that return the new value. *)
Ltac change_annotated :=
  split; [done|change_lose|];
  intros [|[|[|[|[|pc]]]]] rs ex st v Hh Hex Hv; cbn in *;
  [ keep; done
  | destruct Hh as [-> Hat]; split; [done|]; by exists (r0 rs)
  | destruct Hh as (Hst & x & Hat & Hr); apply (store_effects (H := obj)); [done|];
    intros ->; rewrite Hr, wrap_wrap, (at_value_eq _ _ Hat); reflexivity
  | destruct (stored_retry _ _ _ Hh) as [[-> ->]|[-> ->]]; done
  | done | try done; by destruct pc ].

Lemma add_annotated i : annotated (H := obj) (atomic_add i) (atomic_holds (atomic_add i)).
Proof. change_annotated. Qed.
Lemma sub_annotated i : annotated (H := obj) (atomic_sub i) (atomic_holds (atomic_sub i)).
Proof. change_annotated. Qed.
Lemma add_return_annotated i : annotated (H := obj) (atomic_add_return i) (atomic_holds (atomic_add_return i)).
Proof. change_annotated. Qed.
Lemma sub_return_annotated i : annotated (H := obj) (atomic_sub_return i) (atomic_holds (atomic_sub_return i)).
Proof. change_annotated. Qed.

Lemma read_annotated : annotated (H := obj) atomic_read (atomic_holds atomic_read).
Proof.
  split; [done|by intros [|pc]|]. intros [|pc] rs ex st v Hh Hex Hv; cbn in *; [|done].
  subst. eexists. split; [by apply load_effect|done].
Qed.

Lemma set_annotated i : annotated (H := obj) (atomic_set i) (atomic_holds (atomic_set i)).
Proof.
  split; [done|by intros [|pc]|]. intros [|pc] rs ex st v Hh Hex Hv; cbn in *; [|done].
  subst. exists (Some 0). split; [|done]. right. split; [done|]. exists 0. by rewrite wrap_wrap.
Qed.

Lemma cmpxchg_annotated old new_val :
  annotated (H := obj) (atomic_cmpxchg old new_val) (atomic_holds (atomic_cmpxchg old new_val)).
Proof.
  split; [done| |].
  - intros [|[|[|[|pc]]]] rs v st; cbn; try done; [|by intros (-> & -> & _)].
    intros [(-> & -> & _)|?]; [left|right]; done.
  - intros [|[|[|[|[|[|pc]]]]]] rs ex st v Hh Hex Hv; cbn in *.
    + done.
    + subst st. destruct (decide (v = wrap w old)) as [->|Hne]; [keep; by left|].
      eexists. split; [apply (load_effect (H := obj)); cbn; by rewrite (proj2 (Z.eqb_neq _ _) Hne)|]. by right.
    + destruct Hh as [(Hr & -> & Hat)|[Hne ->]]; [rewrite Hr, Z.eqb_refl; done|].
      by rewrite (proj2 (Z.eqb_neq _ _) Hne).
    + destruct Hh as (Hr & Hst & Hat). apply (store_effects (H := obj)); [done|]. intros ->.
      cbn. by rewrite wrap_wrap, (at_value_eq _ _ Hat), Hr, Z.eqb_refl.
    + destruct (stored_retry _ _ _ Hh) as [[-> ->]|[-> ->]]; done.
    + done.
    + by destruct pc.
Qed.

Lemma dec_annotated : annotated (H := obj) atomic_dec_if_positive (atomic_holds atomic_dec_if_positive).
Proof.
  split; [done| |].
  - intros [|[|[|[|pc]]]] rs v st; cbn; try done.
    + intros [?|(? & -> & _)]; [by left|by right].
    + intros [?|(? & -> & x & _ & ?)]; [by left|right]. split; [done|]. split; [done|]. by exists x.
    + intros (? & -> & x & _ & ?). split; [done|]. split; [done|]. by exists x.
  - intros [|[|[|[|[|[|pc]]]]]] rs ex st v Hh Hex Hv; cbn in *.
    + subst st. destruct (Z.testbit (wrap w (v - 1)) (w - 1)) eqn:Ht; [|keep; by right].
      eexists. split; [apply (load_effect (H := obj)); cbn; by rewrite Ht|]. by left.
    + destruct Hh as [?|(Ht & -> & Hat)]; [by left|right]. split; [done|]. split; [done|]. by exists (r0 rs).
    + destruct Hh as [[Ht ->]|(Ht & -> & Hx)]; rewrite Ht; done.
    + destruct Hh as (Ht & Hst & x & Hat & Hr). apply (store_effects (H := obj)); [done|]. intros ->.
      cbn. rewrite (at_value_eq _ _ Hat), <- Hr, Ht. by rewrite Hr, wrap_wrap.
    + destruct (stored_retry _ _ _ Hh) as [[-> ->]|[-> ->]]; done.
    + done.
    + by destruct pc.
Qed.

Lemma decided_test u c st : decided u c st ->
  ((c =? wrap w u) = true /\ st = Some (unless c u)) \/ ((c =? wrap w u) = false /\ c <> wrap w u /\ st = None).
Proof. intros [[-> ->]|[Hne ->]]; [left; by rewrite Z.eqb_refl|right; by rewrite (proj2 (Z.eqb_neq _ _) Hne)]. Qed.

(** The load of [c] or of [old] ends the operation when it meets [u]. *)
Lemma decide_unless a u v : exists st, effects (H := obj) (atomic_add_unless a u) v v None st /\ decided u v st.
Proof.
  destruct (decide (v = wrap w u)) as [Heq|Hne].
  - exists (Some (unless v u)). split; [apply (load_effect (H := obj)); cbn; by rewrite Heq, Z.eqb_refl|]. by left.
  - exists None. split; [by left|by right].
Qed.

Lemma unless_annotated a u : annotated (H := obj) (atomic_add_unless a u) (atomic_holds (atomic_add_unless a u)).
Proof.
  split; [done| |].
  - intros [|[|[|[|[|[|pc]]]]]] rs v st; cbn; try done.
    + intros [(? & ? & -> & _)|?]; [by left|by right].
    + by intros (? & ? & -> & _).
  - intros [|[|[|[|[|[|[|[|[|[|[|pc]]]]]]]]]]] rs ex st v Hh Hex Hv; cbn in *.
    + subst st. apply decide_unless.
    + destruct (decided_test _ _ _ Hh) as [[-> ->]|(-> & ? & ->)]; done.
    + done.
    + destruct Hh as [Hne ->]. destruct (decide (v = r2 rs)) as [Heq|Hd].
      * exists None. split; [by left|]. left. rewrite Heq. done.
      * destruct (decide_unless a u v) as (st & He & Hdec). exists st. split; [done|]. by right.
    + destruct Hh as [(Hr & ? & -> & ?)|[Hr ?]]; [rewrite Hr, Z.eqb_refl; done|].
      rewrite (proj2 (Z.eqb_neq _ _) Hr). by right.
    + destruct Hh as (Hr & Hne & Hst & Hat).
      destruct (store_effects (H := obj) (atomic_add_unless a u) v (wrap w (wrap w (r2 rs + a))) (unless (r2 rs) u) st ex Hst) as [Hs Hf].
      { intros ->. cbn. by rewrite wrap_wrap, (at_value_eq _ _ Hat), (proj2 (Z.eqb_neq _ _) Hne). }
      split; [intros Hx; destruct (Hs Hx) as (st' & ? & ?)|destruct Hf as (st' & ? & ?)]; by exists st'.
    + destruct Hh as (Hr & Hne & Hs). destruct (stored_retry _ _ _ Hs) as [[-> ->]|[-> ->]]; [done|by left].
    + done.
    + destruct Hh as [(Hr & ? & ->)|[Hr ?]]; [by rewrite Hr, Z.eqb_refl|]. by rewrite (proj2 (Z.eqb_neq _ _) Hr).
    + by destruct Hh.
    + done.
    + by destruct pc.
Qed.

Lemma atomic_annotated o : annotated (H := obj) o (atomic_holds o).
Proof.
  destruct o; [apply read_annotated|apply set_annotated|apply add_annotated|apply add_return_annotated|apply sub_annotated
    |apply sub_return_annotated|apply cmpxchg_annotated|apply unless_annotated|apply dec_annotated].
Qed.
End Annotations.

(** * A CPU alone

    At most two rounds of the loops are needed: the store-exclusive succeeds. *)
Lemma counter_alone w ret unless o g mon v : 0 <= w -> 0 <= v < 2 ^ w ->
  exists rs mon' v', alone (H := counter w ret unless) 16 (atomic_code w o) 0 g mon v = Some (rs, mon', v') /\
    (v', atomic_out w ret unless o rs) = atomic_meaning w ret unless o v.
Proof.
  intros Hw Hv. destruct o as [|i|i|i|i|i|old new_val|a u|].
  1-6: eexists _, _, _; split; [alone_run|]; cbn; by rewrite ?wrap_wrap.
  - destruct (v =? wrap w old) eqn:E.
    + assert (Hn : negb (v =? wrap w old) = false) by by rewrite E.
      eexists _, _, _. split; [alone_run|]. cbn. by rewrite E, wrap_wrap.
    + assert (Hn : negb (v =? wrap w old) = true) by by rewrite E.
      eexists _, _, _. split; [alone_run|]. cbn. by rewrite E.
  - pose proof (Z.eqb_refl v) as Hv'. assert (Hn : negb (v =? v) = false) by by rewrite Hv'.
    destruct (v =? wrap w u) eqn:E; eexists _, _, _; (split; [alone_run|]); cbn; by rewrite E, ?wrap_wrap.
  - destruct (Z.testbit (wrap w (v - 1)) (w - 1)) eqn:E; eexists _, _, _; (split; [alone_run|]); cbn; by rewrite E, ?wrap_wrap.
Qed.
