(* ===== verification/AtomicTheorems.v ===== *)
(** The properties of the atomic counters, each with a concrete instance. *)
From Stdlib Require Import ZArith Lia.
From stdpp Require Import base list.
From S2P Require Import Prelude Exclusive ExclusiveProof Atomic AtomicProof.

Open Scope Z_scope.

(** * Adding and subtracting *)

(** What add and sub, returning or not, change the counter by. *)
Definition delta (o : atomic_op) : option Z :=
  match o with
  | atomic_add i | atomic_add_return i => Some i
  | atomic_sub i | atomic_sub_return i => Some (- i)
  | _ => None
  end.

Definition amount (call : Z * atomic_op * Z) : Z := default 0 (delta (call.1.2)).
Definition total (calls : list (Z * atomic_op * Z)) : Z := foldr Z.add 0 (amount <$> calls).

Lemma total_perm calls calls' : calls ≡ₚ calls' -> total calls = total calls'.
Proof. unfold total. induction 1 as [| | |? ? ? _ IH1 _ IH2]; cbn in *; [done|lia|lia|by rewrite IH1]. Qed.

Lemma delta_meaning w ret unless o i v v' r : delta o = Some i ->
  (v', r) = atomic_meaning w ret unless o v -> v' = wrap w (v + i).
Proof. destruct o; cbn; intros [= <-] [= -> _]; done. Qed.

Lemma wrap_add_l w a b : wrap w (wrap w a + b) = wrap w (a + b).
Proof. unfold wrap. apply Zplus_mod_idemp_l. Qed.

Lemma serial_total w ret unless calls v v' :
  Forall (fun call => is_Some (delta (call.1.2))) calls ->
  serial (H := counter w ret unless) (wrap w v) calls v' -> v' = wrap w (v + total calls).
Proof.
  intros Hall. revert v. induction Hall as [|[[c o] r] calls [i Hi] Hall IH]; intros v Hs.
  - cbn in Hs. rewrite Hs. f_equal. cbn. lia.
  - destruct Hs as (x & He & Hs). rewrite (delta_meaning _ _ _ _ _ _ _ _ Hi He), wrap_add_l in Hs.
    rewrite (IH _ Hs). f_equal. unfold total, amount. cbn in *. rewrite Hi. cbn. lia.
Qed.

(** The results of increments that follow each other. *)
Lemma serial_inc w ret unless calls v v' :
  Forall (fun call => call.1.2 = atomic_inc_return) calls ->
  serial (H := counter w ret unless) (wrap w v) calls v' ->
  calls.*2 = (fun k : nat => ret (wrap w (v + 1 + Z.of_nat k))) <$> seq 0 (length calls).
Proof.
  intros Hall. revert v. induction Hall as [|[[c o] r] calls Ho Hall IH]; intros v Hs; [done|].
  destruct Hs as (x & He & Hs). cbn in Ho. subst o. cbn in He. injection He as -> ->. rewrite wrap_add_l in *.
  cbn [length seq fmap list_fmap snd]. f_equal; [by rewrite Z.add_0_r|].
  rewrite (IH _ Hs), <- fmap_S_seq, <- list_fmap_compose. apply list_fmap_ext. intros _ k _. cbn.
  f_equal. f_equal. lia.
Qed.

Lemma swrap_wrap_inj a b : - 2 ^ 32 < a - b < 2 ^ 32 -> swrap 32 (wrap 32 a) = swrap 32 (wrap 32 b) -> a = b.
Proof.
  intros Hd E. unfold swrap, wrap in E. assert (E' : (a mod 2 ^ 32 + 2 ^ (32 - 1)) mod 2 ^ 32 = (b mod 2 ^ 32 + 2 ^ (32 - 1)) mod 2 ^ 32) by lia.
  rewrite !Zplus_mod_idemp_l in E'. apply Z.cong_iff_0 in E'.
  replace (a + 2 ^ (32 - 1) - (b + 2 ^ (32 - 1))) with (a - b) in E' by lia.
  apply Z.mod_divide in E' as [k Hk]; [|lia]. assert (k = 0) by nia. nia.
Qed.

(** 64-bit results are unsigned: atomic64_add_negative is never true. *)
Lemma atomic64_add_negative_never i v v' r :
  (v', r) = atomic_meaning 64 (fun v => v) (fun c u => bool_Z (negb (c =? wrap 64 u))) (atomic_add_return i) v ->
  atomic_add_negative r = 0.
Proof.
  cbn. intros [= _ ->]. unfold atomic_add_negative. pose proof (wrap_range 64 (v + i) ltac:(lia)).
  by rewrite (proj2 (Z.ltb_ge _ _)) by lia.
Qed.

(** * A run of two CPUs

    Both load the counter, CPU 0 stores first, and the store of CPU 1 fails. *)
Lemma two_incs : exists m,
  run (H := atomic_t) step (initial 0) [Call 0 atomic_inc_return; Call 1 atomic_inc_return;
                        Return 0 atomic_inc_return 1; Return 1 atomic_inc_return 2] m /\
  forall c, threads m c = Idle (H := atomic_t) tt.
Proof.
  eexists. split.
  - set (g := {| r0 := 7; r1 := 8; r2 := 9 |}).
    eapply (run_shows (H := atomic_t)); [by apply (step_call (H := atomic_t) _ 0 tt atomic_inc_return g)|].
    eapply (run_shows (H := atomic_t)); [by apply (step_call (H := atomic_t) _ 1 tt atomic_inc_return g)|].
    eapply (run_silent (H := atomic_t)); [by eapply (step_ldxr (H := atomic_t) _ 0)|].
    eapply (run_silent (H := atomic_t)); [by eapply (step_ldxr (H := atomic_t) _ 1)|].
    eapply (run_silent (H := atomic_t)); [by eapply (step_alu (H := atomic_t) _ 0)|].
    eapply (run_silent (H := atomic_t)); [by eapply (step_alu (H := atomic_t) _ 1)|].
    eapply (run_silent (H := atomic_t)); [by eapply (step_stxr (H := atomic_t) _ 0)|].
    eapply (run_silent (H := atomic_t)); [by eapply (step_stxr_fails (H := atomic_t) _ 1)|].
    eapply (run_silent (H := atomic_t)); [by eapply (step_branch (H := atomic_t) _ 0)|].
    eapply (run_silent (H := atomic_t)); [by eapply (step_hint (H := atomic_t) _ 0)|].
    eapply (run_shows (H := atomic_t)); [by eapply (step_return_with (H := atomic_t) _ 0)|].
    eapply (run_silent (H := atomic_t)); [by eapply (step_branch (H := atomic_t) _ 1)|].
    eapply (run_silent (H := atomic_t)); [by eapply (step_ldxr (H := atomic_t) _ 1)|].
    eapply (run_silent (H := atomic_t)); [by eapply (step_alu (H := atomic_t) _ 1)|].
    eapply (run_silent (H := atomic_t)); [by eapply (step_stxr (H := atomic_t) _ 1)|].
    eapply (run_silent (H := atomic_t)); [by eapply (step_branch (H := atomic_t) _ 1)|].
    eapply (run_silent (H := atomic_t)); [by eapply (step_hint (H := atomic_t) _ 1)|].
    eapply (run_shows (H := atomic_t)); [by eapply (step_return_with (H := atomic_t) _ 1)|].
    apply (run_nil (H := atomic_t)).
  - intros c. cbn. unfold at_cpu. destruct (decide (c = 1)), (decide (c = 0)); done.
Qed.

(** * Properties *)

(** C6: the counters are atomic. However the instructions of any number of CPUs interleave, and
    however often a store-exclusive fails, the calls, the results and the value are those of a
    machine where every operation takes effect in one indivisible step between its call and its
    return; and once all calls have returned they have an order in which, one after the other,
    they give those results and that value. This holds for the 32-bit and the 64-bit counter
    and all operations mixed, the loop of add_unless around the compare-and-exchange included. *)
Theorem counters_linearizable w ret unless v l m :
  0 <= w -> run (H := counter w ret unless) step (initial v) l m ->
  (exists a, run spec_step (spec_initial v) l a /\ avalue a = value m /\ 0 <= value m < 2 ^ w /\
     forall c, matches (threads m c) (athreads a c)) /\
  ((forall c, threads m c = Idle (H := counter w ret unless) tt) ->
   exists calls, calls ≡ₚ returns l /\ serial (wrap w v) calls (value m)).
Proof.
  intros Hw Hr. split.
  - exact (runs_atomically (H := counter w ret unless) (atomic_holds w ret unless) (atomic_annotated w ret unless) Hw v l m Hr).
  - intros Hidle. apply (run_serial (H := counter w ret unless) (atomic_holds w ret unless) (atomic_annotated w ret unless) Hw v l m Hr).
    intros c. exists tt. apply Hidle.
Qed.

(** No update is lost. After any interleaving of atomic_add, atomic_sub and the two that
    return the new value, once all calls have returned, the counter is what it was plus the sum
    of all amounts, at its width; and up to 2^32 calls of atomic_inc_return give results that
    are all different. *)
Theorem counters_count w ret unless v l m :
  0 <= w -> run (H := counter w ret unless) step (initial v) l m -> (forall c, threads m c = Idle (H := counter w ret unless) tt) ->
  Forall (fun call => is_Some (delta (call.1.2))) (returns l) ->
  value m = wrap w (v + total (returns l)) /\
  (Forall (fun call => call.1.2 = atomic_inc_return) (returns l) -> w = 32 -> ret = swrap 32 ->
   Z.of_nat (length (returns l)) <= 2 ^ 32 -> NoDup (returns l).*2).
Proof.
  intros Hw Hr Hidle Hall.
  destruct (run_serial (H := counter w ret unless) (atomic_holds w ret unless) (atomic_annotated w ret unless) Hw v l m Hr) as (calls & Hp & Hs).
  { intros c. exists tt. apply Hidle. }
  split.
  - rewrite <- (total_perm _ _ Hp). eapply serial_total; [|exact Hs]. by rewrite Hp.
  - intros Hinc -> -> Hlen. rewrite <- Hp in Hinc, Hlen. rewrite <- Hp.
    refine (eq_ind_r (fun l => NoDup l) _ (serial_inc _ _ _ _ _ _ Hinc Hs)).
    apply NoDup_fmap_2_strong; [|apply NoDup_seq].
    change (Z.of_nat (@length (Z * atomic_op * Z) calls) <= 2 ^ 32) in Hlen.
    intros j k Hj%elem_of_seq Hk%elem_of_seq E. apply swrap_wrap_inj in E; lia.
Qed.

Lemma counters_linearizable_witness : exists m,
  (forall c, threads m c = Idle (H := atomic_t) tt) /\
  (exists a, run (H := atomic_t) spec_step (spec_initial 0)
       [Call 0 atomic_inc_return; Call 1 atomic_inc_return; Return 0 atomic_inc_return 1; Return 1 atomic_inc_return 2] a /\
     avalue a = value m /\ 0 <= value m < 2 ^ 32 /\ forall c, matches (threads m c) (athreads a c)) /\
  ((forall c, threads m c = Idle (H := atomic_t) tt) ->
   exists calls, calls ≡ₚ [(0, atomic_inc_return, 1); (1, atomic_inc_return, 2)] /\
     serial (H := atomic_t) (wrap 32 0) calls (value m)).
Proof.
  destruct two_incs as (m & Hr & Hidle). exists m. split; [exact Hidle|].
  apply (counters_linearizable 32 (swrap 32) (fun c _ => swrap 32 c) 0 _ m ltac:(lia) Hr).
Defined.

Lemma counters_count_witness : exists m, value (H := atomic_t) m = wrap 32 2 /\ NoDup [1; 2].
Proof.
  destruct two_incs as (m & Hr & Hidle). exists m.
  destruct (counters_count 32 (swrap 32) (fun c _ => swrap 32 c) 0 _ m ltac:(lia) Hr Hidle) as [Hv Hnd].
  - repeat constructor; by eexists.
  - split; [exact Hv|]. apply Hnd; [repeat constructor|reflexivity|reflexivity|cbn; lia].
Defined.

(** C30: an operation on a counter returns when its CPU is left alone. From any state of the
    other CPUs, whatever the counter's value, the monitor and the registers, a called operation
    whose instructions run undisturbed (no other CPU in between, no store-exclusive failing
    without a reason) returns after at most sixteen steps; its result and the new value are those
    the operation means, and the other CPUs are where they were. *)
Theorem counter_call_returns w ret unless (m : machine (H := counter w ret unless)) c o g :
  0 <= w -> 0 <= value m < 2 ^ w -> threads m c = Idle (H := counter w ret unless) tt ->
  exists m' r, left_alone 16 c (called (H := counter w ret unless) c tt o g m) = Some (r, m') /\
    run step m [Call c o; Return c o r] m' /\
    threads m' c = Idle (H := counter w ret unless) tt /\ (forall d, d <> c -> threads m' d = threads m d) /\
    (value m', r) = atomic_meaning w ret unless o (value m).
Proof.
  intros Hw Hv Hc. destruct (counter_alone w ret unless o g (monitor m c) (value m) Hw Hv) as (rs & mon & v' & E & Hm).
  destruct (alone_call (H := counter w ret unless) 16 m c tt o g rs mon v' E Hc I) as (m' & Hl & Hr & Hc' & Hv' & Ho).
  exists m', (atomic_out w ret unless o rs). rewrite Hv'. done.
Qed.

Lemma counter_call_returns_witness :
  let m := initial (H := atomic_t) 5 in let g := {| r0 := 9; r1 := 9; r2 := 9 |} in
  exists m' r, left_alone 16 3 (called (H := atomic_t) 3 tt (atomic_add_unless 2 7) g m) = Some (r, m') /\
    run step m [Call 3 (atomic_add_unless 2 7); Return 3 (atomic_add_unless 2 7) r] m' /\
    threads m' 3 = Idle (H := atomic_t) tt /\ (forall d, d <> 3 -> threads m' d = threads m d) /\ (value m', r) = (7, 5).
Proof.
  apply (counter_call_returns 32 (swrap 32) (fun c _ => swrap 32 c) (initial (H := atomic_t) 5) 3 (atomic_add_unless 2 7));
    [lia|change (0 <= 5 < 2 ^ 32); lia|reflexivity].
Defined.
