(* ===== verification/Rwlock.v ===== *)
(** The reader-writer locks of platform/aarch64/include/spinlock/arch_spinlock.h.

    The lock word counts the readers; bit 31 is the writer. Each function is the list of its
    instructions on the machine of Exclusive. The callers keep the protocol of a lock: a CPU
    that holds nothing may ask, and only a reader read-unlocks, only the writer
    write-unlocks. *)
From Stdlib Require Import ZArith Lia.
From stdpp Require Import base list.
From S2P Require Import Prelude Exclusive.

Open Scope Z_scope.

Definition WRITER : Z := 0x80000000.

(** * Instructions *)

(** The status of the store-exclusive goes into the register the lock was loaded to. *)
Definition arch_write_lock_asm : list instr :=
  [ Hint; (* sevl *)
    Hint; (* 1: wfe *)
    Ldxr set_r0;
    Branch (fun rs => truth (r0 rs)) 1;
    Stxr set_r0 (fun _ => WRITER);
    Branch (fun rs => truth (r0 rs)) 2 ].

Definition arch_write_trylock_asm : list instr :=
  [ Ldxr set_r0;
    Branch (fun rs => truth (r0 rs)) 3;
    Stxr set_r0 (fun _ => WRITER) ].

Definition arch_write_unlock_asm : list instr := [ Str (fun _ => 0) ].

(** [tbnz %w0, #31] *)
Definition bit31 (rs : regs) : bool := Z.testbit (r0 rs) 31.

Definition arch_read_lock_asm : list instr :=
  [ Hint; (* sevl *)
    Hint; (* 1: wfe *)
    Ldxr set_r0;
    Alu (fun rs => set_r0 rs (u32 (r0 rs + 1)));
    Branch bit31 1;
    Stxr set_r1 r0;
    Branch (fun rs => truth (r1 rs)) 2 ].

Definition arch_read_unlock_asm : list instr :=
  [ Ldxr set_r0;
    Alu (fun rs => set_r0 rs (u32 (r0 rs - 1)));
    Stxr set_r1 r0;
    Branch (fun rs => truth (r1 rs)) 0 ].

Definition arch_read_trylock_asm : list instr :=
  [ Ldxr set_r0;
    Alu (fun rs => set_r0 rs (u32 (r0 rs + 1)));
    Branch bit31 4;
    Stxr set_r1 r0 ].

(** The macros that look at the word without taking the lock. *)
Definition arch_write_can_lock (lock : Z) : bool := lock =? 0.
Definition arch_read_can_lock (lock : Z) : bool := lock <? 0x80000000.

(** * The lock as an object *)

Inductive rw_op :=
  | arch_write_lock | arch_write_trylock | arch_write_unlock
  | arch_read_lock | arch_read_trylock | arch_read_unlock.

#[global] Instance rw_op_eq_dec : EqDecision rw_op.
Proof. solve_decision. Defined.

Definition rw_code (o : rw_op) : list instr :=
  match o with
  | arch_write_lock => arch_write_lock_asm
  | arch_write_trylock => arch_write_trylock_asm
  | arch_write_unlock => arch_write_unlock_asm
  | arch_read_lock => arch_read_lock_asm
  | arch_read_trylock => arch_read_trylock_asm
  | arch_read_unlock => arch_read_unlock_asm
  end.

(** [unsigned int tmp, tmp2 = 1] in arch_read_trylock. *)
Definition rw_entry (o : rw_op) (rs : regs) : regs :=
  match o with arch_read_trylock => set_r1 rs 1 | _ => rs end.

(** [return !tmp], [return !tmp2]; 0 for the functions that return void. *)
Definition rw_out (o : rw_op) (rs : regs) : Z :=
  match o with
  | arch_write_trylock => bool_Z (negb (truth (r0 rs)))
  | arch_read_trylock => bool_Z (negb (truth (r1 rs)))
  | _ => 0
  end.

(** What the lock means: a writer enters when the word is 0, a reader while the count does not
    reach bit 31, and a try may fail. *)
Definition rw_effect (o : rw_op) (v v' r : Z) : Prop :=
  let writes := v = 0 /\ v' = WRITER in
  let reads := Z.testbit (u32 (v + 1)) 31 = false /\ v' = u32 (v + 1) in
  match o with
  | arch_write_lock => writes /\ r = 0
  | arch_write_trylock => (writes /\ r = 1) \/ (v' = v /\ r = 0)
  | arch_write_unlock => v' = 0 /\ r = 0
  | arch_read_lock => reads /\ r = 0
  | arch_read_trylock => (reads /\ r = 1) \/ (v' = v /\ r = 0)
  | arch_read_unlock => v' = u32 (v - 1) /\ r = 0
  end.

(** What a CPU holds. *)
Inductive hold := Free | Reading | Writing.

#[global] Instance hold_eq_dec : EqDecision hold.
Proof. solve_decision. Defined.

Definition rw_may_call (h : hold) (o : rw_op) : Prop :=
  h = match o with arch_write_unlock => Writing | arch_read_unlock => Reading | _ => Free end.

Definition rw_after (_ : hold) (o : rw_op) (r : Z) : hold :=
  match o with
  | arch_write_lock => Writing
  | arch_read_lock => Reading
  | arch_write_trylock => if truth r then Writing else Free
  | arch_read_trylock => if truth r then Reading else Free
  | arch_write_unlock | arch_read_unlock => Free
  end.

#[global] Instance arch_rwlock_t : Object := {|
  width := 32; op := rw_op; code := rw_code; entry := rw_entry; out := rw_out; effect := rw_effect;
  phase := hold; at_start := Free; may_call := rw_may_call; after := rw_after |}.
