(* ===== verification/RwlockProof.v ===== *)
(** The instruction sequences of the reader-writer locks implement their meaning, and the
    protocol keeps the word equal to the holders. *)
From Stdlib Require Import ZArith Lia.
From stdpp Require Import base list.
From S2P Require Import Prelude Exclusive ExclusiveProof Rwlock.

Open Scope Z_scope.

#[local] Arguments Z.testbit : simpl never.
#[local] Arguments bit31 : simpl never.
#[local] Arguments wrap : simpl never.

(** * The instructions *)

Definition incremented (ex : option Z) (rs : regs) : Prop := exists v, at_value ex v /\ r0 rs = u32 (v + 1).

Definition try_read (b : bool) (st : option Z) (rest : Prop) : Prop :=
  (b = true /\ st = Some 0) \/ (b = false /\ st = None /\ rest).

Definition rw_holds (o : rw_op) (pc : nat) (rs : regs) (ex st : option Z) : Prop :=
  match o with
  | arch_write_lock =>
      match pc with
      | 0%nat | 1%nat | 2%nat => st = None
      | 3%nat => st = None /\ at_value ex (r0 rs)
      | 4%nat => st = None /\ at_value ex 0
      | 5%nat => stored (r0 rs) 0 st
      | _ => st = Some 0
      end
  | arch_write_trylock =>
      match pc with
      | 0%nat => st = None
      | 1%nat => (r0 rs = 0 /\ st = None /\ at_value ex 0) \/ (r0 rs <> 0 /\ st = Some 0)
      | 2%nat => st = None /\ at_value ex 0
      | _ => st = Some (bool_Z (negb (truth (r0 rs))))
      end
  | arch_write_unlock => match pc with 0%nat => st = None | _ => st = Some 0 end
  | arch_read_lock =>
      match pc with
      | 0%nat | 1%nat | 2%nat => st = None
      | 3%nat => st = None /\ at_value ex (r0 rs)
      | 4%nat => st = None /\ incremented ex rs
      | 5%nat => st = None /\ incremented ex rs /\ bit31 rs = false
      | 6%nat => stored (r1 rs) 0 st
      | _ => st = Some 0
      end
  | arch_read_trylock =>
      match pc with
      | 0%nat => st = None /\ r1 rs = 1
      | 1%nat => r1 rs = 1 /\ try_read (Z.testbit (u32 (r0 rs + 1)) 31) st (at_value ex (r0 rs))
      | 2%nat => r1 rs = 1 /\ try_read (bit31 rs) st (incremented ex rs)
      | 3%nat => st = None /\ bit31 rs = false /\ incremented ex rs
      | _ => st = Some (bool_Z (negb (truth (r1 rs))))
      end
  | arch_read_unlock =>
      match pc with
      | 0%nat => st = None
      | 1%nat => st = None /\ at_value ex (r0 rs)
      | 2%nat => st = None /\ exists v, at_value ex v /\ r0 rs = u32 (v - 1)
      | 3%nat => stored (r1 rs) 0 st
      | _ => st = Some 0
      end
  end.

Lemma incremented_none ex rs : incremented ex rs -> incremented None rs.
Proof. intros (v & _ & Hr). by exists v. Qed.

(** What the store of an incremented word needs. *)
Lemma incremented_reads v rs : incremented (Some v) rs -> bit31 rs = false ->
  Z.testbit (u32 (v + 1)) 31 = false /\ u32 (r0 rs) = u32 (v + 1).
Proof.
  intros (x & Hat & Hr) Hb. rewrite (at_value_eq _ _ Hat), Hr, wrap_wrap. unfold bit31 in Hb. by rewrite Hr in Hb.
Qed.

(** A try: the store that succeeds and the one that fails are both effects. *)
Lemma try_effects (o : rw_op) v v' ex st :
  st = None -> (ex = Some v -> rw_effect o v v' 1) -> rw_effect o v v 0 ->
  (ex = Some v -> exists st', effects (H := arch_rwlock_t) o v v' st st' /\ st' = Some (bool_Z (negb (truth 0)))) /\
  (exists st', effects (H := arch_rwlock_t) o v v st st' /\ st' = Some (bool_Z (negb (truth 1)))).
Proof.
  intros -> Hs Hf. split.
  - intros Hex. exists (Some 1). split; [|done]. right. split; [done|]. exists 1. by split; [|apply Hs].
  - exists (Some 0). split; [by apply (load_effect (H := arch_rwlock_t))|done].
Qed.

Lemma write_lock_annotated : annotated (H := arch_rwlock_t) arch_write_lock (rw_holds arch_write_lock).
Proof.
  split; [done|by intros [|[|[|[|[|pc]]]]] rs v st; cbn; try done; intros [-> _]|].
  intros [|[|[|[|[|[|pc]]]]]] rs ex st v Hh Hex Hv; cbn in *.
  - done.
  - done.
  - keep. by subst.
  - destruct Hh as [-> Hat]. unfold truth. destruct (Z.eqb_spec (r0 rs) 0) as [E|]; [|done]. by rewrite <- E.
  - destruct Hh as [Hst Hat]. apply (store_effects (H := arch_rwlock_t)); [done|]. intros ->. by rewrite (at_value_eq _ _ Hat).
  - destruct (stored_retry _ _ _ Hh) as [[-> ->]|[-> ->]]; done.
  - by destruct pc.
Qed.

Lemma write_trylock_annotated : annotated (H := arch_rwlock_t) arch_write_trylock (rw_holds arch_write_trylock).
Proof.
  split; [done| |].
  - intros [|[|[|pc]]] rs v st; cbn; try done; [|by intros [-> _]].
    intros [(? & -> & _)|?]; [by left|by right].
  - intros [|[|[|[|pc]]]] rs ex st v Hh Hex Hv; cbn in *.
    + subst st. destruct (Z.eq_dec v 0) as [->|Hne]; [keep; by left|].
      exists (Some 0). split; [apply (load_effect (H := arch_rwlock_t)); by right|by right].
    + unfold truth. destruct Hh as [(-> & -> & ?)|[Hne ->]]; [done|]. by rewrite (proj2 (Z.eqb_neq _ _) Hne).
    + destruct Hh as [Hst Hat]. apply (try_effects arch_write_trylock); [done| |by right].
      intros ->. left. by rewrite (at_value_eq _ _ Hat).
    + done.
    + done.
Qed.

Lemma write_unlock_annotated : annotated (H := arch_rwlock_t) arch_write_unlock (rw_holds arch_write_unlock).
Proof.
  split; [done|by intros [|pc]|]. intros [|pc] rs ex st v Hh Hex Hv; cbn in *; [|done].
  subst. exists (Some 0). split; [|done]. right. split; [done|]. by exists 0.
Qed.

Lemma read_lock_annotated : annotated (H := arch_rwlock_t) arch_read_lock (rw_holds arch_read_lock).
Proof.
  split; [done| |].
  - intros [|[|[|[|[|[|pc]]]]]] rs v st; cbn; try done.
    + by intros [-> _].
    + by intros (-> & ?%incremented_none).
    + by intros (-> & ?%incremented_none & ?).
  - intros [|[|[|[|[|[|[|pc]]]]]]] rs ex st v Hh Hex Hv; cbn in *.
    + done.
    + done.
    + keep. by subst.
    + destruct Hh as [-> Hat]. split; [done|]. by exists (r0 rs).
    + destruct Hh as [-> Hi]. destruct (bit31 rs) eqn:Hb; done.
    + destruct Hh as (Hst & Hi & Hb). apply (store_effects (H := arch_rwlock_t)); [done|]. intros ->.
      split; [|done]. by apply incremented_reads.
    + destruct (stored_retry _ _ _ Hh) as [[-> ->]|[-> ->]]; done.
    + by destruct pc.
Qed.

Lemma read_unlock_annotated : annotated (H := arch_rwlock_t) arch_read_unlock (rw_holds arch_read_unlock).
Proof.
  split; [done| |].
  - intros [|[|[|[|pc]]]] rs v st; cbn; try done; [by intros [-> _]|]. intros (-> & x & _ & Hr). split; [done|]. by exists x.
  - intros [|[|[|[|pc]]]] rs ex st v Hh Hex Hv; cbn in *.
    + keep. by subst.
    + destruct Hh as [-> Hat]. split; [done|]. by exists (r0 rs).
    + destruct Hh as (Hst & x & Hat & Hr). apply (store_effects (H := arch_rwlock_t)); [done|]. intros ->.
      by rewrite Hr, wrap_wrap, (at_value_eq _ _ Hat).
    + destruct (stored_retry _ _ _ Hh) as [[-> ->]|[-> ->]]; done.
    + by destruct pc.
Qed.

Lemma read_trylock_annotated : annotated (H := arch_rwlock_t) arch_read_trylock (rw_holds arch_read_trylock).
Proof.
  split; [done| |].
  - intros [|[|[|[|pc]]]] rs v st; cbn; try done; unfold try_read.
    + intros (? & [?|(? & -> & _)]); (split; [done|]); [by left|by right].
    + intros (? & [?|(? & -> & ?%incremented_none)]); (split; [done|]); [by left|by right].
    + by intros (-> & ? & ?%incremented_none).
  - intros [|[|[|[|pc]]]] rs ex st v Hh Hex Hv; cbn in *; unfold try_read in *.
    + destruct Hh as [-> Hr]. destruct (Z.testbit (u32 (v + 1)) 31) eqn:Hb.
      * exists (Some 0). split; [apply (load_effect (H := arch_rwlock_t)); by right|]. split; [done|]. by left.
      * keep. split; [done|]. by right.
    + destruct Hh as (Hr & [[Hb ->]|(Hb & -> & Hat)]); (split; [done|]); [by left|right].
      split; [done|]. split; [done|]. by exists (r0 rs).
    + destruct Hh as (Hr & [[Hb ->]|(Hb & -> & Hi)]); rewrite Hb; cbn; [by rewrite Hr|done].
    + destruct Hh as (Hst & Hb & Hi). apply (try_effects arch_read_trylock); [done| |by right].
      intros ->. left. split; [|done]. by apply incremented_reads.
    + done.
Qed.

Lemma rw_annotated o : annotated (H := arch_rwlock_t) o (rw_holds o).
Proof.
  destruct o; [apply write_lock_annotated|apply write_trylock_annotated|apply write_unlock_annotated
    |apply read_lock_annotated|apply read_trylock_annotated|apply read_unlock_annotated].
Qed.

(** * The holders *)

Definition holding (t : athread (H := arch_rwlock_t)) : hold :=
  match t with AIdle h => h | ACalled h _ => h | ADone h o r => rw_after h o r end.

Record rw_inv (a : spec_machine (H := arch_rwlock_t)) (readers : list Z) (writer : option Z) : Prop := {
  rw_nodup : NoDup readers;
  rw_readers c : c ∈ readers <-> holding (athreads a c) = Reading;
  rw_writer c : writer = Some c <-> holding (athreads a c) = Writing;
  rw_called c h o : athreads a c = ACalled h o -> rw_may_call h o;
  rw_value : avalue a = match writer with Some _ => WRITER | None => Z.of_nat (length readers) end;
  rw_exclusive c : writer = Some c -> readers = [];
  rw_count : Z.of_nat (length readers) < 2 ^ 31 }.

Lemma holding_amove a c t v d : holding (athreads (amove c t v a) d) = if decide (d = c) then holding t else holding (athreads a d).
Proof. unfold amove, at_cpu. cbn. by destruct (decide (d = c)). Qed.

Lemma called_amove a c (t : athread (H := arch_rwlock_t)) v :
  (forall d h o, athreads a d = ACalled h o -> rw_may_call h o) -> (forall h o, t = ACalled h o -> rw_may_call h o) ->
  forall d h o, athreads (amove c t v a) d = ACalled h o -> rw_may_call h o.
Proof. intros Ha Ht d h o. unfold amove, at_cpu. cbn. destruct (decide (d = c)); [apply Ht|apply Ha]. Qed.

(** CPU [c] keeps what it holds. *)
Lemma rw_inv_keep a rs w c t : rw_inv a rs w -> holding t = holding (athreads a c) ->
  (forall h o, t = ACalled h o -> rw_may_call h o) -> rw_inv (amove c t (avalue a) a) rs w.
Proof.
  intros [Hnd Hr Hw Hc Hv He Hn] Ht Hcall.
  assert (Hh : forall d, holding (athreads (amove c t (avalue a) a) d) = holding (athreads a d)).
  { intros d. rewrite holding_amove. by destruct (decide (d = c)) as [->|]. }
  split; try done; [intros d; by rewrite Hh|intros d; by rewrite Hh|by apply called_amove].
Qed.

Lemma rw_free a rs w c : rw_inv a rs w -> holding (athreads a c) = Free -> (c ∉ rs) /\ w <> Some c.
Proof.
  intros Hi Hf. split.
  - intros Hc%(rw_readers _ _ _ Hi). congruence.
  - intros Hc%(rw_writer _ _ _ Hi). congruence.
Qed.

Lemma rw_inv_write a c t : rw_inv a [] None -> holding t = Writing -> (forall h o, t <> ACalled h o) ->
  rw_inv (amove c t WRITER a) [] (Some c).
Proof.
  intros [Hnd Hr Hw Hc Hv He Hn] Ht Hcall. split; try done.
  - intros d. rewrite holding_amove. destruct (decide (d = c)) as [->|]; [|apply Hr]. rewrite Ht. split; [by intros ?%not_elem_of_nil|done].
  - intros d. rewrite holding_amove. destruct (decide (d = c)) as [->|Hd]; [done|]. rewrite <- Hw. split; congruence.
  - apply called_amove; [done|]. intros h o E. by apply Hcall in E.
Qed.

Lemma rw_inv_read a rs c t : rw_inv a rs None -> c ∉ rs -> holding t = Reading -> (forall h o, t <> ACalled h o) ->
  Z.of_nat (length rs) + 1 < 2 ^ 31 -> rw_inv (amove c t (Z.of_nat (length rs) + 1) a) (c :: rs) None.
Proof.
  intros [Hnd Hr Hw Hc Hv He Hn] Hcr Ht Hcall Hlen. split; try done.
  - by apply NoDup_cons.
  - intros d. rewrite holding_amove, elem_of_cons. destruct (decide (d = c)) as [->|Hd]; [tauto|]. rewrite Hr. tauto.
  - intros d. rewrite holding_amove. destruct (decide (d = c)) as [->|Hd]; [by rewrite Ht|]. apply Hw.
  - apply called_amove; [done|]. intros h o E. by apply Hcall in E.
  - cbn [length avalue amove]. lia.
  - cbn [length]. lia.
Qed.

Lemma rw_inv_release a rs w rs' c t v : rw_inv a rs w -> rs ≡ₚ rs' \/ rs ≡ₚ c :: rs' -> holding t = Free ->
  (forall h o, t <> ACalled h o) -> (w = None \/ w = Some c) -> c ∉ rs' -> v = Z.of_nat (length rs') ->
  rw_inv (amove c t v a) rs' None.
Proof.
  intros [Hnd Hr Hw Hc Hv He Hn] Hp Ht Hcall Hww Hcr ->. split; try done.
  - destruct Hp as [Hp|Hp]; rewrite Hp in Hnd; [done|by apply NoDup_cons in Hnd as [_ ?]].
  - intros d. rewrite holding_amove. destruct (decide (d = c)) as [->|Hd]; [by rewrite Ht; split|].
    rewrite <- Hr. destruct Hp as [Hp|Hp]; rewrite Hp; [done|]. rewrite elem_of_cons. tauto.
  - intros d. rewrite holding_amove. destruct (decide (d = c)) as [->|Hd]; [by rewrite Ht|].
    rewrite <- Hw. split; [done|]. destruct Hww; congruence.
  - apply called_amove; [done|]. intros h o E. by apply Hcall in E.
  - assert (length rs' <= length rs)%nat by (destruct Hp as [Hp|Hp]; apply Permutation_length in Hp; cbn in Hp; lia). lia.
Qed.

(** Bit 31 of the incremented word decides whether a reader may enter. *)
Lemma bit31_clear n : 0 <= n < 2 ^ 31 -> (Z.testbit (u32 (n + 1)) 31 = false) <-> (n + 1 < 2 ^ 31).
Proof.
  intros Hn. rewrite wrap_small by lia. split.
  - intros Hb. destruct (Z.ltb_spec (n + 1) (2 ^ 31)) as [|Hge]; [done|].
    replace (n + 1) with (2 ^ 31) in Hb by lia. by rewrite Z.pow2_bits_true in Hb.
  - intros Hlt. apply (testbit_high 31); lia.
Qed.

Lemma rw_reads a rs w v : rw_inv a rs w -> Z.testbit (u32 (avalue a + 1)) 31 = false -> v = u32 (avalue a + 1) ->
  w = None /\ v = Z.of_nat (length rs) + 1 /\ Z.of_nat (length rs) + 1 < 2 ^ 31.
Proof.
  intros Hi Hb ->. pose proof (rw_value _ _ _ Hi) as Hv. pose proof (rw_count _ _ _ Hi) as Hn. destruct w as [d|].
  - rewrite Hv in Hb. by vm_compute in Hb.
  - rewrite Hv in *. apply bit31_clear in Hb; [|lia]. rewrite wrap_small by lia. done.
Qed.

Lemma rw_writes a rs w : rw_inv a rs w -> avalue a = 0 -> w = None /\ rs = [].
Proof.
  intros Hi H0. pose proof (rw_value _ _ _ Hi) as Hv. rewrite H0 in Hv. destruct w; [done|]. destruct rs; [done|]. cbn in Hv. lia.
Qed.

Lemma rw_inv_step a e a' rs w : rw_inv a rs w -> spec_step (H := arch_rwlock_t) a e a' -> exists rs' w', rw_inv a' rs' w'.
Proof.
  intros Hi Hstep. destruct Hstep as [c h o Hc Hcall|c h o v r Hc He|c h o r Hc].
  - exists rs, w. apply rw_inv_keep; [done|by rewrite Hc|]. by intros ? ? [= <- <-].
  - pose proof (rw_called _ _ _ Hi _ _ _ Hc) as Hcall. unfold rw_may_call in Hcall.
    assert (Hh : holding (athreads a c) = h) by (by rewrite Hc).
    destruct o; cbn in He; subst h.
    + destruct He as [[H0 ->] ->]. destruct (rw_writes _ _ _ Hi H0) as [-> ->]. exists [], (Some c). by apply rw_inv_write.
    + destruct He as [[[H0 ->] ->]|[-> ->]].
      * destruct (rw_writes _ _ _ Hi H0) as [-> ->]. exists [], (Some c). by apply rw_inv_write.
      * exists rs, w. by apply rw_inv_keep.
    + destruct He as [-> ->]. apply (rw_writer _ _ _ Hi) in Hh. exists [], None.
      pose proof (rw_exclusive _ _ _ Hi _ Hh) as ->. eapply rw_inv_release with (1 := Hi); try done; [by left|by right|apply not_elem_of_nil].
    + destruct He as [[Hb Hv] ->]. destruct (rw_reads _ _ _ _ Hi Hb Hv) as (-> & -> & Hlen).
      exists (c :: rs), None. apply rw_inv_read; try done. by eapply rw_free.
    + destruct He as [[[Hb Hv] ->]|[-> ->]].
      * destruct (rw_reads _ _ _ _ Hi Hb Hv) as (-> & -> & Hlen).
        exists (c :: rs), None. apply rw_inv_read; try done. by eapply rw_free.
      * exists rs, w. by apply rw_inv_keep.
    + destruct He as [-> ->]. apply (rw_readers _ _ _ Hi) in Hh.
      assert (w = None) as -> by (destruct w as [d|]; [|done]; by rewrite (rw_exclusive _ _ _ Hi d eq_refl) in Hh; apply not_elem_of_nil in Hh).
      apply elem_of_Permutation in Hh as [rs' Hp]. exists rs', None.
      pose proof (rw_nodup _ _ _ Hi) as Hnd. rewrite Hp in Hnd. apply NoDup_cons in Hnd as [Hcr _].
      eapply rw_inv_release with (1 := Hi); try done; [by right|by left|].
      rewrite (rw_value _ _ _ Hi). pose proof (rw_count _ _ _ Hi) as Hn. apply Permutation_length in Hp. cbn in Hp.
      rewrite wrap_small by lia. lia.
  - exists rs, w. apply rw_inv_keep; [done|by rewrite Hc|done].
Qed.

Lemma rw_inv_run l a : run (H := arch_rwlock_t) spec_step (spec_initial 0) l a -> exists rs w, rw_inv a rs w.
Proof.
  remember (spec_initial 0) as a0 eqn:E. induction 1 as [s|s t l e s' Hr IH Hstep]; subst.
  - exists [], None. split; try done; [constructor|]. intros c. split; [by intros ?%not_elem_of_nil|done].
  - destruct (IH eq_refl) as (rs & w & Hi). by eapply rw_inv_step.
Qed.

(** * A CPU alone *)

(** The word and the result of a call that nothing interrupts; none where it waits. *)
Definition rw_now (o : rw_op) (v : Z) : option (Z * Z) :=
  let full := Z.testbit (u32 (v + 1)) 31 in
  match o with
  | arch_write_lock => if v =? 0 then Some (WRITER, 0) else None
  | arch_write_trylock => if v =? 0 then Some (WRITER, 1) else Some (v, 0)
  | arch_write_unlock => Some (0, 0)
  | arch_read_lock => if full then None else Some (u32 (v + 1), 0)
  | arch_read_trylock => if full then Some (v, 0) else Some (u32 (v + 1), 1)
  | arch_read_unlock => Some (u32 (v - 1), 0)
  end.

Lemma rw_alone o g mon v v' r : rw_now o v = Some (v', r) ->
  exists rs mon', alone (H := arch_rwlock_t) 16 (rw_code o) 0 (rw_entry o g) mon v = Some (rs, mon', v') /\ rw_out o rs = r.
Proof.
  unfold rw_now. destruct o; cbn [rw_entry rw_code].
  - destruct (Z.eqb_spec v 0) as [->|]; [|done]. intros [= <- <-]. eexists _, _. split; [alone_run|done].
  - destruct (v =? 0) eqn:E; intros [= <- <-];
      (assert (Ht : truth v = negb (v =? 0)) by done); rewrite E in Ht; eexists _, _; (split; [alone_run|]); [done|].
    cbn. by rewrite Ht.
  - intros [= <- <-]. eexists _, _. split; [alone_run|done].
  - destruct (Z.testbit (u32 (v + 1)) 31) eqn:E; [done|]. intros [= <- <-].
    assert (Hb : forall a b, bit31 {| r0 := u32 (v + 1); r1 := a; r2 := b |} = false) by done.
    specialize (Hb (r1 g) (r2 g)). rewrite <- (wrap_wrap 32 (v + 1)). eexists _, _. split; [alone_run|done].
  - destruct (Z.testbit (u32 (v + 1)) 31) eqn:E; intros [= <- <-].
    + assert (Hb : bit31 {| r0 := u32 (v + 1); r1 := 1; r2 := r2 g |} = true) by done.
      eexists _, _. split; [alone_run|done].
    + assert (Hb : bit31 {| r0 := u32 (v + 1); r1 := 1; r2 := r2 g |} = false) by done.
      rewrite <- (wrap_wrap 32 (v + 1)). eexists _, _. split; [alone_run|done].
  - intros [= <- <-]. rewrite <- (wrap_wrap 32 (v - 1)). eexists _, _. split; [alone_run|done].
Qed.
