(* ===== verification/RwlockTheorems.v ===== *)
(** The properties of the reader-writer lock, each with a concrete instance. *)
From Stdlib Require Import ZArith Lia.
From stdpp Require Import base list.
From S2P Require Import Prelude Exclusive ExclusiveProof Rwlock RwlockProof.

Open Scope Z_scope.

(** * A run

    CPUs 0 and 1 load the word at the same time, CPU 1 stores first and CPU 0 tries again; CPU 2
    asks to write, finds readers and goes on waiting. *)
Lemma two_readers : exists m,
  run step (initial 0) [Call 0 arch_read_lock; Call 1 arch_read_trylock; Return 1 arch_read_trylock 1;
    Return 0 arch_read_lock 0; Call 2 arch_write_trylock; Return 2 arch_write_trylock 0] m /\
  threads m 0 = Idle Reading /\ threads m 1 = Idle Reading /\ (forall c, c <> 0 -> c <> 1 -> threads m c = Idle Free) /\
  value m = 2.
Proof.
  set (g := {| r0 := 7; r1 := 8; r2 := 9 |}). eexists. split.
  - eapply (run_shows (H := arch_rwlock_t)); [by apply (step_call (H := arch_rwlock_t) _ 0 Free arch_read_lock g)|].
    eapply (run_shows (H := arch_rwlock_t)); [by apply (step_call (H := arch_rwlock_t) _ 1 Free arch_read_trylock g)|].
    eapply (run_silent (H := arch_rwlock_t)); [by eapply (step_hint (H := arch_rwlock_t) _ 0)|].
    eapply (run_silent (H := arch_rwlock_t)); [by eapply (step_hint (H := arch_rwlock_t) _ 0)|].
    eapply (run_silent (H := arch_rwlock_t)); [by eapply (step_ldxr (H := arch_rwlock_t) _ 0)|].
    eapply (run_silent (H := arch_rwlock_t)); [by eapply (step_ldxr (H := arch_rwlock_t) _ 1)|].
    eapply (run_silent (H := arch_rwlock_t)); [by eapply (step_alu (H := arch_rwlock_t) _ 1)|].
    eapply (run_silent (H := arch_rwlock_t)); [by eapply (step_branch (H := arch_rwlock_t) _ 1)|].
    eapply (run_silent (H := arch_rwlock_t)); [by eapply (step_stxr (H := arch_rwlock_t) _ 1)|].
    eapply (run_silent (H := arch_rwlock_t)); [by eapply (step_alu (H := arch_rwlock_t) _ 0)|].
    eapply (run_silent (H := arch_rwlock_t)); [by eapply (step_branch (H := arch_rwlock_t) _ 0)|].
    eapply (run_silent (H := arch_rwlock_t)); [by eapply (step_stxr_fails (H := arch_rwlock_t) _ 0)|].
    eapply (run_silent (H := arch_rwlock_t)); [by eapply (step_branch (H := arch_rwlock_t) _ 0)|].
    eapply (run_shows (H := arch_rwlock_t)); [by eapply (step_return_with (H := arch_rwlock_t) _ 1)|].
    eapply (run_silent (H := arch_rwlock_t)); [by eapply (step_ldxr (H := arch_rwlock_t) _ 0)|].
    eapply (run_silent (H := arch_rwlock_t)); [by eapply (step_alu (H := arch_rwlock_t) _ 0)|].
    eapply (run_silent (H := arch_rwlock_t)); [by eapply (step_branch (H := arch_rwlock_t) _ 0)|].
    eapply (run_silent (H := arch_rwlock_t)); [by eapply (step_stxr (H := arch_rwlock_t) _ 0)|].
    eapply (run_silent (H := arch_rwlock_t)); [by eapply (step_branch (H := arch_rwlock_t) _ 0)|].
    eapply (run_shows (H := arch_rwlock_t)); [by eapply (step_return_with (H := arch_rwlock_t) _ 0)|].
    eapply (run_shows (H := arch_rwlock_t)); [by apply (step_call (H := arch_rwlock_t) _ 2 Free arch_write_trylock g)|].
    eapply (run_silent (H := arch_rwlock_t)); [by eapply (step_ldxr (H := arch_rwlock_t) _ 2)|].
    eapply (run_silent (H := arch_rwlock_t)); [by eapply (step_branch (H := arch_rwlock_t) _ 2)|].
    eapply (run_shows (H := arch_rwlock_t)); [by eapply (step_return_with (H := arch_rwlock_t) _ 2)|].
    apply (run_nil (H := arch_rwlock_t)).
  - split; [reflexivity|]. split; [reflexivity|]. split; [|reflexivity].
    intros c H0 H1. cbn. unfold at_cpu. destruct (decide (c = 2)), (decide (c = 1)), (decide (c = 0)); done.
Qed.

(** * Properties *)

(** CPU [c], left alone for [k] steps in the routine [o], holds the lock as [h], and every other
    CPU what it held. *)
Definition enters (k : nat) (c : Z) (o : rw_op) (g : regs) (m : machine (H := arch_rwlock_t)) (h : hold) : Prop :=
  exists m', left_alone k c (called (H := arch_rwlock_t) c Free o g m) = Some (0, m') /\
    threads m' c = Idle h /\ forall d, d <> c -> threads m' d = threads m d.

Lemma enters_now m c o g v' h :
  threads m c = Idle Free -> rw_may_call Free o -> rw_now o (value m) = Some (v', 0) -> rw_after Free o 0 = h ->
  enters 16 c o g m h.
Proof.
  intros Hc Hcall Hnow <-. destruct (rw_alone o g (monitor m c) (value m) v' 0 Hnow) as (rs & mon & E & Er).
  destruct (alone_call (H := arch_rwlock_t) 16 m c Free o g rs mon v' E Hc Hcall) as (m' & Hl & _ & Hi & _ & Ho).
  cbn in Hl, Hi. rewrite Er in *. by exists m'.
Qed.

(** C8: the reader-writer lock keeps writers alone and lets readers share. Whatever the
    interleaving of the instructions and the failures of the store-exclusives, and for any number
    of CPUs, from the free lock: two CPUs that both hold it both read. Once no call is in
    progress, the word is 0x80000000 exactly when some CPU writes and else the number of readers,
    fewer than 2^31, so that write_can_lock holds exactly when nobody holds the lock and
    read_can_lock when nobody writes. Then, unless some CPU writes, a CPU that calls
    arch_read_lock and is left alone holds the lock after at most sixteen steps however many
    readers, up to 2^31 - 2, hold it already, and they keep it; and when nobody holds it, the
    same is true of arch_write_lock. *)
Theorem rwlock_exclusion l m :
  run step (initial 0) l m ->
  (forall c d, threads m c = Idle Writing -> threads m d = Idle Writing \/ threads m d = Idle Reading -> d = c) /\
  ((forall c, exists h, threads m c = Idle h) ->
   exists readers, NoDup readers /\ (forall c, c ∈ readers <-> threads m c = Idle Reading) /\
     Z.of_nat (length readers) < 2 ^ 31 /\
     (((exists c, threads m c = Idle Writing) /\ readers = [] /\ value m = WRITER) \/
      ((forall c, threads m c <> Idle Writing) /\ value m = Z.of_nat (length readers))) /\
     (arch_write_can_lock (value m) = true <-> forall c, threads m c = Idle Free) /\
     (arch_read_can_lock (value m) = true <-> forall c, threads m c <> Idle Writing) /\
     (forall c g, threads m c = Idle Free -> (forall d, threads m d <> Idle Writing) -> Z.of_nat (length readers) < 2 ^ 31 - 1 ->
        enters 16 c arch_read_lock g m Reading) /\
     (forall c g, (forall d, threads m d = Idle Free) -> enters 16 c arch_write_lock g m Writing)).
Proof.
  intros Hr. destruct (runs_atomically _ rw_annotated ltac:(cbn; lia) 0 l m Hr) as (a & Ha & Hv & _ & Ht).
  destruct (rw_inv_run l a Ha) as (rs & w & Hi).
  assert (Hidle : forall c h, threads m c = Idle h -> holding (athreads a c) = h).
  { intros c h Hc. specialize (Ht c). rewrite Hc in Ht. by rewrite Ht. }
  split.
  - intros c d Hc Hd. apply Hidle, (rw_writer _ _ _ Hi) in Hc. destruct Hd as [Hd|Hd]; apply Hidle in Hd.
    + apply (rw_writer _ _ _ Hi) in Hd. congruence.
    + apply (rw_readers _ _ _ Hi) in Hd. rewrite (rw_exclusive _ _ _ Hi c Hc) in Hd. by apply not_elem_of_nil in Hd.
  - intros Hall.
    assert (Hhold : forall c h, threads m c = Idle h <-> holding (athreads a c) = h).
    { intros c h. split; [apply Hidle|]. destruct (Hall c) as [h' Hc]. intros <-. by rewrite Hc, (Hidle _ _ Hc). }
    exists rs. split; [by eapply rw_nodup|]. split; [intros c; rewrite Hhold; by eapply rw_readers|].
    split; [by eapply rw_count|]. pose proof (rw_value _ _ _ Hi) as Hval. rewrite Hv in Hval.
    pose proof (rw_count _ _ _ Hi) as Hcount. destruct w as [c|].
    + assert (Hc : threads m c = Idle Writing) by (apply Hhold; by eapply rw_writer). rewrite Hval.
      pose proof (rw_exclusive _ _ _ Hi c eq_refl) as ->. split; [left; split; [by exists c|done]|].
      split; [split; [done|intros Hno; specialize (Hno c); congruence]|].
      split; [split; [done|intros Hno; specialize (Hno c); congruence]|].
      split; [intros d g _ Hno; by destruct (Hno c)|intros d g Hno; specialize (Hno c); congruence].
    + assert (Hnw : forall c, threads m c <> Idle Writing) by (intros c Hc%Hhold; by apply (rw_writer _ _ _ Hi) in Hc).
      assert (Hw0 : (forall c, threads m c = Idle Free) -> rs = []).
      { intros Hfree. destruct rs as [|c rs]; [done|]. assert (Hc : threads m c = Idle Reading)
          by (apply Hhold, (rw_readers _ _ _ Hi); by left). by rewrite Hfree in Hc. }
      assert (Henter : (forall c g, threads m c = Idle Free -> (forall d, threads m d <> Idle Writing) ->
          Z.of_nat (length rs) < 2 ^ 31 - 1 -> enters 16 c arch_read_lock g m Reading) /\
        (forall c g, (forall d, threads m d = Idle Free) -> enters 16 c arch_write_lock g m Writing)).
      { split.
        - intros c g Hc _ Hlen. eapply enters_now; [done|done| |done]. unfold rw_now. rewrite Hval.
          rewrite wrap_small by lia. rewrite (testbit_high 31); [done|lia|lia].
        - intros c g Hfree. eapply enters_now; [done|done| |done]. cbn. by rewrite Hval, (Hw0 Hfree). }
      rewrite Hval. split; [right; by split|]. unfold arch_write_can_lock, arch_read_can_lock.
      rewrite (and_assoc (_ <-> _)). split; [|exact Henter]. split.
      * rewrite Z.eqb_eq. split.
        -- intros H0. destruct rs; [|cbn in H0; lia]. intros c. destruct (Hall c) as [[] Hc]; [done| |by apply Hnw in Hc].
           rewrite Hhold in Hc. apply (rw_readers _ _ _ Hi) in Hc. by apply not_elem_of_nil in Hc.
        -- intros Hfree. destruct rs as [|c rs]; [done|]. assert (Hc : threads m c = Idle Reading)
             by (apply Hhold, (rw_readers _ _ _ Hi); by left). by rewrite Hfree in Hc.
      * rewrite Z.ltb_lt. split; [done|lia].
Qed.

Lemma rwlock_exclusion_witness : exists m,
  (forall c d, threads m c = Idle Writing -> threads m d = Idle Writing \/ threads m d = Idle Reading -> d = c) /\
   exists readers, NoDup readers /\ (forall c, c ∈ readers <-> threads m c = Idle Reading) /\
     Z.of_nat (length readers) < 2 ^ 31 /\
     (((exists c, threads m c = Idle Writing) /\ readers = [] /\ value m = WRITER) \/
      ((forall c, threads m c <> Idle Writing) /\ value m = Z.of_nat (length readers))) /\
     (arch_write_can_lock (value m) = true <-> forall c, threads m c = Idle Free) /\
     (arch_read_can_lock (value m) = true <-> forall c, threads m c <> Idle Writing) /\
     (forall c g, threads m c = Idle Free -> (forall d, threads m d <> Idle Writing) -> Z.of_nat (length readers) < 2 ^ 31 - 1 ->
        enters 16 c arch_read_lock g m Reading) /\
     (forall c g, (forall d, threads m d = Idle Free) -> enters 16 c arch_write_lock g m Writing).
Proof.
  destruct two_readers as (m & Hr & H0 & H1 & Hother & _). exists m.
  destruct (rwlock_exclusion _ m Hr) as [Hx Hw]. split; [exact Hx|]. apply Hw.
  intros c. destruct (Z.eq_dec c 0) as [->|]; [by exists Reading|]. destruct (Z.eq_dec c 1) as [->|]; [by exists Reading|].
  exists Free. by apply Hother.
Defined.

(** What a call does when its CPU is left alone. From any state of the other CPUs the
    instructions end with the word and the result of [rw_now]: both unlocks always return, a
    write lock is taken when the word is 0 and a read lock while fewer than 2^31 - 1 readers
    hold it, and a trylock gives 1 in exactly these cases and else 0 with the word unchanged. *)
Theorem rwlock_call_returns (m : machine (H := arch_rwlock_t)) c h o v' r :
  threads m c = Idle h -> rw_may_call h o -> rw_now o (value m) = Some (v', r) ->
  exists m', run step m [Call c o; Return c o r] m' /\
    threads m' c = Idle (rw_after h o r) /\ value m' = v'.
Proof.
  intros Hc Hcall Hnow. set (g := {| r0 := 0; r1 := 0; r2 := 0 |}).
  destruct (rw_alone o g (monitor m c) (value m) v' r Hnow) as (rs & mon & E & <-).
  destruct (alone_call (H := arch_rwlock_t) 16 m c h o g rs mon v' E Hc Hcall) as (m' & _ & Hr & Hi & Hv & _). by exists m'.
Qed.

Lemma rwlock_call_returns_witness : exists m', 
  run step (initial 0) [Call 4 arch_write_lock; Return 4 arch_write_lock 0] m' /\ threads m' 4 = Idle Writing /\ value m' = WRITER.
Proof. apply (rwlock_call_returns (initial 0) 4 Free arch_write_lock WRITER 0); reflexivity. Defined.
