(* ===== verification/GicRegs.v ===== *)
(** Register maps of the GIC distributor and redistributor (gicd_regs.h, gicr_regs.h), the
    memory layout (layout.h) and the bit fields of the registers. *)
From Stdlib Require Import ZArith Lia.
From stdpp Require Import base list strings.
From S2P Require Import Prelude.

Open Scope Z_scope.

(** * C structure layout *)

(** A member: name, size of an element, number of elements. *)
Definition member : Type := string * Z * Z.

Definition align_up (off a : Z) : Z := a * ((off + a - 1) / a).

(** The offset of a member: every member starts at a multiple of its element size. *)
Fixpoint offset_from (off : Z) (l : list member) (name : string) : option Z :=
  match l with
  | [] => None
  | (m, sz, n) :: l' =>
      let start := align_up off sz in
      if decide (m = name) then Some start else offset_from (start + sz * n) l' name
  end.
Definition offsetof (l : list member) (name : string) : Z := default 0 (offset_from 0 l name).

Fixpoint end_from (off : Z) (l : list member) : Z :=
  match l with
  | [] => off
  | (_, sz, n) :: l' => end_from (align_up off sz + sz * n) l'
  end.
Definition sizeof (l : list member) : Z :=
  align_up (end_from 0 l) (foldr (fun m a => Z.max (m.1.2) a) 1 l).

(** * layout.h *)

Definition GICD_BASE : Z := 0x8000000.
Definition GICR_BASE : Z := 0x80a0000.
Definition MAX_SUPPORTED_CPUS : Z := 8.
Definition PL011_BASE_ADDR : Z := 0x09000000.
Definition ZHYPER_HEAP_SIZE : Z := 0x100000.

(** * Distributor *)

Definition gicv3_distributor_regs : list member :=
  [("ctlr", 4, 1); ("typer", 4, 1); ("iidr", 4, 1); ("reserved0", 4, 1); ("statusr", 4, 1);
   ("reserved1", 4, 3); ("reserved2", 4, 8); ("setspi_ns", 4, 1); ("reserved3", 4, 1);
   ("clrspi_ns", 4, 1); ("reserved4", 4, 1); ("setspi_sr", 4, 1); ("reserved5", 4, 1);
   ("clrspi_sr", 4, 1); ("reserved6", 4, 9); ("igroupr", 4, 32); ("isenabler", 4, 32);
   ("icenabler", 4, 32); ("ispendr", 4, 32); ("icpendr", 4, 32); ("isactiver", 4, 32);
   ("icactiver", 4, 32); ("ipriorityr", 4, 256); ("itargetsr", 4, 256); ("icfgr", 4, 64);
   ("igrpmodr", 4, 32); ("reserved7", 4, 32); ("nsacr", 4, 64); ("sgir", 4, 1);
   ("reserved8", 4, 3); ("cpendsgir", 4, 4); ("spendsgir", 4, 4); ("reserved9", 4, 0x1434);
   ("irouter", 8, 1020); ("reserved10", 4, 0x1008); ("reserved11", 4, 0xFF4);
   ("reserved12", 4, 0xC)]%string.

Definition D_CTLR := Eval vm_compute in offsetof gicv3_distributor_regs "ctlr".
Definition D_TYPER := Eval vm_compute in offsetof gicv3_distributor_regs "typer".
Definition D_IIDR := Eval vm_compute in offsetof gicv3_distributor_regs "iidr".
Definition D_STATUSR := Eval vm_compute in offsetof gicv3_distributor_regs "statusr".
Definition D_IGROUPR := Eval vm_compute in offsetof gicv3_distributor_regs "igroupr".
Definition D_ISENABLER := Eval vm_compute in offsetof gicv3_distributor_regs "isenabler".
Definition D_ICENABLER := Eval vm_compute in offsetof gicv3_distributor_regs "icenabler".
Definition D_ICPENDR := Eval vm_compute in offsetof gicv3_distributor_regs "icpendr".
Definition D_ICACTIVER := Eval vm_compute in offsetof gicv3_distributor_regs "icactiver".
Definition D_IPRIORITYR := Eval vm_compute in offsetof gicv3_distributor_regs "ipriorityr".
Definition D_ICFGR := Eval vm_compute in offsetof gicv3_distributor_regs "icfgr".
Definition D_IGRPMODR := Eval vm_compute in offsetof gicv3_distributor_regs "igrpmodr".
Definition D_IROUTER := Eval vm_compute in offsetof gicv3_distributor_regs "irouter".

(** The static assertions of gicd_regs.h. *)
Definition gicd_assertions : list (string * Z) :=
  [("ctlr", 0x0000); ("typer", 0x0004); ("iidr", 0x0008); ("statusr", 0x0010);
   ("setspi_ns", 0x0040); ("clrspi_ns", 0x0048); ("setspi_sr", 0x0050); ("clrspi_sr", 0x0058);
   ("igroupr", 0x0080); ("isenabler", 0x0100); ("icenabler", 0x0180); ("ispendr", 0x0200);
   ("icpendr", 0x0280); ("isactiver", 0x0300); ("icactiver", 0x0380); ("ipriorityr", 0x0400);
   ("itargetsr", 0x0800); ("icfgr", 0x0C00); ("igrpmodr", 0x0D00); ("nsacr", 0x0E00);
   ("sgir", 0x0F00); ("cpendsgir", 0x0F10); ("spendsgir", 0x0F20); ("irouter", 0x6000)]%string.

Definition GICD_CTLR_ENABLE_GRP0_SHIFT : Z := 0.
Definition GICD_CTLR_ENABLE_GRP1_SHIFT : Z := 1.
Definition GICD_CTLR_ARE_SHIFT : Z := 4.
Definition GICD_CTLR_ENABLE_GRP0 : Z := Z.shiftl 1 GICD_CTLR_ENABLE_GRP0_SHIFT.
Definition GICD_CTLR_ENABLE_GRP1 : Z := Z.shiftl 1 GICD_CTLR_ENABLE_GRP1_SHIFT.
Definition GICD_CTLR_ARE : Z := Z.shiftl 1 GICD_CTLR_ARE_SHIFT.
Definition GICD_CTLR_DS : Z := Z.shiftl 1 6.
Definition GICD_CTLR_E1NWF : Z := Z.shiftl 1 7.
Definition GICD_CTLR_RWP : Z := Z.shiftl 1 31.

Definition GICD_TYPER_SECURITYEXTN : Z := Z.shiftl 1 10.
Definition GICD_TYPER_LPIS : Z := Z.shiftl 1 17.
Definition GICD_TYPER_MBIS : Z := Z.shiftl 1 16.
Definition GICD_TYPER_A3V : Z := Z.shiftl 1 11.
Definition GICD_TYPER_NO1N : Z := Z.shiftl 1 25.

Definition GICD_ICFGR_LEVEL_SENSITIVE : Z := 0.
Definition GICD_ICFGR_EDGE_TRIGGERED : Z := 2.
Definition GICD_IROUTER_IRM_SHIFT : Z := 31.
Definition GICD_IROUTER_AFF_MASK : Z := 0xFF.
Definition GICD_IROUTER_AFF3_SHIFT : Z := 32.
Definition GICD_STATUS_MASK : Z := Z.shiftl 1 4 - 1.

(** * Redistributor *)

Definition gicv3_redistributor_regs : list member :=
  [("ctlr", 4, 1); ("iidr", 4, 1); ("typer", 8, 1); ("statusr", 4, 1); ("waker", 4, 1);
   ("reserved0", 4, 2); ("reserved_0020_003f", 4, 8); ("setlpir", 8, 1); ("clrlpir", 8, 1);
   ("reserved1", 4, 8); ("propbaser", 8, 1); ("pendbaser", 8, 1); ("reserved2", 4, 8);
   ("invlpir", 8, 1); ("reserved3", 4, 2); ("invallr", 8, 1); ("reserved4", 4, 2);
   ("syncr", 4, 1); ("reserved_00c4_10000", 4, 0x3FCF)]%string.

Definition gicr_assertions : list (string * Z) :=
  [("ctlr", 0x0000); ("iidr", 0x0004); ("typer", 0x0008); ("statusr", 0x0010);
   ("waker", 0x0014); ("setlpir", 0x0040); ("clrlpir", 0x0048); ("propbaser", 0x0070);
   ("pendbaser", 0x0078); ("invlpir", 0x00A0); ("invallr", 0x00B0); ("syncr", 0x00C0)]%string.

Definition gicv3_redistributor_sgi_regs : list member :=
  [("reserved0", 4, 32); ("igroupr0", 4, 1); ("reserved1", 4, 31); ("isenabler0", 4, 1);
   ("reserved2", 4, 31); ("icenabler0", 4, 1); ("reserved3", 4, 31); ("ispendr0", 4, 1);
   ("reserved4", 4, 31); ("icpendr0", 4, 1); ("reserved5", 4, 31); ("isactiver0", 4, 1);
   ("reserved6", 4, 31); ("icactiver0", 4, 1); ("reserved7", 4, 31); ("ipriorityr", 4, 8);
   ("reserved8", 4, 0x1F8); ("icfgr0", 4, 1); ("icfgr1", 4, 1); ("reserved9", 4, 62);
   ("igrpmodr0", 4, 1); ("reserved10", 4, 63); ("gicr_nsacr", 4, 1); ("reserved11", 4, 0x3C7F)]%string.

Definition gicr_sgi_assertions : list (string * Z) :=
  [("igroupr0", 0x0080); ("isenabler0", 0x0100); ("icenabler0", 0x0180); ("ispendr0", 0x0200);
   ("icpendr0", 0x0280); ("isactiver0", 0x0300); ("icactiver0", 0x0380); ("ipriorityr", 0x0400);
   ("icfgr0", 0x0C00); ("icfgr1", 0x0C04); ("igrpmodr0", 0x0D00); ("gicr_nsacr", 0x0E00)]%string.

Definition R_CTLR := Eval vm_compute in offsetof gicv3_redistributor_regs "ctlr".
Definition R_TYPER := Eval vm_compute in offsetof gicv3_redistributor_regs "typer".
Definition R_WAKER := Eval vm_compute in offsetof gicv3_redistributor_regs "waker".
Definition S_IGROUPR0 := Eval vm_compute in offsetof gicv3_redistributor_sgi_regs "igroupr0".
Definition S_ISENABLER0 := Eval vm_compute in offsetof gicv3_redistributor_sgi_regs "isenabler0".
Definition S_ICENABLER0 := Eval vm_compute in offsetof gicv3_redistributor_sgi_regs "icenabler0".
Definition S_ICPENDR0 := Eval vm_compute in offsetof gicv3_redistributor_sgi_regs "icpendr0".
Definition S_ICACTIVER0 := Eval vm_compute in offsetof gicv3_redistributor_sgi_regs "icactiver0".
Definition S_IPRIORITYR := Eval vm_compute in offsetof gicv3_redistributor_sgi_regs "ipriorityr".
Definition S_ICFGR0 := Eval vm_compute in offsetof gicv3_redistributor_sgi_regs "icfgr0".
Definition S_ICFGR1 := Eval vm_compute in offsetof gicv3_redistributor_sgi_regs "icfgr1".

Definition GICR_STRIDE : Z := 0x20000.
Definition GICR_CTLR_RWP : Z := Z.shiftl 1 3.
Definition GICR_CTLR_UWP : Z := Z.shiftl 1 31.
Definition GICR_WAKER_PROCESSORSLEEP : Z := Z.shiftl 1 1.
Definition GICR_WAKER_CHILDRENASLEEP : Z := Z.shiftl 1 2.
Definition GICR_TYPER_AFFINITY_VALUE_SHIFT : Z := 32.
Definition GICR_TYPER_AFFINITY_VALUE_MASK : Z := 0xFFFFFFFF.
Definition GICR_TYPER_PROCESSOR_NUMBER_SHIFT : Z := 8.
Definition GICR_TYPER_PROCESSOR_NUMBER_MASK : Z := 0xFFFF.
Definition GICR_TYPER_LAST : Z := Z.shiftl 1 4.
Definition GICR_TYPER_VLPI : Z := Z.shiftl 1 6.
Definition GICR_TYPER_PLPI : Z := Z.shiftl 1 7.
Definition GICR_TYPER_DPG0 : Z := Z.shiftl 1 12.

(** All static assertions of the two headers hold for the computed layouts. *)
Definition assertion_holds (l : list member) (a : string * Z) : bool :=
  bool_decide (offset_from 0 l (a.1) = Some (a.2)).

Lemma register_maps_ok :
  forallb (assertion_holds gicv3_distributor_regs) gicd_assertions = true /\
  forallb (assertion_holds gicv3_redistributor_regs) gicr_assertions = true /\
  forallb (assertion_holds gicv3_redistributor_sgi_regs) gicr_sgi_assertions = true /\
  sizeof gicv3_distributor_regs = 0x10000 /\ sizeof gicv3_redistributor_regs = 0x10000 /\
  sizeof gicv3_redistributor_sgi_regs = 0x10000.
Proof. vm_compute. done. Qed.
