(* ===== verification/Gic.v ===== *)
(** The GICv3 driver: distributor and redistributor set-up (gicd.c, gicr.c), the state the
    driver keeps (gicv3_internal.h, gicv3.h) and the access to it. The interrupt operations
    are in GicIntr. *)
From Stdlib Require Import ZArith Lia.
From stdpp Require Import base gmap list strings.
From S2P Require Import Prelude Printf Io Spinlock GicRegs.

Open Scope Z_scope.

(** * State *)

(** The three operation tables that [irq_context.ops] points to. *)
Inductive gic_intr_operations := g_sgi_intr_ops | g_ppi_intr_ops | g_spi_intr_ops.

#[global] Instance gic_intr_operations_eq_dec : EqDecision gic_intr_operations.
Proof. solve_decision. Defined.

(** [struct irq_context]: [intid] has 10 bits, [priority] 8, [nsac] 2, [group], [security],
    [irm] and [trigger] one; [affinity] and [cpu_id] share a word. [handle] is a code
    address, 0 for NULL. *)
Record irq_context := {
  intid : Z; group : Z; security : Z; irm : Z; trigger : Z; priority : Z; nsac : Z;
  irq_reserved : Z; affinity_cpu_id : Z; handle : Z; arg : Z;
  ops : option gic_intr_operations }.

Definition irq_context_zero : irq_context :=
  {| intid := 0; group := 0; security := 0; irm := 0; trigger := 0; priority := 0; nsac := 0;
     irq_reserved := 0; affinity_cpu_id := 0; handle := 0; arg := 0; ops := None |}.

Definition intr_fiq (ctx : irq_context) : bool := group ctx =? 0.

(** [struct gicr_context] without the context arrays. *)
Record gicr_context := {
  r_cpu_id : Z; enable_lpi : Z; dpg0 : Z; dpg1s : Z; dpg1ns : Z;
  plpis : Z; vlpis : Z; direct_lpis : Z; last : Z; dpgs : Z; processor_number : Z;
  common_lpi_aff : Z; r_affinity : Z; reserved2 : Z; gicr_regs : Z; gicr_sgi_regs : Z }.

Definition gicr_context_zero : gicr_context :=
  {| r_cpu_id := 0; enable_lpi := 0; dpg0 := 0; dpg1s := 0; dpg1ns := 0; plpis := 0; vlpis := 0;
     direct_lpis := 0; last := 0; dpgs := 0; processor_number := 0; common_lpi_aff := 0;
     r_affinity := 0; reserved2 := 0; gicr_regs := 0; gicr_sgi_regs := 0 |}.

(** [struct gicd_context] without the context arrays. *)
Record gicd_context := {
  spi_count : Z; enable_grp0 : Z; enable_grp1 : Z; are : Z; e1nwf : Z; ds : Z;
  itlinesnumber : Z; cpunumber : Z; securityextn : Z; mbis : Z; lpis : Z; num_lpis : Z;
  a3v : Z; no1n : Z; implementer : Z; revision : Z; variant : Z; productid : Z;
  gicd_regs : Z }.

Definition gicd_context_zero : gicd_context :=
  {| spi_count := 0; enable_grp0 := 0; enable_grp1 := 0; are := 0; e1nwf := 0; ds := 0;
     itlinesnumber := 0; cpunumber := 0; securityextn := 0; mbis := 0; lpis := 0; num_lpis := 0;
     a3v := 0; no1n := 0; implementer := 0; revision := 0; variant := 0; productid := 0;
     gicd_regs := 0 |}.

(** A pointer to an interrupt context: into [spi_ctxs] of the distributor, or into
    [sgi_ctxs] or [ppi_ctxs] of a redistributor. *)
Inductive irq_ptr :=
  | SgiCtx (cpu i : Z)
  | PpiCtx (cpu i : Z)
  | SpiCtx (i : Z).

#[global] Instance irq_ptr_eq_dec : EqDecision irq_ptr.
Proof. solve_decision. Defined.
#[global] Instance irq_ptr_countable : Countable irq_ptr.
Proof.
  refine (inj_countable' (fun p => match p with
      | SgiCtx c i => inl (c, i) | PpiCtx c i => inr (inl (c, i)) | SpiCtx i => inr (inr i) end)
    (fun s => match s with
      | inl (c, i) => SgiCtx c i | inr (inl (c, i)) => PpiCtx c i | inr (inr i) => SpiCtx i end) _).
  by intros [].
Defined.

Record gic (D : Type) := {
  gio : io D; gicd : gicd_context; gicrs : gmap Z gicr_context;
  irqs : gmap irq_ptr irq_context; gicd_init_once : once_flag }.
Arguments gio {D} _. Arguments gicd {D} _. Arguments gicrs {D} _.
Arguments irqs {D} _. Arguments gicd_init_once {D} _.
Arguments Build_gic {D} _ _ _ _ _.

Section State.
Context {D : Type}.
Definition set_gio (s : gic D) (x : io D) : gic D := Build_gic x (gicd s) (gicrs s) (irqs s) (gicd_init_once s).
Definition set_gicd (f : gicd_context -> gicd_context) (s : gic D) : gic D :=
  Build_gic (gio s) (f (gicd s)) (gicrs s) (irqs s) (gicd_init_once s).
Definition set_gicrs f (s : gic D) : gic D := Build_gic (gio s) (gicd s) (f (gicrs s)) (irqs s) (gicd_init_once s).
Definition set_irqs f (s : gic D) : gic D := Build_gic (gio s) (gicd s) (gicrs s) (f (irqs s)) (gicd_init_once s).
Definition set_once f (s : gic D) : gic D := Build_gic (gio s) (gicd s) (gicrs s) (irqs s) (f (gicd_init_once s)).

Definition hw {A} (m : M (io D) A) : M (gic D) A := zoom gio set_gio m.

Definition get_irq (p : irq_ptr) : M (gic D) irq_context := fun s =>
  match irqs s !! p with Some c => Ok c s | None => Stop (Fault 0) s end.
Definition put_irq (p : irq_ptr) (c : irq_context) : M (gic D) unit := modify (set_irqs <[p := c]>).
Definition get_gicr (cpu : Z) : M (gic D) gicr_context := fun s =>
  match gicrs s !! cpu with Some c => Ok c s | None => Stop (Fault 0) s end.
Definition put_gicr (cpu : Z) (c : gicr_context) : M (gic D) unit := modify (set_gicrs <[cpu := c]>).
End State.

Definition SGI_LAST_INTID : Z := 15.
Definition PPI_FIRST_INTID : Z := 16.
Definition PPI_LAST_INTID : Z := 31.
Definition SPI_FIRST_INTID : Z := 32.
Definition SPI_LAST_INTID : Z := 1019.
Definition MAX_SPI_CONTEXTS : Z := SPI_LAST_INTID - SPI_FIRST_INTID + 1.

(** [(v & bit) ? 1 : 0] *)
Definition flag_of (v bit : Z) : Z := bool_Z (truth (Z.land v bit)).

(** [(v >> shift) & mask] *)
Definition field (v shift mask : Z) : Z := Z.land (Z.shiftr v shift) mask.

Section Driver.
Context {D : Type} `{Hardware D} `{Config}.

Definition pr (fmt : string) (args : list Z) : M (gic D) unit :=
  _ ← hw (printf fmt (AInt <$> args)); mret tt.

(** * gicv3_internal.h: finding the contexts *)

Definition __get_gicr (cpu_id : Z) : M (gic D) Z :=
  if NR_CPU <=? cpu_id then panic "Invalid CPU ID for GICR context" else mret cpu_id.

Definition __get_this_gicr : M (gic D) Z := id ← hw cpu_id; __get_gicr id.

(** The test every distributor function starts with; [__get_gicd] is the address of a linker
    symbol and never NULL. *)
Definition require_gicd_regs : M (gic D) Z :=
  g ← gets gicd;
  if gicd_regs g =? 0 then panic "Failed to get GICD context" else mret (gicd_regs g).

(** * gicd.c *)

Definition gicd_rwp : M (gic D) bool :=
  regs ← require_gicd_regs;
  status ← hw (read32 (regs + D_STATUSR));
  mret (truth (Z.land status GICD_CTLR_RWP)).

Definition gicd_wait_rwp : M (gic D) unit :=
  _ ← require_gicd_regs;
  hw isb ;;
  spin_while patience gicd_rwp.

Definition gicd_status : M (gic D) Z :=
  regs ← require_gicd_regs;
  hw (read32 (regs + D_STATUSR)).

Definition gicd_reset_status (status : Z) : M (gic D) Z :=
  regs ← require_gicd_regs;
  hw (write32 (regs + D_STATUSR) (Z.land status GICD_STATUS_MASK)) ;;
  hw isb ;; mret 0.

Definition gicv3_show_distributor : M (gic D) unit :=
  g ← gets gicd;
  pr (ln "GICD: gicd_regs=0x%lx") [gicd_regs g] ;;
  pr (ln "GICD: itlinesnumber=%u, spi_count=%u, cpunumber=%u" +:+
      ln "securityextn=%u, mbis=%u, lpis=%u, num_lpis=%u, a3v=%u, no1n=%u")
     [itlinesnumber g; spi_count g; cpunumber g; securityextn g; mbis g; lpis g; num_lpis g;
      a3v g; no1n g] ;;
  pr (ln "GICD: implementer=0x%x, revision=%u, variant=%u, productid=0x%x")
     [implementer g; revision g; variant g; productid g] ;;
  pr (ln "GICD: ds=%u, enable_grp0=%u, enable_grp1=%u, are=%u")
     [ds g; enable_grp0 g; enable_grp1 g; are g] ;;
  pr (ln "GICD: e1nwf=%u") [e1nwf g].

(** The attributes gicd_init decodes from TYPER. *)
Definition with_typer (typer : Z) (g : gicd_context) : gicd_context :=
  let itl := field typer 0 0x1F in
  {| spi_count := wrap 10 ((itl + 1) * 32 - SPI_FIRST_INTID); enable_grp0 := enable_grp0 g;
     enable_grp1 := enable_grp1 g; are := are g; e1nwf := e1nwf g; ds := ds g;
     itlinesnumber := itl; cpunumber := field typer 5 0x7;
     securityextn := flag_of typer GICD_TYPER_SECURITYEXTN;
     mbis := flag_of typer GICD_TYPER_MBIS; lpis := flag_of typer GICD_TYPER_LPIS;
     num_lpis := field typer 11 0x1F; a3v := flag_of typer GICD_TYPER_A3V;
     no1n := flag_of typer GICD_TYPER_NO1N; implementer := implementer g;
     revision := revision g; variant := variant g; productid := productid g;
     gicd_regs := gicd_regs g |}.

(** The identification it decodes from IIDR. *)
Definition with_iidr (iidr : Z) (g : gicd_context) : gicd_context :=
  {| spi_count := spi_count g; enable_grp0 := enable_grp0 g; enable_grp1 := enable_grp1 g;
     are := are g; e1nwf := e1nwf g; ds := ds g; itlinesnumber := itlinesnumber g;
     cpunumber := cpunumber g; securityextn := securityextn g; mbis := mbis g; lpis := lpis g;
     num_lpis := num_lpis g; a3v := a3v g; no1n := no1n g;
     implementer := field iidr 0 0xFFF; revision := field iidr 12 0xF;
     variant := field iidr 16 0xF; productid := field iidr 24 0xFF;
     gicd_regs := gicd_regs g |}.

(** The configuration bits, first as wanted, later as CTLR reads back. *)
Definition with_config (grp0 grp1 are' e1nwf' ds' : Z) (g : gicd_context) : gicd_context :=
  {| spi_count := spi_count g; enable_grp0 := grp0; enable_grp1 := grp1;
     are := are'; e1nwf := e1nwf'; ds := ds'; itlinesnumber := itlinesnumber g;
     cpunumber := cpunumber g; securityextn := securityextn g; mbis := mbis g; lpis := lpis g;
     num_lpis := num_lpis g; a3v := a3v g; no1n := no1n g; implementer := implementer g;
     revision := revision g; variant := variant g; productid := productid g;
     gicd_regs := gicd_regs g |}.

Definition with_ctlr (ctrl : Z) : gicd_context -> gicd_context :=
  with_config (flag_of ctrl GICD_CTLR_ENABLE_GRP0) (flag_of ctrl GICD_CTLR_ENABLE_GRP1)
    (flag_of ctrl GICD_CTLR_ARE) (flag_of ctrl GICD_CTLR_E1NWF) (flag_of ctrl GICD_CTLR_DS).

Definition with_gicd_regs (a : Z) (g : gicd_context) : gicd_context :=
  {| spi_count := spi_count g; enable_grp0 := enable_grp0 g; enable_grp1 := enable_grp1 g;
     are := are g; e1nwf := e1nwf g; ds := ds g; itlinesnumber := itlinesnumber g;
     cpunumber := cpunumber g; securityextn := securityextn g; mbis := mbis g; lpis := lpis g;
     num_lpis := num_lpis g; a3v := a3v g; no1n := no1n g; implementer := implementer g;
     revision := revision g; variant := variant g; productid := productid g; gicd_regs := a |}.

(** The loop that quiets SPIs [32 * (i + 1)] to [32 * (i + 1) + 31] for the [k] values of [i]
    from [i] on. *)
Fixpoint quiet_loop (k : nat) (i : Z) : M (gic D) unit :=
  match k with
  | O => mret tt
  | S k' =>
      hw (write32 (GICD_BASE + D_ICPENDR + 4 * (i + 1)) 0xFFFFFFFF) ;;
      hw (write32 (GICD_BASE + D_ICACTIVER + 4 * (i + 1)) 0xFFFFFFFF) ;;
      hw (write32 (GICD_BASE + D_ICENABLER + 4 * (i + 1)) 0xFFFFFFFF) ;;
      gicd_wait_rwp ;;
      quiet_loop k' (i + 1)
  end.

Definition gicd_init : M (gic D) Z :=
  modify (set_gicd (with_gicd_regs GICD_BASE)) ;;
  typer ← hw (read32 (GICD_BASE + D_TYPER));
  modify (set_gicd (with_typer typer)) ;;
  iidr ← hw (read32 (GICD_BASE + D_IIDR));
  modify (set_gicd (fun g => with_config 0 1 0 0 (ds g) (with_iidr iidr g))) ;;
  pr (ln "GICv3 Distributor init: 0x%lx") [GICD_BASE + D_CTLR] ;;
  g ← gets gicd;
  hw (write32 (GICD_BASE + D_CTLR)
        (Z.lor (Z.shiftl (enable_grp0 g) GICD_CTLR_ENABLE_GRP0_SHIFT)
          (Z.lor (Z.shiftl (enable_grp1 g) GICD_CTLR_ENABLE_GRP1_SHIFT)
                 (Z.shiftl (are g) GICD_CTLR_ARE_SHIFT)))) ;;
  gicd_wait_rwp ;;
  ctrl ← hw (read32 (GICD_BASE + D_CTLR));
  modify (set_gicd (with_ctlr ctrl)) ;;
  g ← gets gicd;
  quiet_loop (Z.to_nat (itlinesnumber g)) 0 ;;
  hw isb ;;
  pr (ln "gicd init done!") [] ;;
  gicv3_show_distributor ;;
  mret 0.
End Driver.
