(* ===== verification/GicIntr.v ===== *)
(** The GICv3 driver, continued: the redistributor (gicr.c), the interrupt operations of
    SGIs, PPIs and SPIs (intr/sgi.c, intr/ppi.c, intr/spi.c) and the entry points of
    gicv3.c. *)
From Stdlib Require Import ZArith Lia.
From stdpp Require Import base gmap list strings.
From S2P Require Import Prelude Printf Io Spinlock GicRegs Gic.

Open Scope Z_scope.

Section Driver.
Context {D : Type} `{Hardware D} `{Config}.

(** * gicr.c *)

Definition gicr_rwp (cpu : Z) : M (gic D) bool :=
  g ← get_gicr cpu;
  ctlr ← hw (read32 (gicr_regs g + R_CTLR));
  mret (truth (Z.land ctlr GICR_CTLR_RWP)).

(** Tests the same bit as gicr_rwp. *)
Definition gicr_uwp (cpu : Z) : M (gic D) bool :=
  g ← get_gicr cpu;
  ctlr ← hw (read32 (gicr_regs g + R_CTLR));
  mret (truth (Z.land ctlr GICR_CTLR_RWP)).

Definition gicr_wait_rwp : M (gic D) unit :=
  cpu ← __get_this_gicr;
  g ← get_gicr cpu;
  if gicr_regs g =? 0 then panic "Failed to get GICR context"
  else hw isb ;; spin_while patience (gicr_rwp cpu).

(** The frame addresses and what gicr_init decodes from the low word of TYPER. *)
Definition frame_base (cpu_id : Z) : Z := GICR_BASE + u32 (GICR_STRIDE * cpu_id).

Definition with_frames (cpu_id : Z) (g : gicr_context) : gicr_context :=
  {| r_cpu_id := r_cpu_id g; enable_lpi := enable_lpi g; dpg0 := dpg0 g; dpg1s := dpg1s g;
     dpg1ns := dpg1ns g; plpis := plpis g; vlpis := vlpis g; direct_lpis := direct_lpis g;
     last := last g; dpgs := dpgs g; processor_number := processor_number g;
     common_lpi_aff := common_lpi_aff g; r_affinity := r_affinity g; reserved2 := reserved2 g;
     gicr_regs := frame_base cpu_id; gicr_sgi_regs := frame_base cpu_id + 0x10000 |}.

Definition with_gicr_typer (typer : Z) (g : gicr_context) : gicr_context :=
  {| r_cpu_id := r_cpu_id g; enable_lpi := enable_lpi g; dpg0 := dpg0 g; dpg1s := dpg1s g;
     dpg1ns := dpg1ns g;
     plpis := flag_of typer GICR_TYPER_PLPI; vlpis := flag_of typer GICR_TYPER_VLPI;
     direct_lpis := flag_of typer GICR_TYPER_PLPI; last := flag_of typer GICR_TYPER_LAST;
     dpgs := flag_of typer GICR_TYPER_DPG0;
     processor_number := wrap 16 (field typer GICR_TYPER_PROCESSOR_NUMBER_SHIFT GICR_TYPER_PROCESSOR_NUMBER_MASK);
     common_lpi_aff := wrap 2 (field typer GICR_TYPER_AFFINITY_VALUE_SHIFT GICR_TYPER_AFFINITY_VALUE_MASK);
     r_affinity := wrap 32 (field typer GICR_TYPER_AFFINITY_VALUE_SHIFT GICR_TYPER_AFFINITY_VALUE_MASK);
     reserved2 := wrap 9 (field typer 55 0x1FF);
     gicr_regs := gicr_regs g; gicr_sgi_regs := gicr_sgi_regs g |}.

Definition with_cpu_config (cpu_id : Z) (g : gicr_context) : gicr_context :=
  {| r_cpu_id := u32 cpu_id; enable_lpi := 0; dpg0 := 0; dpg1s := 0; dpg1ns := 0;
     plpis := plpis g; vlpis := vlpis g; direct_lpis := direct_lpis g; last := last g;
     dpgs := dpgs g; processor_number := processor_number g; common_lpi_aff := common_lpi_aff g;
     r_affinity := r_affinity g; reserved2 := reserved2 g; gicr_regs := gicr_regs g;
     gicr_sgi_regs := gicr_sgi_regs g |}.

Definition update_gicr (cpu : Z) (f : gicr_context -> gicr_context) : M (gic D) unit :=
  g ← get_gicr cpu; put_gicr cpu (f g).

(** [while (read32(&waker) & GICR_WAKER_CHILDRENASLEEP)] *)
Definition children_asleep (regs : Z) : M (gic D) bool :=
  w ← hw (read32 (regs + R_WAKER)); mret (truth (Z.land w GICR_WAKER_CHILDRENASLEEP)).

(** Waking the redistributor up when it sleeps. *)
Definition gicr_wake (regs : Z) : M (gic D) unit :=
  waker ← hw (read32 (regs + R_WAKER));
  when (truth (Z.land waker GICR_WAKER_PROCESSORSLEEP))
    (hw (write32 (regs + R_WAKER) (Z.land waker (bnot 32 GICR_WAKER_PROCESSORSLEEP))) ;;
     hw isb ;;
     spin_while patience (children_asleep regs)).

(** [cpu] is the context the pointer [gicr_ctx] points to. *)
Definition gicr_init (cpu cpu_id : Z) : M (gic D) Z :=
  update_gicr cpu (with_frames cpu_id) ;;
  g ← get_gicr cpu;
  typer ← hw (read32 (gicr_regs g + R_TYPER));
  update_gicr cpu (with_gicr_typer typer) ;;
  g ← get_gicr cpu;
  pr (ln "GICR: plpis=%u, vlpis=%u, direct_lpis=%u, last=%u, dpgs=%u, processor_number=%u, common_lpi_aff=%u, affinity=0x%lx")
     [plpis g; vlpis g; direct_lpis g; last g; dpgs g; processor_number g; common_lpi_aff g;
      r_affinity g] ;;
  update_gicr cpu (with_cpu_config cpu_id) ;;
  gicr_wake (gicr_regs g) ;;
  hw (write32 (gicr_regs g + R_CTLR) 0) ;;
  gicr_wait_rwp ;;
  hw (write32 (gicr_sgi_regs g + S_ICPENDR0) 0xFFFFFFFF) ;;
  hw (write32 (gicr_sgi_regs g + S_ICACTIVER0) 0xFFFFFFFF) ;;
  hw (write32 (gicr_sgi_regs g + S_ICENABLER0) 0xFFFFFFFF) ;;
  gicr_wait_rwp ;;
  mret 0.

(** * Fields of registers *)

(** [(old & ~(mask << sh)) | (v << sh)] on 32 bits. *)
Definition set_field (old mask v sh : Z) : Z :=
  Z.lor (Z.land old (bnot 32 (u32 (Z.shiftl mask sh)))) (u32 (Z.shiftl v sh)).

(** Setting or clearing one bit. *)
Definition set_bit (b : bool) (old i : Z) : Z :=
  if b then Z.lor old (u32 (Z.shiftl 1 i)) else Z.land old (bnot 32 (u32 (Z.shiftl 1 i))).

(** A register that is read, changed and written back. *)
Definition rmw (a : Z) (f : Z -> Z) : M (gic D) unit :=
  v ← hw (read32 a); hw (write32 a (f v)).

(** The SGI registers of this CPU. *)
Definition this_sgi_regs : M (gic D) (Z * gicr_context) :=
  cpu ← __get_this_gicr; g ← get_gicr cpu; mret (cpu, g).

Definition bad_sgi (id : Z) : bool := SGI_LAST_INTID <? id.
Definition bad_ppi (id : Z) : bool := (id <? PPI_FIRST_INTID) || (PPI_LAST_INTID <? id).
Definition bad_spi (id : Z) : bool := (id <? SPI_FIRST_INTID) || (SPI_LAST_INTID <? id).

(** * intr/sgi.c *)

Definition __gicr_sgi_set_trigger (p : irq_ptr) (is_edge : bool) : M (gic D) Z :=
  r ← this_sgi_regs; ctx ← get_irq p;
  if bad_sgi (intid ctx) then mret (- EINVAL) else
  let reg_offset := Z.shiftr (intid ctx) 4 in
  let bit_offset := Z.shiftl (Z.land (intid ctx) 0xF) 1 in
  rmw (gicr_sgi_regs (r.2) + S_ICFGR0 + reg_offset)
      (fun v => set_field v 0x3 (if is_edge then 1 else 0) bit_offset) ;;
  mret 0.

Definition __gicr_set_clear_sgi (id : Z) (set : bool) : M (gic D) Z :=
  r ← this_sgi_regs;
  if bad_sgi id then mret (- EINVAL) else
  let reg_offset := Z.shiftr id 5 in
  let bit_offset := Z.land id 0x1F in
  (if set then hw (write32 (gicr_sgi_regs (r.2) + S_ISENABLER0 + reg_offset) (Z.shiftl 1 bit_offset))
   else hw (write32 (gicr_sgi_regs (r.2) + S_ICENABLER0 + reg_offset) (Z.shiftl 1 bit_offset)) ;;
        gicr_wait_rwp) ;;
  mret 0.

Definition __gicr_set_sgi (p : irq_ptr) : M (gic D) Z :=
  ctx ← get_irq p;
  if bad_sgi (intid ctx) then panic "Invalid SGI intid" else __gicr_set_clear_sgi (intid ctx) true.
Definition __gicr_clear_sgi (p : irq_ptr) : M (gic D) Z :=
  ctx ← get_irq p;
  if bad_sgi (intid ctx) then panic "Invalid SGI intid" else __gicr_set_clear_sgi (intid ctx) false.

(** [priority] is an argument of type [uint8_t]. *)
Definition __gicr_sgi_set_priority (p : irq_ptr) (prio : Z) : M (gic D) Z :=
  r ← this_sgi_regs; ctx ← get_irq p;
  if bad_sgi (intid ctx) then mret (- EINVAL) else
  let reg_offset := Z.shiftr (intid ctx) 2 in
  let byte_offset := Z.land (intid ctx) 0x3 in
  rmw (gicr_sgi_regs (r.2) + S_IPRIORITYR + 4 * reg_offset)
      (fun v => set_field v 0xFF (u8 prio) (byte_offset * 8)) ;;
  mret 0.

Definition __gicr_sgi_set_group (p : irq_ptr) (grp : Z) : M (gic D) Z :=
  ctx ← get_irq p;
  if bad_sgi (intid ctx) then mret (- EINVAL) else
  r ← this_sgi_regs;
  let bit_offset := Z.land (intid ctx) 0x1F in
  rmw (gicr_sgi_regs (r.2) + S_IGROUPR0) (fun v => set_bit (truth (u8 grp)) v bit_offset) ;;
  mret 0.

Definition get_sgi_context (id : Z) : M (gic D) (option irq_ptr) :=
  cpu ← __get_this_gicr;
  if bad_sgi id then mret None else
  let p := SgiCtx cpu id in
  c ← get_irq p;
  put_irq p {| intid := intid c; group := group c; security := security c; irm := irm c;
               trigger := trigger c; priority := priority c; nsac := nsac c;
               irq_reserved := irq_reserved c; affinity_cpu_id := affinity_cpu_id c;
               handle := handle c; arg := arg c; ops := Some g_sgi_intr_ops |} ;;
  mret (Some p).

(** * intr/ppi.c *)

Definition __gicr_ppi_set_trigger (p : irq_ptr) (is_edge : bool) : M (gic D) Z :=
  r ← this_sgi_regs; ctx ← get_irq p;
  if bad_ppi (intid ctx) then mret (- EINVAL) else
  let id := intid ctx - PPI_FIRST_INTID in
  let reg_offset := Z.shiftr id 4 in
  let bit_offset := Z.shiftl (Z.land id 0xF) 1 in
  rmw (gicr_sgi_regs (r.2) + S_ICFGR1 + reg_offset)
      (fun v => set_field v 0x3 (if is_edge then 1 else 0) bit_offset) ;;
  mret 0.

Definition __gicr_set_clear_ppi (p : irq_ptr) (set : bool) : M (gic D) Z :=
  r ← this_sgi_regs; ctx ← get_irq p;
  if bad_ppi (intid ctx) then mret (- EINVAL) else
  let reg_offset := Z.shiftr (intid ctx) 5 in
  let bit_offset := Z.land (intid ctx) 0x1F in
  (if set then hw (write32 (gicr_sgi_regs (r.2) + S_ISENABLER0 + reg_offset) (Z.shiftl 1 bit_offset))
   else hw (write32 (gicr_sgi_regs (r.2) + S_ICENABLER0 + reg_offset) (Z.shiftl 1 bit_offset)) ;;
        gicr_wait_rwp) ;;
  mret 0.

Definition __gicr_set_ppi (p : irq_ptr) : M (gic D) Z := __gicr_set_clear_ppi p true.
Definition __gicr_clear_ppi (p : irq_ptr) : M (gic D) Z := __gicr_set_clear_ppi p false.

Definition __gicr_ppi_set_priority (p : irq_ptr) (prio : Z) : M (gic D) Z :=
  r ← this_sgi_regs; ctx ← get_irq p;
  if bad_ppi (intid ctx) then mret (- EINVAL) else
  let reg_offset := Z.shiftr (intid ctx) 2 in
  let byte_offset := Z.land (intid ctx) 0x3 in
  rmw (gicr_sgi_regs (r.2) + S_IPRIORITYR + 4 * reg_offset)
      (fun v => set_field v 0xFF (u8 prio) (byte_offset * 8)) ;;
  mret 0.

Definition __gicr_ppi_set_group (p : irq_ptr) (grp : Z) : M (gic D) Z :=
  r ← this_sgi_regs; ctx ← get_irq p;
  if bad_ppi (intid ctx) then pr (ln "Invalid PPI intid: %u") [intid ctx] ;; mret (- EINVAL) else
  let bit_offset := Z.land (intid ctx) 0x1F in
  rmw (gicr_sgi_regs (r.2) + S_IGROUPR0) (fun v => set_bit (truth (u8 grp)) v bit_offset) ;;
  mret 0.

Definition get_ppi_context (id : Z) : M (gic D) (option irq_ptr) :=
  cpu ← __get_this_gicr;
  if bad_ppi id then mret None else
  let p := PpiCtx cpu (id - PPI_FIRST_INTID) in
  c ← get_irq p;
  when (negb (intid c =? id) || negb (bool_decide (ops c = Some g_ppi_intr_ops)))
    (put_irq p {| intid := wrap 10 id; group := 1; security := 0; irm := 0; trigger := 0;
                  priority := 0x80; nsac := 0; irq_reserved := 0; affinity_cpu_id := 0;
                  handle := 0; arg := 0; ops := Some g_ppi_intr_ops |}) ;;
  mret (Some p).

(** * intr/spi.c *)

Definition __gicd_set_clear_spi (id : Z) (set : bool) : M (gic D) Z :=
  regs ← require_gicd_regs;
  if bad_spi id then mret (- EINVAL) else
  let reg_offset := Z.shiftr id 5 in
  let bit_offset := Z.land id 0x1F in
  (if set then hw (write32 (regs + D_ISENABLER + 4 * reg_offset) (Z.shiftl 1 bit_offset))
   else hw (write32 (regs + D_ICENABLER + 4 * reg_offset) (Z.shiftl 1 bit_offset)) ;;
        gicd_wait_rwp) ;;
  mret 0.

Definition __gicd_spi_set_trigger (id : Z) (is_edge : bool) : M (gic D) Z :=
  regs ← require_gicd_regs;
  if bad_spi id then mret (- EINVAL) else
  let reg_offset := Z.shiftr id 4 in
  let bit_offset := Z.shiftl (Z.land id 0xF) 1 in
  rmw (regs + D_ICFGR + 4 * reg_offset)
      (fun v => set_field v 0x3 (if is_edge then GICD_ICFGR_EDGE_TRIGGERED
                                 else GICD_ICFGR_LEVEL_SENSITIVE) bit_offset) ;;
  mret 0.

(** The four affinity bytes of [affinity] at their places in IROUTER. *)
Definition route_value (irm : bool) (affinity : Z) : Z :=
  if irm then Z.shiftl 1 GICD_IROUTER_IRM_SHIFT
  else let aff i := Z.land (Z.shiftr affinity (8 * i)) GICD_IROUTER_AFF_MASK in
       Z.lor (aff 0) (Z.lor (Z.shiftl (aff 1) 8) (Z.lor (Z.shiftl (aff 2) 16)
         (Z.shiftl (aff 3) GICD_IROUTER_AFF3_SHIFT))).

Definition __gicd_spi_config_router (id : Z) (irm : bool) (affinity : Z) : M (gic D) Z :=
  regs ← require_gicd_regs;
  if bad_spi id then mret (- EINVAL) else
  g ← gets gicd;
  if negb (truth (are g)) && negb irm then mret (- ENOTSUP) else
  hw (write64 (regs + D_IROUTER + 8 * id) (route_value irm affinity)) ;;
  mret 0.

Definition __gicd_spi_set_priority (id prio : Z) : M (gic D) Z :=
  regs ← require_gicd_regs;
  if bad_spi id then mret (- EINVAL) else
  let reg_offset := Z.shiftr id 2 in
  let byte_offset := Z.land id 0x3 in
  rmw (regs + D_IPRIORITYR + 4 * reg_offset)
      (fun v => set_field v 0xFF (u8 prio) (byte_offset * 8)) ;;
  mret 0.

Definition __gicd_spi_set_security (id : Z) (group secure : bool) : M (gic D) Z :=
  regs ← require_gicd_regs;
  if bad_spi id then mret (- EINVAL) else
  let reg_offset := Z.shiftr id 5 in
  let bit_offset := Z.land id 0x1F in
  (if group then rmw (regs + D_IGROUPR + 4 * reg_offset) (fun v => set_bit (negb secure) v bit_offset)
   else rmw (regs + D_IGRPMODR + 4 * reg_offset) (fun v => set_bit (negb secure) v bit_offset)) ;;
  mret 0.

Definition __gicd_set_spi (p : irq_ptr) : M (gic D) Z := c ← get_irq p; __gicd_set_clear_spi (intid c) true.
Definition __gicd_clear_spi (p : irq_ptr) : M (gic D) Z := c ← get_irq p; __gicd_set_clear_spi (intid c) false.
Definition __gicd_set_spi_priority (p : irq_ptr) (prio : Z) : M (gic D) Z :=
  c ← get_irq p; __gicd_spi_set_priority (intid c) prio.
Definition __gicd_set_spi_trigger (p : irq_ptr) (is_edge : bool) : M (gic D) Z :=
  c ← get_irq p; __gicd_spi_set_trigger (intid c) is_edge.
Definition __gicd_set_spi_group (p : irq_ptr) (grp : Z) : M (gic D) Z :=
  c ← get_irq p; __gicd_spi_set_security (intid c) (truth (u8 grp)) false.

Definition get_spi_context (id : Z) : M (gic D) (option irq_ptr) :=
  if bad_spi id then mret None else
  let p := SpiCtx (id - SPI_FIRST_INTID) in
  c ← get_irq p;
  put_irq p {| intid := intid c; group := group c; security := security c; irm := irm c;
               trigger := trigger c; priority := priority c; nsac := nsac c;
               irq_reserved := irq_reserved c; affinity_cpu_id := affinity_cpu_id c;
               handle := handle c; arg := arg c; ops := Some g_spi_intr_ops |} ;;
  mret (Some p).

(** * gicv3.c *)

Definition get_irq_context (id : Z) : M (gic D) (option irq_ptr) :=
  if id <=? SGI_LAST_INTID then get_sgi_context id
  else if id <=? PPI_LAST_INTID then get_ppi_context id
  else if id <=? SPI_LAST_INTID then get_spi_context id
  else pr (ln "Invalid intid: %u") [id] ;; mret None.

(** Calls through [intr->ops]; a NULL table is dereferenced. *)
Definition with_ops (p : irq_ptr) (f : gic_intr_operations -> M (gic D) Z) : M (gic D) Z :=
  c ← get_irq p;
  match ops c with Some o => f o | None => stop_with (Fault 0) end.

(** The functions of a table, as sgi.c, ppi.c and spi.c fill it. *)
Record intr_functions := {
  set_intr : irq_ptr -> M (gic D) Z; clear_intr : irq_ptr -> M (gic D) Z;
  set_priority : irq_ptr -> Z -> M (gic D) Z; set_trigger : irq_ptr -> bool -> M (gic D) Z;
  set_group : irq_ptr -> Z -> M (gic D) Z }.

Definition sgi_intr_functions : intr_functions :=
  {| set_intr := __gicr_set_sgi; clear_intr := __gicr_clear_sgi; set_priority := __gicr_sgi_set_priority;
     set_trigger := __gicr_sgi_set_trigger; set_group := __gicr_sgi_set_group |}.

Definition ppi_intr_functions : intr_functions :=
  {| set_intr := __gicr_set_ppi; clear_intr := __gicr_clear_ppi; set_priority := __gicr_ppi_set_priority;
     set_trigger := __gicr_ppi_set_trigger; set_group := __gicr_ppi_set_group |}.

Definition spi_intr_functions : intr_functions :=
  {| set_intr := __gicd_set_spi; clear_intr := __gicd_clear_spi; set_priority := __gicd_set_spi_priority;
     set_trigger := __gicd_set_spi_trigger; set_group := __gicd_set_spi_group |}.

Definition functions_of (o : gic_intr_operations) : intr_functions :=
  match o with
  | g_sgi_intr_ops => sgi_intr_functions
  | g_ppi_intr_ops => ppi_intr_functions
  | g_spi_intr_ops => spi_intr_functions
  end.

Definition call_clear_intr (p : irq_ptr) : M (gic D) Z := with_ops p (fun o => clear_intr (functions_of o) p).
Definition call_set_intr (p : irq_ptr) : M (gic D) Z := with_ops p (fun o => set_intr (functions_of o) p).
Definition call_set_priority (p : irq_ptr) (v : Z) : M (gic D) Z := with_ops p (fun o => set_priority (functions_of o) p v).
Definition call_set_group (p : irq_ptr) (v : Z) : M (gic D) Z := with_ops p (fun o => set_group (functions_of o) p v).
Definition call_set_trigger (p : irq_ptr) (v : bool) : M (gic D) Z := with_ops p (fun o => set_trigger (functions_of o) p v).

Definition gic_irq_enable (intr : option irq_ptr) : M (gic D) Z :=
  match intr with
  | None => mret (- ENOENT)
  | Some p =>
      ret ← call_clear_intr p;
      if ret <? 0 then mret ret else
      c ← get_irq p; ret ← call_set_priority p (priority c);
      if ret <? 0 then mret ret else
      c ← get_irq p; ret ← call_set_group p (group c);
      if ret <? 0 then mret ret else
      c ← get_irq p; ret ← call_set_trigger p (truth (trigger c));
      if ret <? 0 then mret ret else
      call_set_intr p
  end.

Definition gicv3_init : M (gic D) Z := _ ← hw irq_enable; _ ← gicd_init; mret 0.

(** [sre] and the bits of ICC_CTLR_EL1 that are cleared. *)
Definition SRE_VALUE : Z := Z.lor (Z.shiftl 1 0) (Z.lor (Z.shiftl 1 1) (Z.lor (Z.shiftl 1 2) (Z.shiftl 1 3))).
Definition CTLR_CLEARED : Z := Z.lor (Z.shiftl 1 1) (Z.lor (Z.shiftl 1 0) (Z.shiftl 1 6)).

Definition plat_gicv3_init : M (gic D) Z :=
  ret ← run_once gicd_init_once (fun s o => set_once (fun _ => o) s) gicv3_init;
  if ret <? 0 then panic "GICD initialization failed" else
  cpu ← __get_this_gicr;
  g ← get_gicr cpu;
  ret ← gicr_init cpu (r_cpu_id g);
  if ret <? 0 then mret ret else
  hw (write_sysreg "ICC_SRE_EL2" SRE_VALUE) ;;
  hw isb ;;
  hw (write_sysreg "ICC_BPR1_EL1" 0x7) ;;
  hw (write_sysreg "ICC_PMR_EL1" 0xFF) ;;
  ctlr ← hw (read_sysreg "ICC_CTLR_EL1");
  hw (write_sysreg "ICC_CTLR_EL1" (Z.land (u32 ctlr) (bnot 32 CTLR_CLEARED))) ;;
  hw (write_sysreg "ICC_IGRPEN1_EL1" 1) ;;
  mret 0.
End Driver.
