(* ===== verification/GicProof.v ===== *)
(** Running the GIC driver: what each access adds to the trace, busy waits that end, and
    the register fields that the driver changes. *)
From Stdlib Require Import ZArith Lia.
From stdpp Require Import base gmap list strings.
From S2P Require Import Prelude Printf PrintfProof Io IoProof Spinlock GicRegs Gic GicIntr.

Open Scope Z_scope.

(** * Register fields *)

Lemma shifted_mask w n sh i :
  0 <= n -> 0 <= sh -> 0 <= w -> 0 <= i ->
  Z.testbit (wrap w (Z.shiftl (Z.ones n) sh)) i = (i <? w) && (sh <=? i) && (i <? sh + n).
Proof.
  intros Hn Hsh Hw Hi. rewrite wrap_testbit, Z.shiftl_spec by lia.
  destruct (Z.ltb_spec i w); [|done]. cbn [andb].
  destruct (Z.leb_spec sh i); cbn [andb].
  - rewrite ones_testbit by lia. destruct (Z.ltb_spec (i - sh) n), (Z.ltb_spec i (sh + n)); lia || done.
  - by rewrite Z.testbit_neg_r by lia.
Qed.

(** Replacing the [n]-bit field at [sh]: the field reads back, the other bits stay. *)
Lemma set_field_testbit old v n sh i :
  0 <= old < 2 ^ 32 -> 0 <= v < 2 ^ n -> 0 <= n -> 0 <= sh -> sh + n <= 32 -> 0 <= i ->
  Z.testbit (set_field old (Z.ones n) v sh) i =
    if (sh <=? i) && (i <? sh + n) then Z.testbit v (i - sh) else Z.testbit old i.
Proof.
  intros Ho Hv Hn Hsh Hw Hi. unfold set_field.
  rewrite Z.lor_spec, Z.land_spec, bnot_testbit, shifted_mask, wrap_testbit, Z.shiftl_spec by lia.
  destruct (Z.ltb_spec i 32), (Z.leb_spec sh i), (Z.ltb_spec i (sh + n)); cbn [andb negb];
    rewrite ?andb_true_r, ?andb_false_r, ?orb_false_l, ?orb_false_r; try lia; try done.
  - rewrite (testbit_high n v (i - sh)) by lia. by rewrite orb_false_r.
  - rewrite (Z.testbit_neg_r v) by lia. by rewrite orb_false_r.
  - by rewrite (testbit_high 32 old i) by lia.
Qed.

Lemma set_field_range old mask v sh : 0 <= old < 2 ^ 32 -> 0 <= set_field old mask v sh < 2 ^ 32.
Proof.
  intros Ho. unfold set_field. set (a := Z.land _ _). set (b := wrap 32 _).
  assert (Hb : 0 <= b < 2 ^ 32) by (apply wrap_range; lia).
  assert (Ha : 0 <= a) by (apply Z.land_nonneg; lia).
  split; [apply Z.lor_nonneg; lia|].
  assert (Hlt : Z.lor a b = wrap 32 (Z.lor a b)).
  { bit_ext i Hi. rewrite wrap_testbit, Z.lor_spec by lia. destruct (Z.ltb_spec i 32); [done|]. cbn [andb].
    unfold a. rewrite Z.land_spec, (testbit_high 32 old i), (testbit_high 32 b i) by lia. done. }
  rewrite Hlt. apply wrap_range. lia.
Qed.

(** The [n]-bit field at [sh] of a register. *)
Definition get_field (r sh n : Z) : Z := Z.land (Z.shiftr r sh) (Z.ones n).

Lemma get_set_field old v n sh :
  0 <= old < 2 ^ 32 -> 0 <= v < 2 ^ n -> 0 <= n -> 0 <= sh -> sh + n <= 32 ->
  get_field (set_field old (Z.ones n) v sh) sh n = v /\
  (forall sh' n', 0 <= sh' -> 0 <= n' -> sh' + n' <= sh \/ sh + n <= sh' ->
     get_field (set_field old (Z.ones n) v sh) sh' n' = get_field old sh' n').
Proof.
  intros Ho Hv Hn Hsh Hw. unfold get_field. split; [|intros sh' n' Hsh' Hn' Hd]; bit_ext i Hi.
  - rewrite Z.land_spec, Z.shiftr_spec, set_field_testbit, ones_testbit by lia.
    destruct (Z.ltb_spec i n).
    + replace ((sh <=? i + sh) && (i + sh <? sh + n)) with true by lia. rewrite andb_true_r. f_equal. lia.
    + rewrite andb_false_r. symmetry. apply (testbit_high n); lia.
  - rewrite !Z.land_spec, !Z.shiftr_spec, set_field_testbit, ones_testbit by lia.
    destruct (Z.ltb_spec i n'); [|by rewrite !andb_false_r].
    replace ((sh <=? i + sh') && (i + sh' <? sh + n)) with false by lia. done.
Qed.

Lemma set_bit_testbit b old k i :
  0 <= old < 2 ^ 32 -> 0 <= k < 32 -> 0 <= i ->
  Z.testbit (set_bit b old k) i = if i =? k then b else Z.testbit old i.
Proof.
  intros Ho Hk Hi.
  assert (Hm : Z.testbit (u32 (Z.shiftl 1 k)) i = (i =? k)).
  { rewrite wrap_testbit, Z.shiftl_spec by lia. destruct (Z.ltb_spec i 32), (Z.eqb_spec i k); cbn [andb]; try lia.
    - subst. by rewrite Z.sub_diag.
    - destruct (Z.ltb_spec i k); [by rewrite Z.testbit_neg_r by lia|].
      replace 1 with (2 ^ 0) by done. rewrite Z.pow2_bits_false by lia. done. }
  unfold set_bit. destruct b; [rewrite Z.lor_spec, Hm|rewrite Z.land_spec, bnot_testbit, Hm by lia];
    destruct (Z.eqb_spec i k); cbn [negb]; rewrite ?orb_true_r, ?orb_false_r, ?andb_false_r; try done.
  destruct (Z.ltb_spec i 32); cbn [andb]; rewrite ?andb_true_r, ?andb_false_r; [done|].
  symmetry. apply (testbit_high 32); lia.
Qed.

#[global] Instance gic_traced {D} : Traced (gic D) := fun s => trace (gio s).

(** * Runs of the driver *)

Section Runs.
Context {D : Type} `{Hardware D} `{Config}.

(** The driver's own state is as before. *)
Definition same_state (s s' : gic D) : Prop :=
  gicd s' = gicd s /\ gicrs s' = gicrs s /\ irqs s' = irqs s /\ gicd_init_once s' = gicd_init_once s.

#[global] Instance same_state_preorder : PreOrder same_state.
Proof. split; [by intros s|]. intros a b c (? & ? & ? & ?) (? & ? & ? & ?). unfold same_state. by split_and!; etrans. Qed.

Lemma runs_read32 a s : exists v s', runs (hw (read32 a)) s v s' [ERead 4 a v] /\
  0 <= v < 2 ^ 32 /\ same_state s s'.
Proof.
  eexists _, _. split; [split; [reflexivity|reflexivity]|]. split; [apply wrap_range; lia|done].
Qed.

Lemma runs_write32 a v s : exists s', runs (hw (write32 a v)) s tt s' [EWrite 4 a (u32 v)] /\ same_state s s'.
Proof. eexists. by repeat split. Qed.

Lemma runs_write64 a v s : exists s', runs (hw (write64 a v)) s tt s' [EWrite 8 a (u64 v)] /\ same_state s s'.
Proof. eexists. by repeat split. Qed.

Lemma runs_barrier b s : exists s', runs (hw (barrier b)) s tt s' [EBarrier b] /\ same_state s s'.
Proof. eexists. by repeat split. Qed.

Lemma runs_mrs r s : exists v s', runs (hw (read_sysreg r)) s v s' [EMrs r v] /\ same_state s s'.
Proof. eexists _, _. by repeat split. Qed.

Lemma runs_msr r v s : exists s', runs (hw (write_sysreg r v)) s tt s' [EMsr r (u64 v)] /\ same_state s s'.
Proof. eexists. by repeat split. Qed.

(** Reading MPIDR to find the CPU. *)
Lemma runs_cpu_id s : exists v s', runs (hw cpu_id) s (Z.land v 0xFF) s' [EMrs "MPIDR_EL1" v] /\ same_state s s'.
Proof. eexists _, _. by repeat split. Qed.

Lemma runs_pr fmt args s :
  scan_ok fmt (length args) = true ->
  exists s' t, runs (pr fmt args) s tt s' (EPutc <$> t) /\ same_state s s'.
Proof.
  intros Hscan. apply scan_ok_Some in Hscan as [items Hscan].
  apply scan_sound in Hscan as (Hf & Ha & Hv).
  destruct (@vprintf_emits (io D) (io_output_from (gio s)) items (gio s) Hv) as (t' & E & (t & Ht & _) & _).
  { exists []. by rewrite app_nil_r. }
  rewrite Hf, Ha in E. change (vprintf (str fmt) (AInt <$> args) (gio s) = Ok 0 t') in E.
  exists (set_gio s t'), t. split; [split|done].
  - unfold pr, hw, printf, zoom, mbind, M_bind. by rewrite E.
  - exact Ht.
Qed.

(** A poll of one register bit, as the driver's three wait loops make it. *)
Lemma runs_spin n a bit (cond : M (gic D) bool) s :
  (forall t, same_state s t ->
     cond t = (v ← hw (read32 a); mret (truth (Z.land v bit))) t) ->
  settles n a bit (dev (gio s)) ->
  exists s' l, runs (spin_while n cond) s tt s' l /\ same_state s s' /\ effects l = [].
Proof.
  revert s. induction n as [|n IH]; intros s Hcond Hset; cbn [settles spin_while] in *;
    set (v := u32 (fst (mmio_read 4 a (dev (gio s))))) in *;
    set (s1 := set_gio s (Build_io (snd (mmio_read 4 a (dev (gio s)))) (trace (gio s) ++ [ERead 4 a v])));
    assert (E : cond s = Ok (truth (Z.land v bit)) s1) by (by rewrite Hcond).
  - destruct Hset as [Hset|[]]. rewrite Hset in E. exists s1, [ERead 4 a v].
    split; [split; [by mstep E|done]|split; done].
  - destruct Hset as [Hset|Hset].
    + rewrite Hset in E. exists s1, [ERead 4 a v].
      split; [split; [by mstep E|done]|split; done].
    + destruct (truth _) eqn:Ht.
      * destruct (IH s1) as (s2 & l & [E2 T2] & Hs2 & Hl);
          [intros t Ht'; by apply Hcond|done|].
        exists s2, (ERead 4 a v :: l).
        split; [split; [by mstep E|]|split; [done|done]]. rewrite T2. cbn. by rewrite <- app_assoc.
      * exists s1, [ERead 4 a v].
        split; [split; [by mstep E|done]|split; [done|done]].
Qed.
End Runs.

Section Distributor.
Context {D : Type} `{Hardware D} `{Config}.

(** The distributor's write-pending wait ends on any hardware state. *)
Definition gicd_settles (regs : Z) : Prop :=
  forall d : D, settles patience (regs + D_STATUSR) GICD_CTLR_RWP d.

Lemma require_gicd_regs_run (s : gic D) :
  gicd_regs (gicd s) <> 0 -> require_gicd_regs s = Ok (gicd_regs (gicd s)) s.
Proof.
  intros Hr. unfold require_gicd_regs. rewrite bind_gets.
  by rewrite (proj2 (Z.eqb_neq _ _) Hr).
Qed.

Lemma runs_require (s : gic D) :
  gicd_regs (gicd s) <> 0 -> runs require_gicd_regs s (gicd_regs (gicd s)) s [].
Proof. intros Hr. split; [by apply require_gicd_regs_run|by rewrite app_nil_r]. Qed.

Lemma runs_gicd_wait (s : gic D) :
  gicd_regs (gicd s) <> 0 -> gicd_settles (gicd_regs (gicd s)) ->
  exists s' l, runs gicd_wait_rwp s tt s' l /\ same_state s s' /\ effects l = [].
Proof.
  intros Hr Hset. pose proof (runs_require s Hr) as R1.
  destruct (runs_barrier "isb" s) as (s1 & R2 & S1).
  destruct (runs_spin patience (gicd_regs (gicd s) + D_STATUSR) GICD_CTLR_RWP gicd_rwp s1)
    as (s2 & l & R3 & S2 & Hl); [|by apply Hset|].
  - intros t Ht. assert (Hg : gicd t = gicd s) by (destruct S1 as [<- _]; by destruct Ht as [<- _]).
    unfold gicd_rwp. rewrite (bind_Ok _ _ t (gicd_regs (gicd s)) t); [done|].
    rewrite <- Hg. apply require_gicd_regs_run. by rewrite Hg.
  - exists s2, ([] ++ [EBarrier "isb"] ++ l). split; [unfold gicd_wait_rwp; chain (R1, R2, R3)|].
    split; [by etrans|by rewrite !effects_app, Hl].
Qed.

(** The writes of the loop of gicd_init. *)
Fixpoint quiet_writes (k : nat) (i : Z) : list event :=
  match k with
  | O => []
  | Datatypes.S k' =>
      EWrite 4 (GICD_BASE + D_ICPENDR + 4 * (i + 1)) 0xFFFFFFFF ::
      EWrite 4 (GICD_BASE + D_ICACTIVER + 4 * (i + 1)) 0xFFFFFFFF ::
      EWrite 4 (GICD_BASE + D_ICENABLER + 4 * (i + 1)) 0xFFFFFFFF :: quiet_writes k' (i + 1)
  end.

Lemma runs_quiet_loop k i (s : gic D) :
  gicd_regs (gicd s) <> 0 -> gicd_settles (gicd_regs (gicd s)) ->
  exists s' l, runs (quiet_loop k i) s tt s' l /\ same_state s s' /\ effects l = quiet_writes k i.
Proof.
  revert i s. induction k as [|k IH]; intros i s Hr Hset.
  - exists s, []. split; [apply runs_ret|done].
  - cbn [quiet_loop quiet_writes].
    destruct (runs_write32 (GICD_BASE + D_ICPENDR + 4 * (i + 1)) 0xFFFFFFFF s) as (s1 & R1 & S1).
    destruct (runs_write32 (GICD_BASE + D_ICACTIVER + 4 * (i + 1)) 0xFFFFFFFF s1) as (s2 & R2 & S2).
    destruct (runs_write32 (GICD_BASE + D_ICENABLER + 4 * (i + 1)) 0xFFFFFFFF s2) as (s3 & R3 & S3).
    assert (S03 : same_state s s3) by (do 2 (etrans; [eassumption|]); eassumption).
    assert (Hg : gicd s3 = gicd s) by apply S03.
    destruct (runs_gicd_wait s3) as (s4 & l4 & R4 & S4 & E4); [by rewrite Hg|by rewrite Hg|].
    assert (Hg4 : gicd s4 = gicd s) by (destruct S4 as [-> _]; done).
    destruct (IH (i + 1) s4) as (s5 & l5 & R5 & S5 & E5); [by rewrite Hg4|by rewrite Hg4|].
    eexists s5, _. split; [chain (R1, R2, R3, R4, R5)|]. split; [by do 2 (etrans; [eassumption|])|].
    rewrite !effects_app, E4, E5. done.
Qed.

Lemma runs_show (s : gic D) :
  exists s' t, runs gicv3_show_distributor s tt s' (EPutc <$> t) /\ same_state s s'.
Proof.
  unfold gicv3_show_distributor. set (g := gicd s).
  destruct (runs_pr (ln "GICD: gicd_regs=0x%lx") [gicd_regs g] s ltac:(vm_compute; reflexivity)) as (s1 & t1 & R1 & S1).
  destruct (runs_pr (ln "GICD: itlinesnumber=%u, spi_count=%u, cpunumber=%u" +:+
      ln "securityextn=%u, mbis=%u, lpis=%u, num_lpis=%u, a3v=%u, no1n=%u")
     [itlinesnumber g; spi_count g; cpunumber g; securityextn g; mbis g; lpis g; num_lpis g;
      a3v g; no1n g] s1 ltac:(vm_compute; reflexivity)) as (s2 & t2 & R2 & S2).
  destruct (runs_pr (ln "GICD: implementer=0x%x, revision=%u, variant=%u, productid=0x%x")
     [implementer g; revision g; variant g; productid g] s2 ltac:(vm_compute; reflexivity)) as (s3 & t3 & R3 & S3).
  destruct (runs_pr (ln "GICD: ds=%u, enable_grp0=%u, enable_grp1=%u, are=%u")
     [ds g; enable_grp0 g; enable_grp1 g; are g] s3 ltac:(vm_compute; reflexivity)) as (s4 & t4 & R4 & S4).
  destruct (runs_pr (ln "GICD: e1nwf=%u") [e1nwf g] s4 ltac:(vm_compute; reflexivity)) as (s5 & t5 & R5 & S5).
  pose proof (runs_gets gicd s) as R0. fold g in R0.
  exists s5, ([] ++ t1 ++ t2 ++ t3 ++ t4 ++ t5). split.
  - rewrite !fmap_app. chain (R0, R1, R2, R3, R4, R5).
  - do 4 (etrans; [eassumption|]). done.
Qed.

(** The distributor context after the attributes have been read. *)
Definition gicd_attributes (typer iidr : Z) (g : gicd_context) : gicd_context :=
  let g1 := with_typer typer (with_gicd_regs GICD_BASE g) in
  with_config 0 1 0 0 (ds g1) (with_iidr iidr g1).

Lemma same_gicd (s s' : gic D) : same_state s s' -> gicd s' = gicd s.
Proof. by intros [? _]. Qed.

Lemma runs_gicd_init (s : gic D) :
  gicd_settles GICD_BASE ->
  exists typer iidr ctrl s' l,
    0 <= typer < 2 ^ 32 /\ 0 <= iidr < 2 ^ 32 /\ 0 <= ctrl < 2 ^ 32 /\
    runs gicd_init s 0 s' l /\
    take 2 l = [ERead 4 (GICD_BASE + D_TYPER) typer; ERead 4 (GICD_BASE + D_IIDR) iidr] /\
    ERead 4 (GICD_BASE + D_CTLR) ctrl ∈ l /\
    effects l = EWrite 4 (GICD_BASE + D_CTLR) GICD_CTLR_ENABLE_GRP1 ::
                quiet_writes (Z.to_nat (field typer 0 0x1F)) 0 /\
    gicd s' = with_ctlr ctrl (gicd_attributes typer iidr (gicd s)) /\
    gicrs s' = gicrs s /\ irqs s' = irqs s /\ gicd_init_once s' = gicd_init_once s.
Proof.
  intros Hset.
  pose proof (runs_modify (set_gicd (with_gicd_regs GICD_BASE)) s eq_refl) as R1.
  destruct (runs_read32 (GICD_BASE + D_TYPER) (set_gicd (with_gicd_regs GICD_BASE) s))
    as (typer & s2 & R2 & Ht & S2).
  pose proof (runs_modify (set_gicd (with_typer typer)) s2 eq_refl) as R3.
  destruct (runs_read32 (GICD_BASE + D_IIDR) (set_gicd (with_typer typer) s2)) as (iidr & s4 & R4 & Hi & S4).
  pose proof (runs_modify (set_gicd (fun g => with_config 0 1 0 0 (ds g) (with_iidr iidr g))) s4 eq_refl) as R5.
  set (s5 := set_gicd _ s4) in *.
  assert (G5 : gicd s5 = gicd_attributes typer iidr (gicd s)).
  { unfold s5. cbn [gicd set_gicd]. rewrite (same_gicd _ _ S4). cbn [gicd set_gicd].
    rewrite (same_gicd _ _ S2). done. }
  destruct (runs_pr (ln "GICv3 Distributor init: 0x%lx") [GICD_BASE + D_CTLR] s5
    ltac:(vm_compute; reflexivity)) as (s6 & t6 & R6 & S6).
  pose proof (runs_gets gicd s6) as R7. rewrite (same_gicd _ _ S6), G5 in R7.
  destruct (runs_write32 (GICD_BASE + D_CTLR) 2 s6) as (s8 & R8 & S8).
  assert (G8 : gicd s8 = gicd_attributes typer iidr (gicd s)).
  { by rewrite (same_gicd _ _ S8), (same_gicd _ _ S6). }
  destruct (runs_gicd_wait s8) as (s9 & l9 & R9 & S9 & E9); [by rewrite G8|by rewrite G8|].
  destruct (runs_read32 (GICD_BASE + D_CTLR) s9) as (ctrl & s10 & R10 & Hc & S10).
  pose proof (runs_modify (set_gicd (with_ctlr ctrl)) s10 eq_refl) as R11.
  set (s11 := set_gicd _ s10) in *.
  assert (G11 : gicd s11 = with_ctlr ctrl (gicd_attributes typer iidr (gicd s))).
  { unfold s11. cbn [gicd set_gicd]. by rewrite (same_gicd _ _ S10), (same_gicd _ _ S9), G8. }
  pose proof (runs_gets gicd s11) as R12.
  destruct (runs_quiet_loop (Z.to_nat (itlinesnumber (gicd s11))) 0 s11)
    as (s13 & l13 & R13 & S13 & E13); [by rewrite G11|by rewrite G11|].
  destruct (runs_barrier "isb" s13) as (s14 & R14 & S14).
  destruct (runs_pr (ln "gicd init done!") [] s14 ltac:(vm_compute; reflexivity)) as (s15 & t15 & R15 & S15).
  destruct (runs_show s15) as (s16 & t16 & R16 & S16).
  pose proof (runs_ret 0 s16) as R17.
  exists typer, iidr, ctrl, s16.
  eexists ([] ++ [ERead 4 (GICD_BASE + D_TYPER) typer] ++ [] ++ [ERead 4 (GICD_BASE + D_IIDR) iidr] ++ [] ++ _).
  split; [done|]. split; [done|]. split; [done|]. split; [|split; [|split; [|split]]].
  - unfold gicd_init. chain (R1, R2, R3, R4, R5, R6, R7, R8, R9, R10, R11, R12, R13, R14, R15, R16, R17).
  - done.
  - rewrite !elem_of_app, !list_elem_of_singleton. tauto.
  - rewrite !effects_app, !effects_putc, E9, E13. rewrite G11. cbn [itlinesnumber with_ctlr with_config
      gicd_attributes with_iidr with_typer]. by rewrite !app_nil_r.
  - assert (S : same_state s11 s16) by (do 3 (etrans; [eassumption|]); done).
    destruct S as (-> & -> & -> & ->). rewrite G11. split; [done|].
    unfold s11. cbn [gicrs irqs gicd_init_once set_gicd].
    assert (S : same_state s5 s10) by (do 3 (etrans; [eassumption|]); done).
    destruct S as (_ & -> & -> & ->). unfold s5. cbn [gicrs irqs gicd_init_once set_gicd].
    destruct S4 as (_ & -> & -> & ->). cbn [gicrs irqs gicd_init_once set_gicd].
    by destruct S2 as (_ & -> & -> & ->).
Qed.
End Distributor.
