(* ===== verification/GicIntrProof.v ===== *)
(** Runs of the interrupt operations. *)
From Stdlib Require Import ZArith Lia.
From stdpp Require Import base gmap list strings.
From S2P Require Import Prelude Printf PrintfProof Io IoProof Spinlock GicRegs Gic GicIntr GicProof.

Open Scope Z_scope.

Section Intr.
Context {D : Type} `{Hardware D} `{Config}.

(** The program runs on CPU [cpu]. *)
Context (cpu : Z).
Definition on_this_cpu : Prop :=
  cpu < NR_CPU /\ forall d : D, Z.land (u64 (fst (sys_read "MPIDR_EL1" d))) 0xFF = cpu.
Hypothesis Hcpu : on_this_cpu.

Lemma runs_this_gicr (s : gic D) :
  exists v s', runs __get_this_gicr s cpu s' [EMrs "MPIDR_EL1" v] /\ same_state s s'.
Proof using Hcpu.
  destruct Hcpu as [Hlt Hid]. eexists _, _. split.
  - unfold __get_this_gicr, hw, zoom, cpu_id, read_sysreg, access, mbind, M_bind. cbn.
    split; [unfold mret, M_ret; rewrite Hid; unfold __get_gicr;
            rewrite (proj2 (Z.leb_gt _ _)) by done; reflexivity|reflexivity].
  - done.
Qed.

Lemma runs_get_gicr (s : gic D) c g : gicrs s !! c = Some g -> runs (get_gicr c) s g s [].
Proof. intros Hg. split; [unfold get_gicr; by rewrite Hg|by rewrite app_nil_r]. Qed.

Lemma runs_get_irq (s : gic D) p c : irqs s !! p = Some c -> runs (get_irq p) s c s [].
Proof. intros Hg. split; [unfold get_irq; by rewrite Hg|by rewrite app_nil_r]. Qed.

Lemma same_gicrs (s s' : gic D) : same_state s s' -> gicrs s' = gicrs s.
Proof. by intros (_ & ? & _). Qed.
Lemma same_irqs (s s' : gic D) : same_state s s' -> irqs s' = irqs s.
Proof. by intros (_ & _ & ? & _). Qed.

Lemma runs_this_sgi_regs (s : gic D) g : gicrs s !! cpu = Some g ->
  exists v s', runs this_sgi_regs s (cpu, g) s' [EMrs "MPIDR_EL1" v] /\ same_state s s'.
Proof using Hcpu.
  intros Hg. destruct (runs_this_gicr s) as (v & s1 & R1 & S1).
  assert (R2 : runs (get_gicr cpu) s1 g s1 []) by (apply runs_get_gicr; by rewrite (same_gicrs _ _ S1)).
  pose proof (runs_ret (cpu, g) s1) as R3.
  exists v, s1. split; [|done]. unfold this_sgi_regs.
  change [EMrs "MPIDR_EL1" v] with ([EMrs "MPIDR_EL1" v] ++ [] ++ []). chain (R1, R2, R3).
Qed.

Definition gicr_settles (regs : Z) : Prop :=
  forall d : D, settles patience (regs + R_CTLR) GICR_CTLR_RWP d.

Lemma runs_gicr_wait (s : gic D) g :
  gicrs s !! cpu = Some g -> gicr_regs g <> 0 -> gicr_settles (gicr_regs g) ->
  exists s' l, runs gicr_wait_rwp s tt s' l /\ same_state s s' /\ effects l = [].
Proof using Hcpu.
  intros Hg Hr Hset. destruct (runs_this_gicr s) as (v & s1 & R1 & S1).
  assert (R2 : runs (get_gicr cpu) s1 g s1 []) by (apply runs_get_gicr; by rewrite (same_gicrs _ _ S1)).
  destruct (runs_barrier "isb" s1) as (s2 & R3 & S2).
  destruct (runs_spin patience (gicr_regs g + R_CTLR) GICR_CTLR_RWP (gicr_rwp cpu) s2)
    as (s3 & l & R4 & S3 & Hl); [|by apply Hset|].
  - intros t Ht. unfold gicr_rwp. rewrite (bind_Ok _ _ t g t); [done|].
    unfold get_gicr. by rewrite (same_gicrs _ _ Ht), (same_gicrs _ _ S2), (same_gicrs _ _ S1), Hg.
  - assert (R : runs (hw isb ;; spin_while patience (gicr_rwp cpu)) s1 tt s3 ([EBarrier "isb"] ++ l))
      by chain (R3, R4).
    exists s3, ([EMrs "MPIDR_EL1" v] ++ [] ++ [EBarrier "isb"] ++ l). split; [|split].
    + unfold gicr_wait_rwp. chain (R1, R2). by rewrite (proj2 (Z.eqb_neq _ _)).
    + etrans; [exact S1|]. by etrans.
    + by rewrite !effects_app, Hl.
Qed.

Lemma runs_rmw a f (s : gic D) :
  exists old s', runs (rmw a f) s tt s' [ERead 4 a old; EWrite 4 a (u32 (f old))] /\
    0 <= old < 2 ^ 32 /\ same_state s s'.
Proof.
  destruct (runs_read32 a s) as (old & s1 & R1 & Ho & S1).
  destruct (runs_write32 a (f old) s1) as (s2 & R2 & S2).
  exists old, s2. split; [|split; [done|by etrans]]. unfold rmw.
  change [ERead 4 a old; EWrite 4 a (u32 (f old))] with ([ERead 4 a old] ++ [EWrite 4 a (u32 (f old))]).
  chain (R1, R2).
Qed.

(** * Contexts *)

(** The context a pointer leads to is one its operations accept. *)
Definition valid_ctx (p : irq_ptr) (c : irq_context) : Prop :=
  match p with
  | SgiCtx _ _ => ops c = Some g_sgi_intr_ops /\ 0 <= intid c <= 15
  | PpiCtx _ _ => ops c = Some g_ppi_intr_ops /\ 16 <= intid c <= 31
  | SpiCtx _ => ops c = Some g_spi_intr_ops /\ 32 <= intid c <= 1019
  end.

Lemma not_bad p c : valid_ctx p c ->
  match p with
  | SgiCtx _ _ => bad_sgi (intid c) = false
  | PpiCtx _ _ => bad_ppi (intid c) = false
  | SpiCtx _ => bad_spi (intid c) = false
  end.
Proof.
  unfold valid_ctx, bad_sgi, bad_ppi, bad_spi, SGI_LAST_INTID, PPI_FIRST_INTID, PPI_LAST_INTID,
    SPI_FIRST_INTID, SPI_LAST_INTID. destruct p; intros [_ ?]; lia.
Qed.

(** The state the operations find: this CPU's redistributor and the distributor are set up. *)
Record driver_ready (s : gic D) (g : gicr_context) : Prop := {
  dr_gicr : gicrs s !! cpu = Some g;
  dr_frame : gicr_regs g <> 0;
  dr_gicr_settles : gicr_settles (gicr_regs g);
  dr_gicd : gicd_regs (gicd s) <> 0;
  dr_gicd_settles : gicd_settles (D:=D) (gicd_regs (gicd s)) }.

Lemma driver_ready_same s s' g : same_state s s' -> driver_ready s g -> driver_ready s' g.
Proof. intros (Hd & Hr & _) []. split; rewrite ?Hd, ?Hr; done. Qed.

(** Where a context's priority, trigger, group and enable bit are. *)
Definition prio_reg (s : gic D) (g : gicr_context) (p : irq_ptr) (id : Z) : Z :=
  match p with
  | SpiCtx _ => gicd_regs (gicd s) + D_IPRIORITYR + 4 * (id / 4)
  | _ => gicr_sgi_regs g + S_IPRIORITYR + 4 * (id / 4)
  end.
Definition trigger_reg (s : gic D) (g : gicr_context) (p : irq_ptr) (id : Z) : Z :=
  match p with
  | SpiCtx _ => gicd_regs (gicd s) + D_ICFGR + 4 * (id / 16)
  | SgiCtx _ _ => gicr_sgi_regs g + S_ICFGR0
  | PpiCtx _ _ => gicr_sgi_regs g + S_ICFGR1
  end.
Definition group_reg (s : gic D) (g : gicr_context) (p : irq_ptr) (id grp : Z) : Z :=
  match p with
  | SpiCtx _ => gicd_regs (gicd s) + (if grp =? 0 then D_IGRPMODR else D_IGROUPR) + 4 * (id / 32)
  | _ => gicr_sgi_regs g + S_IGROUPR0
  end.
Definition enable_reg (s : gic D) (g : gicr_context) (p : irq_ptr) (id : Z) (on : bool) : Z :=
  match p with
  | SpiCtx _ => gicd_regs (gicd s) + (if on then D_ISENABLER else D_ICENABLER) + 4 * (id / 32)
  | _ => gicr_sgi_regs g + (if on then S_ISENABLER0 else S_ICENABLER0)
  end.

(** The trigger field for an edge-triggered interrupt, and the group bit for group [grp]. *)
Definition edge_value (p : irq_ptr) : Z := match p with SpiCtx _ => 2 | _ => 1 end.
Definition group_bit (p : irq_ptr) (grp : Z) : Z :=
  match p with SpiCtx _ => 1 | _ => bool_Z (truth grp) end.

(** The one effect of [l] replaces the [n] bits at [sh] of the register by [v] and keeps the
    other bits as they were read. *)
Definition updates (l : list event) (reg sh n v : Z) : Prop :=
  exists old new, effects l = [EWrite 4 reg new] /\ ERead 4 reg old ∈ l /\
    0 <= new < 2 ^ 32 /\ get_field new sh n = v /\
    forall i, 0 <= i -> i < sh \/ sh + n <= i -> Z.testbit new i = Z.testbit old i.

Lemma updates_app l1 l2 l3 reg sh n v :
  effects l1 = [] -> effects l3 = [] -> updates l2 reg sh n v -> updates (l1 ++ l2 ++ l3) reg sh n v.
Proof.
  intros E1 E3 (old & new & E & Hin & Hrest). exists old, new.
  rewrite !effects_app, E1, E3, E. split; [done|]. split; [|done].
  apply elem_of_app. right. apply elem_of_app. by left.
Qed.

Lemma runs_field_rmw a n v sh (s : gic D) :
  0 <= v < 2 ^ n -> 0 <= n -> 0 <= sh -> sh + n <= 32 ->
  exists s' l, runs (rmw a (fun old => set_field old (Z.ones n) v sh)) s tt s' l /\
    updates l a sh n v /\ same_state s s'.
Proof.
  intros Hv Hn Hsh Hw.
  destruct (runs_rmw a (fun old => set_field old (Z.ones n) v sh) s) as (old & s' & R & Ho & S).
  pose proof (set_field_range old (Z.ones n) v sh Ho) as Hr.
  eexists s', _. split; [exact R|]. split; [|done].
  exists old, (set_field old (Z.ones n) v sh). cbn. rewrite (wrap_small 32) by done.
  split; [done|]. split; [by left|]. split; [done|].
  split; [by apply get_set_field|].
  intros i Hi Hd. rewrite set_field_testbit by lia.
  by replace ((sh <=? i) && (i <? sh + n)) with false by lia.
Qed.

Lemma runs_bit_rmw a b k (s : gic D) :
  0 <= k < 32 ->
  exists s' l, runs (rmw a (fun old => set_bit b old k)) s tt s' l /\
    updates l a k 1 (bool_Z b) /\ same_state s s'.
Proof.
  intros Hk. destruct (runs_rmw a (fun old => set_bit b old k) s) as (old & s' & R & Ho & S).
  assert (Hf : u32 (set_bit b old k) = set_bit b old k).
  { bit_ext i Hi. rewrite wrap_testbit, set_bit_testbit by lia. destruct (Z.ltb_spec i 32); [done|].
    cbn [andb]. destruct (Z.eqb_spec i k); [lia|]. symmetry. apply (testbit_high 32); lia. }
  eexists s', _. split; [exact R|]. split; [|done].
  exists old, (set_bit b old k). cbn. rewrite Hf.
  split; [done|]. split; [by left|]. split; [rewrite <- Hf; apply wrap_range; lia|]. split.
  - unfold get_field. bit_ext i Hi.
    rewrite Z.land_spec, Z.shiftr_spec, set_bit_testbit, ones_testbit by lia.
    destruct (Z.eqb_spec (i + k) k), (Z.ltb_spec i 1); try lia; rewrite ?andb_true_r, ?andb_false_r.
    + replace i with 0 by lia. by destruct b.
    + symmetry. apply (testbit_high 1); [destruct b; cbn; lia|lia].
  - intros i Hi Hd. rewrite set_bit_testbit by lia. by destruct (Z.eqb_spec i k); [lia|].
Qed.

(** A call through the operation table of a valid context. *)
Lemma runs_with_ops (s : gic D) p c f a s' l o :
  irqs s !! p = Some c -> ops c = Some o -> runs (f o) s a s' l -> runs (with_ops p f) s a s' l.
Proof.
  intros Hp Ho R. pose proof (runs_get_irq s p c Hp) as R0. unfold with_ops.
  change l with ([] ++ l). chain_one R0. by rewrite Ho.
Qed.

Lemma shiftr_div a n : 0 <= n -> Z.shiftr a n = a / 2 ^ n.
Proof. apply Z.shiftr_div_pow2. Qed.
Lemma land_pow a n : 0 <= n -> Z.land a (2 ^ n - 1) = a mod 2 ^ n.
Proof. apply land_mod_pow2. Qed.
End Intr.
