(* ===== verification/GicOpsProof.v ===== *)
(** What each operation of an interrupt's table does on a driver that is set up, and what
    gic_irq_enable makes of them. *)
From Stdlib Require Import ZArith Lia.
From stdpp Require Import base gmap list strings.
From S2P Require Import Prelude Printf PrintfProof Io IoProof Spinlock GicRegs Gic GicIntr GicProof GicIntrProof.

Open Scope Z_scope.

Section Ops.
Context {D : Type} `{Hardware D} `{Config} (cpu : Z).
Hypothesis Hcpu : on_this_cpu (D:=D) cpu.

Context (s : gic D) (g : gicr_context).
Hypothesis Hready : driver_ready cpu s g.

(** A call that leaves the driver's state alone, returns 0 and has the effects [P]. *)
Definition acts (P : list event -> Prop) (m : M (gic D) Z) : Prop :=
  forall s1, same_state s s1 -> exists s' l, runs m s1 0 s' l /\ same_state s s' /\ P l.

(** Reads in front of a call and between its parts do not count. *)
Definition read_closed (P : list event -> Prop) : Prop :=
  forall l1 l2, effects l1 = [] -> P l2 -> P (l1 ++ l2).

Lemma updates_closed a sh n v : read_closed (fun l => updates l a sh n v).
Proof using. intros l1 l2 E U. rewrite <- (app_nil_r l2). by apply updates_app. Qed.

Lemma effects_closed w : read_closed (fun l => effects l = w).
Proof using. intros l1 l2 E E2. by rewrite effects_app, E. Qed.

Lemma acts_after {A} (m : M (gic D) A) a k P :
  read_closed P ->
  (forall s1, same_state s s1 -> exists s2 l, runs m s1 a s2 l /\ same_state s s2 /\ effects l = []) ->
  acts P (k a) -> acts P (m ≫= k).
Proof using.
  intros HP Hm Hk s1 S1. destruct (Hm s1 S1) as (s2 & l & R & S2 & E).
  destruct (Hk s2 S2) as (s3 & l3 & R3 & S3 & E3). exists s3, (l ++ l3).
  split; [chain (R, R3)|]. split; [done|]. by apply HP.
Qed.

(** The reads that open the operations. *)
Lemma acts_ctx p c k P : irqs s !! p = Some c -> read_closed P -> acts P (k c) -> acts P (get_irq p ≫= k).
Proof using.
  intros Hp HP. apply acts_after; [done|]. intros s1 S1. exists s1, [].
  split; [apply runs_get_irq; by rewrite (same_irqs _ _ S1)|done].
Qed.

Lemma acts_regs k P : read_closed P -> acts P (k (cpu, g)) -> acts P (this_sgi_regs ≫= k).
Proof using Hcpu Hready.
  intros HP. apply acts_after; [done|]. intros s1 S1.
  destruct (runs_this_sgi_regs cpu Hcpu s1 g) as (v & s' & R & S').
  { rewrite (same_gicrs _ _ S1). apply Hready. }
  eexists s', _. split; [exact R|]. split; [by etrans|done].
Qed.

Lemma acts_gicd k P : read_closed P -> acts P (k (gicd_regs (gicd s))) -> acts P (require_gicd_regs ≫= k).
Proof using Hready.
  intros HP. apply acts_after; [done|]. intros s1 S1. exists s1, [].
  split; [rewrite <- (same_gicd _ _ S1); apply runs_require; rewrite (same_gicd _ _ S1); apply Hready|done].
Qed.

Lemma acts_with_ops p c f o P :
  irqs s !! p = Some c -> ops c = Some o -> read_closed P -> acts P (f o) -> acts P (with_ops p f).
Proof using. intros Hp Ho HP Hf. unfold with_ops. eapply acts_ctx; [done..|]. by rewrite Ho. Qed.

(** A call with an effect and the return after it. *)
Lemma acts_ret (m : M (gic D) unit) P :
  (forall s1, same_state s s1 -> exists s' l, runs m s1 tt s' l /\ P l /\ same_state s1 s') ->
  acts P (m ;; mret 0).
Proof using.
  intros Hm s1 S1. destruct (Hm s1 S1) as (s2 & l & R & Hl & S2). exists s2, (l ++ []).
  pose proof (runs_ret 0 s2) as R2. split; [chain (R, R2)|]. rewrite app_nil_r. split; [by etrans|done].
Qed.

Lemma acts_field a n v sh :
  0 <= v < 2 ^ n -> 0 <= n -> 0 <= sh -> sh + n <= 32 ->
  acts (fun l => updates l a sh n v) (rmw a (fun old => set_field old (Z.ones n) v sh) ;; mret 0).
Proof using. intros. apply acts_ret. intros s1 _. by apply runs_field_rmw. Qed.

Lemma acts_bit a b k : 0 <= k < 32 ->
  acts (fun l => updates l a k 1 (bool_Z b)) (rmw a (fun old => set_bit b old k) ;; mret 0).
Proof using. intros. apply acts_ret. intros s1 _. by apply runs_bit_rmw. Qed.

Lemma index_split id n : 0 <= n -> Z.shiftr id n = id / 2 ^ n /\ Z.land id (2 ^ n - 1) = id mod 2 ^ n /\
  0 <= id mod 2 ^ n < 2 ^ n.
Proof using.
  intros. rewrite land_mod_pow2, Z.shiftr_div_pow2 by lia. split; [done|]. split; [done|].
  apply Z.mod_pos_bound. lia.
Qed.
End Ops.

(** Runs a call that returned 0 and the test of its result. *)
Ltac chain_ok r := chain_one r; change (0 <? 0) with false; cbn iota.

(** Opens an operation of the table of a valid context. *)
Ltac open_op :=
  repeat first
    [ eapply acts_with_ops; [eassumption|eassumption|eauto using updates_closed, effects_closed|]
    | eapply acts_ctx; [eassumption|eauto using updates_closed, effects_closed|]
    | eapply acts_regs; [eassumption|eassumption|eauto using updates_closed, effects_closed|]
    | eapply acts_gicd; [eassumption|eauto using updates_closed, effects_closed|] ].

Section Table.
Context {D : Type} `{Hardware D} `{Config} (cpu : Z) (Hcpu : on_this_cpu (D:=D) cpu).
Context (s : gic D) (g : gicr_context) (Hready : driver_ready cpu s g).

Lemma set_priority_acts p c v :
  irqs s !! p = Some c -> valid_ctx p c ->
  acts s (fun l => updates l (prio_reg s g p (intid c)) (8 * (intid c mod 4)) 8 (u8 v)) (call_set_priority p v).
Proof using Hcpu Hready.
  intros Hp Hv. pose proof (not_bad p c Hv) as Hok.
  destruct (index_split (intid c) 2 ltac:(lia)) as (E1 & E2 & E3). change (2 ^ 2) with 4 in *.
  assert (Hr : 0 <= u8 v < 2 ^ 8) by (apply wrap_range; lia).
  assert (acts_prio : forall a, acts s (fun l => updates l a (8 * (intid c mod 4)) 8 (u8 v))
    (rmw a (fun old => set_field old 0xFF (u8 v) (Z.land (intid c) 0x3 * 8)) ;; mret 0)).
  { intros a. change 0x3 with (4 - 1). rewrite E2, Z.mul_comm. apply (acts_field s a 8); lia. }
  unfold call_set_priority. destruct p as [k i|k i|i]; destruct Hv as [Ho _]; cbn [prio_reg]; rewrite <- E1;
    open_op; unfold __gicr_sgi_set_priority, __gicr_ppi_set_priority, __gicd_set_spi_priority,
      __gicd_spi_set_priority; open_op; rewrite Hok; apply acts_prio.
Qed.

Lemma set_trigger_acts p c b :
  irqs s !! p = Some c -> valid_ctx p c ->
  acts s (fun l => updates l (trigger_reg s g p (intid c)) (2 * (intid c mod 16)) 2
                     (if b : bool then edge_value p else 0)) (call_set_trigger p b).
Proof using Hcpu Hready.
  intros Hp Hv. pose proof (not_bad p c Hv) as Hok.
  assert (acts_trig : forall a id v, 0 <= v < 4 ->
    acts s (fun l => updates l a (2 * (id mod 16)) 2 v)
      (rmw a (fun old => set_field old 0x3 v (Z.shiftl (Z.land id 0xF) 1)) ;; mret 0)).
  { intros a id v Hval. destruct (index_split id 4 ltac:(lia)) as (_ & E2 & E3). change (2 ^ 4) with 16 in *.
    change 0xF with (16 - 1). rewrite E2, Z.shiftl_mul_pow2, Z.mul_comm by lia. change (2 ^ 1) with 2.
    apply (acts_field s a 2); lia. }
  unfold call_set_trigger. destruct p as [k i|k i|i]; destruct Hv as [Ho Hid]; cbn [trigger_reg edge_value];
    open_op; unfold __gicr_sgi_set_trigger, __gicr_ppi_set_trigger, __gicd_set_spi_trigger,
      __gicd_spi_set_trigger; open_op; rewrite Hok.
  - destruct (index_split (intid c) 4 ltac:(lia)) as (-> & _ & _). change (2 ^ 4) with 16.
    rewrite (Z.div_small (intid c) 16), Z.add_0_r by lia. apply acts_trig. destruct b; lia.
  - unfold PPI_FIRST_INTID. cbn zeta. destruct (index_split (intid c - 16) 4 ltac:(lia)) as (-> & _ & _).
    change (2 ^ 4) with 16. rewrite (Z.div_small (intid c - 16) 16), Z.add_0_r by lia.
    replace (intid c mod 16) with ((intid c - 16) mod 16)
      by (rewrite <- (Z_mod_plus_full (intid c - 16) 1 16); f_equal; lia).
    apply acts_trig. destruct b; lia.
  - destruct (index_split (intid c) 4 ltac:(lia)) as (-> & _ & _). change (2 ^ 4) with 16.
    apply acts_trig. unfold GICD_ICFGR_EDGE_TRIGGERED, GICD_ICFGR_LEVEL_SENSITIVE. destruct b; lia.
Qed.

Lemma set_group_acts p c v :
  irqs s !! p = Some c -> valid_ctx p c ->
  acts s (fun l => updates l (group_reg s g p (intid c) (u8 v)) (intid c mod 32) 1 (group_bit p (u8 v)))
    (call_set_group p v).
Proof using Hcpu Hready.
  intros Hp Hv. pose proof (not_bad p c Hv) as Hok.
  destruct (index_split (intid c) 5 ltac:(lia)) as (E1 & E2 & E3). change (2 ^ 5) with 32 in *.
  unfold call_set_group. destruct p as [k i|k i|i]; destruct Hv as [Ho Hid]; cbn [group_reg group_bit];
    open_op; unfold __gicr_sgi_set_group, __gicr_ppi_set_group, __gicd_set_spi_group, __gicd_spi_set_security;
    open_op; rewrite Hok; open_op; change 0x1F with (32 - 1); rewrite ?E1, E2; unfold truth.
  - by apply (acts_bit s _ (negb (u8 v =? 0))).
  - by apply (acts_bit s _ (negb (u8 v =? 0))).
  - destruct (u8 v =? 0); by apply (acts_bit s _ true).
Qed.

Lemma runs_clear_wait s1 a x : same_state s s1 ->
  exists s' l, runs (hw (write32 a x) ;; gicr_wait_rwp) s1 tt s' l /\ effects l = [EWrite 4 a (u32 x)] /\
    same_state s1 s'.
Proof using Hcpu Hready.
  intros S1. destruct (runs_write32 a x s1) as (s2 & R & S2).
  destruct Hready as [Hg Hf Hs _ _].
  destruct (runs_gicr_wait cpu Hcpu s2 g) as (s3 & l & R3 & S3 & E); [|done..|].
  { by rewrite (same_gicrs _ _ S2), (same_gicrs _ _ S1). }
  eexists s3, _. split; [chain (R, R3)|]. split; [by rewrite effects_app, E|by etrans].
Qed.

Lemma runs_clear_gicd s1 a x : same_state s s1 ->
  exists s' l, runs (hw (write32 a x) ;; gicd_wait_rwp) s1 tt s' l /\ effects l = [EWrite 4 a (u32 x)] /\
    same_state s1 s'.
Proof using Hready.
  intros S1. destruct (runs_write32 a x s1) as (s2 & R & S2).
  assert (Hg : gicd s2 = gicd s) by by rewrite (same_gicd _ _ S2), (same_gicd _ _ S1).
  destruct (runs_gicd_wait s2) as (s3 & l & R3 & S3 & E); [rewrite Hg; apply Hready..|].
  eexists s3, _. split; [chain (R, R3)|]. split; [by rewrite effects_app, E|by etrans].
Qed.

Lemma enable_acts p c (on : bool) :
  irqs s !! p = Some c -> valid_ctx p c ->
  acts s (fun l => effects l = [EWrite 4 (enable_reg s g p (intid c) on) (2 ^ (intid c mod 32))])
    (if on then call_set_intr p else call_clear_intr p).
Proof using Hcpu Hready.
  intros Hp Hv. pose proof (not_bad p c Hv) as Hok.
  destruct (index_split (intid c) 5 ltac:(lia)) as (E1 & E2 & E3). change (2 ^ 5) with 32 in *.
  assert (Hbit : Z.shiftl 1 (intid c mod 32) = 2 ^ (intid c mod 32)) by (apply Z.shiftl_1_l).
  assert (Hu : u32 (2 ^ (intid c mod 32)) = 2 ^ (intid c mod 32)).
  { apply wrap_small. split; [apply Z.pow_nonneg; lia|]. apply Z.pow_lt_mono_r; lia. }
  rewrite <- Hu. unfold call_set_intr, call_clear_intr.
  destruct p as [k i|k i|i], on; destruct Hv as [Ho Hid]; cbn [enable_reg]; open_op;
    unfold __gicr_set_sgi, __gicr_clear_sgi, __gicr_set_ppi, __gicr_clear_ppi, __gicr_set_clear_ppi,
      __gicd_set_spi, __gicd_clear_spi, __gicd_set_clear_spi; open_op; rewrite Hok;
    unfold __gicr_set_clear_sgi; open_op; rewrite ?Hok; change 0x1F with (32 - 1); rewrite ?E1, ?E2, Hbit.
  1-4: rewrite (Z.div_small (intid c) 32), Z.add_0_r by lia.
  all: apply acts_ret; intros s1 S1.
  all: first [by apply runs_clear_wait|by apply runs_clear_gicd
    |match goal with |- context [write32 ?a ?x] => destruct (runs_write32 a x s1) as (s' & R & S'); by eexists s', _ end].
Qed.

(** The writes of gic_irq_enable, in order: disable, priority, group, trigger, enable. *)
Definition enable_writes (p : irq_ptr) (c : irq_context) (l : list event) : Prop :=
  exists lp lg lt,
    effects l = EWrite 4 (enable_reg s g p (intid c) false) (2 ^ (intid c mod 32)) ::
                effects lp ++ effects lg ++ effects lt ++
                [EWrite 4 (enable_reg s g p (intid c) true) (2 ^ (intid c mod 32))] /\
    updates lp (prio_reg s g p (intid c)) (8 * (intid c mod 4)) 8 (u8 (priority c)) /\
    updates lg (group_reg s g p (intid c) (u8 (group c))) (intid c mod 32) 1 (group_bit p (u8 (group c))) /\
    updates lt (trigger_reg s g p (intid c)) (2 * (intid c mod 16)) 2
      (if truth (trigger c) then edge_value p else 0).

Lemma irq_enable_acts p c :
  irqs s !! p = Some c -> valid_ctx p c -> acts s (enable_writes p c) (gic_irq_enable (Some p)).
Proof using Hcpu Hready.
  intros Hp Hv s1 S1.
  assert (Hctx : forall t, same_state s t -> runs (get_irq p) t c t []).
  { intros t S. apply runs_get_irq. by rewrite (same_irqs _ _ S). }
  destruct (enable_acts p c false Hp Hv s1 S1) as (s2 & l2 & R2 & S2 & E2).
  destruct (set_priority_acts p c (priority c) Hp Hv s2 S2) as (s3 & l3 & R3 & S3 & E3).
  destruct (set_group_acts p c (group c) Hp Hv s3 S3) as (s4 & l4 & R4 & S4 & E4).
  destruct (set_trigger_acts p c (truth (trigger c)) Hp Hv s4 S4) as (s5 & l5 & R5 & S5 & E5).
  destruct (enable_acts p c true Hp Hv s5 S5) as (s6 & l6 & R6 & S6 & E6).
  pose proof (Hctx s2 S2) as C2. pose proof (Hctx s3 S3) as C3. pose proof (Hctx s4 S4) as C4.
  exists s6, (l2 ++ [] ++ l3 ++ [] ++ l4 ++ [] ++ l5 ++ l6). split; [|split; [done|]].
  - unfold gic_irq_enable.
    chain_ok R2. chain_one C2. chain_ok R3. chain_one C3. chain_ok R4. chain_one C4. chain_ok R5. exact R6.
  - exists l3, l4, l5. rewrite !effects_app, E2, E6. done.
Qed.
End Table.

(** * Contexts *)

Section Contexts.
Context {D : Type} `{Hardware D} `{Config} (cpu : Z) (Hcpu : on_this_cpu (D:=D) cpu).

(** A context that has been handed a table. *)
Definition with_table (o : gic_intr_operations) (c : irq_context) : irq_context :=
  {| intid := intid c; group := group c; security := security c; irm := irm c; trigger := trigger c;
     priority := priority c; nsac := nsac c; irq_reserved := irq_reserved c;
     affinity_cpu_id := affinity_cpu_id c; handle := handle c; arg := arg c; ops := Some o |}.

Lemma runs_put (s : gic D) p c : runs (put_irq p c) s tt (set_irqs <[p := c]> s) [].
Proof using. by apply runs_modify. Qed.

(** The lookup of an SGI or SPI sets the table and nothing else. *)
Lemma runs_get_sgi (s : gic D) id c : 0 <= id <= 15 -> irqs s !! SgiCtx cpu id = Some c ->
  exists v s1, runs (get_irq_context id) s (Some (SgiCtx cpu id))
      (set_irqs <[SgiCtx cpu id := with_table g_sgi_intr_ops c]> s1) [EMrs "MPIDR_EL1" v] /\ same_state s s1.
Proof using Hcpu.
  intros Hid Hc. destruct (runs_this_gicr cpu Hcpu s) as (v & s1 & R1 & S1).
  assert (R2 : runs (get_irq (SgiCtx cpu id)) s1 c s1 []) by (apply runs_get_irq; by rewrite (same_irqs _ _ S1)).
  pose proof (runs_put s1 (SgiCtx cpu id) (with_table g_sgi_intr_ops c)) as R3.
  pose proof (runs_ret (Some (SgiCtx cpu id)) (set_irqs <[SgiCtx cpu id := with_table g_sgi_intr_ops c]> s1)) as R4.
  exists v, s1. split; [|done]. unfold get_irq_context. rewrite (proj2 (Z.leb_le id _)) by (unfold SGI_LAST_INTID; lia).
  change [EMrs "MPIDR_EL1" v] with ([EMrs "MPIDR_EL1" v] ++ [] ++ [] ++ []). unfold get_sgi_context. chain_one R1.
  replace (bad_sgi id) with false by (unfold bad_sgi, SGI_LAST_INTID; lia). chain (R2, R3, R4).
Qed.

Lemma runs_get_spi (s : gic D) id c : 32 <= id <= 1019 -> irqs s !! SpiCtx (id - 32) = Some c ->
  runs (get_irq_context id) s (Some (SpiCtx (id - 32)))
    (set_irqs <[SpiCtx (id - 32) := with_table g_spi_intr_ops c]> s) [].
Proof using.
  intros Hid Hc. pose proof (runs_get_irq s _ c Hc) as R1.
  pose proof (runs_put s (SpiCtx (id - 32)) (with_table g_spi_intr_ops c)) as R2.
  pose proof (runs_ret (Some (SpiCtx (id - 32))) (set_irqs <[SpiCtx (id - 32) := with_table g_spi_intr_ops c]> s)) as R3.
  unfold get_irq_context. unfold SGI_LAST_INTID, PPI_LAST_INTID, SPI_LAST_INTID.
  rewrite (proj2 (Z.leb_gt id 15)), (proj2 (Z.leb_gt id 31)), (proj2 (Z.leb_le id 1019)) by lia.
  change (@nil event) with (@nil event ++ [] ++ []). unfold get_spi_context.
  replace (bad_spi id) with false by (unfold bad_spi, SPI_FIRST_INTID, SPI_LAST_INTID; lia).
  chain (R1, R2, R3).
Qed.

(** What the lookup of a PPI leaves in its context. *)
Definition ppi_context_of (id : Z) (c : irq_context) : irq_context :=
  if decide (intid c = id /\ ops c = Some g_ppi_intr_ops) then c
  else {| intid := id; group := 1; security := 0; irm := 0; trigger := 0; priority := 0x80; nsac := 0;
          irq_reserved := 0; affinity_cpu_id := 0; handle := 0; arg := 0; ops := Some g_ppi_intr_ops |}.

Lemma runs_get_ppi (s : gic D) id c : 16 <= id <= 31 -> irqs s !! PpiCtx cpu (id - 16) = Some c ->
  exists v s', runs (get_irq_context id) s (Some (PpiCtx cpu (id - 16))) s' [EMrs "MPIDR_EL1" v] /\
    same_state (set_irqs <[PpiCtx cpu (id - 16) := ppi_context_of id c]> s) s'.
Proof using Hcpu.
  intros Hid Hc. destruct (runs_this_gicr cpu Hcpu s) as (v & s1 & R1 & S1).
  assert (R2 : runs (get_irq (PpiCtx cpu (id - 16))) s1 c s1 []) by (apply runs_get_irq; by rewrite (same_irqs _ _ S1)).
  assert (Hw : exists s2, runs (when (negb (intid c =? id) || negb (bool_decide (ops c = Some g_ppi_intr_ops)))
    (put_irq (PpiCtx cpu (id - 16)) {| intid := wrap 10 id; group := 1; security := 0; irm := 0; trigger := 0;
                  priority := 0x80; nsac := 0; irq_reserved := 0; affinity_cpu_id := 0;
                  handle := 0; arg := 0; ops := Some g_ppi_intr_ops |})) s1 tt s2 [] /\
    same_state (set_irqs <[PpiCtx cpu (id - 16) := ppi_context_of id c]> s1) s2).
  { unfold ppi_context_of. rewrite (wrap_small 10) by (change (2 ^ 10) with 1024; lia).
    destruct (decide _) as [[Hi Ho]|Hn].
    - exists s1. rewrite Hi, Z.eqb_refl, bool_decide_true by done. split; [apply runs_ret|].
      unfold same_state. cbn. rewrite insert_id; [done|]. by rewrite (same_irqs _ _ S1).
    - eexists. replace (negb _ || _) with true; [split; [apply runs_put|done]|].
      destruct (Z.eqb_spec (intid c) id), (bool_decide_reflect (ops c = Some g_ppi_intr_ops)); tauto. }
  destruct Hw as (s2 & R3 & S2). pose proof (runs_ret (Some (PpiCtx cpu (id - 16))) s2) as R4.
  exists v, s2. split.
  - unfold get_irq_context. unfold SGI_LAST_INTID, PPI_LAST_INTID.
    rewrite (proj2 (Z.leb_gt id 15)), (proj2 (Z.leb_le id 31)) by lia.
    change [EMrs "MPIDR_EL1" v] with ([EMrs "MPIDR_EL1" v] ++ [] ++ [] ++ []). unfold get_ppi_context. chain_one R1.
    replace (bad_ppi id) with false by (unfold bad_ppi, PPI_FIRST_INTID, PPI_LAST_INTID; lia).
    chain (R2, R3, R4).
  - etrans; [|exact S2]. destruct S1 as (H1 & H2 & H3 & H4).
    unfold same_state. cbn [gicd gicrs irqs gicd_init_once set_irqs]. by rewrite H1, H2, H3, H4.
Qed.
End Contexts.
