(* ===== verification/GicInitProof.v ===== *)
(** Bringing a CPU's interrupt controller up: the redistributor and the CPU interface. *)
From Stdlib Require Import ZArith Lia.
From stdpp Require Import base gmap list strings.
From S2P Require Import Prelude Printf PrintfProof Io IoProof Spinlock SpinlockProof GicRegs Gic GicIntr.
From S2P Require Import GicProof GicIntrProof.

Open Scope Z_scope.

Section Init.
Context {D : Type} `{Hardware D} `{Config} (cpu : Z).
Hypothesis Hcpu : on_this_cpu (D:=D) cpu.

Lemma runs_update (s : gic D) g f :
  gicrs s !! cpu = Some g -> runs (update_gicr cpu f) s tt (set_gicrs <[cpu := f g]> s) [].
Proof using.
  intros Hg. pose proof (runs_get_gicr s cpu g Hg) as R1.
  pose proof (runs_modify (set_gicrs <[cpu := f g]>) s eq_refl) as R2.
  change (@nil event) with (@nil event ++ []). unfold update_gicr. chain (R1, R2).
Qed.

(** Setting the sleep bit aside, and waiting for the redistributor to wake. *)
Definition wakes (regs : Z) : Prop :=
  forall d : D, settles patience (regs + R_WAKER) GICR_WAKER_CHILDRENASLEEP d.

(** The wake-up writes the value read with the sleep bit cleared, when that bit is set. *)
Definition wake_writes (regs waker : Z) : list event :=
  if Z.testbit waker 1
  then [EWrite 4 (regs + R_WAKER) (Z.land waker (bnot 32 GICR_WAKER_PROCESSORSLEEP))] else [].

Lemma runs_gicr_wake regs (s : gic D) :
  wakes regs ->
  exists waker s' l, runs (gicr_wake regs) s tt s' l /\ same_state s s' /\
    ERead 4 (regs + R_WAKER) waker ∈ l /\ effects l = wake_writes regs waker.
Proof using.
  intros Hw. destruct (runs_read32 (regs + R_WAKER) s) as (waker & s1 & R1 & Hr & S1).
  pose proof (truth_bit waker 1 ltac:(lia)) as Hbit.
  change (Z.shiftl 1 1) with GICR_WAKER_PROCESSORSLEEP in Hbit.
  exists waker. unfold wake_writes, gicr_wake. destruct (Z.testbit waker 1) eqn:Ht.
  - set (v := Z.land waker _). assert (Hv : u32 v = v) by (apply wrap_land_small; lia).
    destruct (runs_write32 (regs + R_WAKER) v s1) as (s2 & R2 & S2). rewrite Hv in R2.
    destruct (runs_barrier "isb" s2) as (s3 & R3 & S3).
    destruct (runs_spin patience (regs + R_WAKER) GICR_WAKER_CHILDRENASLEEP (children_asleep regs) s3)
      as (s4 & l & R4 & S4 & E4); [done|apply Hw|].
    exists s4, ([ERead 4 (regs + R_WAKER) waker] ++ [EWrite 4 (regs + R_WAKER) v] ++ [EBarrier "isb"] ++ l).
    split; [|split; [by do 3 (etrans; [eassumption|])|]].
    + chain_one R1. rewrite Hbit. cbn [when]. chain (R2, R3, R4).
    + split; [by left|]. by rewrite !effects_app, E4.
  - exists s1, ([ERead 4 (regs + R_WAKER) waker] ++ []). split; [|split; [done|]].
    + chain_one R1. rewrite Hbit. cbn [when]. apply runs_ret.
    + split; [by left|done].
Qed.

(** What gicr_init leaves in the context. *)
Definition gicr_attributes (id typer : Z) (g : gicr_context) : gicr_context :=
  with_cpu_config id (with_gicr_typer typer (with_frames id g)).

(** Its writes: wake-up, CTLR, and the SGIs and PPIs quieted. *)
Definition gicr_writes (id waker : Z) : list event :=
  wake_writes (frame_base id) waker ++
  [EWrite 4 (frame_base id + R_CTLR) 0;
   EWrite 4 (frame_base id + 0x10000 + S_ICPENDR0) 0xFFFFFFFF;
   EWrite 4 (frame_base id + 0x10000 + S_ICACTIVER0) 0xFFFFFFFF;
   EWrite 4 (frame_base id + 0x10000 + S_ICENABLER0) 0xFFFFFFFF].

Lemma frame_base_nonzero id : frame_base id <> 0.
Proof using. unfold frame_base. pose proof (wrap_range 32 (GICR_STRIDE * id) ltac:(lia)). unfold GICR_BASE. lia. Qed.

(** Waiting on a context whose frame is [frame_base id]. *)
Lemma runs_frame_wait id (s : gic D) g :
  gicrs s !! cpu = Some g -> gicr_regs g = frame_base id -> gicr_settles (D:=D) (frame_base id) ->
  exists s' l, runs gicr_wait_rwp s tt s' l /\ same_state s s' /\ effects l = [].
Proof using Hcpu.
  intros Hg Hr Hs. apply (runs_gicr_wait cpu Hcpu s g Hg); rewrite Hr; [apply frame_base_nonzero|done].
Qed.

Lemma runs_gicr_init id (s : gic D) g0 :
  gicrs s !! cpu = Some g0 -> gicr_settles (D:=D) (frame_base id) -> wakes (frame_base id) ->
  exists typer waker s' l,
    runs (gicr_init cpu id) s 0 s' l /\ 0 <= typer < 2 ^ 32 /\
    ERead 4 (frame_base id + R_TYPER) typer ∈ l /\ ERead 4 (frame_base id + R_WAKER) waker ∈ l /\
    effects l = gicr_writes id waker /\
    same_state (set_gicrs <[cpu := gicr_attributes id typer g0]> s) s'.
Proof using Hcpu.
  intros Hg Hs Hw. pose proof (runs_update s g0 (with_frames id) Hg) as R1.
  set (s1 := set_gicrs _ s) in *. set (g1 := with_frames id g0) in *.
  assert (G1 : gicrs s1 !! cpu = Some g1) by apply lookup_insert_eq.
  pose proof (runs_get_gicr s1 cpu g1 G1) as R2.
  destruct (runs_read32 (gicr_regs g1 + R_TYPER) s1) as (typer & s3 & R3 & Ht & S3).
  pose proof (same_gicrs _ _ S3) as G3. rewrite <- G3 in G1.
  pose proof (runs_update s3 g1 (with_gicr_typer typer) G1) as R4.
  set (s4 := set_gicrs _ s3) in *. set (g4 := with_gicr_typer typer g1) in *.
  assert (G4 : gicrs s4 !! cpu = Some g4) by apply lookup_insert_eq.
  pose proof (runs_get_gicr s4 cpu g4 G4) as R5.
  destruct (runs_pr (ln "GICR: plpis=%u, vlpis=%u, direct_lpis=%u, last=%u, dpgs=%u, processor_number=%u, common_lpi_aff=%u, affinity=0x%lx")
     [plpis g4; vlpis g4; direct_lpis g4; last g4; dpgs g4; processor_number g4; common_lpi_aff g4;
      r_affinity g4] s4 ltac:(vm_compute; reflexivity)) as (s6 & t6 & R6 & S6).
  assert (G6 : gicrs s6 !! cpu = Some g4) by by rewrite (same_gicrs _ _ S6).
  pose proof (runs_update s6 g4 (with_cpu_config id) G6) as R7.
  set (s7 := set_gicrs _ s6) in *. set (g7 := with_cpu_config id g4) in *.
  assert (G7 : gicrs s7 !! cpu = Some g7) by apply lookup_insert_eq.
  destruct (runs_gicr_wake (gicr_regs g4) s7) as (waker & s8 & l8 & R8 & S8 & I8 & E8); [done|].
  destruct (runs_write32 (gicr_regs g4 + R_CTLR) 0 s8) as (s9 & R9 & S9).
  assert (G9 : gicrs s9 !! cpu = Some g7) by by rewrite (same_gicrs _ _ S9), (same_gicrs _ _ S8).
  destruct (runs_frame_wait id s9 g7 G9) as (s10 & l10 & R10 & S10 & E10); [done..|].
  destruct (runs_write32 (gicr_sgi_regs g4 + S_ICPENDR0) 0xFFFFFFFF s10) as (s11 & R11 & S11).
  destruct (runs_write32 (gicr_sgi_regs g4 + S_ICACTIVER0) 0xFFFFFFFF s11) as (s12 & R12 & S12).
  destruct (runs_write32 (gicr_sgi_regs g4 + S_ICENABLER0) 0xFFFFFFFF s12) as (s13 & R13 & S13).
  assert (S9_13 : same_state s9 s13) by by do 3 (etrans; [eassumption|]).
  destruct (runs_frame_wait id s13 g7) as (s14 & l14 & R14 & S14 & E14); [by rewrite (same_gicrs _ _ S9_13)|done..|].
  pose proof (runs_ret 0 s14) as R15.
  eexists typer, waker, s14, _. split; [unfold gicr_init;
    chain (R1, R2, R3, R4, R5, R6, R7, R8, R9, R10, R11, R12, R13, R14, R15)|].
  split; [done|]. rewrite !elem_of_app, !list_elem_of_singleton. split; [tauto|]. split; [tauto|]. split.
  - rewrite !effects_app, effects_putc, E8, E10, E14. reflexivity.
  - assert (S7 : same_state s7 s14) by by do 4 (etrans; [eassumption|]).
    destruct S7 as (Hd & Hr & Hi & Ho), S6 as (Hd6 & Hr6 & Hi6 & Ho6), S3 as (Hd3 & Hr3 & Hi3 & Ho3).
    unfold same_state. cbn [gicd gicrs irqs gicd_init_once set_gicrs].
    rewrite Hd, Hr, Hi, Ho. unfold s7. cbn [gicd gicrs irqs gicd_init_once set_gicrs].
    rewrite Hd6, Hr6, Hi6, Ho6. unfold s4. cbn [gicd gicrs irqs gicd_init_once set_gicrs].
    rewrite Hd3, Hr3, Hi3, Ho3. unfold s1. cbn [gicd gicrs irqs gicd_init_once set_gicrs].
    rewrite !insert_insert_eq. done.
Qed.

(** * The CPU interface and the entry point *)

Definition icc_writes (ctlr : Z) : list event :=
  [EMsr "ICC_SRE_EL2" 0xF; EMsr "ICC_BPR1_EL1" 0x7; EMsr "ICC_PMR_EL1" 0xFF;
   EMsr "ICC_CTLR_EL1" (Z.land (u32 ctlr) (bnot 32 CTLR_CLEARED)); EMsr "ICC_IGRPEN1_EL1" 1].

(** The second half of plat_gicv3_init, on this CPU's context. *)
Definition cpu_init : M (gic D) Z :=
  cpu ← __get_this_gicr;
  g ← get_gicr cpu;
  ret ← gicr_init cpu (r_cpu_id g);
  if ret <? 0 then mret ret else
  hw (write_sysreg "ICC_SRE_EL2" SRE_VALUE) ;;
  hw isb ;;
  hw (write_sysreg "ICC_BPR1_EL1" 0x7) ;;
  hw (write_sysreg "ICC_PMR_EL1" 0xFF) ;;
  ctlr ← hw (read_sysreg "ICC_CTLR_EL1");
  hw (write_sysreg "ICC_CTLR_EL1" (Z.land (u32 ctlr) (bnot 32 CTLR_CLEARED))) ;;
  hw (write_sysreg "ICC_IGRPEN1_EL1" 1) ;;
  mret 0.

Lemma runs_cpu_init (s : gic D) g0 :
  gicrs s !! cpu = Some g0 -> gicr_settles (D:=D) (frame_base (r_cpu_id g0)) -> wakes (frame_base (r_cpu_id g0)) ->
  exists typer waker ctlr s' l,
    runs cpu_init s 0 s' l /\
    ERead 4 (frame_base (r_cpu_id g0) + R_WAKER) waker ∈ l /\ EMrs "ICC_CTLR_EL1" ctlr ∈ l /\
    effects l = gicr_writes (r_cpu_id g0) waker ++ icc_writes ctlr /\
    same_state (set_gicrs <[cpu := gicr_attributes (r_cpu_id g0) typer g0]> s) s'.
Proof using Hcpu.
  intros Hg Hs Hw. destruct (runs_this_gicr cpu Hcpu s) as (v & s1 & R1 & S1).
  assert (G1 : gicrs s1 !! cpu = Some g0) by by rewrite (same_gicrs _ _ S1).
  pose proof (runs_get_gicr s1 cpu g0 G1) as R2.
  destruct (runs_gicr_init (r_cpu_id g0) s1 g0 G1 Hs Hw) as (typer & waker & s3 & l3 & R3 & _ & _ & I3 & E3 & S3).
  destruct (runs_msr "ICC_SRE_EL2" SRE_VALUE s3) as (s4 & R4 & S4).
  destruct (runs_barrier "isb" s4) as (s5 & R5 & S5).
  destruct (runs_msr "ICC_BPR1_EL1" 0x7 s5) as (s6 & R6 & S6).
  destruct (runs_msr "ICC_PMR_EL1" 0xFF s6) as (s7 & R7 & S7).
  destruct (runs_mrs "ICC_CTLR_EL1" s7) as (ctlr & s8 & R8 & S8).
  destruct (runs_msr "ICC_CTLR_EL1" (Z.land (u32 ctlr) (bnot 32 CTLR_CLEARED)) s8) as (s9 & R9 & S9).
  destruct (runs_msr "ICC_IGRPEN1_EL1" 1 s9) as (s10 & R10 & S10).
  pose proof (runs_ret 0 s10) as R11.
  eexists typer, waker, ctlr, s10, _. split.
  { unfold cpu_init. chain (R1, R2, R3). change (0 <? 0) with false. cbn iota.
    chain (R4, R5, R6, R7, R8, R9, R10, R11). }
  rewrite !elem_of_app, !list_elem_of_singleton. split; [tauto|]. split; [tauto|]. split.
  - rewrite !effects_app, E3. cbn [effects]. rewrite (wrap_small 64 (Z.land _ _)); [reflexivity|].
    pose proof (wrap_range 32 ctlr ltac:(lia)) as Hc.
    rewrite <- (wrap_land_small 32 (u32 ctlr) (bnot 32 CTLR_CLEARED)) by lia.
    pose proof (wrap_range 32 (Z.land (u32 ctlr) (bnot 32 CTLR_CLEARED)) ltac:(lia)). lia.
  - assert (S : same_state s3 s10) by by do 6 (etrans; [eassumption|]).
    etrans; [|exact S]. etrans; [|exact S3]. destruct S1 as (H1 & H2 & H3 & H4).
    unfold same_state. cbn [gicd gicrs irqs gicd_init_once set_gicrs]. by rewrite H1, H2, H3, H4.
Qed.

Lemma runs_irq_enable (s : gic D) :
  exists hcr s', runs (hw irq_enable) s 0 s'
    [EMrs "HCR_EL2" hcr; EMsr "HCR_EL2" (u64 (Z.lor hcr 0x30)); EMsr "DAIFClr" 2; EBarrier "isb"] /\
    same_state s s'.
Proof using. eexists _, _. split; [split; [reflexivity|]|done]. cbn. by rewrite <- !app_assoc. Qed.

(** The call of a function that returns 0 through run_once, the first time. *)
Lemma runs_once (s : gic D) func s2 l o :
  0 <= o < 65536 -> gicd_init_once s = {| flag := 0; lock := {| owner := o; next := o |} |} ->
  runs func (set_once (fun _ => once_held o) s) 0 s2 l -> gicd_init_once s2 = once_held o ->
  exists s', runs (run_once gicd_init_once (fun s o => set_once (fun _ => o) s) func) s 0 s' l /\
    gicd s' = gicd s2 /\ gicrs s' = gicrs s2 /\ irqs s' = irqs s2 /\ gicd_init_once s' = once_left o 0.
Proof using.
  intros Ho Hs [E T] Hf. eexists. split; [split|].
  - by apply (run_once_first gicd_init_once (fun s o => set_once (fun _ => o) s) func
      ltac:(done) s o 0 s2).
  - exact T.
  - done.
Qed.

(** The writes of the whole distributor set-up, interrupts enabled first. *)
Definition distributor_writes (hcr typer : Z) : list event :=
  [EMsr "HCR_EL2" (u64 (Z.lor hcr 0x30)); EMsr "DAIFClr" 2;
   EWrite 4 (GICD_BASE + D_CTLR) GICD_CTLR_ENABLE_GRP1] ++
  quiet_writes (Z.to_nat (field typer 0 0x1F)) 0.

Lemma runs_gicv3_init (s : gic D) :
  gicd_settles (D:=D) GICD_BASE ->
  exists hcr typer s' l, runs gicv3_init s 0 s' l /\
    EMrs "HCR_EL2" hcr ∈ l /\ ERead 4 (GICD_BASE + D_TYPER) typer ∈ l /\
    effects l = distributor_writes hcr typer /\ gicd_regs (gicd s') = GICD_BASE /\
    gicrs s' = gicrs s /\ irqs s' = irqs s /\ gicd_init_once s' = gicd_init_once s.
Proof using.
  intros Hs. destruct (runs_irq_enable s) as (hcr & s1 & R1 & S1).
  destruct (runs_gicd_init s1 Hs) as (typer & iidr & ctrl & s2 & l2 & _ & _ & _ & R2 & Hl & _ & E2 & Hg & Hr & Hi & Ho).
  pose proof (runs_ret 0 s2) as R3. destruct S1 as (_ & Hr1 & Hi1 & Ho1).
  eexists hcr, typer, s2, _. split; [unfold gicv3_init; chain (R1, R2, R3)|].
  split; [by left|]. split.
  - apply elem_of_app. right. apply elem_of_app. left. apply (subseteq_take 2). rewrite Hl. by left.
  - rewrite !effects_app, E2, app_nil_r. split; [done|]. split; [by rewrite Hg|]. by rewrite Hr, Hi, Ho, Hr1, Hi1, Ho1.
Qed.

(** plat_gicv3_init on CPU [cpu], the first call of all or a later one. *)
Lemma runs_plat_gicv3 (s : gic D) g0 o :
  gicrs s !! cpu = Some g0 ->
  gicd_settles (D:=D) GICD_BASE -> gicr_settles (D:=D) (frame_base (r_cpu_id g0)) -> wakes (frame_base (r_cpu_id g0)) ->
  0 <= o < 65536 -> lock (gicd_init_once s) = {| owner := o; next := o |} ->
  exists hcr typer ty waker ctlr s' l,
    runs plat_gicv3_init s 0 s' l /\
    effects l = (if flag (gicd_init_once s) =? 0 then distributor_writes hcr typer else []) ++
                gicr_writes (r_cpu_id g0) waker ++ icc_writes ctlr /\
    flag (gicd_init_once s') <> 0 /\ irqs s' = irqs s /\
    gicrs s' = <[cpu := gicr_attributes (r_cpu_id g0) ty g0]> (gicrs s) /\
    (flag (gicd_init_once s) = 0 -> gicd_regs (gicd s') = GICD_BASE).
Proof using Hcpu.
  intros Hg Hd Hs Hw Ho Hlock.
  assert (Honce : exists hcr typer s1 l1,
    runs (run_once gicd_init_once (fun s o => set_once (fun _ => o) s) gicv3_init) s 0 s1 l1 /\
    effects l1 = (if flag (gicd_init_once s) =? 0 then distributor_writes hcr typer else []) /\
    gicrs s1 = gicrs s /\ irqs s1 = irqs s /\ flag (gicd_init_once s1) <> 0 /\
    (flag (gicd_init_once s) = 0 -> gicd_regs (gicd s1) = GICD_BASE)).
  { destruct (Z.eqb_spec (flag (gicd_init_once s)) 0) as [Hf|Hf].
    - assert (Hfl : gicd_init_once s = {| flag := 0; lock := {| owner := o; next := o |} |})
        by (destruct (gicd_init_once s); cbn in *; by subst).
      destruct (runs_gicv3_init (set_once (fun _ => once_held o) s) Hd)
        as (hcr & typer & s2 & l2 & R & _ & _ & E & Hb & Hr & Hi & Hh).
      destruct (runs_once s gicv3_init s2 l2 o Ho Hfl R Hh) as (s3 & R3 & Hg3 & Hr3 & Hi3 & Ho3).
      exists hcr, typer, s3, l2. rewrite Hr3, Hi3, Ho3, Hg3. done.
    - exists 0, 0, s, []. split; [|done]. split; [by apply run_once_skips|by rewrite app_nil_r]. }
  destruct Honce as (hcr & typer & s1 & l1 & R1 & E1 & Hr1 & Hi1 & Hf1 & Hb1).
  rewrite <- Hr1 in Hg.
  destruct (runs_cpu_init s1 g0 Hg Hs Hw) as (ty & waker & ctlr & s2 & l2 & R2 & _ & _ & E2 & Hb2 & Hr2 & Hi2 & Ho2).
  exists hcr, typer, ty, waker, ctlr, s2, (l1 ++ l2). split.
  { change plat_gicv3_init with (ret ← run_once gicd_init_once (fun s o => set_once (fun _ => o) s) gicv3_init;
      if ret <? 0 then panic "GICD initialization failed" else cpu_init). chain_one R1. exact R2. }
  rewrite effects_app, E1, E2, Ho2, Hi2. split; [done|]. split; [done|]. split; [done|]. split.
  - by rewrite Hr2, <- Hr1.
  - intros Hf. by rewrite Hb2, <- Hb1.
Qed.
End Init.
