(* ===== verification/GicTheorems.v ===== *)
(** The properties of the GIC driver, each with a concrete instance. *)
From Stdlib Require Import ZArith Lia.
From stdpp Require Import base gmap list strings.
From S2P Require Import Prelude Printf PrintfProof Io IoProof Spinlock SpinlockProof GicRegs Gic GicIntr.
From S2P Require Import GicProof GicIntrProof GicOpsProof GicInitProof.

Open Scope Z_scope.

(** * A concrete machine

    Two CPUs, the program running on CPU 1. The distributor has 64 SPIs, the redistributors
    sleep with awake children, every other register reads 0. *)
Inductive board := Board.
Definition board_register (a : Z) : Z :=
  if a =? GICD_BASE + D_TYPER then 2
  else if a mod GICR_STRIDE =? (GICR_BASE + R_WAKER) mod GICR_STRIDE then 2 else 0.
#[global] Instance board_hardware : Hardware board := {
  mmio_read := fun _ a d => (board_register a, d);
  mmio_write := fun _ _ _ d => d;
  sys_read := fun r d => (if decide (r = "MPIDR_EL1"%string) then 0x80000001 else 0, d);
  sys_write := fun _ _ d => d }.
#[global] Instance board_config : Config := {| NR_CPU := 2; HZ := 100; patience := 0 |}.

Lemma board_cpu : on_this_cpu (D:=board) 1.
Proof. split; [done|]. by intros []. Defined.

Definition board_start : gic board :=
  {| gio := {| dev := Board; trace := [] |}; gicd := gicd_context_zero;
     gicrs := {[0 := gicr_context_zero; 1 := gicr_context_zero]}; irqs := ∅;
     gicd_init_once := ONCE_INITIALIZER |}.

(** CPU 1 with both controllers set up, and the given interrupt contexts. *)
Definition board_gicr : gicr_context := with_frames 1 gicr_context_zero.
Definition board_ready (l : list (irq_ptr * irq_context)) : gic board :=
  {| gio := {| dev := Board; trace := [] |}; gicd := with_gicd_regs GICD_BASE gicd_context_zero;
     gicrs := {[1 := board_gicr]}; irqs := list_to_map l; gicd_init_once := ONCE_INITIALIZER |}.

Lemma board_is_ready l : driver_ready 1 (board_ready l) board_gicr.
Proof. split; [done|done|intros []; left; done|done|intros []; left; done]. Defined.

(** A context in use: interrupt [id], priority 0xA0, group 1, edge triggered. *)
Definition used_context (id : Z) (o : gic_intr_operations) : irq_context :=
  {| intid := id; group := 1; security := 0; irm := 0; trigger := 1; priority := 0xA0; nsac := 0;
     irq_reserved := 0; affinity_cpu_id := 0; handle := 0; arg := 0; ops := Some o |}.

(** * The distributor *)

Lemma elem_of_quiet_writes k i e :
  e ∈ quiet_writes k i <->
  exists j, i < j <= i + Z.of_nat k /\
    (e = EWrite 4 (GICD_BASE + D_ICPENDR + 4 * j) 0xFFFFFFFF \/
     e = EWrite 4 (GICD_BASE + D_ICACTIVER + 4 * j) 0xFFFFFFFF \/
     e = EWrite 4 (GICD_BASE + D_ICENABLER + 4 * j) 0xFFFFFFFF).
Proof.
  revert i. induction k as [|k IH]; intros i; cbn [quiet_writes].
  - split; [intros H; inversion H|]. intros (j & ? & _). lia.
  - rewrite !elem_of_cons, IH. split.
    + intros [He|[He|[He|(j & Hj & He)]]]; [exists (i + 1); split; [lia|tauto]..|].
      exists j. split; [lia|done].
    + intros (j & Hj & He). destruct (Z.eq_dec j (i + 1)) as [->|Hne]; [tauto|].
      right; right; right. exists j. split; [lia|done].
Qed.

(** The fields of the distributor context are those of the registers read. *)
Lemma flag_of_bit v k : 0 <= k -> flag_of v (Z.shiftl 1 k) = bool_Z (Z.testbit v k).
Proof. intros. unfold flag_of. by rewrite truth_bit. Qed.

Lemma field_bits v sh n : 0 <= n -> field v sh (Z.ones n) = get_field v sh n.
Proof. done. Qed.

(** Gicd_init returns 0 on every machine whose write-pending bit clears. It reads TYPER and
    IIDR, enables group 1 alone with affinity routing off, and then quiets exactly the register
    words 1 to ITLinesNumber (pending, active and enable of SPI 32 up to 32 + spi_count - 1, 992
    at most), each write to its own place in the register arrays. The context holds what the
    three registers say and nothing else of the driver's state changes. *)
Theorem gicd_init_spec {D} `{Hardware D} `{Config} (s : gic D) :
  gicd_settles (D:=D) GICD_BASE ->
  exists typer iidr ctrl s' l,
    runs gicd_init s 0 s' l /\
    take 2 l = [ERead 4 (GICD_BASE + D_TYPER) typer; ERead 4 (GICD_BASE + D_IIDR) iidr] /\
    ERead 4 (GICD_BASE + D_CTLR) ctrl ∈ l /\
    effects l = EWrite 4 (GICD_BASE + D_CTLR) 2 :: quiet_writes (Z.to_nat (itlinesnumber (gicd s'))) 0 /\
    (forall id, 32 <= id < 32 + spi_count (gicd s') ->
       EWrite 4 (GICD_BASE + D_ICENABLER + 4 * (id / 32)) 0xFFFFFFFF ∈ effects l) /\
    (forall a v, EWrite 4 a v ∈ quiet_writes (Z.to_nat (itlinesnumber (gicd s'))) 0 ->
       exists j base, 1 <= j <= 31 /\ base ∈ [D_ICPENDR; D_ICACTIVER; D_ICENABLER] /\
         a = GICD_BASE + base + 4 * j /\ 32 * j < 32 + spi_count (gicd s')) /\
    gicd_regs (gicd s') = GICD_BASE /\
    itlinesnumber (gicd s') = get_field typer 0 5 /\ spi_count (gicd s') = 32 * get_field typer 0 5 /\
    spi_count (gicd s') <= 992 /\
    implementer (gicd s') = get_field iidr 0 12 /\ productid (gicd s') = get_field iidr 24 8 /\
    enable_grp1 (gicd s') = bool_Z (Z.testbit ctrl 1) /\ are (gicd s') = bool_Z (Z.testbit ctrl 4) /\
    ds (gicd s') = bool_Z (Z.testbit ctrl 6) /\
    gicrs s' = gicrs s /\ irqs s' = irqs s /\ gicd_init_once s' = gicd_init_once s.
Proof.
  intros Hs. destruct (runs_gicd_init s Hs)
    as (typer & iidr & ctrl & s' & l & Ht & Hi & Hc & R & Hl & Hin & E & Hg & Hrest).
  assert (Hitl : 0 <= get_field typer 0 5 < 32).
  { unfold get_field. rewrite Z.land_ones by lia. apply Z.mod_pos_bound. done. }
  assert (Hfield : field typer 0 0x1F = get_field typer 0 5) by done.
  assert (Hspi : spi_count (gicd s') = 32 * get_field typer 0 5).
  { rewrite Hg. cbn [spi_count with_ctlr with_config gicd_attributes with_iidr with_typer].
    rewrite Hfield. unfold SPI_FIRST_INTID. rewrite wrap_small by (change (2 ^ 10) with 1024; lia). lia. }
  assert (Hn : itlinesnumber (gicd s') = get_field typer 0 5) by by rewrite Hg.
  exists typer, iidr, ctrl, s', l. rewrite Hn, Hspi, E, Hfield.
  split; [done|]. split; [done|]. split; [done|]. split; [done|]. split; [|split].
  - intros id Hid. apply elem_of_cons. right. apply elem_of_quiet_writes. exists (id / 32).
    split; [|tauto]. rewrite Z2Nat.id by lia.
    assert (1 <= id / 32) by (apply Z.div_le_lower_bound; lia).
    assert (id / 32 < 1 + get_field typer 0 5) by (apply Z.div_lt_upper_bound; lia). lia.
  - intros a v Ha. apply elem_of_quiet_writes in Ha as (j & Hj & Ha). rewrite Z2Nat.id in Hj by lia.
    destruct Ha as [Ha|[Ha|Ha]]; apply (f_equal (fun e => match e with EWrite _ a _ => a | _ => 0 end)) in Ha;
      subst a; eexists j, _; (split; [lia|]); (split; [|split; [reflexivity|lia]]); set_solver.
  - rewrite Hg. rewrite <- !flag_of_bit by lia. split_and!; try done; [lia|apply Hrest..].
Qed.

Lemma gicd_init_spec_witness :
  exists typer iidr ctrl s' l,
    runs gicd_init board_start 0 s' l /\
    take 2 l = [ERead 4 (GICD_BASE + D_TYPER) typer; ERead 4 (GICD_BASE + D_IIDR) iidr] /\
    ERead 4 (GICD_BASE + D_CTLR) ctrl ∈ l /\
    effects l = EWrite 4 (GICD_BASE + D_CTLR) 2 :: quiet_writes (Z.to_nat (itlinesnumber (gicd s'))) 0.
Proof.
  destruct (gicd_init_spec board_start ltac:(intros []; left; done)) as (typer & iidr & ctrl & s' & l & Hl).
  exists typer, iidr, ctrl, s', l. split_and!; apply Hl.
Defined.

(** * The interrupts *)

(** C32: on a driver that is set up, set_priority, set_trigger and set_group of an SGI, PPI or SPI
    make one register write each, which puts the new value into the interrupt's own field
    and keeps every other bit of the register as it was read; they return 0. The trigger value
    for an edge is 2 for an SPI but 1 for an SGI or PPI, whose field then still says level
    sensitive. Group 0 clears the IGROUPR0 bit of an SGI or PPI; for an SPI it sets the bit in
    IGRPMODR instead and leaves the group as it is. *)
Theorem interrupt_fields {D} `{Hardware D} `{Config} cpu (s : gic D) g p c prio (edge : bool) grp :
  on_this_cpu (D:=D) cpu -> driver_ready cpu s g -> irqs s !! p = Some c -> valid_ctx p c ->
  0 <= prio < 256 -> 0 <= grp <= 1 ->
  (exists s' l, runs (call_set_priority p prio) s 0 s' l /\ same_state s s' /\
     updates l (prio_reg s g p (intid c)) (8 * (intid c mod 4)) 8 prio) /\
  (exists s' l, runs (call_set_trigger p edge) s 0 s' l /\ same_state s s' /\
     updates l (trigger_reg s g p (intid c)) (2 * (intid c mod 16)) 2
       (match p with SpiCtx _ => if edge then 2 else 0 | _ => bool_Z edge end)) /\
  (exists s' l, runs (call_set_group p grp) s 0 s' l /\ same_state s s' /\
     match p with
     | SpiCtx _ =>
         if grp =? 0 then updates l (gicd_regs (gicd s) + D_IGRPMODR + 4 * (intid c / 32)) (intid c mod 32) 1 1
         else updates l (gicd_regs (gicd s) + D_IGROUPR + 4 * (intid c / 32)) (intid c mod 32) 1 1
     | _ => updates l (gicr_sgi_regs g + S_IGROUPR0) (intid c) 1 grp
     end).
Proof.
  intros Hcpu Hr Hp Hv Hprio Hgrp. split; [|split].
  - destruct (set_priority_acts cpu Hcpu s g Hr p c prio Hp Hv s ltac:(done)) as (s' & l & R & S & U).
    exists s', l. by rewrite (wrap_small 8) in U by (change (2 ^ 8) with 256; lia).
  - destruct (set_trigger_acts cpu Hcpu s g Hr p c edge Hp Hv s ltac:(done)) as (s' & l & R & S & U).
    exists s', l. split; [done|]. split; [done|]. by destruct p, edge.
  - destruct (set_group_acts cpu Hcpu s g Hr p c grp Hp Hv s ltac:(done)) as (s' & l & R & S & U).
    rewrite (wrap_small 8) in U by (change (2 ^ 8) with 256; lia).
    exists s', l. split; [done|]. split; [done|].
    assert (Hb : bool_Z (truth grp) = grp) by (unfold truth, bool_Z; destruct (Z.eqb_spec grp 0); cbn; lia).
    destruct p; cbn [group_reg group_bit valid_ctx] in *; rewrite ?Hb in U;
      [rewrite Z.mod_small in U by lia; done..|by destruct (grp =? 0)].
Qed.

Lemma interrupt_fields_witness :
  (exists s' l, runs (call_set_priority (SpiCtx 1) 0x80) (board_ready [(SpiCtx 1, used_context 33 g_spi_intr_ops)]) 0 s' l /\
     same_state (board_ready [(SpiCtx 1, used_context 33 g_spi_intr_ops)]) s' /\
     updates l (GICD_BASE + D_IPRIORITYR + 4 * (33 / 4)) (8 * (33 mod 4)) 8 0x80) /\
  (exists s' l, runs (call_set_trigger (SgiCtx 1 7) true) (board_ready [(SgiCtx 1 7, used_context 7 g_sgi_intr_ops)]) 0 s' l /\
     same_state (board_ready [(SgiCtx 1 7, used_context 7 g_sgi_intr_ops)]) s' /\
     updates l (gicr_sgi_regs board_gicr + S_ICFGR0) (2 * (7 mod 16)) 2 1).
Proof.
  split.
  - apply (interrupt_fields 1 (board_ready [(SpiCtx 1, used_context 33 g_spi_intr_ops)]) board_gicr (SpiCtx 1)
      (used_context 33 g_spi_intr_ops) 0x80 true 0 board_cpu (board_is_ready _)); [done|done|lia|lia].
  - apply (interrupt_fields 1 (board_ready [(SgiCtx 1 7, used_context 7 g_sgi_intr_ops)]) board_gicr (SgiCtx 1 7)
      (used_context 7 g_sgi_intr_ops) 0x80 true 0 board_cpu (board_is_ready _)); [done|done|lia|lia].
Defined.

(** C19: gic_irq_enable on a valid context returns 0 and writes, in this order, the clear-enable
    bit of the interrupt, its priority, its group, its trigger and its set-enable bit; the
    enable writes touch no other interrupt and the interrupt is never enabled before it is
    configured. On a NULL pointer it returns -ENOENT and does nothing. *)
Theorem gic_irq_enable_order {D} `{Hardware D} `{Config} cpu (s : gic D) g p c :
  on_this_cpu (D:=D) cpu -> driver_ready cpu s g -> irqs s !! p = Some c -> valid_ctx p c ->
  (exists s' l lp lg lt,
    runs (gic_irq_enable (Some p)) s 0 s' l /\ same_state s s' /\
    effects l = EWrite 4 (enable_reg s g p (intid c) false) (2 ^ (intid c mod 32)) ::
                effects lp ++ effects lg ++ effects lt ++
                [EWrite 4 (enable_reg s g p (intid c) true) (2 ^ (intid c mod 32))] /\
    updates lp (prio_reg s g p (intid c)) (8 * (intid c mod 4)) 8 (u8 (priority c)) /\
    updates lg (group_reg s g p (intid c) (u8 (group c))) (intid c mod 32) 1 (group_bit p (u8 (group c))) /\
    updates lt (trigger_reg s g p (intid c)) (2 * (intid c mod 16)) 2
      (if truth (trigger c) then edge_value p else 0)) /\
  gic_irq_enable None s = Ok (- ENOENT) s.
Proof.
  intros Hcpu Hr Hp Hv. split; [|done].
  destruct (irq_enable_acts cpu Hcpu s g Hr p c Hp Hv s ltac:(done)) as (s' & l & R & S & lp & lg & lt & E).
  by exists s', l, lp, lg, lt.
Qed.

Lemma gic_irq_enable_order_witness :
  let s := board_ready [(SpiCtx 1, used_context 33 g_spi_intr_ops)] in
  exists s' l lp lg lt,
    runs (gic_irq_enable (Some (SpiCtx 1))) s 0 s' l /\ same_state s s' /\
    effects l = EWrite 4 (GICD_BASE + D_ICENABLER + 4) 2 :: effects lp ++ effects lg ++ effects lt ++
                [EWrite 4 (GICD_BASE + D_ISENABLER + 4) 2] /\
    updates lp (GICD_BASE + D_IPRIORITYR + 32) 8 8 0xA0 /\
    updates lg (GICD_BASE + D_IGROUPR + 4) 1 1 1 /\
    updates lt (GICD_BASE + D_ICFGR + 8) 2 2 2.
Proof.
  intros s. apply (gic_irq_enable_order 1 s board_gicr (SpiCtx 1) (used_context 33 g_spi_intr_ops) board_cpu
    (board_is_ready _)); [done|split; [done|cbn; lia]].
Defined.

(** * Contexts *)

(** Get_irq_context of a PPI returns this CPU's context for it, numbered and with its table:
    the context already in use is kept as it is, any other becomes a fresh one with group 1,
    priority 0x80 and level trigger. No hardware register is written, no other state
    changes, the result is accepted by every operation, and a second lookup changes nothing. *)
Theorem ppi_lookup {D} `{Hardware D} `{Config} cpu (s : gic D) id c0 :
  on_this_cpu (D:=D) cpu -> 16 <= id <= 31 -> irqs s !! PpiCtx cpu (id - 16) = Some c0 ->
  let p := PpiCtx cpu (id - 16) in
  exists c s' l,
    runs (get_irq_context id) s (Some p) s' l /\ effects l = [] /\
    irqs s' = <[p := c]> (irqs s) /\ gicd s' = gicd s /\ gicrs s' = gicrs s /\
    valid_ctx p c /\ intid c = id /\
    (if decide (intid c0 = id /\ ops c0 = Some g_ppi_intr_ops) then c = c0
     else group c = 1 /\ priority c = 0x80 /\ trigger c = 0 /\ handle c = 0) /\
    exists s2 l2, runs (get_irq_context id) s' (Some p) s2 l2 /\ same_state s' s2.
Proof.
  intros Hcpu Hid Hc p. destruct (runs_get_ppi cpu Hcpu s id c0 Hid Hc) as (v & s' & R & Hd & Hr & Hi & Ho).
  set (c := ppi_context_of id c0) in *.
  assert (Hcid : intid c = id /\ ops c = Some g_ppi_intr_ops) by (unfold c, ppi_context_of; by destruct (decide _)).
  assert (Hc' : irqs s' !! p = Some c) by (rewrite Hi; apply lookup_insert_eq).
  destruct (runs_get_ppi cpu Hcpu s' id c Hid Hc') as (v2 & s2 & R2 & Hd2 & Hr2 & Hi2 & Ho2).
  exists c, s', [EMrs "MPIDR_EL1" v]. split; [done|]. split; [done|]. split; [done|]. split; [done|]. split; [done|].
  split; [split; [apply Hcid|destruct Hcid; lia]|]. split; [apply Hcid|]. split.
  - unfold c, ppi_context_of. by destruct (decide _).
  - exists s2, [EMrs "MPIDR_EL1" v2]. split; [done|]. unfold same_state. rewrite Hd2, Hr2, Hi2, Ho2.
    cbn [gicd gicrs irqs gicd_init_once set_irqs]. unfold ppi_context_of. rewrite decide_True by done.
    by rewrite insert_id.
Qed.

Lemma ppi_lookup_witness :
  let s := board_ready [(PpiCtx 1 11, irq_context_zero)] in
  exists c s' l,
    runs (get_irq_context 27) s (Some (PpiCtx 1 11)) s' l /\ effects l = [] /\
    irqs s' = <[PpiCtx 1 11 := c]> (irqs s) /\ gicd s' = gicd s /\ gicrs s' = gicrs s /\
    valid_ctx (PpiCtx 1 11) c /\ intid c = 27 /\
    (group c = 1 /\ priority c = 0x80 /\ trigger c = 0 /\ handle c = 0) /\
    exists s2 l2, runs (get_irq_context 27) s' (Some (PpiCtx 1 11)) s2 l2 /\ same_state s' s2.
Proof.
  intros s. apply (ppi_lookup 1 s 27 irq_context_zero board_cpu); [lia|reflexivity].
Defined.

(** Looking an interrupt up and enabling it, as the drivers do. *)
Definition lookup_and_enable {D} `{Hardware D} `{Config} (id : Z) : M (gic D) Z :=
  p ← get_irq_context id; gic_irq_enable p.

(** C38: the lookup of an SGI or SPI does not number the context. From the zeroed contexts of a
    fresh boot, enabling any SPI is refused with -EINVAL and no register is written; enabling
    any SGI enables SGI 0 instead. An interrupt number past the SPIs is refused with -ENOENT. *)
Theorem unnumbered_contexts {D} `{Hardware D} `{Config} cpu (s : gic D) g id :
  on_this_cpu (D:=D) cpu -> driver_ready cpu s g -> 0 <= id ->
  (32 <= id <= 1019 -> irqs s !! SpiCtx (id - 32) = Some irq_context_zero ->
     exists s' l, runs (lookup_and_enable id) s (- EINVAL) s' l /\ effects l = []) /\
  (id <= 15 -> irqs s !! SgiCtx cpu id = Some irq_context_zero ->
     exists s' l mid, runs (lookup_and_enable id) s 0 s' l /\
       effects l = EWrite 4 (gicr_sgi_regs g + S_ICENABLER0) 1 :: mid ++
                   [EWrite 4 (gicr_sgi_regs g + S_ISENABLER0) 1]) /\
  (1019 < id -> exists s' l, runs (lookup_and_enable id) s (- ENOENT) s' l /\ effects l = []).
Proof.
  intros Hcpu Hr Hid. split; [|split].
  - intros Hrange Hc. pose proof (runs_get_spi s id irq_context_zero Hrange Hc) as R1.
    set (p := SpiCtx (id - 32)) in *. set (c := with_table g_spi_intr_ops irq_context_zero) in *.
    set (s1 := set_irqs <[p := c]> s) in *.
    assert (Hp : irqs s1 !! p = Some c) by apply lookup_insert_eq.
    pose proof (runs_get_irq s1 p c Hp) as R2. pose proof (runs_require s1 (dr_gicd _ _ _ Hr)) as R3.
    pose proof (runs_ret (- EINVAL) s1) as R4.
    assert (R5 : runs (call_clear_intr p) s1 (- EINVAL) s1 ([] ++ [] ++ [])).
    { eapply runs_with_ops; [done|reflexivity|]. cbn [functions_of spi_intr_functions clear_intr]. unfold __gicd_clear_spi, __gicd_set_clear_spi. chain (R2, R3, R4). }
    exists s1, ([] ++ ([] ++ [] ++ []) ++ []). split; [|done]. unfold lookup_and_enable.
    chain_one R1. unfold gic_irq_enable. chain_one R5. exact R4.
  - intros Hrange Hc. destruct (runs_get_sgi cpu Hcpu s id irq_context_zero ltac:(lia) Hc) as (v & s1 & R1 & S1).
    set (p := SgiCtx cpu id) in *. set (c := with_table g_sgi_intr_ops irq_context_zero) in *.
    set (s2 := set_irqs <[p := c]> s1) in *.
    assert (Hp : irqs s2 !! p = Some c) by apply lookup_insert_eq.
    assert (Hv : valid_ctx p c) by (split; [done|cbn; lia]).
    assert (Hr2 : driver_ready cpu s2 g) by (destruct (driver_ready_same cpu _ _ g S1 Hr); by split).
    destruct (irq_enable_acts cpu Hcpu s2 g Hr2 p c Hp Hv s2 ltac:(done))
      as (s3 & l3 & R3 & _ & lp & lg & lt & E & _).
    exists s3, ([EMrs "MPIDR_EL1" v] ++ l3), (effects lp ++ effects lg ++ effects lt).
    split; [unfold lookup_and_enable; chain (R1, R3)|].
    rewrite effects_app, E. cbn. by rewrite <- !app_assoc.
  - intros Hbig. destruct (runs_pr (ln "Invalid intid: %u") [id] s ltac:(vm_compute; reflexivity)) as (s1 & t & R1 & _).
    pose proof (runs_ret (@None irq_ptr) s1) as R2. pose proof (runs_ret (- ENOENT) s1) as R3.
    assert (R : runs (get_irq_context id) s None s1 ((EPutc <$> t) ++ [])).
    { unfold get_irq_context, SGI_LAST_INTID, PPI_LAST_INTID, SPI_LAST_INTID.
      rewrite (proj2 (Z.leb_gt id 15)), (proj2 (Z.leb_gt id 31)), (proj2 (Z.leb_gt id 1019)) by lia. chain (R1, R2). }
    exists s1, (((EPutc <$> t) ++ []) ++ []). split; [unfold lookup_and_enable; chain (R, R3)|].
    by rewrite !effects_app, effects_putc.
Qed.

Lemma unnumbered_contexts_witness :
  (exists s' l, runs (lookup_and_enable 33) (board_ready [(SpiCtx 1, irq_context_zero)]) (- EINVAL) s' l /\ effects l = []) /\
  (exists s' l mid, runs (lookup_and_enable 7) (board_ready [(SgiCtx 1 7, irq_context_zero)]) 0 s' l /\
       effects l = EWrite 4 (gicr_sgi_regs board_gicr + S_ICENABLER0) 1 :: mid ++
                   [EWrite 4 (gicr_sgi_regs board_gicr + S_ISENABLER0) 1]).
Proof.
  split.
  - apply (unnumbered_contexts 1 (board_ready [(SpiCtx 1, irq_context_zero)]) board_gicr 33 board_cpu (board_is_ready _));
      [lia|lia|reflexivity].
  - apply (unnumbered_contexts 1 (board_ready [(SgiCtx 1 7, irq_context_zero)]) board_gicr 7 board_cpu (board_is_ready _));
      [lia|lia|reflexivity].
Defined.

(** * Start-up *)

(** C20: plat_gicv3_init returns 0. The first CPU to call it sets the distributor up, every CPU its
    own redistributor context and its CPU interface: system registers on, priority mask open,
    end-of-interrupt and common-binary-point modes cleared, group 1 enabled last. The
    redistributor frame is the one numbered by the context's own cpu_id field, which is 0 in
    the zeroed context of every CPU: they all program frame 0. *)
Theorem plat_gicv3_init_spec {D} `{Hardware D} `{Config} cpu (s : gic D) g0 o :
  on_this_cpu (D:=D) cpu -> gicrs s !! cpu = Some g0 ->
  gicd_settles (D:=D) GICD_BASE -> gicr_settles (D:=D) (frame_base (r_cpu_id g0)) ->
  wakes (D:=D) (frame_base (r_cpu_id g0)) ->
  0 <= o < 65536 -> lock (gicd_init_once s) = {| owner := o; next := o |} ->
  exists hcr typer waker ctlr s' l,
    runs plat_gicv3_init s 0 s' l /\
    effects l = (if flag (gicd_init_once s) =? 0 then distributor_writes hcr typer else []) ++
                gicr_writes (r_cpu_id g0) waker ++ icc_writes ctlr /\
    flag (gicd_init_once s') <> 0 /\ irqs s' = irqs s /\
    (exists g, gicrs s' = <[cpu := g]> (gicrs s) /\ gicr_regs g = frame_base (r_cpu_id g0)) /\
    (r_cpu_id g0 = 0 -> frame_base (r_cpu_id g0) = GICR_BASE).
Proof.
  intros Hcpu Hg Hd Hs Hw Ho Hlock.
  destruct (runs_plat_gicv3 cpu Hcpu s g0 o Hg Hd Hs Hw Ho Hlock) as (hcr & typer & ty & waker & ctlr & s' & l & R & E & Hf & Hi & Hr & _).
  exists hcr, typer, waker, ctlr, s', l. do 4 (split; [done|]). split; [by eexists|by intros ->].
Qed.

Lemma plat_gicv3_init_spec_witness :
  exists hcr typer waker ctlr s' l,
    runs plat_gicv3_init board_start 0 s' l /\
    effects l = distributor_writes hcr typer ++ gicr_writes 0 waker ++ icc_writes ctlr /\
    flag (gicd_init_once s') <> 0 /\ irqs s' = irqs board_start /\
    (exists g, gicrs s' = <[1 := g]> (gicrs board_start) /\ gicr_regs g = frame_base 0) /\
    (0 = 0 -> frame_base 0 = GICR_BASE).
Proof.
  apply (plat_gicv3_init_spec 1 board_start gicr_context_zero 0 board_cpu);
    [reflexivity|intros []; left; done|intros []; left; done|intros []; left; done|lia|reflexivity].
Defined.
