(* ===== verification/Icc.v ===== *)
(** The CPU interface registers of gic/icc.h: one accessor per register, and the fields of the
    registers the driver programs. The driver spells the registers out (gicv3.c, handler.c) and
    takes its bit numbers from gicc.h; the lemmas compare the two. *)
From Stdlib Require Import ZArith Lia.
From stdpp Require Import base gmap list strings.
From S2P Require Import Prelude Printf Io IoProof Spinlock GicRegs Gic GicIntr GicProof.

Open Scope Z_scope.

(** * Fields *)

Definition ICC_SRE_EL2_SRE : Z := Z.shiftl 1 0.
Definition ICC_SRE_EL2_DFB : Z := Z.shiftl 1 1.
Definition ICC_SRE_EL2_DIB : Z := Z.shiftl 1 2.
Definition ICC_SRE_EL2_Enable : Z := Z.shiftl 1 3.

Definition ICC_CTLR_EL1_EOImode : Z := Z.shiftl 1 1.
Definition ICC_CTLR_EL1_CBPR : Z := Z.shiftl 1 0.

Definition ICC_PMR_PRIORITY_MASK : Z := 0xFF.
Definition ICC_BPR1_BINARY_POINT_MASK : Z := 0x7.
Definition ICC_IGRPEN1_ENABLE : Z := Z.shiftl 1 0.
Definition ICC_IAR1_INTID_MASK : Z := 0xFFFFFF.
Definition ICC_SPURIOUS_INTID : Z := 1023.

(** The fields of a software generated interrupt: ICC_SGI1R_EL1 and, with the same numbers,
    ICC_SGI0R_EL1 and ICC_ASGI1R_EL1. [IRM] has no shift: it is a mask in place. *)
Inductive sgir_field := SGIR_TARGET_LIST | SGIR_AFF1 | SGIR_INTID | SGIR_AFF2 | SGIR_AFF3.

Definition ICC_SGI1R_SHIFT (f : sgir_field) : Z :=
  match f with SGIR_TARGET_LIST => 0 | SGIR_AFF1 => 16 | SGIR_INTID => 24 | SGIR_AFF2 => 32 | SGIR_AFF3 => 48 end.
Definition ICC_SGI1R_MASK (f : sgir_field) : Z :=
  match f with SGIR_TARGET_LIST => 0xFFFF | SGIR_AFF1 | SGIR_AFF2 | SGIR_AFF3 => 0xFF | SGIR_INTID => 0xF end.
Definition ICC_SGI1R_IRM : Z := Z.shiftl 1 40.

(** * Accessors *)

Section Icc.
Context {D : Type} `{Hardware D}.

Definition icc_read_sre_el2 : M (io D) Z := read_sysreg "ICC_SRE_EL2".
Definition icc_write_sre_el2 (val : Z) : M (io D) unit := write_sysreg "ICC_SRE_EL2" val.
Definition icc_read_ctlr_el1 : M (io D) Z := read_sysreg "ICC_CTLR_EL1".
Definition icc_write_ctlr_el1 (val : Z) : M (io D) unit := write_sysreg "ICC_CTLR_EL1" val.
Definition icc_read_pmr_el1 : M (io D) Z := read_sysreg "ICC_PMR_EL1".
Definition icc_write_pmr_el1 (val : Z) : M (io D) unit := write_sysreg "ICC_PMR_EL1" val.
Definition icc_read_bpr0_el1 : M (io D) Z := read_sysreg "ICC_BPR0_EL1".
Definition icc_write_bpr0_el1 (val : Z) : M (io D) unit := write_sysreg "ICC_BPR0_EL1" val.
Definition icc_read_bpr1_el1 : M (io D) Z := read_sysreg "ICC_BPR1_EL1".
Definition icc_write_bpr1_el1 (val : Z) : M (io D) unit := write_sysreg "ICC_BPR1_EL1" val.
Definition icc_read_igrpen0_el1 : M (io D) Z := read_sysreg "ICC_IGRPEN0_EL1".
Definition icc_write_igrpen0_el1 (val : Z) : M (io D) unit := write_sysreg "ICC_IGRPEN0_EL1" val.
Definition icc_read_igrpen1_el1 : M (io D) Z := read_sysreg "ICC_IGRPEN1_EL1".
Definition icc_write_igrpen1_el1 (val : Z) : M (io D) unit := write_sysreg "ICC_IGRPEN1_EL1" val.
Definition icc_read_iar0_el1 : M (io D) Z := read_sysreg "ICC_IAR0_EL1".
Definition icc_read_iar1_el1 : M (io D) Z := read_sysreg "ICC_IAR1_EL1".
Definition icc_write_eoir0_el1 (val : Z) : M (io D) unit := write_sysreg "ICC_EOIR0_EL1" val.
Definition icc_write_eoir1_el1 (val : Z) : M (io D) unit := write_sysreg "ICC_EOIR1_EL1" val.
Definition icc_write_dir_el1 (val : Z) : M (io D) unit := write_sysreg "ICC_DIR_EL1" val.
Definition icc_read_rpr_el1 : M (io D) Z := read_sysreg "ICC_RPR_EL1".
Definition icc_read_hppir0_el1 : M (io D) Z := read_sysreg "ICC_HPPIR0_EL1".
Definition icc_read_hppir1_el1 : M (io D) Z := read_sysreg "ICC_HPPIR1_EL1".
Definition icc_read_ap0r0_el1 : M (io D) Z := read_sysreg "ICC_AP0R0_EL1".
Definition icc_read_ap0r1_el1 : M (io D) Z := read_sysreg "ICC_AP0R1_EL1".
Definition icc_read_ap0r2_el1 : M (io D) Z := read_sysreg "ICC_AP0R2_EL1".
Definition icc_read_ap0r3_el1 : M (io D) Z := read_sysreg "ICC_AP0R3_EL1".
Definition icc_read_ap1r0_el1 : M (io D) Z := read_sysreg "ICC_AP1R0_EL1".
Definition icc_read_ap1r1_el1 : M (io D) Z := read_sysreg "ICC_AP1R1_EL1".
Definition icc_read_ap1r2_el1 : M (io D) Z := read_sysreg "ICC_AP1R2_EL1".
Definition icc_read_ap1r3_el1 : M (io D) Z := read_sysreg "ICC_AP1R3_EL1".
Definition icc_write_sgi0r_el1 (val : Z) : M (io D) unit := write_sysreg "ICC_SGI0R_EL1" val.
Definition icc_write_sgi1r_el1 (val : Z) : M (io D) unit := write_sysreg "ICC_SGI1R_EL1" val.
Definition icc_write_asgi1r_el1 (val : Z) : M (io D) unit := write_sysreg "ICC_ASGI1R_EL1" val.
End Icc.

(** * The driver against the header *)

(** plat_gicv3_init as the header would write it. *)
Lemma icc_setup {D} `{Hardware D} (ctlr : Z) :
  hw (D:=D) (write_sysreg "ICC_SRE_EL2" SRE_VALUE) =
    hw (icc_write_sre_el2 (Z.lor ICC_SRE_EL2_SRE (Z.lor ICC_SRE_EL2_DFB (Z.lor ICC_SRE_EL2_DIB ICC_SRE_EL2_Enable)))) /\
  hw (D:=D) (write_sysreg "ICC_BPR1_EL1" 0x7) = hw (icc_write_bpr1_el1 ICC_BPR1_BINARY_POINT_MASK) /\
  hw (D:=D) (write_sysreg "ICC_PMR_EL1" 0xFF) = hw (icc_write_pmr_el1 ICC_PMR_PRIORITY_MASK) /\
  hw (D:=D) (write_sysreg "ICC_IGRPEN1_EL1" 1) = hw (icc_write_igrpen1_el1 ICC_IGRPEN1_ENABLE) /\
  Z.land CTLR_CLEARED (Z.lor ICC_CTLR_EL1_EOImode ICC_CTLR_EL1_CBPR) = Z.lor ICC_CTLR_EL1_EOImode ICC_CTLR_EL1_CBPR.
Proof. repeat split. Qed.

(** The identifier that says no interrupt is pending has no context. *)
Lemma icc_spurious {D} `{Hardware D} `{Config} (s : gic D) :
  exists s' l, runs (get_irq_context ICC_SPURIOUS_INTID) s None s' l /\ effects l = [].
Proof.
  destruct (runs_pr (ln "Invalid intid: %u") [ICC_SPURIOUS_INTID] s ltac:(vm_compute; reflexivity)) as (s1 & t & R1 & _).
  pose proof (runs_ret (@None irq_ptr) s1) as R2. exists s1, ((EPutc <$> t) ++ []).
  split; [|by rewrite effects_app, effects_putc].
  change (get_irq_context ICC_SPURIOUS_INTID) with
    (pr (D:=D) (ln "Invalid intid: %u") [ICC_SPURIOUS_INTID] ;; mret (@None irq_ptr)). chain (R1, R2).
Qed.

(** The fields of a software generated interrupt and its routing bit lie apart. *)
Lemma sgir_fields_apart f g : f <> g ->
  Z.land (Z.shiftl (ICC_SGI1R_MASK f) (ICC_SGI1R_SHIFT f)) (Z.shiftl (ICC_SGI1R_MASK g) (ICC_SGI1R_SHIFT g)) = 0 /\
  Z.land (Z.shiftl (ICC_SGI1R_MASK f) (ICC_SGI1R_SHIFT f)) ICC_SGI1R_IRM = 0.
Proof. by destruct f, g. Qed.
