(* ===== verification/Console.v ===== *)
(** The console layer (src/libc/console.c, console.h) and the PL011 driver behind it
    (platform/aarch64/driver/pl011/pl011.c).

    The registry is the linker section of console objects, in order; a console is its index
    there. An [ops] pointer leads to a table of functions, any of which may be NULL. *)
From Stdlib Require Import ZArith Lia.
From stdpp Require Import base gmap list strings.
From S2P Require Import Prelude Mem CString Printf Io GicRegs.

Open Scope Z_scope.

(** * State *)

(** [struct console]: [enabled] has one bit, [stage] 5, [flags] 12; [name] points to the
    string, [ops] to the table (0 for NULL). *)
Record console := { c_id : Z; c_enabled : Z; c_stage : Z; c_flags : Z; c_name : Z; c_ops : Z }.

Definition set_enabled (b : bool) (c : console) : console :=
  {| c_id := c_id c; c_enabled := bool_Z b; c_stage := c_stage c; c_flags := c_flags c;
     c_name := c_name c; c_ops := c_ops c |}.

Record platform (D : Type) := {
  mio : io D; mmem : mem; consoles : list console; g_pl011_base_addr : Z }.
Arguments mio {D} _. Arguments mmem {D} _. Arguments consoles {D} _. Arguments g_pl011_base_addr {D} _.
Arguments Build_platform {D} _ _ _ _.

Section State.
Context {D : Type}.
Definition set_mio (s : platform D) (x : io D) : platform D := Build_platform x (mmem s) (consoles s) (g_pl011_base_addr s).
Definition set_mmem (s : platform D) (m : mem) : platform D := Build_platform (mio s) m (consoles s) (g_pl011_base_addr s).
Definition set_consoles f (s : platform D) : platform D := Build_platform (mio s) (mmem s) (f (consoles s)) (g_pl011_base_addr s).
Definition set_base (a : Z) (s : platform D) : platform D := Build_platform (mio s) (mmem s) (consoles s) a.

Definition on_io {A} (m : M (io D) A) : M (platform D) A := zoom mio set_mio m.
Definition on_mem {A} (m : M mem A) : M (platform D) A := zoom mmem set_mmem m.

(** The console object at an index of the registry. *)
Definition get_console (i : nat) : M (platform D) console := fun s =>
  match consoles s !! i with Some c => Ok c s | None => Stop (Fault (Z.of_nat i)) s end.
Definition put_console (i : nat) (f : console -> console) : M (platform D) unit := modify (set_consoles (alter f i)).
End State.

(** [console_ops_t]: every function takes the console. *)
Record console_ops (D : Type) := {
  op_init : option (nat -> M (platform D) Z);
  op_putc : option (nat -> Z -> M (platform D) Z);
  op_getc : option (nat -> M (platform D) Z);
  op_flush : option (nat -> M (platform D) Z) }.
Arguments op_init {D} _. Arguments op_putc {D} _. Arguments op_getc {D} _. Arguments op_flush {D} _.
Arguments Build_console_ops {D} _ _ _ _.

(** The tables in memory, by address. *)
Class Drivers (D : Type) := table_at : Z -> console_ops D.

(** * console.c *)

Section Console.
Context {D : Type} `{Hardware D} `{Config} `{Drivers D}.

(** [console->ops && console->ops->f] *)
Definition method {A} (f : console_ops D -> option A) (c : console) : option A :=
  if c_ops c =? 0 then None else f (table_at (c_ops c)).

(** The loops over the registry: [k] consoles are left, from index [i] on. [fuel] bounds the
    string comparisons. *)
Fixpoint find_loop (fuel k i : nat) (name : Z) : M (platform D) (option nat) :=
  match k with
  | O => mret None
  | S k' =>
      c ← get_console i;
      r ← on_mem (strcmp fuel (c_name c) name);
      if r =? 0 then mret (Some i) else find_loop fuel k' (S i) name
  end.

Definition find_console (fuel : nat) (name : Z) : M (platform D) (option nat) :=
  n ← gets (fun s => length (consoles s)); find_loop fuel n 0 name.

Fixpoint find_id_loop (k i : nat) (id : Z) : M (platform D) (option nat) :=
  match k with
  | O => mret None
  | S k' => c ← get_console i; if c_id c =? id then mret (Some i) else find_id_loop k' (S i) id
  end.

Definition find_console_by_id (id : Z) : M (platform D) (option nat) :=
  n ← gets (fun s => length (consoles s)); find_id_loop n 0 id.

(** A call on one console: [f] of its table, or -ENODEV when the console, the table or the
    function is NULL. *)
Definition call_method {A} (console : option nat) (f : console_ops D -> option A)
    (call : nat -> A -> M (platform D) Z) : M (platform D) Z :=
  match console with
  | None => mret (- ENODEV)
  | Some i =>
      c ← get_console i;
      match method f c with Some op => call i op | None => mret (- ENODEV) end
  end.

Definition console_putc (console : option nat) (c : Z) : M (platform D) Z :=
  call_method console op_putc (fun i op => op i c).
Definition console_getc (console : option nat) : M (platform D) Z :=
  call_method console op_getc (fun i op => op i).
Definition console_flush (console : option nat) : M (platform D) Z :=
  call_method console op_flush (fun i op => op i).
Definition console_init (console : option nat) : M (platform D) Z :=
  call_method console op_init (fun i op =>
    ret ← op i;
    when (ret =? 0) (put_console i (set_enabled true)) ;;
    mret ret).

(** The loops of console_putc_all and console_flush_all stop at the first console whose call
    does not return 0. *)
Fixpoint all_loop {A} (f : console_ops D -> option A) (call : nat -> A -> M (platform D) Z)
    (k i : nat) (ret : Z) : M (platform D) Z :=
  match k with
  | O => mret ret
  | S k' =>
      c ← get_console i;
      match (if truth (c_enabled c) then method f c else None) with
      | Some op => ret ← call i op; if truth ret then mret ret else all_loop f call k' (S i) ret
      | None => all_loop f call k' (S i) ret
      end
  end.

Definition console_putc_all (c : Z) : M (platform D) Z :=
  n ← gets (fun s => length (consoles s)); all_loop op_putc (fun i op => op i c) n 0 0.
Definition console_flush_all : M (platform D) Z :=
  n ← gets (fun s => length (consoles s)); all_loop op_flush (fun i op => op i) n 0 0.

Definition console_putchar (c : Z) : M (platform D) Z := _ ← console_putc_all c; mret c.

(** The characters [*s] up to the terminator; [fuel] bounds their number. *)
Fixpoint console_puts (fuel : nat) (s count : Z) : M (platform D) Z :=
  c ← on_mem (ld 1 s);
  if truth c then
    match fuel with
    | O => stop_with Spin
    | S fuel' => _ ← console_putchar c; console_puts fuel' (s + 1) (count + 1)
    end
  else mret count.

Definition fflush : M (platform D) Z := _ ← console_flush_all; mret 0.

Definition set_by (found : M (platform D) (option nat)) (b : bool) : M (platform D) Z :=
  console ← found;
  match console with
  | None => mret (- ENOENT)
  | Some i => put_console i (set_enabled b) ;; mret 0
  end.

Definition console_disable (fuel : nat) (name : Z) : M (platform D) Z := set_by (find_console fuel name) false.
Definition console_enable (fuel : nat) (name : Z) : M (platform D) Z := set_by (find_console fuel name) true.
Definition console_disable_by_id (id : Z) : M (platform D) Z := set_by (find_console_by_id id) false.
End Console.

(** * pl011.c *)

Definition PL011_DR : Z := 0x00.
Definition PL011_FR : Z := 0x18.
Definition PL011_IBRD : Z := 0x24.
Definition PL011_FBRD : Z := 0x28.
Definition PL011_LCRH : Z := 0x2C.
Definition PL011_CR : Z := 0x30.
Definition PL011_IMSC : Z := 0x38.

Definition PL011_FR_RXFE : Z := Z.shiftl 1 4.
Definition PL011_FR_TXFF : Z := Z.shiftl 1 5.
Definition PL011_FR_TXFE : Z := Z.shiftl 1 7.
Definition PL011_LCRH_FEN : Z := Z.shiftl 1 4.
Definition PL011_LCRH_WLEN_8 : Z := Z.shiftl 3 5.
Definition PL011_INTRX_ENABLED : Z := Z.shiftl 1 4.
Definition PL011_INTTX_ENABLED : Z := Z.shiftl 1 5.

Section Pl011.
Context {D : Type} `{Hardware D} `{Config}.

(** [*REG(offset)], read and written. *)
Definition reg_read (offset : Z) : M (platform D) Z :=
  base ← gets g_pl011_base_addr; on_io (read32 (base + offset)).
Definition reg_write (offset v : Z) : M (platform D) unit :=
  base ← gets g_pl011_base_addr; on_io (write32 (base + offset) v).

Definition pl011_init (base_addr : Z) : M (platform D) unit :=
  modify (set_base base_addr) ;;
  reg_write PL011_CR 0 ;;
  reg_write PL011_IMSC 0 ;;
  reg_write PL011_IMSC (Z.lor PL011_INTRX_ENABLED PL011_INTTX_ENABLED) ;;
  reg_write PL011_LCRH (Z.lor PL011_LCRH_FEN PL011_LCRH_WLEN_8) ;;
  reg_write PL011_IBRD 27 ;;
  reg_write PL011_FBRD 8 ;;
  reg_write PL011_CR (Z.lor (Z.shiftl 1 0) (Z.lor (Z.shiftl 1 8) (Z.shiftl 1 9))).

(** The condition of the three wait loops: the flag register has [bit], or lacks it. *)
Definition flag_is (bit : Z) (want : bool) : M (platform D) bool :=
  v ← reg_read PL011_FR; mret (Bool.eqb (truth (Z.land v bit)) want).

Definition pl011_putchar (c : Z) : M (platform D) unit :=
  spin_while patience (flag_is PL011_FR_TXFF true) ;;
  reg_write PL011_DR (u32 c).

Definition pl011_getchar : M (platform D) Z :=
  spin_while patience (flag_is PL011_FR_RXFE true) ;;
  v ← reg_read PL011_DR; mret (Z.land v 0xFF).

Definition pl011_flush : M (platform D) unit := spin_while patience (flag_is PL011_FR_TXFE false).

Definition s_pl011_ops : console_ops D := {|
  op_init := Some (fun _ => pl011_init PL011_BASE_ADDR ;; mret 0);
  op_putc := Some (fun _ c => pl011_putchar c ;; mret 0);
  op_getc := Some (fun _ => pl011_getchar);
  op_flush := Some (fun _ => pl011_flush ;; mret 0) |}.

(** The program has one table: every [ops] pointer is that of s_pl011_ops. *)
#[global] Instance program_drivers : Drivers D := fun _ => s_pl011_ops.
End Pl011.

(** CONSOLE_REGISTER(pl011, 0, &s_pl011_ops): the registry of the program, for the link
    addresses of the name and of the table. *)
Definition program_consoles (name ops : Z) : list console :=
  [{| c_id := 0; c_enabled := 0; c_stage := 0; c_flags := 0; c_name := name; c_ops := ops |}].
