(* ===== verification/ConsoleProof.v ===== *)
(** Runs of the console layer: the registry searches, and the UART behind putchar. *)
From Stdlib Require Import ZArith Lia.
From stdpp Require Import base gmap list strings.
From S2P Require Import Prelude Mem CString CStringProof Printf PrintfProof Io IoProof GicRegs Console.

Open Scope Z_scope.

#[global] Instance platform_traced {D} : Traced (platform D) := fun s => trace (mio s).

(** * The registry *)

(** The first index at which a test holds. *)
Fixpoint first_index {A} (test : A -> bool) (l : list A) (i : nat) : option nat :=
  match l with
  | [] => None
  | a :: l' => if test a then Some i else first_index test l' (S i)
  end.

Lemma first_index_spec {A} (test : A -> bool) l i r :
  first_index test l i = r ->
  match r with
  | Some k => exists j a, k = (i + j)%nat /\ l !! j = Some a /\ test a = true /\
                (forall j' a', (j' < j)%nat -> l !! j' = Some a' -> test a' = false)
  | None => forall a, a ∈ l -> test a = false
  end.
Proof.
  intros <-. revert i. induction l as [|a l IH]; intros i; cbn [first_index].
  - intros a Ha. by apply elem_of_nil in Ha.
  - destruct (test a) eqn:Ht.
    + exists O, a. split; [lia|]. split; [done|]. split; [done|]. intros j' a'. lia.
    + specialize (IH (S i)). destruct (first_index test l (S i)) as [k|].
      * destruct IH as (j & b & -> & Hj & Hb & Hmin). exists (S j), b. split; [lia|]. split; [done|].
        split; [done|]. intros [|j'] a' Hlt Hl; [by injection Hl as <-|]. by apply (Hmin j'); [lia|].
      * intros b [->|Hb]%elem_of_cons; [done|by apply IH].
Qed.

Section Registry.
Context {D : Type} `{Hardware D} `{Config} `{Drivers D}.

Lemma get_console_run (s : platform D) i c : consoles s !! i = Some c -> get_console i s = Ok c s.
Proof. intros E. unfold get_console. by rewrite E. Qed.

(** The names of the registered consoles, as strings in memory, none longer than the fuel. *)
Definition names (fuel : nat) (s : platform D) (ns : list text) : Prop :=
  Forall2 (fun c n => cstr (mmem s) (c_name c) n /\ (length n <= fuel)%nat) (consoles s) ns.

Definition text_eqb (a b : text) : bool := bool_decide (a = b).

Lemma find_loop_run fuel (s : platform D) name n ns pre cs :
  consoles s = pre ++ cs -> cstr (mmem s) name n ->
  Forall2 (fun c n => cstr (mmem s) (c_name c) n /\ (length n <= fuel)%nat) cs ns ->
  find_loop fuel (length cs) (length pre) name s = Ok (first_index (text_eqb n) ns (length pre)) s.
Proof.
  intros Hs Hn Hns. revert pre Hs. induction Hns as [|c m cs ns [Hc Hlen] Hns IH]; intros pre Hs;
    cbn [length find_loop first_index]; [done|].
  assert (E1 : get_console (length pre) s = Ok c s).
  { apply get_console_run. rewrite Hs. by apply list_lookup_middle. }
  assert (E2 : on_mem (strcmp fuel (c_name c) name) s = Ok (strcmp_text m n) s).
  { unfold on_mem, zoom. rewrite (strcmp_run fuel _ _ _ m n Hc Hn Hlen). by destruct s. }
  mstep E1. mstep E2.
  assert (Hz : strcmp_text m n = 0 <-> m = n).
  { destruct (strcmp_text_diff m n) as (_ & _ & _ & _ & _ & _ & Hz);
      [eapply Forall_impl; [by eapply cstr_range|cbn; lia]..|done]. }
  destruct (Z.eqb_spec (strcmp_text m n) 0) as [E|E].
  - apply Hz in E as ->. unfold text_eqb. by rewrite bool_decide_true.
  - unfold text_eqb. rewrite bool_decide_false by (intros ->; by apply E, Hz).
    specialize (IH (pre ++ [c])). rewrite length_app, Nat.add_comm in IH. cbn [length Nat.add] in IH.
    apply IH. by rewrite Hs, <- app_assoc.
Qed.

Lemma find_console_run fuel (s : platform D) name n ns :
  cstr (mmem s) name n -> names fuel s ns ->
  find_console fuel name s = Ok (first_index (text_eqb n) ns 0) s.
Proof.
  intros Hn Hns. unfold find_console. rewrite bind_gets.
  by apply (find_loop_run fuel s name n ns []).
Qed.

Lemma find_id_loop_run (s : platform D) id pre cs :
  consoles s = pre ++ cs ->
  find_id_loop (length cs) (length pre) id s =
    Ok (first_index (fun c => c_id c =? id) cs (length pre)) s.
Proof.
  revert pre. induction cs as [|c cs IH]; intros pre Hs; cbn [length find_id_loop first_index]; [done|].
  assert (E1 : get_console (length pre) s = Ok c s).
  { apply get_console_run. rewrite Hs. by apply list_lookup_middle. }
  mstep E1. destruct (c_id c =? id); [done|].
  specialize (IH (pre ++ [c])). rewrite length_app, Nat.add_comm in IH. cbn [length Nat.add] in IH.
  apply IH. by rewrite Hs, <- app_assoc.
Qed.

Lemma set_by_run (found : M (platform D) (option nat)) b s r :
  found s = Ok r s ->
  set_by found b s = match r with
    | Some i => Ok 0 (set_consoles (alter (set_enabled b) i) s)
    | None => Ok (- ENOENT) s
    end.
Proof. intros E. unfold set_by. mstep E. by destruct r. Qed.

Lemma call_method_run {A} (f : console_ops D -> option A) (call : nat -> A -> M (platform D) Z) s i c :
  consoles s !! i = Some c ->
  call_method (Some i) f call s = match method f c with Some op => call i op s | None => Ok (- ENODEV) s end.
Proof. intros E. unfold call_method. rewrite (bind_Ok _ _ _ c s) by by apply get_console_run. by destruct (method f c). Qed.
End Registry.

(** * The UART *)

(** The registers pl011_init writes. *)
Definition pl011_setup : list event :=
  [EWrite 4 (PL011_BASE_ADDR + PL011_CR) 0; EWrite 4 (PL011_BASE_ADDR + PL011_IMSC) 0;
   EWrite 4 (PL011_BASE_ADDR + PL011_IMSC) 0x30; EWrite 4 (PL011_BASE_ADDR + PL011_LCRH) 0x70;
   EWrite 4 (PL011_BASE_ADDR + PL011_IBRD) 27; EWrite 4 (PL011_BASE_ADDR + PL011_FBRD) 8;
   EWrite 4 (PL011_BASE_ADDR + PL011_CR) 0x301].

Section Uart.
Context {D : Type} `{Hardware D} `{Config}.

(** Reading the flag register again and again ends the wait within [n] more reads. *)
Fixpoint flag_settles (n : nat) (a bit : Z) (want : bool) (d : D) : Prop :=
  let r := mmio_read 4 a d in
  Bool.eqb (truth (Z.land (u32 (r.1)) bit)) want = false \/
  match n with O => False | S n' => flag_settles n' a bit want (r.2) end.

(** Everything but the hardware is as before. *)
Definition same_platform (s s' : platform D) : Prop :=
  mmem s' = mmem s /\ consoles s' = consoles s /\ g_pl011_base_addr s' = g_pl011_base_addr s.

#[global] Instance same_platform_preorder : PreOrder same_platform.
Proof. split; [by intros s|]. intros a b c (? & ? & ?) (? & ? & ?). unfold same_platform. by split_and!; etrans. Qed.

Lemma runs_reg_read offset (s : platform D) : exists v s',
  runs (reg_read offset) s v s' [ERead 4 (g_pl011_base_addr s + offset) v] /\
  v = u32 (fst (mmio_read 4 (g_pl011_base_addr s + offset) (dev (mio s)))) /\
  dev (mio s') = snd (mmio_read 4 (g_pl011_base_addr s + offset) (dev (mio s))) /\ same_platform s s'.
Proof. eexists _, _. split; [split; [reflexivity|reflexivity]|done]. Qed.

Lemma runs_reg_write offset v (s : platform D) : exists s',
  runs (reg_write offset v) s tt s' [EWrite 4 (g_pl011_base_addr s + offset) (u32 v)] /\ same_platform s s'.
Proof. eexists. split; [split; [reflexivity|reflexivity]|done]. Qed.

(** A wait on the flag register: reads of it only, the last of which lets the wait end. *)
Lemma runs_flag_wait n bit want (s : platform D) :
  flag_settles n (g_pl011_base_addr s + PL011_FR) bit want (dev (mio s)) ->
  exists s' vs v,
    runs (spin_while n (flag_is bit want)) s tt s' (ERead 4 (g_pl011_base_addr s + PL011_FR) <$> vs ++ [v]) /\
    Bool.eqb (truth (Z.land v bit)) want = false /\ same_platform s s'.
Proof.
  revert s. induction n as [|n IH]; intros s Hs; cbn [flag_settles spin_while] in *;
    destruct (runs_reg_read PL011_FR s) as (v & s1 & R1 & Hv & Hd & S1); rewrite <- Hv, <- ?Hd in Hs;
    pose proof (runs_ret (Bool.eqb (truth (Z.land v bit)) want) s1) as R2;
    assert (R : runs (flag_is bit want) s (Bool.eqb (truth (Z.land v bit)) want) s1
                  (ERead 4 (g_pl011_base_addr s + PL011_FR) <$> [v])) by exact (runs_bind _ _ _ _ _ _ _ _ _ R1 R2);
    (destruct (Bool.eqb (truth (Z.land v bit)) want) eqn:Hb;
      [|exists s1, [], v; split; [|done]; exact (runs_bind _ _ _ _ _ _ _ _ _ R (runs_ret tt s1))]).
  - by destruct Hs.
  - destruct Hs as [Hs|Hs]; [done|]. pose proof (proj2 (proj2 S1)) as Sb. rewrite <- Sb in Hs.
    destruct (IH s1 Hs) as (s2 & vs & v' & R3 & Hv' & S2). exists s2, (v :: vs), v'.
    split; [|split; [done|by etrans]]. rewrite Sb in R3. cbn [app]. rewrite fmap_cons.
    exact (runs_bind _ _ _ _ _ _ _ _ _ R R3).
Qed.

(** What has been written to the data register. *)
Definition uart_byte (e : event) : option Z :=
  match e with EWrite 4 a v => if a =? PL011_BASE_ADDR + PL011_DR then Some v else None | _ => None end.
Definition uart_text (s : platform D) : text := omap uart_byte (trace (mio s)).

(** The UART is never written while its flag register last said it was full. *)
Definition paced (l : list event) : Prop :=
  forall l1 c l2, l = l1 ++ EWrite 4 (PL011_BASE_ADDR + PL011_DR) c :: l2 ->
    exists l0 v, l1 = l0 ++ [ERead 4 (PL011_BASE_ADDR + PL011_FR) v] /\ truth (Z.land v PL011_FR_TXFF) = false.

Lemma paced_app l l' : paced l -> Forall (fun e => uart_byte e = None) l' -> paced (l ++ l').
Proof.
  intros Hp. induction l' as [|e l' IH] using rev_ind; [by rewrite app_nil_r|].
  intros [Hl He]%Forall_app l1 c l2 E. rewrite app_assoc in E.
  destruct l2 as [|x l2 _] using rev_ind.
  - apply app_inj_tail in E as [_ ->]. by inversion He.
  - rewrite app_comm_cons, app_assoc in E. apply app_inj_tail in E as [E _]. by apply (IH Hl l1 c l2).
Qed.

Lemma paced_sent l vs v c :
  paced l -> truth (Z.land v PL011_FR_TXFF) = false ->
  paced (l ++ ((ERead 4 (PL011_BASE_ADDR + PL011_FR) <$> vs ++ [v]) ++ [EWrite 4 (PL011_BASE_ADDR + PL011_DR) c])).
Proof.
  intros Hp Hv l1 c' l2 E. rewrite app_assoc in E.
  destruct l2 as [|e l2 _] using rev_ind.
  - apply app_inj_tail in E as [<- _]. rewrite fmap_app. exists (l ++ (ERead 4 (PL011_BASE_ADDR + PL011_FR) <$> vs)), v.
    by rewrite app_assoc.
  - rewrite app_comm_cons, app_assoc in E. apply app_inj_tail in E as [E _].
    apply (paced_app l (ERead 4 (PL011_BASE_ADDR + PL011_FR) <$> vs ++ [v]) Hp) with c' l2; [|done].
    apply Forall_fmap, Forall_true. done.
Qed.

(** The registry of the program with the PL011 brought up, on a UART that drains. *)
Record uart_ready (s : platform D) : Prop := {
  ur_consoles : exists c, consoles s = [c] /\ c_enabled c = 1 /\ c_ops c <> 0;
  ur_base : g_pl011_base_addr s = PL011_BASE_ADDR;
  ur_paced : paced (trace (mio s));
  ur_drains : forall d : D, flag_settles patience (PL011_BASE_ADDR + PL011_FR) PL011_FR_TXFF true d }.

Lemma putchar_runs c (s : platform D) :
  uart_ready s -> exists s', console_putchar c s = Ok c s' /\ uart_ready s' /\ uart_text s' = uart_text s ++ [u32 c] /\
    mmem s' = mmem s.
Proof.
  intros [(k & Hk & He & Ho) Hb Hp Hd].
  destruct (runs_flag_wait patience PL011_FR_TXFF true s) as (s1 & vs & v & R1 & Hv & S1); [rewrite Hb; apply Hd|].
  destruct S1 as (S1m & S1c & S1b).
  destruct (runs_reg_write PL011_DR (u32 c) s1) as (s2 & R2 & S2). rewrite Hb in R1. rewrite S1b, Hb in R2.
  rewrite wrap_wrap in R2. destruct S2 as (S2m & S2c & S2b).
  pose proof (runs_bind (pl011_putchar c) (fun _ => mret 0) _ _ _ _ _ _ _
    (runs_bind _ (fun _ => reg_write PL011_DR (u32 c)) _ _ _ _ _ _ _ R1 R2) (runs_ret 0 s2)) as R.
  rewrite app_nil_r in R. destruct R as [R T].
  assert (Hv' : truth (Z.land v PL011_FR_TXFF) = false) by by destruct (truth _).
  exists s2. split; [|split; [|split; [|by rewrite S2m, S1m]]].
  - unfold console_putchar, console_putc_all. rewrite bind_assoc, bind_gets, Hk. cbn [length all_loop].
    rewrite bind_assoc. rewrite (bind_Ok _ _ s k s) by (apply get_console_run; by rewrite Hk).
    rewrite He. unfold method. rewrite (proj2 (Z.eqb_neq _ _) Ho). cbn [truth Z.eqb negb table_at program_drivers op_putc s_pl011_ops].
    rewrite bind_assoc. mstep R. done.
  - split; [exists k; by rewrite S2c, S1c|by rewrite S2b, S1b| |done].
    change (trace_of s2) with (trace (mio s2)) in T. rewrite T. by apply paced_sent.
  - unfold uart_text. change (trace_of s2) with (trace (mio s2)) in T. rewrite T, !omap_app. f_equal.
    cbn [omap list_omap uart_byte]. rewrite Z.eqb_refl.
    replace (omap uart_byte _) with (@nil Z); [done|].
    generalize (vs ++ [v]). intros ws. by induction ws.
Qed.

(** printf's output is the UART. *)
#[global, refine] Instance uart_output : Output (platform D) := {
  putchar := fun c => _ ← console_putchar c; mret tt;
  out := uart_text;
  sent := fun c => u32 c;
  ready := uart_ready;
  putchar_spec := _ }.
Proof.
  intros c s Hs. destruct (putchar_runs c s Hs) as (s' & E & Hs' & Ho & _). exists s'.
  split; [by mstep E|done].
Defined.
Lemma runs_pl011_init (s : platform D) :
  exists s', runs (pl011_init PL011_BASE_ADDR) s tt s' pl011_setup /\ mmem s' = mmem s /\
    consoles s' = consoles s /\ g_pl011_base_addr s' = PL011_BASE_ADDR.
Proof.
  pose proof (runs_modify (set_base PL011_BASE_ADDR) s eq_refl) as R0. set (s0 := set_base _ s) in *.
  destruct (runs_reg_write PL011_CR 0 s0) as (s1 & R1 & M1 & C1 & B1).
  destruct (runs_reg_write PL011_IMSC 0 s1) as (s2 & R2 & M2 & C2 & B2).
  destruct (runs_reg_write PL011_IMSC (Z.lor PL011_INTRX_ENABLED PL011_INTTX_ENABLED) s2) as (s3 & R3 & M3 & C3 & B3).
  destruct (runs_reg_write PL011_LCRH (Z.lor PL011_LCRH_FEN PL011_LCRH_WLEN_8) s3) as (s4 & R4 & M4 & C4 & B4).
  destruct (runs_reg_write PL011_IBRD 27 s4) as (s5 & R5 & M5 & C5 & B5).
  destruct (runs_reg_write PL011_FBRD 8 s5) as (s6 & R6 & M6 & C6 & B6).
  destruct (runs_reg_write PL011_CR (Z.lor (Z.shiftl 1 0) (Z.lor (Z.shiftl 1 8) (Z.shiftl 1 9))) s6) as (s7 & R7 & M7 & C7 & B7).
  rewrite B1 in R2. rewrite B2, B1 in R3. rewrite B3, B2, B1 in R4. rewrite B4, B3, B2, B1 in R5.
  rewrite B5, B4, B3, B2, B1 in R6. rewrite B6, B5, B4, B3, B2, B1 in R7.
  exists s7. split; [|split; [|split]].
  - change pl011_setup with ([] ++ [EWrite 4 (PL011_BASE_ADDR + PL011_CR) (u32 0)] ++
      [EWrite 4 (PL011_BASE_ADDR + PL011_IMSC) (u32 0)] ++ [EWrite 4 (PL011_BASE_ADDR + PL011_IMSC) (u32 0x30)] ++
      [EWrite 4 (PL011_BASE_ADDR + PL011_LCRH) (u32 0x70)] ++ [EWrite 4 (PL011_BASE_ADDR + PL011_IBRD) (u32 27)] ++
      [EWrite 4 (PL011_BASE_ADDR + PL011_FBRD) (u32 8)] ++ [EWrite 4 (PL011_BASE_ADDR + PL011_CR) (u32 0x301)]).
    unfold pl011_init. chain (R0, R1, R2, R3, R4, R5, R6, R7).
  - by rewrite M7, M6, M5, M4, M3, M2, M1.
  - by rewrite C7, C6, C5, C4, C3, C2, C1.
  - by rewrite B7, B6, B5, B4, B3, B2, B1.
Qed.

(** The lookup of the program's one console, and its initialisation. *)
Lemma find_pl011_run fuel name lit ops (s : platform D) :
  consoles s = program_consoles name ops -> (5 <= fuel)%nat ->
  cstr (mmem s) name (str "pl011") -> cstr (mmem s) lit (str "pl011") ->
  find_console fuel lit s = Ok (Some O) s.
Proof.
  intros Hc Hf Hn Hl. rewrite (find_console_run fuel s lit (str "pl011") [str "pl011"]); [done|done|].
  unfold names. rewrite Hc. apply Forall2_cons; split; [split; [done|cbn; lia]|by apply Forall2_nil].
Qed.

Lemma init_pl011_run name ops (s : platform D) : consoles s = program_consoles name ops -> ops <> 0 ->
  exists s1, runs (console_init (Some O)) s 0 s1 pl011_setup /\
    consoles s1 = set_enabled true <$> program_consoles name ops /\ g_pl011_base_addr s1 = PL011_BASE_ADDR /\
    mmem s1 = mmem s.
Proof.
  intros Hc Ho. destruct (runs_pl011_init s) as (s1 & [R T] & Hm & Hc1 & Hb).
  exists (set_consoles (alter (set_enabled true) 0%nat) s1). split; [split; [|exact T]|split; [|done]].
  - unfold console_init. rewrite (call_method_run _ _ s O {| c_id := 0; c_enabled := 0; c_stage := 0; c_flags := 0; c_name := name; c_ops := ops |})
      by (by rewrite Hc).
    unfold method. cbn [c_ops]. rewrite (proj2 (Z.eqb_neq _ _) Ho). cbn [table_at program_drivers op_init s_pl011_ops].
    rewrite bind_assoc. mstep R. done.
  - cbn. by rewrite Hc1, Hc.
Qed.
End Uart.
