(* ===== verification/ConsoleTheorems.v ===== *)
(** The properties of the console layer and its UART, each with a concrete instance. *)
From Stdlib Require Import ZArith Lia.
From stdpp Require Import base gmap list strings.
From S2P Require Import Prelude Mem CString CStringProof Printf PrintfProof Io IoProof GicRegs Console ConsoleProof.

Open Scope Z_scope.

(** A UART that is always ready, with the name of the PL011 at addresses 0 and 16. *)
Inductive uart := Uart.
#[global] Instance uart_hardware : Hardware uart := {
  mmio_read := fun _ _ d => (0, d); mmio_write := fun _ _ _ d => d;
  sys_read := fun _ d => (0, d); sys_write := fun _ _ d => d }.
#[global] Instance uart_config : Config := {| NR_CPU := 1; HZ := 250; patience := 0 |}.

Definition name_mem : mem :=
  list_to_map (zip ((fun i => Z.of_nat i) <$> seq 0 22)
    (byte_of_Z <$> (str "pl011" ++ replicate 11 0 ++ str "pl011" ++ [0]))).

Definition uart_start : platform uart :=
  {| mio := {| dev := Uart; trace := [] |}; mmem := name_mem; consoles := program_consoles 0 0x1000;
     g_pl011_base_addr := 0 |}.

Section Bring_up.
Context {D : Type} `{Hardware D} `{Config}.

(** The PL011 as platform_init brings it up. *)
Definition bring_up (fuel : nat) (name : Z) : M (platform D) Z :=
  found ← find_console fuel name; console_init found.

Lemma bring_up_run fuel name lit ops (s : platform D) :
  consoles s = program_consoles name ops -> ops <> 0 -> (5 <= fuel)%nat ->
  cstr (mmem s) name (str "pl011") -> cstr (mmem s) lit (str "pl011") ->
  exists s1, runs (bring_up fuel lit) s 0 s1 pl011_setup /\
    consoles s1 = set_enabled true <$> program_consoles name ops /\ g_pl011_base_addr s1 = PL011_BASE_ADDR.
Proof.
  intros Hc Ho Hf Hn Hl. destruct (init_pl011_run name ops s Hc Ho) as (s1 & [E T] & Hc1 & Hb & _).
  exists s1. split; [split; [|exact T]|done]. unfold bring_up. mstep (find_pl011_run fuel name lit ops s Hc Hf Hn Hl). exact E.
Qed.
End Bring_up.

(** C17: the program's console, end to end. Before the PL011 is brought up nothing that is printed
    reaches the hardware. Looking "pl011" up and initialising it writes exactly the set-up
    registers, and from then on vprintf sends the rendered text, character by character and in
    order, to the data register of the UART, which is never written while its flag register
    last said that its queue is full. *)
Theorem uart_prints {D} `{Hardware D} `{Config} (s : platform D) fuel name lit ops items c :
  consoles s = program_consoles name ops -> ops <> 0 -> (5 <= fuel)%nat ->
  cstr (mmem s) name (str "pl011") -> cstr (mmem s) lit (str "pl011") ->
  paced (trace (mio s)) ->
  (forall d : D, flag_settles patience (PL011_BASE_ADDR + PL011_FR) PL011_FR_TXFF true d) ->
  Forall valid_item items ->
  console_putchar c s = Ok c s /\
  exists s1 s2,
    bring_up fuel lit s = Ok 0 s1 /\ trace (mio s1) = trace (mio s) ++ pl011_setup /\
    vprintf (concat (item_format <$> items)) (concat (item_args <$> items)) s1 = Ok 0 s2 /\
    uart_text s2 = uart_text s ++ (wrap 32 <$> concat (render <$> items)) /\ paced (trace (mio s2)).
Proof.
  intros Hc Ho Hf Hn Hl Hp Hd Hv. split.
  - unfold console_putchar, console_putc_all. rewrite bind_assoc, bind_gets, Hc. cbn [length program_consoles all_loop].
    rewrite bind_assoc. rewrite (bind_Ok _ _ s _ s) by (apply get_console_run; by rewrite Hc). done.
  - destruct (bring_up_run fuel name lit ops s Hc Ho Hf Hn Hl) as (s1 & [E1 T1] & Hc1 & Hb1).
    change (trace (mio s1) = trace (mio s) ++ pl011_setup) in T1.
    assert (Hready : uart_ready s1).
    { split; [by eexists; split; [exact Hc1|]|done| |done]. rewrite T1. apply paced_app; [done|]. repeat (apply Forall_cons; split; [reflexivity|]). by apply Forall_nil. }
    destruct (@vprintf_emits _ uart_output items s1 Hv Hready) as (s2 & E2 & Hr2 & Ho2).
    exists s1, s2. split; [done|]. split; [done|]. split; [done|]. split; [|apply Hr2].
    change (uart_text s2 = uart_text s1 ++ (wrap 32 <$> concat (render <$> items))) in Ho2.
    rewrite Ho2. f_equal. unfold uart_text. rewrite T1, omap_app. cbn. by rewrite app_nil_r.
Qed.

Lemma uart_prints_witness :
  console_putchar 65 uart_start = Ok 65 uart_start /\
  exists s1 s2,
    bring_up 5 16 uart_start = Ok 0 s1 /\ trace (mio s1) = trace (mio uart_start) ++ pl011_setup /\
    vprintf (concat (item_format <$> [Lit 88; Num false true 3 CvD 5]))
      (concat (item_args <$> [Lit 88; Num false true 3 CvD 5])) s1 = Ok 0 s2 /\
    uart_text s2 = uart_text uart_start ++ (wrap 32 <$> concat (render <$> [Lit 88; Num false true 3 CvD 5])) /\
    paced (trace (mio s2)).
Proof.
  apply (uart_prints uart_start 5 0 16 0x1000 [Lit 88; Num false true 3 CvD 5] 65).
  - reflexivity.
  - lia.
  - lia.
  - vm_compute. done.
  - vm_compute. done.
  - intros [|] ? ? [=].
  - intros []. left. done.
  - repeat constructor; done.
Defined.

(** Find_console returns the first console of that name, console_enable and console_disable
    change its enabled bit and nothing else and return 0; for a name no console has they find
    nothing, change nothing and return -ENOENT. A NULL console, and one without a table of
    operations, gives -ENODEV from every operation and is left alone. *)
Theorem console_registry {D} `{Hardware D} `{Config} `{Drivers D} (s : platform D) fuel name n ns c :
  cstr (mmem s) name n -> names fuel s ns ->
  ((exists i, ns !! i = Some n /\ (forall j, (j < i)%nat -> ns !! j <> Some n) /\
      find_console fuel name s = Ok (Some i) s /\
      console_enable fuel name s = Ok 0 (set_consoles (alter (set_enabled true) i) s) /\
      console_disable fuel name s = Ok 0 (set_consoles (alter (set_enabled false) i) s)) \/
   ((n ∉ ns) /\ find_console fuel name s = Ok None s /\
      console_enable fuel name s = Ok (- ENOENT) s /\ console_disable fuel name s = Ok (- ENOENT) s)) /\
  (forall found, found = None \/ (exists i k, found = Some i /\ consoles s !! i = Some k /\ c_ops k = 0) ->
     console_init found s = Ok (- ENODEV) s /\ console_putc found c s = Ok (- ENODEV) s /\
     console_getc found s = Ok (- ENODEV) s /\ console_flush found s = Ok (- ENODEV) s).
Proof.
  intros Hn Hns. pose proof (find_console_run fuel s name n ns Hn Hns) as E.
  pose proof (first_index_spec (text_eqb n) ns 0 _ eq_refl) as Hf. split.
  - unfold console_enable, console_disable. rewrite !(set_by_run _ _ _ _ E), E.
    destruct (first_index (text_eqb n) ns 0) as [k|].
    + left. destruct Hf as (i & a & -> & Hi & Ha & Hmin). exists i.
      unfold text_eqb in Ha. apply bool_decide_eq_true in Ha as ->. split; [done|]. split; [|done].
      intros j Hj Hl. specialize (Hmin j a Hj Hl). unfold text_eqb in Hmin. by rewrite bool_decide_true in Hmin.
    + right. split; [|done]. intros Hin. specialize (Hf n Hin). unfold text_eqb in Hf. by rewrite bool_decide_true in Hf.
  - intros found [->|(i & k & -> & Hi & Ho)]; [done|].
    unfold console_init, console_putc, console_getc, console_flush.
    rewrite !(call_method_run _ _ s i k Hi). unfold method. by rewrite Ho.
Qed.

Lemma console_registry_witness :
  ((exists i, [str "pl011"] !! i = Some (str "pl011") /\ (forall j, (j < i)%nat -> [str "pl011"] !! j <> Some (str "pl011")) /\
      find_console 5 16 uart_start = Ok (Some i) uart_start /\
      console_enable 5 16 uart_start = Ok 0 (set_consoles (alter (set_enabled true) i) uart_start) /\
      console_disable 5 16 uart_start = Ok 0 (set_consoles (alter (set_enabled false) i) uart_start)) \/
   ((str "pl011" ∉ [str "pl011"]) /\ find_console 5 16 uart_start = Ok None uart_start /\
      console_enable 5 16 uart_start = Ok (- ENOENT) uart_start /\ console_disable 5 16 uart_start = Ok (- ENOENT) uart_start)) /\
  (forall found, found = None \/ (exists i k, found = Some i /\ consoles uart_start !! i = Some k /\ c_ops k = 0) ->
     console_init found uart_start = Ok (- ENODEV) uart_start /\ console_putc found 65 uart_start = Ok (- ENODEV) uart_start /\
     console_getc found uart_start = Ok (- ENODEV) uart_start /\ console_flush found uart_start = Ok (- ENODEV) uart_start).
Proof.
  apply (console_registry uart_start 5 16 (str "pl011") [str "pl011"] 65).
  - vm_compute. done.
  - apply Forall2_cons. split; [|by apply Forall2_nil]. split; [vm_compute; done|cbn; lia].
Defined.
