(* ===== verification/Host.v ===== *)
(** What the programs on top of the console need of the machine under them: output, system
    registers, memory to read and a console to flush. ConsoleHost discharges it. *)
From Stdlib Require Import ZArith Lia.
From stdpp Require Import base gmap list strings.
From S2P Require Import Prelude Mem Printf.

Open Scope Z_scope.

Class Host (S : Type) := {
  #[global] host_output :: Output S;
  host_mem : S -> mem;
  mrs : string -> M S Z;
  host_flush : M S Z;
  putchar_mem : forall c s s', ready s -> putchar c s = Ok tt s' -> host_mem s' = host_mem s;
  mrs_spec : forall r s, ready s -> exists v s', mrs r s = Ok v s' /\ 0 <= v < 2 ^ 64 /\ ready s' /\
    out s' = out s /\ host_mem s' = host_mem s;
  flush_spec : forall s, ready s -> exists r s', host_flush s = Ok r s' /\ ready s' /\
    out s' = out s /\ host_mem s' = host_mem s }.

(** A printf whose result nobody looks at. *)
Definition say {S : Type} `{Host S} (fmt : string) (args : list Printf.arg) : M S unit := _ ← printf fmt args; mret tt.
