(* ===== verification/HostProof.v ===== *)
(** Calls that only print, over any [Host]: the text they print, and that they leave memory
    alone. *)
From Stdlib Require Import ZArith Lia.
From stdpp Require Import base gmap list strings.
From S2P Require Import Prelude Mem Printf PrintfProof Host.

Open Scope Z_scope.

(** * Text as items *)

Definition lits (s : string) : list item := Lit <$> str s.
Definition nl : list item := [Lit 10].
Definition line (parts : list (list item)) : list item := concat parts ++ nl.
Definition shown (l : list item) : text := concat (render <$> l).

Definition valid_b (i : item) : bool :=
  match i with
  | Lit c => negb (c =? 0) && negb (c =? chr_pct)
  | Num _ _ width _ _ | Ptr _ _ width _ => (0 <=? width) && (width <=? INT_MAX - chr_0)
  | _ => true
  end.

Lemma valid_b_spec items : forallb valid_b items = true -> Forall valid_item items.
Proof.
  intros Hb. apply Forall_forall. intros i Hi%list_elem_of_In. pose proof (proj1 (forallb_forall _ _) Hb i Hi) as Hv.
  destruct i; cbn [valid_b valid_item] in *; try done; apply andb_true_iff in Hv as [H1 H2]; [|lia|lia].
  split; intros ->; done.
Qed.

Lemma shown_app a b : shown (a ++ b) = shown a ++ shown b.
Proof. unfold shown. by rewrite fmap_app, concat_app. Qed.

Section Tells.
Context {S : Type} `{Host S}.

(** A call that prints [t] and leaves memory alone. *)
Definition tells {A} (m : M S A) (t : text) (a : A) : Prop := forall s, ready s ->
  exists s', m s = Ok a s' /\ ready s' /\ out s' = out s ++ (sent (S := S) <$> t) /\ host_mem s' = host_mem s.

Lemma tells_ret {A} (a : A) : tells (mret a) [] a.
Proof. intros s Hs. exists s. cbn. by rewrite app_nil_r. Qed.

Lemma tells_bind {A B} (m : M S A) (k : A -> M S B) t1 t2 a b : tells m t1 a -> tells (k a) t2 b -> tells (m ≫= k) (t1 ++ t2) b.
Proof.
  intros Hm Hk s Hs. destruct (Hm s Hs) as (s1 & E1 & H1 & O1 & M1). destruct (Hk s1 H1) as (s2 & E2 & H2 & O2 & M2).
  exists s2. rewrite (bind_Ok _ _ _ _ _ E1). split; [done|]. split; [done|]. by rewrite O2, O1, M2, M1, fmap_app, app_assoc.
Qed.

Lemma tells_silently {A B} (m : M S A) (k : A -> M S B) t a b : tells m t a -> tells (k a) [] b -> tells (m ≫= k) t b.
Proof. rewrite <- (app_nil_r t) at 2. apply tells_bind. Qed.

(** Output that says that memory stays. *)
Definition output_at (m : mem) : Output S.
Proof.
  refine {| putchar := putchar; out := out; sent := sent (S := S); ready := fun s => ready s /\ host_mem s = m |}.
  intros c s [Hs Hm]. destruct (putchar_spec c s Hs) as (s' & E & Hs' & Ho). exists s'.
  split; [done|]. split; [|done]. split; [done|]. by rewrite (putchar_mem c s s' Hs E).
Defined.

Lemma tells_vprintf items : Forall valid_item items ->
  tells (vprintf (concat (item_format <$> items)) (concat (item_args <$> items))) (shown items) 0.
Proof.
  intros Hv s Hs. destruct (@vprintf_emits S (output_at (host_mem s)) items s Hv (conj Hs eq_refl)) as (s' & E & [Hs' Hm] & Ho).
  exists s'. done.
Qed.

Lemma tells_say fmt args items : concat (item_format <$> items) = str fmt -> concat (item_args <$> items) = args ->
  forallb valid_b items = true -> tells (say fmt args) (shown items) tt.
Proof.
  intros Hf <- Hv%valid_b_spec. unfold say, printf. rewrite <- Hf.
  eapply tells_silently; [|apply tells_ret]. eapply tells_silently; [by apply tells_vprintf|apply tells_ret].
Qed.

Lemma tells_then {A B} (m : M S A) (k : A -> M S B) i1 i2 a b :
  tells m (shown i1) a -> tells (k a) (shown i2) b -> tells (m ≫= k) (shown (i1 ++ i2)) b.
Proof. rewrite shown_app. apply tells_bind. Qed.

(** Reading a register prints nothing. *)
Lemma tells_mrs {A} r (k : Z -> M S A) s : ready s -> exists v s1,
  (mrs r ≫= k) s = k v s1 /\ 0 <= v < 2 ^ 64 /\ ready s1 /\ out s1 = out s /\ host_mem s1 = host_mem s.
Proof.
  intros Hs. destruct (mrs_spec r s Hs) as (v & s1 & E & Hv & Hs1 & Ho & Hm). exists v, s1.
  by rewrite (bind_Ok _ _ _ _ _ E).
Qed.
(** A value that costs no output. *)
Lemma tells_first {A B} (m : M S A) (k : A -> M S B) t a b : tells m [] a -> tells (k a) t b -> tells (m ≫= k) t b.
Proof. exact (tells_bind m k [] t a b). Qed.

Lemma tells_res {A} (m : M S A) t a s : tells m t a -> ready s -> exists s', m s = Ok a s' /\ ready s' /\ host_mem s' = host_mem s.
Proof. intros Hm Hs. destruct (Hm s Hs) as (s' & E & Hs' & _ & Hmem). by exists s'. Qed.


End Tells.


(** One printf of the report, and what follows it. *)
Ltac say := apply tells_say; reflexivity.
Ltac say_then := eapply tells_then; [say|].
