(* ===== verification/ConsoleHost.v ===== *)
(** The console and its UART under the exception report: the instance of [Host]. *)
From Stdlib Require Import ZArith Lia.
From stdpp Require Import base gmap list strings.
From S2P Require Import Prelude Mem Printf Io IoProof GicRegs Gic Console ConsoleProof Host.

Open Scope Z_scope.

Section Host.
Context {D : Type} `{Hardware D} `{Config}.

(** Output works and the UART sends its queue empty whenever it is asked. *)
Definition host_ready (s : platform D) : Prop :=
  uart_ready s /\ forall d : D, flag_settles patience (PL011_BASE_ADDR + PL011_FR) PL011_FR_TXFE false d.

#[refine] Instance host_uart : Output (platform D) := {
  putchar := fun c => _ ← console_putchar c; mret tt;
  out := uart_text;
  sent := fun c => u32 c;
  ready := host_ready;
  putchar_spec := _ }.
Proof.
  intros c s [Hs Hf]. destruct (putchar_runs c s Hs) as (s' & E & Hs' & Ho & _). exists s'.
  split; [by mstep E|]. split; [by split|done].
Defined.

(** What sends nothing keeps the UART ready and its text. *)
Lemma uart_quiet s s' l : host_ready s -> trace (mio s') = trace (mio s) ++ l -> same_platform s s' ->
  Forall (fun e => uart_byte e = None) l -> host_ready s' /\ uart_text s' = uart_text s /\ mmem s' = mmem s.
Proof.
  intros [[(k & Hk & Hrest) Hb Hp Hd] Hf] Ht (Hm & Hc & Hb') Hl. split; [split; [|done]|split; [|done]].
  - split; [exists k; by rewrite Hc|by rewrite Hb'| |done]. rewrite Ht. by apply paced_app.
  - unfold uart_text. rewrite Ht, omap_app. replace (omap uart_byte l) with (@nil Z); [by rewrite app_nil_r|].
    clear Ht. induction Hl as [|e l He _ IH]; [done|]. cbn. by rewrite He.
Qed.

Lemma platform_mrs r (s : platform D) : host_ready s -> exists v s',
  on_io (read_sysreg r) s = Ok v s' /\ 0 <= v < 2 ^ 64 /\ host_ready s' /\ uart_text s' = uart_text s /\ mmem s' = mmem s.
Proof.
  intros Hs. eexists _, _. split; [reflexivity|]. split; [apply wrap_range; lia|].
  eapply uart_quiet; [exact Hs|reflexivity|done|]. by repeat constructor.
Qed.

Lemma platform_flush (s : platform D) : host_ready s -> exists r s',
  fflush s = Ok r s' /\ host_ready s' /\ uart_text s' = uart_text s /\ mmem s' = mmem s.
Proof.
  intros Hs. pose proof Hs as [[(k & Hk & He & Ho) Hb Hp Hd] Hf].
  destruct (runs_flag_wait patience PL011_FR_TXFE false s) as (s1 & vs & v & [R T] & _ & S1); [rewrite Hb; apply Hf|].
  exists 0, s1. split.
  - unfold fflush, console_flush_all. rewrite bind_assoc, bind_gets, Hk. cbn [length all_loop].
    rewrite bind_assoc. rewrite (bind_Ok _ _ s k s) by (apply get_console_run; by rewrite Hk).
    rewrite He. unfold method. rewrite (proj2 (Z.eqb_neq _ _) Ho). cbn [truth Z.eqb negb table_at program_drivers op_flush s_pl011_ops].
    rewrite bind_assoc. unfold pl011_flush. rewrite bind_assoc. mstep R. done.
  - eapply uart_quiet; [done|exact T|done|]. apply Forall_fmap, Forall_true. done.
Qed.

#[export, refine] Instance uart_host : Host (platform D) := {
  host_output := host_uart;
  host_mem := mmem;
  mrs := fun r => on_io (read_sysreg r);
  host_flush := fflush;
  putchar_mem := _; mrs_spec := _; flush_spec := _ }.
Proof.
  - intros c s s' [Hs _] E. destruct (putchar_runs c s Hs) as (s1 & E1 & _ & _ & Hm). cbn in E.
    rewrite (bind_Ok _ _ _ _ _ E1) in E. apply Ok_inj in E as [_ <-]. exact Hm.
  - exact platform_mrs.
  - exact platform_flush.
Defined.
End Host.

(** * A concrete machine

    A UART that is never full and always empty, on a CPU that took a data abort; [m] is its
    memory. *)
Inductive desk := Desk.
#[export] Instance desk_hardware : Hardware desk := {
  mmio_read := fun _ _ d => (0x80, d); mmio_write := fun _ _ _ d => d;
  sys_read := fun r d => (if decide (r = "ESR_EL2"%string) then 0x96000061 else 0, d); sys_write := fun _ _ d => d }.
#[export] Instance desk_config : Config := {| NR_CPU := 1; HZ := 250; patience := 0 |}.

Definition desk_start (m : Mem.mem) : platform desk :=
  {| mio := {| dev := Desk; trace := [] |}; mmem := m;
     consoles := set_enabled true <$> program_consoles 0 0x2000; g_pl011_base_addr := PL011_BASE_ADDR |}.

Lemma desk_ready m : host_ready (desk_start m).
Proof.
  split; [|intros []; left; reflexivity]. split; [by eexists|done| |intros []; left; reflexivity].
  intros [|] ? ? [=].
Qed.
