(* ===== verification/Stress.v ===== *)
(** The heap under test: unittest/miniheap_stress_test.c with the generator of
    src/libc/rand.c and [dump_miniheap], on any machine that satisfies [Host].

    The heap has its memory and the machine its own; the test's pointers, sizes and patterns
    are in [g_slots]. *)
From Stdlib Require Import ZArith Lia.
From stdpp Require Import base gmap list strings.
From S2P Require Import Prelude Mem Miniheap Printf Host.

Open Scope Z_scope.

(** * State *)

Definition STRESS_SLOTS : Z := 128.
Definition STRESS_ITERATIONS : Z := 20000.
Definition STRESS_MAX_ALLOC : Z := 512.

(** [stress_slot_t] *)
Record stress_slot := Slot { s_ptr : Z; s_size : Z; s_pattern : Z }.
Definition unused_slot : stress_slot := Slot 0 0 0.

(** The four counters of the test. *)
Inductive tally := AllocOk | AllocFail | FreeOk | VerifyOk.

#[global] Instance tally_eq_dec : EqDecision tally.
Proof. solve_decision. Defined.

(** The increment of one counter, a uint32_t. *)
Definition bump (ts : tally -> Z) (t : tally) : tally -> Z :=
  fun t' => if decide (t' = t) then u32 (ts t + 1) else ts t'.

(** [seed] is the [next] of rand.c. *)
Record bench (S : Type) := Bench {
  machine : S; heap : heap_state; seed : Z; g_slots : list stress_slot; tallies : tally -> Z }.
Arguments Bench {S} _ _ _ _ _.
Arguments machine {S} _. Arguments heap {S} _. Arguments seed {S} _.
Arguments g_slots {S} _. Arguments tallies {S} _.

Section Stress.
Context {S : Type} `{Host S}.

Definition on_machine {A} (m : M S A) : M (bench S) A :=
  zoom machine (fun b s => Bench s (heap b) (seed b) (g_slots b) (tallies b)) m.
Definition on_heap {A} (m : M heap_state A) : M (bench S) A :=
  zoom heap (fun b h => Bench (machine b) h (seed b) (g_slots b) (tallies b)) m.

Definition print (fmt : string) (args : list arg) : M (bench S) unit := on_machine (say fmt args).

(** * rand.c *)

Definition rand : M (bench S) Z := fun b =>
  let n := u64 (u64 (u64 (seed b * 0x1234) + 12345) * seed b) in
  Ok (u32 (n / 65536) mod 32768) (Bench (machine b) (heap b) n (g_slots b) (tallies b)).

Definition srand (n : Z) : M (bench S) unit :=
  modify (fun b => Bench (machine b) (heap b) (u32 n) (g_slots b) (tallies b)).

(** * dump_miniheap *)

Fixpoint dump_loop (fuel : nat) (i cur : Z) : M (bench S) unit :=
  match fuel with
  | O => stop_with Spin
  | Datatypes.S fuel' =>
      if negb (truth cur) then mret tt else
      csize ← on_heap (hld 4 (fb_size cur));
      print (ln "Free block[%d]: addr = %p, size = %u") [AInt i; AInt cur; AInt csize] ;;
      cnext ← on_heap (hld 8 (fb_next cur));
      dump_loop fuel' (u32 (i + 1)) cnext
  end.

Definition dump_miniheap : M (bench S) unit :=
  h ← gets (fun b => hp (heap b));
  print (ln "Miniheap dump: base = %p, size = %u, free = %u") [AInt (hp_base h); AInt (hp_size h); AInt (hp_free_bytes h)] ;;
  fuel ← gets (fun b => walk_fuel (heap b));
  dump_loop fuel 0 (hp_free_list h).

(** * Patterns *)

(** The loops of fill_pattern and verify_pattern: [n] bytes are left, from index [i] on. *)
Fixpoint fill_bytes (n : nat) (i ptr pattern : Z) : M heap_state unit :=
  match n with
  | O => mret tt
  | Datatypes.S n' => hst 1 (ptr + i) pattern ;; fill_bytes n' (i + 1) ptr pattern
  end.

Definition fill_pattern (ptr size pattern : Z) : M heap_state unit := fill_bytes (Z.to_nat size) 0 ptr pattern.

Fixpoint verify_bytes (n : nat) (i ptr pattern : Z) : M heap_state Z :=
  match n with
  | O => mret 0
  | Datatypes.S n' =>
      byte ← hld 1 (ptr + i);
      if negb (byte =? pattern) then mret (-1) else verify_bytes n' (i + 1) ptr pattern
  end.

Definition verify_pattern (ptr size pattern : Z) : M heap_state Z := verify_bytes (Z.to_nat size) 0 ptr pattern.

(** * Slots *)

Definition get_slot (i : Z) : M (bench S) stress_slot := fun b =>
  match g_slots b !! Z.to_nat i with Some s => Ok s b | None => Stop (Undef "g_slots") b end.
Definition put_slot (i : Z) (s : stress_slot) : M (bench S) unit :=
  modify (fun b => Bench (machine b) (heap b) (seed b) (<[Z.to_nat i := s]> (g_slots b)) (tallies b)).
Definition count (t : tally) : M (bench S) unit :=
  modify (fun b => Bench (machine b) (heap b) (seed b) (g_slots b) (bump (tallies b) t)).

(** [n] of the [STRESS_SLOTS] slots are left to look at. *)
Fixpoint find_loop (n : nat) (i start : Z) (find_used : bool) : M (bench S) Z :=
  match n with
  | O => mret (-1)
  | Datatypes.S n' =>
      let idx := u32 (start + i) mod STRESS_SLOTS in
      s ← get_slot idx;
      let used := truth (s_ptr s) in
      if (find_used && used) || (negb find_used && negb used) then mret idx
      else find_loop n' (i + 1) start find_used
  end.

Definition find_slot (find_used : bool) : M (bench S) Z :=
  r ← rand;
  find_loop (Z.to_nat STRESS_SLOTS) 0 (r mod STRESS_SLOTS) find_used.

(** The check of a slot's pattern, and the check with the release of the slot. *)
Definition verify_slot (why : string) (slot : Z) : M (bench S) unit :=
  s ← get_slot slot;
  r ← on_heap (verify_pattern (s_ptr s) (s_size s) (s_pattern s));
  (if truth r then panic why else mret tt) ;;
  count VerifyOk.

Definition release_slot (why : string) (slot : Z) : M (bench S) unit :=
  verify_slot why slot ;;
  s ← get_slot slot;
  on_heap (free (s_ptr s)) ;;
  put_slot slot unused_slot ;;
  count FreeOk.

Definition alloc_slot (iter slot : Z) : M (bench S) unit :=
  r ← rand;
  let size := u32 (r mod STRESS_MAX_ALLOC + 1) in
  let pattern := u8 (Z.land (u32 (iter + slot)) 0x7F + 1) in
  ptr ← on_heap (malloc size);
  if ptr =? 0 then count AllocFail
  else on_heap (fill_pattern ptr size pattern) ;; put_slot slot (Slot ptr size pattern) ;; count AllocOk.

(** * The test *)

Definition alloc_phase (iter : Z) : M (bench S) unit :=
  slot ← find_slot false;
  slot ← (if slot <? 0 then
            slot ← find_slot true;
            when (0 <=? slot) (release_slot "miniheap stress: data corrupted before forced free" slot) ;;
            mret slot
          else mret slot);
  when (0 <=? slot) (alloc_slot iter slot).

Definition free_phase : M (bench S) unit :=
  slot ← find_slot true;
  when (0 <=? slot) (release_slot "miniheap stress: data corrupted before free" slot).

Definition periodic_check : M (bench S) unit :=
  slot ← find_slot true;
  when (0 <=? slot) (verify_slot "miniheap stress: periodic verify failed" slot) ;;
  h ← gets (fun b => hp (heap b));
  if hp_size h <? hp_free_bytes h then panic "miniheap stress: invalid free_bytes" else mret tt.

Definition stress_iteration (iter : Z) : M (bench S) unit :=
  r ← rand;
  (if r mod 100 <? 65 then alloc_phase iter else free_phase) ;;
  when (iter mod 256 =? 0) periodic_check.

(** [n] iterations are left. *)
Fixpoint stress_loop (n : nat) (iter : Z) : M (bench S) unit :=
  match n with
  | O => mret tt
  | Datatypes.S n' => stress_iteration iter ;; stress_loop n' (iter + 1)
  end.

Fixpoint cleanup_loop (n : nat) (i : Z) : M (bench S) unit :=
  match n with
  | O => mret tt
  | Datatypes.S n' =>
      s ← get_slot i;
      when (truth (s_ptr s)) (release_slot "miniheap stress: data corrupted in cleanup" i) ;;
      cleanup_loop n' (i + 1)
  end.

Fixpoint clear_loop (n : nat) (i : Z) : M (bench S) unit :=
  match n with
  | O => mret tt
  | Datatypes.S n' => put_slot i unused_slot ;; clear_loop n' (i + 1)
  end.

(** The check at the end of the test. *)
Definition final_check : M (bench S) unit :=
  h ← gets (fun b => hp (heap b));
  if negb (hp_free_bytes h =? hp_size h) then
    print (ln "heap final state mismatch: size=%u free=%u") [AInt (u32 (hp_size h)); AInt (u32 (hp_free_bytes h))] ;;
    dump_miniheap ;;
    panic "miniheap stress: heap bytes not fully recovered"
  else mret tt.

Definition miniheap_reliability_stress_test : M (bench S) unit :=
  modify (fun b => Bench (machine b) (heap b) (seed b) (g_slots b) (fun _ => 0)) ;;
  clear_loop (Z.to_nat STRESS_SLOTS) 0 ;;
  t ← on_machine (mrs "CNTVCT_EL0");
  srand (Z.lxor t 0xA5A55A5A) ;;
  print (ln "===== miniheap reliability stress test start =====") [] ;;
  h ← gets (fun b => hp (heap b));
  print (ln "heap size=%u free=%u slots=%u loops=%u")
    [AInt (u32 (hp_size h)); AInt (u32 (hp_free_bytes h)); AInt STRESS_SLOTS; AInt STRESS_ITERATIONS] ;;
  stress_loop (Z.to_nat STRESS_ITERATIONS) 0 ;;
  cleanup_loop (Z.to_nat STRESS_SLOTS) 0 ;;
  final_check ;;
  t ← gets tallies;
  print (ln "miniheap stress PASS: alloc_ok=%u alloc_fail=%u free_ok=%u verify_ok=%u")
    [AInt (t AllocOk); AInt (t AllocFail); AInt (t FreeOk); AInt (t VerifyOk)] ;;
  dump_miniheap ;;
  print (ln "===== miniheap reliability stress test end =====") [].
End Stress.
