(* ===== verification/StressProof.v ===== *)
(** The operations of the stress test keep the slots, their patterns and the heap in step:
    weakest preconditions for programs that return, the pattern loops, and one rule per
    operation. *)
From Stdlib Require Import ZArith Lia.
From stdpp Require Import base gmap list strings.
From S2P Require Import Prelude Mem HeapSpec Miniheap HeapProof HeapClient Printf PrintfProof Host HostProof Stress.

Open Scope Z_scope.

(** * Weakest preconditions *)

(** From [s] the program returns, in a state and with a value that satisfy [Q]. *)
Definition wp {T A} (m : M T A) (Q : A -> T -> Prop) (s : T) : Prop :=
  match m s with Ok a s' => Q a s' | Stop _ _ => False end.

Section Wp.
Context {T : Type}.

Lemma wp_bind {A B} (m : M T A) (k : A -> M T B) Q s : wp m (fun a => wp (k a) Q) s -> wp (m ≫= k) Q s.
Proof. unfold wp, mbind, M_bind. by destruct (m s). Qed.

Lemma wp_mono {A} (m : M T A) (P Q : A -> T -> Prop) s : wp m P s -> (forall a s', P a s' -> Q a s') -> wp m Q s.
Proof. unfold wp. destruct (m s); [|done]. auto. Qed.

(** Sequencing with the specification of the first program. *)
Lemma wp_seq {A B} (m : M T A) (k : A -> M T B) P Q s :
  wp m P s -> (forall a s', P a s' -> wp (k a) Q s') -> wp (m ≫= k) Q s.
Proof. intros Hm Hk. apply wp_bind. by eapply wp_mono. Qed.

Lemma wp_ret {A} (a : A) (Q : A -> T -> Prop) s : Q a s -> wp (mret a) Q s.
Proof. done. Qed.

Lemma wp_Ok {A} (m : M T A) Q s a s' : m s = Ok a s' -> Q a s' -> wp m Q s.
Proof. unfold wp. by intros ->. Qed.

Lemma wp_returns {A} (m : M T A) Q s : wp m Q s -> exists a s', m s = Ok a s' /\ Q a s'.
Proof. unfold wp. destruct (m s) as [a s'|]; [|done]. by exists a, s'. Qed.

Lemma wp_when (b : bool) (m : M T unit) Q s : (b = true -> wp m Q s) -> (b = false -> Q tt s) -> wp (when b m) Q s.
Proof. destruct b; cbn; auto. Qed.

Lemma wp_gets {A B} (f : T -> A) (k : A -> M T B) Q s : wp (k (f s)) Q s -> wp (gets f ≫= k) Q s.
Proof. done. Qed.

Lemma wp_modify (f : T -> T) (Q : unit -> T -> Prop) s : Q tt (f s) -> wp (modify f) Q s.
Proof. done. Qed.

(** A program on a component. *)
Lemma wp_zoom {S A} view (upd : T -> S -> T) (m : M S A) (Q : A -> T -> Prop) s :
  wp m (fun a x => Q a (upd s x)) (view s) -> wp (zoom view upd m) Q s.
Proof. unfold wp, zoom. by destruct (m (view s)). Qed.
End Wp.

(** * Patterns in memory *)

(** Bytes [i .. k-1] from [p] on are [v]. *)
Definition bytes_are (m : mem) (p i k v : Z) : Prop := forall j, i <= j < k -> m !! (p + j) = Some (byte_of_Z v).

Lemma live_mapped b0 sz h live p n : client_inv b0 sz (Client h live) -> live !! p = Some n -> mapped (hmem h) p n.
Proof.
  intros Hi Hp. destruct (client_inv_region _ _ _ _ _ Hi Hp) as (? & ? & ? & _). destruct Hi as (bs & R & Ht & _).
  eapply mapped_sub; [exact (l_mapped _ _ _ (r_layout _ _ _ R))|lia|simpl in Ht; lia].
Qed.

(** Writing a pattern over a live region keeps the heap and every other address. *)
Lemma fill_bytes_spec b0 sz live p n v k : forall i h,
  client_inv b0 sz (Client h live) -> live !! p = Some n -> 0 <= i -> i + Z.of_nat k <= n -> bytes_are (hmem h) p 0 i v ->
  exists h', fill_bytes k i p v h = Ok tt h' /\ client_inv b0 sz (Client h' live) /\
    same_outside (hmem h) (hmem h') p n /\ bytes_are (hmem h') p 0 (i + Z.of_nat k) v.
Proof.
  induction k as [|k IH]; intros i h Hi Hp H0 Hn Hb.
  { exists h. split; [done|]. split; [done|]. split; [apply same_outside_refl|]. by rewrite Z.add_0_r. }
  rewrite Nat2Z.inj_succ in Hn.
  destruct (mstore_ok 1 (p + i) v (hmem h)) as (m' & E & Hl & Ho & Hd).
  { eapply mapped_sub; [by eapply live_mapped|lia|lia]. }
  destruct (IH (i + 1) (set_hmem h m')) as (h' & E' & Hi' & Ho' & Hb'); try done; try lia.
  - eapply client_step_inv; [exact Hi|]. eapply (client_write (Client h live) p n i v); [done|lia|exact E].
  - intros j Hj. cbn. destruct (decide (j = i)) as [->|Hne].
    + unfold mload in Hl. cbn in Hl. destruct (m' !! (p + i)) as [b|]; [|done]. cbn in Hl.
      apply (inj Some) in Hl. f_equal. apply byte_to_Z_inj. rewrite byte_to_of_Z. rewrite Z.add_0_r in Hl. exact Hl.
    + rewrite (Ho (p + j)) by lia. apply Hb. lia.
  - exists h'. split; [|split; [done|split]].
    + cbn [fill_bytes]. unfold hst. rewrite (bind_Ok _ _ _ _ _ (store_Some _ _ _ _ _ _ _ E)). exact E'.
    + eapply same_outside_trans; [|exact Ho']. eapply same_outside_weaken; [exact Ho|lia|lia].
    + intros j Hj. apply Hb'. lia.
Qed.

Lemma verify_bytes_spec p v k : forall i h, 0 <= v < 256 -> bytes_are (hmem h) p i (i + Z.of_nat k) v ->
  verify_bytes k i p v h = Ok 0 h.
Proof.
  induction k as [|k IH]; intros i h Hv Hb; [done|]. cbn [verify_bytes].
  assert (mload 1 (p + i) (hmem h) = Some v) as Hl.
  { unfold mload. rewrite (Hb i) by lia. cbn. f_equal. rewrite byte_to_of_Z, Z.mod_small by lia. lia. }
  rewrite (bind_Ok _ _ _ _ _ (load_Some _ _ _ _ _ Hl)), Z.eqb_refl. cbn. apply IH; [done|].
  intros j Hj. apply Hb. lia.
Qed.

(** * The invariant of the test *)

(** A slot in use: its pointer is live with its size, and the pattern is there. *)
Definition holds (m : mem) (s : stress_slot) : Prop :=
  0 <= s_pattern s < 256 /\ bytes_are m (s_ptr s) 0 (s_size s) (s_pattern s).

(** Slots in use and live pointers are in bijection, and the counters agree with them. *)
Record consistent (b0 sz : Z) (live : gmap Z Z) (h : heap_state) (gs : list stress_slot) (ts : tally -> Z) : Prop := {
  k_heap : client_inv b0 sz (Client h live);
  k_len : length gs = Z.to_nat STRESS_SLOTS;
  k_used : forall i s, gs !! i = Some s -> s_ptr s <> 0 -> live !! s_ptr s = Some (s_size s) /\ holds (hmem h) s;
  k_once : forall i j s t, gs !! i = Some s -> gs !! j = Some t -> s_ptr s <> 0 -> s_ptr s = s_ptr t -> i = j;
  k_cover : forall p n, live !! p = Some n -> exists i s, gs !! i = Some s /\ s_ptr s = p;
  k_tally : ts AllocOk = u32 (ts FreeOk + Z.of_nat (size live));
  k_range : 0 <= ts FreeOk < 2 ^ 32 }.

Lemma client_pos b0 sz h live p n : client_inv b0 sz (Client h live) -> live !! p = Some n -> 0 < p /\ 0 < n.
Proof.
  intros Hi Hp. destruct (client_inv_region _ _ _ _ _ Hi Hp) as (? & ? & _). destruct Hi as (bs & R & _).
  pose proof (l_pos _ _ _ (r_layout _ _ _ R)). lia.
Qed.

Lemma holds_region m m' s : region_same m m' (s_ptr s) (s_size s) -> holds m s -> holds m' s.
Proof. intros Hr [Hp Hb]. split; [done|]. intros j Hj. rewrite (Hr j Hj). by apply Hb. Qed.

Lemma bump_same ts t : bump ts t t = u32 (ts t + 1).
Proof. unfold bump. by rewrite decide_True. Qed.
Lemma bump_other ts t t' : t' <> t -> bump ts t t' = ts t'.
Proof. intros. unfold bump. by rewrite decide_False. Qed.

Section Consistent.
Context (b0 sz : Z).
#[local] Abbreviation consistent := (consistent b0 sz).

(** The counters of failures and checks are free. *)
Lemma consistent_bump live h gs ts t : t = AllocFail \/ t = VerifyOk ->
  consistent live h gs ts -> consistent live h gs (bump ts t).
Proof. intros Ht [? ? ? ? ? Hc Hr]. split; try done; destruct Ht as [-> | ->]; assumption. Qed.

(** Releasing a slot in use. *)
Lemma consistent_free live h gs ts i s : consistent live h gs ts -> gs !! i = Some s -> s_ptr s <> 0 ->
  exists h', free (s_ptr s) h = Ok tt h' /\
    consistent (delete (s_ptr s) live) h' (<[i := unused_slot]> gs) (bump ts FreeOk).
Proof.
  intros [Hh Hl Hu Ho Hc Ht Hr] Hi Hne. destruct (Hu i s Hi Hne) as [Hp _].
  destruct (free_inv b0 sz (Client h live) _ _ Hh Hp) as (h' & E & Hh'). exists h'. split; [done|].
  assert (forall j t, <[i := unused_slot]> gs !! j = Some t -> s_ptr t <> 0 -> gs !! j = Some t /\ s_ptr t <> s_ptr s) as Hin.
  { intros j t Hj Hnt. destruct (decide (i = j)) as [<- | Hij].
    - rewrite list_lookup_insert_eq in Hj by (by eapply lookup_lt_Some). by simplify_eq.
    - rewrite list_lookup_insert_ne in Hj by done. split; [done|]. intros He. by destruct Hij; eapply Ho. }
  split; [done|by rewrite length_insert| | | | |].
  - intros j t Hj Hnt. destruct (Hin j t Hj Hnt) as [Hj' Hd]. destruct (Hu j t Hj' Hnt) as [Hq Hb].
    rewrite lookup_delete_ne by congruence. split; [done|]. eapply holds_region; [|exact Hb].
    exact (free_keeps b0 sz (Client h live) _ _ h' _ _ Hh Hp E Hq Hd).
  - intros j k t u Hj Hk Hnt He. destruct (Hin j t Hj Hnt), (Hin k u Hk) as [? _]; [congruence|]. by eapply Ho.
  - intros p n. destruct (decide (s_ptr s = p)) as [<- | Hd]; [by rewrite lookup_delete_eq|].
    rewrite lookup_delete_ne by done. intros (j & t & Hj & He)%Hc. exists j, t. split; [|done].
    rewrite list_lookup_insert_ne; [done|]. intros ->. by simplify_eq.
  - rewrite bump_same, bump_other by done. rewrite map_size_delete_Some, Ht by (by eexists). unfold wrap. rewrite Zplus_mod_idemp_l. f_equal.
    assert (size live <> 0%nat) by (apply (map_size_ne_0_lookup_2 live (s_ptr s)); by eexists). lia.
  - rewrite bump_same. apply wrap_range. lia.
Qed.

(** Allocating into a slot that is not in use: NULL, or a fresh region with the pattern. *)
Lemma consistent_alloc live h gs ts i s n v : consistent live h gs ts -> gs !! i = Some s -> s_ptr s = 0 ->
  0 < n <= MAX_REQUEST -> 0 <= v < 256 ->
  exists p h1, malloc n h = Ok p h1 /\
    (p = 0 /\ consistent live h1 gs ts \/
     p <> 0 /\ exists h2, fill_pattern p n v h1 = Ok tt h2 /\
       consistent (<[p := n]> live) h2 (<[i := Slot p n v]> gs) (bump ts AllocOk)).
Proof.
  intros [Hh Hl Hu Ho Hc Ht Hr] Hi Hz Hn Hv.
  destruct (malloc_inv b0 sz (Client h live) n Hh ltac:(lia)) as (p & h1 & E & Hh1 & Hd). exists p, h1. split; [exact E|].
  assert (forall q k, live !! q = Some k -> region_same (hmem h) (hmem h1) q k) as Hk
    by (intros q k Hq; exact (malloc_keeps b0 sz (Client h live) n p h1 q k Hh ltac:(lia) E Hq)).
  cbn [c_live] in Hh1, Hd. destruct (Z.eqb_spec p 0) as [Hp | Hp].
  { left. split; [done|]. split; try done. intros j t Hj Hnt. destruct (Hu j t Hj Hnt) as [Hq Hb].
    split; [done|]. eapply holds_region; [by apply Hk|exact Hb]. }
  right. split; [done|]. destruct Hd as [? | [_ Hd]]; [done|].
  destruct (fill_bytes_spec b0 sz (<[p := n]> live) p n v (Z.to_nat n) 0 h1) as (h2 & E2 & Hh2 & Hf & Hb2);
    [done|by rewrite lookup_insert_eq|lia|lia|intros j Hj; lia|].
  exists h2. split; [exact E2|].
  assert (live !! p = None) as Hfresh.
  { destruct (live !! p) as [k|] eqn:Hq; [|done]. destruct (client_pos _ _ _ _ _ _ Hh Hq). specialize (Hd p k Hq). lia. }
  assert (forall j t, <[i := Slot p n v]> gs !! j = Some t ->
    j = i /\ t = Slot p n v \/ j <> i /\ gs !! j = Some t /\ s_ptr t <> p) as Hin.
  { intros j t Hj. destruct (decide (j = i)) as [-> | Hij].
    - rewrite list_lookup_insert_eq in Hj by (by eapply lookup_lt_Some). left. by simplify_eq.
    - rewrite list_lookup_insert_ne in Hj by done. right. split; [done|]. split; [done|]. intros He.
      destruct (Hu j t Hj ltac:(congruence)) as [Hq _]. congruence. }
  split; [done|by rewrite length_insert| | | | |].
  - intros j t Hj Hnt. destruct (Hin j t Hj) as [[-> ->] | (Hij & Hj' & Hpt)].
    + cbn. rewrite lookup_insert_eq. split; [done|]. split; [done|]. cbn.
      replace n with (0 + Z.of_nat (Z.to_nat n)) by lia. exact Hb2.
    + destruct (Hu j t Hj' Hnt) as [Hq Hb]. rewrite lookup_insert_ne by congruence. split; [done|].
      eapply holds_region; [|exact Hb]. intros m Hm. rewrite Hf; [exact (Hk _ _ Hq m Hm)|]. specialize (Hd _ _ Hq). lia.
  - intros j k t u Hj Hk' Hnt He. destruct (Hin j t Hj) as [[-> ->] | (? & ? & ?)], (Hin k u Hk') as [[-> ->] | (? & ? & ?)];
      first [done | cbn in *; congruence | by apply (Ho j k t u)].
  - intros q k. destruct (decide (p = q)) as [<- | Hq].
    + intros _. exists i, (Slot p n v). split; [|done]. apply list_lookup_insert_eq. by eapply lookup_lt_Some.
    + rewrite lookup_insert_ne by done. intros Hq2. destruct (Hc q k Hq2) as (j & t & Hj & He). exists j, t. split; [|done].
      rewrite list_lookup_insert_ne; [done|]. intros ->. simplify_eq. destruct (client_pos _ _ _ _ _ _ Hh Hq2). lia.
  - rewrite bump_same, bump_other by done. rewrite map_size_insert_None, Ht by exact Hfresh. unfold wrap. rewrite Zplus_mod_idemp_l. f_equal. lia.
  - by rewrite bump_other.
Qed.
End Consistent.

(** * One rule per operation *)

Section Rules.
Context {S : Type} `{Host S} (b0 sz : Z) (m : S).

(** The machine is as it was, and slots and heap agree. *)
Definition ok (b : bench S) : Prop :=
  machine b = m /\ exists live, consistent b0 sz live (heap b) (g_slots b) (tallies b).

(** A slot index, of a slot that is in use or not. *)
Definition slot_is (used : bool) (b : bench S) (i : Z) : Prop :=
  0 <= i < STRESS_SLOTS /\ exists s, g_slots b !! Z.to_nat i = Some s /\ truth (s_ptr s) = used.

Lemma wp_rand (b : bench S) Q : (forall r b', 0 <= r < 32768 -> g_slots b' = g_slots b -> (ok b -> ok b') -> Q r b') -> wp rand Q b.
Proof. intros HQ. unfold wp, rand. apply HQ; [apply Z.mod_pos_bound; lia|done|]. by intros [? ?]. Qed.

Lemma wp_get_slot (b : bench S) i Q : ok b -> 0 <= i < STRESS_SLOTS ->
  (forall s, g_slots b !! Z.to_nat i = Some s -> Q s b) -> wp (get_slot i) Q b.
Proof.
  intros (_ & live & C) Hi HQ. unfold wp, get_slot. destruct (g_slots b !! Z.to_nat i) as [s|] eqn:E; [by apply HQ|].
  apply lookup_ge_None in E. rewrite (k_len _ _ _ _ _ _ C) in E. unfold STRESS_SLOTS in *. lia.
Qed.

Lemma wp_find_loop (b : bench S) used start n : ok b -> forall i Q,
  Q (-1) b -> (forall r, slot_is used b r -> Q r b) -> wp (find_loop n i start used) Q b.
Proof.
  intros Hb. induction n as [|n IH]; intros i Q HN HQ; [done|]. cbn [find_loop].
  set (idx := u32 (start + i) mod STRESS_SLOTS).
  assert (0 <= idx < STRESS_SLOTS) as Hidx by (apply Z.mod_pos_bound; done).
  apply wp_bind, wp_get_slot; [done|done|]. intros s Hs.
  destruct used, (truth (s_ptr s)) eqn:Hp; cbn [andb orb negb]; try (by apply IH);
    apply HQ; (split; [done|]); by exists s.
Qed.

Lemma wp_find_slot (b : bench S) used Q : ok b ->
  (forall r b', ok b' -> r = -1 \/ slot_is used b' r -> Q r b') -> wp (find_slot used) Q b.
Proof.
  intros Hb HQ. apply wp_bind, wp_rand. intros r b' Hr Hg Hok. specialize (Hok Hb).
  apply wp_find_loop; [done| |]; intros; apply HQ; auto.
Qed.

Lemma wp_verify_slot (b : bench S) why i : ok b -> slot_is true b i ->
  wp (verify_slot why i) (fun _ b' => ok b' /\ g_slots b' = g_slots b) b.
Proof.
  intros Hb [Hi (s & Hs & Hu%truth_true)]. pose proof Hb as (Hm & live & C).
  destruct (k_used _ _ _ _ _ _ C _ _ Hs Hu) as [Hp [Hv Hby]]. pose proof (client_pos _ _ _ _ _ _ (k_heap _ _ _ _ _ _ C) Hp).
  apply wp_bind, wp_get_slot; [done|done|]. intros s' Hs'. rewrite Hs in Hs'. apply (inj Some) in Hs' as <-.
  apply wp_bind, wp_zoom. eapply wp_Ok.
  { apply verify_bytes_spec; [done|]. replace (0 + _) with (s_size s) by lia. exact Hby. }
  cbn [truth Z.eqb negb]. split; [|done]. split; [done|]. exists live. apply consistent_bump; [by right|]. by destruct b.
Qed.

Lemma wp_release_slot (b : bench S) why i : ok b -> slot_is true b i ->
  wp (release_slot why i) (fun _ b' => ok b' /\ g_slots b' = <[Z.to_nat i := unused_slot]> (g_slots b)) b.
Proof.
  intros Hb Hi. eapply wp_seq; [by apply wp_verify_slot|]. intros _ b1 [Hb1 Hg]. rewrite <- Hg.
  destruct Hi as [Hi (s & Hs & Hu%truth_true)]. rewrite <- Hg in Hs. pose proof Hb1 as (Hm & live & C).
  apply wp_bind, wp_get_slot; [done|done|]. intros s' Hs'. rewrite Hs in Hs'. apply (inj Some) in Hs' as <-.
  destruct (consistent_free _ _ _ _ _ _ _ _ C Hs Hu) as (h' & E & C').
  apply wp_bind, wp_zoom. eapply wp_Ok; [exact E|]. split; [|done]. split; [done|]. by exists (delete (s_ptr s) live).
Qed.

Lemma wp_alloc_slot (b : bench S) iter i : ok b -> slot_is false b i -> wp (alloc_slot iter i) (fun _ => ok) b.
Proof.
  intros Hb [Hi (s & Hs & Hu)]. apply wp_bind, wp_rand. intros r b1 Hr Hg Hok. specialize (Hok Hb) as (Hm & live & C).
  rewrite <- Hg in Hs. assert (s_ptr s = 0) as Hz by (destruct (Z.eqb_spec (s_ptr s) 0); [done|]; by apply truth_true in n; congruence).
  set (n := u32 (r mod STRESS_MAX_ALLOC + 1)). set (v := u8 (Z.land (u32 (iter + i)) 0x7F + 1)).
  assert (0 < n <= MAX_REQUEST) as Hn.
  { pose proof (Z.mod_pos_bound r STRESS_MAX_ALLOC ltac:(done)). unfold n, STRESS_MAX_ALLOC, MAX_REQUEST in *.
    rewrite wrap_small; lia. }
  destruct (consistent_alloc b0 sz live _ _ _ _ s n v C Hs Hz Hn ltac:(apply (wrap_range 8); lia))
    as (p & h1 & E & [[-> C1] | (Hp & h2 & E2 & C2)]).
  - apply wp_bind, wp_zoom. eapply wp_Ok; [exact E|]. split; [done|]. exists live. by apply consistent_bump; [left|].
  - apply wp_bind, wp_zoom. eapply wp_Ok; [exact E|]. rewrite (proj2 (Z.eqb_neq _ _) Hp).
    apply wp_bind, wp_zoom. eapply wp_Ok; [exact E2|]. split; [done|]. by exists (<[p := n]> live).
Qed.

(** A slot just released is not in use. *)
Lemma released_slot (b b' : bench S) i : slot_is true b i -> g_slots b' = <[Z.to_nat i := unused_slot]> (g_slots b) -> slot_is false b' i.
Proof.
  intros [Hi (s & Hs & _)] Hg. split; [done|]. exists unused_slot. split; [|done]. rewrite Hg.
  apply list_lookup_insert_eq. by eapply lookup_lt_Some.
Qed.

(** A search result is an index exactly when a slot was found. *)
Lemma found_slot used (b : bench S) r : r = -1 \/ slot_is used b r -> (0 <=? r) = true -> slot_is used b r.
Proof. intros [-> | Hr]; [done|auto]. Qed.

Lemma wp_alloc_phase (b : bench S) iter : ok b -> wp (alloc_phase iter) (fun _ => ok) b.
Proof.
  intros Hb. apply wp_bind, wp_find_slot; [done|]. intros r b1 Hb1 Hr. apply wp_bind.
  assert (forall r b', ok b' -> (0 <=? r) = true -> slot_is false b' r -> wp (when (0 <=? r) (alloc_slot iter r)) (fun _ => ok) b') as Hend
    by (intros r' b' ? -> ?; by apply wp_alloc_slot).
  destruct Hr as [-> | Hr].
  - change (-1 <? 0) with true. cbn beta iota. apply wp_bind, wp_find_slot; [done|]. intros r b2 Hb2 Hr. apply wp_bind, wp_when; intros H0.
    + eapply found_slot in Hr; [|done]. eapply wp_mono; [by apply wp_release_slot|]. intros _ b3 [Hb3 Hg].
      apply Hend; [done|done|]. by eapply released_slot.
    + apply wp_ret, wp_when; [by rewrite H0|by intros _].
  - destruct Hr as [Hi Hs]. replace (r <? 0) with false by lia. apply wp_ret, Hend; [done|lia|done].
Qed.

Lemma wp_free_phase (b : bench S) : ok b -> wp free_phase (fun _ => ok) b.
Proof.
  intros Hb. apply wp_bind, wp_find_slot; [done|]. intros r b1 Hb1 Hr. apply wp_when; intros H0; [|done].
  eapply found_slot in Hr; [|done]. eapply wp_mono; [by apply wp_release_slot|]. by intros _ b2 [? _].
Qed.

(** The free bytes never exceed the size. *)
Lemma client_inv_free b0' sz' h live : client_inv b0' sz' (Client h live) -> hp_free_bytes (hp h) <= hp_size (hp h).
Proof.
  intros (bs & R & _ & _). cbn [c_heap] in R. rewrite (r_free _ _ _ R), (l_size _ _ _ (r_layout _ _ _ R)).
  apply free_total_bounds, (l_good _ _ _ (r_layout _ _ _ R)).
Qed.

Lemma wp_periodic_check (b : bench S) : ok b -> wp periodic_check (fun _ => ok) b.
Proof.
  intros Hb. apply wp_bind, wp_find_slot; [done|]. intros r b1 Hb1 Hr.
  apply wp_bind. eapply (wp_mono _ (fun _ => ok)).
  - apply wp_when; [intros H0|done]. eapply found_slot in Hr; [|done]. eapply wp_mono; [by apply wp_verify_slot|]. by intros _ b2 [? _].
  - intros _ b2 Hb2. pose proof Hb2 as (_ & live & C). pose proof (client_inv_free _ _ _ _ (k_heap _ _ _ _ _ _ C)).
    unfold wp. rewrite bind_gets. by replace (_ <? _) with false by lia.
Qed.

Lemma wp_stress_iteration (b : bench S) iter : ok b -> wp (stress_iteration iter) (fun _ => ok) b.
Proof.
  intros Hb. apply wp_bind, wp_rand. intros r b1 _ _ Hok. specialize (Hok Hb). eapply (wp_seq _ _ (fun _ => ok)).
  - destruct (_ <? _); [by apply wp_alloc_phase|by apply wp_free_phase].
  - intros _ b2 Hb2. apply wp_when; [intros _; by apply wp_periodic_check|done].
Qed.

Lemma wp_stress_loop n : forall (b : bench S) iter, ok b -> wp (stress_loop n iter) (fun _ => ok) b.
Proof.
  induction n as [|n IH]; intros b iter Hb; [done|]. eapply (wp_seq _ _ (fun _ => ok)); [by apply wp_stress_iteration|]. intros _ b' Hb'. by apply IH.
Qed.

(** The slots before [i] are not in use. *)
Definition clean_below (b : bench S) (i : Z) : Prop :=
  forall j s, (j < Z.to_nat i)%nat -> g_slots b !! j = Some s -> s_ptr s = 0.

Lemma wp_cleanup_loop n : forall (b : bench S) i, ok b -> 0 <= i -> i + Z.of_nat n = STRESS_SLOTS -> clean_below b i ->
  wp (cleanup_loop n i) (fun _ b' => ok b' /\ clean_below b' STRESS_SLOTS) b.
Proof.
  induction n as [|n IH]; intros b i Hb H0 Hn Hc; [split; [done|]; by replace STRESS_SLOTS with i by lia|].
  rewrite Nat2Z.inj_succ in Hn. assert (0 <= i < STRESS_SLOTS) as Hi by lia.
  apply wp_bind, wp_get_slot; [done|done|]. intros s Hs.
  eapply (wp_seq _ _ (fun _ b' => ok b' /\ clean_below b' (i + 1))).
  - apply wp_when; intros Hp.
    + eapply wp_mono; [apply wp_release_slot; [done|]; split; [done|by exists s]|]. intros _ b' [Hb' Hg]. split; [done|].
      intros j t Hj Ht. rewrite Hg in Ht. destruct (decide (j = Z.to_nat i)) as [-> | Hne].
      * rewrite list_lookup_insert_eq in Ht by (by eapply lookup_lt_Some). by simplify_eq.
      * rewrite list_lookup_insert_ne in Ht by done. eapply Hc; [|exact Ht]. lia.
    + split; [done|]. intros j t Hj Ht. destruct (decide (j = Z.to_nat i)) as [-> | Hne].
      * simplify_eq. unfold truth in Hp. apply negb_false_iff in Hp. lia.
      * eapply Hc; [|exact Ht]. lia.
  - intros _ b' [Hb' Hc']. apply IH; [done|lia|lia|done].
Qed.

Lemma wp_clear_loop n : forall (b : bench S) i, 0 <= i ->
  wp (clear_loop n i) (fun _ b' => machine b' = machine b /\ heap b' = heap b /\ tallies b' = tallies b /\
    length (g_slots b') = length (g_slots b) /\
    (forall j s, (Z.to_nat i <= j < Z.to_nat i + n)%nat -> g_slots b' !! j = Some s -> s = unused_slot) /\
    (forall j, (j < Z.to_nat i)%nat -> g_slots b' !! j = g_slots b !! j)) b.
Proof.
  induction n as [|n IH]; intros b i Hi; [split_and!; try done; intros; lia|].
  cbn [clear_loop]. unfold wp. unfold put_slot. rewrite bind_modify. eapply wp_mono; [apply IH; lia|]. cbn.
  intros _ b' (-> & -> & -> & Hl & Hu & Hb). rewrite length_insert in Hl. split_and!; try done.
  - intros j s Hj Hs. destruct (decide (j = Z.to_nat i)) as [-> | Hne]; [|apply (Hu j s); [lia|done]].
    rewrite Hb in Hs by lia. destruct (decide (Z.to_nat i < length (g_slots b))%nat) as [Hlt | Hge].
    + rewrite list_lookup_insert_eq in Hs by done. congruence.
    + apply lookup_lt_Some in Hs. rewrite length_insert in Hs. lia.
  - intros j Hj. rewrite Hb by lia. apply list_lookup_insert_ne. lia.
Qed.
End Rules.
