(* ===== verification/StressTheorems.v ===== *)
(** The stress test of the heap passes, on every machine and from every seed. *)
From Stdlib Require Import ZArith Lia.
From stdpp Require Import base gmap list strings.
From S2P Require Import Prelude Mem HeapSpec Miniheap HeapProof HeapClient HeapTheorems Printf PrintfProof Io GicRegs Console Host HostProof ConsoleHost Stress StressProof.

Open Scope Z_scope.

(** * What the test prints *)

Definition num (n : Z) : list item := [Num false false 0 CvU n].
Definition ptr (p : Z) : list item := [Ptr false false 0 p].

Definition dump_text (base size : Z) : list item :=
  line [lits "Miniheap dump: base = "; ptr base; lits ", size = "; num size; lits ", free = "; num size] ++
  line [lits "Free block["; [Num false false 0 CvD 0]; lits "]: addr = "; ptr base; lits ", size = "; num size].

Definition start_text (size : Z) : list item :=
  line [lits "===== miniheap reliability stress test start ====="] ++
  line [lits "heap size="; num size; lits " free="; num size; lits " slots="; num STRESS_SLOTS; lits " loops="; num STRESS_ITERATIONS].

Definition pass_text (base size : Z) (ts : tally -> Z) : list item :=
  line [lits "miniheap stress PASS: alloc_ok="; num (ts AllocOk); lits " alloc_fail="; num (ts AllocFail);
    lits " free_ok="; num (ts FreeOk); lits " verify_ok="; num (ts VerifyOk)] ++
  dump_text base size ++
  line [lits "===== miniheap reliability stress test end ====="].

Section Print.
Context {S : Type} `{Host S}.

(** [b'] is [b] after printing [t]. *)
Definition after (b : bench S) (t : list item) (b' : bench S) : Prop :=
  exists s, b' = Bench s (heap b) (seed b) (g_slots b) (tallies b) /\ ready s /\
    out s = out (machine b) ++ (sent (S := S) <$> shown t).

Lemma wp_print fmt args items (b : bench S) Q : ready (machine b) ->
  concat (item_format <$> items) = str fmt -> concat (item_args <$> items) = args -> forallb valid_b items = true ->
  (forall b', after b items b' -> Q tt b') -> wp (print fmt args) Q b.
Proof.
  intros Hr Hf Ha Hv HQ. destruct (tells_say fmt args items Hf Ha Hv (machine b) Hr) as (s & E & Hs & Ho & _).
  apply wp_zoom. eapply wp_Ok; [exact E|]. apply HQ. by exists s.
Qed.

Lemma after_trans b1 b2 b3 t u : after b1 t b2 -> after b2 u b3 -> after b1 (t ++ u) b3.
Proof.
  intros (s & -> & _ & Ho) (s' & -> & Hr & Ho'). exists s'. split; [done|]. split; [done|]. cbn in *.
  by rewrite Ho', Ho, shown_app, fmap_app, app_assoc.
Qed.

Lemma after_ready b t b' : after b t b' -> ready (machine b').
Proof. by intros (s & -> & ? & _). Qed.

(** Reading a register prints nothing. *)
Lemma wp_mrs r (b : bench S) Q : ready (machine b) -> (forall v b', after b [] b' -> Q v b') -> wp (on_machine (mrs r)) Q b.
Proof.
  intros Hr HQ. destruct (mrs_spec r (machine b) Hr) as (v & s & E & _ & Hs & Ho & _).
  apply wp_zoom. eapply wp_Ok; [exact E|]. apply HQ. exists s. split; [done|]. split; [done|]. by rewrite Ho, app_nil_r.
Qed.

Lemma wp_hld n a v (b : bench S) Q : mload n a (hmem (heap b)) = Some v -> Q v b -> wp (on_heap (hld n a)) Q b.
Proof. intros E HQ. apply wp_zoom. eapply wp_Ok; [by apply load_Some|]. by destruct b. Qed.

(** The dump of a heap that is one free block. *)
Lemma wp_dump base sz (b : bench S) Q : ready (machine b) -> repr base [Free sz] (heap b) ->
  (forall b', after b (dump_text base sz) b' -> Q tt b') -> wp dump_miniheap Q b.
Proof.
  intros Hr R HQ. pose proof (repr_one_free _ _ _ R) as (Hf & Hs & Hl & Ls & Ln).
  destruct (r_layout _ _ _ R) as [Hb _ _ _ Hpos _ Hsm Hg _ _]. apply good_sizes_cons in Hg as [[Hmod Hmin] _]. cbn in Hmod, Hmin.
  assert (truth base = true) as Ht by (apply truth_true; lia).
  assert (exists k, walk_fuel (heap b) = Datatypes.S (Datatypes.S k)) as [k Hk].
  { unfold walk_fuel. rewrite Hs. pose proof (Z.div_le_mono 16 sz 16 ltac:(lia) ltac:(lia)) as Hd.
    change (16 / 16) with 1 in Hd. destruct (Z.to_nat (sz / 16)) eqn:E; [lia|by eexists]. }
  apply wp_gets. rewrite Hb, Hs, Hf, Hl.
  apply wp_bind, (wp_print _ _ (line [lits "Miniheap dump: base = "; ptr base; lits ", size = "; num sz; lits ", free = "; num sz]));
    [exact Hr|reflexivity|reflexivity|reflexivity|]. intros b1 H1.
  pose proof (after_ready _ _ _ H1) as Hr1. pose proof H1 as (s1 & E1 & _).
  apply wp_gets. replace (walk_fuel (heap b1)) with (walk_fuel (heap b)) by (by rewrite E1). rewrite Hk. cbn [dump_loop]. rewrite Ht. cbn [negb].
  apply wp_bind, (wp_hld _ _ sz); [by rewrite E1|].
  apply wp_bind, (wp_print _ _ (line [lits "Free block["; [Num false false 0 CvD 0]; lits "]: addr = "; ptr base; lits ", size = "; num sz]));
    [exact Hr1|reflexivity|reflexivity|reflexivity|]. intros b2 H2.
  pose proof H2 as (s2 & E2 & _). apply wp_bind, (wp_hld _ _ 0); [by rewrite E2, E1|].
  apply wp_ret, HQ. by eapply after_trans.
Qed.

(** Once the slots are clean, nothing is live. *)
Lemma clean_nothing_live base sz live h gs ts : consistent base sz live h gs ts ->
  Forall (fun s => s_ptr s = 0) gs -> live = ∅.
Proof.
  intros C Hc. apply map_empty. intros p. destruct (live !! p) as [n|] eqn:E; [|done].
  destruct (k_cover _ _ _ _ _ _ C p n E) as (i & s & Hi & Hp).
  pose proof (proj1 (Forall_lookup _ _) Hc i s Hi) as Hz. destruct (client_pos _ _ _ _ _ _ (k_heap _ _ _ _ _ _ C) E). cbn in Hz. lia.
Qed.

(** The slots at the start: all cleared, nothing live. *)
Lemma cleared_consistent base sz h gs : repr base [Free sz] h -> length gs = Z.to_nat STRESS_SLOTS ->
  Forall (fun s => s = unused_slot) gs -> consistent base sz ∅ h gs (fun _ => 0).
Proof.
  intros R Hl Hu. assert (forall i s, gs !! i = Some s -> s_ptr s = 0) as Hz.
  { intros i s Hi. by rewrite (proj1 (Forall_lookup _ _) Hu i s Hi). }
  split; try done.
  - exists [Free sz]. split; [done|]. split; [cbn; lia|]. split; [|done]. intros p n. cbn. by rewrite lookup_empty.
  - intros i s Hi Hn. by destruct Hn; eapply Hz.
  - intros i j s t Hi _ Hn. by destruct Hn; eapply Hz.
Qed.

(** The last part of the test, on a heap with nothing live. *)
Lemma wp_finish base sz (b : bench S) Q : ready (machine b) -> repr base [Free sz] (heap b) ->
  (forall b', after b (pass_text base sz (tallies b)) b' -> Q tt b') ->
  wp (final_check ;;
      t ← gets tallies;
      print (ln "miniheap stress PASS: alloc_ok=%u alloc_fail=%u free_ok=%u verify_ok=%u")
        [AInt (t AllocOk); AInt (t AllocFail); AInt (t FreeOk); AInt (t VerifyOk)] ;;
      dump_miniheap ;;
      print (ln "===== miniheap reliability stress test end =====") []) Q b.
Proof.
  intros Hr R HQ. pose proof (repr_one_free _ _ _ R) as (Hf & Hs & _).
  apply wp_bind, wp_gets. rewrite Hf, Hs, Z.eqb_refl. apply wp_ret, wp_gets.
  set (ts := tallies b) in *.
  apply wp_bind, (wp_print _ _ (line [lits "miniheap stress PASS: alloc_ok="; num (ts AllocOk); lits " alloc_fail="; num (ts AllocFail);
    lits " free_ok="; num (ts FreeOk); lits " verify_ok="; num (ts VerifyOk)])); [exact Hr|reflexivity|reflexivity|reflexivity|].
  intros b1 H1. pose proof H1 as (s1 & E1 & _).
  apply wp_bind, (wp_dump base sz); [by eapply after_ready|by rewrite E1|]. intros b2 H2.
  apply (wp_print _ _ (line [lits "===== miniheap reliability stress test end ====="])); [by eapply after_ready|reflexivity|reflexivity|reflexivity|].
  intros b3 H3. apply HQ. eapply after_trans; [exact H1|]. by eapply after_trans.
Qed.
End Print.

(** * The test *)

Section Test.
Context {S : Type} `{Host S}.

(** C5: the stress test of the allocator passes. From any heap just initialised, on any
    machine that can print, whatever its clock says (which is the seed), the test returns: no
    pattern is ever damaged, no free panics. It ends with every slot released, as many frees as successful
    allocations, and the heap one free block; it has printed its report and nothing else. *)
Theorem stress_test_passes base size h0 (b : bench S) :
  arena_ok base size (hmem h0) -> size mod 16 = 0 -> miniheap_init base size h0 = Ok 0 (heap b) ->
  ready (machine b) -> length (g_slots b) = Z.to_nat STRESS_SLOTS ->
  exists b', miniheap_reliability_stress_test b = Ok tt b' /\
    Forall (fun s => s_ptr s = 0) (g_slots b') /\ repr base [Free size] (heap b') /\
    tallies b' AllocOk = tallies b' FreeOk /\
    out (machine b') = out (machine b) ++ (sent (S := S) <$> shown (start_text size ++ pass_text base size (tallies b'))).
Proof.
  intros Ha Hmod Hi Hr Hl. destruct (init_repr base size h0 Ha Hmod) as (h & E & R & _).
  rewrite Hi in E. apply Ok_inj in E as [_ <-]. pose proof (repr_one_free _ _ _ R) as (Hf & Hs & _).
  assert (0 < size < 2 ^ 32) as Hsz by apply Ha.
  enough (wp miniheap_reliability_stress_test (fun _ b' => Forall (fun s => s_ptr s = 0) (g_slots b') /\
      repr base [Free size] (heap b') /\ tallies b' AllocOk = tallies b' FreeOk /\
      out (machine b') = out (machine b) ++ (sent (S := S) <$> shown (start_text size ++ pass_text base size (tallies b')))) b) as Hwp
    by (apply wp_returns in Hwp as ([] & b' & ? & ?); by exists b').
  unfold miniheap_reliability_stress_test. generalize (Z.to_nat STRESS_ITERATIONS). intros loops.
  apply wp_bind, wp_modify. eapply wp_seq; [apply wp_clear_loop; done|].
  intros _ b1 (Hm1 & Hh1 & Ht1 & Hl1 & Hu1 & _). cbn [machine heap tallies g_slots] in *.
  apply wp_bind, wp_mrs; [by rewrite Hm1|]. intros v b2 H2. apply wp_bind, wp_modify.
  apply wp_bind, (wp_print _ _ (line [lits "===== miniheap reliability stress test start ====="]));
    [exact (after_ready _ _ _ H2)|reflexivity|reflexivity|reflexivity|]. intros b3 H3.
  destruct H2 as (s2 & -> & Hr2 & Ho2). cbn [machine heap seed tallies g_slots] in H3.
  pose proof (after_ready _ _ _ H3) as Hr3. pose proof H3 as (s3 & E3 & _).
  apply wp_gets. replace (heap b3) with (heap b) by (by rewrite E3). rewrite Hf, Hs, !wrap_small by lia. clear E3 s3.
  apply wp_bind, (wp_print _ _ (line [lits "heap size="; num size; lits " free="; num size; lits " slots="; num STRESS_SLOTS;
    lits " loops="; num STRESS_ITERATIONS])); [exact Hr3|reflexivity|reflexivity|reflexivity|].
  intros b4 H4. pose proof (after_trans _ _ _ _ _ H3 H4) as (s4 & -> & Hr4 & Ho4). clear H3 H4. cbn [machine] in *.
  eapply (wp_seq _ _ (fun _ => ok base size s4)); [apply (wp_stress_loop base size s4); split; [done|]; exists ∅|].
  { cbn [heap g_slots tallies]. rewrite Ht1. apply cleared_consistent; [by rewrite Hh1|congruence|].
    apply Forall_lookup. intros i s Hi'. apply (Hu1 i); [|done]. apply lookup_lt_Some in Hi'. lia. }
  intros _ b5 H5. eapply wp_seq; [apply (wp_cleanup_loop base size s4 _ _ 0 H5); [done|done|]; intros k s Hk; lia|].
  intros _ b6 [(Hm6 & live & C6) Hc6].
  assert (Forall (fun s => s_ptr s = 0) (g_slots b6)) as Hz.
  { apply Forall_lookup. intros k s Hk. apply (Hc6 k s); [|done]. apply lookup_lt_Some in Hk. by rewrite (k_len _ _ _ _ _ _ C6) in Hk. }
  rewrite (clean_nothing_live _ _ _ _ _ _ C6 Hz) in C6.
  pose proof (client_inv_recovered _ _ _ (k_heap _ _ _ _ _ _ C6) (proj1 Hsz)) as R6.
  apply (wp_finish base size); [by rewrite Hm6|exact R6|]. intros b7 (s7 & -> & _ & Ho7). cbn [machine heap tallies g_slots] in *.
  split; [exact Hz|]. split; [exact R6|]. split.
  - rewrite (k_tally _ _ _ _ _ _ C6), map_size_empty, Z.add_0_r. apply wrap_small, (k_range _ _ _ _ _ _ C6).
  - rewrite Ho7, Hm6, Ho4, Ho2, Hm1. fold (start_text size). rewrite (shown_app (start_text size)), fmap_app, app_assoc.
    do 2 f_equal. apply app_nil_r.
Qed.
End Test.

(** A machine to run it on: the UART console of ConsoleHost, and a heap of 256 bytes. *)
Definition bench_start : bench (platform desk) :=
  Bench (desk_start ∅) demo_ready 0 (replicate 128 unused_slot) (fun _ => 0).

Lemma stress_test_passes_witness :
  exists b', miniheap_reliability_stress_test bench_start = Ok tt b' /\
    Forall (fun s => s_ptr s = 0) (g_slots b') /\ repr 4096 [Free 256] (heap b') /\
    tallies b' AllocOk = tallies b' FreeOk /\
    out (machine b') = out (machine bench_start) ++ (sent (S := platform desk) <$> shown (start_text 256 ++ pass_text 4096 256 (tallies b'))).
Proof.
  apply (stress_test_passes 4096 256 demo_heap bench_start demo_arena eq_refl demo_init_ok).
  - apply desk_ready.
  - reflexivity.
Defined.
