(* ===== verification/SelfTest.v ===== *)
(** The self-tests of src/app/test.c on any machine that satisfies [Host]: memset, memcpy and
    rand run on the stack of the caller, and their results are printed. *)
From Stdlib Require Import ZArith Lia.
From stdpp Require Import base gmap list strings.
From S2P Require Import Prelude Mem Printf CString Host Stress.

Open Scope Z_scope.

(** [stack] holds the arrays of the functions, at addresses that are arguments of the model. *)
Record tests (S : Type) := Tests { t_bench : bench S; stack : mem }.
Arguments Tests {S} _ _. Arguments t_bench {S} _. Arguments stack {S} _.

(** The characters the %s of vprintf sends from [a]; [fuel] bounds them. *)
Fixpoint text_at (fuel : nat) (a : Z) : M mem text :=
  c ← ld 1 a;
  if truth c then
    match fuel with
    | O => stop_with Spin
    | S fuel' => t ← text_at fuel' (a + 1); mret (c :: t)
    end
  else mret [].

(** An array initialised by a string literal. *)
Fixpoint init_array (a : Z) (t : text) : M mem unit :=
  match t with
  | [] => st 1 a 0
  | c :: t' => st 1 a c ;; init_array (a + 1) t'
  end.

Section Tests.
Context {S : Type} `{Host S}.

Definition on_bench {A} (m : M (bench S) A) : M (tests S) A := zoom t_bench (fun t b => Tests b (stack t)) m.
Definition on_stack {A} (m : M mem A) : M (tests S) A := zoom stack (fun t m => Tests (t_bench t) m) m.

(** [printf(fmt, s)] with the string at [s]. *)
Definition print_string (fmt : string) (s : Z) : M (tests S) unit :=
  t ← on_stack (text_at 20 s); on_bench (print fmt [AStr (Some t)]).

Definition test_memset (buffer : Z) : M (tests S) unit :=
  _ ← on_stack (memset buffer 65 20);
  on_stack (st 1 (buffer + 19) 0) ;;
  print_string (ln "memset test: %s") buffer.

Definition test_memcpy (src dest : Z) : M (tests S) unit :=
  on_stack (init_array src (str "Hello, World!")) ;;
  n ← on_stack (strlen 20 src);
  _ ← on_stack (memcpy dest src (u64 (n + 1)));
  print_string (ln "memcpy test: %s") dest.

Fixpoint rand_loop (k : nat) : M (tests S) unit :=
  match k with
  | O => mret tt
  | Datatypes.S k' => r ← on_bench rand; on_bench (print "%d " [AInt r]) ;; rand_loop k'
  end.

Definition test_rand : M (tests S) unit :=
  t ← on_bench (on_machine (mrs "CNTVCT_EL0"));
  on_bench (srand t) ;;
  on_bench (print "rand test: " []) ;;
  rand_loop 5 ;;
  on_bench (print (ln "") []).
End Tests.
