(* ===== verification/SelfTestTheorems.v ===== *)
(** What the self-tests print, on every machine. *)
From Stdlib Require Import ZArith Lia.
From stdpp Require Import base gmap list strings.
From S2P Require Import Prelude Mem HeapTheorems Printf PrintfProof CString CStringProof GicRegs Console Host HostProof ConsoleHost.
From S2P Require Import Stress StressProof StressTheorems SelfTest.

Open Scope Z_scope.

(** * Strings on the stack *)

Lemma text_at_run fuel m a t : cstr m a t -> (length t <= fuel)%nat -> text_at fuel a m = Ok t m.
Proof.
  revert fuel a. induction t as [|c t IH]; intros fuel a Ht Hf; cbn [length] in *.
  - destruct fuel; cbn [text_at]; by mstep (ld_cstr _ _ _ Ht).
  - destruct fuel as [|fuel]; [lia|]. cbn [text_at]. mstep (ld_cstr _ _ _ Ht). cbn [hd].
    rewrite (truth_head _ _ _ _ Ht). destruct Ht as (_ & _ & Ht). by mstep (IH fuel (a + 1) Ht ltac:(lia)).
Qed.

Lemma init_array_run a t m : Forall (fun c => 0 < c < 256) t -> mapped m a (len t + 1) ->
  exists m', init_array a t m = Ok tt m' /\ cstr m' a t /\ same_outside m m' a (len t + 1) /\ same_dom m m'.
Proof.
  intros Ht. revert a m. induction Ht as [|c t Hc _ IH]; intros a m Hm; cbn [length init_array cstr] in *.
  - destruct (st_char a 0 m) as (m' & E & L & O & Dm); [eapply mapped_sub; [exact Hm|lia|lia]|lia|]. by exists m'.
  - destruct (st_char a c m) as (m1 & E1 & L1 & O1 & D1); [eapply mapped_sub; [exact Hm|lia|lia]|lia|].
    destruct (IH (a + 1) m1) as (m2 & E2 & C2 & O2 & D2).
    { eapply mapped_same_dom; [exact D1|]. eapply mapped_sub; [exact Hm|lia|lia]. }
    exists m2. split; [by mstep E1|]. split; [split; [|split; [lia|done]]|split; [|by etrans]].
    + rewrite (mload_same_outside 1 a m1 m2 _ _ O2) by lia. done.
    + intros i Hi. rewrite O2, O1 by lia. done.
Qed.

(** * Printing *)

(** The numbers rand returns from a seed, and the seed it leaves. *)
Fixpoint rands (k : nat) (seed : Z) : list Z :=
  match k with
  | O => []
  | S k' => let n := u64 ((seed * 0x1234 + 12345) * seed) in u32 (n / 65536) mod 32768 :: rands k' n
  end.

Definition rand_text (rs : list Z) : list item := concat ((fun r => [Num false false 0 CvD r; Lit 32]) <$> rs).

Section Print.
Context {S : Type} `{Host S}.

(** [t'] is [t] after printing [l], whatever happened to the stack and the seed. *)
Definition printed (t : tests S) (l : list item) (t' : tests S) : Prop :=
  heap (t_bench t') = heap (t_bench t) /\ g_slots (t_bench t') = g_slots (t_bench t) /\
  ready (machine (t_bench t')) /\ out (machine (t_bench t')) = out (machine (t_bench t)) ++ (sent (S := S) <$> shown l).

Lemma printed_trans a b c l1 l2 : printed a l1 b -> printed b l2 c -> printed a (l1 ++ l2) c.
Proof.
  intros (H1 & G1 & _ & O1) (H2 & G2 & R2 & O2). split; [by rewrite H2, H1|]. split; [by rewrite G2, G1|]. split; [done|].
  by rewrite O2, O1, shown_app, fmap_app, app_assoc.
Qed.

Lemma wp_on_stack {A} (m : M mem A) (t : tests S) v x Q : m (stack t) = Ok v x -> Q v (Tests (t_bench t) x) -> wp (on_stack m) Q t.
Proof. intros E HQ. apply wp_zoom. by eapply wp_Ok. Qed.

Lemma wp_print_bench fmt args items (t : tests S) Q : ready (machine (t_bench t)) ->
  concat (item_format <$> items) = str fmt -> concat (item_args <$> items) = args -> forallb valid_b items = true ->
  (forall t', printed t items t' -> stack t' = stack t -> seed (t_bench t') = seed (t_bench t) -> Q tt t') ->
  wp (on_bench (print fmt args)) Q t.
Proof.
  intros Hr Hf Ha Hv HQ. apply wp_zoom, (wp_print _ _ items); [done..|]. intros b' (s & -> & Hs & Ho). by apply HQ.
Qed.

Lemma wp_print_string fmt pre t txt post a Q : ready (machine (t_bench t)) -> cstr (stack t) a txt -> (length txt <= 20)%nat ->
  concat (item_format <$> pre ++ [Str (Some txt)] ++ post) = str fmt -> concat (item_args <$> pre ++ [Str (Some txt)] ++ post) = [AStr (Some txt)] ->
  forallb valid_b (pre ++ [Str (Some txt)] ++ post) = true ->
  (forall t', printed t (pre ++ [Str (Some txt)] ++ post) t' -> Q tt t') -> wp (print_string fmt a) Q t.
Proof.
  intros Hr Hc Hl Hf Ha Hv HQ. unfold print_string. apply wp_bind.
  eapply wp_on_stack; [by apply text_at_run|]. apply (wp_print_bench _ _ _ _ _ Hr Hf Ha Hv). intros t' P _ _. by apply HQ.
Qed.

Lemma wp_rand_loop k : forall (t : tests S) Q, ready (machine (t_bench t)) ->
  (forall t', printed t (rand_text (rands k (seed (t_bench t)))) t' -> Q tt t') -> wp (rand_loop k) Q t.
Proof.
  induction k as [|k IH]; intros t Q Hr HQ; cbn [rand_loop].
  - apply wp_ret, HQ. split; [done|]. split; [done|]. split; [done|]. by rewrite app_nil_r.
  - apply wp_bind, wp_zoom. unfold wp at 1, rand. set (n := u64 _).
    assert (Hn : n = u64 ((seed (t_bench t) * 0x1234 + 12345) * seed (t_bench t))).
    { unfold n, wrap. rewrite Zplus_mod_idemp_l, Zmult_mod_idemp_l. done. }
    set (r := u32 (n / 65536) mod 32768).
    apply wp_bind, (wp_print_bench _ _ [Num false false 0 CvD r; Lit 32]); [done|reflexivity..|].
    intros t1 P1 _ Hs1. apply IH; [apply P1|]. intros t2 P2. apply HQ. cbn [rands]. rewrite <- Hn. fold r.
    cbn [t_bench seed] in Hs1. rewrite Hs1 in P2. exact (printed_trans _ _ _ _ _ P1 P2).
Qed.
End Print.

Section Run.
Context {S : Type} `{Host S}.

Lemma wp_test_memset buffer (t : tests S) Q : ready (machine (t_bench t)) -> buffer mod 8 = 0 ->
  mapped (stack t) buffer 20 ->
  (forall t', printed t (line [lits "memset test: "; [Str (Some (replicate 19 65))]]) t' -> Q tt t') ->
  wp (test_memset buffer) Q t.
Proof.
  intros Hr Ab Hm HQ. unfold test_memset.
  destruct (memset_run buffer 20 65 (stack t) ltac:(lia) (or_intror Ab) Hm) as (m1 & E1 & F1 & _ & D1).
  apply wp_bind. eapply wp_on_stack; [exact E1|].
  destruct (st_char (buffer + 19) 0 m1) as (m2 & E2 & L2 & O2 & _);
    [eapply mapped_same_dom; [exact D1|eapply mapped_sub; [exact Hm|lia|lia]]|lia|].
  apply wp_bind. eapply wp_on_stack; [exact E2|].
  apply (wp_print_string _ (lits "memset test: ") _ (replicate 19 65) nl); [done| |cbn; lia|reflexivity..|exact HQ].
  apply cstr_chars. rewrite length_replicate. split; [|done]. apply chars_filled; [lia|].
  intros i Hi. cbn [stack]. rewrite O2 by lia. apply F1. lia.
Qed.

Lemma wp_test_memcpy src dest (t : tests S) Q : ready (machine (t_bench t)) ->
  src mod 8 = 0 -> dest mod 8 = 0 ->
  mapped (stack t) src 14 -> mapped (stack t) dest 20 -> disjoint dest 20 src 14 ->
  (forall t', printed t (line [lits "memcpy test: "; [Str (Some (str "Hello, World!"))]]) t' -> Q tt t') ->
  wp (test_memcpy src dest) Q t.
Proof.
  intros Hr As Ad Hs Hd Hdis HQ. unfold test_memcpy. set (hello := str "Hello, World!").
  assert (Hh : Forall (fun c => 0 < c < 256) hello) by (by apply (bool_decide_unpack _)).
  destruct (init_array_run src hello (stack t) Hh Hs) as (m1 & E1 & C1 & _ & D1).
  apply wp_bind. eapply wp_on_stack; [exact E1|].
  apply wp_bind. eapply wp_on_stack.
  { unfold strlen. apply (strlen_run 20 m1 src hello 0); [by rewrite Z.add_0_r|cbn; lia]. }
  change (u64 (0 + len hello + 1)) with 14.
  destruct (memcpy_run dest src 14 m1) as (m2 & E2 & C2 & _); [lia|by right|by right| | |unfold disjoint in *; lia|].
  { eapply mapped_same_dom; [exact D1|eapply mapped_sub; [exact Hd|lia|lia]]. }
  { by eapply mapped_same_dom. }
  apply wp_bind. eapply wp_on_stack; [exact E2|].
  apply (wp_print_string _ (lits "memcpy test: ") _ hello nl); [done| |cbn; lia|reflexivity..|exact HQ].
  by apply (cstr_copied m1 _ _ src).
Qed.

Lemma wp_test_rand (t : tests S) Q : ready (machine (t_bench t)) ->
  (forall tick t', printed t (line [lits "rand test: "; rand_text (rands 5 (u32 tick))]) t' -> Q tt t') ->
  wp test_rand Q t.
Proof.
  intros Hr HQ. unfold test_rand. apply wp_bind, wp_zoom, wp_mrs; [done|].
  intros tick b (s & -> & Hs & Ho). apply wp_bind, wp_zoom. unfold wp at 1, srand, modify. cbn [machine heap seed g_slots tallies].
  set (t1 := Tests _ _). assert (P1 : printed t [] t1) by done.
  apply wp_bind, (wp_print_bench _ _ (lits "rand test: ")); [done|reflexivity..|]. intros t2 P2 _ S2.
  apply wp_bind, wp_rand_loop; [apply P2|]. intros t3 P3. rewrite S2 in P3.
  apply (wp_print_bench _ _ nl); [apply P3|reflexivity..|]. intros t4 P4 _ _. apply (HQ tick).
  pose proof (printed_trans _ _ _ _ _ P1 P2) as P. pose proof (printed_trans _ _ _ _ _ P P3) as P'.
  exact (printed_trans _ _ _ _ _ P' P4).
Qed.
End Run.

Lemma rands_range k seed : Forall (fun r => 0 <= r < 32768) (rands k seed).
Proof. revert seed. induction k as [|k IH]; intros seed; constructor; [apply Z.mod_pos_bound; lia|apply IH]. Qed.

(** The self-tests. From any stack with room for their arrays, at multiples of eight, the three functions return,
    having printed the nineteen times A that memset wrote, the greeting memcpy copied, and the
    five numbers, each below 32768, that rand computes from the low half of the tick counter;
    heap and slots are left alone. *)
Theorem self_tests_print {S} `{Host S} buffer src dest (t : tests S) :
  ready (machine (t_bench t)) -> buffer mod 8 = 0 -> src mod 8 = 0 -> dest mod 8 = 0 ->
  mapped (stack t) buffer 20 -> mapped (stack t) src 14 -> mapped (stack t) dest 20 ->
  disjoint dest 20 src 14 ->
  (exists t', test_memset buffer t = Ok tt t' /\
     printed t (line [lits "memset test: "; [Str (Some (str "AAAAAAAAAAAAAAAAAAA"))]]) t') /\
  (exists t', test_memcpy src dest t = Ok tt t' /\
     printed t (line [lits "memcpy test: "; [Str (Some (str "Hello, World!"))]]) t') /\
  exists tick t', test_rand t = Ok tt t' /\
     printed t (line [lits "rand test: "; rand_text (rands 5 (u32 tick))]) t' /\
     Forall (fun r => 0 <= r < 32768) (rands 5 (u32 tick)).
Proof.
  intros Hr Ab As Ad Hb Hs Hd Hdis. split; [|split].
  - destruct (wp_returns (test_memset buffer) _ t (wp_test_memset buffer t (fun _ => printed t _) Hr Ab Hb (fun _ P => P)))
      as ([] & t' & E & P). by exists t'.
  - destruct (wp_returns (test_memcpy src dest) _ t (wp_test_memcpy src dest t (fun _ => printed t _) Hr As Ad Hs Hd Hdis (fun _ P => P)))
      as ([] & t' & E & P). by exists t'.
  - destruct (wp_returns test_rand (fun _ t' => exists tick, printed t (line [lits "rand test: "; rand_text (rands 5 (u32 tick))]) t') t)
      as ([] & t' & E & tick & P); [apply wp_test_rand; eauto|].
    exists tick, t'. split; [done|]. split; [done|]. apply rands_range.
Qed.

Lemma self_tests_print_witness :
  let t := Tests bench_start (zeros 100 64) in
  (exists t', test_memset 104 t = Ok tt t' /\
     printed t (line [lits "memset test: "; [Str (Some (str "AAAAAAAAAAAAAAAAAAA"))]]) t') /\
  (exists t', test_memcpy 128 144 t = Ok tt t' /\
     printed t (line [lits "memcpy test: "; [Str (Some (str "Hello, World!"))]]) t') /\
  exists tick t', test_rand t = Ok tt t' /\
     printed t (line [lits "rand test: "; rand_text (rands 5 (u32 tick))]) t' /\
     Forall (fun r => 0 <= r < 32768) (rands 5 (u32 tick)).
Proof.
  apply (self_tests_print 104 128 144 (Tests bench_start (zeros 100 64))).
  - apply desk_ready.
  - done.
  - done.
  - done.
  - eapply mapped_sub; [apply (zeros_mapped 100 64)|lia|lia].
  - eapply mapped_sub; [apply (zeros_mapped 100 64)|lia|lia].
  - eapply mapped_sub; [apply (zeros_mapped 100 64)|lia|lia].
  - right. lia.
Defined.
