(* ===== verification/Timer.v ===== *)
(** Per-CPU timers: platform/aarch64/timer/timer.c and include/timer/timer.h.

    A timer is an object of a typed store at the address malloc returned, its embedded
    [struct list_head] an object of the link store at the member's address; free ends the
    lifetime of both, so that a later access faults. A callback is code outside timer.c: it is
    run on a state [U] of its own and cannot touch the timers. *)
From Stdlib Require Import ZArith Lia.
From stdpp Require Import base gmap list strings.
From S2P Require Import Prelude Mem Miniheap Printf Io Spinlock GicRegs Gic GicIntr CList.

Open Scope Z_scope.

(** [struct zhyper_timer]; [expired_tick], which nothing reads or writes, is left out. *)
Record zhyper_timer := {
  interval_ms : Z; is_periodic : Z; is_active : Z; callback : Z; t_arg : Z; private : Z }.

(** Member offsets: 8 bytes of [expired_tick], 4 of [interval_ms], 4 of bit fields and three
    pointers precede the list head. *)
Definition off_list : Z := 40.
Definition sizeof_zhyper_timer : Z := 56.

Record percpu_timer_manager := { nr_timers : Z; last_tick : Z }.
Definition off_timer_list : Z := 16.
Definition sizeof_timer_manager : Z := 32.

Definition PPI_TIMER_INTID_EL2 : Z := 26.

Record timers (D U : Type) := {
  tgic : gic D; theap : heap_state; tlinks : links; objs : gmap Z zhyper_timer;
  managers : gmap Z percpu_timer_manager; g_counter : Z; user : U }.
Arguments tgic {D U} _. Arguments theap {D U} _. Arguments tlinks {D U} _. Arguments objs {D U} _.
Arguments managers {D U} _. Arguments g_counter {D U} _. Arguments user {D U} _.
Arguments Build_timers {D U} _ _ _ _ _ _ _.

Section State.
Context {D U : Type}.
Definition set_tgic (s : timers D U) (x : gic D) : timers D U := Build_timers x (theap s) (tlinks s) (objs s) (managers s) (g_counter s) (user s).
Definition set_theap (s : timers D U) (x : heap_state) : timers D U := Build_timers (tgic s) x (tlinks s) (objs s) (managers s) (g_counter s) (user s).
Definition set_tlinks (s : timers D U) (x : links) : timers D U := Build_timers (tgic s) (theap s) x (objs s) (managers s) (g_counter s) (user s).
Definition set_objs f (s : timers D U) : timers D U := Build_timers (tgic s) (theap s) (tlinks s) (f (objs s)) (managers s) (g_counter s) (user s).
Definition set_managers f (s : timers D U) : timers D U := Build_timers (tgic s) (theap s) (tlinks s) (objs s) (f (managers s)) (g_counter s) (user s).
Definition set_counter f (s : timers D U) : timers D U := Build_timers (tgic s) (theap s) (tlinks s) (objs s) (managers s) (f (g_counter s)) (user s).
Definition set_user (s : timers D U) (x : U) : timers D U := Build_timers (tgic s) (theap s) (tlinks s) (objs s) (managers s) (g_counter s) x.

Definition on_gic {A} (m : M (gic D) A) : M (timers D U) A := zoom tgic set_tgic m.
Definition on_heap {A} (m : M heap_state A) : M (timers D U) A := zoom theap set_theap m.
Definition on_links {A} (m : M links A) : M (timers D U) A := zoom tlinks set_tlinks m.
Definition on_user {A} (m : M U A) : M (timers D U) A := zoom user set_user m.

Definition get_timer (p : Z) : M (timers D U) zhyper_timer := fun s =>
  match objs s !! p with Some t => Ok t s | None => Stop (Fault p) s end.
Definition put_timer (p : Z) (t : zhyper_timer) : M (timers D U) unit := modify (set_objs <[p := t]>).
Definition get_manager (p : Z) : M (timers D U) percpu_timer_manager := fun s =>
  match managers s !! p with Some t => Ok t s | None => Stop (Fault p) s end.
Definition put_manager (p : Z) (t : percpu_timer_manager) : M (timers D U) unit := modify (set_managers <[p := t]>).
End State.

Definition set_active (v : Z) (t : zhyper_timer) : zhyper_timer :=
  {| interval_ms := interval_ms t; is_periodic := is_periodic t; is_active := v;
     callback := callback t; t_arg := t_arg t; private := private t |}.

(** Callbacks by code address, with the timer and its argument; and the link addresses of the
    manager array and of the interrupt handler. *)
Class Callbacks (U : Type) := invoke : Z -> Z -> Z -> M U unit.
Class TimerLayout := { s_timer_manager : Z; timer_irq_handler_code : Z }.

Section Timer.
Context {D U : Type} `{Hardware D} `{Config} `{Callbacks U} `{TimerLayout}.

Definition sysreg_write (r : string) (v : Z) : M (timers D U) unit := on_gic (hw (write_sysreg r v)).

Definition percpu_timer_manager_init (manager : Z) : M (timers D U) unit :=
  if manager =? 0 then panic "Timer manager is NULL" else
  m ← get_manager manager;
  put_manager manager {| nr_timers := 0; last_tick := last_tick m |} ;;
  t ← on_gic (hw tick_el2);
  put_manager manager {| nr_timers := 0; last_tick := t |} ;;
  on_links (list_init (manager + off_timer_list)).

Definition reset_percpu_timer : M (timers D U) unit :=
  sysreg_write "CNTHP_CTL_EL2" 0 ;;
  sysreg_write "CNTHP_TVAL_EL2" 0 ;;
  on_gic (hw isb).

Definition set_percpu_timer (interval : Z) : M (timers D U) unit :=
  cntfrq_el0 ← on_gic (hw (read_sysreg "CNTFRQ_EL0"));
  let cntv_tval := u64 (cntfrq_el0 / 1000 * u32 interval) in
  sysreg_write "CNTHP_TVAL_EL2" cntv_tval ;;
  sysreg_write "CNTHP_CTL_EL2" 1 ;;
  on_gic (hw isb).

(** free(timer): the heap block, and with it the timer and its links. *)
Definition free_timer (timer : Z) : M (timers D U) unit :=
  on_heap (free timer) ;;
  modify (set_objs (delete timer)) ;;
  on_links (modify (delete (timer + off_list))).

(** The body of the walk of the interrupt handler. *)
Definition tick_timer (pos : Z) : M (timers D U) unit :=
  let timer := list_entry pos off_list in
  t ← get_timer timer;
  when (truth (is_active t))
    (when (truth (callback t)) (on_user (invoke (callback t) timer (t_arg t))) ;;
     t ← get_timer timer;
     when (negb (truth (is_periodic t)))
       (put_timer timer (set_active 0 t) ;;
        on_links (list_del (timer + off_list)) ;;
        free_timer timer)).

Definition timer_irq_handler (fuel : nat) (irq : irq_ptr) : M (timers D U) Z :=
  ctx ← on_gic (get_irq irq);
  let manager := arg ctx in
  reset_percpu_timer ;;
  modify (set_counter (fun c => u64 (c + 1))) ;;
  when (truth manager) (list_for_each_safe tlinks set_tlinks fuel (manager + off_timer_list) tick_timer) ;;
  set_percpu_timer 1000 ;;
  mret 0.

Definition get_percpu_timer_manager : M (timers D U) Z :=
  id ← on_gic (hw cpu_id);
  if NR_CPU <=? id then panic "CPU ID %u exceeds the maximum number of CPUs (%u)"
  else mret (s_timer_manager + sizeof_timer_manager * id).

(** The context the timer interrupt gets. *)
Definition timer_context (manager : Z) (c : irq_context) : irq_context :=
  {| intid := intid c; group := 1; security := security c; irm := irm c; trigger := 1;
     priority := 0x80; nsac := nsac c; irq_reserved := irq_reserved c;
     affinity_cpu_id := affinity_cpu_id c; handle := timer_irq_handler_code; arg := manager;
     ops := ops c |}.

Definition plat_timer_init (interval : Z) : M (timers D U) unit :=
  cntfrq_el0 ← on_gic (hw (read_sysreg "CNTFRQ_EL0"));
  let cntv_tval := u64 (cntfrq_el0 / 1000 * u32 interval) in
  on_gic (pr (ln "frequency: %lu Hz, interval: %u ms, cntv_tval: %lu") [cntfrq_el0; interval; cntv_tval]) ;;
  manager ← get_percpu_timer_manager;
  if manager =? 0 then panic "Failed to get per-CPU timer manager" else
  timer_ppi ← on_gic (get_ppi_context PPI_TIMER_INTID_EL2);
  match timer_ppi with
  | None => panic "Failed to get PPI context for timer interrupt"
  | Some p =>
      percpu_timer_manager_init manager ;;
      c ← on_gic (get_irq p);
      on_gic (put_irq p (timer_context manager c)) ;;
      _ ← on_gic (gic_irq_enable (Some p));
      sysreg_write "CNTHP_TVAL_EL2" cntv_tval ;;
      sysreg_write "CNTHP_CTL_EL2" 1 ;;
      on_gic (hw isb)
  end.

(** create_timer_periodic and create_timer_oneshot differ in one bit. *)
Definition create_timer (periodic interval cb a : Z) : M (timers D U) Z :=
  timer ← on_heap (malloc sizeof_zhyper_timer);
  if timer =? 0 then mret 0 else
  put_timer timer {| interval_ms := u32 interval; is_periodic := periodic; is_active := 0;
                     callback := cb; t_arg := a; private := 0 |} ;;
  on_links (modify <[timer + off_list := {| prev := 0; next := 0 |}]> ;; list_init (timer + off_list)) ;;
  mret timer.

Definition create_timer_periodic (interval cb a : Z) : M (timers D U) Z := create_timer 1 interval cb a.
Definition create_timer_oneshot (interval cb a : Z) : M (timers D U) Z := create_timer 0 interval cb a.

Definition start_timer (timer manager : Z) : M (timers D U) Z :=
  if timer =? 0 then mret (- EINVAL) else
  manager ← (if manager =? 0 then get_percpu_timer_manager else mret manager);
  if manager =? 0 then mret (- EINVAL) else
  t ← get_timer timer;
  put_timer timer (set_active 1 t) ;;
  m ← get_manager manager;
  put_manager manager {| nr_timers := u32 (nr_timers m + 1); last_tick := last_tick m |} ;;
  on_links (list_add (timer + off_list) (manager + off_timer_list)) ;;
  mret 0.
End Timer.
