(* ===== verification/TimerProof.v ===== *)
(** Runs of the timer component: what one tick does to the list of timers. *)
From Stdlib Require Import ZArith Lia.
From stdpp Require Import base gmap list strings.
From S2P Require Import Prelude Mem HeapSpec Miniheap HeapProof HeapClient Printf PrintfProof.
From S2P Require Import Io IoProof Spinlock GicRegs Gic GicIntr GicProof CList Timer.

Open Scope Z_scope.

#[global] Instance timers_traced {D U} : Traced (timers D U) := fun s => trace_of (tgic s).

(** * What a tick is meant to do *)

(** The timers that are taken off the list when they fire, and the calls a tick makes. *)
Definition one_shot (t : zhyper_timer) : bool := truth (is_active t) && negb (truth (is_periodic t)).
Definition call_of (timer : Z) (t : zhyper_timer) : list (Z * Z * Z) :=
  if truth (is_active t) && truth (callback t) then [(callback t, timer, t_arg t)] else [].

Definition timer_of (O : gmap Z zhyper_timer) (x : Z) : option zhyper_timer := O !! (x - off_list).
Definition expires (O : gmap Z zhyper_timer) (x : Z) : bool :=
  match timer_of O x with Some t => one_shot t | None => false end.
Definition calls_of (O : gmap Z zhyper_timer) (x : Z) : list (Z * Z * Z) :=
  match timer_of O x with Some t => call_of (x - off_list) t | None => [] end.

Definition kept (O : gmap Z zhyper_timer) (xs : list Z) : list Z := filter (fun x => expires O x = false) xs.
Definition gone (O : gmap Z zhyper_timer) (xs : list Z) : list Z := filter (fun x => expires O x = true) xs.
Definition calls (O : gmap Z zhyper_timer) (xs : list Z) : list (Z * Z * Z) := xs ≫= calls_of O.

Section Tick.
Context {D U : Type} `{Callbacks U}.

(** Running callbacks one after the other. *)
Fixpoint run_calls (l : list (Z * Z * Z)) : M U unit :=
  match l with
  | [] => mret tt
  | (cb, t, a) :: l' => invoke cb t a ;; run_calls l'
  end.

Lemma run_calls_app l1 l2 u u2 :
  run_calls (l1 ++ l2) u = Ok tt u2 <-> exists u1, run_calls l1 u = Ok tt u1 /\ run_calls l2 u1 = Ok tt u2.
Proof.
  revert u. induction l1 as [|[[cb t] a] l1 IH]; intros u; cbn [app run_calls].
  - split; [by exists u|]. by intros (u1 & [= <-] & ?).
  - unfold mbind, M_bind. destruct (invoke cb t a u); [apply IH|].
    split; [done|]. by intros (u1 & ? & _).
Qed.

(** The list at head [h] holds the nodes [xs] of timers that live in the heap. *)
Record timers_ok (b0 sz h : Z) (live : gmap Z Z) (s : timers D U) (xs : list Z) : Prop := {
  to_heap : client_inv b0 sz (Client (theap s) live);
  to_list : clist (tlinks s) h xs;
  to_objs : forall x, x ∈ xs -> is_Some (timer_of (objs s) x);
  to_live : forall x, x ∈ xs -> live !! (x - off_list) = Some sizeof_zhyper_timer;
  to_head : h < b0 \/ b0 + sz <= h }.

(** Everything but the timers and the callbacks' own state. *)
Definition same_rest (s s' : timers D U) : Prop :=
  tgic s' = tgic s /\ managers s' = managers s /\ g_counter s' = g_counter s.

Lemma get_timer_run (s : timers D U) p t : objs s !! p = Some t -> get_timer p s = Ok t s.
Proof. intros E. unfold get_timer. by rewrite E. Qed.

(** The callback of an active timer. *)
Lemma call_run (s : timers D U) x t u :
  truth (is_active t) = true -> run_calls (call_of x t) (user s) = Ok tt u ->
  when (truth (callback t)) (on_user (invoke (callback t) x (t_arg t))) s = Ok tt (set_user s u).
Proof.
  unfold call_of. intros -> Hc. destruct (truth (callback t)); cbn in *.
  - apply bind_inv_Ok in Hc as ([] & u1 & E & [= <-]). unfold on_user, zoom. by rewrite E.
  - injection Hc as <-. by destruct s.
Qed.

(** Taking a fired one-shot timer off the list and freeing it. *)
Lemma remove_run b0 sz h live (s : timers D U) pre x rest t :
  timers_ok b0 sz h live s (pre ++ x :: rest) -> timer_of (objs s) x = Some t ->
  exists s', (put_timer (x - off_list) (set_active 0 t) ;;
      on_links (list_del (x - off_list + off_list)) ;; free_timer (x - off_list)) s = Ok tt s' /\
    timers_ok b0 sz h (delete (x - off_list) live) s' (pre ++ rest) /\
    objs s' = delete (x - off_list) (objs s) /\ user s' = user s /\ same_rest s s' /\
    (forall y, is_Some (tlinks s' !! y) <-> is_Some (tlinks s !! y) /\ y <> x).
Proof.
  intros [Hh Hl Ho Hlv Hhd] Ht. replace (x - off_list + off_list) with x by lia.
  destruct (clist_del _ _ _ _ _ Hl) as (L1 & E1 & [FD _] & Hl1 & _).
  destruct (free_inv _ _ _ _ _ Hh (Hlv x ltac:(set_solver))) as (h1 & E2 & Hh1).
  assert (Hnd : x ∉ h :: pre ++ rest).
  { destruct Hl as [Hnd _]. revert Hnd. rewrite NoDup_cons, NoDup_app, NoDup_cons. set_solver. }
  set (s1 := set_objs <[x - off_list := set_active 0 t]> s).
  assert (F1 : on_links (list_del x) s1 = Ok tt (set_tlinks s1 L1)).
  { unfold on_links, zoom. change (tlinks s1) with (tlinks s). by rewrite E1. }
  assert (F2 : on_heap (free (x - off_list)) (set_tlinks s1 L1) = Ok tt (set_theap (set_tlinks s1 L1) h1)).
  { unfold on_heap, zoom. cbn [theap set_tlinks set_objs s1 c_heap] in *. by rewrite E2. }
  exists (set_tlinks (set_objs (delete (x - off_list)) (set_theap (set_tlinks s1 L1) h1)) (delete x L1)).
  split; [|split; [|split; [|split; [done|split; [done|]]]]].
  - unfold put_timer. rewrite bind_modify. fold s1. mstep F1. unfold free_timer. mstep F2.
    rewrite bind_modify. replace (x - off_list + off_list) with x by lia. reflexivity.
  - split; [exact Hh1| | | |done].
    + cbn. eapply clist_ext; [|exact Hl1]. intros y Hy. apply lookup_delete_ne. set_solver.
    + intros y Hy. assert (y <> x) by set_solver. unfold timer_of. cbn.
      rewrite lookup_delete_ne, lookup_insert_ne by lia. apply Ho. set_solver.
    + intros y Hy. assert (y <> x) by set_solver. rewrite lookup_delete_ne by lia. apply Hlv. set_solver.
  - cbn. by rewrite delete_insert_eq.
  - intros y. change (is_Some (delete x L1 !! y) <-> is_Some (tlinks s !! y) /\ y <> x). rewrite <- FD.
    destruct (decide (y = x)) as [->|Hy].
    + rewrite lookup_delete_eq, is_Some_alt. tauto.
    + rewrite lookup_delete_ne by done. tauto.
Qed.

(** A timer that does not expire: only its callback runs. *)
Lemma tick_keeps (s : timers D U) x t u :
  timer_of (objs s) x = Some t -> one_shot t = false -> run_calls (call_of (x - off_list) t) (user s) = Ok tt u ->
  tick_timer x s = Ok tt (set_user s u).
Proof.
  intros Ht Hs Hc. unfold tick_timer, list_entry, one_shot in *.
  rewrite (bind_Ok _ _ s t s) by by apply get_timer_run.
  destruct (truth (is_active t)) eqn:Ha; cbn [when andb] in *.
  - mstep (call_run s (x - off_list) t u Ha Hc).
    rewrite (bind_Ok _ _ (set_user s u) t (set_user s u)) by by apply get_timer_run. by rewrite Hs.
  - unfold call_of in Hc. rewrite Ha in Hc. apply Ok_inj in Hc as [_ <-]. by destruct s.
Qed.

(** One step of the walk. *)
Lemma tick_run b0 sz h live (s : timers D U) pre x rest t u :
  timers_ok b0 sz h live s (pre ++ x :: rest) -> timer_of (objs s) x = Some t ->
  run_calls (call_of (x - off_list) t) (user s) = Ok tt u ->
  exists s', tick_timer x s = Ok tt s' /\ user s' = u /\ same_rest s s' /\
    (if one_shot t
     then timers_ok b0 sz h (delete (x - off_list) live) s' (pre ++ rest) /\ objs s' = delete (x - off_list) (objs s) /\
          forall y, is_Some (tlinks s' !! y) <-> is_Some (tlinks s !! y) /\ y <> x
     else timers_ok b0 sz h live s' (pre ++ x :: rest) /\ objs s' = objs s /\ tlinks s' = tlinks s).
Proof.
  intros Hok Ht Hc. destruct (one_shot t) eqn:Hs.
  - pose proof Hs as [Ha Hp]%andb_true_iff. unfold tick_timer, list_entry.
    rewrite (bind_Ok _ _ s t s) by by apply get_timer_run. rewrite Ha. cbn [when].
    mstep (call_run s (x - off_list) t u Ha Hc).
    rewrite (bind_Ok _ _ (set_user s u) t (set_user s u)) by by apply get_timer_run. rewrite Hp. cbn [when].
    assert (Hok1 : timers_ok b0 sz h live (set_user s u) (pre ++ x :: rest)) by (destruct Hok; by split).
    destruct (remove_run b0 sz h live (set_user s u) pre x rest t Hok1 Ht) as (s' & E & ? & ? & ? & ? & ?). by exists s'.
  - exists (set_user s u). split; [by apply (tick_keeps s x t)|]. do 2 (split; [done|]). split; [|done]. destruct Hok; by split.
Qed.

(** The timers and heap pointers left when the timers of [xs] have fired. *)
Definition without {A} (O : gmap Z zhyper_timer) (xs : list Z) (m : gmap Z A) : gmap Z A :=
  foldr (fun x m => delete (x - off_list) m) m (gone O xs).

Lemma gone_snoc O xs x : gone O (xs ++ [x]) = gone O xs ++ (if expires O x then [x] else []).
Proof. unfold gone. rewrite filter_app. cbn. by destruct (expires O x). Qed.
Lemma kept_snoc O xs x : kept O (xs ++ [x]) = kept O xs ++ (if expires O x then [] else [x]).
Proof. unfold kept. rewrite filter_app. cbn. by destruct (expires O x). Qed.

Lemma without_snoc {A} O xs x (m : gmap Z A) :
  without O (xs ++ [x]) m = if expires O x then delete (x - off_list) (without O xs m) else without O xs m.
Proof.
  unfold without. rewrite gone_snoc, foldr_app. destruct (expires O x); [|done]. cbn [foldr].
  induction (gone O xs) as [|y l IH]; cbn [foldr]; [done|]. rewrite IH. apply delete_delete.
Qed.

Lemma without_lookup {A} O xs (m : gmap Z A) x :
  without O xs m !! (x - off_list) = if bool_decide (x ∈ gone O xs) then None else m !! (x - off_list).
Proof.
  unfold without. induction (gone O xs) as [|y l IH]; cbn [foldr]; [done|].
  destruct (decide (x = y)) as [->|Hne].
  - rewrite lookup_delete_eq, bool_decide_true by set_solver. done.
  - rewrite lookup_delete_ne, IH by lia. destruct (decide (x ∈ l)).
    + by rewrite !bool_decide_true by set_solver.
    + by rewrite !bool_decide_false by set_solver.
Qed.

(** The links left when the timers of [xs] have fired: those of the freed timers are gone. *)
Definition links_without (O : gmap Z zhyper_timer) (xs : list Z) (L L' : links) : Prop :=
  forall y, is_Some (L' !! y) <-> is_Some (L !! y) /\ y ∉ gone O xs.

(** The walk: [past] has been visited, [rest] is still to come. *)
Definition walking (b0 sz h : Z) (live : gmap Z Z) (s0 : timers D U) (xs : list Z) (u2 : U)
    (rest : list Z) (s : timers D U) : Prop :=
  exists past, xs = past ++ rest /\
    timers_ok b0 sz h (without (objs s0) past live) s (kept (objs s0) past ++ rest) /\
    objs s = without (objs s0) past (objs s0) /\ same_rest s0 s /\
    links_without (objs s0) past (tlinks s0) (tlinks s) /\
    run_calls (calls (objs s0) rest) (user s) = Ok tt u2.

Lemma walking_step b0 sz h live s0 xs u2 x rest s :
  walking b0 sz h live s0 xs u2 (x :: rest) s ->
  exists s', tick_timer x s = Ok tt s' /\ walking b0 sz h live s0 xs u2 rest s'.
Proof.
  intros (past & Hxs & Hok & HO & (Hg & Hm & Hc) & HL & Hrun).
  assert (Hx : timer_of (objs s) x = timer_of (objs s0) x).
  { destruct (to_objs _ _ _ _ _ _ Hok x ltac:(set_solver)) as [t Ht]. unfold timer_of in *.
    rewrite HO, without_lookup in *. by destruct (bool_decide _). }
  destruct (to_objs _ _ _ _ _ _ Hok x ltac:(set_solver)) as [t Ht]. rewrite Hx in Ht.
  cbn [calls mbind list_bind] in Hrun. unfold calls_of in Hrun. rewrite Ht in Hrun.
  apply run_calls_app in Hrun as (u1 & Hu1 & Hu2).
  destruct (tick_run b0 sz h _ s _ x rest t u1 Hok ltac:(by rewrite Hx) Hu1)
    as (s' & E & Hu & (Hg' & Hm' & Hc') & Hcase).
  exists s'. split; [done|]. exists (past ++ [x]). rewrite <- app_assoc. split; [done|].
  rewrite kept_snoc, !without_snoc. unfold expires. rewrite Ht. rewrite <- Hu in Hu2.
  assert (Hs : same_rest s0 s') by (unfold same_rest; by rewrite Hg', Hm', Hc').
  unfold links_without in *. destruct (one_shot t) eqn:Hos; destruct Hcase as (Hok' & HO' & HL').
  - rewrite app_nil_r, HO'. rewrite HO at 1. split; [done|]. split; [done|]. split; [done|]. split; [|done].
    intros y. rewrite HL', HL, gone_snoc. unfold expires. rewrite Ht, Hos. set_solver.
  - rewrite <- app_assoc, HO', HL'. split; [done|]. split; [done|]. split; [done|]. split; [|done].
    intros y. rewrite HL, gone_snoc. unfold expires. by rewrite Ht, Hos, app_nil_r.
Qed.

Lemma walking_links b0 sz h live s0 xs u2 rest s :
  walking b0 sz h live s0 xs u2 rest s ->
  (h ∉ rest) /\ exists n, nxt (tlinks s) (hd h rest) = Some n /\ (rest <> [] -> n = hd h (tl rest)).
Proof.
  intros (past & _ & Hok & _). pose proof (to_list _ _ _ _ _ _ Hok) as Hl. pose proof Hl as [Hnd Hc]. split.
  - revert Hnd. rewrite NoDup_cons. set_solver.
  - destruct rest as [|x rest]; cbn [hd tl].
    + exists (hd h (kept (objs s0) past)). rewrite app_nil_r in Hl. by rewrite (clist_nxt_head _ _ _ Hl).
    + rewrite chain_app in Hc. destruct Hc as [_ Hc]. destruct rest as [|y rest]; cbn in Hc; [exists h|exists y]; by destruct Hc.
Qed.

(** The walk of a tick: every active timer's callback runs, in the order of the list; the active
    one-shot timers leave the list and the heap. *)
Lemma tick_walk b0 sz h live (s : timers D U) xs u2 fuel :
  timers_ok b0 sz h live s xs -> run_calls (calls (objs s) xs) (user s) = Ok tt u2 -> (length xs <= fuel)%nat ->
  exists s', list_for_each_safe tlinks set_tlinks fuel h tick_timer s = Ok tt s' /\
    timers_ok b0 sz h (without (objs s) xs live) s' (kept (objs s) xs) /\
    objs s' = without (objs s) xs (objs s) /\ same_rest s s' /\ user s' = u2 /\
    links_without (objs s) xs (tlinks s) (tlinks s').
Proof.
  intros Hok Hrun Hf.
  destruct (list_for_each_safe_walk tlinks set_tlinks ltac:(by intros []) (walking b0 sz h live s xs u2) tick_timer h
    ltac:(intros; by eapply walking_links) ltac:(intros; by eapply walking_step) xs fuel s) as (s' & E & past & Hxs & Hw).
  - exists []. split; [done|]. split; [done|]. split; [done|]. split; [done|]. split; [|done].
    intros y. pose proof (not_elem_of_nil y). tauto.
  - apply clist_nxt_head, Hok.
  - done.
  - rewrite app_nil_r in Hxs. subst past. exists s'. destruct Hw as (Hok' & HO & Hs & HL & Hr).
    rewrite app_nil_r in Hok'. cbn in Hr. injection Hr as ->. done.
Qed.
End Tick.

(** * The handler and the constructors *)

Section Handler.
Context {D U : Type} `{Hardware D} `{Config} `{Callbacks U} `{TimerLayout}.

Lemma runs_on_gic {A} (m : M (gic D) A) (s : timers D U) a g' l :
  runs m (tgic s) a g' l -> runs (on_gic m) s a (set_tgic s g') l.
Proof. intros [E T]. split; [|exact T]. unfold on_gic, zoom. by rewrite E. Qed.

(** The state differs in the interrupt controller's hardware at most. *)
Definition same_timers (s s' : timers D U) : Prop :=
  same_state (tgic s) (tgic s') /\ theap s' = theap s /\ tlinks s' = tlinks s /\ objs s' = objs s /\
  managers s' = managers s /\ g_counter s' = g_counter s /\ user s' = user s.

#[global] Instance same_timers_preorder : PreOrder same_timers.
Proof.
  split; [by intros s|]. intros a b c (? & ? & ? & ? & ? & ? & ?) (? & ? & ? & ? & ? & ? & ?).
  unfold same_timers. split; [by etrans|]. by split_and!; etrans.
Qed.

Lemma timers_ok_same b0 sz h live s s' xs :
  same_timers s s' -> timers_ok b0 sz h live s xs -> timers_ok b0 sz h live s' xs.
Proof. intros (_ & Hh & Hl & Ho & _) []. split; rewrite ?Hh, ?Hl, ?Ho; done. Qed.

Lemma runs_sysreg r v (s : timers D U) : exists s',
  runs (sysreg_write r v) s tt s' [EMsr r (u64 v)] /\ same_timers s s'.
Proof.
  destruct (runs_msr r v (tgic s)) as (g' & R & S). eexists. split; [by apply runs_on_gic|done].
Qed.

Lemma runs_isb (s : timers D U) : exists s', runs (on_gic (hw isb)) s tt s' [EBarrier "isb"] /\ same_timers s s'.
Proof.
  destruct (runs_barrier "isb" (tgic s)) as (g' & R & S). eexists. split; [by apply runs_on_gic|done].
Qed.

Lemma runs_reset (s : timers D U) : exists s' l,
  runs reset_percpu_timer s tt s' l /\ effects l = [EMsr "CNTHP_CTL_EL2" 0; EMsr "CNTHP_TVAL_EL2" 0] /\ same_timers s s'.
Proof.
  destruct (runs_sysreg "CNTHP_CTL_EL2" 0 s) as (s1 & R1 & S1).
  destruct (runs_sysreg "CNTHP_TVAL_EL2" 0 s1) as (s2 & R2 & S2).
  destruct (runs_isb s2) as (s3 & R3 & S3).
  eexists s3, _. split; [unfold reset_percpu_timer; chain (R1, R2, R3)|]. split; [done|].
  etrans; [exact S1|]. by etrans.
Qed.

(** Arming the hardware timer. *)
Lemma runs_arm v (s : timers D U) : exists s' l,
  runs (sysreg_write "CNTHP_TVAL_EL2" (u64 v) ;; sysreg_write "CNTHP_CTL_EL2" 1 ;; on_gic (hw isb)) s tt s' l /\
  effects l = [EMsr "CNTHP_TVAL_EL2" (u64 v); EMsr "CNTHP_CTL_EL2" 1] /\ same_timers s s'.
Proof.
  destruct (runs_sysreg "CNTHP_TVAL_EL2" (u64 v) s) as (s1 & R1 & S1). rewrite wrap_wrap in R1.
  destruct (runs_sysreg "CNTHP_CTL_EL2" 1 s1) as (s2 & R2 & S2).
  destruct (runs_isb s2) as (s3 & R3 & S3).
  eexists s3, _. split; [chain (R1, R2, R3)|]. split; [done|]. etrans; [exact S1|]. by etrans.
Qed.

Lemma runs_set interval (s : timers D U) : exists cntfrq s' l,
  runs (set_percpu_timer interval) s tt s' l /\ EMrs "CNTFRQ_EL0" cntfrq ∈ l /\
  effects l = [EMsr "CNTHP_TVAL_EL2" (u64 (cntfrq / 1000 * u32 interval)); EMsr "CNTHP_CTL_EL2" 1] /\ same_timers s s'.
Proof.
  destruct (runs_mrs "CNTFRQ_EL0" (tgic s)) as (f & g0 & R0 & S0).
  apply runs_on_gic in R0. set (s0 := set_tgic s g0) in *.
  destruct (runs_arm (f / 1000 * u32 interval) s0) as (s1 & l & R1 & E1 & S1).
  eexists f, s1, _. split; [unfold set_percpu_timer; chain_one R0; exact R1|]. split; [by left|].
  split; [by rewrite effects_app, E1|]. etrans; [|exact S1]. done.
Qed.
End Handler.

(** * Creating and starting *)

Section Create.
Context {D U : Type} `{Hardware D} `{Config} `{Callbacks U} `{TimerLayout}.

Lemma put_fresh b0 sz h live (s : timers D U) xs p n t m L h' :
  timers_ok b0 sz h live s xs -> (forall x, x ∈ xs -> x <> p + off_list) -> h <> p + off_list ->
  (forall x, x ∈ h :: xs -> L !! x = tlinks s !! x) ->
  client_inv b0 sz (Client h' (<[p := n]> live)) -> n = sizeof_zhyper_timer ->
  timers_ok b0 sz h (<[p := n]> live)
    (Build_timers (tgic s) h' L (<[p := t]> (objs s)) m (g_counter s) (user s)) xs.
Proof.
  intros [Hh Hl Ho Hv Hd] Hx Hne HL Hc Hn. split; [exact Hc| | | |done].
  - by eapply clist_ext.
  - intros x Hin. unfold timer_of. cbn. specialize (Hx x Hin). rewrite lookup_insert_ne by (unfold off_list in *; lia). by apply Ho.
  - intros x Hin. specialize (Hx x Hin). rewrite lookup_insert_ne by (unfold off_list in *; lia). by apply Hv.
Qed.

(** A fresh timer: the heap block, the fields and the empty list. *)
Lemma create_run b0 sz h live (s : timers D U) xs periodic interval cb a :
  timers_ok b0 sz h live s xs ->
  exists p s1, create_timer periodic interval cb a s = Ok p s1 /\
    (p = 0 \/ p <> 0 /\ live !! p = None) /\
    timers_ok b0 sz h (if p =? 0 then live else <[p := sizeof_zhyper_timer]> live) s1 xs /\
    objs s1 = (if p =? 0 then objs s else <[p := {| interval_ms := u32 interval; is_periodic := periodic;
      is_active := 0; callback := cb; t_arg := a; private := 0 |}]> (objs s)) /\
    (p <> 0 -> is_Some (tlinks s1 !! (p + off_list)) /\ p + off_list <> h) /\ same_rest s s1 /\ user s1 = user s.
Proof.
  intros Hok. pose proof Hok as [Hh Hl Ho Hv Hd].
  destruct (malloc_inv b0 sz _ sizeof_zhyper_timer Hh) as (p & h' & E & Hh' & Hp);
    [unfold sizeof_zhyper_timer, MAX_REQUEST; lia|].
  cbn [c_heap c_live] in *. unfold create_timer.
  assert (E1 : on_heap (malloc sizeof_zhyper_timer) s = Ok p (set_theap s h')).
  { unfold on_heap, zoom. by rewrite E. }
  mstep E1. destruct (Z.eqb_spec p 0) as [->|Hne].
  - exists 0, (set_theap s h'). rewrite Z.eqb_refl. split; [done|]. split; [by left|]. split; [by split|]. done.
  - destruct Hp as [Hp|[_ Hfar]]; [done|]. unfold put_timer. rewrite bind_modify.
    set (t := {| interval_ms := _ |}). set (s2 := set_objs <[p := t]> (set_theap s h')).
    assert (Hfresh : live !! p = None).
    { destruct (live !! p) as [n|] eqn:Hn; [|done]. destruct Hh as (bs & _ & _ & Hlv & _).
      pose proof (proj1 (Hlv p n Hn)). specialize (Hfar p n Hn). unfold sizeof_zhyper_timer in *. lia. }
    assert (Hhd : h <> p + off_list).
    { pose proof (client_inv_region b0 sz _ p sizeof_zhyper_timer Hh' ltac:(apply lookup_insert_eq)) as (_ & Hlo & Hhi & _).
      unfold off_list, sizeof_zhyper_timer in *. lia. }
    assert (Hxs : forall x, x ∈ xs -> x <> p + off_list).
    { intros x Hx ->. specialize (Hv _ Hx). replace (p + off_list - off_list) with p in Hv by lia. by rewrite Hfresh in Hv. }
    destruct (clist_init (p + off_list) (<[p + off_list := {| prev := 0; next := 0 |}]> (tlinks s)))
      as (L & EL & [FD F] & _); [rewrite lookup_insert_eq; by eexists|].
    assert (E2 : on_links (modify <[p + off_list := {| prev := 0; next := 0 |}]> ;; list_init (p + off_list)) s2
                 = Ok tt (set_tlinks s2 L)).
    { unfold on_links, zoom. rewrite bind_modify. change (tlinks s2) with (tlinks s). by rewrite EL. }
    mstep E2. exists p, (set_tlinks s2 L). rewrite (proj2 (Z.eqb_neq p 0)) by done.
    split; [done|]. split; [by right|]. split; [|split; [done|split; [|done]]].
    + apply put_fresh with (1 := Hok); [done|done| |done|done].
      intros x Hx. rewrite F by set_solver. apply lookup_insert_ne. set_solver.
    + intros _. split; [|congruence]. apply FD. rewrite lookup_insert_eq. by eexists.
Qed.

Lemma start_run b0 sz h live (s : timers D U) xs p t m mm :
  timers_ok b0 sz h live s xs -> h = m + off_timer_list -> p <> 0 -> m <> 0 ->
  objs s !! p = Some t -> managers s !! m = Some mm -> live !! p = Some sizeof_zhyper_timer ->
  is_Some (tlinks s !! (p + off_list)) -> p + off_list ∉ h :: xs ->
  exists s', start_timer p m s = Ok 0 s' /\ timers_ok b0 sz h live s' (p + off_list :: xs) /\
    objs s' = <[p := set_active 1 t]> (objs s) /\
    managers s' = <[m := {| nr_timers := u32 (nr_timers mm + 1); last_tick := last_tick mm |}]> (managers s) /\
    user s' = user s /\ tgic s' = tgic s.
Proof.
  intros [Hh Hl Ho Hv Hd] -> Hp Hm Ht Hmm Hlp Hlk Hnot.
  destruct (clist_add _ _ _ (p + off_list) Hl Hlk Hnot) as (L & EL & _ & HL).
  unfold start_timer. rewrite (proj2 (Z.eqb_neq p 0)), (proj2 (Z.eqb_neq m 0)) by done. rewrite bind_ret.
  rewrite (proj2 (Z.eqb_neq m 0)) by done. rewrite (bind_Ok _ _ s t s) by by apply get_timer_run.
  unfold put_timer. rewrite bind_modify. set (s1 := set_objs _ s).
  rewrite (bind_Ok _ _ s1 mm s1) by (unfold get_manager; change (managers s1) with (managers s); by rewrite Hmm).
  unfold put_manager. rewrite bind_modify. set (s2 := set_managers _ s1).
  assert (E : on_links (list_add (p + off_list) (m + off_timer_list)) s2 = Ok tt (set_tlinks s2 L)).
  { unfold on_links, zoom. change (tlinks s2) with (tlinks s). by rewrite EL. }
  mstep E. eexists. split; [reflexivity|]. split; [|done]. split; [exact Hh|exact HL| | |done].
  - intros x [->|Hx]%elem_of_cons; unfold timer_of; cbn.
    + replace (p + off_list - off_list) with p by lia. rewrite lookup_insert_eq. by eexists.
    + rewrite lookup_insert_ne; [by apply Ho|]. intros ->. apply Hnot. replace (x - off_list + off_list) with x by lia. set_solver.
  - intros x [->|Hx]%elem_of_cons; [by replace (p + off_list - off_list) with p by lia|by apply Hv].
Qed.

(** Both at once, from a heap that has room. *)
Lemma create_start_run b0 sz h live (s : timers D U) xs periodic interval cb a p m mm :
  timers_ok b0 sz h live s xs -> h = m + off_timer_list -> m <> 0 -> managers s !! m = Some mm ->
  returned (create_timer periodic interval cb a) s = Some p -> p <> 0 -> live !! p = None ->
  exists s', (p ← create_timer periodic interval cb a; start_timer p m) s = Ok 0 s' /\
    timers_ok b0 sz h (<[p := sizeof_zhyper_timer]> live) s' (p + off_list :: xs) /\
    objs s' = <[p := {| interval_ms := u32 interval; is_periodic := periodic; is_active := 1;
                        callback := cb; t_arg := a; private := 0 |}]> (objs s) /\
    managers s' = <[m := {| nr_timers := u32 (nr_timers mm + 1); last_tick := last_tick mm |}]> (managers s) /\
    user s' = user s /\ tgic s' = tgic s.
Proof.
  intros Hok Hh Hm Hmm Hret Hne Hfresh.
  destruct (create_run b0 sz h live s xs periodic interval cb a Hok) as (q & s1 & E & _ & Hok1 & Ho & Hl & (Hg & Hmg & _) & Hu).
  unfold returned in Hret. rewrite E in Hret. apply (inj Some) in Hret. subst q.
  rewrite (proj2 (Z.eqb_neq p 0) Hne) in Hok1, Ho. destruct (Hl Hne) as [Hlk Hhd]. rewrite <- Hmg in Hmm.
  destruct (start_run b0 sz h _ s1 xs p {| interval_ms := u32 interval; is_periodic := periodic;
      is_active := 0; callback := cb; t_arg := a; private := 0 |} m mm Hok1 Hh Hne Hm) as (s2 & E2 & Hok2 & Ho2 & Hm2 & Hu2 & Hg2).
  - rewrite Ho. apply lookup_insert_eq.
  - done.
  - apply lookup_insert_eq.
  - done.
  - apply not_elem_of_cons. split; [done|]. intros Hin.
    pose proof (to_live _ _ _ _ _ _ Hok _ Hin) as Hlv. replace (p + off_list - off_list) with p in Hlv by lia.
    by rewrite Hfresh in Hlv.
  - exists s2. split; [by mstep E|]. split; [done|]. rewrite Ho2, Hm2, Hu2, Hg2, Ho, Hmg, Hu, Hg.
    by rewrite insert_insert_eq.
Qed.
End Create.

(** * The interrupt *)

Definition rearm_writes (cntfrq : Z) : list event :=
  [EMsr "CNTHP_CTL_EL2" 0; EMsr "CNTHP_TVAL_EL2" 0;
   EMsr "CNTHP_TVAL_EL2" (u64 (cntfrq / 1000 * 1000)); EMsr "CNTHP_CTL_EL2" 1].

(** The handler around its walk of the timers, whose state [P] describes. *)
Lemma handler_runs {D U} `{Hardware D} `{Config} `{Callbacks U} `{TimerLayout}
    (s : timers D U) fuel irq c (P : timers D U -> Prop) :
  irqs (tgic s) !! irq = Some c -> arg c <> 0 ->
  (forall s2, same_timers (set_counter (fun n => u64 (n + 1)) s) s2 ->
     exists s3, list_for_each_safe tlinks set_tlinks fuel (arg c + off_timer_list) tick_timer s2 = Ok tt s3 /\
       same_rest s2 s3 /\ P s3) ->
  exists cntfrq s3 s' l,
    runs (timer_irq_handler fuel irq) s 0 s' l /\ EMrs "CNTFRQ_EL0" cntfrq ∈ l /\ effects l = rearm_writes cntfrq /\
    P s3 /\ same_timers s3 s' /\ g_counter s' = u64 (g_counter s + 1) /\ managers s' = managers s /\
    same_state (tgic s) (tgic s').
Proof.
  intros Hirq Hm Hwalk.
  pose proof (runs_on_gic (get_irq irq) s c (tgic s) [] ltac:(split; [unfold get_irq; by rewrite Hirq|by rewrite app_nil_r])) as R0.
  assert (Hs0 : set_tgic s (tgic s) = s) by by destruct s. rewrite Hs0 in R0.
  destruct (runs_reset s) as (s1 & l1 & R1 & E1 & S1).
  pose proof (runs_modify (set_counter (fun c => u64 (c + 1))) s1 eq_refl) as R2. set (s2 := set_counter _ s1) in *.
  destruct S1 as (Sg & Sh & Sl & So & Sm & Sc & Su).
  destruct (Hwalk s2) as (s3 & E3 & (Hg3 & Hm3 & Hc3) & HP).
  { split; [exact Sg|]. cbn. by rewrite Sc. }
  assert (R3 : runs (list_for_each_safe tlinks set_tlinks fuel (arg c + off_timer_list) tick_timer) s2 tt s3 []).
  { split; [done|]. change (trace_of (tgic s3) = trace_of (tgic s2) ++ []). by rewrite Hg3, app_nil_r. }
  destruct (runs_set 1000 s3) as (f & s4 & l4 & R4 & I4 & E4 & S4).
  pose proof (runs_ret 0 s4) as R5.
  exists f, s3, s4. eexists. split.
  { unfold timer_irq_handler. chain (R0, R1, R2). unfold truth. rewrite (proj2 (Z.eqb_neq _ _) Hm). cbn [negb when].
    chain (R3, R4, R5). }
  split; [rewrite !elem_of_app; tauto|]. split; [by rewrite !effects_app, E1, E4|].
  split; [done|]. split; [done|]. destruct S4 as (Tg & Th & Tl & To & Tm & Tc & Tu).
  rewrite Tm, Tc, Hm3, Hc3. split; [cbn; by rewrite Sc|]. split; [exact Sm|].
  etrans; [exact Sg|]. rewrite Hg3 in Tg. exact Tg.
Qed.

(** One timer interrupt. *)
Lemma handler_run {D U} `{Hardware D} `{Config} `{Callbacks U} `{TimerLayout}
    (s : timers D U) b0 sz live xs u2 fuel irq c :
  irqs (tgic s) !! irq = Some c -> arg c <> 0 ->
  timers_ok b0 sz (arg c + off_timer_list) live s xs ->
  run_calls (calls (objs s) xs) (user s) = Ok tt u2 -> (length xs <= fuel)%nat ->
  exists cntfrq s' l,
    runs (timer_irq_handler fuel irq) s 0 s' l /\ EMrs "CNTFRQ_EL0" cntfrq ∈ l /\
    effects l = rearm_writes cntfrq /\
    timers_ok b0 sz (arg c + off_timer_list) (without (objs s) xs live) s' (kept (objs s) xs) /\
    objs s' = without (objs s) xs (objs s) /\ user s' = u2 /\ g_counter s' = u64 (g_counter s + 1) /\
    managers s' = managers s /\ same_state (tgic s) (tgic s') /\
    links_without (objs s) xs (tlinks s) (tlinks s').
Proof.
  intros Hirq Hm Hok Hrun Hf.
  destruct (handler_runs s fuel irq c (fun s3 =>
      timers_ok b0 sz (arg c + off_timer_list) (without (objs s) xs live) s3 (kept (objs s) xs) /\
      objs s3 = without (objs s) xs (objs s) /\ user s3 = u2 /\
      links_without (objs s) xs (tlinks s) (tlinks s3)) Hirq Hm)
    as (f & s3 & s' & l & R & I & E & (Hok3 & Ho3 & Hu3 & HL3) & S3 & Hc & Hmg & Sg).
  { intros s2 S2. assert (Hok2 : timers_ok b0 sz (arg c + off_timer_list) live s2 xs)
      by (eapply timers_ok_same; [exact S2|]; destruct Hok; by split).
    destruct S2 as (Sg & Sh & Sl & So & Sm & Sc & Su). cbn in So, Su, Sl. rewrite <- So, <- Su in Hrun.
    destruct (tick_walk b0 sz _ live s2 xs u2 fuel Hok2 Hrun Hf) as (s3 & E3 & Hok3 & HO3 & Hs3 & Hu3 & HL3).
    rewrite So, Sl in *. by exists s3. }
  exists f, s', l. do 3 (split; [done|]). split; [by eapply timers_ok_same|].
  destruct S3 as (_ & _ & Tl & To & _ & _ & Tu). by rewrite To, Tu, Tl, Ho3, Hu3.
Qed.
