(* ===== verification/TimerTheorems.v ===== *)
(** The properties of the timer component, each with a concrete instance. *)
From Stdlib Require Import ZArith Lia.
From stdpp Require Import base gmap list strings.
From S2P Require Import Prelude Mem HeapSpec Miniheap HeapProof HeapClient Printf PrintfProof.
From S2P Require Import Io IoProof Spinlock GicRegs Gic GicIntr GicProof GicOpsProof CList Timer TimerProof.

Open Scope Z_scope.

(** * A concrete machine

    One CPU whose timer runs at 62.5 MHz; the callbacks log their calls. The heap of 256 bytes
    at 4096 and the manager at 64 are fresh. *)
Inductive clock := Clock.
#[global] Instance clock_hardware : Hardware clock := {
  mmio_read := fun _ _ d => (0, d); mmio_write := fun _ _ _ d => d;
  sys_read := fun r d => (if decide (r = "CNTFRQ_EL0"%string) then 62500000
                         else if decide (r = "ICC_IAR1_EL1"%string) then PPI_TIMER_INTID_EL2 else 0, d);
  sys_write := fun _ _ d => d }.
#[global] Instance clock_config : Config := {| NR_CPU := 1; HZ := 250; patience := 0 |}.
#[global] Instance clock_layout : TimerLayout := {| s_timer_manager := 64; timer_irq_handler_code := 0x1000 |}.
#[global] Instance log_callbacks : Callbacks (list (Z * Z * Z)) := fun cb t a l => Ok tt (l ++ [(cb, t, a)]).

(** The timer's context as plat_timer_init leaves it. *)
Definition clock_ctx : irq_context := timer_context 64 (ppi_context_of PPI_TIMER_INTID_EL2 irq_context_zero).

Definition clock_gic : gic clock :=
  {| gio := {| dev := Clock; trace := [] |}; gicd := gicd_context_zero; gicrs := ∅;
     irqs := {[PpiCtx 0 10 := clock_ctx]}; gicd_init_once := ONCE_INITIALIZER |}.

Definition clock_heap : heap_state := state_after (miniheap_init 4096 256) (HeapState (Miniheap 0 0 0 0 0) (zeros 4096 256)).

Definition clock_start : timers clock (list (Z * Z * Z)) :=
  {| tgic := clock_gic; theap := clock_heap; tlinks := {[80 := {| prev := 80; next := 80 |}]}; objs := ∅;
     managers := {[64 := {| nr_timers := 0; last_tick := 0 |}]}; g_counter := 0; user := [] |}.

Lemma clock_start_ok : timers_ok 4096 256 80 ∅ clock_start [].
Proof.
  split.
  - destruct (init_inv 4096 256 (HeapState (Miniheap 0 0 0 0 0) (zeros 4096 256))) as (s' & E & Hs).
    + split; [lia|lia|lia|apply (zeros_mapped 4096 256)].
    + done.
    + change (theap clock_start) with (state_after (miniheap_init 4096 256) (HeapState (Miniheap 0 0 0 0 0) (zeros 4096 256))).
      unfold state_after. by rewrite E.
  - split; [apply NoDup_singleton|]. split; reflexivity.
  - intros x Hx. by apply elem_of_nil in Hx.
  - intros x Hx. by apply elem_of_nil in Hx.
  - lia.
Qed.

(** The clock with one active timer, a one-shot or a periodic one. *)
Definition clock_timer (periodic : Z) : M (timers clock (list (Z * Z * Z))) Z :=
  p ← create_timer periodic 20 0x2000 7; start_timer p 64.
Definition clock_one (periodic : Z) : timers clock (list (Z * Z * Z)) := state_after (clock_timer periodic) clock_start.

Lemma clock_first_block periodic : returned (create_timer periodic 20 0x2000 7) clock_start = Some 4112.
Proof. vm_compute. reflexivity. Qed.

Lemma clock_one_ok periodic :
  timers_ok 4096 256 80 {[4112 := sizeof_zhyper_timer]} (clock_one periodic) [4152] /\
  objs (clock_one periodic) = {[4112 := {| interval_ms := 20; is_periodic := periodic; is_active := 1;
                                           callback := 0x2000; t_arg := 7; private := 0 |}]} /\
  user (clock_one periodic) = [] /\ tgic (clock_one periodic) = clock_gic /\
  managers (clock_one periodic) = {[64 := {| nr_timers := 1; last_tick := 0 |}]}.
Proof.
  destruct (create_start_run 4096 256 80 ∅ clock_start [] periodic 20 0x2000 7 4112 64 {| nr_timers := 0; last_tick := 0 |}
    clock_start_ok eq_refl ltac:(lia) ltac:(apply lookup_insert_eq) (clock_first_block periodic) ltac:(lia) ltac:(apply lookup_empty))
    as (s2 & E & Hok & Ho & Hm & Hu & Hg).
  unfold clock_one, clock_timer, state_after. rewrite E.
  split; [exact Hok|]. split; [exact Ho|]. split; [exact Hu|]. split; [exact Hg|exact Hm].
Qed.

(** * Properties *)

(** C14: one timer interrupt. The handler stops the hardware timer, counts the tick, runs the
    callback of every active timer once, in the order of the list and whatever its interval,
    removes from the list and frees exactly the active one-shot timers, keeps every other timer
    as it is, and arms the hardware timer for 1000 ms. The heap and the list stay well formed.
    The manager's count of timers stays, whatever was removed. *)
Theorem timer_tick {D U} `{Hardware D} `{Config} `{Callbacks U} `{TimerLayout}
    (s : timers D U) b0 sz live xs u2 fuel irq c :
  irqs (tgic s) !! irq = Some c -> arg c <> 0 ->
  timers_ok b0 sz (arg c + off_timer_list) live s xs ->
  run_calls (calls (objs s) xs) (user s) = Ok tt u2 -> (length xs <= fuel)%nat ->
  exists cntfrq s' l,
    runs (timer_irq_handler fuel irq) s 0 s' l /\ EMrs "CNTFRQ_EL0" cntfrq ∈ l /\
    effects l = [EMsr "CNTHP_CTL_EL2" 0; EMsr "CNTHP_TVAL_EL2" 0;
                 EMsr "CNTHP_TVAL_EL2" (u64 (cntfrq / 1000 * 1000)); EMsr "CNTHP_CTL_EL2" 1] /\
    timers_ok b0 sz (arg c + off_timer_list) (without (objs s) xs live) s' (kept (objs s) xs) /\
    objs s' = without (objs s) xs (objs s) /\ user s' = u2 /\ g_counter s' = u64 (g_counter s + 1) /\
    managers s' = managers s /\ same_state (tgic s) (tgic s').
Proof.
  intros Hirq Hm Hok Hrun Hf.
  destruct (handler_run s b0 sz live xs u2 fuel irq c Hirq Hm Hok Hrun Hf)
    as (f & s' & l & R & I & E & K & O & U1 & C & M & S & _).
  by exists f, s', l.
Qed.

Lemma timer_tick_witness :
  exists cntfrq s' l,
    runs (timer_irq_handler 1 (PpiCtx 0 10)) (clock_one 0) 0 s' l /\ EMrs "CNTFRQ_EL0" cntfrq ∈ l /\
    effects l = [EMsr "CNTHP_CTL_EL2" 0; EMsr "CNTHP_TVAL_EL2" 0;
                 EMsr "CNTHP_TVAL_EL2" (u64 (cntfrq / 1000 * 1000)); EMsr "CNTHP_CTL_EL2" 1] /\
    timers_ok 4096 256 80 (without (objs (clock_one 0)) [4152] {[4112 := sizeof_zhyper_timer]}) s'
      (kept (objs (clock_one 0)) [4152]) /\
    objs s' = without (objs (clock_one 0)) [4152] (objs (clock_one 0)) /\ user s' = [(0x2000, 4112, 7)] /\
    g_counter s' = u64 (g_counter (clock_one 0) + 1) /\
    managers s' = managers (clock_one 0) /\ same_state (tgic (clock_one 0)) (tgic s').
Proof.
  destruct (clock_one_ok 0) as (Hok & Ho & Hu & Hg & Hm).
  apply (timer_tick (clock_one 0) 4096 256 {[4112 := sizeof_zhyper_timer]} [4152] [(0x2000, 4112, 7)] 1
           (PpiCtx 0 10) clock_ctx).
  - by rewrite Hg.
  - done.
  - exact Hok.
  - by rewrite Ho, Hu.
  - done.
Defined.

(** Create_timer returns NULL when the heap has no room, and else a fresh timer that is not
    active yet; start_timer then puts it first on the manager's list, active, for the next tick
    to run, and counts it. Starting NULL gives -EINVAL. *)
Theorem timer_created_and_started {D U} `{Hardware D} `{Config} `{Callbacks U} `{TimerLayout}
    (s : timers D U) b0 sz live xs m mm periodic interval cb a :
  timers_ok b0 sz (m + off_timer_list) live s xs -> m <> 0 -> managers s !! m = Some mm ->
  start_timer 0 m s = Ok (- EINVAL) s /\
  exists p s1, create_timer periodic interval cb a s = Ok p s1 /\ user s1 = user s /\ same_rest s s1 /\
    ((p = 0 /\ objs s1 = objs s /\ timers_ok b0 sz (m + off_timer_list) live s1 xs) \/
     (p <> 0 /\ live !! p = None /\
      exists s2, start_timer p m s1 = Ok 0 s2 /\
        timers_ok b0 sz (m + off_timer_list) (<[p := sizeof_zhyper_timer]> live) s2 (p + off_list :: xs) /\
        objs s2 = <[p := {| interval_ms := u32 interval; is_periodic := periodic; is_active := 1;
                            callback := cb; t_arg := a; private := 0 |}]> (objs s) /\
        managers s2 = <[m := {| nr_timers := u32 (nr_timers mm + 1); last_tick := last_tick mm |}]> (managers s))).
Proof.
  intros Hok Hm Hmm. split; [done|].
  destruct (create_run b0 sz _ live s xs periodic interval cb a Hok) as (p & s1 & E & Hp & Hok1 & Ho & Hl & Hs & Hu).
  exists p, s1. split; [done|]. split; [done|]. split; [done|].
  destruct (Z.eqb_spec p 0) as [->|Hne]; [by left|right].
  destruct Hp as [Hp|[_ Hfresh]]; [done|]. split; [done|]. split; [done|].
  destruct (Hl Hne) as [Hlk Hhd]. destruct Hs as (Hg & Hmg & Hc). rewrite <- Hmg in Hmm.
  destruct (start_run b0 sz _ _ s1 xs p {| interval_ms := u32 interval; is_periodic := periodic;
      is_active := 0; callback := cb; t_arg := a; private := 0 |} m mm Hok1 eq_refl Hne Hm) as (s2 & E2 & Hok2 & Ho2 & Hm2 & _).
  - rewrite Ho. apply lookup_insert_eq.
  - done.
  - apply lookup_insert_eq.
  - done.
  - apply not_elem_of_cons. split; [done|]. intros Hin.
    pose proof (to_live _ _ _ _ _ _ Hok _ Hin) as Hlv. replace (p + off_list - off_list) with p in Hlv by lia.
    by rewrite Hfresh in Hlv.
  - exists s2. split; [done|]. split; [done|]. rewrite Ho2, Hm2, Ho, Hmg. split; [by rewrite insert_insert_eq|done].
Qed.

Lemma timer_created_and_started_witness :
  start_timer 0 64 clock_start = Ok (- EINVAL) clock_start /\
  exists p s1, create_timer 0 20 0x2000 7 clock_start = Ok p s1 /\ user s1 = user clock_start /\ same_rest clock_start s1 /\
    ((p = 0 /\ objs s1 = objs clock_start /\ timers_ok 4096 256 80 ∅ s1 []) \/
     (p <> 0 /\ (∅ : gmap Z Z) !! p = None /\
      exists s2, start_timer p 64 s1 = Ok 0 s2 /\
        timers_ok 4096 256 80 (<[p := sizeof_zhyper_timer]> ∅) s2 [p + off_list] /\
        objs s2 = <[p := {| interval_ms := u32 20; is_periodic := 0; is_active := 1;
                            callback := 0x2000; t_arg := 7; private := 0 |}]> (objs clock_start) /\
        managers s2 = <[64 := {| nr_timers := u32 (0 + 1); last_tick := 0 |}]> (managers clock_start))).
Proof.
  apply (timer_created_and_started clock_start 4096 256 ∅ [] 64 {| nr_timers := 0; last_tick := 0 |} 0 20 0x2000 7).
  - exact clock_start_ok.
  - done.
  - apply lookup_insert_eq.
Defined.

(** Start_timer does not notice that a timer is already running. Starting the timer that heads
    the list a second time makes it its own successor, and when it is periodic the next timer
    interrupt never returns, however many steps its walk is given. *)
Theorem timer_started_twice {D U} `{Hardware D} `{Config} `{Callbacks U} `{TimerLayout}
    (s : timers D U) b0 sz live p xs t mm irq c :
  timers_ok b0 sz (arg c + off_timer_list) live s (p + off_list :: xs) -> p <> 0 -> arg c <> 0 ->
  objs s !! p = Some t -> truth (is_periodic t) = true -> managers s !! arg c = Some mm ->
  (forall u, exists u', invoke (callback t) p (t_arg t) u = Ok tt u') ->
  irqs (tgic s) !! irq = Some c ->
  exists s1, start_timer p (arg c) s = Ok 0 s1 /\
    forall fuel, exists s2, timer_irq_handler fuel irq s1 = Stop Spin s2.
Proof.
  intros Hok Hp Hm Ht Hper Hmm Hcb Hirq. set (h := arg c + off_timer_list) in *. set (x := p + off_list) in *.
  destruct (list_add_again _ _ _ _ (to_list _ _ _ _ _ _ Hok)) as (L & EL & Nh & Nx).
  assert (Hxh : x <> h) by (destruct (to_list _ _ _ _ _ _ Hok) as [Hnd _]; revert Hnd; rewrite NoDup_cons; set_solver).
  eexists. split.
  { unfold start_timer. rewrite (proj2 (Z.eqb_neq p 0)), (proj2 (Z.eqb_neq (arg c) 0)) by done. rewrite bind_ret.
    rewrite (proj2 (Z.eqb_neq (arg c) 0)) by done. rewrite (bind_Ok _ _ s t s) by by apply get_timer_run.
    unfold put_timer. rewrite bind_modify.
    set (s1 := set_objs _ s). rewrite (bind_Ok _ _ s1 mm s1) by (unfold get_manager; change (managers s1) with (managers s); by rewrite Hmm).
    unfold put_manager. rewrite bind_modify. set (s2 := set_managers _ s1).
    assert (E : on_links (list_add x h) s2 = Ok tt (set_tlinks s2 L)).
    { unfold on_links, zoom. change (tlinks s2) with (tlinks s). by rewrite EL. }
    mstep E. reflexivity. }
  intros fuel. unfold timer_irq_handler.
  match goal with |- context [_ ?s0 = Stop Spin _] => set (s1 := s0) end.
  rewrite (bind_Ok _ _ s1 c s1) by (unfold on_gic, zoom, get_irq; cbn; by rewrite Hirq).
  destruct (runs_reset s1) as (s2 & l & [R _] & _ & (Sg & _ & Sl & So & _)).
  cbn zeta. mstep R. rewrite bind_modify. set (s3 := set_counter _ s2).
  unfold truth. rewrite (proj2 (Z.eqb_neq _ _) Hm). cbn [negb when].
  set (P := fun s : timers D U => nxt (tlinks s) h = Some x /\ nxt (tlinks s) x = Some x /\ objs s !! p = Some (set_active 1 t)).
  assert (HP : P s3) by (unfold P; change (tlinks s3) with (tlinks s2); change (objs s3) with (objs s2); rewrite Sl, So;
    split; [exact Nh|split; [exact Nx|apply lookup_insert_eq]]).
  destruct (safe_loop_self tlinks set_tlinks tick_timer h x P fuel s3) as (s4 & E4); [by intros []|done| |done|].
  - intros s0 (N1 & N2 & O). split; [done|]. destruct (Hcb (user s0)) as [u' Hu'].
    exists (if truth (callback t) then set_user s0 u' else s0).
    unfold tick_timer, list_entry. replace (x - off_list) with p by (unfold x; lia).
    rewrite (bind_Ok _ _ s0 (set_active 1 t) s0) by by apply get_timer_run. cbn [is_active set_active truth Z.eqb negb when callback t_arg].
    assert (Ecall : when (truth (callback t)) (on_user (invoke (callback t) p (t_arg t))) s0 =
      Ok tt (if truth (callback t) then set_user s0 u' else s0)).
    { destruct (truth (callback t)); cbn [when]; [|done]. unfold on_user, zoom. by rewrite Hu'. }
    mstep Ecall. set (s5 := if truth (callback t) then _ else _).
    assert (Ho5 : objs s5 !! p = Some (set_active 1 t)) by (unfold s5; by destruct (truth (callback t))).
    rewrite (bind_Ok _ _ s5 (set_active 1 t) s5) by by apply get_timer_run.
    cbn [is_periodic set_active]. rewrite Hper. cbn [negb when]. split; [done|].
    unfold P, s5. by destruct (truth (callback t)).
  - exists s4. apply bind_Stop. unfold list_for_each_safe. destruct HP as (N1 & N2 & _).
    mstep (read_next tlinks set_tlinks ltac:(by intros []) _ _ s3 N1).
    mstep (read_next tlinks set_tlinks ltac:(by intros []) _ _ s3 N2). exact E4.
Qed.

Lemma timer_started_twice_witness :
  exists s1, start_timer 4112 64 (clock_one 1) = Ok 0 s1 /\
    forall fuel, exists s2, timer_irq_handler fuel (PpiCtx 0 10) s1 = Stop Spin s2.
Proof.
  destruct (clock_one_ok 1) as (Hok & Ho & Hu & Hg & Hm).
  apply (timer_started_twice (clock_one 1) 4096 256 {[4112 := sizeof_zhyper_timer]} 4112 []
           {| interval_ms := 20; is_periodic := 1; is_active := 1; callback := 0x2000; t_arg := 7; private := 0 |}
           {| nr_timers := 1; last_tick := 0 |} (PpiCtx 0 10) clock_ctx).
  - exact Hok.
  - done.
  - done.
  - rewrite Ho. apply lookup_insert_eq.
  - done.
  - rewrite Hm. apply lookup_insert_eq.
  - intros u. by eexists.
  - by rewrite Hg.
Defined.
