(* ===== verification/TimerInitProof.v ===== *)
(** The timer's set-up: the manager of this CPU, the interrupt context, and the hardware timer
    started last. *)
From Stdlib Require Import ZArith Lia.
From stdpp Require Import base gmap list strings.
From S2P Require Import Prelude Mem HeapSpec Miniheap HeapProof HeapClient Printf PrintfProof Io IoProof Spinlock GicRegs Gic GicIntr.
From S2P Require Import GicProof GicIntrProof GicOpsProof CList Timer TimerProof.

Open Scope Z_scope.

Section Init.
Context {D U : Type} `{Hardware D} `{Config} `{Callbacks U} `{TimerLayout}.
Context (cpu : Z) (Hcpu : on_this_cpu (D:=D) cpu).

Definition this_manager : Z := s_timer_manager + sizeof_timer_manager * cpu.

Lemma runs_this_manager (s : timers D U) : exists v s',
  runs get_percpu_timer_manager s this_manager s' [EMrs "MPIDR_EL1" v] /\ same_timers s s'.
Proof using Hcpu.
  destruct Hcpu as [Hlt Hid]. eexists _, _. split.
  - unfold get_percpu_timer_manager, on_gic, hw, zoom, cpu_id, read_sysreg, access, mbind, M_bind. cbn.
    split; [unfold mret, M_ret; rewrite Hid; rewrite (proj2 (Z.leb_gt _ _)) by done; reflexivity|reflexivity].
  - done.
Qed.

(** The manager is emptied and its time stamp taken. *)
Lemma runs_manager_init (s : timers D U) m mm :
  m <> 0 -> managers s !! m = Some mm -> is_Some (tlinks s !! (m + off_timer_list)) ->
  exists t s', runs (percpu_timer_manager_init m) s tt s' [EMrs "CNTVCT_EL0" t] /\
    same_state (tgic s) (tgic s') /\ theap s' = theap s /\ objs s' = objs s /\ user s' = user s /\ g_counter s' = g_counter s /\
    managers s' = <[m := {| nr_timers := 0; last_tick := t |}]> (managers s) /\
    clist (tlinks s') (m + off_timer_list) [].
Proof using.
  intros Hm Hmm Hh. destruct (clist_init _ _ Hh) as (L & EL & _ & HL). unfold percpu_timer_manager_init. rewrite (proj2 (Z.eqb_neq _ _) Hm).
  pose proof (runs_modify (set_managers <[m := {| nr_timers := 0; last_tick := last_tick mm |}]>) s eq_refl) as R2.
  set (s2 := set_managers _ s) in *.
  destruct (runs_mrs "CNTVCT_EL0" (tgic s2)) as (t & g & R3 & S3). apply runs_on_gic in R3. set (s3 := set_tgic s2 g) in *.
  set (f := set_managers (D:=D) (U:=U) <[m := {| nr_timers := 0; last_tick := t |}]>).
  assert (R4 : runs (modify f) s3 tt (f s3) []) by by apply runs_modify.
  set (s4 := f s3) in *.
  assert (R1 : runs (get_manager m) s mm s []) by (split; [unfold get_manager; by rewrite Hmm|by rewrite app_nil_r]).
  assert (R5 : runs (on_links (list_init (m + off_timer_list))) s4 tt
      (set_tlinks s4 L) []).
  { split; [|by rewrite app_nil_r]. unfold on_links, zoom. change (tlinks s4) with (tlinks s).
    by rewrite EL. }
  exists t. eexists. split; [change [EMrs "CNTVCT_EL0" t] with ([] ++ [] ++ [EMrs "CNTVCT_EL0" t] ++ [] ++ []); chain (R1, R2, R3, R4, R5)|].
  split; [exact S3|]. do 4 (split; [done|]). split; [|exact HL].
  etrans; [|apply (insert_insert_eq (managers s) m)]. reflexivity.
Qed.

(** What plat_timer_init leaves of the state: the manager empty, the interrupt's context
    installed, everything else as it was. *)
Record timer_set_up (m : Z) (c0 : irq_context) (s s' : timers D U) : Prop := {
  su_heap : theap s' = theap s; su_objs : objs s' = objs s; su_user : user s' = user s;
  su_counter : g_counter s' = g_counter s;
  su_manager : exists t, managers s' = <[m := {| nr_timers := 0; last_tick := t |}]> (managers s);
  su_list : clist (tlinks s') (m + off_timer_list) [];
  su_irqs : irqs (tgic s') = <[PpiCtx cpu (PPI_TIMER_INTID_EL2 - 16) :=
      timer_context m (ppi_context_of PPI_TIMER_INTID_EL2 c0)]> (irqs (tgic s)) }.

Lemma timer_ppi_valid m c0 : valid_ctx (PpiCtx cpu (PPI_TIMER_INTID_EL2 - 16)) (timer_context m (ppi_context_of PPI_TIMER_INTID_EL2 c0)).
Proof using. unfold ppi_context_of. destruct (decide _) as [[Hi Ho]|Hn]; cbn; rewrite ?Hi, ?Ho; (split; [done|unfold PPI_TIMER_INTID_EL2; lia]). Qed.

Lemma runs_plat_timer_init (s : timers D U) g c0 mm interval :
  driver_ready cpu (tgic s) g -> irqs (tgic s) !! PpiCtx cpu (PPI_TIMER_INTID_EL2 - 16) = Some c0 ->
  this_manager <> 0 -> managers s !! this_manager = Some mm -> is_Some (tlinks s !! (this_manager + off_timer_list)) ->
  exists cntfrq s' l le,
    runs (plat_timer_init interval) s tt s' l /\ EMrs "CNTFRQ_EL0" cntfrq ∈ l /\
    effects l = effects le ++ [EMsr "CNTHP_TVAL_EL2" (u64 (cntfrq / 1000 * u32 interval)); EMsr "CNTHP_CTL_EL2" 1] /\
    enable_writes (tgic s) g (PpiCtx cpu (PPI_TIMER_INTID_EL2 - 16))
      (timer_context this_manager (ppi_context_of PPI_TIMER_INTID_EL2 c0)) le /\
    timer_set_up this_manager c0 s s'.
Proof using Hcpu.
  intros Hr Hc Hm Hmm Hl. set (m := this_manager) in *. set (p := PpiCtx cpu (PPI_TIMER_INTID_EL2 - 16)) in *.
  destruct (runs_mrs "CNTFRQ_EL0" (tgic s)) as (f & g1 & R1 & S1). apply runs_on_gic in R1. set (s1 := set_tgic s g1) in *.
  destruct (runs_pr (ln "frequency: %lu Hz, interval: %u ms, cntv_tval: %lu") [f; interval; u64 (f / 1000 * u32 interval)] g1 eq_refl)
    as (g2 & t2 & R2 & S2). apply (runs_on_gic _ s1) in R2. set (s2 := set_tgic s1 g2) in *.
  destruct (runs_this_manager s2) as (v & s3 & R3 & S3). fold m in R3.
  assert (S : same_timers s s3) by (etrans; [|exact S3]; split; [by etrans|done]).
  destruct S as (Sg & Sh & Sk & So & Sm & Sc & Su).
  rewrite <- (same_irqs _ _ Sg) in Hc. rewrite <- Sm in Hmm. rewrite <- Sk in Hl.
  destruct (runs_get_ppi cpu Hcpu (tgic s3) PPI_TIMER_INTID_EL2 c0 ltac:(done) Hc) as (w & g4 & R4 & S4).
  fold p in R4, S4. apply runs_on_gic in R4. set (s4 := set_tgic s3 g4) in *.
  destruct (runs_manager_init s4 m mm Hm Hmm Hl) as (t & s5 & R5 & S5 & Kh & Ko & Ku & Kc & Km & Kl).
  set (c1 := ppi_context_of PPI_TIMER_INTID_EL2 c0) in *. set (c2 := timer_context m c1).
  assert (Hi5 : irqs (tgic s5) = <[p := c1]> (irqs (tgic s))).
  { rewrite (same_irqs _ _ S5). change (tgic s4) with g4. rewrite (same_irqs _ _ S4). cbn. by rewrite (same_irqs _ _ Sg). }
  pose proof (runs_on_gic _ s5 c1 _ [] (runs_get_irq (tgic s5) p c1 ltac:(by rewrite Hi5, lookup_insert_eq))) as R6.
  replace (set_tgic s5 (tgic s5)) with s5 in R6 by by destruct s5.
  pose proof (runs_on_gic _ s5 tt _ [] (runs_put (tgic s5) p c2)) as R7. set (s7 := set_tgic s5 _) in R7.
  assert (Hd : gicd (tgic s7) = gicd (tgic s) /\ gicrs (tgic s7) = gicrs (tgic s)).
  { destruct Sg as (D1 & D2 & _), S4 as (D3 & D4 & _), S5 as (D5 & D6 & _). cbn in *.
    by rewrite D5, D6, D3, D4, D1, D2. }
  assert (Hi7 : irqs (tgic s7) = <[p := c2]> (irqs (tgic s))) by (cbn; rewrite Hi5; apply insert_insert_eq).
  assert (Hr7 : driver_ready cpu (tgic s7) g) by (destruct Hd as [Hd1 Hd2], Hr; split; rewrite ?Hd1, ?Hd2; done).
  destruct (irq_enable_acts cpu Hcpu (tgic s7) g Hr7 p c2 ltac:(by rewrite Hi7, lookup_insert_eq) (timer_ppi_valid m c0) (tgic s7)
    ltac:(done)) as (g8 & le & R8 & S8 & E8). apply runs_on_gic in R8. set (s8 := set_tgic s7 g8) in *.
  destruct (runs_arm (f / 1000 * u32 interval) s8) as (s11 & l & R9 & E9 & Send).
  exists f, s11. eexists _, le. split.
  { unfold plat_timer_init. chain (R1, R2, R3). rewrite (proj2 (Z.eqb_neq _ _) Hm). chain_one R4. cbn iota. chain_one R5. chain_one R6. chain_one R7. chain_one R8. exact R9. }
  split; [by left|]. split; [|split].
  - rewrite !effects_app, effects_putc, E9. cbn [effects filter effect app]. done.
  - destruct Hd as [Hd1 _]. unfold enable_writes, enable_reg, prio_reg, group_reg, trigger_reg in *. rewrite Hd1 in E8. exact E8.
  - destruct Send as (Tg & Th & Tk & To & Tm & Tc & Tu). cbn in Th, Tk, To, Tm, Tc, Tu. split.
    + by rewrite Th, Kh, <- Sh.
    + by rewrite To, Ko, <- So.
    + by rewrite Tu, Ku, <- Su.
    + by rewrite Tc, Kc, <- Sc.
    + exists t. by rewrite Tm, Km, <- Sm.
    + by rewrite Tk.
    + rewrite (same_irqs _ _ Tg). change (tgic s8) with g8. by rewrite (same_irqs _ _ S8).
Qed.

(** start_timer with no manager takes this CPU's. *)
Lemma runs_start_here (s : timers D U) b0 sz live xs p t mm :
  this_manager <> 0 -> timers_ok b0 sz (this_manager + off_timer_list) live s xs -> p <> 0 ->
  objs s !! p = Some t -> managers s !! this_manager = Some mm -> live !! p = Some sizeof_zhyper_timer ->
  is_Some (tlinks s !! (p + off_list)) -> p + off_list ∉ this_manager + off_timer_list :: xs ->
  exists v s', runs (start_timer p 0) s 0 s' [EMrs "MPIDR_EL1" v] /\
    timers_ok b0 sz (this_manager + off_timer_list) live s' (p + off_list :: xs) /\
    objs s' = <[p := set_active 1 t]> (objs s) /\
    managers s' = <[this_manager := {| nr_timers := u32 (nr_timers mm + 1); last_tick := last_tick mm |}]> (managers s) /\
    user s' = user s /\ same_state (tgic s) (tgic s').
Proof using Hcpu.
  intros Hm Hok Hp Ht Hmm Hl Hlk Hnot. destruct (runs_this_manager s) as (v & s1 & [E1 T1] & S1).
  pose proof (timers_ok_same _ _ _ _ _ _ _ S1 Hok) as Hok1. destruct S1 as (Sg & Sh & Sk & So & Sm & Sc & Su).
  rewrite <- So in Ht |- *. rewrite <- Sm in Hmm |- *. rewrite <- Sk in Hlk. rewrite <- Su.
  destruct (start_run b0 sz _ live s1 xs p t this_manager mm Hok1 eq_refl Hp Hm Ht Hmm Hl Hlk Hnot)
    as (s2 & E2 & Hok2 & Ho2 & Hm2 & Hu2 & Hg2).
  exists v, s2. split; [split|].
  - unfold start_timer in *. rewrite (proj2 (Z.eqb_neq p 0)) in * by done. rewrite Z.eqb_refl.
    rewrite (proj2 (Z.eqb_neq this_manager 0)) in E2 by done. rewrite bind_ret in E2. mstep E1. exact E2.
  - etrans; [|exact T1]. unfold trace_of, timers_traced. by rewrite Hg2.
  - split; [done|]. split; [done|]. split; [done|]. split; [done|]. by rewrite Hg2.
Qed.
End Init.

(** The first timer takes the first block of the heap. *)
Lemma create_first {D U} `{Hardware D} `{Config} `{Callbacks U} `{TimerLayout} b0 sz h (s : timers D U) periodic interval cb a :
  timers_ok b0 sz h ∅ s [] -> 80 <= sz -> returned (create_timer periodic interval cb a) s = Some (b0 + 16).
Proof.
  intros Hok Hsz. pose proof (client_inv_recovered _ _ _ (to_heap _ _ _ _ _ _ Hok) ltac:(lia)) as Hr.
  pose proof (alloc_refines _ _ _ sizeof_zhyper_timer Hr ltac:(unfold sizeof_zhyper_timer; lia)) as Ha.
  destruct (create_run b0 sz h ∅ s [] periodic interval cb a Hok) as (p & s1 & E & _).
  unfold returned. rewrite E. f_equal. cbn [spec_alloc is_free bsize andb] in Ha.
  rewrite (proj2 (Z.leb_le _ _)) in Ha by (vm_compute (need _); lia).
  assert (Hm : exists h', miniheap_alloc sizeof_zhyper_timer (theap s) = Ok (b0 + 16) h').
  { replace (b0 + 16) with (b0 + 0 + 16) by lia. by destruct (sz =? need sizeof_zhyper_timer); destruct Ha as (h' & Ea & _); exists h'. }
  destruct Hm as (h' & Ea). clear Ha Hok. unfold create_timer in E.
  apply bind_inv_Ok in E as (q & s2 & Em & E). unfold on_heap, zoom, malloc in Em. rewrite Ea in Em.
  apply Ok_inj in Em as [<- _]. destruct (Z.eqb_spec (b0 + 16) 0) as [Hz|_]; [apply Ok_inj in E as [E _]; lia|].
  apply bind_inv_Ok in E as (? & ? & _ & E). apply bind_inv_Ok in E as (? & ? & _ & E). by apply Ok_inj in E as [<- _].
Qed.

