(* ===== verification/Exception.v ===== *)
(** Exceptions taken to EL2: platform/aarch64/main/el2_sync.c and the syndrome macros of
    include/aarch64_utils.h.

    The report of a synchronous exception prints, reads system registers and follows frame
    pointers through memory, on any machine that satisfies [Host]. The interrupt entry works on the state of the timers and of the interrupt
    controller below them. *)
From Stdlib Require Import ZArith Lia.
From stdpp Require Import base gmap list strings.
From S2P Require Import Prelude Mem Miniheap Printf Io Host GicRegs Gic GicIntr CList Timer.

Open Scope Z_scope.

(** * The syndrome *)

Definition ESR_EC_MASK : Z := 0x3F.
Definition ESR_EC_SHIFT : Z := 26.
Definition ESR_IL_MASK : Z := 0x1F.
Definition ESR_IL_SHIFT : Z := 25.
Definition ESR_ISS_MASK : Z := 0x1FFFFFF.
Definition ESR_ISS_SHIFT : Z := 0.

Definition ESR_EC (esr : Z) : Z := Z.land (Z.shiftr esr ESR_EC_SHIFT) ESR_EC_MASK.
Definition ESR_IL (esr : Z) : Z := Z.land (Z.shiftr esr ESR_IL_SHIFT) ESR_IL_MASK.
Definition ESR_ISS (esr : Z) : Z := Z.land (Z.shiftr esr ESR_ISS_SHIFT) ESR_ISS_MASK.

(** [enum DABT_FIELD]: the first and the last bit of each field. *)
Inductive dabt_field := DFSC | WnR | S1PTW | CM | EA | FnV | SET | VNCR | AR | SF | SRT | SSE | SAS | ISV.

Definition dabt_start (f : dabt_field) : Z :=
  match f with
  | DFSC => 0 | WnR => 6 | S1PTW => 7 | CM => 8 | EA => 9 | FnV => 10 | SET => 11 | VNCR => 13
  | AR => 14 | SF => 15 | SRT => 16 | SSE => 19 | SAS => 20 | ISV => 24
  end.
Definition dabt_end (f : dabt_field) : Z :=
  match f with
  | DFSC => 5 | WnR => 6 | S1PTW => 7 | CM => 8 | EA => 9 | FnV => 10 | SET => 12 | VNCR => 13
  | AR => 14 | SF => 15 | SRT => 18 | SSE => 19 | SAS => 21 | ISV => 24
  end.

Definition GET_DABT_FIELD (value : Z) (f : dabt_field) : Z :=
  Z.land (Z.shiftr value (dabt_start f)) (u32 (Z.shiftl 1 (dabt_end f - dabt_start f + 1)) - 1).

(** [enum EC_Type]: the exception classes and their codes. *)
Inductive EC_Type :=
  | EC_UNKNOWN | EC_WFI_WFE | EC_CP15_MRC_MCR | EC_CP15_MRRC
  | EC_CP14_MRC_MCR | EC_CP14_LDC_STC | EC_AARCH32_SIMD_FP | EC_AARCH64_SIMD_FP
  | EC_ILLEGAL_STATE | EC_SVC_AARCH32 | EC_SVC_AARCH64 | EC_SYS_REG_TRAP_AARCH32
  | EC_SYS_REG_TRAP_AARCH64 | EC_INSN_ABORT_LOWER_EL | EC_INSN_ABORT_SAME_EL | EC_DATA_ABORT_LOWER_EL
  | EC_DATA_ABORT_SAME_EL | EC_PC_ALIGNMENT_FAULT | EC_SP_ALIGNMENT_FAULT | EC_FP_EXC_AARCH32
  | EC_FP_EXC_AARCH64 | EC_SERROR_INT | EC_BREAKPOINT_AARCH32 | EC_BREAKPOINT_AARCH64
  | EC_SOFTWARE_STEP_AARCH32 | EC_SOFTWARE_STEP_AARCH64 | EC_WATCHPOINT_AARCH32 | EC_WATCHPOINT_AARCH64
  | EC_BKPT_INSN_AARCH32 | EC_VECTOR_CATCH_AARCH32 | EC_BKPT_INSN_AARCH64.

Definition ec_code (c : EC_Type) : Z :=
  match c with
  | EC_UNKNOWN => 0x00 | EC_WFI_WFE => 0x01 | EC_CP15_MRC_MCR => 0x03
  | EC_CP15_MRRC => 0x04 | EC_CP14_MRC_MCR => 0x05 | EC_CP14_LDC_STC => 0x06
  | EC_AARCH32_SIMD_FP => 0x07 | EC_AARCH64_SIMD_FP => 0x08 | EC_ILLEGAL_STATE => 0x0E
  | EC_SVC_AARCH32 => 0x11 | EC_SVC_AARCH64 => 0x15 | EC_SYS_REG_TRAP_AARCH32 => 0x12
  | EC_SYS_REG_TRAP_AARCH64 => 0x16 | EC_INSN_ABORT_LOWER_EL => 0x20 | EC_INSN_ABORT_SAME_EL => 0x21
  | EC_DATA_ABORT_LOWER_EL => 0x24 | EC_DATA_ABORT_SAME_EL => 0x25 | EC_PC_ALIGNMENT_FAULT => 0x22
  | EC_SP_ALIGNMENT_FAULT => 0x26 | EC_FP_EXC_AARCH32 => 0x28 | EC_FP_EXC_AARCH64 => 0x2C
  | EC_SERROR_INT => 0x2F | EC_BREAKPOINT_AARCH32 => 0x30 | EC_BREAKPOINT_AARCH64 => 0x34
  | EC_SOFTWARE_STEP_AARCH32 => 0x31 | EC_SOFTWARE_STEP_AARCH64 => 0x35 | EC_WATCHPOINT_AARCH32 => 0x32
  | EC_WATCHPOINT_AARCH64 => 0x36 | EC_BKPT_INSN_AARCH32 => 0x38 | EC_VECTOR_CATCH_AARCH32 => 0x3A
  | EC_BKPT_INSN_AARCH64 => 0x3C
  end.

Definition is_data_abort (ec : Z) : bool := (ec =? ec_code EC_DATA_ABORT_LOWER_EL) || (ec =? ec_code EC_DATA_ABORT_SAME_EL).

(** [struct aarch64_gpregs] *)
Record aarch64_gpregs := { x : list Z; sp : Z; pc : Z; spsr : Z }.

Section Report.
Context {S : Type} `{Host S}.

Definition AText (s : string) : Printf.arg := AStr (Some (str s)).
(** [b ? "yes" : "no"] *)
Definition choice (b : Z) (yes no : string) : Printf.arg := AText (if truth b then yes else no).

Definition dump_esr (esr : Z) : M S unit :=
  let ec := ESR_EC esr in
  let iss := ESR_ISS esr in
  say (ln "Error Syndrome (ESR): 0x%lx") [AInt esr] ;;
  say (ln "  Exception Class (EC): 0x%x") [AInt ec] ;;
  say (ln "  Instruction Length (IL): %s") [choice (ESR_IL esr) "32 bits" "16 bits"] ;;
  say (ln "  Instruction Specific Syndrome (ISS): 0x%lx") [AInt iss] ;;
  when (is_data_abort ec)
    (say (ln "  Data Abort Details:") [] ;;
     say (ln "    Data Fault Status Code (DFSC): 0x%x") [AInt (u32 (GET_DABT_FIELD iss DFSC))] ;;
     say (ln "    Write not Read (WnR): %s") [choice (u32 (GET_DABT_FIELD iss WnR)) "Write" "Read"] ;;
     say (ln "    Stage 1 Translation Table Walk (S1PTW): %s") [choice (u32 (GET_DABT_FIELD iss S1PTW)) "Yes" "No"] ;;
     say (ln "    Cache Maintenance (CM): %s") [choice (u32 (GET_DABT_FIELD iss CM)) "Yes" "No"] ;;
     say (ln "    External Abort (EA): %s") [choice (u32 (GET_DABT_FIELD iss EA)) "Yes" "No"]).

(** [regs->x[i]] *)
Definition reg_x (regs : aarch64_gpregs) (i : nat) : M S Z :=
  match x regs !! i with Some v => mret v | None => stop_with (Undef "x") end.

(** The registers of one line, each a number and a value. *)
Fixpoint reg_args (regs : aarch64_gpregs) (i n : nat) : M S (list Printf.arg) :=
  match n with
  | O => mret []
  | Datatypes.S n' => v ← reg_x regs i; rest ← reg_args regs (i + 1) n'; mret (AInt (Z.of_nat i) :: AInt v :: rest)
  end.

Definition reg_line (regs : aarch64_gpregs) (i : nat) : M S unit :=
  if (i + 3 =? 31)%nat then
    args ← reg_args regs i 3;
    say (ln "X%-2d: 0x%016lx  X%-2d: 0x%016lx  X%-2d: 0x%016lx") args
  else
    args ← reg_args regs i 4;
    say (ln "X%-2d: 0x%016lx  X%-2d: 0x%016lx  X%-2d: 0x%016lx  X%-2d: 0x%016lx") args.

(** [for (int i = 0; i < 31; i += 4)]: [n] iterations are left. *)
Fixpoint reg_lines (regs : aarch64_gpregs) (i n : nat) : M S unit :=
  match n with
  | O => mret tt
  | Datatypes.S n' => when (i <? 31)%nat (reg_line regs i ;; reg_lines regs (i + 4) n')
  end.

(** The loop of aarch64_backtrace: [n] of [max_frames] iterations are left. *)
Fixpoint backtrace_loop (n i : nat) (frame_ptr : Z) : M S unit :=
  match n with
  | O => mret tt
  | Datatypes.S n' =>
      if frame_ptr =? 0 then mret tt else
      return_addr ← load host_mem 8 (u64 (frame_ptr + 8));
      say (ln "  Frame %d: PC = 0x%lx") [AInt (Z.of_nat i); AInt return_addr] ;;
      next ← load host_mem 8 frame_ptr;
      backtrace_loop n' (i + 1) next
  end.

Definition aarch64_backtrace (regs : aarch64_gpregs) (max_frames : Z) : M S unit :=
  say (ln "Backtrace: ") [] ;;
  fp ← reg_x regs 29;
  backtrace_loop (Z.to_nat max_frames) 0 fp.

Definition dump_registers (regs : aarch64_gpregs) : M S unit :=
  esr ← mrs "ESR_EL2";
  dump_esr esr ;;
  say (ln "Register dump:") [] ;;
  far ← mrs "FAR_EL2";
  say (ln "FAR: 0x%lx") [AInt far] ;;
  say (ln "SP: 0x%lx, PC: 0x%lx, Pstate: 0x%lx") [AInt (sp regs); AInt (pc regs); AInt (spsr regs)] ;;
  reg_lines regs 0 8 ;;
  aarch64_backtrace regs 10.

(** [while (1) wfi();] *)
Definition hang {A} : M S A := stop_with Hang.

Definition el2_dabt (regs : aarch64_gpregs) : M S unit :=
  say (ln "EL2 Sync Exception occurred! ") [] ;;
  dump_registers regs ;;
  hang.

Definition el2_sync (regs : aarch64_gpregs) : M S Z :=
  esr ← mrs "ESR_EL2";
  let ec := ESR_EC esr in
  (if is_data_abort ec then el2_dabt regs
   else
     say (ln "Unhandled EL2 Sync Exception! ") [] ;;
     _ ← host_flush;
     dump_registers regs ;;
     hang) ;;
  mret 0.

Definition el2_fiq (regs : aarch64_gpregs) : M S Z :=
  say (ln "EL2 FIQ Exception occurred! ") [] ;;
  dump_registers regs ;;
  hang.

(** The report of panic, with a format and its arguments or without, and the load from
    address 1 that ends it. *)
Definition panic_report (fmt : option (string * list Printf.arg)) : M S unit :=
  match fmt with
  | Some (f, args) =>
      say "-------------- PANIC: " [] ;;
      _ ← vprintf (str f) args;
      say (ln " --------------") []
  | None => say (ln "-------------- PANIC --------------") []
  end ;;
  stop_with (Fault 1).
End Report.

(** * Interrupts *)

(** Handlers other than the timer's, by code address. *)
Class IrqHandlers (D U : Type) := other_handler : Z -> irq_ptr -> M (timers D U) Z.

Section Irq.
Context {D U : Type} `{Hardware D} `{Config} `{Callbacks U} `{TimerLayout} `{IrqHandlers D U}.

(** [irq->handle(irq, regs)]; no handler looks at the registers. *)
Definition call_handle (fuel : nat) (h : Z) (irq : irq_ptr) : M (timers D U) Z :=
  if h =? timer_irq_handler_code then timer_irq_handler fuel irq else other_handler h irq.

Definition el2_irq (fuel : nat) : M (timers D U) Z :=
  v ← on_gic (hw (read_sysreg "ICC_IAR1_EL1"));
  let id := u32 v in
  irq ← on_gic (get_irq_context id);
  h ← match irq with Some p => c ← on_gic (get_irq p); mret (handle c) | None => mret 0 end;
  match irq with
  | Some p =>
      if truth h then _ ← call_handle fuel h p; mret tt
      else on_gic (pr (ln "Unhandled EL2 IRQ Exception! intid: %d") [id]) ;; panic ""
  | None => on_gic (pr (ln "Unhandled EL2 IRQ Exception! intid: %d") [id]) ;; panic ""
  end ;;
  sysreg_write "ICC_EOIR1_EL1" id ;;
  mret 0.
End Irq.
