(* ===== verification/ExceptionProof.v ===== *)
(** The report of an exception: the text it prints, and the interrupt entry. *)
From Stdlib Require Import ZArith Lia.
From stdpp Require Import base gmap list strings.
From S2P Require Import Prelude Mem Printf PrintfProof Io Host HostProof Gic Exception.

Open Scope Z_scope.

(** * The syndrome *)

Lemma ESR_EC_spec esr : ESR_EC esr = esr / 2 ^ 26 mod 64.
Proof.
  unfold ESR_EC, ESR_EC_MASK, ESR_EC_SHIFT. change 0x3F with (2 ^ 6 - 1).
  by rewrite land_mod_pow2, Z.shiftr_div_pow2 by lia.
Qed.

Lemma ESR_IL_spec esr : ESR_IL esr = esr / 2 ^ 25 mod 32.
Proof.
  unfold ESR_IL, ESR_IL_MASK, ESR_IL_SHIFT. change 0x1F with (2 ^ 5 - 1).
  by rewrite land_mod_pow2, Z.shiftr_div_pow2 by lia.
Qed.

Lemma ESR_ISS_spec esr : ESR_ISS esr = esr mod 2 ^ 25.
Proof.
  unfold ESR_ISS, ESR_ISS_MASK, ESR_ISS_SHIFT. change 0x1FFFFFF with (2 ^ 25 - 1).
  by rewrite land_mod_pow2, Z.shiftr_0_r by lia.
Qed.

Lemma GET_DABT_FIELD_spec v f :
  GET_DABT_FIELD v f = v / 2 ^ dabt_start f mod 2 ^ (dabt_end f - dabt_start f + 1).
Proof.
  unfold GET_DABT_FIELD. rewrite Z.shiftr_div_pow2 by (destruct f; done).
  replace (u32 (Z.shiftl 1 (dabt_end f - dabt_start f + 1)) - 1)
    with (2 ^ (dabt_end f - dabt_start f + 1) - 1) by (by destruct f).
  apply land_mod_pow2. by destruct f.
Qed.

(** * What is printed *)

(** Bits [hi] down to [lo]. *)
Definition bits (v hi lo : Z) : Z := v / 2 ^ lo mod 2 ^ (hi - lo + 1).

Definition text_if (b : Z) (yes no : string) : item := Str (Some (str (if truth b then yes else no))).
Definition hex (v : Z) : item := Num false false 0 CvLX v.
Definition hex32 (v : Z) : item := Num false false 0 CvX v.

Definition abort_items (esr : Z) : list item :=
  line [lits "  Data Abort Details:"] ++
  line [lits "    Data Fault Status Code (DFSC): 0x"; [hex32 (bits esr 5 0)]] ++
  line [lits "    Write not Read (WnR): "; [text_if (bits esr 6 6) "Write" "Read"]] ++
  line [lits "    Stage 1 Translation Table Walk (S1PTW): "; [text_if (bits esr 7 7) "Yes" "No"]] ++
  line [lits "    Cache Maintenance (CM): "; [text_if (bits esr 8 8) "Yes" "No"]] ++
  line [lits "    External Abort (EA): "; [text_if (bits esr 9 9) "Yes" "No"]].

Definition data_abort (esr : Z) : bool := (bits esr 31 26 =? 0x24) || (bits esr 31 26 =? 0x25).

Definition esr_items (esr : Z) : list item :=
  line [lits "Error Syndrome (ESR): 0x"; [hex esr]] ++
  line [lits "  Exception Class (EC): 0x"; [hex32 (bits esr 31 26)]] ++
  line [lits "  Instruction Length (IL): "; [text_if (bits esr 29 25) "32 bits" "16 bits"]] ++
  line [lits "  Instruction Specific Syndrome (ISS): 0x"; [hex (bits esr 24 0)]] ++
  (if data_abort esr then abort_items esr else []).

(** The general registers from number [i] on: each once, four to a line. *)
Definition reg_items (i : nat) (v : Z) : list item :=
  lits "X" ++ [Num true false 2 CvD (Z.of_nat i)] ++ lits ": 0x" ++ [Num false true 16 CvLX v].
Fixpoint regs_items (i : nat) (xs : list Z) : list item :=
  match xs with
  | a :: b :: c :: d :: rest =>
      line [reg_items i a; lits "  "; reg_items (i + 1) b; lits "  "; reg_items (i + 2) c; lits "  "; reg_items (i + 3) d] ++
      regs_items (i + 4) rest
  | [a; b; c] => line [reg_items i a; lits "  "; reg_items (i + 1) b; lits "  "; reg_items (i + 2) c]
  | _ => []
  end.

Fixpoint frame_items (i : nat) (pcs : list Z) : list item :=
  match pcs with
  | [] => []
  | pc :: rest =>
      line [lits "  Frame "; [Num false false 0 CvD (Z.of_nat i)]; lits ": PC = 0x"; [hex pc]] ++ frame_items (i + 1) rest
  end.

Definition dump_items (esr far : Z) (regs : aarch64_gpregs) (pcs : list Z) : list item :=
  esr_items esr ++
  line [lits "Register dump:"] ++
  line [lits "FAR: 0x"; [hex far]] ++
  line [lits "SP: 0x"; [hex (sp regs)]; lits ", PC: 0x"; [hex (pc regs)]; lits ", Pstate: 0x"; [hex (spsr regs)]] ++
  regs_items 0 (x regs) ++
  line [lits "Backtrace: "] ++ frame_items 0 pcs.

(** The return addresses of the frames from [fp] on, at most [n]: a frame is the address of the
    next one and a return address, and 0 ends the chain. *)
Fixpoint frames (m : mem) (n : nat) (fp : Z) : option (list Z) :=
  match n with
  | O => Some []
  | Datatypes.S n' =>
      if fp =? 0 then Some [] else
      pc ← mload 8 (u64 (fp + 8)) m; next ← mload 8 fp m; cons pc <$> frames m n' next
  end.

(** * The report prints it *)

Lemma bits_low v n hi lo : 0 <= lo <= hi -> hi < n -> bits (v mod 2 ^ n) hi lo = bits v hi lo.
Proof.
  intros Hl Hh. unfold bits. change (wrap (hi - lo + 1) ((v mod 2 ^ n) / 2 ^ lo) = wrap (hi - lo + 1) (v / 2 ^ lo)).
  bit_ext i Hi. rewrite !wrap_testbit by lia. destruct (Z.ltb_spec i (hi - lo + 1)); [|done]. cbn [andb].
  rewrite <- !Z.shiftr_div_pow2, !Z.shiftr_spec by lia. by rewrite Z.mod_pow2_bits_low by lia.
Qed.

Lemma bits_range v hi lo : 0 <= lo <= hi -> 0 <= bits v hi lo < 2 ^ (hi - lo + 1).
Proof. intros. apply Z.mod_pos_bound. lia. Qed.

Lemma esr_field_bits esr f : u32 (GET_DABT_FIELD (ESR_ISS esr) f) = bits esr (dabt_end f) (dabt_start f).
Proof.
  rewrite GET_DABT_FIELD_spec, ESR_ISS_spec. fold (bits (esr mod 2 ^ 25) (dabt_end f) (dabt_start f)).
  rewrite bits_low by (destruct f; cbn; lia). apply wrap_small.
  pose proof (bits_range esr (dabt_end f) (dabt_start f) ltac:(destruct f; cbn; lia)).
  assert (2 ^ (dabt_end f - dabt_start f + 1) <= 2 ^ 32) by (apply Z.pow_le_mono_r; destruct f; cbn; lia). lia.
Qed.

#[global] Instance ec_code_inj : Inj (=) (=) ec_code.
Proof. intros [] [] E; cbn in E; done. Qed.

Lemma is_data_abort_spec esr : is_data_abort (ESR_EC esr) = data_abort esr.
Proof. unfold is_data_abort, data_abort. by rewrite ESR_EC_spec. Qed.

Lemma syndrome_bits esr : ESR_EC esr = bits esr 31 26 /\ ESR_IL esr = bits esr 29 25 /\ ESR_ISS esr = bits esr 24 0.
Proof.
  rewrite ESR_EC_spec, ESR_IL_spec, ESR_ISS_spec. unfold bits. split; [done|]. split; [done|].
  by rewrite Z.pow_0_r, Z.div_1_r.
Qed.

Section Report.
Context {S : Type} `{Host S}.

Lemma tells_dump_esr esr : tells (dump_esr esr) (shown (esr_items esr)) tt.
Proof.
  unfold dump_esr, esr_items. rewrite is_data_abort_spec, !esr_field_bits. destruct (syndrome_bits esr) as (-> & -> & ->).
  do 4 say_then. destruct (data_abort esr); [|apply tells_ret]. unfold abort_items. do 5 say_then. say.
Qed.

Lemma reg_x_run regs i v : x regs !! i = Some v -> reg_x (S := S) regs i = mret v.
Proof. intros E. unfold reg_x. by rewrite E. Qed.

(** The numbers and values of [vs], the registers from [i] on. *)
Fixpoint numbered (i : nat) (vs : list Z) : list Printf.arg :=
  match vs with [] => [] | v :: rest => AInt (Z.of_nat i) :: AInt v :: numbered (i + 1) rest end.

Lemma tells_reg_args regs i vs : (forall j v, vs !! j = Some v -> x regs !! (i + j)%nat = Some v) ->
  tells (reg_args regs i (length vs)) [] (numbered i vs).
Proof.
  revert i. induction vs as [|v vs IH]; intros i Hx; [apply tells_ret|]. cbn [length reg_args numbered].
  rewrite (reg_x_run regs i v) by (rewrite <- (Nat.add_0_r i); by apply Hx).
  eapply tells_first; [apply tells_ret|]. eapply tells_first; [apply IH|apply tells_ret].
  intros j w Hj. replace (i + 1 + j)%nat with (i + Datatypes.S j)%nat by lia. by apply Hx.
Qed.

Lemma tells_reg_line regs i vs :
  (forall j v, vs !! j = Some v -> x regs !! (i + j)%nat = Some v) -> length vs = (if i + 3 =? 31 then 3 else 4)%nat ->
  tells (reg_line regs i) (shown (regs_items i vs)) tt.
Proof.
  intros Hx Hl. unfold reg_line. pose proof (tells_reg_args regs i vs Hx) as Ha. destruct (i + 3 =? 31)%nat eqn:Hi.
  - destruct vs as [|a [|b [|c [|]]]]; try done. eapply tells_first; [exact Ha|]. cbn [numbered regs_items].
    rewrite <- !Nat.add_assoc. cbn [Nat.add]. say.
  - destruct vs as [|a [|b [|c [|d [|]]]]]; try done. eapply tells_first; [exact Ha|]. cbn [numbered regs_items].
    rewrite app_nil_r, <- !Nat.add_assoc. cbn [Nat.add]. say.
Qed.

(** [n] more lines after a full one. *)
Lemma tells_reg_lines regs i vs n items : (i <? 31)%nat = true ->
  (forall j v, vs !! j = Some v -> x regs !! (i + j)%nat = Some v) -> length vs = (if i + 3 =? 31 then 3 else 4)%nat ->
  tells (reg_lines regs (i + 4) n) (shown items) tt ->
  tells (reg_lines regs i (Datatypes.S n)) (shown (regs_items i vs ++ items)) tt.
Proof. intros Hi Hx Hl Hr. cbn [reg_lines]. rewrite Hi. cbn [when]. eapply tells_then; [by apply tells_reg_line|done]. Qed.

Lemma tells_regs regs : length (x regs) = 31%nat -> tells (reg_lines regs 0 8) (shown (regs_items 0 (x regs))) tt.
Proof.
  intros Hl.
  assert (Hgo : forall k i vs n, length vs = (4 * k + 3)%nat -> (i + length vs = 31)%nat -> (k < n)%nat ->
    (forall j v, vs !! j = Some v -> x regs !! (i + j)%nat = Some v) -> tells (reg_lines regs i n) (shown (regs_items i vs)) tt).
  { induction k as [|k IH]; intros i vs n Hlen Hi Hn Hx; destruct n as [|n]; try lia.
    - rewrite <- (app_nil_r (regs_items i vs)). apply tells_reg_lines; [apply Nat.ltb_lt; lia|done| |].
      + by rewrite (proj2 (Nat.eqb_eq (i + 3) 31)) by lia.
      + replace (i + 4)%nat with 32%nat by lia. destruct n; apply tells_ret.
    - destruct vs as [|a [|b [|c [|d rest]]]]; try (cbn in Hlen; lia).
      change (regs_items i (a :: b :: c :: d :: rest)) with
        (line [reg_items i a; lits "  "; reg_items (i + 1) b; lits "  "; reg_items (i + 2) c; lits "  "; reg_items (i + 3) d] ++
         regs_items (i + 4) rest).
      rewrite <- (app_nil_r (line _)). apply (tells_reg_lines regs i [a; b; c; d]).
      + apply Nat.ltb_lt. cbn in Hi. lia.
      + intros j v Hj. apply Hx. by rewrite (lookup_app_l [a; b; c; d] rest) by (by apply lookup_lt_Some in Hj).
      + cbn in *. by rewrite (proj2 (Nat.eqb_neq (i + 3) 31)) by lia.
      + cbn in *. apply IH; [lia|lia|lia|]. intros j v Hj. replace (i + 4 + j)%nat with (i + (4 + j))%nat by lia. by apply Hx. }
  by apply (Hgo 7%nat); [|rewrite Hl|lia|].
Qed.

Lemma frame_load_run a v s : mload 8 a (host_mem s) = Some v -> load host_mem 8 a s = Ok v s.
Proof. intros E. unfold load. by rewrite E. Qed.

(** The walk prints the return addresses of the frames it can read; it stops where memory
    ends, and in any case after [n] frames. *)
Lemma backtrace_run n i fp s pcs : ready s -> frames (host_mem s) n fp = Some pcs ->
  exists s', backtrace_loop n i fp s = Ok tt s' /\ ready s' /\
    out s' = out s ++ (sent (S := S) <$> shown (frame_items i pcs)) /\ host_mem s' = host_mem s.
Proof.
  revert i fp s pcs. induction n as [|n IH]; intros i fp s pcs Hs Hf; cbn [frames backtrace_loop] in *.
  - injection Hf as <-. by apply tells_ret.
  - destruct (fp =? 0); [injection Hf as <-; by apply tells_ret|].
    destruct (mload 8 (u64 (fp + 8)) (host_mem s)) as [ra|] eqn:Era; [|done].
    destruct (mload 8 fp (host_mem s)) as [nx|] eqn:Enx; [|done]. cbn in Hf.
    destruct (frames (host_mem s) n nx) as [rest|] eqn:Er; [|done]. cbn in Hf. injection Hf as <-.
    rewrite (bind_Ok _ _ _ _ _ (frame_load_run _ _ _ Era)).
    destruct (tells_say (ln "  Frame %d: PC = 0x%lx") [AInt (Z.of_nat i); AInt ra]
      (line [lits "  Frame "; [Num false false 0 CvD (Z.of_nat i)]; lits ": PC = 0x"; [hex ra]])
      eq_refl eq_refl eq_refl s Hs) as (s1 & E1 & H1 & O1 & M1).
    rewrite (bind_Ok _ _ _ _ _ E1). rewrite <- M1 in Enx, Er. rewrite (bind_Ok _ _ _ _ _ (frame_load_run _ _ _ Enx)).
    destruct (IH (i + 1)%nat nx s1 rest H1 Er) as (s2 & E2 & H2 & O2 & M2).
    exists s2. split; [done|]. split; [done|]. rewrite O2, O1, M2, M1. cbn [frame_items].
    by rewrite shown_app, fmap_app, app_assoc.
Qed.

(** The lines between the reading of FAR and the walk. *)
Definition middle_items (far : Z) (regs : aarch64_gpregs) : list item :=
  line [lits "FAR: 0x"; [hex far]] ++
  line [lits "SP: 0x"; [hex (sp regs)]; lits ", PC: 0x"; [hex (pc regs)]; lits ", Pstate: 0x"; [hex (spsr regs)]] ++
  regs_items 0 (x regs) ++ line [lits "Backtrace: "].

Lemma tells_middle far regs {A} (k : M S A) s : ready s -> length (x regs) = 31%nat ->
  exists s', (say (ln "FAR: 0x%lx") [AInt far] ;;
    say (ln "SP: 0x%lx, PC: 0x%lx, Pstate: 0x%lx") [AInt (sp regs); AInt (pc regs); AInt (spsr regs)] ;;
    reg_lines regs 0 8 ;; say (ln "Backtrace: ") [] ;; k) s = k s' /\
  ready s' /\ out s' = out s ++ (sent (S := S) <$> shown (middle_items far regs)) /\ host_mem s' = host_mem s.
Proof.
  intros Hs Hl.
  assert (Hm : tells (((say (ln "FAR: 0x%lx") [AInt far] ;;
      say (ln "SP: 0x%lx, PC: 0x%lx, Pstate: 0x%lx") [AInt (sp regs); AInt (pc regs); AInt (spsr regs)]) ;;
      reg_lines regs 0 8) ;; say (ln "Backtrace: ") []) (shown (middle_items far regs)) tt).
  { unfold middle_items. rewrite !(app_assoc (line _)). rewrite app_assoc.
    eapply tells_then; [|say]. eapply tells_then; [|by apply tells_regs]. eapply tells_then; say. }
  destruct (Hm s Hs) as (s' & E & Hrest). exists s'. split; [|done].
  rewrite <- (bind_Ok _ (fun _ => k) _ _ _ E), !bind_assoc. done.
Qed.

(** The lines before the stack is walked, and the walk. *)
Lemma dump_run regs s fp pcs : ready s -> length (x regs) = 31%nat -> x regs !! 29%nat = Some fp ->
  frames (host_mem s) 10 fp = Some pcs ->
  exists esr far s', dump_registers regs s = Ok tt s' /\ ready s' /\ 0 <= esr < 2 ^ 64 /\
    out s' = out s ++ (sent (S := S) <$> shown (dump_items esr far regs pcs)) /\ host_mem s' = host_mem s.
Proof.
  intros Hs Hl Hfp Hf. unfold dump_registers, aarch64_backtrace. rewrite (reg_x_run regs 29 fp Hfp).
  destruct (mrs_spec "ESR_EL2" s Hs) as (esr & s1 & E1 & Hesr & H1 & O1 & M1). rewrite (bind_Ok _ _ _ _ _ E1).
  destruct (tells_dump_esr esr s1 H1) as (s2 & E2 & H2 & O2 & M2). rewrite (bind_Ok _ _ _ _ _ E2).
  destruct (tells_say (ln "Register dump:") [] (line [lits "Register dump:"]) eq_refl eq_refl eq_refl s2 H2)
    as (s3 & E3 & H3 & O3 & M3). rewrite (bind_Ok _ _ _ _ _ E3).
  destruct (mrs_spec "FAR_EL2" s3 H3) as (far & s4 & E4 & _ & H4 & O4 & M4). rewrite (bind_Ok _ _ _ _ _ E4).
  destruct (tells_middle far regs (fp ← mret fp; backtrace_loop 10 0 fp) s4 H4 Hl) as (s5 & E5 & H5 & O5 & M5).
  rewrite M4, M3, M2, M1 in M5. rewrite <- M5 in Hf.
  destruct (backtrace_run 10 0 fp s5 pcs H5 Hf) as (s6 & E6 & H6 & O6 & M6).
  exists esr, far, s6. split; [etrans; [exact E5|exact E6]|]. split; [done|]. split; [done|]. split; [|by rewrite M6].
  rewrite O6, O5, O4, O3, O2, O1. unfold dump_items, middle_items. rewrite !shown_app, !fmap_app, <- !app_assoc. done.
Qed.

(** A chain that leaves memory: the walk faults. *)
Lemma backtrace_faults n i fp s : ready s -> frames (host_mem s) n fp = None ->
  exists a s', backtrace_loop n i fp s = Stop (Fault a) s'.
Proof.
  revert i fp s. induction n as [|n IH]; intros i fp s Hs Hf; cbn [frames backtrace_loop] in *; [done|].
  destruct (fp =? 0); [done|].
  destruct (mload 8 (u64 (fp + 8)) (host_mem s)) as [ra|] eqn:Era.
  2: { exists (u64 (fp + 8)), s. apply bind_Stop. unfold load. by rewrite Era. }
  rewrite (bind_Ok _ _ _ _ _ (frame_load_run _ _ _ Era)).
  destruct (tells_res _ _ _ s (tells_say (ln "  Frame %d: PC = 0x%lx") [AInt (Z.of_nat i); AInt ra]
    (line [lits "  Frame "; [Num false false 0 CvD (Z.of_nat i)]; lits ": PC = 0x"; [hex ra]])
    eq_refl eq_refl eq_refl) Hs) as (s1 & E1 & H1 & M1).
  rewrite (bind_Ok _ _ _ _ _ E1). rewrite <- M1 in Hf.
  destruct (mload 8 fp (host_mem s1)) as [nx|] eqn:Enx.
  2: { exists fp, s1. apply bind_Stop. unfold load. by rewrite Enx. }
  rewrite (bind_Ok _ _ _ _ _ (frame_load_run _ _ _ Enx)).
  cbn in Hf. destruct (frames (host_mem s1) n nx) as [rest|] eqn:Er; [done|]. by apply IH.
Qed.

Lemma dump_faults regs s fp : ready s -> length (x regs) = 31%nat -> x regs !! 29%nat = Some fp ->
  frames (host_mem s) 10 fp = None -> exists a s', dump_registers regs s = Stop (Fault a) s'.
Proof.
  intros Hs Hl Hfp Hf. unfold dump_registers, aarch64_backtrace. rewrite (reg_x_run regs 29 fp Hfp).
  destruct (mrs_spec "ESR_EL2" s Hs) as (esr & s1 & E1 & _ & H1 & _ & M1). rewrite (bind_Ok _ _ _ _ _ E1).
  destruct (tells_res _ _ _ s1 (tells_dump_esr esr) H1) as (s2 & E2 & H2 & M2). rewrite (bind_Ok _ _ _ _ _ E2).
  destruct (tells_res _ _ _ s2 (tells_say (ln "Register dump:") [] (line [lits "Register dump:"]) eq_refl eq_refl eq_refl) H2)
    as (s3 & E3 & H3 & M3). rewrite (bind_Ok _ _ _ _ _ E3).
  destruct (mrs_spec "FAR_EL2" s3 H3) as (far & s4 & E4 & _ & H4 & _ & M4). rewrite (bind_Ok _ _ _ _ _ E4).
  destruct (tells_middle far regs (fp ← mret fp; backtrace_loop 10 0 fp) s4 H4 Hl) as (s5 & E5 & H5 & _ & M5).
  rewrite M4, M3, M2, M1 in M5. rewrite <- M5 in Hf.
  destruct (backtrace_faults 10 0 fp s5 H5 Hf) as (a & s6 & E6). exists a, s6. etrans; [exact E5|exact E6].
Qed.

(** A line, perhaps a flush, then the dump, then the endless loop. *)
Definition report_after {A} (m : M S A) (first : list item) (regs : aarch64_gpregs) (s : S) (fp : Z) : Prop :=
  match frames (host_mem s) 10 fp with
  | Some pcs => exists esr far s', m s = Stop Hang s' /\ 0 <= esr < 2 ^ 64 /\
      out s' = out s ++ (sent (S := S) <$> shown (first ++ dump_items esr far regs pcs))
  | None => exists a s', m s = Stop (Fault a) s'
  end.

Lemma dump_then_hang {A} regs s fp : ready s -> length (x regs) = 31%nat -> x regs !! 29%nat = Some fp ->
  report_after (dump_registers regs ;; @hang S A) [] regs s fp.
Proof.
  intros Hs Hl Hfp. unfold report_after. destruct (frames (host_mem s) 10 fp) as [pcs|] eqn:Hf.
  - destruct (dump_run regs s fp pcs Hs Hl Hfp Hf) as (esr & far & s' & E & _ & Hesr & Ho & _).
    exists esr, far, s'. by rewrite (bind_Ok _ _ _ _ _ E).
  - destruct (dump_faults regs s fp Hs Hl Hfp Hf) as (a & s' & E). exists a, s'. by apply bind_Stop.
Qed.

(** What comes before the dump and leaves memory alone. *)
Lemma report_first {A B} (m : M S B) (k : B -> M S A) b first rest regs s s1 fp :
  m s = Ok b s1 -> host_mem s1 = host_mem s -> out s1 = out s ++ (sent (S := S) <$> shown first) ->
  report_after (k b) rest regs s1 fp -> report_after (m ≫= k) (first ++ rest) regs s fp.
Proof.
  unfold report_after. intros E -> Ho Hk. rewrite (bind_Ok _ _ _ _ _ E).
  destruct (frames (host_mem s) 10 fp) as [pcs|]; [|done].
  destruct Hk as (esr & far & s' & Ek & Hesr & Hout). exists esr, far, s'. split; [done|]. split; [done|].
  by rewrite Hout, Ho, <- !app_assoc, (shown_app first), fmap_app.
Qed.

Lemma report_line {A} text first (k : M S A) regs s fp : ready s -> tells (say text []) (shown first) tt ->
  (forall s1, ready s1 -> report_after k [] regs s1 fp) -> report_after (say text [] ;; k) first regs s fp.
Proof.
  intros Hs Ht Hk. destruct (Ht s Hs) as (s1 & E1 & H1 & O1 & M1). rewrite <- (app_nil_r first).
  eapply (report_first _ (fun _ => k)); [exact E1|done|done|by apply Hk].
Qed.

(** Nothing runs after the endless loop. *)
Lemma report_bind {A B} (m : M S A) (k : A -> M S B) first regs s fp :
  report_after m first regs s fp -> report_after (m ≫= k) first regs s fp.
Proof.
  unfold report_after. destruct (frames (host_mem s) 10 fp).
  - intros (esr & far & s' & E & Hrest). exists esr, far, s'. split; [by apply bind_Stop|done].
  - intros (a & s' & E). exists a, s'. by apply bind_Stop.
Qed.

Lemma frames_length m n fp pcs : frames m n fp = Some pcs -> (length pcs <= n)%nat.
Proof.
  revert fp pcs. induction n as [|n IH]; intros fp pcs; cbn [frames]; [by intros [= <-]|].
  destruct (fp =? 0); [intros [= <-]; cbn; lia|]. destruct (mload 8 (u64 (fp + 8)) m); [|done].
  destruct (mload 8 fp m) as [nx|]; [|done]. cbn. destruct (frames m n nx) as [rest|] eqn:E; [|done].
  intros [= <-]. apply IH in E. cbn. lia.
Qed.
End Report.
