(* ===== verification/IrqProof.v ===== *)
(** The interrupt entry on the timers and the interrupt controller below them. *)
From Stdlib Require Import ZArith Lia.
From stdpp Require Import base gmap list strings.
From S2P Require Import Prelude Mem HeapSpec Miniheap HeapProof HeapClient Printf PrintfProof Io IoProof Spinlock GicRegs Gic GicIntr.
From S2P Require Import GicProof GicIntrProof GicOpsProof CList Timer TimerProof Exception.

Open Scope Z_scope.

(** The context get_irq_context looks up. *)
Definition ctx_of (cpu id : Z) : option irq_ptr :=
  if id <=? 15 then Some (SgiCtx cpu id)
  else if id <=? 31 then Some (PpiCtx cpu (id - 16))
  else if id <=? 1019 then Some (SpiCtx (id - 32))
  else None.

Section Lookup.
Context {D : Type} `{Hardware D} `{Config} (cpu : Z) (Hcpu : on_this_cpu (D:=D) cpu).

(** A lookup writes nothing and gives no context a handler. *)
Lemma runs_lookup (s : gic D) id p c : 0 <= id -> ctx_of cpu id = Some p -> irqs s !! p = Some c -> handle c = 0 ->
  exists c' s' l, runs (get_irq_context id) s (Some p) s' l /\ effects l = [] /\ irqs s' !! p = Some c' /\ handle c' = 0.
Proof using Hcpu.
  intros Hid Hp Hc Hh. unfold ctx_of in Hp.
  destruct (Z.leb_spec id 15); [|destruct (Z.leb_spec id 31); [|destruct (Z.leb_spec id 1019); [|done]]];
    injection Hp as <-.
  - destruct (runs_get_sgi cpu Hcpu s id c ltac:(lia) Hc) as (v & s1 & R & _).
    eexists _, _, _. split; [exact R|]. split; [done|]. split; [apply lookup_insert_eq|done].
  - destruct (runs_get_ppi cpu Hcpu s id c ltac:(lia) Hc) as (v & s1 & R & S).
    eexists (ppi_context_of id c), _, _. split; [exact R|]. split; [done|]. rewrite (same_irqs _ _ S).
    split; [apply lookup_insert_eq|]. unfold ppi_context_of. by destruct (decide _).
  - pose proof (runs_get_spi s id c ltac:(lia) Hc) as R.
    eexists _, _, _. split; [exact R|]. split; [done|]. split; [apply lookup_insert_eq|done].
Qed.

(** No context: the number is out of range, and that is printed. *)
Lemma runs_no_ctx (s : gic D) id : 0 <= id -> ctx_of cpu id = None ->
  exists s' l, runs (get_irq_context id) s None s' l /\ effects l = [].
Proof using.
  intros Hid Hp. unfold ctx_of in Hp.
  destruct (Z.leb_spec id 15); [done|]. destruct (Z.leb_spec id 31); [done|]. destruct (Z.leb_spec id 1019); [done|].
  destruct (runs_pr (ln "Invalid intid: %u") [id] s eq_refl) as (s' & t & R & _).
  exists s'. eexists. split.
  - unfold get_irq_context, SGI_LAST_INTID, PPI_LAST_INTID, SPI_LAST_INTID.
    rewrite (proj2 (Z.leb_gt id 15)), (proj2 (Z.leb_gt id 31)), (proj2 (Z.leb_gt id 1019)) by lia.
    pose proof (runs_ret (@None irq_ptr) s') as R1. chain (R, R1).
  - rewrite effects_app. by rewrite effects_putc.
Qed.

(** A PPI whose context is set up is found as it is. *)
Lemma runs_ready_ppi (s : gic D) id c : 16 <= id <= 31 -> irqs s !! PpiCtx cpu (id - 16) = Some c ->
  intid c = id -> ops c = Some g_ppi_intr_ops ->
  exists v s', runs (get_irq_context id) s (Some (PpiCtx cpu (id - 16))) s' [EMrs "MPIDR_EL1" v] /\ same_state s s'.
Proof using Hcpu.
  intros Hid Hc Hi Ho. destruct (runs_get_ppi cpu Hcpu s id c Hid Hc) as (v & s' & R & S). exists v, s'. split; [done|].
  unfold ppi_context_of in S. rewrite decide_True in S by done. destruct S as (S1 & S2 & S3 & S4).
  split; [done|]. split; [done|]. split; [|done]. cbn in S3. by rewrite insert_id in S3.
Qed.

Lemma runs_mrs_value r (s : gic D) : exists s',
  runs (hw (read_sysreg r)) s (u64 (fst (sys_read r (dev (gio s))))) s' [EMrs r (u64 (fst (sys_read r (dev (gio s)))))] /\ same_state s s'.
Proof using. eexists. by repeat split. Qed.
End Lookup.

Section Irq.
Context {D U : Type} `{Hardware D} `{Config} `{Callbacks U} `{TimerLayout} `{IrqHandlers D U}.
Context (cpu : Z) (Hcpu : on_this_cpu (D:=D) cpu).

(** What the acknowledge register answers. *)
Definition acknowledged (s : timers D U) : Z := u32 (u64 (fst (sys_read "ICC_IAR1_EL1" (dev (gio (tgic s)))))).

Lemma runs_ack (s : timers D U) : exists v s', runs (on_gic (hw (read_sysreg "ICC_IAR1_EL1"))) s v s' [EMrs "ICC_IAR1_EL1" v] /\
  u32 v = acknowledged s /\ same_timers s s'.
Proof using.
  destruct (runs_mrs_value "ICC_IAR1_EL1" (tgic s)) as (g & R & S). eexists _, _.
  split; [by apply runs_on_gic|]. split; [done|]. by split.
Qed.

Lemma runs_pr_timers fmt args (s : timers D U) : scan_ok fmt (length args) = true ->
  exists s' t, runs (on_gic (pr fmt args)) s tt s' (EPutc <$> t).
Proof using.
  intros Hs. destruct (runs_pr fmt args (tgic s) Hs) as (g & t & R & _). eexists _, t. by apply runs_on_gic.
Qed.

(** An interrupt nobody handles: the program panics before it ends the interrupt. *)
Lemma irq_unhandled_run (s : timers D U) fuel :
  (forall p, ctx_of cpu (acknowledged s) = Some p -> exists c, irqs (tgic s) !! p = Some c /\ handle c = 0) ->
  exists s' l, el2_irq fuel s = Stop (Panic "") s' /\ trace_of (tgic s') = trace_of (tgic s) ++ l /\ effects l = [].
Proof using Hcpu.
  intros Hctx. destruct (runs_ack s) as (v & s1 & R1 & Hv & S1). rewrite <- Hv in Hctx.
  assert (Hid : 0 <= u32 v) by (apply wrap_range; lia).
  assert (Hirq : exists irq g l, runs (get_irq_context (u32 v)) (tgic s1) irq g l /\ effects l = [] /\
    match irq with Some p => exists c, irqs g !! p = Some c /\ handle c = 0 | None => True end).
  { destruct S1 as (Sg & _). destruct (ctx_of cpu (u32 v)) as [p|] eqn:Hp.
    - destruct (Hctx p eq_refl) as (c & Hc & Hh). rewrite <- (same_irqs _ _ Sg) in Hc.
      destruct (runs_lookup cpu Hcpu (tgic s1) (u32 v) p c Hid Hp Hc Hh) as (c' & g & l & R & He & Hc' & Hh').
      exists (Some p), g, l. split; [done|]. split; [done|]. by exists c'.
    - destruct (runs_no_ctx cpu (tgic s1) (u32 v) Hid Hp) as (g & l & R & He). by exists None, g, l. }
  destruct Hirq as (irq & g & l & R2 & He & Hm). apply runs_on_gic in R2. set (s2 := set_tgic s1 g) in *.
  destruct (runs_pr_timers (ln "Unhandled EL2 IRQ Exception! intid: %d") [u32 v] s2 eq_refl) as (s3 & t & R3).
  exists s3, ([EMrs "ICC_IAR1_EL1" v] ++ l ++ (EPutc <$> t)).
  destruct R1 as [E1 T1], R2 as [E2 T2], R3 as [E3 T3]. split; [|split].
  - unfold el2_irq. mstep E1. mstep E2. destruct irq as [p|].
    + destruct Hm as (c & Hc & Hh).
      assert (E : (c ← on_gic (get_irq p); mret (handle c)) s2 = Ok 0 s2).
      { rewrite (bind_Ok _ _ s2 c s2); [by rewrite Hh|]. unfold on_gic, zoom, get_irq. change (tgic s2) with g. by rewrite Hc. }
      mstep E. cbn [truth Z.eqb negb]. apply bind_Stop. by mstep E3.
    + rewrite bind_ret. apply bind_Stop. by mstep E3.
  - change (trace_of (tgic s3) = trace_of (tgic s2) ++ (EPutc <$> t)) in T3.
    change (trace_of (tgic s2) = trace_of (tgic s1) ++ l) in T2.
    change (trace_of (tgic s1) = trace_of (tgic s) ++ [EMrs "ICC_IAR1_EL1" v]) in T1.
    by rewrite T3, T2, T1, <- !app_assoc.
  - by rewrite !effects_app, He, effects_putc.
Qed.

Definition tick_writes (cntfrq : Z) : list event :=
  rearm_writes cntfrq ++ [EMsr "ICC_EOIR1_EL1" PPI_TIMER_INTID_EL2].

(** The interrupt around its handler, whose state [P] describes. *)
Lemma irq_runs (s : timers D U) fuel c (P : timers D U -> Prop) :
  acknowledged s = PPI_TIMER_INTID_EL2 ->
  irqs (tgic s) !! PpiCtx cpu (PPI_TIMER_INTID_EL2 - 16) = Some c -> intid c = PPI_TIMER_INTID_EL2 ->
  ops c = Some g_ppi_intr_ops -> handle c = timer_irq_handler_code -> timer_irq_handler_code <> 0 ->
  (forall s2, same_timers s s2 -> exists cntfrq s3 l,
     runs (timer_irq_handler fuel (PpiCtx cpu (PPI_TIMER_INTID_EL2 - 16))) s2 0 s3 l /\
     effects l = rearm_writes cntfrq /\ same_state (tgic s2) (tgic s3) /\ P s3) ->
  exists cntfrq s3 s' l,
    runs (el2_irq fuel) s 0 s' l /\ effects l = tick_writes cntfrq /\ P s3 /\ same_timers s3 s' /\
    same_state (tgic s) (tgic s').
Proof using Hcpu.
  intros Hack Hc Hid Hops Hh Hcode Hhandler.
  destruct (runs_ack s) as (v & s1 & R1 & Hv & S1). rewrite Hack in Hv.
  rewrite <- (same_irqs _ _ (proj1 S1)) in Hc.
  destruct (runs_ready_ppi cpu Hcpu (tgic s1) PPI_TIMER_INTID_EL2 c ltac:(done) Hc Hid Hops) as (w & g & R2 & Sg2).
  apply runs_on_gic in R2. set (s2 := set_tgic s1 g) in *.
  assert (S2 : same_timers s s2) by (etrans; [exact S1|]; split; [exact Sg2|done]).
  rewrite <- (same_irqs _ _ Sg2) in Hc.
  pose proof (runs_on_gic _ s2 c g [] (runs_get_irq g _ c Hc)) as R3. change (set_tgic s2 g) with s2 in R3.
  destruct (Hhandler s2 S2) as (f & s3 & l3 & R4 & E4 & Sg3 & HP).
  destruct (runs_sysreg "ICC_EOIR1_EL1" PPI_TIMER_INTID_EL2 s3) as (s4 & R5 & S4).
  pose proof (runs_ret 0 s4) as R6.
  exists f, s3, s4. eexists. split.
  { unfold el2_irq. chain_one R1. rewrite Hv. chain_one R2.
    eapply runs_bind; [eapply runs_bind; [exact R3|apply runs_ret]|]. rewrite Hh. unfold truth.
    rewrite (proj2 (Z.eqb_neq _ _) Hcode). cbn [negb].
    eapply runs_bind; [eapply runs_bind; [unfold call_handle; rewrite Z.eqb_refl; exact R4|apply runs_ret]|]. chain (R5, R6). }
  split; [by rewrite !effects_app, E4|]. split; [done|]. split; [done|].
  etrans; [exact (proj1 S2)|]; etrans; [exact Sg3|]; apply S4.
Qed.

(** The timer interrupt, from the acknowledge to the end of interrupt. *)
Lemma irq_timer_run (s : timers D U) b0 sz live xs u2 fuel c :
  acknowledged s = PPI_TIMER_INTID_EL2 ->
  irqs (tgic s) !! PpiCtx cpu (PPI_TIMER_INTID_EL2 - 16) = Some c -> intid c = PPI_TIMER_INTID_EL2 ->
  ops c = Some g_ppi_intr_ops -> handle c = timer_irq_handler_code -> timer_irq_handler_code <> 0 -> arg c <> 0 ->
  timers_ok b0 sz (arg c + off_timer_list) live s xs ->
  run_calls (calls (objs s) xs) (user s) = Ok tt u2 -> (length xs <= fuel)%nat ->
  exists cntfrq s' l,
    runs (el2_irq fuel) s 0 s' l /\ effects l = tick_writes cntfrq /\
    timers_ok b0 sz (arg c + off_timer_list) (without (objs s) xs live) s' (kept (objs s) xs) /\
    objs s' = without (objs s) xs (objs s) /\ user s' = u2 /\ g_counter s' = u64 (g_counter s + 1) /\
    same_state (tgic s) (tgic s') /\ managers s' = managers s /\
    links_without (objs s) xs (tlinks s) (tlinks s').
Proof using Hcpu.
  intros Hack Hc Hid Hops Hh Hcode Ha Hok Hrun Hf.
  destruct (irq_runs s fuel c (fun s3 =>
      timers_ok b0 sz (arg c + off_timer_list) (without (objs s) xs live) s3 (kept (objs s) xs) /\
      objs s3 = without (objs s) xs (objs s) /\ user s3 = u2 /\ g_counter s3 = u64 (g_counter s + 1) /\
      managers s3 = managers s /\ links_without (objs s) xs (tlinks s) (tlinks s3))
    Hack Hc Hid Hops Hh Hcode) as (f & s3 & s' & l & R & E & (Hok3 & Ho3 & Hu3 & Hc3 & Hm3 & HL3) & S3 & Sg).
  { intros s2 S2. pose proof (timers_ok_same _ _ _ _ _ _ _ S2 Hok) as Hok2.
    destruct S2 as (Sg & _ & Sl & So & Sm & Sc & Su). rewrite <- (same_irqs _ _ Sg) in Hc. rewrite <- So, <- Su in Hrun.
    destruct (handler_run s2 b0 sz live xs u2 fuel _ c Hc Ha Hok2 Hrun Hf)
      as (f & s3 & l3 & R & _ & E & Hok3 & Ho3 & Hu3 & Hn3 & Hm3 & Sg3 & HL3).
    rewrite So, Sl, Sm, Sc in *. by exists f, s3, l3. }
  exists f, s', l. do 2 (split; [done|]). split; [by eapply timers_ok_same|].
  destruct S3 as (_ & _ & Tl & To & Tm & Tc & Tu). by rewrite To, Tu, Tl, Tm, Tc, Ho3, Hu3, Hc3.
Qed.
End Irq.
