(* ===== verification/ExceptionTheorems.v ===== *)
(** The properties of the exception entries, each with a concrete instance. *)
From Stdlib Require Import ZArith Lia.
From stdpp Require Import base gmap list strings.
From S2P Require Import Prelude Mem HeapSpec Miniheap HeapProof HeapClient Printf PrintfProof Io IoProof Spinlock GicRegs Gic GicIntr.
From S2P Require Import GicProof GicIntrProof GicOpsProof CList Console ConsoleProof Timer TimerProof TimerTheorems Host HostProof ConsoleHost Exception ExceptionProof IrqProof.

Open Scope Z_scope.

(** * Properties *)

(** C37: the syndrome macros. From the fields of an ESR value ESR_EC and ESR_ISS give the class
    and the syndrome back, and GET_DABT_FIELD the bits of each field of the syndrome. ESR_IL
    gives more than the instruction length bit: its mask keeps the four low bits of the class
    as well, so that for every data abort the report says 32 bits. A class has at most one name
    in EC_Type. *)
Theorem esr_fields rest ec il iss :
  0 <= rest -> 0 <= ec < 64 -> 0 <= il < 2 -> 0 <= iss < 2 ^ 25 ->
  let esr := rest * 2 ^ 32 + ec * 2 ^ 26 + il * 2 ^ 25 + iss in
  ESR_EC esr = ec /\ ESR_ISS esr = iss /\ ESR_IL esr = il + 2 * (ec mod 16) /\
  (is_data_abort (ESR_EC esr) = true -> truth (ESR_IL esr) = true) /\
  (forall c, ESR_EC esr = ec_code c -> forall c', ESR_EC esr = ec_code c' -> c' = c) /\
  forall f, GET_DABT_FIELD (ESR_ISS esr) f = iss / 2 ^ dabt_start f mod 2 ^ (dabt_end f - dabt_start f + 1).
Proof.
  intros Hr Hec Hil Hiss esr.
  assert (Hq : esr / 2 ^ 25 = il + 2 * ec + 128 * rest).
  { unfold esr. replace (rest * 2 ^ 32 + ec * 2 ^ 26 + il * 2 ^ 25 + iss) with (iss + (il + 2 * ec + 128 * rest) * 2 ^ 25) by lia.
    rewrite Z.div_add, (Z.div_small iss) by lia. lia. }
  assert (E1 : ESR_EC esr = ec).
  { rewrite ESR_EC_spec. change (2 ^ 26) with (2 ^ 25 * 2). rewrite <- Z.div_div, Hq by lia.
    replace (il + 2 * ec + 128 * rest) with (il + (ec + rest * 64) * 2) by lia.
    rewrite Z.div_add, (Z.div_small il), Z.add_0_l, Z.mod_add by lia. by apply Z.mod_small. }
  assert (E2 : ESR_ISS esr = iss).
  { rewrite ESR_ISS_spec. unfold esr.
    replace (rest * 2 ^ 32 + ec * 2 ^ 26 + il * 2 ^ 25 + iss) with (iss + (rest * 128 + ec * 2 + il) * 2 ^ 25) by lia.
    rewrite Z.mod_add by lia. apply Z.mod_small. lia. }
  assert (E3 : ESR_IL esr = il + 2 * (ec mod 16)).
  { rewrite ESR_IL_spec, Hq. pose proof (Z.div_mod ec 16 ltac:(lia)) as Hdm. pose proof (Z.mod_pos_bound ec 16 ltac:(lia)).
    replace (il + 2 * ec + 128 * rest) with (il + 2 * (ec mod 16) + (4 * rest + ec / 16) * 32) by nia.
    rewrite Z.mod_add by lia. apply Z.mod_small. lia. }
  split; [done|]. split; [done|]. split; [done|]. split_and!.
  - rewrite E1, E3, truth_true. unfold is_data_abort. cbn [ec_code].
    intros [He%Z.eqb_eq|He%Z.eqb_eq]%orb_true_iff; rewrite He; vm_compute (_ mod _); lia.
  - intros c Hc c' Hc'. apply ec_code_inj. congruence.
  - intros f. by rewrite E2, GET_DABT_FIELD_spec.
Qed.

Lemma esr_fields_witness :
  let esr := 0 * 2 ^ 32 + 0x25 * 2 ^ 26 + 0 * 2 ^ 25 + 0x61 in
  ESR_EC esr = 0x25 /\ ESR_ISS esr = 0x61 /\ ESR_IL esr = 10 /\
  (is_data_abort (ESR_EC esr) = true -> truth (ESR_IL esr) = true) /\
  (forall c, ESR_EC esr = ec_code c -> forall c', ESR_EC esr = ec_code c' -> c' = c) /\
  forall f, GET_DABT_FIELD (ESR_ISS esr) f = 0x61 / 2 ^ dabt_start f mod 2 ^ (dabt_end f - dabt_start f + 1).
Proof. apply (esr_fields 0 0x25 0 0x61); lia. Defined.

(** C25: the report of an exception. On every machine under it, el2_sync and el2_fiq never
    return. They print their line (data abort or not, by the class), the syndrome with the
    details of a data abort exactly for the two data abort classes, FAR, SP, PC and PSTATE, all
    31 general registers once and in order, and the return addresses of at most ten stack
    frames, whatever the chain of frame pointers (it may be cyclic), and then wait forever; a
    chain that leaves mapped memory makes the report itself fault. *)
Theorem exception_report {S} `{Host S} regs (s : S) fp :
  ready s -> length (x regs) = 31%nat -> x regs !! 29%nat = Some fp ->
  (exists esr, 0 <= esr < 2 ^ 64 /\
     report_after (el2_sync regs)
       (line [lits (if data_abort esr then "EL2 Sync Exception occurred! " else "Unhandled EL2 Sync Exception! ")]) regs s fp) /\
  report_after (el2_fiq regs) (line [lits "EL2 FIQ Exception occurred! "]) regs s fp /\
  (forall pcs, frames (host_mem s) 10 fp = Some pcs -> (length pcs <= 10)%nat).
Proof.
  intros Hs Hl Hfp. split; [|split; [|intros pcs; apply frames_length]].
  - destruct (mrs_spec "ESR_EL2" s Hs) as (esr & s1 & E1 & Hesr & H1 & O1 & M1). exists esr. split; [done|].
    unfold el2_sync. eapply (report_first _ _ esr []); [exact E1|done|by rewrite app_nil_r|].
    apply report_bind. rewrite is_data_abort_spec. destruct (data_abort esr).
    + apply report_line; [done|by apply tells_say|]. intros s2 H2. by apply dump_then_hang.
    + apply report_line; [done|by apply tells_say|]. intros s2 H2.
      destruct (flush_spec s2 H2) as (r & s3 & E3 & H3 & O3 & M3).
      apply (report_first _ _ r [] []  _ _ s3); [exact E3|done|by rewrite app_nil_r|]. by apply dump_then_hang.
  - apply report_line; [done|by apply tells_say|]. intros s2 H2. by apply dump_then_hang.
Qed.

(** A stack whose only frame is its own successor. *)
Definition frame_mem : Mem.mem :=
  list_to_map (zip ((fun i => Z.of_nat i) <$> seq 0x1000 16)
    (byte_of_Z <$> ([0; 0x10; 0; 0; 0; 0; 0; 0] ++ [0x34; 0x12; 0; 0; 0; 0; 0; 0]))).

Definition board_regs : aarch64_gpregs :=
  {| x := (fun i => Z.of_nat i) <$> seq 0 29 ++ [0x1000; 30]%nat; sp := 0x8000; pc := 0x400; spsr := 0x3c9 |}.

Lemma exception_report_witness :
  frames (host_mem (desk_start frame_mem)) 10 0x1000 = Some (replicate 10 0x1234) /\
  (exists esr, 0 <= esr < 2 ^ 64 /\
     report_after (el2_sync board_regs)
       (line [lits (if data_abort esr then "EL2 Sync Exception occurred! " else "Unhandled EL2 Sync Exception! ")])
       board_regs (desk_start frame_mem) 0x1000) /\
  report_after (el2_fiq board_regs) (line [lits "EL2 FIQ Exception occurred! "]) board_regs (desk_start frame_mem) 0x1000 /\
  (forall pcs, frames (host_mem (desk_start frame_mem)) 10 0x1000 = Some pcs -> (length pcs <= 10)%nat).
Proof.
  split; [vm_compute; reflexivity|]. apply (exception_report board_regs (desk_start frame_mem) 0x1000).
  - apply desk_ready.
  - reflexivity.
  - reflexivity.
Defined.

(** C13: a timer interrupt, from the vector to its end. Where the acknowledge register answers the
    timer's number and the context is the one plat_timer_init installs, el2_irq finds it, runs
    the timer handler on it (every active callback once, the expired one-shots freed, the timer
    armed again), and then ends exactly that interrupt: the end-of-interrupt write comes last,
    with the number that was acknowledged. *)
Theorem el2_irq_timer {D U} `{Hardware D} `{Config} `{Callbacks U} `{TimerLayout} `{IrqHandlers D U} cpu
    (s : timers D U) b0 sz live xs u2 fuel c :
  on_this_cpu (D:=D) cpu -> acknowledged s = PPI_TIMER_INTID_EL2 ->
  irqs (tgic s) !! PpiCtx cpu (PPI_TIMER_INTID_EL2 - 16) = Some c -> intid c = PPI_TIMER_INTID_EL2 ->
  ops c = Some g_ppi_intr_ops -> handle c = timer_irq_handler_code -> timer_irq_handler_code <> 0 -> arg c <> 0 ->
  timers_ok b0 sz (arg c + off_timer_list) live s xs ->
  run_calls (calls (objs s) xs) (user s) = Ok tt u2 -> (length xs <= fuel)%nat ->
  exists cntfrq s' l,
    runs (el2_irq fuel) s 0 s' l /\
    effects l = [EMsr "CNTHP_CTL_EL2" 0; EMsr "CNTHP_TVAL_EL2" 0;
                 EMsr "CNTHP_TVAL_EL2" (u64 (cntfrq / 1000 * 1000)); EMsr "CNTHP_CTL_EL2" 1;
                 EMsr "ICC_EOIR1_EL1" PPI_TIMER_INTID_EL2] /\
    timers_ok b0 sz (arg c + off_timer_list) (without (objs s) xs live) s' (kept (objs s) xs) /\
    objs s' = without (objs s) xs (objs s) /\ user s' = u2 /\ g_counter s' = u64 (g_counter s + 1).
Proof.
  intros Hcpu Hack Hirq Hid Hops Hh Hcode Ha Hok Hrun Hf.
  edestruct (irq_timer_run cpu Hcpu s) as (f & s' & l & R & E & K & O & U1 & C & _); [eassumption..|]. by exists f, s', l.
Qed.

#[local] Instance no_other_handlers : IrqHandlers clock (list (Z * Z * Z)) := fun h _ => stop_with (Fault h).

Lemma clock_on_cpu : on_this_cpu (D:=clock) 0.
Proof. split; [done|]. intros []. reflexivity. Qed.

Lemma el2_irq_timer_witness :
  exists cntfrq s' l,
    runs (el2_irq 1) (clock_one 0) 0 s' l /\
    effects l = [EMsr "CNTHP_CTL_EL2" 0; EMsr "CNTHP_TVAL_EL2" 0;
                 EMsr "CNTHP_TVAL_EL2" (u64 (cntfrq / 1000 * 1000)); EMsr "CNTHP_CTL_EL2" 1;
                 EMsr "ICC_EOIR1_EL1" PPI_TIMER_INTID_EL2] /\
    timers_ok 4096 256 80 (without (objs (clock_one 0)) [4152] {[4112 := sizeof_zhyper_timer]}) s'
      (kept (objs (clock_one 0)) [4152]) /\
    objs s' = without (objs (clock_one 0)) [4152] (objs (clock_one 0)) /\ user s' = [(0x2000, 4112, 7)] /\
    g_counter s' = u64 (g_counter (clock_one 0) + 1).
Proof.
  destruct (clock_one_ok 0) as (Hok & Ho & Hu & Hg & Hm).
  apply (el2_irq_timer 0 (clock_one 0) 4096 256 {[4112 := sizeof_zhyper_timer]} [4152] [(0x2000, 4112, 7)] 1 clock_ctx).
  - exact clock_on_cpu.
  - unfold acknowledged. rewrite Hg. reflexivity.
  - rewrite Hg. apply lookup_insert_eq.
  - reflexivity.
  - reflexivity.
  - reflexivity.
  - done.
  - done.
  - exact Hok.
  - by rewrite Ho, Hu.
  - done.
Defined.

(** C40: an interrupt without a handler. When the number has no context (1020 and above, the
    spurious 1023 among them) or its context has no handler, the program panics, and it has
    written nothing to any register before: the interrupt is never ended. *)
Theorem el2_irq_unhandled {D U} `{Hardware D} `{Config} `{Callbacks U} `{TimerLayout} `{IrqHandlers D U} cpu
    (s : timers D U) fuel :
  on_this_cpu (D:=D) cpu ->
  (forall p, ctx_of cpu (acknowledged s) = Some p -> exists c, irqs (tgic s) !! p = Some c /\ handle c = 0) ->
  exists s' l, el2_irq fuel s = Stop (Panic "") s' /\ trace_of (tgic s') = trace_of (tgic s) ++ l /\ effects l = [].
Proof. intros Hcpu Hctx. by apply (irq_unhandled_run cpu Hcpu). Qed.

(** The same machine before the timer was set up. *)
Definition clock_idle : timers clock (list (Z * Z * Z)) :=
  set_tgic clock_start (set_irqs (fun _ => {[PpiCtx 0 10 := irq_context_zero]}) clock_gic).

Lemma el2_irq_unhandled_witness :
  exists s' l, el2_irq 0 clock_idle = Stop (Panic "") s' /\
    trace_of (tgic s') = trace_of (tgic clock_idle) ++ l /\ effects l = [].
Proof.
  apply (el2_irq_unhandled 0 clock_idle 0).
  - exact clock_on_cpu.
  - intros p Hp. change (Some (PpiCtx 0 10) = Some p) in Hp. injection Hp as <-.
    exists irq_context_zero. split; [apply lookup_insert_eq|reflexivity].
Defined.
