(* ===== verification/Preempt.v ===== *)
(** Interrupts between memory accesses.

    The program unmasks interrupts once, in gicv3_init, and never masks them again, so that the
    timer interrupt may arrive between any two accesses of the code it interrupts. A program is
    here a tree of accesses, each a step of the monad, and [interrupted] runs it with interrupts
    taken before each access. start_timer (timer.c) with the list_add of list.h, which works on
    the list the interrupt walks, is given as such a tree, one node per load or store of the C
    source in its order; run without interrupts it is the start_timer of Timer. *)
From Stdlib Require Import ZArith Lia.
From stdpp Require Import base gmap list strings.
From S2P Require Import Prelude Mem Miniheap Printf Io Spinlock GicRegs Gic GicIntr CList Timer Exception.

Open Scope Z_scope.

(** * Interruptible programs *)

Inductive prog (S A : Type) : Type :=
  | Return (a : A)
  | Access {B : Type} (m : M S B) (k : B -> prog S A).
Arguments Return {S A} a.
Arguments Access {S A B} m k.

Section Prog.
Context {S A : Type}.

(** Without interrupts. *)
Fixpoint direct (p : prog S A) : M S A :=
  match p with
  | Return a => mret a
  | Access m k => b ← m; direct (k b)
  end.

Fixpoint times (n : nat) (m : M S unit) : M S unit :=
  match n with
  | O => mret tt
  | Datatypes.S n' => m ;; times n' m
  end.

(** [sched] says how many interrupts arrive before each access; past its end there are none. *)
Fixpoint interrupted (irq : M S unit) (sched : list nat) (p : prog S A) : M S A :=
  match p with
  | Return a => mret a
  | Access m k => times (hd O sched) irq ;; b ← m; interrupted irq (tl sched) (k b)
  end.

(** The interrupts taken in a run of [n] accesses. *)
Definition taken (n : nat) (sched : list nat) : nat := sum_list (take n sched).
End Prog.

(** A program on a part of the state. *)
Fixpoint prog_on {S T A} (view : T -> S) (upd : T -> S -> T) (p : prog S A) : prog T A :=
  match p with
  | Return a => Return a
  | Access m k => Access (zoom view upd m) (fun b => prog_on view upd (k b))
  end.

(** * start_timer *)

Section Start.
Context {D U : Type} `{Hardware D} `{Config} `{Callbacks U} `{TimerLayout}.

(** A bit field is stored by writing its word back: [t] is what was read. *)
Definition write_active (timer : Z) (t : zhyper_timer) : M (timers D U) unit :=
  t' ← get_timer timer;
  put_timer timer {| interval_ms := interval_ms t'; is_periodic := is_periodic t; is_active := 1;
                     callback := callback t'; t_arg := t_arg t'; private := private t' |}.

Definition write_nr_timers (manager n : Z) : M (timers D U) unit :=
  m ← get_manager manager; put_manager manager {| nr_timers := n; last_tick := last_tick m |}.

(** __list_add, then [rest]. *)
Definition list_add_accesses {A} (node prev next : Z) (rest : prog (timers D U) A) : prog (timers D U) A :=
  Access (on_links (set_prev next node)) (fun _ =>
  Access (on_links (set_next node next)) (fun _ =>
  Access (on_links (set_prev node prev)) (fun _ =>
  Access (on_links (set_next prev node)) (fun _ => rest)))).

Definition link_timer (timer manager : Z) : prog (timers D U) Z :=
  if manager =? 0 then Return (- EINVAL) else
  Access (get_timer timer) (fun t =>
  Access (write_active timer t) (fun _ =>
  Access (get_manager manager) (fun m =>
  Access (write_nr_timers manager (u32 (nr_timers m + 1))) (fun _ =>
  Access (on_links (list_next (manager + off_timer_list))) (fun n =>
  list_add_accesses (timer + off_list) (manager + off_timer_list) n (Return 0)))))).

Definition start_timer_accesses (timer manager : Z) : prog (timers D U) Z :=
  if timer =? 0 then Return (- EINVAL) else
  if manager =? 0 then Access get_percpu_timer_manager (link_timer timer)
  else link_timer timer manager.
End Start.

(** The timer interrupt as the interrupted code sees it. *)
Definition take_irq {D U} `{Hardware D} `{Config} `{Callbacks U} `{TimerLayout} `{IrqHandlers D U} (fuel : nat)
    : M (timers D U) unit := _ ← el2_irq fuel; mret tt.
