(* ===== verification/PreemptProof.v ===== *)
(** Interrupts that leave the data of the interrupted program alone do not disturb it. *)
From Stdlib Require Import ZArith Lia.
From stdpp Require Import base gmap list strings.
From S2P Require Import Prelude Mem HeapSpec Miniheap HeapProof HeapClient Printf PrintfProof Io IoProof Spinlock GicRegs Gic GicIntr.
From S2P Require Import GicProof GicIntrProof GicOpsProof CList Timer TimerProof TimerInitProof Exception IrqProof Preempt.

Open Scope Z_scope.

(** * The walk of a tick, forwards only

    The interrupt follows [next] alone as long as no timer expires: the list may be in the middle
    of an insertion. *)
Fixpoint path (L : links) (a : Z) (xs : list Z) (b : Z) : Prop :=
  match xs with
  | [] => nxt L a = Some b
  | x :: xs' => nxt L a = Some x /\ path L x xs' b
  end.

Lemma chain_path L a xs b : chain L a xs b -> path L a xs b.
Proof. revert a. induction xs as [|x xs IH]; intros a; cbn; [tauto|]. intros (? & _ & ?). eauto. Qed.

Lemma path_ext L L' a xs b : (forall x, x ∈ a :: xs -> nxt L' x = nxt L x) -> path L a xs b -> path L' a xs b.
Proof.
  revert a. induction xs as [|x xs IH]; intros a Hn; cbn; [by rewrite Hn by set_solver|].
  intros [? ?]. rewrite Hn by set_solver. split; [done|]. apply IH; [intros; apply Hn; set_solver|done].
Qed.

Lemma path_next L a pre x rest b : path L a (pre ++ x :: rest) b -> nxt L x = Some (hd b rest).
Proof.
  revert a. induction pre as [|y pre IH]; intros a; cbn; [|intros [_ ?]; eauto].
  intros [_ ?]. destruct rest; cbn in *; tauto.
Qed.

Section Forward.
Context {D U : Type} `{Callbacks U}.

(** The list at [h] reads forwards as [xs], timers of [O] that do not expire. *)
Record walkable (h : Z) (xs : list Z) (O : gmap Z zhyper_timer) (s : timers D U) : Prop := {
  wk_path : path (tlinks s) h xs h;
  wk_head : h ∉ xs;
  wk_objs : forall x, x ∈ xs -> is_Some (timer_of O x) /\ timer_of (objs s) x = timer_of O x;
  wk_stay : forall x, x ∈ xs -> expires O x = false }.

(** Such a walk changes the callbacks' state alone. *)
Lemma forward_walk h xs O (s : timers D U) u2 fuel :
  walkable h xs O s -> run_calls (calls O xs) (user s) = Ok tt u2 -> (length xs <= fuel)%nat ->
  list_for_each_safe tlinks set_tlinks fuel h tick_timer s = Ok tt (set_user s u2).
Proof.
  intros [Hp Hh Ho Hs] Hrun Hf.
  set (I := fun rest s' => exists past u, xs = past ++ rest /\ s' = set_user s u /\ run_calls (calls O rest) u = Ok tt u2).
  destruct (list_for_each_safe_walk tlinks set_tlinks ltac:(by intros []) I tick_timer h) with (xs := xs) (fuel := fuel) (s := s)
    as (s' & E & past & u & Hxs & -> & Hu).
  - intros rest s' (past & u & Hxs & -> & _). split; [rewrite Hxs in Hh; set_solver|]. cbn [tlinks set_user].
    destruct rest as [|x rest]; cbn [hd tl].
    + rewrite app_nil_r in Hxs. subst past. exists (hd h xs). destruct xs; cbn in *; tauto.
    + exists (hd h rest). split; [|done]. eapply path_next. by rewrite Hxs in Hp.
  - intros x rest s' (past & u & Hxs & -> & Hr).
    destruct (Ho x ltac:(set_solver)) as [[t Ht] Hto]. rewrite Ht in Hto.
    pose proof (Hs x ltac:(set_solver)) as Hex. unfold expires in Hex. rewrite Ht in Hex.
    cbn [calls mbind list_bind] in Hr. unfold calls_of in Hr. rewrite Ht in Hr. apply run_calls_app in Hr as (u1 & Hu1 & Hu2).
    exists (set_user s u1). split; [|exists (past ++ [x]), u1; by rewrite <- app_assoc].
    by apply (tick_keeps (set_user s u) x t u1).
  - by exists [], (user s); destruct s.
  - destruct xs; cbn in *; tauto.
  - done.
  - rewrite E. cbn in Hu. by apply Ok_inj in Hu as [_ ->].
Qed.
End Forward.

(** * Runs with interrupts *)

Lemma times_app {S} a b (m : M S unit) s s2 :
  times (a + b) m s = Ok tt s2 <-> exists s1, times a m s = Ok tt s1 /\ times b m s1 = Ok tt s2.
Proof.
  revert s. induction a as [|a IH]; intros s; cbn [Nat.add times].
  - split; [by exists s|]. by intros (s1 & [_ ->]%Ok_inj & ?).
  - unfold mbind, M_bind. destruct (m s) as [[] t|w t]; [apply IH|]. split; [done|]. by intros (s1 & ? & _).
Qed.

Lemma taken_S n sched : taken (S n) sched = (hd O sched + taken n (tl sched))%nat.
Proof. unfold taken. destruct sched as [|j sched]; [cbn; by rewrite take_nil|done]. Qed.

Section Run.
Context {D U : Type} `{Hardware D} `{Config} `{Callbacks U} `{TimerLayout} `{IrqHandlers D U}.

(** The same data: only hardware, the callbacks' state and the tick count may differ. *)
Record mirrors (s s1 : timers D U) : Prop := {
  mi_gic : same_state (tgic s) (tgic s1);
  mi_heap : theap s1 = theap s; mi_links : tlinks s1 = tlinks s;
  mi_objs : objs s1 = objs s; mi_managers : managers s1 = managers s }.

#[global] Instance mirrors_preorder : PreOrder mirrors.
Proof. split; [by intros s; split|]. intros a b c [] []. split; etrans; eassumption. Qed.

#[global] Instance mirrors_symmetric : Symmetric mirrors.
Proof. intros a b [(? & ? & ? & ?) ? ? ? ?]. by repeat split. Qed.

Lemma mirrors_same s s1 : same_timers s s1 -> mirrors s s1.
Proof. intros (? & ? & ? & ? & ? & _). by split. Qed.

Lemma walkable_mirrors h xs O s s1 : mirrors s s1 -> walkable h xs O s -> walkable h xs O s1.
Proof. intros [_ _ Hl Ho _] []. split; rewrite ?Hl, ?Ho; done. Qed.

Lemma timers_ok_mirrors b0 sz h live s s1 xs : mirrors s s1 -> timers_ok b0 sz h live s xs -> timers_ok b0 sz h live s1 xs.
Proof. intros [_ Hh Hl Ho _] []. split; rewrite ?Hh, ?Hl, ?Ho; done. Qed.

Lemma timers_ok_walkable b0 sz h live (s : timers D U) xs :
  timers_ok b0 sz h live s xs -> (forall x, x ∈ xs -> expires (objs s) x = false) -> walkable h xs (objs s) s.
Proof.
  intros [_ Hl Ho _ _] Hex. split; [apply chain_path, Hl|apply NoDup_cons, Hl| |done].
  intros x Hx. split; [by apply Ho|done].
Qed.

(** An access that works on that data: it does the same in a state with the same data, and leaves
    the callbacks' state and the count alone. *)
Definition steady {B} (m : M (timers D U) B) : Prop := forall s b t,
  m s = Ok b t -> same_state (tgic s) (tgic t) /\
  forall s1, mirrors s s1 -> exists t1, m s1 = Ok b t1 /\ mirrors t t1 /\ user t1 = user s1 /\ g_counter t1 = g_counter s1.

(** A run of [n] accesses, each of them in a state where an interrupt may walk the list. *)
Inductive calm {A} (h : Z) (xs : list Z) (O : gmap Z zhyper_timer) :
    prog (timers D U) A -> timers D U -> nat -> A -> timers D U -> Prop :=
  | calm_return a s : calm h xs O (Return a) s 0 a s
  | calm_access {B} (m : M (timers D U) B) k s b t n a s' :
      walkable h xs O s -> steady m -> m s = Ok b t -> calm h xs O (k b) t n a s' ->
      calm h xs O (Access m k) s (S n) a s'.

Lemma calm_direct {A} h xs O (p : prog (timers D U) A) s n a s' : calm h xs O p s n a s' -> direct p s = Ok a s'.
Proof. induction 1 as [|B m k s b t n a s' _ _ E _ IH]; [done|]. cbn [direct]. by mstep E. Qed.

(** The interrupt is the timer's, on CPU [cpu], with context [c]. *)
Context (cpu : Z) (Hcpu : on_this_cpu (D:=D) cpu) (c : irq_context) (fuel : nat).
Hypothesis Hack : forall s : timers D U, acknowledged s = PPI_TIMER_INTID_EL2.
Hypothesis (Hid : intid c = PPI_TIMER_INTID_EL2) (Hops : ops c = Some g_ppi_intr_ops)
  (Hhandle : handle c = timer_irq_handler_code) (Hcode : timer_irq_handler_code <> 0) (Harg : arg c <> 0).
Context (xs : list Z) (O : gmap Z zhyper_timer).
Hypothesis Hfuel : (length xs <= fuel)%nat.

Abbreviation ppi := (PpiCtx cpu (PPI_TIMER_INTID_EL2 - 16)).
Abbreviation head := (arg c + off_timer_list).

Lemma irq_tick (s : timers D U) u2 :
  walkable head xs O s -> irqs (tgic s) !! ppi = Some c -> run_calls (calls O xs) (user s) = Ok tt u2 ->
  exists s', take_irq fuel s = Ok tt s' /\ mirrors s s' /\ user s' = u2 /\ u64 (g_counter s') = u64 (g_counter s + 1).
Proof using Hcpu Hack Hid Hops Hhandle Hcode Harg Hfuel.
  intros Hw Hc Hrun.
  destruct (irq_runs cpu Hcpu s fuel c (fun s3 => mirrors s s3 /\ user s3 = u2 /\ g_counter s3 = u64 (g_counter s + 1))
    (Hack s) Hc Hid Hops Hhandle Hcode) as (f & s3 & s' & l & [E _] & _ & (M3 & Hu3 & Hc3) & S3 & _).
  { intros s2 S2. pose proof (mirrors_same _ _ S2) as M2. rewrite <- (same_irqs _ _ (mi_gic _ _ M2)) in Hc.
    destruct (handler_runs s2 fuel _ c (fun s3 => mirrors s2 s3 /\ user s3 = u2) Hc Harg)
      as (f & s3 & s4 & l & R & _ & E & [M3 Hu3] & S4 & Hn & _ & Sg).
    { intros t St. assert (M : mirrors s2 t) by (destruct St as (? & ? & ? & ? & ? & _); by split).
      exists (set_user t u2). split; [|split; [done|split; [|done]]].
      - apply (forward_walk _ xs O); [by eapply walkable_mirrors, walkable_mirrors| |done].
        destruct St as (_ & _ & _ & _ & _ & _ & ->). destruct S2 as (_ & _ & _ & _ & _ & _ & Hu). cbn. by rewrite Hu.
      - etrans; [exact M|]. by split. }
    exists f, s4, l. split; [done|]. split; [done|]. split; [done|].
    destruct S2 as (_ & _ & _ & _ & _ & Hcn & _). pose proof S4 as (_ & _ & _ & _ & _ & _ & Hu4).
    split; [etrans; [exact M2|]; etrans; [exact M3|by apply mirrors_same]|]. by rewrite Hn, Hcn, Hu4. }
  exists s'. split; [unfold take_irq; by mstep E|]. split; [etrans; [exact M3|by apply mirrors_same]|].
  destruct S3 as (_ & _ & _ & _ & _ & Tc & Tu). by rewrite Tc, Tu, Hc3, wrap_wrap.
Qed.

Lemma irq_ticks n : forall (s : timers D U) u2,
  walkable head xs O s -> irqs (tgic s) !! ppi = Some c -> times n (run_calls (calls O xs)) (user s) = Ok tt u2 ->
  exists s', times n (take_irq fuel) s = Ok tt s' /\ mirrors s s' /\ user s' = u2 /\
    u64 (g_counter s') = u64 (g_counter s + Z.of_nat n).
Proof using Hcpu Hack Hid Hops Hhandle Hcode Harg Hfuel.
  induction n as [|n IH]; intros s u2 Hw Hc Hu.
  - apply Ok_inj in Hu as [_ <-]. exists s. by rewrite Z.add_0_r.
  - apply (times_app 1 n) in Hu as (u1 & Hu1 & Hu2). cbn [times] in Hu1. apply bind_inv_Ok in Hu1 as ([] & u & Hu1 & [_ ->]%Ok_inj).
    destruct (irq_tick s u1 Hw Hc Hu1) as (s1 & E1 & M1 & U1 & C1). rewrite <- U1 in Hu2.
    rewrite <- (same_irqs _ _ (mi_gic _ _ M1)) in Hc.
    destruct (IH s1 u2 (walkable_mirrors _ _ _ _ _ M1 Hw) Hc Hu2) as (s2 & E2 & M2 & U2 & C2).
    exists s2. split; [cbn [times]; by mstep E1|]. split; [by etrans|]. split; [done|].
    rewrite C2. unfold wrap in *. rewrite <- Z.add_mod_idemp_l, C1, Z.add_mod_idemp_l by lia. f_equal. lia.
Qed.

(** A calm run does the same with interrupts, and every interrupt does its tick. *)
Lemma calm_interrupted {A} (p : prog (timers D U) A) s n a s' : calm head xs O p s n a s' ->
  forall sched s1 u2, mirrors s s1 -> irqs (tgic s) !! ppi = Some c ->
  times (taken n sched) (run_calls (calls O xs)) (user s1) = Ok tt u2 ->
  exists s1', interrupted (take_irq fuel) sched p s1 = Ok a s1' /\ mirrors s' s1' /\ user s1' = u2 /\
    u64 (g_counter s1') = u64 (g_counter s1 + Z.of_nat (taken n sched)).
Proof using Hcpu Hack Hid Hops Hhandle Hcode Harg Hfuel.
  induction 1 as [a s|B m k s b t n a s' Hw Hm E _ IH]; intros sched s1 u2 M Hc Hu.
  - apply Ok_inj in Hu as [_ <-]. exists s1. by rewrite Z.add_0_r.
  - rewrite taken_S in Hu |- *. apply times_app in Hu as (u1 & Hu1 & Hu2).
    assert (Hc1 : irqs (tgic s1) !! ppi = Some c) by by rewrite (same_irqs _ _ (mi_gic _ _ M)).
    destruct (irq_ticks (hd 0%nat sched) s1 u1 (walkable_mirrors _ _ _ _ _ M Hw) Hc1 Hu1) as (s2 & E2 & M2 & U2 & C2).
    destruct (Hm s b t E) as [Sg Hst]. destruct (Hst s2 ltac:(by etrans)) as (t2 & E3 & M3 & U3 & C3).
    rewrite <- U2, <- U3 in Hu2. rewrite <- (same_irqs _ _ Sg) in Hc.
    destruct (IH (tl sched) t2 u2 M3 Hc Hu2) as (s3 & E4 & M4 & U4 & C4).
    exists s3. split; [cbn [interrupted]; mstep E2; by mstep E3|]. split; [done|]. split; [done|].
    rewrite C4, C3. unfold wrap in *. rewrite <- Z.add_mod_idemp_l, C2, Z.add_mod_idemp_l by lia. f_equal. lia.
Qed.
End Run.

(** * start_timer *)

Section Start.
Context {D U : Type} `{Hardware D} `{Config} `{Callbacks U} `{TimerLayout}.

(** Without interrupts the accesses are start_timer. *)
Lemma bind_ext {S A B} (m : M S A) (k k' : A -> M S B) s : (forall a t, m s = Ok a t -> k a t = k' a t) -> (m ≫= k) s = (m ≫= k') s.
Proof. intros Hk. unfold mbind, M_bind. destruct (m s) eqn:E; [by apply Hk|done]. Qed.

Lemma get_timer_inv p (s : timers D U) t s' : get_timer p s = Ok t s' -> s' = s /\ objs s !! p = Some t.
Proof. unfold get_timer. destruct (objs s !! p); [|done]. by intros [-> ->]%Ok_inj. Qed.
Lemma get_manager_inv p (s : timers D U) t s' : get_manager p s = Ok t s' -> s' = s /\ managers s !! p = Some t.
Proof. unfold get_manager. destruct (managers s !! p); [|done]. by intros [-> ->]%Ok_inj. Qed.

Lemma write_active_run p (s : timers D U) t :
  objs s !! p = Some t -> write_active p t s = Ok tt (set_objs <[p := set_active 1 t]> s).
Proof. intros Ht. unfold write_active. rewrite (bind_Ok _ _ s t s) by by apply get_timer_run. done. Qed.
Lemma write_nr_run p n (s : timers D U) m :
  managers s !! p = Some m -> write_nr_timers p n s = Ok tt (set_managers <[p := {| nr_timers := n; last_tick := last_tick m |}]> s).
Proof. intros Hm. unfold write_nr_timers. rewrite (bind_Ok _ _ s m s) by (unfold get_manager; by rewrite Hm). done. Qed.

(** The accesses of list_add are list_add. *)
Lemma direct_list_add {A} node h (a : A) (s : timers D U) :
  direct (Access (on_links (list_next h)) (fun n => list_add_accesses node h n (Return a))) s =
  (on_links (list_add node h) ;; mret a) s.
Proof.
  cbn [direct list_add_accesses]. transitivity ((_ ← on_links (list_add node h); mret a) s); [|done].
  unfold list_add, __list_add, on_links, zoom, mbind, M_bind. cbn [tlinks set_tlinks].
  destruct (list_next h (tlinks s)) as [n L|w L]; [|done]. cbn [tlinks set_tlinks].
  destruct (set_prev n node L) as [[] L1|w L1]; [|done]. cbn [tlinks set_tlinks].
  destruct (set_next node n L1) as [[] L2|w L2]; [|done]. cbn [tlinks set_tlinks].
  destruct (set_prev node h L2) as [[] L3|w L3]; [|done]. cbn [tlinks set_tlinks].
  by destruct (set_next h node L3) as [[] L4|w L4].
Qed.

Lemma direct_link timer manager (s : timers D U) :
  direct (link_timer timer manager) s =
    (if manager =? 0 then mret (- EINVAL) else
     t ← get_timer timer;
     put_timer timer (set_active 1 t) ;;
     m ← get_manager manager;
     put_manager manager {| nr_timers := u32 (nr_timers m + 1); last_tick := last_tick m |} ;;
     on_links (list_add (timer + off_list) (manager + off_timer_list)) ;;
     mret 0) s.
Proof.
  unfold link_timer. destruct (manager =? 0); [done|]. cbn [direct].
  apply bind_ext. intros t s1 [-> Ht]%get_timer_inv. mstep (write_active_run timer s t Ht).
  unfold put_timer. rewrite bind_modify. set (s1 := set_objs _ s).
  apply bind_ext. intros m s2 [-> Hm]%get_manager_inv. mstep (write_nr_run manager (u32 (nr_timers m + 1)) s1 m Hm).
  unfold put_manager. rewrite bind_modify. set (s2 := set_managers _ s1).
  apply (direct_list_add (timer + off_list) (manager + off_timer_list) 0 s2).
Qed.

Lemma direct_start timer manager (s : timers D U) :
  direct (start_timer_accesses timer manager) s = start_timer timer manager s.
Proof.
  unfold start_timer_accesses, start_timer. destruct (timer =? 0); [done|].
  destruct (Z.eqb_spec manager 0) as [->|Hm]; cbn [direct].
  - apply bind_ext. intros m t _. apply direct_link.
  - rewrite bind_ret. apply direct_link.
Qed.

(** The accesses are steady. *)
Lemma steady_get_timer p : steady (D:=D) (U:=U) (get_timer p).
Proof.
  intros s b t [-> Hb]%get_timer_inv. split; [done|]. intros s1 M. exists s1. split; [|done].
  apply get_timer_run. by rewrite (mi_objs _ _ M).
Qed.

Lemma steady_get_manager p : steady (D:=D) (U:=U) (get_manager p).
Proof.
  intros s b t [-> Hb]%get_manager_inv. split; [done|]. intros s1 M. exists s1. split; [|done].
  unfold get_manager. by rewrite (mi_managers _ _ M), Hb.
Qed.

Lemma steady_write_active p t0 : steady (D:=D) (U:=U) (write_active p t0).
Proof.
  intros s [] t E. unfold write_active in *. apply bind_inv_Ok in E as (t' & s' & [-> Ht]%get_timer_inv & [_ <-]%Ok_inj).
  split; [done|]. intros s1 M. eexists. split; [rewrite (bind_Ok _ _ s1 t' s1); [reflexivity|]|].
  - apply get_timer_run. by rewrite (mi_objs _ _ M).
  - split; [|done]. destruct M as [Mg Mh Ml Mo Mm]. split; try done. cbn. by rewrite Mo.
Qed.

Lemma steady_write_nr p n : steady (D:=D) (U:=U) (write_nr_timers p n).
Proof.
  intros s [] t E. unfold write_nr_timers in *. apply bind_inv_Ok in E as (m & s' & [-> Hm]%get_manager_inv & [_ <-]%Ok_inj).
  split; [done|]. intros s1 M. eexists. split; [rewrite (bind_Ok _ _ s1 m s1); [reflexivity|]|].
  - unfold get_manager. by rewrite (mi_managers _ _ M), Hm.
  - split; [|done]. destruct M as [Mg Mh Ml Mo Mm]. split; try done. cbn. by rewrite Mm.
Qed.

Lemma steady_links {A} (m : M links A) : steady (D:=D) (U:=U) (on_links m).
Proof.
  intros s b t E. unfold on_links, zoom in *. destruct (m (tlinks s)) as [a L|w L] eqn:Em; [|done].
  apply Ok_inj in E as [-> <-]. split; [done|]. intros s1 M. rewrite (mi_links _ _ M), Em. eexists. split; [reflexivity|].
  split; [|done]. destruct M. by split.
Qed.

Lemma steady_this_manager cpu (Hcpu : on_this_cpu (D:=D) cpu) : steady (D:=D) (U:=U) get_percpu_timer_manager.
Proof.
  intros s b t E. destruct (runs_this_manager cpu Hcpu s) as (v & s' & [E' _] & S). rewrite E in E'. apply Ok_inj in E' as [-> ->].
  split; [apply S|]. intros s1 M. destruct (runs_this_manager cpu Hcpu s1) as (v1 & s2 & [E2 _] & S2). exists s2.
  split; [done|]. pose proof S2 as (_ & _ & _ & _ & _ & Hc & Hu). split; [|done].
  etrans; [symmetry; exact (mirrors_same _ _ S)|]. etrans; [exact M|exact (mirrors_same _ _ S2)].
Qed.

(** One access of the links. *)
Lemma calm_links {A B} h xs O (m : M links B) (k : B -> prog (timers D U) A) s b L n a s' :
  walkable h xs O s -> m (tlinks s) = Ok b L -> calm h xs O (k b) (set_tlinks s L) n a s' ->
  calm h xs O (Access (on_links m) k) s (S n) a s'.
Proof.
  intros Hw Em. apply calm_access; [done|apply steady_links|]. unfold on_links, zoom. by rewrite Em.
Qed.

Lemma walkable_links h xs O (s : timers D U) L :
  (forall x, x ∈ h :: xs -> nxt L x = nxt (tlinks s) x) -> walkable h xs O s -> walkable h xs O (set_tlinks s L).
Proof. intros Hn []. split; try done. by eapply path_ext. Qed.

(** __list_add in front of a list that is being walked. *)
Lemma calm_list_add {A} h xs O (s : timers D U) node :
  walkable h xs O s -> node ∉ h :: xs -> (forall x, x ∈ node :: h :: xs -> is_Some (tlinks s !! x)) ->
  exists L, forall rest n (a : A) s', calm h xs O rest (set_tlinks s L) n a s' ->
    calm h xs O (list_add_accesses node h (hd h xs) rest) s (4 + n) a s'.
Proof.
  intros Hw Hnode Hdom.
  assert (Hhd : hd h xs ∈ h :: xs) by (destruct xs; set_solver).
  destruct (set_prev_run (hd h xs) node (tlinks s)) as (L1 & E1 & [D1 _] & N1 & _); [apply Hdom; set_solver|].
  destruct (set_next_run node (hd h xs) L1) as (L2 & E2 & [D2 _] & N2 & _); [apply D1, Hdom; set_solver|].
  destruct (set_prev_run node h L2) as (L3 & E3 & [D3 _] & N3 & _); [apply D2, D1, Hdom; set_solver|].
  destruct (set_next_run h node L3) as (L4 & E4 & _); [apply D3, D2, D1, Hdom; set_solver|].
  exists L4. intros rest n a s' Hrest. unfold list_add_accesses.
  assert (Hkeep : forall x, x ∈ h :: xs -> nxt L2 x = nxt (tlinks s) x).
  { intros x Hx. rewrite N2, N1, decide_False; [done|]. by intros ->. }
  eapply calm_links; [exact Hw|exact E1|].
  eapply calm_links; [apply walkable_links; [intros x _; apply N1|exact Hw]|exact E2|].
  eapply calm_links; [by apply (walkable_links h xs O s L2)|exact E3|].
  eapply calm_links; [|exact E4|exact Hrest].
  apply (walkable_links h xs O s L3); [|done]. intros x Hx. rewrite N3. by apply Hkeep.
Qed.

Lemma calm_link b0 sz live (s : timers D U) xs p m t mm :
  timers_ok b0 sz (m + off_timer_list) live s xs -> m <> 0 ->
  (forall x, x ∈ xs -> expires (objs s) x = false) ->
  objs s !! p = Some t -> managers s !! m = Some mm -> is_Some (tlinks s !! (p + off_list)) ->
  p + off_list ∉ m + off_timer_list :: xs ->
  exists s', calm (m + off_timer_list) xs (objs s) (link_timer p m) s 9 0 s'.
Proof.
  intros Hok Hm Hex Ht Hmm Hlk Hnot.
  pose proof Hok as [_ Hl Ho _ _].
  assert (Hp : forall x, x ∈ xs -> x - off_list <> p).
  { intros x Hx <-. apply Hnot. replace (x - off_list + off_list) with x by lia. set_solver. }
  assert (W0 : walkable (m + off_timer_list) xs (objs s) s).
  { by eapply timers_ok_walkable. }
  set (s1 := set_objs <[p := set_active 1 t]> s).
  assert (W1 : walkable (m + off_timer_list) xs (objs s) s1).
  { destruct W0. split; try done. intros x Hx. split; [by apply Ho|]. apply lookup_insert_ne. intros E. by apply (Hp x Hx). }
  set (s2 := set_managers <[m := {| nr_timers := u32 (nr_timers mm + 1); last_tick := last_tick mm |}]> s1).
  assert (W2 : walkable (m + off_timer_list) xs (objs s) s2) by (destruct W1; by split).
  destruct (calm_list_add (A:=Z) (m + off_timer_list) xs (objs s) s2 (p + off_list) W2 Hnot) as [L HL].
  { intros x [->|Hx]%elem_of_cons; [done|by eapply clist_dom]. }
  exists (set_tlinks s2 L). unfold link_timer. rewrite (proj2 (Z.eqb_neq _ _) Hm).
  eapply calm_access; [exact W0|apply steady_get_timer|by apply get_timer_run|].
  eapply calm_access; [exact W0|apply steady_write_active|by apply write_active_run|]. fold s1.
  eapply calm_access; [exact W1|apply steady_get_manager|unfold get_manager; cbn; by rewrite Hmm|].
  eapply calm_access; [exact W1|apply steady_write_nr|by apply write_nr_run|]. fold s2.
  eapply calm_links; [exact W2|exact (list_next_run _ _ _ (clist_nxt_head _ _ _ Hl))|].
  apply (HL (Return 0) 0%nat), calm_return.
Qed.

(** What an uninterrupted start_timer leaves, with the manager given or found. *)
Lemma direct_start_run cpu (Hcpu : on_this_cpu (D:=D) cpu) b0 sz live (s : timers D U) xs p t mm m :
  m = 0 \/ m = this_manager cpu ->
  timers_ok b0 sz (this_manager cpu + off_timer_list) live s xs -> this_manager cpu <> 0 -> p <> 0 ->
  objs s !! p = Some t -> managers s !! this_manager cpu = Some mm -> live !! p = Some sizeof_zhyper_timer ->
  is_Some (tlinks s !! (p + off_list)) -> p + off_list ∉ this_manager cpu + off_timer_list :: xs ->
  exists s', direct (start_timer_accesses p m) s = Ok 0 s' /\
    timers_ok b0 sz (this_manager cpu + off_timer_list) live s' (p + off_list :: xs) /\
    objs s' = <[p := set_active 1 t]> (objs s) /\
    managers s' = <[this_manager cpu := {| nr_timers := u32 (nr_timers mm + 1); last_tick := last_tick mm |}]> (managers s).
Proof.
  intros Hm Hok Hm0 Hp Ht Hmm Hl Hlk Hnot. rewrite direct_start. destruct Hm as [->| ->].
  - destruct (runs_start_here cpu Hcpu s b0 sz live xs p t mm Hm0 Hok Hp Ht Hmm Hl Hlk Hnot)
      as (v & s' & [E _] & K & O & M & _). by exists s'.
  - destruct (start_run b0 sz _ live s xs p t _ mm Hok eq_refl Hp Hm0 Ht Hmm Hl Hlk Hnot)
      as (s' & E & K & O & M & _). by exists s'.
Qed.

(** start_timer is calm, and calm with the result of start_timer. *)
Lemma calm_start cpu (Hcpu : on_this_cpu (D:=D) cpu) b0 sz live (s : timers D U) xs p t mm m :
  m = 0 \/ m = this_manager cpu ->
  timers_ok b0 sz (this_manager cpu + off_timer_list) live s xs -> this_manager cpu <> 0 -> p <> 0 ->
  (forall x, x ∈ xs -> expires (objs s) x = false) ->
  objs s !! p = Some t -> managers s !! this_manager cpu = Some mm -> live !! p = Some sizeof_zhyper_timer ->
  is_Some (tlinks s !! (p + off_list)) -> p + off_list ∉ this_manager cpu + off_timer_list :: xs ->
  exists s', calm (this_manager cpu + off_timer_list) xs (objs s) (start_timer_accesses p m) s
      (if m =? 0 then 10%nat else 9%nat) 0 s' /\
    timers_ok b0 sz (this_manager cpu + off_timer_list) live s' (p + off_list :: xs) /\
    objs s' = <[p := set_active 1 t]> (objs s) /\
    managers s' = <[this_manager cpu := {| nr_timers := u32 (nr_timers mm + 1); last_tick := last_tick mm |}]> (managers s).
Proof.
  intros Hm Hok Hm0 Hp Hex Ht Hmm Hl Hlk Hnot.
  assert (HC : exists s', calm (this_manager cpu + off_timer_list) xs (objs s) (start_timer_accesses p m) s
    (if m =? 0 then 10%nat else 9%nat) 0 s').
  { unfold start_timer_accesses. rewrite (proj2 (Z.eqb_neq p 0) Hp). destruct Hm as [->| ->].
    - destruct (runs_this_manager cpu Hcpu s) as (v & s1 & [E1 _] & S1).
      pose proof (timers_ok_same _ _ _ _ _ _ _ S1 Hok) as Hok1. pose proof S1 as (_ & _ & Sk & So & Sm & _ & _).
      rewrite <- So in Ht, Hex. rewrite <- Sm in Hmm. rewrite <- Sk in Hlk.
      destruct (calm_link b0 sz live s1 xs p _ t mm Hok1 Hm0 Hex Ht Hmm Hlk Hnot) as [s' C]. rewrite So in C, Hex.
      exists s'. cbn [Z.eqb]. eapply calm_access; [by eapply timers_ok_walkable|by eapply steady_this_manager|exact E1|exact C].
    - rewrite (proj2 (Z.eqb_neq _ 0) Hm0). by apply (calm_link b0 sz live s xs p _ t mm). }
  destruct HC as [s' C]. exists s'. split; [done|].
  destruct (direct_start_run cpu Hcpu b0 sz live s xs p t mm m Hm Hok Hm0 Hp Ht Hmm Hl Hlk Hnot) as (s2 & E & R).
  rewrite (calm_direct _ _ _ _ _ _ _ _ C) in E. apply Ok_inj in E as [_ ->]. exact R.
Qed.

(** A timer is put in front of the list, by the last accesses of start_timer. *)
Lemma direct_add_run b0 sz h live (s : timers D U) xs p t :
  timers_ok b0 sz h live s xs -> objs s !! p = Some t -> live !! p = Some sizeof_zhyper_timer ->
  is_Some (tlinks s !! (p + off_list)) -> p + off_list ∉ h :: xs ->
  exists s', direct (Access (on_links (list_next h)) (fun n => list_add_accesses (p + off_list) h n (Return 0))) s = Ok 0 s' /\
    timers_ok b0 sz h live s' (p + off_list :: xs) /\ objs s' = objs s /\ managers s' = managers s /\ user s' = user s.
Proof.
  intros [Hh Hl Ho Hv Hd] Ht Hlp Hlk Hnot. rewrite direct_list_add.
  destruct (clist_add _ _ _ (p + off_list) Hl Hlk Hnot) as (L & EL & _ & HL).
  assert (E : on_links (list_add (p + off_list) h) s = Ok tt (set_tlinks s L)) by (unfold on_links, zoom; by rewrite EL).
  mstep E. eexists. split; [done|]. split; [|done]. split; [done|done| | |done].
  - intros x [->|Hx]%elem_of_cons; [|by apply Ho]. unfold timer_of.
    replace (p + off_list - off_list) with p by lia. by exists t.
  - intros x [->|Hx]%elem_of_cons; [by replace (p + off_list - off_list) with p by lia|by apply Hv].
Qed.
End Start.

(** * One interrupt at which timers expire *)

Lemma interrupted_nil {S A} irq (p : prog S A) s : interrupted irq [] p s = direct p s.
Proof.
  revert s. induction p as [a|B m k IH]; intros s; [done|]. cbn [interrupted hd tl times direct].
  rewrite bind_ret. apply bind_ext. intros b t _. apply IH.
Qed.

(** One interrupt, before the access after the first [i]. *)
Definition once_at (i : nat) : list nat := replicate i 0%nat ++ [1%nat].

Lemma interrupted_now {S A B} irq (m : M S B) (k : B -> prog S A) s s1 :
  irq s = Ok tt s1 -> interrupted irq (once_at 0) (Access m k) s = direct (Access m k) s1.
Proof.
  intros E. cbn [interrupted once_at replicate app hd tl times]. rewrite bind_assoc. mstep E. rewrite bind_ret.
  cbn [direct]. apply bind_ext. intros b t _. apply interrupted_nil.
Qed.

Lemma interrupted_later {S A B} irq i (m : M S B) (k : B -> prog S A) s b s1 :
  m s = Ok b s1 -> interrupted irq (once_at (Datatypes.S i)) (Access m k) s = interrupted irq (once_at i) (k b) s1.
Proof. intros E. cbn [interrupted once_at replicate app hd tl times]. rewrite bind_ret. by mstep E. Qed.

(** What a tick does depends on the timers of the list alone. *)
Lemma tick_ext O1 O2 xs : (forall x, x ∈ xs -> timer_of O1 x = timer_of O2 x) ->
  kept O1 xs = kept O2 xs /\ gone O1 xs = gone O2 xs /\ calls O1 xs = calls O2 xs.
Proof.
  induction xs as [|x xs IH]; intros E; [done|]. destruct IH as (Hk & Hg & Hc); [intros; apply E; set_solver|].
  pose proof (E x ltac:(set_solver)) as Ex.
  assert (Hx : expires O1 x = expires O2 x /\ calls_of O1 x = calls_of O2 x) by (unfold expires, calls_of; by rewrite Ex).
  destruct Hx as [Hx Hy]. split; [|split; [|unfold calls in *; cbn [mbind list_bind]; by f_equal]].
  - unfold kept in *. rewrite !filter_cons, Hx. case_decide; by f_equal.
  - unfold gone in *. rewrite !filter_cons, Hx. case_decide; by f_equal.
Qed.

Lemma without_insert {A} O xs (m : gmap Z A) p a :
  p + off_list ∉ xs -> without O xs (<[p := a]> m) = <[p := a]> (without O xs m).
Proof.
  intros Hp. unfold without.
  assert (Hg : forall x, x ∈ gone O xs -> x - off_list <> p).
  { intros x [_ Hx]%list_elem_of_filter <-. apply Hp. by replace (x - off_list + off_list) with x by lia. }
  induction (gone O xs) as [|x l IH]; [done|]. cbn [foldr]. rewrite IH by (intros; apply Hg; set_solver).
  apply delete_insert_ne. apply Hg. set_solver.
Qed.

Section Race.
Context {D U : Type} `{Hardware D} `{Config} `{Callbacks U} `{TimerLayout} `{IrqHandlers D U}.
Context (cpu : Z) (Hcpu : on_this_cpu (D:=D) cpu) (c : irq_context) (fuel : nat).
Hypothesis Hack : forall s : timers D U, acknowledged s = PPI_TIMER_INTID_EL2.
Hypothesis (Hid : intid c = PPI_TIMER_INTID_EL2) (Hops : ops c = Some g_ppi_intr_ops)
  (Hhandle : handle c = timer_irq_handler_code) (Hcode : timer_irq_handler_code <> 0) (Harg : arg c <> 0).
Context (b0 sz : Z) (live : gmap Z Z) (xs : list Z) (O : gmap Z zhyper_timer) (u2 : U).
Hypothesis Hfuel : (length xs <= fuel)%nat.
(** The timer that is started. *)
Context (p : Z) (Hnot : p + off_list ∉ arg c + off_timer_list :: xs).

Abbreviation head := (arg c + off_timer_list).
Abbreviation ppi := (PpiCtx cpu (PPI_TIMER_INTID_EL2 - 16)).

(** A state in which the interrupt may arrive: on the list are the timers of [O]. *)
Record due (s : timers D U) (t : zhyper_timer) : Prop := {
  du_ok : timers_ok b0 sz head live s xs;
  du_irq : irqs (tgic s) !! ppi = Some c;
  du_objs : forall x, x ∈ xs -> timer_of (objs s) x = timer_of O x;
  du_calls : run_calls (calls O xs) (user s) = Ok tt u2;
  du_new : objs s !! p = Some t;
  du_live : live !! p = Some sizeof_zhyper_timer;
  du_link : is_Some (tlinks s !! (p + off_list)) }.

(** The timer can be put on the list [ks]. *)
Record addable (live' : gmap Z Z) (ks : list Z) (s : timers D U) (t : zhyper_timer) : Prop := {
  ad_ok : timers_ok b0 sz head live' s ks;
  ad_new : objs s !! p = Some t;
  ad_live : live' !! p = Some sizeof_zhyper_timer;
  ad_link : is_Some (tlinks s !! (p + off_list));
  ad_not : p + off_list ∉ head :: ks }.

Lemma due_irq s t : due s t ->
  exists s', take_irq fuel s = Ok tt s' /\ addable (without O xs live) (kept O xs) s' t /\
    objs s' = without O xs (objs s) /\ managers s' = managers s /\ user s' = u2 /\
    links_without O xs (tlinks s) (tlinks s').
Proof using Hcpu Hack Hid Hops Hhandle Hcode Harg Hfuel Hnot.
  intros [Hok Hirq Ho Hu Ht Hl Hlk]. destruct (tick_ext _ _ _ Ho) as (Ek & Eg & Ec). rewrite <- Ec in Hu.
  destruct (irq_timer_run cpu Hcpu s b0 sz live xs u2 fuel c (Hack s) Hirq Hid Hops Hhandle Hcode Harg Hok Hu Hfuel)
    as (f & s' & l & [E _] & _ & K & O' & U' & _ & _ & M' & L').
  assert (Ew : forall A (m : gmap Z A), without (objs s) xs m = without O xs m) by (intros; unfold without; by rewrite Eg).
  assert (Hg : p + off_list ∉ gone O xs) by (intros [_ ?]%list_elem_of_filter; set_solver).
  assert (Hw : forall A (m : gmap Z A), without O xs m !! p = m !! p).
  { intros A m. pose proof (without_lookup O xs m (p + off_list)) as Hw. rewrite bool_decide_false in Hw by done.
    by replace (p + off_list - off_list) with p in Hw by lia. }
  rewrite Ew in O', K. rewrite Ek in K. unfold links_without in L'. rewrite Eg in L'.
  exists s'. split; [unfold take_irq; by mstep E|]. split; [|done].
  split; [done|by rewrite O', Hw|by rewrite Hw|by apply L'|].
  intros [?|[_ ?]%list_elem_of_filter]%elem_of_cons; set_solver.
Qed.

(** start_timer from each of its accesses on, without interrupts. *)
Definition added (live' : gmap Z Z) (ks : list Z) (s : timers D U) os ms (s' : timers D U) : Prop :=
  timers_ok b0 sz head live' s' (p + off_list :: ks) /\ objs s' = os /\ managers s' = ms /\ user s' = user s.

Abbreviation counted mm := {| nr_timers := u32 (nr_timers mm + 1); last_tick := last_tick mm |}.

Definition from_add : prog (timers D U) Z :=
  Access (on_links (list_next head)) (fun n => list_add_accesses (p + off_list) head n (Return 0)).
Definition from_count (mm : percpu_timer_manager) : prog (timers D U) Z :=
  Access (write_nr_timers (arg c) (u32 (nr_timers mm + 1))) (fun _ => from_add).
Definition from_manager : prog (timers D U) Z := Access (get_manager (arg c)) from_count.
Definition from_active (t : zhyper_timer) : prog (timers D U) Z := Access (write_active p t) (fun _ => from_manager).

Lemma link_from : link_timer p (arg c) = Access (get_timer p) from_active.
Proof using Harg. unfold link_timer. by rewrite (proj2 (Z.eqb_neq _ _) Harg). Qed.

Section Finish.
Context (live' : gmap Z Z) (ks : list Z).

Lemma finish_add s t : addable live' ks s t ->
  exists s', direct from_add s = Ok 0 s' /\ added live' ks s (objs s) (managers s) s'.
Proof using.
  intros []. destruct (direct_add_run b0 sz head live' s ks p t) as (s' & E & R); [done..|]. by exists s'.
Qed.

Lemma finish_count s t mm : addable live' ks s t -> managers s !! arg c = Some mm ->
  exists s', direct (from_count mm) s = Ok 0 s' /\ added live' ks s (objs s) (<[arg c := counted mm]> (managers s)) s'.
Proof using.
  intros Ha Hm. cbn [direct from_count]. mstep (write_nr_run (arg c) (u32 (nr_timers mm + 1)) s mm Hm).
  destruct (finish_add (set_managers <[arg c := counted mm]> s) t) as (s' & E & R); [by destruct Ha as [[] ? ? ? ?]|].
  by exists s'.
Qed.

Lemma finish_manager s t mm : addable live' ks s t -> managers s !! arg c = Some mm ->
  exists s', direct from_manager s = Ok 0 s' /\ added live' ks s (objs s) (<[arg c := counted mm]> (managers s)) s'.
Proof using.
  intros Ha Hm. cbn [direct from_manager].
  assert (E : get_manager (arg c) s = Ok mm s) by (unfold get_manager; by rewrite Hm). mstep E.
  by apply (finish_count s t).
Qed.

Lemma finish_active s t mm : addable live' ks s t -> managers s !! arg c = Some mm ->
  exists s', direct (from_active t) s = Ok 0 s' /\
    added live' ks s (<[p := set_active 1 t]> (objs s)) (<[arg c := counted mm]> (managers s)) s'.
Proof using.
  clear Hcpu Hack Hid Hops Hhandle Hcode Harg Hfuel Hnot.
  intros [[Hh Hl Ho Hv Hd] Ht Hlp Hlk Hn] Hm. cbn [direct from_active]. mstep (write_active_run p s t Ht).
  destruct (finish_manager (set_objs <[p := set_active 1 t]> s) (set_active 1 t) mm) as (s' & E & R); [|done|by exists s'].
  split; [|apply lookup_insert_eq|done..]. split; [done|done| |done|done].
  intros x Hx. unfold timer_of. cbn. rewrite lookup_insert_ne; [by apply Ho|].
  intros ->. apply Hn. replace (x - off_list + off_list) with x by lia. set_solver.
Qed.
End Finish.

(** The states of start_timer between its accesses are due for the interrupt. *)
Lemma due_active s t : due s t -> due (set_objs <[p := set_active 1 t]> s) (set_active 1 t).
Proof using Hnot.
  clear Hcpu Hack Hid Hops Hhandle Hcode Harg Hfuel.
  assert (Hne : forall x, x ∈ xs -> p <> x - off_list).
  { intros x Hx ->. apply Hnot. replace (x - off_list + off_list) with x by lia. set_solver. }
  intros [[Hh Hl Ho Hv Hd] Hirq HO Hu Ht Hlp Hlk]. split; [|done| |done|apply lookup_insert_eq|done..].
  - split; [done|done| |done|done]. intros x Hx. unfold timer_of. cbn. rewrite lookup_insert_ne by auto. by apply Ho.
  - intros x Hx. unfold timer_of. cbn. rewrite lookup_insert_ne by auto. by apply HO.
Qed.

Lemma due_managers f s t : due s t -> due (set_managers f s) t.
Proof using. intros [[] ? ? ? ? ? ?]. split; [split; assumption|assumption..]. Qed.

(** The interrupt before one of the first five accesses: start_timer works on the list it leaves. *)
Lemma race_early i s t mm : due s t -> managers s !! arg c = Some mm -> (i <= 4)%nat ->
  exists s', interrupted (take_irq fuel) (once_at i) (link_timer p (arg c)) s = Ok 0 s' /\
    timers_ok b0 sz head (without O xs live) s' (p + off_list :: kept O xs) /\
    objs s' = <[p := set_active 1 t]> (without O xs (objs s)) /\
    managers s' = <[arg c := counted mm]> (managers s) /\ user s' = u2.
Proof using Hcpu Hack Hid Hops Hhandle Hcode Harg Hfuel Hnot.
  intros Hdue Hm Hi. rewrite link_from.
  assert (Hw : forall t', without O xs (<[p := t']> (objs s)) = <[p := t']> (without O xs (objs s))).
  { intros t'. apply without_insert. set_solver. }
  pose proof (get_timer_run s p t (du_new _ _ Hdue)) as E0.
  pose proof (write_active_run p s t (du_new _ _ Hdue)) as E1. set (s1 := set_objs _ s) in E1.
  assert (E2 : get_manager (arg c) s1 = Ok mm s1) by (unfold get_manager, s1; cbn; by rewrite Hm).
  pose proof (write_nr_run (arg c) (u32 (nr_timers mm + 1)) s1 mm Hm) as E3. set (s2 := set_managers _ s1) in E3.
  pose proof (due_active s t Hdue) as Hdue1. fold s1 in Hdue1.
  pose proof (due_managers <[arg c := counted mm]> s1 _ Hdue1) as Hdue2. fold s2 in Hdue2.
  destruct (due_irq s t Hdue) as (T & ET & AT & OT & MT & UT & _).
  destruct (due_irq s1 _ Hdue1) as (T1 & ET1 & AT1 & OT1 & MT1 & UT1 & _).
  destruct (due_irq s2 _ Hdue2) as (T2 & ET2 & AT2 & OT2 & MT2 & UT2 & _).
  change (objs s2) with (<[p := set_active 1 t]> (objs s)) in OT2. change (managers s1) with (managers s) in MT1.
  change (managers s2) with (<[arg c := counted mm]> (managers s)) in MT2. cbn [objs set_objs s1] in OT1.
  rewrite Hw in OT1, OT2.
  destruct i as [|[|[|[|[|i]]]]]; [..|lia].
  - rewrite (interrupted_now _ _ _ s T ET). cbn [direct]. mstep (get_timer_run T p t (ad_new _ _ _ _ AT)).
    destruct (finish_active _ _ T t mm AT ltac:(by rewrite MT)) as (s' & E & K & R1 & R2 & R3).
    exists s'. by rewrite E, R1, R2, R3, OT, MT, UT.
  - rewrite (interrupted_later _ _ _ _ s t s E0). unfold from_active. rewrite (interrupted_now _ _ _ s T ET).
    destruct (finish_active _ _ T t mm AT ltac:(by rewrite MT)) as (s' & E & K & R1 & R2 & R3).
    exists s'. unfold from_active in E. by rewrite E, R1, R2, R3, OT, MT, UT.
  - rewrite (interrupted_later _ _ _ _ s t s E0). unfold from_active. rewrite (interrupted_later _ _ _ _ s tt s1 E1). unfold from_manager. rewrite (interrupted_now _ _ _ s1 T1 ET1).
    destruct (finish_manager _ _ T1 _ mm AT1 ltac:(by rewrite MT1)) as (s' & E & K & R1 & R2 & R3).
    exists s'. unfold from_manager in E. by rewrite E, R1, R2, R3, OT1, MT1, UT1.
  - rewrite (interrupted_later _ _ _ _ s t s E0). unfold from_active. rewrite (interrupted_later _ _ _ _ s tt s1 E1). unfold from_manager.
    rewrite (interrupted_later _ _ _ _ s1 mm s1 E2). unfold from_count.
    rewrite (interrupted_now _ _ _ s1 T1 ET1).
    destruct (finish_count _ _ T1 _ mm AT1 ltac:(by rewrite MT1)) as (s' & E & K & R1 & R2 & R3).
    exists s'. unfold from_count in E. by rewrite E, R1, R2, R3, OT1, MT1, UT1.
  - rewrite (interrupted_later _ _ _ _ s t s E0). unfold from_active. rewrite (interrupted_later _ _ _ _ s tt s1 E1). unfold from_manager.
    rewrite (interrupted_later _ _ _ _ s1 mm s1 E2). unfold from_count.
    rewrite (interrupted_later _ _ _ _ s1 tt s2 E3). unfold from_add. rewrite (interrupted_now _ _ _ s2 T2 ET2).
    destruct (finish_add _ _ T2 _ AT2) as (s' & E & K & R1 & R2 & R3).
    exists s'. unfold from_add in E. by rewrite E, R1, R2, R3, OT2, MT2, UT2.
Qed.

(** The interrupt right after the first timer of the list has been looked up, when that one expires. *)
Lemma race_late s t mm x0 rest : due s t -> managers s !! arg c = Some mm -> xs = x0 :: rest -> expires O x0 = true ->
  exists s', interrupted (take_irq fuel) (once_at 5) (link_timer p (arg c)) s = Stop (Fault x0) s' /\
    objs s' !! (x0 - off_list) = None /\ user s' = u2.
Proof using Hcpu Hack Hid Hops Hhandle Hcode Harg Hfuel Hnot.
  intros Hdue Hm Hxs Hx. rewrite link_from.
  pose proof (write_active_run p s t (du_new _ _ Hdue)) as E1. set (s1 := set_objs _ s) in E1.
  assert (E2 : get_manager (arg c) s1 = Ok mm s1) by (unfold get_manager, s1; cbn; by rewrite Hm).
  pose proof (write_nr_run (arg c) (u32 (nr_timers mm + 1)) s1 mm Hm) as E3. set (s2 := set_managers _ s1) in E3.
  pose proof (due_managers <[arg c := counted mm]> s1 _ (due_active s t Hdue)) as Hdue2. fold s2 in Hdue2.
  destruct (due_irq s2 _ Hdue2) as (T & ET & _ & OT & _ & UT & LT).
  assert (E4 : on_links (list_next head) s2 = Ok x0 s2).
  { unfold on_links, zoom. pose proof (to_list _ _ _ _ _ _ (du_ok _ _ Hdue2)) as Hl.
    rewrite (list_next_run _ _ _ (clist_nxt_head _ _ _ Hl)), Hxs. by destruct s2. }
  assert (Hg : x0 ∈ gone O xs) by (apply list_elem_of_filter; rewrite Hxs; set_solver).
  assert (Hn : tlinks T !! x0 = None).
  { apply eq_None_not_Some. intros Hs. apply LT in Hs as [_ Hs]. done. }
  exists T. rewrite (interrupted_later _ _ _ _ s t s (get_timer_run s p t (du_new _ _ Hdue))).
  unfold from_active. rewrite (interrupted_later _ _ _ _ s tt s1 E1). unfold from_manager.
  rewrite (interrupted_later _ _ _ _ s1 mm s1 E2). unfold from_count.
  rewrite (interrupted_later _ _ _ _ s1 tt s2 E3). unfold from_add.
  rewrite (interrupted_later _ _ _ _ s2 x0 s2 E4). unfold list_add_accesses. rewrite (interrupted_now _ _ _ s2 T ET).
  split; [|split; [|done]].
  - cbn [direct]. apply bind_Stop. unfold on_links, zoom. destruct (links_fault x0 _ Hn) as (_ & _ & Hf).
    rewrite (proj2 (Hf _)). by destruct T.
  - rewrite OT, without_lookup. by rewrite bool_decide_true.
Qed.

(** The same with the manager given or found: the look-up is one more access. *)
Abbreviation lookup m := (if m =? 0 then 1%nat else 0%nat).

Lemma due_same s s1 t : same_timers s s1 -> due s t -> due s1 t.
Proof using.
  intros S [Hok Hirq HO Hu Ht Hl Hlk]. pose proof S as (Sg & _ & Sl & So & _ & _ & Su).
  split; rewrite ?So, ?Su, ?Sl; try assumption; [by eapply timers_ok_same|by rewrite (same_irqs _ _ Sg)].
Qed.

Lemma race_start_early m i s t mm : p <> 0 -> arg c = this_manager cpu -> m = 0 \/ m = arg c ->
  due s t -> managers s !! arg c = Some mm -> (i <= lookup m + 4)%nat ->
  exists s', interrupted (take_irq fuel) (once_at i) (start_timer_accesses p m) s = Ok 0 s' /\
    timers_ok b0 sz head (without O xs live) s' (p + off_list :: kept O xs) /\
    objs s' = <[p := set_active 1 t]> (without O xs (objs s)) /\
    managers s' = <[arg c := counted mm]> (managers s) /\ user s' = u2.
Proof using Hcpu Hack Hid Hops Hhandle Hcode Harg Hfuel Hnot.
  intros Hp Hthis Hm Hdue Hmm Hi. unfold start_timer_accesses. rewrite (proj2 (Z.eqb_neq p 0) Hp).
  destruct Hm as [->| ->]; [|rewrite (proj2 (Z.eqb_neq _ 0) Harg) in *; by apply race_early].
  cbn [Z.eqb] in *. destruct i as [|i].
  - destruct (due_irq s t Hdue) as (T & ET & [Hok Ht Hl Hlk Hn] & OT & MT & UT & _).
    rewrite (interrupted_now _ _ _ s T ET).
    destruct (runs_this_manager cpu Hcpu T) as (v & T1 & [E1 _] & S1). cbn [direct]. mstep E1.
    pose proof S1 as (_ & _ & Sl & So & Sm & _ & Su). rewrite <- Hthis, link_from. cbn [direct].
    rewrite <- OT, <- MT, <- UT, <- So, <- Sm, <- Su in *. rewrite <- Sl in Hlk.
    mstep (get_timer_run T1 p t Ht).
    destruct (finish_active (without O xs live) (kept O xs) T1 t mm) as (s' & E & K & R1 & R2 & R3); [|done|by exists s'].
    split; [by eapply timers_ok_same|done..].
  - destruct (runs_this_manager cpu Hcpu s) as (v & s1 & [E1 _] & S1).
    rewrite (interrupted_later _ _ _ _ s _ s1 E1), <- Hthis.
    pose proof S1 as (_ & _ & _ & So & Sm & _ & _). rewrite <- Sm in Hmm |- *. rewrite <- So.
    apply race_early; [by eapply due_same|done|lia].
Qed.

Lemma race_start_late m s t mm x0 rest : p <> 0 -> arg c = this_manager cpu -> m = 0 \/ m = arg c ->
  due s t -> managers s !! arg c = Some mm -> xs = x0 :: rest -> expires O x0 = true ->
  exists s', interrupted (take_irq fuel) (once_at (lookup m + 5)) (start_timer_accesses p m) s = Stop (Fault x0) s' /\
    objs s' !! (x0 - off_list) = None /\ user s' = u2.
Proof using Hcpu Hack Hid Hops Hhandle Hcode Harg Hfuel Hnot.
  intros Hp Hthis Hm Hdue Hmm Hxs Hx. unfold start_timer_accesses. rewrite (proj2 (Z.eqb_neq p 0) Hp).
  destruct Hm as [->| ->]; [|rewrite (proj2 (Z.eqb_neq _ 0) Harg); by eapply race_late].
  cbn [Z.eqb Nat.add]. destruct (runs_this_manager cpu Hcpu s) as (v & s1 & [E1 _] & S1).
  rewrite (interrupted_later _ _ _ _ s _ s1 E1), <- Hthis.
  pose proof S1 as (_ & _ & _ & _ & Sm & _ & _). rewrite <- Sm in Hmm.
  eapply race_late; [by eapply due_same|done..].
Qed.
End Race.
