(* ===== verification/PreemptTheorems.v ===== *)
(** The properties of start_timer under timer interrupts, each with a concrete instance. *)
From Stdlib Require Import ZArith Lia.
From stdpp Require Import base gmap list strings.
From S2P Require Import Prelude Mem HeapSpec Miniheap HeapProof HeapClient Printf PrintfProof Io IoProof Spinlock.
From S2P Require Import GicRegs Gic GicIntr GicProof GicIntrProof GicOpsProof CList Timer TimerProof TimerTheorems TimerInitProof.
From S2P Require Import Exception IrqProof ExceptionTheorems Preempt PreemptProof.

Open Scope Z_scope.

(** C15: start_timer may be interrupted. Split into its loads and stores it is start_timer, and
    whatever number of timer interrupts arrives before each of them, when none of the timers
    already on this CPU's list expires: it returns 0, the list is well formed with the new timer
    first, the timers, the manager and the heap are what an uninterrupted start_timer leaves, and
    every interrupt has run the callbacks of the old list once, in order, and counted its tick.
    The manager is this CPU's, given or found by start_timer. *)
Theorem start_timer_interruptible {D U} `{Hardware D} `{Config} `{Callbacks U} `{TimerLayout} `{IrqHandlers D U} cpu
    (s : timers D U) b0 sz live xs p t mm m c fuel sched u2 :
  let manager := this_manager cpu in
  let n := if m =? 0 then 10%nat else 9%nat in
  on_this_cpu (D:=D) cpu -> (forall s : timers D U, acknowledged s = PPI_TIMER_INTID_EL2) ->
  irqs (tgic s) !! PpiCtx cpu (PPI_TIMER_INTID_EL2 - 16) = Some c -> intid c = PPI_TIMER_INTID_EL2 ->
  ops c = Some g_ppi_intr_ops -> handle c = timer_irq_handler_code -> timer_irq_handler_code <> 0 ->
  arg c = manager -> manager <> 0 -> m = 0 \/ m = manager ->
  timers_ok b0 sz (manager + off_timer_list) live s xs -> (length xs <= fuel)%nat ->
  (forall x, x ∈ xs -> expires (objs s) x = false) ->
  p <> 0 -> objs s !! p = Some t -> managers s !! manager = Some mm -> live !! p = Some sizeof_zhyper_timer ->
  is_Some (tlinks s !! (p + off_list)) -> p + off_list ∉ manager + off_timer_list :: xs ->
  times (taken n sched) (run_calls (calls (objs s) xs)) (user s) = Ok tt u2 ->
  (forall s1 : timers D U, direct (start_timer_accesses p m) s1 = start_timer p m s1) /\
  exists s', interrupted (take_irq fuel) sched (start_timer_accesses p m) s = Ok 0 s' /\
    timers_ok b0 sz (manager + off_timer_list) live s' (p + off_list :: xs) /\
    objs s' = <[p := set_active 1 t]> (objs s) /\
    managers s' = <[manager := {| nr_timers := u32 (nr_timers mm + 1); last_tick := last_tick mm |}]> (managers s) /\
    user s' = u2 /\ u64 (g_counter s') = u64 (g_counter s + Z.of_nat (taken n sched)).
Proof.
  intros manager n Hcpu Hack Hc Hid Hops Hh Hcode Harg Hm0 Hm Hok Hf Hex Hp Ht Hmm Hl Hlk Hnot Hu.
  split; [apply direct_start|].
  destruct (calm_start cpu Hcpu b0 sz live s xs p t mm m Hm Hok Hm0 Hp Hex Ht Hmm Hl Hlk Hnot)
    as (t' & C & Hok' & Ho' & Hm').
  fold manager in C. rewrite <- Harg in C.
  destruct (calm_interrupted cpu Hcpu c fuel Hack Hid Hops Hh Hcode ltac:(by rewrite Harg) xs (objs s) Hf _ _ _ _ _ C sched s u2
    ltac:(done) Hc Hu) as (s' & E & M & U1 & C1).
  exists s'. split; [done|]. split; [by eapply timers_ok_mirrors|].
  by rewrite (mi_objs _ _ M), (mi_managers _ _ M).
Qed.

(** A timer created at a known address. *)
Lemma create_known {D U} `{Hardware D} `{Config} `{Callbacks U} `{TimerLayout} b0 sz h live (s : timers D U) xs periodic
    interval cb a p :
  timers_ok b0 sz h live s xs -> returned (create_timer periodic interval cb a) s = Some p -> p <> 0 ->
  let s1 := state_after (create_timer periodic interval cb a) s in
  timers_ok b0 sz h (<[p := sizeof_zhyper_timer]> live) s1 xs /\
  objs s1 = <[p := {| interval_ms := u32 interval; is_periodic := periodic; is_active := 0; callback := cb; t_arg := a;
                      private := 0 |}]> (objs s) /\
  is_Some (tlinks s1 !! (p + off_list)) /\ same_rest s s1 /\ user s1 = user s.
Proof.
  intros Hok Hr Hp s1. apply returned_Ok in Hr.
  destruct (create_run b0 sz h live s xs periodic interval cb a Hok) as (q & s2 & E & _ & K & O & L & R).
  rewrite Hr in E. apply Ok_inj in E as [<- <-]. rewrite (proj2 (Z.eqb_neq p 0) Hp) in K, O.
  split; [exact K|]. split; [exact O|]. split; [by apply L|exact R].
Qed.

(** The clock with one timer on its list and a second one just created. *)
Definition clock_two (periodic : Z) : timers clock (list (Z * Z * Z)) :=
  state_after (create_timer 1 30 0x3000 8) (clock_one periodic).

Lemma clock_second_block periodic : returned (create_timer 1 30 0x3000 8) (clock_one periodic) = Some 4192.
Proof. vm_compute. reflexivity. Qed.

Lemma clock_two_ok periodic :
  timers_ok 4096 256 80 (<[4192 := sizeof_zhyper_timer]> {[4112 := sizeof_zhyper_timer]}) (clock_two periodic) [4152] /\
  objs (clock_two periodic) = <[4192 := {| interval_ms := 30; is_periodic := 1; is_active := 0; callback := 0x3000;
    t_arg := 8; private := 0 |}]> (objs (clock_one periodic)) /\
  is_Some (tlinks (clock_two periodic) !! 4232) /\ same_rest (clock_one periodic) (clock_two periodic) /\
  user (clock_two periodic) = user (clock_one periodic).
Proof.
  destruct (clock_one_ok periodic) as (Hok & _).
  apply (create_known 4096 256 80 {[4112 := sizeof_zhyper_timer]} (clock_one periodic) [4152] 1 30 0x3000 8 4192 Hok
    (clock_second_block periodic)). done.
Qed.

(** What a concrete run returns or stops with, and what it leaves. *)
Definition stopped {S A} (m : M S A) (s : S) : option stop := match m s with Ok _ _ => None | Stop w _ => Some w end.

Lemma stopped_Stop {S A} (m : M S A) s w : stopped m s = Some w -> exists s', m s = Stop w s'.
Proof. unfold stopped. destruct (m s) as [a t|w' t]; [done|]. intros [= ->]. by exists t. Qed.

Lemma outcome_Ok {S A B} (m : M S A) s (f : S -> B) a b :
  match m s with Ok r s' => Some (r, f s') | Stop _ _ => None end = Some (a, b) -> exists s', m s = Ok a s' /\ f s' = b.
Proof. destruct (m s) as [r t|w t]; [|done]. intros [= -> <-]. by exists t. Qed.

#[local] Existing Instance no_other_handlers.

(** Three interrupts while the second timer is started: one before the first access, two before the third. *)
Lemma start_timer_interruptible_witness :
  (forall s1 : timers clock (list (Z * Z * Z)), direct (start_timer_accesses 4192 0) s1 = start_timer 4192 0 s1) /\
  exists s', interrupted (take_irq 1) [1; 0; 2]%nat (start_timer_accesses 4192 0) (clock_two 1) = Ok 0 s' /\
    timers_ok 4096 256 80 (<[4192 := sizeof_zhyper_timer]> {[4112 := sizeof_zhyper_timer]}) s' [4232; 4152] /\
    objs s' = <[4192 := {| interval_ms := 30; is_periodic := 1; is_active := 1; callback := 0x3000; t_arg := 8; private := 0 |}]>
      (objs (clock_two 1)) /\
    managers s' = <[64 := {| nr_timers := u32 (1 + 1); last_tick := 0 |}]> (managers (clock_two 1)) /\
    user s' = [(0x2000, 4112, 7); (0x2000, 4112, 7); (0x2000, 4112, 7)] /\ u64 (g_counter s') = u64 (g_counter (clock_two 1) + Z.of_nat (taken 10 [1; 0; 2]%nat)).
Proof.
  destruct (clock_one_ok 1) as (_ & Ho & Hu & Hg & Hm).
  destruct (clock_two_ok 1) as (Hok2 & Ho2 & Hl2 & (Hg2 & Hm2 & _) & Hu2).
  destruct (start_timer_interruptible 0 (clock_two 1) 4096 256 (<[4192 := sizeof_zhyper_timer]> {[4112 := sizeof_zhyper_timer]}) [4152]
    4192 {| interval_ms := 30; is_periodic := 1; is_active := 0; callback := 0x3000; t_arg := 8; private := 0 |}
    {| nr_timers := 1; last_tick := 0 |} 0 clock_ctx 1 [1; 0; 2]%nat
    [(0x2000, 4112, 7); (0x2000, 4112, 7); (0x2000, 4112, 7)])
    as (Hd & s' & E & K & O & M & Us & C).
  - exact clock_on_cpu.
  - intros s. reflexivity.
  - rewrite Hg2, Hg. apply lookup_insert_eq.
  - reflexivity.
  - reflexivity.
  - reflexivity.
  - done.
  - reflexivity.
  - done.
  - by left.
  - exact Hok2.
  - reflexivity.
  - intros x ->%list_elem_of_singleton. rewrite Ho2, Ho. reflexivity.
  - done.
  - rewrite Ho2. apply lookup_insert_eq.
  - rewrite Hm2, Hm. apply lookup_insert_eq.
  - apply lookup_insert_eq.
  - exact Hl2.
  - intros [Hx|Hx%list_elem_of_singleton]%elem_of_cons; discriminate.
  - rewrite Hu2, Hu, Ho2, Ho. reflexivity.
  - split; [exact Hd|]. exists s'. split; [exact E|]. split; [exact K|]. split; [exact O|]. split; [exact M|]. split; [exact Us|]. exact C.
Defined.

(** C39: start_timer races with one-shot timers that expire, whatever is on the list. One
    interrupt before one of the first five accesses of the linking (and before the look-up of a
    NULL manager, the access that then precedes them) does no harm, whatever expires at it:
    start_timer returns 0 and the list is the new timer followed by the timers that are left.
    But let the interrupt come one access later, when list_next has just been read, and the
    first timer of the list expire at it: the interrupt frees that timer, and start_timer goes on
    to write into its links. *)
Theorem start_timer_race {D U} `{Hardware D} `{Config} `{Callbacks U} `{TimerLayout} `{IrqHandlers D U} cpu
    (s : timers D U) b0 sz live xs p t mm m c fuel u2 :
  let manager := this_manager cpu in
  let lookup := if m =? 0 then 1%nat else 0%nat in
  on_this_cpu (D:=D) cpu -> (forall s : timers D U, acknowledged s = PPI_TIMER_INTID_EL2) ->
  irqs (tgic s) !! PpiCtx cpu (PPI_TIMER_INTID_EL2 - 16) = Some c -> intid c = PPI_TIMER_INTID_EL2 ->
  ops c = Some g_ppi_intr_ops -> handle c = timer_irq_handler_code -> timer_irq_handler_code <> 0 ->
  arg c = manager -> manager <> 0 -> m = 0 \/ m = manager ->
  timers_ok b0 sz (manager + off_timer_list) live s xs -> (length xs <= fuel)%nat ->
  run_calls (calls (objs s) xs) (user s) = Ok tt u2 ->
  p <> 0 -> objs s !! p = Some t -> managers s !! manager = Some mm -> live !! p = Some sizeof_zhyper_timer ->
  is_Some (tlinks s !! (p + off_list)) -> p + off_list ∉ manager + off_timer_list :: xs ->
  (forall i, (i <= lookup + 4)%nat ->
   exists s', interrupted (take_irq fuel) (once_at i) (start_timer_accesses p m) s = Ok 0 s' /\
     timers_ok b0 sz (manager + off_timer_list) (without (objs s) xs live) s' (p + off_list :: kept (objs s) xs) /\
     objs s' = <[p := set_active 1 t]> (without (objs s) xs (objs s)) /\
     managers s' = <[manager := {| nr_timers := u32 (nr_timers mm + 1); last_tick := last_tick mm |}]> (managers s) /\
     user s' = u2) /\
  (forall x0 rest, xs = x0 :: rest -> expires (objs s) x0 = true ->
   exists s', interrupted (take_irq fuel) (once_at (lookup + 5)) (start_timer_accesses p m) s = Stop (Fault x0) s' /\
     objs s' !! (x0 - off_list) = None /\ user s' = u2).
Proof.
  intros manager lookup Hcpu Hack Hc Hid Hops Hh Hcode Harg Hm0 Hm Hok Hf Hu Hp Ht Hmm Hl Hlk Hnot.
  rewrite <- Harg in *. subst lookup.
  assert (Hdue : due cpu c b0 sz live xs (objs s) u2 p s t) by by split.
  split.
  - intros i Hi. by apply (race_start_early cpu Hcpu c fuel Hack Hid Hops Hh Hcode Hm0 b0 sz live xs (objs s) u2 Hf p Hnot m i s t mm).
  - intros x0 rest Hxs Hx.
    by apply (race_start_late cpu Hcpu c fuel Hack Hid Hops Hh Hcode Hm0 b0 sz live xs (objs s) u2 Hf p Hnot m s t mm x0 rest).
Qed.

(** The second timer is started while the first, a one-shot, expires. *)
Lemma start_timer_race_witness :
  (forall i, (i <= 1 + 4)%nat ->
   exists s', interrupted (take_irq 1) (once_at i) (start_timer_accesses 4192 0) (clock_two 0) = Ok 0 s' /\
     timers_ok 4096 256 80 (without (objs (clock_two 0)) [4152] (<[4192 := sizeof_zhyper_timer]> {[4112 := sizeof_zhyper_timer]})) s'
       (4192 + off_list :: kept (objs (clock_two 0)) [4152]) /\
     objs s' = <[4192 := set_active 1 {| interval_ms := 30; is_periodic := 1; is_active := 0; callback := 0x3000; t_arg := 8; private := 0 |}]>
       (without (objs (clock_two 0)) [4152] (objs (clock_two 0))) /\
     managers s' = <[64 := {| nr_timers := u32 (1 + 1); last_tick := 0 |}]> (managers (clock_two 0)) /\
     user s' = [(0x2000, 4112, 7)]) /\
  exists s', interrupted (take_irq 1) (once_at (1 + 5)) (start_timer_accesses 4192 0) (clock_two 0) = Stop (Fault 4152) s' /\
     objs s' !! (4152 - off_list) = None /\ user s' = [(0x2000, 4112, 7)].
Proof.
  destruct (clock_one_ok 0) as (_ & Ho & Hu & Hg & Hm).
  destruct (clock_two_ok 0) as (Hok2 & Ho2 & Hl2 & (Hg2 & Hm2 & _) & Hu2).
  destruct (start_timer_race 0 (clock_two 0) 4096 256 (<[4192 := sizeof_zhyper_timer]> {[4112 := sizeof_zhyper_timer]}) [4152]
    4192 {| interval_ms := 30; is_periodic := 1; is_active := 0; callback := 0x3000; t_arg := 8; private := 0 |}
    {| nr_timers := 1; last_tick := 0 |} 0 clock_ctx 1 [(0x2000, 4112, 7)]) as [Early Late].
  - exact clock_on_cpu.
  - intros s. reflexivity.
  - rewrite Hg2, Hg. apply lookup_insert_eq.
  - reflexivity.
  - reflexivity.
  - reflexivity.
  - done.
  - reflexivity.
  - done.
  - by left.
  - exact Hok2.
  - reflexivity.
  - rewrite Hu2, Hu, Ho2, Ho. reflexivity.
  - done.
  - rewrite Ho2. apply lookup_insert_eq.
  - rewrite Hm2, Hm. apply lookup_insert_eq.
  - apply lookup_insert_eq.
  - exact Hl2.
  - intros [Hx|Hx%list_elem_of_singleton]%elem_of_cons; discriminate.
  - split; [exact Early|]. apply (Late 4152 []); [reflexivity|]. rewrite Ho2, Ho. reflexivity.
Defined.

(** One access later the damage shows at the next interrupt only. On the same machine: start_timer
    returns 0, the new timer's next is the node of the timer that was freed, and the next
    interrupt reads it. *)
Lemma start_timer_dangling :
  exists s', interrupted (take_irq 4) (once_at 6) (start_timer_accesses 4192 64) (clock_two 0) = Ok 0 s' /\
    objs s' !! 4112 = None /\ nxt (tlinks s') 4232 = Some 4152 /\
    exists s2, take_irq 4 s' = Stop (Fault 4152) s2.
Proof.
  destruct (outcome_Ok (interrupted (take_irq 4) (once_at 6) (start_timer_accesses 4192 64)) (clock_two 0)
    (fun s' => (objs s' !! 4112, nxt (tlinks s') 4232, stopped (take_irq 4) s')) 0 (None, Some 4152, Some (Fault 4152)))
    as (s' & E & ((O & N)%pair_eq & F)%pair_eq); [vm_compute; reflexivity|].
  exists s'. split; [done|]. split; [done|]. split; [done|]. by apply stopped_Stop.
Qed.
