(* ===== verification/PreemptHeap.v ===== *)
(** malloc and free interrupted: miniheap_alloc and miniheap_free as trees of accesses (Preempt),
    one node per load or store of the C source in its order. The timer interrupt, which frees the timers that expire, works on the same heap. *)
From Stdlib Require Import ZArith Lia.
From stdpp Require Import base gmap list strings.
From S2P Require Import Prelude Mem Miniheap Printf Io Spinlock GicRegs Gic GicIntr CList Timer Exception Preempt.

Open Scope Z_scope.

Section Alloc.
Context {A : Type}.

Definition take_block_accesses (total_size prev cur : Z) (rest : prog heap_state A) : prog heap_state A :=
  Access (hld 4 (fb_size cur)) (fun csize =>
  if csize =? total_size then
    Access (hld 8 (fb_next cur)) (fun cnext => Access (link_prev prev cnext) (fun _ => rest))
  else
    let new_block := u64 (cur + total_size) in
    Access (hst 4 (fb_magic new_block) MINIHEAP_MAGIC_FREE) (fun _ =>
    Access (hld 4 (fb_size cur)) (fun csize =>
    Access (hst 4 (fb_size new_block) (u32 (csize - total_size))) (fun _ =>
    Access (hld 8 (fb_next cur)) (fun cnext =>
    Access (hst 8 (fb_next new_block) cnext) (fun _ =>
    Access (link_prev prev new_block) (fun _ => rest))))))).

(** The loop, and [found] with the block it took or NULL. The size of [cur] is loaded again for
    the test of an exact fit. *)
Fixpoint alloc_loop_accesses (fuel : nat) (total_size prev cur : Z) (found : Z -> prog heap_state A) : prog heap_state A :=
  match fuel with
  | O => Access (stop_with Spin) found
  | S fuel' =>
      if negb (truth cur) then found 0 else
      Access (hld 4 (fb_size cur)) (fun csize =>
      if total_size <=? csize then take_block_accesses total_size prev cur (found cur)
      else Access (hld 8 (fb_next cur)) (fun cnext => alloc_loop_accesses fuel' total_size cur cnext found))
  end.

Fixpoint free_loop_accesses (fuel : nat) (block ptr_rear prev cur : Z) (found : Z -> Z -> prog heap_state A) : prog heap_state A :=
  match fuel with
  | O => Access (stop_with Spin) (fun pc => found (fst pc) (snd pc))
  | S fuel' =>
      if truth cur && (cur <? block) then
        if ptr_rear <=? cur then found prev cur else
        Access (hld 8 (fb_next cur)) (fun cnext => free_loop_accesses fuel' block ptr_rear cur cnext found)
      else found prev cur
  end.

(** The merge with, or the insertion after, [prev]; [inserted] takes [new_block] and [ptr_rear]. *)
Definition free_insert_accesses (block ptr_rear size prev cur : Z) (inserted : Z -> Z -> prog heap_state A) : prog heap_state A :=
  let after_prev :=
    Access (hst 4 (fb_size block) size) (fun _ =>
    Access (hst 8 (fb_next block) cur) (fun _ =>
    Access (link_prev prev block) (fun _ => inserted block ptr_rear))) in
  if truth prev then
    Access (hld 4 (fb_size prev)) (fun psize =>
    if u64 (prev + psize) =? block then
      Access (hld 4 (fb_size prev)) (fun psize =>
      Access (hst 4 (fb_size prev) (u32 (psize + size))) (fun _ =>
      Access (hld 4 (fb_size prev)) (fun nsize => inserted prev (u64 (prev + nsize)))))
    else after_prev)
  else after_prev.

Definition free_merge_accesses (new_block ptr_rear cur : Z) (rest : prog heap_state A) : prog heap_state A :=
  if truth cur && (ptr_rear =? cur) then
    Access (hld 4 (fb_size new_block)) (fun nsize =>
    Access (hld 4 (fb_size cur)) (fun csize =>
    Access (hst 4 (fb_size new_block) (u32 (nsize + csize))) (fun _ =>
    Access (hld 8 (fb_next cur)) (fun cnext =>
    Access (hst 8 (fb_next new_block) cnext) (fun _ => rest)))))
  else rest.
End Alloc.

Definition malloc_accesses (fuel : nat) (size : Z) : prog heap_state Z :=
  Access (gets (fun s => hp_align (hp s))) (fun align =>
  let total_size := round_request align size in
  if total_size =? 0 then Return 0 else
  let total_size := u32 (total_size + MINIHEAP_USEDHEADER_SIZE) in
  Access (gets (fun s => hp_free_bytes (hp s))) (fun free_bytes =>
  if free_bytes <? total_size then Return 0 else
  Access (gets (fun s => hp_free_list (hp s))) (fun free_list =>
  alloc_loop_accesses fuel total_size 0 free_list (fun cur =>
  if negb (truth cur) then Return 0 else
  Access (gets (fun s => hp_free_bytes (hp s))) (fun free_bytes =>
  Access (set_free_bytes (u64 (free_bytes - total_size))) (fun _ =>
  Access (hst 4 (fb_magic cur) MINIHEAP_MAGIC_USED) (fun _ =>
  Access (hst 4 (fb_size cur) total_size) (fun _ =>
  Return (u64 (cur + MINIHEAP_USEDHEADER_SIZE)))))))))).

Definition free_accesses (fuel : nat) (ptr : Z) : prog heap_state unit :=
  if negb (truth ptr) then Return tt else
  let block := u64 (ptr - MINIHEAP_USEDHEADER_SIZE) in
  Access (hld 4 (fb_magic block)) (fun magic =>
  if negb (magic =? MINIHEAP_MAGIC_USED) then Access (panic "miniheap_free: invalid free") Return else
  Access (gets (fun s => hp_free_list (hp s))) (fun free_list =>
  Access (hld 4 (fb_size block)) (fun bsize =>
  let ptr_rear := u64 (block + bsize) in
  free_loop_accesses fuel block ptr_rear 0 free_list (fun prev cur =>
  Access (hld 4 (fb_size block)) (fun size =>
  Access (hst 4 (fb_magic block) MINIHEAP_MAGIC_FREE) (fun _ =>
  free_insert_accesses block ptr_rear size prev cur (fun new_block ptr_rear =>
  free_merge_accesses new_block ptr_rear cur (
  Access (gets (fun s => hp_free_bytes (hp s))) (fun free_bytes =>
  Access (set_free_bytes (u64 (free_bytes + size))) Return))))))))).

(** malloc and free on the heap of the timers. *)
Definition timers_malloc {D U} (fuel : nat) (size : Z) : prog (timers D U) Z :=
  prog_on theap set_theap (malloc_accesses fuel size).
Definition timers_free {D U} (fuel : nat) (ptr : Z) : prog (timers D U) unit :=
  prog_on theap set_theap (free_accesses fuel ptr).
