(* ===== verification/PreemptHeapTheorems.v ===== *)
(** malloc interrupted by a timer that expires. *)
From Stdlib Require Import ZArith Lia.
From stdpp Require Import base gmap list strings.
From S2P Require Import Prelude Mem HeapSpec Miniheap HeapProof HeapClient Printf PrintfProof Io IoProof Spinlock.
From S2P Require Import GicRegs Gic GicIntr GicProof GicIntrProof GicOpsProof CList Timer TimerProof TimerTheorems Exception IrqProof ExceptionTheorems.
From S2P Require Import Preempt PreemptProof PreemptTheorems PreemptHeap.

Open Scope Z_scope.

#[local] Existing Instance no_other_handlers.

(** A free block of 80 bytes, the block of an active one-shot timer, and a free block of 96. *)
Definition clock_gap : timers clock (list (Z * Z * Z)) :=
  state_after (a ← on_heap (malloc 64); clock_timer 0 ;; on_heap (free a)) clock_start.

(** * Without interrupts *)

(** A program on a part of the state, run directly, is the run on that part. *)
Lemma direct_on {S T A} (view : T -> S) upd (p : prog S A) s :
  (forall s x, view (upd s x) = x) -> (forall s x y, upd (upd s x) y = upd s y) -> (forall s, upd s (view s) = s) ->
  direct (prog_on view upd p) s = zoom view upd (direct p) s.
Proof.
  intros H1 H2 H3. revert s. induction p as [a|B m k IH]; intros s; cbn [prog_on direct].
  - unfold zoom, mret, M_ret. by rewrite H3.
  - unfold zoom, mbind, M_bind. destruct (m (view s)) as [b x|w x]; [|done]. rewrite IH. unfold zoom.
    rewrite H1. by destruct (direct (k b) x); rewrite H2.
Qed.

Lemma hld_state n a v (s t : heap_state) : hld n a s = Ok v t -> t = s.
Proof. unfold hld, load. destruct (mload n a (hmem s)); [|done]. by intros [_ <-]%Ok_inj. Qed.

Lemma direct_take_block {A} total_size prev cur (rest : prog heap_state A) csize s :
  hld 4 (fb_size cur) s = Ok csize s ->
  direct (take_block_accesses total_size prev cur rest) s = (take_block total_size csize prev cur ;; direct rest) s.
Proof.
  intros E. unfold take_block_accesses, take_block. cbn [direct]. mstep E.
  destruct (csize =? total_size); cbn [direct]; rewrite !bind_assoc; [done|].
  repeat (apply bind_ext; intros; rewrite ?bind_assoc). done.
Qed.

Lemma direct_alloc_loop {A} fuel total_size prev cur (found : Z -> prog heap_state A) s :
  direct (alloc_loop_accesses fuel total_size prev cur found) s =
  (c ← alloc_loop fuel total_size prev cur; direct (found c)) s.
Proof.
  revert prev cur s. induction fuel as [|fuel IH]; intros prev cur s; cbn [alloc_loop_accesses alloc_loop]; [done|].
  destruct (negb (truth cur)); [done|]. cbn [direct]. rewrite bind_assoc.
  apply bind_ext. intros csize t E. destruct (total_size <=? csize).
  - rewrite bind_assoc. assert (t = s) as -> by (by apply hld_state in E). by apply direct_take_block.
  - cbn [direct]. rewrite bind_assoc. apply bind_ext. intros cnext t' _. apply IH.
Qed.

Lemma direct_malloc size s : direct (malloc_accesses (walk_fuel s) size) s = malloc size s.
Proof.
  unfold malloc_accesses, malloc, miniheap_alloc. cbn [direct]. rewrite !bind_gets.
  destruct (round_request _ _ =? 0); [done|]. cbn [direct]. rewrite bind_gets.
  destruct (hp_free_bytes (hp s) <? _); [done|]. cbn [direct]. rewrite !bind_gets, direct_alloc_loop.
  apply bind_ext. intros cur t _. by destruct (negb (truth cur)).
Qed.

Lemma direct_free_loop {A} fuel block ptr_rear prev cur (found : Z -> Z -> prog heap_state A) s :
  direct (free_loop_accesses fuel block ptr_rear prev cur found) s =
  (pc ← free_loop fuel block ptr_rear prev cur; direct (found pc.1 pc.2)) s.
Proof.
  revert prev cur s. induction fuel as [|fuel IH]; intros prev cur s; cbn [free_loop_accesses free_loop]; [done|].
  destruct (truth cur && (cur <? block)); [|done]. destruct (ptr_rear <=? cur); [done|].
  cbn [direct]. rewrite bind_assoc. apply bind_ext. intros cnext t _. apply IH.
Qed.

Lemma direct_free_insert {A} block ptr_rear size prev cur (inserted : Z -> Z -> prog heap_state A) s :
  direct (free_insert_accesses block ptr_rear size prev cur inserted) s =
  (nr ← free_insert block ptr_rear size prev cur; direct (inserted nr.1 nr.2)) s.
Proof.
  unfold free_insert_accesses, free_insert, prev_adjacent. rewrite bind_assoc.
  destruct (truth prev); cbn [direct].
  - rewrite bind_assoc. apply bind_ext. intros psize t _. rewrite bind_ret.
    destruct (_ =? block); cbn [direct]; repeat (rewrite bind_assoc; apply bind_ext; intros); done.
  - rewrite bind_ret. repeat (rewrite bind_assoc; apply bind_ext; intros); done.
Qed.

Lemma direct_free_merge {A} new_block ptr_rear cur (rest : prog heap_state A) s :
  direct (free_merge_accesses new_block ptr_rear cur rest) s = (free_merge_next new_block ptr_rear cur ;; direct rest) s.
Proof.
  unfold free_merge_accesses, free_merge_next. destruct (truth cur && _); [|done].
  cbn [direct]. repeat (rewrite bind_assoc; apply bind_ext; intros); done.
Qed.

Lemma direct_free ptr s : direct (free_accesses (walk_fuel s) ptr) s = free ptr s.
Proof.
  unfold free_accesses, free, miniheap_free. destruct (negb (truth ptr)); [done|]. cbn [direct].
  apply bind_ext. intros magic t Et. assert (t = s) as -> by (by apply hld_state in Et).
  destruct (negb _); [done|]. cbn [direct]. rewrite bind_gets.
  apply bind_ext. intros bsize t Eb. assert (t = s) as -> by (by apply hld_state in Eb).
  rewrite !bind_gets, direct_free_loop.
  apply bind_ext. intros pc t _. cbn [direct]. apply bind_ext. intros size t2 _. apply bind_ext. intros [] t3 _.
  rewrite direct_free_insert. apply bind_ext. intros nr t4 _. rewrite direct_free_merge.
  apply bind_ext. intros [] t5 _. cbn [direct]. rewrite !bind_gets. unfold set_free_bytes. by rewrite bind_modify.
Qed.

(** * With interrupts that free nothing *)

Section Calm.
Context {D U : Type} `{Hardware D} `{Config} `{Callbacks U} `{TimerLayout} `{IrqHandlers D U}.

Lemma steady_heap {A} (m : M heap_state A) : steady (D:=D) (U:=U) (zoom theap set_theap m).
Proof.
  intros s b t E. unfold zoom in *. destruct (m (theap s)) as [a x|w x] eqn:Em; [|done].
  apply Ok_inj in E as [-> <-]. split; [done|]. intros s1 M. rewrite (mi_heap _ _ M), Em. eexists. split; [reflexivity|].
  split; [|done]. destruct M. by split.
Qed.

(** Whatever a program does to the heap, the interrupt may walk its list. *)
Lemma calm_on_heap {A} h xs O (p : prog heap_state A) : forall (s : timers D U) a x,
  walkable h xs O s -> direct p (theap s) = Ok a x ->
  exists n, calm h xs O (prog_on theap set_theap p) s n a (set_theap s x).
Proof.
  induction p as [a|B m k IH]; intros s a' x Hw Hd; cbn [prog_on direct] in *.
  - apply Ok_inj in Hd as [-> <-]. exists 0%nat. replace (set_theap s (theap s)) with s by by destruct s. apply calm_return.
  - apply bind_inv_Ok in Hd as (b & y & Em & Hk).
    assert (W : walkable h xs O (set_theap s y)) by (destruct Hw; by split).
    destruct (IH b (set_theap s y) a' x W Hk) as [n C]. exists (S n).
    eapply calm_access; [exact Hw|apply steady_heap| |exact C]. unfold zoom. by rewrite Em.
Qed.

(** The program, with any interrupts, returns [a], leaves the heap [x] and the rest of the data
    as they are; the interrupts before its last access have run their callbacks. *)
Definition undisturbed {A} (fuel : nat) (p : prog (timers D U) A) (s : timers D U) (xs : list Z) (a : A) (x : heap_state) : Prop :=
  exists n, forall sched u2, times (taken n sched) (run_calls (calls (objs s) xs)) (user s) = Ok tt u2 ->
  exists s', interrupted (take_irq fuel) sched p s = Ok a s' /\
    theap s' = x /\ tlinks s' = tlinks s /\ objs s' = objs s /\ managers s' = managers s /\
    user s' = u2 /\ u64 (g_counter s') = u64 (g_counter s + Z.of_nat (taken n sched)).

Lemma heap_undisturbed {A} cpu (s : timers D U) b0 sz live xs c fuel (p : prog heap_state A) a x :
  on_this_cpu (D:=D) cpu -> (forall s : timers D U, acknowledged s = PPI_TIMER_INTID_EL2) ->
  irqs (tgic s) !! PpiCtx cpu (PPI_TIMER_INTID_EL2 - 16) = Some c -> intid c = PPI_TIMER_INTID_EL2 ->
  ops c = Some g_ppi_intr_ops -> handle c = timer_irq_handler_code -> timer_irq_handler_code <> 0 -> arg c <> 0 ->
  timers_ok b0 sz (arg c + off_timer_list) live s xs -> (length xs <= fuel)%nat ->
  (forall x, x ∈ xs -> expires (objs s) x = false) -> direct p (theap s) = Ok a x ->
  undisturbed fuel (prog_on theap set_theap p) s xs a x.
Proof.
  intros Hcpu Hack Hc Hid Hops Hh Hcode Harg Hok Hf Hex Hm.
  destruct (calm_on_heap (arg c + off_timer_list) xs (objs s) _ s a x (timers_ok_walkable _ _ _ _ _ _ Hok Hex) Hm) as [n C].
  exists n. intros sched u2 Hu.
  destruct (calm_interrupted cpu Hcpu c fuel Hack Hid Hops Hh Hcode Harg xs (objs s) Hf _ _ _ _ _ C sched s u2
    ltac:(done) Hc Hu) as (s' & E & [_ Mh Ml Mo Mm] & U1 & C1).
  by exists s'.
Qed.
End Calm.

(** C16: malloc and free may be interrupted by timers that stay. When none of the listed timers
    expires, a malloc or a free with any number of timer interrupts before each of its loads and
    stores returns what the uninterrupted call returns and leaves the heap as that call leaves
    it, and the lists and timers alone; every interrupt taken before the last of its accesses has
    run the callbacks once and counted its tick. *)
Theorem heap_calls_interruptible {D U} `{Hardware D} `{Config} `{Callbacks U} `{TimerLayout} `{IrqHandlers D U} cpu
    (s : timers D U) b0 sz live xs c fuel :
  on_this_cpu (D:=D) cpu -> (forall s : timers D U, acknowledged s = PPI_TIMER_INTID_EL2) ->
  irqs (tgic s) !! PpiCtx cpu (PPI_TIMER_INTID_EL2 - 16) = Some c -> intid c = PPI_TIMER_INTID_EL2 ->
  ops c = Some g_ppi_intr_ops -> handle c = timer_irq_handler_code -> timer_irq_handler_code <> 0 -> arg c <> 0 ->
  timers_ok b0 sz (arg c + off_timer_list) live s xs -> (length xs <= fuel)%nat ->
  (forall x, x ∈ xs -> expires (objs s) x = false) ->
  (forall size p x, malloc size (theap s) = Ok p x -> undisturbed fuel (timers_malloc (walk_fuel (theap s)) size) s xs p x) /\
  (forall ptr x, free ptr (theap s) = Ok tt x -> undisturbed fuel (timers_free (walk_fuel (theap s)) ptr) s xs tt x).
Proof.
  intros. split; [intros size p x Hm; rewrite <- direct_malloc in Hm|intros ptr x Hm; rewrite <- direct_free in Hm];
    by eapply heap_undisturbed.
Qed.

(** On the clock with a periodic timer: a malloc of 40 bytes, and what it returned freed. *)
Lemma heap_calls_interruptible_witness :
  (forall size p x, malloc size (theap (clock_one 1)) = Ok p x ->
     undisturbed 1 (timers_malloc (walk_fuel (theap (clock_one 1))) size) (clock_one 1) [4152] p x) /\
  (forall ptr x, free ptr (theap (clock_one 1)) = Ok tt x ->
     undisturbed 1 (timers_free (walk_fuel (theap (clock_one 1))) ptr) (clock_one 1) [4152] tt x).
Proof.
  destruct (clock_one_ok 1) as (Hok & Ho & Hu & Hg & Hm).
  apply (heap_calls_interruptible 0 (clock_one 1) 4096 256 {[4112 := sizeof_zhyper_timer]} [4152] clock_ctx 1).
  - exact clock_on_cpu.
  - intros s. reflexivity.
  - rewrite Hg. apply lookup_insert_eq.
  - reflexivity.
  - reflexivity.
  - reflexivity.
  - done.
  - done.
  - exact Hok.
  - reflexivity.
  - intros y ->%list_elem_of_singleton. rewrite Ho. reflexivity.
Defined.

(** Both calls return there. *)
Example clock_heap_calls :
  returned (malloc 40) (theap (clock_one 1)) = Some 4192 /\ returned (free 4112) (theap (clock_one 1)) = Some tt.
Proof. split; vm_compute; reflexivity. Qed.

(** Malloc races with the timer interrupt, on this machine at this access. Split into its loads
    and stores it is malloc. Yet one interrupt, after the next of the first free block is loaded,
    frees an expired one-shot timer between that block and the next and merges all three; malloc
    goes on with the block it had in hand and returns memory in the middle of what is now the only
    free block. When the caller gives it back, the free list holds a block inside a block, and the
    next malloc hands out memory with the head of the free list in it. *)
Lemma malloc_race :
  (forall size (s : timers clock (list (Z * Z * Z))),
     direct (timers_malloc (walk_fuel (theap s)) size) s = on_heap (malloc size) s) /\
  (exists s', interrupted (take_irq 4) [0; 0; 0; 0; 0; 1]%nat (timers_malloc (walk_fuel (theap clock_gap)) 80) clock_gap = Ok 4272 s' /\
     hp_free_list (hp (theap s')) = 4096 /\ mload 4 (fb_size 4096) (hmem (theap s')) = Some 256 /\
     mload 8 (fb_next 4096) (hmem (theap s')) = Some 0) /\
  exists s', (p ← interrupted (take_irq 4) [0; 0; 0; 0; 0; 1]%nat (timers_malloc (walk_fuel (theap clock_gap)) 80);
              on_heap (free p) ;; on_heap (malloc 240)) clock_gap = Ok 4112 s' /\
     hp_free_list (hp (theap s')) = 4256.
Proof.
  split; [|split].
  - intros size s. unfold timers_malloc. rewrite direct_on; [|by intros []|by intros []|by intros []].
    unfold on_heap, zoom. by rewrite direct_malloc.
  - destruct (outcome_Ok (interrupted (take_irq 4) [0; 0; 0; 0; 0; 1]%nat (timers_malloc (walk_fuel (theap clock_gap)) 80)) clock_gap
      (fun s' => (hp_free_list (hp (theap s')), mload 4 (fb_size 4096) (hmem (theap s')), mload 8 (fb_next 4096) (hmem (theap s'))))
      4272 (4096, Some 256, Some 0)) as (s' & E & ((L & Z1)%pair_eq & N)%pair_eq); [vm_compute; reflexivity|].
    exists s'. split; [exact E|]. split; [exact L|]. split; [exact Z1|exact N].
  - apply (outcome_Ok _ clock_gap (fun s' => hp_free_list (hp (theap s')))). vm_compute. reflexivity.
Qed.
