(* ===== verification/Vectors.v ===== *)
(** The vector table and its entries: platform/aarch64/main/exception.S.

    The macros intr_save_regs and intr_restore_regs are lists of instructions, run on one core.
    The hardware's part of an exception (ELR_EL2 and SPSR_EL2 on entry, eret) is the
    architecture's. The C functions el2_sync, el2_irq and el2_fiq are code under the frame the
    entry builds: a parameter here, modelled in Exception. *)
From Stdlib Require Import ZArith Lia.
From stdpp Require Import base gmap list strings.
From S2P Require Import Prelude Mem Printf Io GicRegs Gic Host Exception.

Open Scope Z_scope.

(** * The core *)

(** [gp] holds x0 to x30. *)
Record core := Core {
  gp : list Z; c_sp : Z; c_pc : Z; pstate : Z; ELR_EL2 : Z; SPSR_EL2 : Z; c_mem : mem }.

Definition set_gp (g : list Z) (c : core) : core := Core g (c_sp c) (c_pc c) (pstate c) (ELR_EL2 c) (SPSR_EL2 c) (c_mem c).
Definition set_sp (v : Z) (c : core) : core := Core (gp c) v (c_pc c) (pstate c) (ELR_EL2 c) (SPSR_EL2 c) (c_mem c).
Definition set_spsr (v : Z) (c : core) : core := Core (gp c) (c_sp c) (c_pc c) (pstate c) (ELR_EL2 c) v (c_mem c).
Definition set_mem (c : core) (m : mem) : core := Core (gp c) (c_sp c) (c_pc c) (pstate c) (ELR_EL2 c) (SPSR_EL2 c) m.

Inductive instr :=
  | SubSp (n : Z) | AddSp (n : Z)
  | Stp (a b : nat) (off : Z) | Str (a : nat) (off : Z)
  | Ldp (a b : nat) (off : Z) | Ldr (a : nat) (off : Z)
  | MovFromSp (a : nat) | MovToSp (a : nat)
  | MrsElr (a : nat) | MrsSpsr (a : nat) | MsrSpsr (a : nat).

Definition reg (a : nat) : M core Z := gets (fun c => gp c !!! a).
Definition set_reg (a : nat) (v : Z) : M core unit := modify (fun c => set_gp (<[a := v]> (gp c)) c).
Definition str_sp (a : nat) (off : Z) : M core unit :=
  v ← reg a; base ← gets c_sp; store c_mem set_mem 8 (base + off) v.
Definition ldr_sp (a : nat) (off : Z) : M core unit :=
  base ← gets c_sp; v ← load c_mem 8 (base + off); set_reg a v.

Definition exec (i : instr) : M core unit :=
  match i with
  | SubSp n => modify (fun c => set_sp (u64 (c_sp c - n)) c)
  | AddSp n => modify (fun c => set_sp (u64 (c_sp c + n)) c)
  | Stp a b off => str_sp a off ;; str_sp b (off + 8)
  | Str a off => str_sp a off
  | Ldp a b off => ldr_sp a off ;; ldr_sp b (off + 8)
  | Ldr a off => ldr_sp a off
  | MovFromSp a => v ← gets c_sp; set_reg a v
  | MovToSp a => v ← reg a; modify (set_sp v)
  | MrsElr a => v ← gets ELR_EL2; set_reg a v
  | MrsSpsr a => v ← gets SPSR_EL2; set_reg a v
  | MsrSpsr a => v ← reg a; modify (set_spsr v)
  end.

Fixpoint exec_all (l : list instr) : M core unit :=
  match l with
  | [] => mret tt
  | i :: l' => exec i ;; exec_all l'
  end.

(** * The macros *)

Definition FRAME : Z := 8 * 34.

Definition intr_save_regs : list instr := [
  SubSp FRAME;
  Stp 0 1 0; Stp 2 3 16; Stp 4 5 32; Stp 6 7 48; Stp 8 9 64; Stp 10 11 80; Stp 12 13 96;
  Stp 14 15 112; Stp 16 17 128; Stp 18 19 144; Stp 20 21 160; Stp 22 23 176; Stp 24 25 192;
  Stp 26 27 208; Stp 28 29 224; Str 30 240;
  MovFromSp 0; Str 0 248;
  MrsElr 0; Str 0 256;
  MrsSpsr 0; Str 0 264;
  MovFromSp 0 ].

Definition intr_restore_regs : list instr := [
  Ldr 0 264; MsrSpsr 0;
  Ldr 0 248; MovToSp 0;
  Ldr 30 240;
  Ldp 28 29 224; Ldp 26 27 208; Ldp 24 25 192; Ldp 22 23 176; Ldp 20 21 160; Ldp 18 19 144;
  Ldp 16 17 128; Ldp 14 15 112; Ldp 12 13 96; Ldp 10 11 80; Ldp 8 9 64; Ldp 6 7 48;
  Ldp 4 5 32; Ldp 2 3 16; Ldp 0 1 0;
  AddSp FRAME ].

(** * The table *)

Inductive entry := el2_sync_handler | el2_irq_handler | el2_fiq_handler | b_self.

(** What stands at each offset; past 0x580 the table ends and other code follows. *)
Definition hyper_vector_at (off : Z) : option entry :=
  if decide (off ∈ [0x000; 0x200; 0x400]) then Some el2_sync_handler else
  if decide (off ∈ [0x080; 0x280; 0x480]) then Some el2_irq_handler else
  if decide (off ∈ [0x100; 0x300; 0x500]) then Some el2_fiq_handler else
  if decide (off ∈ [0x180; 0x380; 0x580]) then Some b_self else None.

(** Taking an exception to EL2 through the vector at [off], and returning from it. *)
Definition take_exception (vbar off : Z) : M core unit :=
  modify (fun c => Core (gp c) (c_sp c) (vbar + off) (pstate c) (c_pc c) (pstate c) (c_mem c)).
Definition eret : M core unit :=
  modify (fun c => Core (gp c) (c_sp c) (ELR_EL2 c) (SPSR_EL2 c) (ELR_EL2 c) (SPSR_EL2 c) (c_mem c)).

(** A state with a core in it: the C functions may have more state than the core. *)
Class HasCore (S : Type) := {
  core_of : S -> core;
  with_core : S -> core -> S;
  core_of_with : forall s c, core_of (with_core s c) = c;
  with_core_with : forall s c c', with_core (with_core s c) c' = with_core s c' }.

#[global] Instance core_has_core : HasCore core := {|
  core_of := fun c => c; with_core := fun _ c => c;
  core_of_with := fun _ _ => eq_refl; with_core_with := fun _ _ _ => eq_refl |}.

#[global] Instance pair_has_core T : HasCore (core * T) := {|
  core_of := fst; with_core := fun p c => (c, snd p);
  core_of_with := fun _ _ => eq_refl; with_core_with := fun _ _ _ => eq_refl |}.

Section Entries.
Context {S : Type} `{HasCore S} (c_code : entry -> M S unit) (link : entry -> Z).

Definition on_core {A} (m : M core A) : M S A := zoom core_of with_core m.

(** bl: the address after it goes to x30, and the C function the entry calls runs. *)
Definition bl (e : entry) : M S unit := on_core (set_reg 30 (link e)) ;; c_code e.

Definition run_entry (e : entry) : M S unit :=
  match e with
  | b_self => stop_with Hang
  | _ => on_core (exec_all intr_save_regs) ;; bl e ;; on_core (exec_all intr_restore_regs) ;; on_core eret
  end.

Definition exception (vbar off : Z) : M S unit :=
  match hyper_vector_at off with
  | Some e => on_core (take_exception vbar off) ;; run_entry e
  | None => stop_with (Fault (vbar + off))
  end.
End Entries.

(** The registers struct el2_sync and el2_irq are given, read from memory. *)
Definition gpregs_at (m : mem) (a : Z) : option aarch64_gpregs :=
  xs ← mapM (fun i => mload 8 (a + 8 * Z.of_nat i) m) (seq 0 31);
  s ← mload 8 (a + 248) m; p ← mload 8 (a + 256) m; f ← mload 8 (a + 264) m;
  Some {| x := xs; sp := s; pc := p; spsr := f |}.
