(* ===== verification/VectorsProof.v ===== *)
(** What the entry macros do to the core and to the frame in memory. *)
From Stdlib Require Import ZArith Lia.
From stdpp Require Import base gmap list strings.
From S2P Require Import Prelude Mem Printf Io GicRegs Gic Host Exception Vectors.

Open Scope Z_scope.

(** The [j]-th eight-byte word of the frame at [base]. *)
Definition slot (m : mem) (base : Z) (j : nat) : option Z := mload 8 (base + 8 * Z.of_nat j) m.

Definition is_reg (v : Z) : Prop := 0 <= v < 2 ^ 64.

Lemma exec_all_app l1 l2 c : exec_all (l1 ++ l2) c = (exec_all l1 ;; exec_all l2) c.
Proof.
  revert c. induction l1 as [|i l1 IH]; intros c; [done|]. cbn [app exec_all].
  unfold mbind, M_bind. destruct (exec i c); [|done]. apply IH.
Qed.

(** * Storing *)

(** The core is [c] but for memory, where only words of the frame may differ. *)
Record framed (c c' : core) : Prop := {
  fr_core : exists m, c' = set_mem c m;
  fr_dom : same_dom (c_mem c) (c_mem c');
  fr_out : same_outside (c_mem c) (c_mem c') (c_sp c) FRAME }.

#[global] Instance framed_preorder : PreOrder framed.
Proof.
  split.
  - intros c. split; [by exists (c_mem c); destruct c|done|done].
  - intros a b c [[m ->] D1 O1] [[m' ->] D2 O2]. split; [by exists m'|by etrans|by eapply same_outside_trans].
Qed.

Lemma framed_mapped c c' : framed c c' -> mapped (c_mem c) (c_sp c) FRAME -> mapped (c_mem c') (c_sp c') FRAME.
Proof. intros [[m ->] D _] Hm. by eapply mapped_same_dom. Qed.

Lemma str_slot c a k off :
  mapped (c_mem c) (c_sp c) FRAME -> (k < 34)%nat -> off = 8 * Z.of_nat k -> is_reg (gp c !!! a) ->
  exists c', str_sp a off c = Ok tt c' /\ framed c c' /\
    forall j, slot (c_mem c') (c_sp c) j = if decide (j = k) then Some (gp c !!! a) else slot (c_mem c) (c_sp c) j.
Proof.
  intros Hm Hk -> Hv. unfold str_sp, reg. rewrite bind_gets, bind_gets.
  destruct (mstore_ok 8 (c_sp c + 8 * Z.of_nat k) (gp c !!! a) (c_mem c)) as (m' & E & L & O & D).
  { eapply mapped_sub; [exact Hm|lia|unfold FRAME; lia]. }
  exists (set_mem c m'). split; [by apply store_Some|]. split.
  - split; [by exists m'|done|]. cbn. eapply same_outside_weaken; [exact O|lia|unfold FRAME; lia].
  - intros j. unfold slot. cbn [c_mem set_mem]. case_decide as Hj.
    + subst j. rewrite L, Z.mod_small; [done|exact Hv].
    + eapply mload_same_outside; [exact O|lia].
Qed.

Definition stp_pair (i : nat) : instr := Stp (2 * i) (2 * i + 1) (16 * Z.of_nat i).
Definition ldp_pair (i : nat) : instr := Ldp (2 * i) (2 * i + 1) (16 * Z.of_nat i).

Lemma stp_slots c i :
  mapped (c_mem c) (c_sp c) FRAME -> (i < 15)%nat -> (forall a, is_reg (gp c !!! a)) ->
  exists c', exec (stp_pair i) c = Ok tt c' /\ framed c c' /\
    forall j, slot (c_mem c') (c_sp c) j = if decide (j / 2 = i)%nat then Some (gp c !!! j) else slot (c_mem c) (c_sp c) j.
Proof.
  intros Hm Hi Hv.
  destruct (str_slot c (2 * i) (2 * i) (16 * Z.of_nat i) Hm ltac:(lia) ltac:(lia) (Hv _)) as (c1 & E1 & F1 & L1).
  pose proof F1 as [[m1 ->] _ _]. cbn in L1.
  destruct (str_slot (set_mem c m1) (2 * i + 1) (2 * i + 1) (16 * Z.of_nat i + 8) (framed_mapped _ _ F1 Hm) ltac:(lia) ltac:(lia) (Hv _))
    as (c2 & E2 & F2 & L2). cbn [set_mem c_sp gp c_mem] in L2.
  exists c2. split; [cbn [exec stp_pair]; mstep E1; exact E2|]. split; [by etrans|].
  intros j. rewrite L2, L1. pose proof (Nat.div_mod j 2 ltac:(lia)). pose proof (Nat.mod_upper_bound j 2 ltac:(lia)).
  repeat case_decide; subst; try done; lia.
Qed.

Lemma save_pairs ps c :
  mapped (c_mem c) (c_sp c) FRAME -> Forall (fun i => i < 15)%nat ps -> (forall a, is_reg (gp c !!! a)) ->
  exists c', exec_all (stp_pair <$> ps) c = Ok tt c' /\ framed c c' /\
    forall j, slot (c_mem c') (c_sp c) j = if decide ((j / 2)%nat ∈ ps) then Some (gp c !!! j) else slot (c_mem c) (c_sp c) j.
Proof.
  intros Hm Hi Hv. revert c Hm Hv. induction Hi as [|i ps Hi His IH]; intros c Hm Hv.
  - by exists c.
  - destruct (stp_slots c i Hm Hi Hv) as (c1 & E1 & F1 & L1).
    pose proof (framed_mapped _ _ F1 Hm) as Hm1. pose proof F1 as [[m1 ->] _ _].
    destruct (IH (set_mem c m1) Hm1 Hv) as (c2 & E2 & F2 & L2).
    exists c2. split; [cbn [fmap list_fmap exec_all]; mstep E1; exact E2|]. split; [by etrans|].
    intros j. cbn [set_mem c_sp gp c_mem] in *. rewrite L2, L1.
    repeat case_decide; subst; set_solver.
Qed.

(** A value put in x0 and then in its word. *)
Lemma put_slot (f : core -> Z) (k : nat) off c :
  mapped (c_mem c) (c_sp c) FRAME -> (k < 34)%nat -> off = 8 * Z.of_nat k -> is_reg (f c) -> (0 < length (gp c))%nat ->
  exists m, (forall rest : M core unit, ((v ← gets f; set_reg 0 v) ;; str_sp 0 off ;; rest) c = rest (set_mem (set_gp (<[0%nat := f c]> (gp c)) c) m)) /\
    framed c (set_mem c m) /\
    forall j, slot m (c_sp c) j = if decide (j = k) then Some (f c) else slot (c_mem c) (c_sp c) j.
Proof.
  intros Hm Hk Ho Hv Hl. set (c1 := set_gp (<[0%nat := f c]> (gp c)) c).
  assert (H0 : gp c1 !!! 0%nat = f c) by (apply list_lookup_total_correct, list_lookup_insert_eq; lia).
  destruct (str_slot c1 0 k off Hm Hk Ho ltac:(by rewrite H0)) as (c2 & E & F & L).
  rewrite H0 in L. destruct F as [[m ->] D O]. exists m. split; [|split; [split; [by exists m|done|done]|exact L]].
  intros rest. rewrite bind_assoc, bind_gets. unfold set_reg. rewrite bind_modify. by mstep E.
Qed.

(** * Saving *)

(** The core and the frame an entry starts from. *)
Record can_save (c : core) : Prop := {
  cs_regs : length (gp c) = 31%nat;
  cs_gp : forall a, is_reg (gp c !!! a);
  cs_elr : is_reg (ELR_EL2 c);
  cs_spsr : is_reg (SPSR_EL2 c);
  cs_sp : FRAME <= c_sp c < 2 ^ 64;
  cs_mem : mapped (c_mem c) (c_sp c - FRAME) FRAME }.

Lemma save_shape : intr_save_regs = SubSp FRAME :: ((stp_pair <$> seq 0 15) ++ [Str 30 240]) ++
  [MovFromSp 0; Str 0 248; MrsElr 0; Str 0 256; MrsSpsr 0; Str 0 264; MovFromSp 0].
Proof. reflexivity. Qed.

Lemma gpregs_slots m base g s p f :
  length g = 31%nat -> (forall j, (j < 31)%nat -> slot m base j = Some (g !!! j)) ->
  slot m base 31 = Some s -> slot m base 32 = Some p -> slot m base 33 = Some f ->
  gpregs_at m base = Some {| x := g; sp := s; pc := p; spsr := f |}.
Proof.
  intros Hl Hg Hs Hp Hf. unfold gpregs_at.
  assert (E : mapM (fun i => mload 8 (base + 8 * Z.of_nat i) m) (seq 0 31) = Some g).
  { apply mapM_Some, Forall2_same_length_lookup. split; [by rewrite length_seq|].
    intros i y z Hy Hz. apply lookup_seq in Hy as [-> Hi]. apply list_lookup_total_correct in Hz. subst z. by apply Hg. }
  rewrite E. unfold slot in *. change (8 * Z.of_nat 31) with 248 in Hs. change (8 * Z.of_nat 32) with 256 in Hp.
  change (8 * Z.of_nat 33) with 264 in Hf. unfold mbind, option_bind. by rewrite Hs, Hp, Hf.
Qed.

(** x0 to x30. *)
Lemma save_gp (c : core) (Hm : mapped (c_mem c) (c_sp c) FRAME) (Hg : forall a, is_reg (gp c !!! a)) :
  exists c', exec_all ((stp_pair <$> seq 0 15) ++ [Str 30 240]) c = Ok tt c' /\ framed c c' /\
    forall j, (j < 31)%nat -> slot (c_mem c') (c_sp c) j = Some (gp c !!! j).
Proof.
  destruct (save_pairs (seq 0 15) c Hm) as (c2 & E2 & F2 & L2); [apply Forall_forall; intros i; rewrite elem_of_seq; lia|done|].
  pose proof (framed_mapped _ _ F2 Hm) as Hm2. pose proof F2 as [[m2 ->] _ _].
  destruct (str_slot (set_mem c m2) 30 30 240 Hm2 ltac:(lia) eq_refl (Hg _)) as (c3 & E3 & F3 & L3).
  exists c3. split; [rewrite exec_all_app; mstep E2; cbn [exec_all exec]; by mstep E3|]. split; [by etrans|].
  intros j Hj. cbn [set_mem c_sp gp c_mem] in *. rewrite L3. case_decide; [by subst|].
  rewrite L2. rewrite decide_True; [done|]. apply elem_of_seq. split; [lia|]. apply Nat.Div0.div_lt_upper_bound. lia.
Qed.

Lemma intr_save_run c : can_save c ->
  let base := c_sp c - FRAME in
  exists m, exec_all intr_save_regs c = Ok tt (set_mem (set_gp (<[0%nat := base]> (gp c)) (set_sp base c)) m) /\
    same_dom (c_mem c) m /\ same_outside (c_mem c) m base FRAME /\
    gpregs_at m base = Some {| x := gp c; sp := base; pc := ELR_EL2 c; spsr := SPSR_EL2 c |}.
Proof.
  intros [Hl Hg He Hs Hsp Hm] base. rewrite save_shape. cbn [exec_all exec]. rewrite bind_modify.
  assert (Hb : u64 (c_sp c - FRAME) = base) by (apply Z.mod_small; unfold FRAME in *; lia).
  assert (Hbr : is_reg base) by (unfold is_reg, base, FRAME in *; lia).
  rewrite Hb. set (c1 := set_sp base c). rewrite exec_all_app.
  destruct (save_gp c1 Hm Hg) as (c2 & E2 & F2 & L2).
  mstep E2. pose proof (framed_mapped _ _ F2 Hm) as Hm2. pose proof F2 as [[m2 ->] _ _]. cbn [exec_all exec].
  set (c2 := set_mem c1 m2) in *.
  edestruct (put_slot c_sp 31 248 c2) as (m3 & E3 & F3 & L3); [done|lia|done|exact Hbr|cbn; lia|].
  rewrite E3. clear E3. set (c3 := set_mem _ m3).
  edestruct (put_slot ELR_EL2 32 256 c3) as (m4 & E4 & F4 & L4); [exact (framed_mapped _ _ F3 Hm2)|lia|done|done|cbn; rewrite length_insert; lia|].
  rewrite E4. clear E4. set (c4 := set_mem _ m4).
  edestruct (put_slot SPSR_EL2 33 264 c4) as (m5 & E5 & F5 & L5);
    [exact (framed_mapped _ _ F4 (framed_mapped _ _ F3 Hm2))|lia|done|done|cbn; rewrite !length_insert; lia|].
  rewrite E5. clear E5. exists m5.
  assert (F : framed c1 (set_mem c1 m5)).
  { destruct F2 as [_ D2 O2], F3 as [_ D3 O3], F4 as [_ D4 O4], F5 as [_ D5 O5]. split; [by exists m5| |].
    - etrans; [exact D2|]. etrans; [exact D3|]. etrans; [exact D4|exact D5].
    - eapply same_outside_trans; [exact O2|]. eapply same_outside_trans; [exact O3|]. eapply same_outside_trans; [exact O4|exact O5]. }
  destruct F as [_ D O]. split; [|split; [exact D|split; [exact O|]]].
  - rewrite bind_assoc, bind_gets. unfold set_reg. rewrite bind_modify. cbn. unfold set_mem, set_gp, set_sp. cbn.
    by rewrite !list_insert_insert_eq.
  - assert (Hsl : forall j, slot m5 base j = if decide (j = 33)%nat then Some (SPSR_EL2 c) else
      if decide (j = 32)%nat then Some (ELR_EL2 c) else if decide (j = 31)%nat then Some base else slot m2 base j).
    { intros j. etrans; [exact (L5 j)|]. case_decide; [done|]. etrans; [exact (L4 j)|]. case_decide; [done|]. exact (L3 j). }
    apply gpregs_slots; [done| |by rewrite Hsl|by rewrite Hsl|by rewrite Hsl].
    intros j Hj. rewrite Hsl. rewrite !decide_False by lia. exact (L2 j Hj).
Qed.

(** * Restoring *)

Lemma restore_shape : intr_restore_regs =
  [Ldr 0 264; MsrSpsr 0; Ldr 0 248; MovToSp 0; Ldr 30 240] ++ (ldp_pair <$> rev (seq 0 15)) ++ [AddSp FRAME].
Proof. reflexivity. Qed.

Lemma ldr_slot c a k off v :
  slot (c_mem c) (c_sp c) k = Some v -> off = 8 * Z.of_nat k ->
  ldr_sp a off c = Ok tt (set_gp (<[a := v]> (gp c)) c).
Proof.
  intros Hv ->. unfold ldr_sp. rewrite bind_gets. rewrite (bind_Ok _ _ c v c) by by apply load_Some. done.
Qed.

(** The pairs, in any order, from a frame that holds [f]. *)
Lemma restore_pairs ps (f : nat -> Z) : forall c,
  (forall j, (j < 31)%nat -> slot (c_mem c) (c_sp c) j = Some (f j)) -> length (gp c) = 31%nat ->
  Forall (fun i => i < 15)%nat ps ->
  exists g, exec_all (ldp_pair <$> ps) c = Ok tt (set_gp g c) /\ length g = 31%nat /\
    forall j, (j < 31)%nat -> g !! j = if decide ((j / 2)%nat ∈ ps) then Some (f j) else gp c !! j.
Proof.
  induction ps as [|i ps IH]; intros c Hf Hl Hps.
  - exists (gp c). split; [by destruct c|]. done.
  - apply Forall_cons in Hps as [Hi Hps]. cbn [fmap list_fmap exec_all exec ldp_pair].
    pose proof (ldr_slot c (2 * i) (2 * i) (16 * Z.of_nat i) _ (Hf (2 * i)%nat ltac:(lia)) ltac:(lia)) as E1.
    set (c1 := set_gp _ c) in E1.
    pose proof (ldr_slot c1 (2 * i + 1) (2 * i + 1) (16 * Z.of_nat i + 8) _ (Hf (2 * i + 1)%nat ltac:(lia)) ltac:(lia)) as E2.
    set (c2 := set_gp _ c1) in E2.
    destruct (IH c2 Hf ltac:(cbn; by rewrite !length_insert) Hps) as (g & E & Hg & Hl2).
    exists g. split; [rewrite bind_assoc; mstep E1; mstep E2; exact E|]. split; [done|].
    intros j Hj. rewrite Hl2 by done. cbn [c2 c1 gp set_gp].
    pose proof (Nat.div_mod j 2 ltac:(lia)). pose proof (Nat.mod_upper_bound j 2 ltac:(lia)).
    destruct (decide (j / 2 ∈ ps)%nat) as [Hin|Hin].
    + rewrite decide_True; [done|set_solver].
    + rewrite !list_lookup_insert, length_insert, Hl. cbn [gp].
      repeat case_decide; subst; try done; try lia; set_solver by lia.
Qed.

Lemma gpregs_inv m base r : gpregs_at m base = Some r ->
  length (x r) = 31%nat /\ (forall j, (j < 31)%nat -> slot m base j = Some (x r !!! j)) /\
  slot m base 31 = Some (sp r) /\ slot m base 33 = Some (spsr r).
Proof.
  unfold gpregs_at, slot. change (8 * Z.of_nat 31) with 248. change (8 * Z.of_nat 33) with 264.
  destruct (mapM _ _) as [xs|] eqn:E; [|done]. unfold mbind, option_bind.
  destruct (mload 8 (base + 248) m) as [s|]; [|done]. destruct (mload 8 (base + 256) m) as [p|]; [|done].
  destruct (mload 8 (base + 264) m) as [f|]; [|done]. intros [= <-]. cbn [x sp spsr].
  apply mapM_Some, Forall2_same_length_lookup in E as [Hl E]. rewrite length_seq in Hl.
  split; [done|]. split; [|done]. intros j Hj. apply (E j j); [by apply lookup_seq|].
  apply list_lookup_lookup_total_lt. lia.
Qed.

(** PSTATE, SP and x30, with x0 as a temporary. *)
Lemma restore_front c r :
  length (gp c) = 31%nat -> gpregs_at (c_mem c) (c_sp c) = Some r -> sp r = c_sp c ->
  exec_all [Ldr 0 264; MsrSpsr 0; Ldr 0 248; MovToSp 0; Ldr 30 240] c =
    Ok tt (set_spsr (spsr r) (set_gp (<[30%nat := x r !!! 30%nat]> (<[0%nat := sp r]> (gp c))) c)).
Proof.
  intros Hl Hr Hsp. apply gpregs_inv in Hr as (Hx & Hg & Hs & Hf). cbn [exec_all exec].
  assert (Htot : forall (g : list Z) v, length g = 31%nat -> <[0%nat := v]> g !!! 0%nat = v).
  { intros g v Hgl. apply list_lookup_total_correct, list_lookup_insert_eq. lia. }
  mstep (ldr_slot c 0 33 264 _ Hf eq_refl). set (c1 := set_gp _ c). unfold reg.
  rewrite bind_assoc, bind_gets, bind_modify. replace (gp c1 !!! 0%nat) with (spsr r) by (symmetry; by apply Htot).
  set (c2 := set_spsr _ c1). mstep (ldr_slot c2 0 31 248 _ Hs eq_refl). set (c3 := set_gp _ c2).
  rewrite bind_assoc, bind_gets, bind_modify.
  replace (gp c3 !!! 0%nat) with (sp r) by (symmetry; apply Htot; cbn; by rewrite length_insert).
  set (c4 := set_sp _ c3).
  assert (H30 : slot (c_mem c4) (c_sp c4) 30 = Some (x r !!! 30%nat)) by (cbn; rewrite Hsp; apply Hg; lia).
  mstep (ldr_slot c4 30 30 240 _ H30 eq_refl). unfold mret, M_ret. f_equal. cbn.
  unfold set_spsr, set_gp. cbn. by rewrite list_insert_insert_eq, Hsp.
Qed.

Lemma intr_restore_run c r :
  length (gp c) = 31%nat -> gpregs_at (c_mem c) (c_sp c) = Some r -> sp r = c_sp c ->
  exec_all intr_restore_regs c =
    Ok tt (set_sp (u64 (c_sp c + FRAME)) (set_spsr (spsr r) (set_gp (x r) c))).
Proof.
  intros Hl Hr Hsp. pose proof (restore_front c r Hl Hr Hsp) as E0. apply gpregs_inv in Hr as (Hx & Hg & _).
  set (c1 := set_spsr _ _) in E0. rewrite restore_shape, exec_all_app. mstep E0. rewrite exec_all_app.
  destruct (restore_pairs (rev (seq 0 15)) (fun j => x r !!! j) c1) as (g & E & Hgl & Hgi).
  { exact Hg. } { cbn. by rewrite !length_insert. }
  { apply Forall_forall. intros i. rewrite list_elem_of_In, <- in_rev, <- list_elem_of_In, elem_of_seq. lia. }
  mstep E. cbn [exec_all exec]. rewrite bind_modify. unfold mret, M_ret. f_equal.
  assert (g = x r) as ->; [|done].
  apply list_eq. intros j. destruct (decide (j < 31)%nat) as [Hj|Hj]; [|by rewrite !lookup_ge_None_2 by lia].
  rewrite Hgi, (list_lookup_lookup_total_lt (x r)) by lia. case_decide as Hin; [done|].
  assert (j = 30%nat) as ->.
  { destruct (decide (j = 30%nat)); [done|]. destruct Hin. rewrite list_elem_of_In, <- in_rev, <- list_elem_of_In, elem_of_seq.
    split; [lia|]. apply Nat.Div0.div_lt_upper_bound. lia. }
  cbn. rewrite list_lookup_insert_eq; [done|rewrite length_insert; lia].
Qed.

(** * A whole exception *)

(** The interrupted core: registers in range and room for the frame below the stack pointer. *)
Record interrupted (c : core) : Prop := {
  in_regs : length (gp c) = 31%nat;
  in_gp : forall a, is_reg (gp c !!! a);
  in_pc : is_reg (c_pc c);
  in_pstate : is_reg (pstate c);
  in_sp : FRAME <= c_sp c < 2 ^ 64;
  in_mem : mapped (c_mem c) (c_sp c - FRAME) FRAME }.

Section Exception.
Context {S : Type} `{HasCore S}.

Lemma on_core_Ok {A} (m : M core A) s a c' : m (core_of s) = Ok a c' -> on_core m s = Ok a (with_core s c').
Proof. intros E. unfold on_core, zoom. by rewrite E. Qed.

(** Up to the call: the core the C function starts from. *)
Record entered (c c1 : core) : Prop := {
  en_x0 : gp c1 !!! 0%nat = c_sp c - FRAME;
  en_regs : length (gp c1) = 31%nat;
  en_sp : c_sp c1 = c_sp c - FRAME;
  en_elr : ELR_EL2 c1 = c_pc c;
  en_frame : gpregs_at (c_mem c1) (c_sp c - FRAME) =
    Some {| x := gp c; sp := c_sp c - FRAME; pc := c_pc c; spsr := pstate c |};
  en_dom : same_dom (c_mem c) (c_mem c1);
  en_out : same_outside (c_mem c) (c_mem c1) (c_sp c - FRAME) FRAME }.

Lemma exception_enters (code : entry -> M S unit) link vbar off e s :
  hyper_vector_at off = Some e -> e <> b_self -> interrupted (core_of s) ->
  exists c1, entered (core_of s) c1 /\
    exception code link vbar off s =
      (code e ;; on_core (exec_all intr_restore_regs) ;; on_core eret) (with_core s c1).
Proof.
  intros Hv He [Hl Hg Hp Hs Hsp Hm]. set (c := core_of s) in *. set (base := c_sp c - FRAME) in *.
  set (c0 := Core (gp c) (c_sp c) (vbar + off) (pstate c) (c_pc c) (pstate c) (c_mem c)).
  destruct (intr_save_run c0) as (m & E & D & O & R); [by split|]. cbn [c0 c_sp] in E, O, R. fold base in E, O, R.
  set (c1 := set_mem _ m) in E. set (c2 := set_gp (<[30%nat := link e]> (gp c1)) c1).
  exists c2. split.
  - split; [| |done|done|exact R|exact D|exact O].
    + apply list_lookup_total_correct. cbn. rewrite list_lookup_insert_ne, list_lookup_insert_eq by (try done; lia). done.
    + cbn. by rewrite !length_insert.
  - assert (E0 : on_core (take_exception vbar off) s = Ok tt (with_core s c0)) by by apply on_core_Ok.
    assert (E1 : on_core (exec_all intr_save_regs) (with_core s c0) = Ok tt (with_core s c1)).
    { rewrite <- (with_core_with s c0 c1). apply on_core_Ok. by rewrite core_of_with. }
    assert (E2 : on_core (set_reg 30 (link e)) (with_core s c1) = Ok tt (with_core s c2)).
    { rewrite <- (with_core_with s c1 c2). apply on_core_Ok. by rewrite core_of_with. }
    unfold exception. rewrite Hv. mstep E0.
    destruct e; try done; cbn [run_entry]; mstep E1; unfold bl; rewrite bind_assoc; by mstep E2.
Qed.

(** From the return of the C function, in [s2]. *)
Lemma exception_leaves (s2 : S) r :
  length (gp (core_of s2)) = 31%nat -> gpregs_at (c_mem (core_of s2)) (c_sp (core_of s2)) = Some r -> sp r = c_sp (core_of s2) ->
  let c2 := core_of s2 in
  (on_core (exec_all intr_restore_regs) ;; on_core eret) s2 =
    Ok tt (with_core s2 (Core (x r) (u64 (c_sp c2 + FRAME)) (ELR_EL2 c2) (spsr r) (ELR_EL2 c2) (spsr r) (c_mem c2))).
Proof.
  intros Hl Hr Hsr c2. mstep (on_core_Ok _ s2 _ _ (intr_restore_run c2 r Hl Hr Hsr)).
  set (c3 := set_sp _ _). set (c4 := Core _ _ _ _ _ _ _).
  assert (E : on_core eret (with_core s2 c3) = Ok tt (with_core (with_core s2 c3) c4)).
  { apply on_core_Ok. by rewrite core_of_with. }
  by rewrite with_core_with in E.
Qed.

(** The frame is not affected by what happens below it. *)
Lemma gpregs_below m m' base n : same_outside m m' (base - n) n -> gpregs_at m' base = gpregs_at m base.
Proof.
  intros O. assert (L : forall k, 0 <= k -> mload 8 (base + k) m' = mload 8 (base + k) m).
  { intros k Hk. eapply mload_same_outside; [exact O|lia]. }
  unfold gpregs_at. rewrite !L by lia.
  rewrite (mapM_ext _ (fun i => mload 8 (base + 8 * Z.of_nat i) m)); [done|]. intros i. apply L. lia.
Qed.
End Exception.
