(* ===== verification/VectorsTheorems.v ===== *)
(** The properties of the vector table, each with a concrete instance. *)
From Stdlib Require Import ZArith Lia.
From stdpp Require Import base gmap list strings.
From S2P Require Import Prelude Mem Printf Io GicRegs Gic Host Exception Vectors VectorsProof.

Open Scope Z_scope.

(** C24: what an exception does to the program it interrupts. Every vector but the SError ones
    calls its C function with the stack pointer and x0 at a frame that reads, as the struct the
    C code is given, as the 31 registers, the PC and the PSTATE of the interrupted program; its
    [sp] is the frame's own address and not the interrupted stack pointer, and nothing outside
    the frame is touched. Where the C function never returns, neither does the exception. When
    it returns, whatever it did to the registers, the program goes on with its own stack pointer
    and with the registers and PSTATE that the frame then holds, but with the PC of ELR_EL2: a
    PC written to the frame is ignored. So a function that keeps the frame and ELR_EL2 is not
    noticed. *)
Theorem exception_returns {S} `{HasCore S} (code : entry -> M S unit) link vbar off e s :
  hyper_vector_at off = Some e -> e <> b_self -> interrupted (core_of s) ->
  let c := core_of s in
  let base := c_sp c - FRAME in
  exists c1,
    gp c1 !!! 0%nat = base /\ c_sp c1 = base /\ ELR_EL2 c1 = c_pc c /\
    gpregs_at (c_mem c1) base = Some {| x := gp c; sp := base; pc := c_pc c; spsr := pstate c |} /\
    same_outside (c_mem c) (c_mem c1) base FRAME /\
    (forall w s2, code e (with_core s c1) = Stop w s2 -> exception code link vbar off s = Stop w s2) /\
    (forall s2 r, code e (with_core s c1) = Ok tt s2 ->
       let c2 := core_of s2 in
       length (gp c2) = 31%nat -> c_sp c2 = base -> gpregs_at (c_mem c2) base = Some r -> sp r = base ->
       exception code link vbar off s =
         Ok tt (with_core s2 (Core (x r) (c_sp c) (ELR_EL2 c2) (spsr r) (ELR_EL2 c2) (spsr r) (c_mem c2)))).
Proof.
  intros Hv He Hc c base. destruct (exception_enters code link vbar off e s Hv He Hc) as (c1 & [] & Hrun).
  exists c1. do 5 (split; [done|]). split.
  - intros w s2 Ew. rewrite Hrun. by apply bind_Stop.
  - intros s2 r Ec c2 Hl Hs Hr Hsr. rewrite Hrun. mstep Ec. unfold c2 in *. rewrite <- Hs in Hr, Hsr.
    rewrite (exception_leaves s2 r Hl Hr Hsr), Hs. unfold base. destruct (in_sp _ Hc).
    replace (u64 (c_sp c - FRAME + FRAME)) with (c_sp c); [done|].
    replace (c_sp c - FRAME + FRAME) with (c_sp c) by lia. symmetry. apply Z.mod_small. unfold FRAME, c in *. lia.
Qed.

(** A core with its stack at 0x1000, interrupted at 0x400. *)
Definition demo_core : core :=
  Core ((fun i => Z.of_nat i) <$> seq 0 31) 0x1110 0x400 0x3c5 0 0 (zeros 0x1000 272).

Lemma demo_interrupted : interrupted demo_core.
Proof.
  split; try (split; [done|]; done).
  - done.
  - intros a. cbn [gp demo_core]. destruct (decide (a < 31)%nat) as [Ha|Ha].
    + rewrite (list_lookup_total_correct _ a (Z.of_nat a)); [unfold is_reg; lia|].
      rewrite list_lookup_fmap, lookup_seq_lt by done. done.
    + rewrite list_lookup_total_alt, lookup_ge_None_2 by (rewrite length_fmap, length_seq; lia). done.
  - exact (zeros_mapped 0x1000 272).
Qed.

(** A handler that overwrites a register and the link register. *)
Definition clobber (e : entry) : M core unit := set_reg 5 77 ;; set_reg 30 99.

Lemma exception_returns_witness :
  let base := c_sp demo_core - FRAME in
  exists c1,
    gp c1 !!! 0%nat = base /\ c_sp c1 = base /\ ELR_EL2 c1 = c_pc demo_core /\
    gpregs_at (c_mem c1) base = Some {| x := gp demo_core; sp := base; pc := c_pc demo_core; spsr := pstate demo_core |} /\
    same_outside (c_mem demo_core) (c_mem c1) base FRAME /\
    (forall w c2, clobber el2_irq_handler c1 = Stop w c2 -> exception clobber (fun _ => 0) 0x80000 0x280 demo_core = Stop w c2) /\
    (forall c2 r, clobber el2_irq_handler c1 = Ok tt c2 -> length (gp c2) = 31%nat -> c_sp c2 = base ->
       gpregs_at (c_mem c2) base = Some r -> sp r = base ->
       exception clobber (fun _ => 0) 0x80000 0x280 demo_core =
         Ok tt (Core (x r) (c_sp demo_core) (ELR_EL2 c2) (spsr r) (ELR_EL2 c2) (spsr r) (c_mem c2))).
Proof.
  exact (exception_returns clobber (fun _ => 0) 0x80000 0x280 el2_irq_handler demo_core
    eq_refl ltac:(discriminate) demo_interrupted).
Defined.

(** That handler on the demo core: the program goes on as it was. *)
Example clobber_unnoticed :
  match exception clobber (fun _ => 0) 0x80000 0x280 demo_core with
  | Ok _ c => (gp c, c_sp c, c_pc c, pstate c) = (gp demo_core, c_sp demo_core, c_pc demo_core, pstate demo_core)
  | Stop _ _ => False
  end.
Proof. vm_compute. reflexivity. Qed.
