(* ===== verification/IrqEntry.v ===== *)
(** An interrupt as the interrupted program meets it: the vector of exception.S around el2_irq,
    on one state with the core and everything el2_irq works on. The compiled el2_irq is the C
    function of Exception and, on the core, any function that keeps to the procedure call
    standard: it may use every register and the stack below its caller's. *)
From Stdlib Require Import ZArith Lia.
From stdpp Require Import base gmap list strings.
From S2P Require Import Prelude Mem Printf Io Spinlock GicRegs Gic GicIntr CList Timer Host Exception Preempt Vectors.

Open Scope Z_scope.

Section Irq.
Context {D U : Type} `{Hardware D} `{Config} `{Callbacks U} `{TimerLayout} `{IrqHandlers D U}.

Abbreviation machine := (core * timers D U)%type.

(** [body] is what the compiled function leaves in the core; the other entries are [others]. *)
Definition compiled (fuel : nat) (body : core -> core) (others : entry -> M machine unit) (e : entry) : M machine unit :=
  match e with
  | el2_irq_handler =>
      zoom snd (fun p s => (fst p, s)) (take_irq fuel) ;;
      modify (fun p => (body (fst p), snd p))
  | _ => others e
  end.

(** The interrupt, through the vector at [off] of the table at [vbar]. *)
Definition irq_exception (fuel : nat) (body : core -> core) (others : entry -> M machine unit) (link : entry -> Z)
    (vbar off : Z) : M machine unit := exception (compiled fuel body others) link vbar off.
End Irq.

(** What a function with [n] bytes of stack leaves alone. *)
Record keeps_to_pcs (n : Z) (c c' : core) : Prop := {
  kp_regs : length (gp c') = length (gp c);
  kp_sp : c_sp c' = c_sp c;
  kp_elr : ELR_EL2 c' = ELR_EL2 c;
  kp_dom : same_dom (c_mem c) (c_mem c');
  kp_mem : same_outside (c_mem c) (c_mem c') (c_sp c - n) n }.

(** The interrupted program goes on: the same registers, stack pointer, PC and PSTATE, and the
    same memory but for [n] bytes below its stack pointer. *)
Record resumes (n : Z) (c c' : core) : Prop := {
  re_gp : gp c' = gp c;
  re_sp : c_sp c' = c_sp c;
  re_pc : c_pc c' = c_pc c;
  re_pstate : Vectors.pstate c' = Vectors.pstate c;
  re_dom : same_dom (c_mem c) (c_mem c');
  re_mem : same_outside (c_mem c) (c_mem c') (c_sp c - n) n }.
