(* ===== verification/IrqEntryTheorems.v ===== *)
(** Interrupts through the vectors are not noticed by the program, with a concrete instance. *)
From Stdlib Require Import ZArith Lia.
From stdpp Require Import base gmap list strings.
From S2P Require Import Prelude Mem Printf Io Spinlock GicRegs Gic GicIntr CList Timer TimerTheorems Host Exception ExceptionTheorems.
From S2P Require Import Preempt PreemptProof Vectors VectorsProof VectorsTheorems IrqEntry.

Open Scope Z_scope.

#[global] Instance resumes_preorder n : PreOrder (resumes n).
Proof.
  split; [by intros c; split|]. intros a b c [G1 S1 P1 T1 D1 M1] [G2 S2 P2 T2 D2 M2].
  split; try congruence; [by etrans|]. rewrite S1 in M2. by eapply same_outside_trans.
Qed.

Lemma resumes_interrupted n c c' : resumes n c c' -> VectorsProof.interrupted c -> VectorsProof.interrupted c'.
Proof.
  intros [G S P T Dm _] []. split; rewrite ?G, ?S, ?P, ?T; try done. by eapply mapped_same_dom.
Qed.

Section Irq.
Context {D U : Type} `{Hardware D} `{Config} `{Callbacks U} `{TimerLayout} `{IrqHandlers D U}.
Context (fuel : nat) (body : core -> core) (others : entry -> M (core * timers D U) unit) (link : entry -> Z) (vbar off n : Z).
Hypothesis (Hoff : hyper_vector_at off = Some el2_irq_handler) (Hn : 0 <= n) (Hbody : forall c, keeps_to_pcs n c (body c)).

Abbreviation irq := (irq_exception fuel body others link vbar off).

Lemma irq_once c (s s' : timers D U) : VectorsProof.interrupted c -> take_irq fuel s = Ok tt s' ->
  exists c', irq (c, s) = Ok tt (c', s') /\ resumes (FRAME + n) c c'.
Proof using Hoff Hn Hbody.
  intros Hc Hs. destruct (exception_enters (compiled fuel body others) link vbar off el2_irq_handler (c, s) Hoff ltac:(done) Hc)
    as (c1 & [_ Hl1 Hsp1 Helr1 Hf1 Hd1 Ho1] & Hrun). cbn [core_of pair_has_core fst] in *.
  set (base := c_sp c - FRAME) in *. destruct (Hbody c1) as [Hl2 Hsp2 Helr2 Hd2 Ho2]. rewrite Hsp1 in Ho2.
  assert (Ec : compiled fuel body others el2_irq_handler (c1, s) = Ok tt (body c1, s')).
  { cbn [compiled]. rewrite (bind_Ok _ _ (c1, s) tt (c1, s')); [done|]. unfold zoom. cbn [fst snd]. by rewrite Hs. }
  assert (Hr : gpregs_at (c_mem (body c1)) (c_sp (body c1)) = Some {| x := gp c; sp := base; pc := c_pc c; spsr := Vectors.pstate c |}).
  { rewrite Hsp2, Hsp1, (gpregs_below _ _ base n Ho2). exact Hf1. }
  eexists. split.
  - unfold irq_exception. rewrite Hrun. cbn [with_core pair_has_core snd]. mstep Ec.
    exact (exception_leaves (S := core * timers D U) (body c1, s') _ (eq_trans Hl2 Hl1) Hr (eq_sym (eq_trans Hsp2 Hsp1))).
  - cbn [core_of pair_has_core fst x spsr]. rewrite Hsp2, Hsp1, Helr2, Helr1. destruct (in_sp _ Hc). split; cbn [gp c_sp c_pc Vectors.pstate c_mem].
    + done.
    + unfold base. replace (c_sp c - FRAME + FRAME) with (c_sp c) by lia. apply Z.mod_small. unfold FRAME in *. lia.
    + done.
    + done.
    + by etrans.
    + apply (same_outside_trans _ (c_mem c1)); (eapply same_outside_weaken; [eassumption|unfold base, FRAME in *; lia..]).
Qed.

Lemma irq_times k : forall c (s s' : timers D U), VectorsProof.interrupted c -> times k (take_irq fuel) s = Ok tt s' ->
  exists c', times k irq (c, s) = Ok tt (c', s') /\ resumes (FRAME + n) c c'.
Proof using Hoff Hn Hbody.
  induction k as [|k IH]; intros c s s' Hc Hs.
  - apply Ok_inj in Hs as [_ <-]. by exists c.
  - cbn [times] in Hs. apply bind_inv_Ok in Hs as ([] & s1 & Hs1 & Hs2).
    destruct (irq_once c s s1 Hc Hs1) as (c1 & E1 & R1).
    destruct (IH c1 s1 s' (resumes_interrupted _ _ _ R1 Hc) Hs2) as (c2 & E2 & R2).
    exists c2. split; [cbn [times]; by mstep E1|by etrans].
Qed.
End Irq.

(** C23: interrupts are not noticed. Any number of interrupts that el2_irq handles, each taken
    through the vector, saved and restored by the macros of exception.S around a compiled
    el2_irq that keeps to the procedure call standard, leaves the interrupted program with its
    registers, stack pointer, PC, PSTATE and memory (but for the stack below its stack pointer),
    and everything else as the calls of el2_irq leave it. *)
Theorem interrupts_unnoticed {D U} `{Hardware D} `{Config} `{Callbacks U} `{TimerLayout} `{IrqHandlers D U}
    fuel body others link vbar off n k c (s s' : timers D U) :
  hyper_vector_at off = Some el2_irq_handler -> 0 <= n -> (forall c, keeps_to_pcs n c (body c)) ->
  VectorsProof.interrupted c -> times k (take_irq fuel) s = Ok tt s' ->
  exists c', times k (irq_exception fuel body others link vbar off) (c, s) = Ok tt (c', s') /\ resumes (FRAME + n) c c'.
Proof. intros. by apply irq_times. Qed.

(** A compiled el2_irq that uses the scratch registers. *)
Definition scratch (c : core) : core := set_gp (<[30%nat := 0x80100]> (<[1%nat := 26]> (gp c))) c.

#[local] Existing Instance no_other_handlers.

(** Three ticks of the clock in the demo program. *)
Lemma interrupts_unnoticed_witness :
  exists c', times 3 (irq_exception 1 scratch (fun _ => stop_with Hang) (fun _ => 0x80100) 0x80000 0x280)
      (demo_core, clock_one 1) = Ok tt (c', state_after (times 3 (take_irq 1)) (clock_one 1)) /\
    resumes (FRAME + 0) demo_core c'.
Proof.
  apply (interrupts_unnoticed 1 scratch (fun _ => stop_with Hang) (fun _ => 0x80100) 0x80000 0x280 0 3 demo_core).
  - reflexivity.
  - done.
  - intros c. split; try done. unfold scratch. cbn. by rewrite !length_insert.
  - exact demo_interrupted.
  - apply returned_Ok. vm_compute. reflexivity.
Defined.
