(* ===== verification/Boot.v ===== *)
(** The boot of the hypervisor: platform/aarch64/main/main.c, with el2_exception_init of
    main/exception.S, on one state that holds every component.

    The interrupt controller, the timers, the heap and the console share one trace of hardware
    accesses. The text the program prints is recorded as characters, as in Io; that the console
    delivers them is the subject of Console. The timer callback has its own state. *)
From Stdlib Require Import ZArith Lia.
From stdpp Require Import base gmap list strings.
From S2P Require Import Prelude Mem Miniheap Printf Io Spinlock GicRegs Gic GicIntr CList Console Timer Exception.

Open Scope Z_scope.

(** * The timer callback *)

(** [static int s_count], and what the callback has printed. *)
Record app := App { s_count : Z; said : text }.

#[export, refine] Instance app_output : Output app := {
  putchar := fun c => modify (fun u => App (s_count u) (said u ++ [c]));
  out := said; sent := fun c => c; ready := fun _ => True }.
Proof. intros c u _. by eexists. Defined.

Definition test_timer_cb (timer arg : Z) : M app unit :=
  n ← gets s_count;
  if n =? INT_MAX then stop_with (Undef "s_count++") else
  modify (fun u => App (n + 1) (said u)) ;;
  _ ← printf (ln "Timer callback invoked! Counter: %d") [AInt (n + 1)];
  mret tt.

(** * State *)

(** Link addresses: the vector table, the string literal of main.c, __heap_start and the
    callback. *)
Class BootLayout := { hyper_vector : Z; pl011_literal : Z; __heap_start : Z; test_timer_cb_code : Z }.

#[export] Instance boot_callbacks `{BootLayout} : Callbacks app := fun cb timer arg =>
  if cb =? test_timer_cb_code then test_timer_cb timer arg else stop_with (Fault cb).

(** [strings] is the memory of the string literals, [heap_once] the flag of RUN_ONCE. *)
Record boot (D : Type) := Boot {
  board : timers D app; strings : Mem.mem; registry : list console; uart_base : Z; heap_once : once_flag }.
Arguments Boot {D} _ _ _ _ _.
Arguments board {D} _. Arguments strings {D} _. Arguments registry {D} _. Arguments uart_base {D} _. Arguments heap_once {D} _.

Section Boot.
Context {D : Type} `{Hardware D} `{Config} `{TimerLayout} `{BootLayout}.

Definition on_board {A} (m : M (timers D app) A) : M (boot D) A :=
  zoom board (fun b t => Boot t (strings b) (registry b) (uart_base b) (heap_once b)) m.

(** The console layer works on the hardware of the same board. *)
Definition platform_of (b : boot D) : platform D :=
  {| mio := gio (tgic (board b)); mmem := strings b; consoles := registry b; g_pl011_base_addr := uart_base b |}.
Definition with_platform (b : boot D) (p : platform D) : boot D :=
  Boot (set_tgic (board b) (set_gio (tgic (board b)) (mio p))) (mmem p) (consoles p) (g_pl011_base_addr p) (heap_once b).
Definition on_console {A} (m : M (platform D) A) : M (boot D) A := zoom platform_of with_platform m.

Definition set_heap_once (b : boot D) (o : once_flag) : boot D := Boot (board b) (strings b) (registry b) (uart_base b) o.

Definition print (fmt : string) (args : list Z) : M (boot D) unit := on_board (on_gic (pr fmt args)).

(** * main.c *)

(** exception.S: msr VBAR_EL2 and isb. *)
Definition el2_exception_init : M (boot D) unit :=
  on_board (on_gic (hw (write_sysreg "VBAR_EL2" hyper_vector))) ;; on_board (on_gic (hw isb)).

Definition __miniheap_init : M (boot D) Z :=
  _ ← on_board (on_heap (miniheap_init __heap_start ZHYPER_HEAP_SIZE)); mret 0.

(** [fuel] bounds the comparison of console names. *)
Definition platform_init (fuel : nat) : M (boot D) Z :=
  el2_exception_init ;;
  pl011_console ← on_console (find_console fuel pl011_literal);
  match pl011_console with
  | Some _ => _ ← on_console (console_init pl011_console); mret tt
  | None => panic "pl011 console not found"
  end ;;
  _ ← run_once heap_once set_heap_once __miniheap_init;
  print (ln "Platform initialization started") [] ;;
  _ ← on_board (on_gic plat_gicv3_init);
  on_board (plat_timer_init (1000 / HZ)) ;;
  timer ← on_board (create_timer_periodic 1000 test_timer_cb_code 0);
  _ ← on_board (start_timer timer 0);
  el ← on_board (on_gic (hw get_current_el));
  print (ln "software EL: %d") [el] ;;
  print (ln "Platform initialized") [] ;;
  stop_with Hang.

(** The idle loop from the timers' point of view: [n] interrupts, one after the other, each
    delivered while the CPU waits in wfi. *)
Fixpoint interrupts `{IrqHandlers D app} (fuel n : nat) : M (timers D app) unit :=
  match n with
  | O => mret tt
  | S n' => _ ← el2_irq fuel; interrupts fuel n'
  end.
End Boot.
