(* ===== verification/BootProof.v ===== *)
(** The stages of the boot, one after the other, and the interrupts that follow it. *)
From Stdlib Require Import ZArith Lia.
From stdpp Require Import base gmap list strings.
From S2P Require Import Prelude Mem HeapSpec Miniheap HeapProof HeapClient CStringProof Printf PrintfProof Io IoProof.
From S2P Require Import Spinlock SpinlockProof GicRegs Gic GicIntr GicProof GicIntrProof GicOpsProof GicInitProof.
From S2P Require Import HostProof CList Console ConsoleProof Timer TimerProof TimerInitProof Exception IrqProof Boot.

Open Scope Z_scope.

#[global] Instance boot_traced {D} : Traced (boot D) := fun b => trace_of (tgic (board b)).

Section Boot.
Context {D : Type} `{Hardware D} `{Config} `{TimerLayout} `{BootLayout}.

Definition set_board (b : boot D) (t : timers D app) : boot D := Boot t (strings b) (registry b) (uart_base b) (heap_once b).

Lemma runs_on_board {A} (m : M (timers D app) A) b a t l :
  runs m (board b) a t l -> runs (on_board m) b a (set_board b t) l.
Proof. intros [E T]. split; [|exact T]. unfold on_board, zoom. by rewrite E. Qed.

Lemma runs_on_console {A} (m : M (platform D) A) b a p l :
  runs m (platform_of b) a p l -> runs (on_console m) b a (with_platform b p) l.
Proof. intros [E T]. split; [|exact T]. unfold on_console, zoom. by rewrite E. Qed.

(** Only the hardware has changed. *)
Definition same_boot (b b' : boot D) : Prop :=
  same_timers (board b) (board b') /\ heap_once b' = heap_once b /\ strings b' = strings b /\
  registry b' = registry b /\ uart_base b' = uart_base b.

#[global] Instance same_boot_preorder : PreOrder same_boot.
Proof.
  split; [by intros b|]. intros a b c (S1 & ? & ? & ? & ?) (S2 & ? & ? & ? & ?).
  split; [etrans; [exact S1|exact S2]|]. by split_and!; etrans.
Qed.

Lemma runs_print fmt args (b : boot D) : scan_ok fmt (length args) = true ->
  exists b' t, runs (print fmt args) b tt b' (EPutc <$> t) /\ same_boot b b'.
Proof.
  intros Hs. destruct (runs_pr fmt args (tgic (board b)) Hs) as (g & t & R & S). eexists _, t.
  split; [by apply runs_on_board, runs_on_gic|done].
Qed.

Lemma runs_current_el (b : boot D) : exists el v b',
  runs (on_board (on_gic (hw get_current_el))) b el b' [EMrs "CurrentEL" v] /\ same_boot b b'.
Proof.
  destruct (runs_mrs "CurrentEL" (tgic (board b))) as (v & g & [E T] & S).
  eexists (Z.land (Z.shiftr v 2) 3), v, _. split; [apply runs_on_board, runs_on_gic; split; [|exact T]|done].
  unfold hw, zoom, get_current_el in *. unfold mbind, M_bind. revert E.
  destruct (read_sysreg "CurrentEL" (gio (tgic (board b)))); [|done]. intros [-> <-]%Ok_inj. reflexivity.
Qed.

(** The vector table. *)
Lemma runs_exception_init (b : boot D) : exists b',
  runs el2_exception_init b tt b' [EMsr "VBAR_EL2" (u64 hyper_vector); EBarrier "isb"] /\ same_boot b b'.
Proof.
  destruct (runs_sysreg "VBAR_EL2" hyper_vector (board b)) as (t1 & R1 & S1). apply runs_on_board in R1.
  destruct (runs_isb t1) as (t2 & R2 & S2). apply (runs_on_board _ (set_board b t1)) in R2.
  eexists. change [EMsr "VBAR_EL2" (u64 hyper_vector); EBarrier "isb"] with ([EMsr "VBAR_EL2" (u64 hyper_vector)] ++ [EBarrier "isb"]). split; [unfold el2_exception_init; chain (R1, R2)|]. split; [by etrans|done].
Qed.

(** The console. *)
Lemma boot_console_run fuel name ops (b : boot D) :
  registry b = program_consoles name ops -> ops <> 0 -> (5 <= fuel)%nat ->
  cstr (strings b) name (str "pl011") -> cstr (strings b) pl011_literal (str "pl011") ->
  runs (on_console (find_console fuel pl011_literal)) b (Some O) b [] /\
  exists b', runs (on_console (console_init (Some O))) b 0 b' pl011_setup /\
    same_timers (board b) (board b') /\ heap_once b' = heap_once b /\
    registry b' = set_enabled true <$> program_consoles name ops /\ uart_base b' = PL011_BASE_ADDR.
Proof.
  intros Hc Ho Hf Hn Hl. split.
  - replace b with (with_platform b (platform_of b)) at 2 by by destruct b as [[[] ? ? ? ? ? ?] ? ? ? ?].
    apply runs_on_console. split; [by eapply find_pl011_run|by rewrite app_nil_r].
  - destruct (init_pl011_run name ops (platform_of b) Hc Ho) as (p & R & Hreg & Hbase & _).
    exists (with_platform b p). split; [by apply runs_on_console|]. split; [by repeat split|done].
Qed.

(** The heap. *)
Lemma boot_heap_run (b : boot D) :
  heap_once b = ONCE_INITIALIZER ->
  arena_ok __heap_start ZHYPER_HEAP_SIZE (hmem (theap (board b))) ->
  exists b' h, runs (run_once heap_once set_heap_once __miniheap_init) b 0 b' [] /\
    board b' = set_theap (board b) h /\ client_inv __heap_start ZHYPER_HEAP_SIZE (Client h ∅) /\ flag (heap_once b') = 1 /\
    registry b' = registry b /\ uart_base b' = uart_base b.
Proof.
  intros Hl Ha. destruct (init_inv __heap_start ZHYPER_HEAP_SIZE (theap (board b)) Ha eq_refl) as (h & E & Hr).
  assert (F : __miniheap_init (set_heap_once b (once_held 0)) =
              Ok 0 (set_heap_once (set_board b (set_theap (board b) h)) (once_held 0))).
  { unfold __miniheap_init, on_board, on_heap, zoom, mbind, M_bind. cbn [board set_heap_once]. by rewrite E. }
  exists (set_heap_once (set_board b (set_theap (board b) h)) (once_left 0 0)), h.
  split; [|done]. split; [|by rewrite app_nil_r].
  by rewrite (run_once_first heap_once set_heap_once __miniheap_init ltac:(done) b 0 0 _ ltac:(lia) Hl F).
Qed.

(** * The whole boot *)

(** The call ends the program in [s'], having added [l] to the trace. *)
Definition halts {S A} `{Traced S} (m : M S A) (s : S) (w : stop) (s' : S) (l : list event) : Prop :=
  m s = Stop w s' /\ trace_of s' = trace_of s ++ l.

Lemma halts_stop {S A} `{Traced S} w (s : S) : halts (A:=A) (stop_with w) s w s [].
Proof. split; [done|by rewrite app_nil_r]. Qed.

Lemma halts_bind {S A B} `{Traced S} (m : M S A) (k : A -> M S B) s a s1 w s2 l1 l2 :
  runs m s a s1 l1 -> halts (k a) s1 w s2 l2 -> halts (m ≫= k) s w s2 (l1 ++ l2).
Proof. intros [E1 T1] [E2 T2]. split; [by rewrite (bind_Ok _ _ _ _ _ E1)|]. by rewrite T2, T1, app_assoc. Qed.

Ltac halt_one r := eapply halts_bind; [exact r|cbn beta].

(** What the boot relies on: statically initialised objects as the program declares them, memory
    for the heap, and hardware that answers. [ops] is the address of the PL011's table. *)
Record powered_on (b : boot D) (name ops : Z) (g0 : gicr_context) (c0 : irq_context) : Prop := {
  po_console : registry b = program_consoles name ops;
  po_ops : ops <> 0;
  po_name : cstr (strings b) name (str "pl011");
  po_literal : cstr (strings b) pl011_literal (str "pl011");
  po_once : heap_once b = ONCE_INITIALIZER;
  po_arena : arena_ok __heap_start ZHYPER_HEAP_SIZE (hmem (theap (board b)));
  po_gic_once : gicd_init_once (tgic (board b)) = ONCE_INITIALIZER;
  po_gicr : gicrs (tgic (board b)) !! 0 = Some g0;
  po_gicr_id : r_cpu_id g0 = 0;
  po_ppi : irqs (tgic (board b)) !! PpiCtx 0 (PPI_TIMER_INTID_EL2 - 16) = Some c0;
  po_manager : exists mm, managers (board b) !! s_timer_manager = Some mm;
  po_manager_list : is_Some (tlinks (board b) !! (s_timer_manager + off_timer_list));
  po_no_timers : objs (board b) = ∅;
  po_manager_nonnull : s_timer_manager <> 0;
  po_manager_apart : s_timer_manager + off_timer_list < __heap_start \/
                     __heap_start + ZHYPER_HEAP_SIZE <= s_timer_manager + off_timer_list;
  po_cpu : on_this_cpu (D:=D) 0;
  po_hz : 0 < HZ;
  po_gicd_answers : gicd_settles (D:=D) GICD_BASE;
  po_gicr_answers : gicr_settles (D:=D) (frame_base 0);
  po_gicr_wakes : wakes (D:=D) (frame_base 0) }.

(** The timer of platform_init. *)
Definition first_timer : Z := __heap_start + 16.
Definition boot_timer : zhyper_timer :=
  {| interval_ms := 1000; is_periodic := 1; is_active := 1; callback := test_timer_cb_code; t_arg := 0; private := 0 |}.

(** The state the idle loop is entered in. *)
Record booted (c0 : irq_context) (t : timers D app) (u : app) : Prop := {
  bt_ok : timers_ok __heap_start ZHYPER_HEAP_SIZE (s_timer_manager + off_timer_list)
            {[first_timer := sizeof_zhyper_timer]} t [first_timer + off_list];
  bt_objs : objs t = {[first_timer := boot_timer]};
  bt_irq : irqs (tgic t) !! PpiCtx 0 (PPI_TIMER_INTID_EL2 - 16) =
             Some (timer_context s_timer_manager (ppi_context_of PPI_TIMER_INTID_EL2 c0));
  bt_user : user t = u }.

(** The timer set up, and the first timer created and started. *)
Lemma timer_stage (s : timers D app) g c0 mm interval :
  on_this_cpu (D:=D) 0 -> driver_ready 0 (tgic s) g ->
  irqs (tgic s) !! PpiCtx 0 (PPI_TIMER_INTID_EL2 - 16) = Some c0 ->
  s_timer_manager <> 0 -> managers s !! s_timer_manager = Some mm ->
  is_Some (tlinks s !! (s_timer_manager + off_timer_list)) -> objs s = ∅ ->
  client_inv __heap_start ZHYPER_HEAP_SIZE (Client (theap s) ∅) ->
  (s_timer_manager + off_timer_list < __heap_start \/ __heap_start + ZHYPER_HEAP_SIZE <= s_timer_manager + off_timer_list) ->
  first_timer <> 0 ->
  exists cntfrq s1 s2 s3 l le v,
    runs (plat_timer_init interval) s tt s1 l /\ EMrs "CNTFRQ_EL0" cntfrq ∈ l /\
    runs (create_timer_periodic 1000 test_timer_cb_code 0) s1 first_timer s2 [] /\
    runs (start_timer first_timer 0) s2 0 s3 [EMrs "MPIDR_EL1" v] /\
    effects l = effects le ++ [EMsr "CNTHP_TVAL_EL2" (u64 (cntfrq / 1000 * u32 interval)); EMsr "CNTHP_CTL_EL2" 1] /\
    enable_writes (tgic s) g (PpiCtx 0 (PPI_TIMER_INTID_EL2 - 16))
      (timer_context s_timer_manager (ppi_context_of PPI_TIMER_INTID_EL2 c0)) le /\
    booted c0 s3 (user s) /\ exists t, managers s3 !! s_timer_manager = Some {| nr_timers := 1; last_tick := t |}.
Proof.
  intros Hcpu Hr Hc Hm Hmm Hl Ho Hh Ha Hp.
  assert (Hmgr : this_manager 0 = s_timer_manager) by (unfold this_manager; lia).
  rewrite <- Hmgr in Hm, Hmm, Hl.
  destruct (runs_plat_timer_init 0 Hcpu s g c0 mm interval Hr Hc Hm Hmm Hl) as (f & s1 & l & le & R1 & Hf & E1 & W & Su).
  rewrite Hmgr in *. destruct Su as [Sh So Sn Sc [t Sm] Sl Si].
  assert (Hok1 : timers_ok __heap_start ZHYPER_HEAP_SIZE (s_timer_manager + off_timer_list) ∅ s1 []).
  { split; [by rewrite Sh|done| | |done]; intros x Hx; by apply elem_of_nil in Hx. }
  destruct (create_run _ _ _ _ s1 [] 1 1000 test_timer_cb_code 0 Hok1) as (p & s2 & E2 & _ & Hok2 & Ho2 & Hl2 & (Hg2 & Hm2 & _) & Hu2).
  pose proof (create_first _ _ _ s1 1 1000 test_timer_cb_code 0 Hok1 ltac:(unfold ZHYPER_HEAP_SIZE; lia)) as Hret.
  unfold returned in Hret. rewrite E2 in Hret. apply (inj Some) in Hret. fold first_timer in Hret. subst p.
  rewrite (proj2 (Z.eqb_neq first_timer 0) Hp) in Hok2, Ho2. destruct (Hl2 Hp) as [Hlk Hhd].
  assert (R2 : runs (create_timer_periodic 1000 test_timer_cb_code 0) s1 first_timer s2 []).
  { split; [exact E2|]. rewrite app_nil_r. unfold trace_of, timers_traced. by rewrite Hg2. }
  destruct (runs_start_here 0 Hcpu s2 __heap_start ZHYPER_HEAP_SIZE (<[first_timer := sizeof_zhyper_timer]> ∅) [] first_timer
      {| interval_ms := 1000; is_periodic := 1; is_active := 0; callback := test_timer_cb_code; t_arg := 0; private := 0 |}
      {| nr_timers := 0; last_tick := t |}) as (v & s3 & R3 & Hok3 & Ho3 & Hm3 & Hu3 & Sg3); rewrite ?Hmgr; try done.
  { rewrite Ho2. apply lookup_insert_eq. }
  { rewrite Hm2, Sm. apply lookup_insert_eq. }
  { apply lookup_insert_eq. }
  { apply not_elem_of_cons. split; [congruence|apply not_elem_of_nil]. }
  rewrite Hmgr in *. exists f, s1, s2, s3, l, le, v. do 6 (split; [done|]). split.
  - split; [done| | |].
    + by rewrite Ho3, Ho2, So, Ho, insert_insert_eq.
    + rewrite (same_irqs _ _ Sg3), Hg2, Si. apply lookup_insert_eq.
    + by rewrite Hu3, Hu2, Sn.
  - exists t. rewrite Hm3. apply lookup_insert_eq.
Qed.

(** Up to the first line printed: vectors, console and heap. *)
Lemma boot_front fuel (b : boot D) name ops g0 c0 :
  powered_on b name ops g0 c0 -> (5 <= fuel)%nat ->
  exists b1 b2 b3 b4 t,
    runs el2_exception_init b tt b1 [EMsr "VBAR_EL2" (u64 hyper_vector); EBarrier "isb"] /\
    runs (on_console (find_console fuel pl011_literal)) b1 (Some O) b1 [] /\
    runs (on_console (console_init (Some O))) b1 0 b2 pl011_setup /\
    runs (run_once heap_once set_heap_once __miniheap_init) b2 0 b3 [] /\
    runs (print (ln "Platform initialization started") []) b3 tt b4 (EPutc <$> t) /\
    client_inv __heap_start ZHYPER_HEAP_SIZE (Client (theap (board b4)) ∅) /\
    same_state (tgic (board b)) (tgic (board b4)) /\ tlinks (board b4) = tlinks (board b) /\
    objs (board b4) = objs (board b) /\ managers (board b4) = managers (board b) /\ user (board b4) = user (board b) /\
    registry b4 = set_enabled true <$> program_consoles name ops /\ uart_base b4 = PL011_BASE_ADDR /\
    flag (heap_once b4) = 1.
Proof.
  intros [] Hf.
  destruct (runs_exception_init b) as (b1 & R1 & S1 & O1 & T1 & G1 & _).
  destruct (boot_console_run fuel name ops b1) as (R1' & b2 & R2 & S2 & O2 & G2 & U2); rewrite ?G1, ?T1; [done..|].
  assert (S : same_timers (board b) (board b2)) by by etrans. clear S1 S2. destruct S as (Sg & Sh & Sk & So & Sm & Sc & Su).
  rewrite <- Sh in po_arena0. rewrite <- O1, <- O2 in po_once0.
  destruct (boot_heap_run b2 po_once0 po_arena0) as (b3 & h & R3 & E3 & Hh & Hfl & G3 & U3).
  destruct (runs_print (ln "Platform initialization started") [] b3 eq_refl) as (b4 & t4 & R4 & S4 & O4 & _ & G4 & U4).
  rewrite E3 in S4. destruct S4 as (Sg4 & Sh4 & Sk4 & So4 & Sm4 & Sc4 & Su4). cbn in Sg4, Sh4, Sk4, So4, Sm4, Sc4, Su4.
  exists b1, b2, b3, b4, t4. do 5 (split; [done|]). rewrite Sh4, Sk4, So4, Sm4, Su4, G4, U4, O4, G3, U3.
  split; [done|]. split; [by etrans|done].
Qed.

(** The register writes of the boot, given the values read: HCR_EL2, the distributor's TYPER, the
    WAKER and ICC_CTLR, and the timer frequency. [le] are the events of the enabling of the timer
    interrupt. *)
Definition boot_writes (hcr typer waker ctlr cntfrq : Z) (le : list event) : list event :=
  [EMsr "VBAR_EL2" (u64 hyper_vector)] ++ pl011_setup ++
  distributor_writes hcr typer ++ gicr_writes 0 waker ++ icc_writes ctlr ++ effects le ++
  [EMsr "CNTHP_TVAL_EL2" (u64 (cntfrq / 1000 * u32 (1000 / HZ))); EMsr "CNTHP_CTL_EL2" 1].

Lemma boot_run fuel (b : boot D) name ops g0 c0 :
  powered_on b name ops g0 c0 -> (5 <= fuel)%nat ->
  exists hcr typer ty waker ctlr cntfrq le b' l,
    halts (platform_init fuel) b Hang b' l /\
    effects l = boot_writes hcr typer waker ctlr cntfrq le /\
    enable_writes (tgic (board b)) (gicr_attributes 0 ty g0) (PpiCtx 0 (PPI_TIMER_INTID_EL2 - 16))
      (timer_context s_timer_manager (ppi_context_of PPI_TIMER_INTID_EL2 c0)) le /\
    booted c0 (board b') (user (board b)) /\
    (exists t, managers (board b') !! s_timer_manager = Some {| nr_timers := 1; last_tick := t |}) /\
    registry b' = set_enabled true <$> program_consoles name ops /\ uart_base b' = PL011_BASE_ADDR /\
    flag (heap_once b') = 1.
Proof.
  intros Hpo Hf. destruct (boot_front fuel b name ops g0 c0 Hpo Hf)
    as (b1 & b2 & b3 & b4 & t4 & R1 & R1' & R2 & R3 & R4 & Hh & Sgic & Sk & So & Sm & Su & G4 & U4 & O4).
  destruct Hpo. destruct po_manager0 as [mm Hmm].
  pose proof Sgic as (Dd & Dr & Di & Do).
  rewrite <- Dr in po_gicr0. rewrite <- Di in po_ppi0. rewrite <- Do in po_gic_once0.
  rewrite <- po_gicr_id0 in po_gicr_answers0, po_gicr_wakes0.
  destruct (runs_plat_gicv3 0 po_cpu0 (tgic (board b4)) g0 0 po_gicr0 po_gicd_answers0 po_gicr_answers0 po_gicr_wakes0
    ltac:(lia)) as (hcr & typer & ty & waker & ctlr & g5 & l5 & R5 & E5 & _ & Hi5 & Hr5 & Hb5); [by rewrite po_gic_once0|].
  rewrite po_gic_once0 in E5, Hb5. specialize (Hb5 eq_refl). rewrite po_gicr_id0 in *.
  apply (runs_on_gic _ (board b4)), runs_on_board in R5. set (s5 := set_tgic (board b4) g5) in *.
  assert (Hr : driver_ready 0 (tgic s5) (gicr_attributes 0 ty g0)).
  { split; [cbn; rewrite Hr5; apply lookup_insert_eq|apply frame_base_nonzero|done|..]; change (tgic s5) with g5; by rewrite Hb5. }
  destruct (timer_stage s5 (gicr_attributes 0 ty g0) c0 mm (1000 / HZ) po_cpu0 Hr)
    as (f & s6 & s7 & s8 & l6 & le & v & R6 & Hf6 & R7 & R8 & E6 & W & B & Hmgr); cbn [set_tgic tgic managers tlinks objs theap s5]; try done.
  { by rewrite Hi5. } { by rewrite Sm. } { by rewrite Sk. } { by rewrite So. }
  { destruct po_arena0. unfold first_timer. lia. }
  apply (runs_on_board _ (set_board b4 s5)) in R6. apply (runs_on_board _ (set_board b4 s6)) in R7.
  apply (runs_on_board _ (set_board b4 s7)) in R8. set (b8 := set_board b4 s8) in *.
  destruct (runs_current_el b8) as (el & vel & b9 & R9 & S9).
  destruct (runs_print (ln "software EL: %d") [el] b9 eq_refl) as (b10 & t10 & R10 & S10).
  destruct (runs_print (ln "Platform initialized") [] b10 eq_refl) as (b11 & t11 & R11 & S11).
  assert (Send : same_boot b8 b11) by (etrans; [exact S9|]; by etrans). clear S9 S10 S11.
  destruct Send as (St & Oe & _ & Ge & Ue).
  exists hcr, typer, ty, waker, ctlr, f, le, b11. eexists. split.
  { unfold platform_init.
    halt_one R1. halt_one R1'. cbn iota. eapply halts_bind; [chain_one R2; apply runs_ret|cbn beta].
    halt_one R3. halt_one R4. halt_one R5. halt_one R6. halt_one R7. halt_one R8. halt_one R9. halt_one R10. halt_one R11.
    apply halts_stop. }
  split.
  { rewrite !effects_app, !effects_putc, E5, E6. unfold boot_writes. rewrite <- !app_assoc. reflexivity. }
  split; [exact W|]. pose proof St as (Tg & Th & Tk & To & Tm & _ & Tu). split.
  - destruct B as [Bo Bt Bi Bu]. split.
    + eapply timers_ok_same; [exact St|exact Bo].
    + rewrite To. exact Bt.
    + rewrite (same_irqs _ _ Tg). exact Bi.
    + rewrite Tu. cbn [board b8 set_board]. rewrite Bu. cbn. by rewrite Su.
  - rewrite Tm. split; [exact Hmgr|]. rewrite Ge, Ue, Oe. done.
Qed.

(** * The interrupts of the idle loop *)

Context `{IrqHandlers D app}.

Definition tick_line (n : Z) : text :=
  shown (lits "Timer callback invoked! Counter: " ++ [Num false false 0 CvD n] ++ nl).

(** Printing leaves the counter alone. *)
Definition app_output_at (n : Z) : Output app.
Proof.
  refine {| putchar := putchar (S:=app); out := said; sent := fun c => c; ready := fun u => s_count u = n |}.
  intros c u Hu. by eexists.
Defined.

Lemma vprintf_at n fmt ap (u : app) : @vprintf app (app_output_at n) fmt ap u = vprintf fmt ap u.
Proof. reflexivity. Qed.

Lemma tick_format : concat (item_format <$> lits "Timer callback invoked! Counter: " ++ [Num false false 0 CvD 0] ++ nl) =
  str (ln "Timer callback invoked! Counter: %d").
Proof. vm_compute. reflexivity. Qed.

Lemma test_timer_cb_run timer arg n t : 0 <= n < INT_MAX ->
  test_timer_cb timer arg (App n t) = Ok tt (App (n + 1) (t ++ tick_line (n + 1))).
Proof.
  intros Hn. unfold test_timer_cb. rewrite bind_gets. cbn [s_count].
  rewrite (proj2 (Z.eqb_neq _ _)) by lia. rewrite bind_modify. cbn [said].
  destruct (@vprintf_emits app (app_output_at (n + 1)) (lits "Timer callback invoked! Counter: " ++ [Num false false 0 CvD (n + 1)] ++ nl)
    (App (n + 1) t)) as ([n' t'] & E & Hr & Hout); [by apply valid_b_spec|done|].
  rewrite vprintf_at in E. change (concat (item_format <$> _)) with (concat (item_format <$> lits "Timer callback invoked! Counter: " ++ [Num false false 0 CvD 0] ++ nl)) in E.
  rewrite tick_format in E. change (concat (item_args <$> _)) with [AInt (n + 1)] in E.
  cbn [out sent ready app_output_at said s_count] in Hout, Hr. rewrite list_fmap_id in Hout. subst n' t'.
  unfold printf. rewrite bind_assoc. by mstep E.
Qed.

(** One timer interrupt keeps the state: the callback runs once, the timer is armed again. *)
Lemma booted_tick fuel c0 (t : timers D app) n txt :
  on_this_cpu (D:=D) 0 -> timer_irq_handler_code <> 0 -> test_timer_cb_code <> 0 -> s_timer_manager <> 0 -> (1 <= fuel)%nat ->
  booted c0 t (App n txt) -> acknowledged t = PPI_TIMER_INTID_EL2 -> 0 <= n < INT_MAX ->
  exists cntfrq t' l, runs (el2_irq fuel) t 0 t' l /\ effects l = tick_writes cntfrq /\
    booted c0 t' (App (n + 1) (txt ++ tick_line (n + 1))).
Proof.
  intros Hcpu Hh Hcb Hm Hf [Bo Bt Bi Bu] Hack Hn.
  set (c := timer_context s_timer_manager (ppi_context_of PPI_TIMER_INTID_EL2 c0)) in *.
  assert (Hc : intid c = PPI_TIMER_INTID_EL2 /\ ops c = Some g_ppi_intr_ops).
  { subst c. unfold ppi_context_of. by destruct (decide _) as [[Hi Ho]|]. }
  destruct Hc as [Hid Hops].
  assert (Hx : timer_of (objs t) (first_timer + off_list) = Some boot_timer).
  { unfold timer_of. rewrite Bt. replace (first_timer + off_list - off_list) with first_timer by lia. apply lookup_singleton_eq. }
  assert (Hcalls : run_calls (calls (objs t) [first_timer + off_list]) (user t) = Ok tt (App (n + 1) (txt ++ tick_line (n + 1)))).
  { assert (Hlist : calls (objs t) [first_timer + off_list] = [(test_timer_cb_code, first_timer, 0)]).
    { unfold calls. cbn [mbind list_bind]. unfold calls_of, call_of. rewrite Hx. cbn [is_active callback t_arg boot_timer].
      unfold truth. rewrite (proj2 (Z.eqb_neq _ _) Hcb). cbn [negb Z.eqb andb]. replace (first_timer + off_list - off_list) with first_timer by lia. reflexivity. }
    rewrite Hlist, Bu. cbn [run_calls].
    assert (Hi : invoke test_timer_cb_code first_timer 0 = test_timer_cb first_timer 0)
      by (unfold invoke, boot_callbacks; by rewrite Z.eqb_refl).
    rewrite Hi. by mstep (test_timer_cb_run first_timer 0 n txt Hn). }
  destruct (irq_timer_run 0 Hcpu t __heap_start ZHYPER_HEAP_SIZE _ [first_timer + off_list] _ fuel c Hack Bi Hid Hops eq_refl Hh Hm Bo
    Hcalls Hf) as (f & t' & l & R & E & Hok & Ho & Hu & _ & Sg & _).
  exists f, t', l. split; [done|]. split; [done|].
  assert (He : expires (objs t) (first_timer + off_list) = false) by (unfold expires; by rewrite Hx).
  assert (Hk : kept (objs t) [first_timer + off_list] = [first_timer + off_list]) by (unfold kept; cbn [filter list_filter]; by rewrite decide_True).
  assert (Hg : gone (objs t) [first_timer + off_list] = []) by (unfold gone; cbn [filter list_filter]; rewrite decide_False; [done|by rewrite He]).
  unfold without in Hok, Ho. rewrite Hg in Hok, Ho. rewrite Hk in Hok. cbn [foldr] in Hok, Ho.
  split; [done|by rewrite Ho|by rewrite (same_irqs _ _ Sg)|done].
Qed.

(** Interrupt after interrupt. *)
Lemma booted_ticks fuel c0 k : forall (t : timers D app) n txt,
  on_this_cpu (D:=D) 0 -> timer_irq_handler_code <> 0 -> test_timer_cb_code <> 0 -> s_timer_manager <> 0 -> (1 <= fuel)%nat ->
  (forall t : timers D app, acknowledged t = PPI_TIMER_INTID_EL2) ->
  booted c0 t (App n txt) -> 0 <= n -> n + Z.of_nat k <= INT_MAX ->
  exists freqs t' l, runs (interrupts fuel k) t tt t' l /\ length freqs = k /\ effects l = freqs ≫= tick_writes /\
    booted c0 t' (App (n + Z.of_nat k) (txt ++ concat (tick_line <$> seqZ (n + 1) (Z.of_nat k)))).
Proof.
  induction k as [|k IH]; intros t n txt Hcpu Hh Hcb Hm Hf Hack B Hn Hmax.
  - exists [], t, []. split; [apply runs_ret|]. split; [done|]. split; [done|]. rewrite Z.add_0_r, app_nil_r. exact B.
  - destruct (booted_tick fuel c0 t n txt Hcpu Hh Hcb Hm Hf B (Hack t) ltac:(lia)) as (f & t1 & l1 & R1 & E1 & B1).
    destruct (IH t1 (n + 1) _ Hcpu Hh Hcb Hm Hf Hack B1 ltac:(lia) ltac:(lia)) as (fs & t2 & l2 & R2 & Hl & E2 & B2).
    exists (f :: fs), t2. eexists. split; [cbn [interrupts]; chain (R1, R2)|]. split; [cbn; by rewrite Hl|].
    split; [by rewrite effects_app, E1, E2|].
    rewrite (seqZ_cons (n + 1)) by lia. cbn [fmap list_fmap concat].
    rewrite app_assoc. replace (n + Z.of_nat (S k)) with (n + 1 + Z.of_nat k) by lia.
    replace (Z.pred (Z.of_nat (S k))) with (Z.of_nat k) by lia. replace (Z.succ (n + 1)) with (n + 1 + 1) by lia. exact B2.
Qed.
End Boot.
