(* ===== verification/BootTheorems.v ===== *)
(** The properties of the boot, each with a concrete instance. *)
From Stdlib Require Import ZArith Lia.
From stdpp Require Import base gmap list strings.
From S2P Require Import Prelude Mem HeapSpec Miniheap HeapProof HeapClient CStringProof Printf PrintfProof Io IoProof.
From S2P Require Import Spinlock GicRegs Gic GicIntr GicProof GicIntrProof GicOpsProof GicInitProof.
From S2P Require Import HostProof CList Console ConsoleProof ConsoleTheorems Timer TimerProof TimerTheorems Exception IrqProof Boot BootProof.

Open Scope Z_scope.

(** * A concrete machine

    The clock of TimerTheorems with the heap at 1 MiB, the two strings of the console at 0 and
    16, and everything else as the linker leaves it. *)
#[local] Instance board_layout : BootLayout :=
  {| hyper_vector := 0x80000; pl011_literal := 16; __heap_start := 0x100000; test_timer_cb_code := 0x2000 |}.
#[local] Instance board_handlers : IrqHandlers clock app := fun h _ => stop_with (Fault h).

Definition board_gicr : gicr_context := gicr_context_zero.

Definition board_timers : timers clock app :=
  {| tgic := {| gio := {| dev := Clock; trace := [] |}; gicd := gicd_context_zero; gicrs := {[0 := board_gicr]};
                irqs := {[PpiCtx 0 10 := irq_context_zero]}; gicd_init_once := ONCE_INITIALIZER |};
     theap := HeapState (Miniheap 0 0 0 0 0) (zeros 0x100000 (Z.to_nat ZHYPER_HEAP_SIZE));
     tlinks := {[80 := {| prev := 0; next := 0 |}]}; objs := ∅;
     managers := {[64 := {| nr_timers := 0; last_tick := 0 |}]}; g_counter := 0; user := App 0 [] |}.

Definition board_start : boot clock := Boot board_timers name_mem (program_consoles 0 0x1000) 0 ONCE_INITIALIZER.

Lemma board_powered : powered_on board_start 0 0x1000 board_gicr irq_context_zero.
Proof.
  split.
  6: { split; [cbn; lia|unfold ZHYPER_HEAP_SIZE; cbn; lia|unfold ZHYPER_HEAP_SIZE; lia|].
       pose proof (zeros_mapped 0x100000 (Z.to_nat ZHYPER_HEAP_SIZE)) as Hz. rewrite Z2Nat.id in Hz by (unfold ZHYPER_HEAP_SIZE; lia). exact Hz. }
  all: try reflexivity.
  - done.
  - change (cstr name_mem 0 (str "pl011")). by vm_compute.
  - change (cstr name_mem 16 (str "pl011")). by vm_compute.
  - eexists. reflexivity.
  - eexists. reflexivity.
  - done.
  - left. cbn. unfold off_timer_list. lia.
  - split; [cbn; lia|done].
  - intros d. by left.
  - intros d. by left.
  - intros d. by left.
Qed.

Example first_tick_line : tick_line 1 = str (ln "Timer callback invoked! Counter: 1").
Proof. vm_compute. reflexivity. Qed.

(** * Properties *)

(** C11: the boot, from platform_init to its idle loop. On hardware that answers, platform_init
    reaches the idle loop (and so never panics, faults or spins on the way), having written
    exactly these registers in this order: the vector base, the UART set-up, the distributor
    with interrupts unmasked first, this CPU's redistributor and CPU interface, the timer
    interrupt disabled, configured and enabled, and the timer itself last, with the interval
    that the frequency register and HZ give. It leaves one console, enabled, at its base
    address, the heap initialised once and holding one block, and on the timer list of CPU 0 the
    one periodic timer of the program, active and counted. *)
Theorem platform_boots {D} `{Hardware D} `{Config} `{TimerLayout} `{BootLayout} fuel (b : boot D) name ops g0 c0 :
  powered_on b name ops g0 c0 -> (5 <= fuel)%nat ->
  exists hcr typer ty waker ctlr cntfrq le b' l,
    halts (platform_init fuel) b Hang b' l /\
    effects l = boot_writes hcr typer waker ctlr cntfrq le /\
    enable_writes (tgic (board b)) (gicr_attributes 0 ty g0) (PpiCtx 0 (PPI_TIMER_INTID_EL2 - 16))
      (timer_context s_timer_manager (ppi_context_of PPI_TIMER_INTID_EL2 c0)) le /\
    booted c0 (board b') (user (board b)) /\
    (exists t, managers (board b') !! s_timer_manager = Some {| nr_timers := 1; last_tick := t |}) /\
    registry b' = set_enabled true <$> program_consoles name ops /\ uart_base b' = PL011_BASE_ADDR /\
    flag (heap_once b') = 1.
Proof. apply boot_run. Qed.

Lemma platform_boots_witness :
  exists hcr typer ty waker ctlr cntfrq le b' l,
    halts (platform_init 5) board_start Hang b' l /\
    effects l = boot_writes hcr typer waker ctlr cntfrq le /\
    enable_writes (tgic (board board_start)) (gicr_attributes 0 ty board_gicr) (PpiCtx 0 (PPI_TIMER_INTID_EL2 - 16))
      (timer_context s_timer_manager (ppi_context_of PPI_TIMER_INTID_EL2 irq_context_zero)) le /\
    booted irq_context_zero (board b') (user (board board_start)) /\
    (exists t, managers (board b') !! s_timer_manager = Some {| nr_timers := 1; last_tick := t |}) /\
    registry b' = set_enabled true <$> program_consoles 0 0x1000 /\ uart_base b' = PL011_BASE_ADDR /\
    flag (heap_once b') = 1.
Proof. apply (platform_boots 5 board_start 0 0x1000 board_gicr irq_context_zero board_powered). lia. Defined.

(** C2: the program after its boot. In the idle loop that platform_init ends in, every timer
    interrupt runs the callback exactly once: after [k] interrupts it has printed the lines of
    the counts 1 to [k], in order, every interrupt has stopped the timer, armed it again and
    been ended last, and the heap, the timer and its list are as well formed as before, so that
    this goes on until the counter would overflow an int. *)
Theorem boot_then_ticks {D} `{Hardware D} `{Config} `{TimerLayout} `{BootLayout} `{IrqHandlers D app}
    fuel cycles (b : boot D) name ops g0 c0 k :
  powered_on b name ops g0 c0 -> (5 <= fuel)%nat -> (1 <= cycles)%nat ->
  timer_irq_handler_code <> 0 -> test_timer_cb_code <> 0 ->
  (forall t : timers D app, acknowledged t = PPI_TIMER_INTID_EL2) ->
  user (board b) = App 0 [] -> Z.of_nat k <= INT_MAX ->
  exists b' l freqs t' l',
    halts (platform_init fuel) b Hang b' l /\ runs (interrupts cycles k) (board b') tt t' l' /\
    user t' = App (Z.of_nat k) (concat (tick_line <$> seqZ 1 (Z.of_nat k))) /\
    length freqs = k /\ effects l' = freqs ≫= tick_writes /\
    timers_ok __heap_start ZHYPER_HEAP_SIZE (s_timer_manager + off_timer_list)
      {[first_timer := sizeof_zhyper_timer]} t' [first_timer + off_list].
Proof.
  intros Hpo Hf Hc Hh Hcb Hack Hu Hk.
  destruct (boot_run fuel b name ops g0 c0 Hpo Hf) as (? & ? & ? & ? & ? & ? & ? & b' & l & R & _ & _ & B & _).
  rewrite Hu in B.
  destruct (booted_ticks cycles c0 k (board b') 0 [] (po_cpu _ _ _ _ _ Hpo) Hh Hcb (po_manager_nonnull _ _ _ _ _ Hpo) Hc Hack B
    ltac:(lia) ltac:(lia)) as (fs & t' & l' & R' & Hl & E' & [Hok _ _ Hu']).
  by exists b', l, fs, t', l'.
Qed.

Lemma boot_then_ticks_witness :
  exists b' l freqs t' l',
    halts (platform_init 5) board_start Hang b' l /\ runs (interrupts 1 3) (board b') tt t' l' /\
    user t' = App (Z.of_nat 3) (concat (tick_line <$> seqZ 1 (Z.of_nat 3))) /\
    length freqs = 3%nat /\ effects l' = freqs ≫= tick_writes /\
    timers_ok __heap_start ZHYPER_HEAP_SIZE (s_timer_manager + off_timer_list)
      {[first_timer := sizeof_zhyper_timer]} t' [first_timer + off_list].
Proof.
  apply (boot_then_ticks 5 1 board_start 0 0x1000 board_gicr irq_context_zero 3 board_powered);
    [lia|lia|done|done|reflexivity|reflexivity|vm_compute; discriminate].
Defined.
