(* ===== verification/Vcpu.v ===== *)
(** Virtual CPUs: platform/aarch64/vcpu/vcpu.c and include/sched/vcpu.h.

    Structures are objects keyed by address, their embedded [struct list_head] members are
    objects of the link store at the member's address. *)
From Stdlib Require Import ZArith Lia.
From stdpp Require Import base gmap list strings.
From S2P Require Import Prelude CList.

Open Scope Z_scope.

Inductive vcpu_state :=
  | VCPU_STATE_OFFLINE
  | VCPU_STATE_RUNNING
  | VCPU_STATE_SUSPENDED
  | VCPU_STATE_READY
  | VCPU_STATE_HALTED.

#[global] Instance vcpu_state_eq_dec : EqDecision vcpu_state.
Proof. solve_decision. Defined.

(** [aarch64_gpregs_t] of aarch64_utils.h; [x] has 31 entries. *)
Record gpregs := { x : list Z; sp : Z; pc : Z; pstate : Z }.

Definition gpregs_zero : gpregs := {| x := replicate 31 0; sp := 0; pc := 0; pstate := 0 |}.

Record sysregs_el1 := {
  elr_el1 : Z; spsr_el1 : Z; mpidr_el1 : Z; midr_el1 : Z; sp_el1 : Z; sp_el0 : Z;
  ttbr0_el1 : Z; ttbr1_el1 : Z; tcr_el1 : Z; vbar_el1 : Z; sctlr_el1 : Z }.

Definition sysregs_zero : sysregs_el1 :=
  {| elr_el1 := 0; spsr_el1 := 0; mpidr_el1 := 0; midr_el1 := 0; sp_el1 := 0; sp_el0 := 0;
     ttbr0_el1 := 0; ttbr1_el1 := 0; tcr_el1 := 0; vbar_el1 := 0; sctlr_el1 := 0 |}.

(** [struct gic_lrs]: bit fields of 33 bits, so that [hw] begins a second word. *)
Record gic_lrs := {
  vIntid : Z; pIntid : Z; res0 : Z; lr_priority : Z; lr_state : Z; lr_group : Z; lr_hw : Z }.

Definition lrs_zero : gic_lrs :=
  {| vIntid := 0; pIntid := 0; res0 := 0; lr_priority := 0; lr_state := 0; lr_group := 0;
     lr_hw := 0 |}.

(** The members of [struct vcpu] other than its list heads. *)
Record vcpu := {
  id : Z; state : vcpu_state; lrs : list gic_lrs; vgpregs : gpregs;
  vsysregs_el1 : sysregs_el1; vpcpu : Z }.

Definition vcpu_zero : vcpu :=
  {| id := 0; state := VCPU_STATE_OFFLINE; lrs := replicate 16 lrs_zero;
     vgpregs := gpregs_zero; vsysregs_el1 := sysregs_zero; vpcpu := NULL |}.

(** Member offsets: [id] and [state] take 8 bytes, two list heads 32, the list registers 16 * 8
    (their 33 bits do not fit one word), [gpregs] 34 * 8, [sysregs_el1] 11 * 8. *)
Definition off_irq_list : Z := 8.
Definition off_preempt_list : Z := 24.
Definition off_node : Z := 40 + 16 * 8 + 34 * 8 + 11 * 8.

Record pcpu := { pid : Z; current_vcpu : Z }.
Definition off_ready_vcpus : Z := 8.
Definition off_suspend_vcpus : Z := 24.

(** The machine state the scheduler works on: the structures, the links, the trap frames
    the [gpregs] arguments point to, and the EL1 system registers of this CPU. *)
Record world := {
  vcpus : gmap Z vcpu; pcpus : gmap Z pcpu; lnk : links; frames : gmap Z gpregs;
  sys : sysregs_el1 }.

Definition set_vcpus f w := {| vcpus := f (vcpus w); pcpus := pcpus w; lnk := lnk w; frames := frames w; sys := sys w |}.
Definition set_pcpus f w := {| vcpus := vcpus w; pcpus := f (pcpus w); lnk := lnk w; frames := frames w; sys := sys w |}.
Definition set_lnk w l := {| vcpus := vcpus w; pcpus := pcpus w; lnk := l; frames := frames w; sys := sys w |}.
Definition set_frames f w := {| vcpus := vcpus w; pcpus := pcpus w; lnk := lnk w; frames := f (frames w); sys := sys w |}.
Definition set_sys w r := {| vcpus := vcpus w; pcpus := pcpus w; lnk := lnk w; frames := frames w; sys := r |}.

Definition lists {A} (m : M links A) : M world A := zoom lnk set_lnk m.

(** The object at an address, or a fault. *)
Definition fetch {A} (view : world -> gmap Z A) (p : Z) : M world A := fun w =>
  match view w !! p with Some o => Ok o w | None => Stop (Fault p) w end.

Definition put_vcpu (v : Z) (o : vcpu) : M world unit := modify (set_vcpus <[v := o]>).

Definition set_state (v : Z) (st : vcpu_state) : M world unit :=
  o ← fetch vcpus v;
  put_vcpu v {| id := id o; state := st; lrs := lrs o; vgpregs := vgpregs o;
                vsysregs_el1 := vsysregs_el1 o; vpcpu := vpcpu o |}.

Definition set_current (p v : Z) : M world unit :=
  o ← fetch pcpus p; modify (set_pcpus <[p := {| pid := pid o; current_vcpu := v |}]>).

(** memset of the structure: the list heads become NULL pointers as well. *)
Definition clear_node (a : Z) : M world unit := lists (set_prev a NULL ;; set_next a NULL).

Definition vcpu_init (pcpu v vid : Z) : M world unit :=
  _ ← fetch vcpus v;
  put_vcpu v vcpu_zero ;;
  clear_node (v + off_irq_list) ;; clear_node (v + off_preempt_list) ;;
  clear_node (v + off_node) ;;
  put_vcpu v {| id := u32 vid; state := VCPU_STATE_OFFLINE; lrs := replicate 16 lrs_zero;
                vgpregs := gpregs_zero; vsysregs_el1 := sysregs_zero; vpcpu := pcpu |} ;;
  lists (list_init (v + off_irq_list)) ;;
  lists (list_init (v + off_preempt_list)) ;;
  lists (list_init (v + off_node)).

Definition vcpu_save_context (v gp : Z) : M world unit :=
  o ← fetch vcpus v;
  g ← fetch frames gp;
  r ← gets sys;
  put_vcpu v {| id := id o; state := VCPU_STATE_READY; lrs := lrs o; vgpregs := g;
                vsysregs_el1 := r; vpcpu := vpcpu o |}.

(** The system registers vcpu_restore_context writes. *)
Inductive el1_reg :=
  | ELR_EL1 | SPSR_EL1 | MPIDR_EL1 | MIDR_EL1 | SP_EL1 | SP_EL0
  | TTBR0_EL1 | TTBR1_EL1 | TCR_EL1 | VBAR_EL1 | SCTLR_EL1.

(** The identification registers have no [msr]: the processor takes it for an undefined
    instruction, at EL2 as at every other level. *)
Definition read_only (r : el1_reg) : bool :=
  match r with MPIDR_EL1 | MIDR_EL1 => true | _ => false end.

Definition set_el1 (r : el1_reg) (val : Z) (s : sysregs_el1) : sysregs_el1 :=
  let '(Build_sysregs_el1 elr spsr mpidr midr sp1 sp0 t0 t1 tcr vbar sctlr) := s in
  match r with
  | ELR_EL1 => Build_sysregs_el1 val spsr mpidr midr sp1 sp0 t0 t1 tcr vbar sctlr
  | SPSR_EL1 => Build_sysregs_el1 elr val mpidr midr sp1 sp0 t0 t1 tcr vbar sctlr
  | MPIDR_EL1 => Build_sysregs_el1 elr spsr val midr sp1 sp0 t0 t1 tcr vbar sctlr
  | MIDR_EL1 => Build_sysregs_el1 elr spsr mpidr val sp1 sp0 t0 t1 tcr vbar sctlr
  | SP_EL1 => Build_sysregs_el1 elr spsr mpidr midr val sp0 t0 t1 tcr vbar sctlr
  | SP_EL0 => Build_sysregs_el1 elr spsr mpidr midr sp1 val t0 t1 tcr vbar sctlr
  | TTBR0_EL1 => Build_sysregs_el1 elr spsr mpidr midr sp1 sp0 val t1 tcr vbar sctlr
  | TTBR1_EL1 => Build_sysregs_el1 elr spsr mpidr midr sp1 sp0 t0 val tcr vbar sctlr
  | TCR_EL1 => Build_sysregs_el1 elr spsr mpidr midr sp1 sp0 t0 t1 val vbar sctlr
  | VBAR_EL1 => Build_sysregs_el1 elr spsr mpidr midr sp1 sp0 t0 t1 tcr val sctlr
  | SCTLR_EL1 => Build_sysregs_el1 elr spsr mpidr midr sp1 sp0 t0 t1 tcr vbar val
  end.

Definition msr_read_only : stop := Trap "msr to a read-only register".

(** [write_sysreg] of one of them. *)
Definition write_el1 (r : el1_reg) (val : Z) : M world unit :=
  if read_only r then stop_with msr_read_only
  else modify (fun w => set_sys w (set_el1 r val (sys w))).

Definition vcpu_restore_context (v gp : Z) : M world unit :=
  set_state v VCPU_STATE_RUNNING ;;
  o ← fetch vcpus v;
  let regs := vsysregs_el1 o in
  write_el1 ELR_EL1 (elr_el1 regs) ;;
  write_el1 SPSR_EL1 (spsr_el1 regs) ;;
  write_el1 MPIDR_EL1 (mpidr_el1 regs) ;;
  write_el1 MIDR_EL1 (midr_el1 regs) ;;
  write_el1 SP_EL1 (sp_el1 regs) ;;
  write_el1 SP_EL0 (sp_el0 regs) ;;
  write_el1 TTBR0_EL1 (ttbr0_el1 regs) ;;
  write_el1 TTBR1_EL1 (ttbr1_el1 regs) ;;
  write_el1 TCR_EL1 (tcr_el1 regs) ;;
  write_el1 VBAR_EL1 (vbar_el1 regs) ;;
  write_el1 SCTLR_EL1 (sctlr_el1 regs) ;;
  _ ← fetch frames gp;
  modify (set_frames <[gp := vgpregs o]>).

Definition vcpu_start (v : Z) : M world unit :=
  o ← fetch vcpus v;
  if decide (state o <> VCPU_STATE_OFFLINE) then mret tt
  else set_state v VCPU_STATE_READY ;;
       lists (list_add_tail (v + off_node) (vpcpu o + off_ready_vcpus)).

Definition vcpu_suspend (v : Z) : M world unit :=
  o ← fetch vcpus v;
  if decide (state o <> VCPU_STATE_RUNNING) then mret tt
  else set_state v VCPU_STATE_SUSPENDED ;;
       lists (list_del (v + off_node)) ;;
       lists (list_add_tail (v + off_node) (vpcpu o + off_suspend_vcpus)).

Definition vcpu_resume (v : Z) : M world unit :=
  o ← fetch vcpus v;
  if decide (state o <> VCPU_STATE_SUSPENDED) then mret tt
  else set_state v VCPU_STATE_READY ;;
       lists (list_del (v + off_node)) ;;
       lists (list_add_tail (v + off_node) (vpcpu o + off_ready_vcpus)).

Definition vcpu_halt (v : Z) : M world unit :=
  o ← fetch vcpus v;
  if decide (state o <> VCPU_STATE_RUNNING) then mret tt
  else set_state v VCPU_STATE_HALTED ;; lists (list_del (v + off_node)).

(** The first half of pcpu_switch: the context of the current vCPU is saved. *)
Definition switch_out (p cur gp : Z) : M world unit :=
  vcpu_save_context cur gp ;;
  o ← fetch vcpus cur;
  when (bool_decide (state o = VCPU_STATE_RUNNING))
       (set_state cur VCPU_STATE_READY ;;
        lists (list_add_tail (cur + off_node) (p + off_ready_vcpus))).

Definition pcpu_switch (p gp : Z) : M world unit :=
  c ← fetch pcpus p;
  when (truth (current_vcpu c)) (switch_out p (current_vcpu c) gp) ;;
  first ← lists (list_next (p + off_ready_vcpus));
  if first =? NULL then set_current p NULL
  else let next := list_entry first off_node in
       lists (list_del (next + off_node)) ;;
       set_state next VCPU_STATE_RUNNING ;;
       set_current p next ;;
       vcpu_restore_context next gp.
