(* ===== verification/VcpuProof.v ===== *)
(** The scheduler's invariant and what each operation of vcpu.c does to it. *)
From Stdlib Require Import ZArith Lia.
From stdpp Require Import base gmap list.
From S2P Require Import Prelude CList Vcpu.

Open Scope Z_scope.

Definition node (v : Z) : Z := v + off_node.
Definition ready_head (p : Z) : Z := p + off_ready_vcpus.
Definition suspend_head (p : Z) : Z := p + off_suspend_vcpus.

#[global] Instance node_inj : Inj (=) (=) node.
Proof. intros a b. unfold node. lia. Qed.

Lemma heads_ne p : ready_head p <> suspend_head p.
Proof. unfold ready_head, suspend_head, off_ready_vcpus, off_suspend_vcpus. lia. Qed.

Definition in_state (w : world) (st : vcpu_state) (v : Z) : Prop :=
  exists o, vcpus w !! v = Some o /\ state o = st.

(** [ready] and [susp] are the vCPUs on the two lists of the pCPU at [p]. *)
Record sched_ok (p : Z) (ready susp : list Z) (w : world) : Prop := {
  so_ready : clist (lnk w) (ready_head p) (node <$> ready);
  so_susp : clist (lnk w) (suspend_head p) (node <$> susp);
  so_ready_st : forall v, v ∈ ready -> in_state w VCPU_STATE_READY v;
  so_susp_st : forall v, v ∈ susp -> in_state w VCPU_STATE_SUSPENDED v;
  so_susp_all : forall v, in_state w VCPU_STATE_SUSPENDED v -> v ∈ susp;
  so_vcpu : forall v o, vcpus w !! v = Some o ->
    v <> NULL /\ vpcpu o = p /\ is_Some (lnk w !! node v) /\
    node v <> ready_head p /\ node v <> suspend_head p;
  so_running : forall v, in_state w VCPU_STATE_RUNNING v ->
    nxt (lnk w) (node v) = Some NULL /\ prv (lnk w) (node v) = Some NULL;
  so_null : lnk w !! NULL = None;
  so_cur : exists c, pcpus w !! p = Some c /\
    (current_vcpu c = NULL \/ in_state w VCPU_STATE_RUNNING (current_vcpu c)) }.

Definition with_state (st : vcpu_state) (o : vcpu) : vcpu :=
  {| id := id o; state := st; lrs := lrs o; vgpregs := vgpregs o;
     vsysregs_el1 := vsysregs_el1 o; vpcpu := vpcpu o |}.

Lemma set_state_run v st o w :
  vcpus w !! v = Some o -> set_state v st w = Ok tt (set_vcpus <[v := with_state st o]> w).
Proof. intros H. unfold set_state, fetch, mbind, M_bind. by rewrite H. Qed.

Lemma fetch_run {A} (view : world -> gmap Z A) a o w :
  view w !! a = Some o -> fetch view a w = Ok o w.
Proof. intros H. unfold fetch. by rewrite H. Qed.

Lemma lists_run {A} (m : M links A) w a L : m (lnk w) = Ok a L -> lists m w = Ok a (set_lnk w L).
Proof. intros H. unfold lists, zoom. by rewrite H. Qed.

Lemma in_state_insert w v o st u :
  in_state (set_vcpus <[v := o]> w) st u <->
  (u = v /\ state o = st) \/ (u <> v /\ in_state w st u).
Proof.
  unfold in_state. cbn. destruct (decide (u = v)) as [->|].
  - rewrite lookup_insert_eq. naive_solver.
  - rewrite lookup_insert_ne by done. naive_solver.
Qed.

Lemma in_state_lnk w L st u : in_state (set_lnk w L) st u <-> in_state w st u.
Proof. done. Qed.

Lemma in_state_unique w st st' v : in_state w st v -> in_state w st' v -> st = st'.
Proof. unfold in_state. naive_solver. Qed.

Lemma elem_node v (vs : list Z) : node v ∈ node <$> vs <-> v ∈ vs.
Proof. apply list_elem_of_fmap_inj. apply _. Qed.

Section Apart.
Context {p ready susp w} (Hok : sched_ok p ready susp w).

Lemma node_not_ready v o :
  vcpus w !! v = Some o -> state o <> VCPU_STATE_READY ->
  node v ∉ ready_head p :: (node <$> ready).
Proof using Hok.
  intros Hv Hst [He|He]%elem_of_cons.
  - destruct (so_vcpu _ _ _ _ Hok _ _ Hv) as (_ & _ & _ & ? & _). done.
  - rewrite elem_node in He. destruct (so_ready_st _ _ _ _ Hok _ He) as (o' & ? & ?). congruence.
Qed.

Lemma node_not_susp v o :
  vcpus w !! v = Some o -> state o <> VCPU_STATE_SUSPENDED ->
  node v ∉ suspend_head p :: (node <$> susp).
Proof using Hok.
  intros Hv Hst [He|He]%elem_of_cons.
  - destruct (so_vcpu _ _ _ _ Hok _ _ Hv) as (_ & _ & _ & _ & ?). done.
  - rewrite elem_node in He. destruct (so_susp_st _ _ _ _ Hok _ He) as (o' & ? & ?). congruence.
Qed.

Lemma lists_apart x :
  x ∈ ready_head p :: (node <$> ready) -> x ∉ suspend_head p :: (node <$> susp).
Proof using Hok.
  intros [->|(v & -> & Hv)%list_elem_of_fmap]%elem_of_cons Hx.
  - apply elem_of_cons in Hx as [?|(v & E & Hv)%list_elem_of_fmap]; [by eapply heads_ne|].
    destruct (so_susp_st _ _ _ _ Hok _ Hv) as (o & Ho & _).
    destruct (so_vcpu _ _ _ _ Hok _ _ Ho) as (_ & _ & _ & ? & _). congruence.
  - destruct (so_ready_st _ _ _ _ Hok _ Hv) as (o & Ho & Hs).
    revert Hx. eapply node_not_susp; [done|congruence].
Qed.
End Apart.

(** One vCPU changes state and the lists change accordingly. *)
Lemma sched_ok_step p r s w r' s' w' v o o' ts :
  sched_ok p r s w -> vcpus w !! v = Some o ->
  vcpus w' = <[v := o']> (vcpus w) -> vpcpu o' = vpcpu o ->
  clist (lnk w') (ready_head p) (node <$> r') -> clist (lnk w') (suspend_head p) (node <$> s') ->
  (forall u, u ∈ r' -> (u = v /\ state o' = VCPU_STATE_READY) \/ (u <> v /\ u ∈ r)) ->
  (forall u, u ∈ s' -> (u = v /\ state o' = VCPU_STATE_SUSPENDED) \/ (u <> v /\ u ∈ s)) ->
  (forall u, u <> v -> u ∈ s -> u ∈ s') -> state o' <> VCPU_STATE_SUSPENDED ->
  frame (lnk w) (lnk w') ts ->
  (forall u, u <> v -> in_state w VCPU_STATE_RUNNING u -> node u ∉ ts) ->
  (state o' = VCPU_STATE_RUNNING ->
     nxt (lnk w') (node v) = Some NULL /\ prv (lnk w') (node v) = Some NULL) ->
  (exists c, pcpus w' !! p = Some c /\
    (current_vcpu c = NULL \/ in_state w' VCPU_STATE_RUNNING (current_vcpu c))) ->
  sched_ok p r' s' w'.
Proof.
  intros Hok Hv Hvs Hpc Hr Hs Hr' Hs' Hall Hne [FD F] Hts Hrun Hcur.
  assert (Hst : forall u st, in_state w' st u <->
            (u = v /\ state o' = st) \/ (u <> v /\ in_state w st u)).
  { intros u st. rewrite <- in_state_insert. unfold in_state. cbn. by rewrite Hvs. }
  split; [done|done|..|done].
  - intros u [?|[? ?]]%Hr'; apply Hst; [by left|right; split; [done|]].
    by eapply so_ready_st.
  - intros u [?|[? ?]]%Hs'; apply Hst; [by left|right; split; [done|]].
    by eapply so_susp_st.
  - intros u [[-> ?]|[? Hu]]%Hst; [done|]. apply Hall; [done|]. by eapply so_susp_all.
  - intros u q. rewrite Hvs, FD. intros Hq.
    destruct (decide (u = v)) as [->|].
    + rewrite lookup_insert_eq in Hq. injection Hq as <-. rewrite Hpc. by eapply so_vcpu.
    + rewrite lookup_insert_ne in Hq by done. by eapply so_vcpu.
  - intros u [[-> ?]|[? Hu]]%Hst; [by apply Hrun|].
    unfold nxt, prv. rewrite F by auto. by eapply so_running.
  - destruct (lnk w' !! NULL) eqn:E; [|done].
    destruct (proj1 (FD NULL)) as [? E']; [by rewrite E|].
    by rewrite (so_null _ _ _ _ Hok) in E'.
Qed.

(** The states that are not RUNNING keep the current vCPU of the pCPU running. *)
Lemma cur_kept p r s w w' v o o' :
  sched_ok p r s w -> vcpus w !! v = Some o -> state o <> VCPU_STATE_RUNNING ->
  vcpus w' = <[v := o']> (vcpus w) -> pcpus w' = pcpus w ->
  exists c, pcpus w' !! p = Some c /\
    (current_vcpu c = NULL \/ in_state w' VCPU_STATE_RUNNING (current_vcpu c)).
Proof.
  intros Hok Hv Hne Hvs Hps. destruct (so_cur _ _ _ _ Hok) as (c & Hc & Hcur).
  exists c. split; [by rewrite Hps|]. destruct Hcur as [|(q & Hq & ?)]; [by left|right].
  exists q. rewrite Hvs, lookup_insert_ne; [done|]. intros ->. congruence.
Qed.

(** What an operation on one vCPU leaves alone. *)
Definition same_rest (w w' : world) : Prop :=
  pcpus w' = pcpus w /\ frames w' = frames w /\ sys w' = sys w.

Lemma vcpu_start_run p r s w v o :
  sched_ok p r s w -> vcpus w !! v = Some o -> state o = VCPU_STATE_OFFLINE ->
  exists w', vcpu_start v w = Ok tt w' /\ sched_ok p (r ++ [v]) s w' /\
    vcpus w' = <[v := with_state VCPU_STATE_READY o]> (vcpus w) /\ same_rest w w'.
Proof.
  intros Hok Hv Hst. unfold vcpu_start. mstep (fetch_run vcpus _ _ _ Hv).
  rewrite decide_False by congruence. mstep (set_state_run v VCPU_STATE_READY o w Hv).
  destruct (so_vcpu _ _ _ _ Hok _ _ Hv) as (_ & Hp & Hn & _). rewrite Hp.
  pose proof (node_not_ready Hok _ _ Hv) as Hnr. pose proof (node_not_susp Hok _ _ Hv) as Hns.
  rewrite Hst in Hnr, Hns.
  destruct (clist_add_tail (lnk w) (ready_head p) (node <$> r) (node v))
    as (L' & E & HF & Hc); [by eapply so_ready|done|auto|].
  eexists. split; [by apply lists_run|]. split; [|by split].
  eapply (sched_ok_step p r s w); [done|exact Hv|done|done|..].
  - by rewrite fmap_app.
  - eapply clist_frame; [exact HF| |by eapply so_susp].
    intros x [->|Hx]%elem_of_cons; [auto|]. by eapply lists_apart.
  - intros u [Hu|Hu]%elem_of_app; [|left; by apply list_elem_of_singleton in Hu].
    right. split; [|done]. intros ->. destruct (so_ready_st _ _ _ _ Hok _ Hu) as (? & ? & ?). congruence.
  - intros u Hu. right. split; [|done].
    intros ->. destruct (so_susp_st _ _ _ _ Hok _ Hu) as (? & ? & ?). congruence.
  - done.
  - done.
  - exact HF.
  - intros u Hne (q & Hq & Hqs) [E'|Hu]%elem_of_cons; [by apply Hne, (inj node)|].
    revert Hu. eapply node_not_ready; [done..|congruence].
  - done.
  - eapply cur_kept; [done..|by rewrite Hst|done|done].
Qed.

(** [list_del] of a listed vCPU's node, with what it leaves alone. *)
Lemma del_node L h vs1 v vs2 :
  clist L h (node <$> vs1 ++ v :: vs2) ->
  exists L', list_del (node v) L = Ok tt L' /\ clist L' h (node <$> vs1 ++ vs2) /\
    frame L L' (h :: (node <$> vs1 ++ v :: vs2)) /\
    nxt L' (node v) = Some NULL /\ prv L' (node v) = Some NULL.
Proof.
  rewrite fmap_app, fmap_cons. intros Hc.
  destruct (clist_del _ _ _ _ _ Hc) as (L' & E & [FD F] & Hc' & Hn).
  exists L'. rewrite fmap_app. split_and!; try done; [|apply Hn..].
  split; [done|]. intros a Ha. apply F. set_solver.
Qed.

Lemma vcpu_resume_run p r s1 v s2 w :
  sched_ok p r (s1 ++ v :: s2) w ->
  exists o w', vcpus w !! v = Some o /\ vcpu_resume v w = Ok tt w' /\
    sched_ok p (r ++ [v]) (s1 ++ s2) w' /\
    vcpus w' = <[v := with_state VCPU_STATE_READY o]> (vcpus w) /\ same_rest w w'.
Proof.
  intros Hok. destruct (so_susp_st _ _ _ _ Hok v) as (o & Hv & Hst); [set_solver|].
  exists o. unfold vcpu_resume.
  destruct (so_vcpu _ _ _ _ Hok _ _ Hv) as (_ & Hp & Hn & _).
  pose proof (node_not_ready Hok _ _ Hv) as Hnr. rewrite Hst in Hnr. specialize (Hnr ltac:(done)).
  destruct (del_node _ _ _ _ _ (so_susp _ _ _ _ Hok)) as (L1 & E1 & Hs1 & F1 & _).
  assert (Hr1 : clist L1 (ready_head p) (node <$> r)).
  { eapply clist_frame; [exact F1| |by eapply so_ready].
    intros x Hx Hx'. by eapply lists_apart. }
  destruct (clist_add_tail L1 (ready_head p) (node <$> r) (node v))
    as (L2 & E2 & F2 & Hc2); [done|by eapply frame_dom|done|].
  assert (Hvs : v ∉ s1 ++ s2).
  { destruct (so_susp _ _ _ _ Hok) as [Hnd _]. apply NoDup_cons in Hnd as [_ Hnd].
    apply NoDup_fmap_1 in Hnd. rewrite NoDup_app, NoDup_cons in Hnd. set_solver. }
  eexists. split; [done|]. split.
  { mstep (fetch_run vcpus _ _ _ Hv). rewrite decide_False by congruence.
    mstep (set_state_run v VCPU_STATE_READY o w Hv). rewrite Hp.
    mstep (lists_run _ (set_vcpus <[v:=with_state VCPU_STATE_READY o]> w) _ _ E1).
    by apply lists_run. }
  split; [|by split].
  eapply (sched_ok_step p r (s1 ++ v :: s2) w); [done|exact Hv|done|done|..].
  - by rewrite fmap_app.
  - eapply clist_frame; [exact F2| |done].
    intros x [->|Hx]%elem_of_cons.
    + intros [E|Hx]%elem_of_cons; [|by rewrite elem_node in Hx].
      by destruct (so_vcpu _ _ _ _ Hok _ _ Hv) as (_ & _ & _ & _ & ?).
    + intros Hx'. eapply (lists_apart Hok); [exact Hx|]. set_solver.
  - intros u [Hu|Hu]%elem_of_app; [|left; by apply list_elem_of_singleton in Hu].
    right. split; [|done]. intros ->. apply Hnr. apply elem_of_cons. right. by apply elem_node.
  - intros u Hu. right. split; [intros ->; done|]. set_solver.
  - intros u Hne Hu. set_solver.
  - done.
  - eapply frame_trans; [exact F1|exact F2| |];
      [apply list_subseteq_app_l; reflexivity|apply list_subseteq_app_r; reflexivity].
  - intros u Hne (q & Hq & Hqs) [Hu|[E|Hu]%elem_of_cons]%elem_of_app.
    + revert Hu. eapply node_not_susp; [done..|congruence].
    + by apply Hne, (inj node).
    + revert Hu. eapply node_not_ready; [done..|congruence].
  - done.
  - eapply cur_kept; [done..|by rewrite Hst|done|done].
Qed.

(** The operations on a vCPU in another state do nothing. *)
Lemma vcpu_ops_ignored v o w :
  vcpus w !! v = Some o ->
  (state o <> VCPU_STATE_OFFLINE -> vcpu_start v w = Ok tt w) /\
  (state o <> VCPU_STATE_RUNNING -> vcpu_suspend v w = Ok tt w /\ vcpu_halt v w = Ok tt w) /\
  (state o <> VCPU_STATE_SUSPENDED -> vcpu_resume v w = Ok tt w).
Proof.
  intros Hv. unfold vcpu_start, vcpu_suspend, vcpu_halt, vcpu_resume.
  split_and!; intros Hs; try split; mstep (fetch_run vcpus _ _ _ Hv);
    by rewrite decide_True.
Qed.

(** A running vCPU is on no list, and its links are NULL: taking it off a list faults. *)
Lemma del_running_faults L n :
  L !! NULL = None -> nxt L n = Some NULL -> prv L n = Some NULL ->
  list_del n L = Stop (Fault NULL) L.
Proof.
  intros H0 Hn Hp. unfold list_del. mstep (list_prev_run _ _ _ Hp).
  mstep (list_next_run _ _ _ Hn). unfold __list_del. rewrite bind_assoc.
  apply bind_Stop. by apply links_fault.
Qed.

Lemma lists_stop {A} (m : M links A) w a L : m (lnk w) = Stop a L -> lists m w = Stop a (set_lnk w L).
Proof. intros H. unfold lists, zoom. by rewrite H. Qed.

Lemma running_stuck p r s w v :
  sched_ok p r s w -> in_state w VCPU_STATE_RUNNING v ->
  (exists w', vcpu_suspend v w = Stop (Fault NULL) w') /\
  (exists w', vcpu_halt v w = Stop (Fault NULL) w').
Proof.
  intros Hok Hr. destruct (so_running _ _ _ _ Hok _ Hr) as [Hn Hp].
  destruct Hr as (o & Hv & Hst). pose proof (so_null _ _ _ _ Hok) as H0.
  set (w1 := set_vcpus <[v := with_state VCPU_STATE_SUSPENDED o]> w).
  set (w2 := set_vcpus <[v := with_state VCPU_STATE_HALTED o]> w).
  split; eexists; [unfold vcpu_suspend|unfold vcpu_halt]; mstep (fetch_run vcpus _ _ _ Hv);
    rewrite decide_False by (intros []; done).
  - mstep (set_state_run v VCPU_STATE_SUSPENDED o w Hv). apply bind_Stop, lists_stop.
    by apply del_running_faults.
  - mstep (set_state_run v VCPU_STATE_HALTED o w Hv). apply lists_stop.
    by apply del_running_faults.
Qed.

(** * pcpu_switch *)

Definition saved (g : gpregs) (r : sysregs_el1) (o : vcpu) : vcpu :=
  {| id := id o; state := VCPU_STATE_READY; lrs := lrs o; vgpregs := g; vsysregs_el1 := r;
     vpcpu := vpcpu o |}.

(** The vCPUs after the context of [cur], if any, has been saved. *)
Definition save_current (cur : Z) (g : gpregs) (r : sysregs_el1) (m : gmap Z vcpu) : gmap Z vcpu :=
  if truth cur then alter (saved g r) cur m else m.

Lemma save_run v gp o g w :
  vcpus w !! v = Some o -> frames w !! gp = Some g ->
  vcpu_save_context v gp w = Ok tt (set_vcpus <[v := saved g (sys w) o]> w).
Proof.
  intros Hv Hg. unfold vcpu_save_context. mstep (fetch_run vcpus _ _ _ Hv).
  mstep (fetch_run frames _ _ _ Hg). done.
Qed.

(** What vcpu_restore_context reaches of the system registers before it traps. *)
Definition partly_restored (from now : sysregs_el1) : sysregs_el1 :=
  set_el1 SPSR_EL1 (spsr_el1 from) (set_el1 ELR_EL1 (elr_el1 from) now).

Lemma restore_run v gp o w :
  vcpus w !! v = Some o ->
  vcpu_restore_context v gp w =
    Stop msr_read_only (set_sys (set_vcpus <[v := with_state VCPU_STATE_RUNNING o]> w)
                          (partly_restored (vsysregs_el1 o) (sys w))).
Proof.
  intros Hv. unfold vcpu_restore_context. mstep (set_state_run v VCPU_STATE_RUNNING o w Hv).
  unfold fetch, mbind, M_bind. cbn. rewrite lookup_insert_eq. by destruct w as [????[]].
Qed.

Lemma switch_out_run p cur gp o g w :
  vcpus w !! cur = Some o -> frames w !! gp = Some g ->
  switch_out p cur gp w = Ok tt (set_vcpus <[cur := saved g (sys w) o]> w).
Proof.
  intros Hv Hg. unfold switch_out. mstep (save_run _ _ _ _ _ Hv Hg).
  unfold fetch, mbind, M_bind. cbn. by rewrite lookup_insert_eq.
Qed.

(** Saving the current vCPU keeps the invariant once the pCPU has no current vCPU. *)
Lemma sched_ok_saved p r s w c g :
  sched_ok p r s w -> pcpus w !! p = Some c ->
  sched_ok p r s (set_pcpus <[p := {| pid := pid c; current_vcpu := NULL |}]>
                   (set_vcpus (save_current (current_vcpu c) g (sys w)) w)).
Proof.
  intros Hok Hc. unfold save_current.
  assert (Hcur : exists c', (<[p := {| pid := pid c; current_vcpu := NULL |}]> (pcpus w) : gmap Z pcpu) !! p
                   = Some c' /\ current_vcpu c' = NULL).
  { eexists. by rewrite lookup_insert_eq. }
  destruct (truth (current_vcpu c)) eqn:Ht.
  - apply truth_true in Ht. destruct (so_cur _ _ _ _ Hok) as (c' & Hc' & Hcur').
    rewrite Hc in Hc'. injection Hc' as <-. destruct Hcur' as [?|(o & Ho & Hst)]; [done|].
    assert (Hnot : forall st (vs : list Z), st <> VCPU_STATE_RUNNING ->
              (forall v, v ∈ vs -> in_state w st v) -> forall u, u ∈ vs -> u <> current_vcpu c).
    { intros st vs Hne Hall u Hu ->. destruct (Hall _ Hu) as (? & ? & ?). congruence. }
    eapply (sched_ok_step p r s w r s _ (current_vcpu c) o (saved g (sys w) o) []); cbn; try done.
    + apply map_eq. intros u. destruct (decide (u = current_vcpu c)) as [->|].
      * by rewrite lookup_alter_eq, lookup_insert_eq, Ho.
      * by rewrite lookup_alter_ne, lookup_insert_ne.
    + by eapply so_ready.
    + by eapply so_susp.
    + intros u Hu. right. split; [|done]. eapply (Hnot VCPU_STATE_READY r); [done| |done].
      by eapply so_ready_st.
    + intros u Hu. right. split; [|done]. eapply (Hnot VCPU_STATE_SUSPENDED s); [done| |done].
      by eapply so_susp_st.
    + intros ? ? ?. apply not_elem_of_nil.
    + destruct Hcur as (c' & ? & ?). eauto.
  - destruct Hok. split; try done. destruct Hcur as (c' & ? & ?). eauto.
Qed.

Lemma switch_save_phase p r s w c g gp :
  sched_ok p r s w -> pcpus w !! p = Some c -> frames w !! gp = Some g ->
  when (truth (current_vcpu c)) (switch_out p (current_vcpu c) gp) w =
  Ok tt (set_vcpus (save_current (current_vcpu c) g (sys w)) w).
Proof.
  intros Hok Hc Hg. unfold when, save_current.
  destruct (truth (current_vcpu c)) eqn:Ht.
  - destruct (so_cur _ _ _ _ Hok) as (c' & Hc' & Hcur'). rewrite Hc in Hc'. injection Hc' as <-.
    apply truth_true in Ht. destruct Hcur' as [?|(o & Ho & Hst)]; [done|].
    rewrite (switch_out_run p _ gp o g w Ho Hg). f_equal. unfold set_vcpus. f_equal.
    apply map_eq. intros u. destruct (decide (u = current_vcpu c)) as [->|].
    + by rewrite lookup_alter_eq, lookup_insert_eq, Ho.
    + by rewrite lookup_alter_ne, lookup_insert_ne.
  - unfold mret, M_ret. f_equal. by destruct w.
Qed.

Lemma set_current_run p v c w :
  pcpus w !! p = Some c ->
  set_current p v w = Ok tt (set_pcpus <[p := {| pid := pid c; current_vcpu := v |}]> w).
Proof. intros H. unfold set_current, mbind, M_bind. by rewrite (fetch_run pcpus _ _ _ H). Qed.

(** The world a switch to [v] stops in, at the [msr] to MPIDR_EL1. *)
Definition switched (p v : Z) (c : pcpu) (o : vcpu) (m : gmap Z vcpu) (L : links) (w : world) : world :=
  {| vcpus := <[v := with_state VCPU_STATE_RUNNING o]> m;
     pcpus := <[p := {| pid := pid c; current_vcpu := v |}]> (pcpus w);
     lnk := L; frames := frames w; sys := partly_restored (vsysregs_el1 o) (sys w) |}.

(** The second half of pcpu_switch: the first vCPU of the ready list is made the current
    one, and its restore traps. *)
Lemma switch_in_run p v gp c o t L' :
  nxt (lnk t) (ready_head p) = Some (node v) -> node v <> NULL ->
  list_del (node v) (lnk t) = Ok tt L' -> vcpus t !! v = Some o -> pcpus t !! p = Some c ->
  (first ← lists (list_next (p + off_ready_vcpus));
   if first =? NULL then set_current p NULL
   else let next := list_entry first off_node in
        lists (list_del (next + off_node)) ;;
        set_state next VCPU_STATE_RUNNING ;;
        set_current p next ;;
        vcpu_restore_context next gp) t = Stop msr_read_only (switched p v c o (vcpus t) L' t).
Proof.
  intros Hn H0 Hd Ho Hc.
  assert (E1 : lists (list_next (p + off_ready_vcpus)) t = Ok (node v) t).
  { unfold lists, zoom. fold (ready_head p). rewrite (list_next_run _ _ _ Hn). by destruct t. }
  mstep E1. destruct (Z.eqb_spec (node v) NULL) as [|_]; [done|]. cbv zeta.
  replace (list_entry (node v) off_node) with v by (unfold list_entry, node; lia).
  mstep (lists_run _ t _ _ Hd). mstep (set_state_run v VCPU_STATE_RUNNING o (set_lnk t L') Ho).
  mstep (set_current_run p v c (set_vcpus <[v:=with_state VCPU_STATE_RUNNING o]> (set_lnk t L')) Hc).
  rewrite (restore_run v gp (with_state VCPU_STATE_RUNNING o));
    [|cbn; by rewrite lookup_insert_eq].
  unfold switched, set_sys, set_vcpus, set_pcpus, set_lnk. cbn.
  by rewrite insert_insert_eq.
Qed.

Lemma save_current_lookup p r s w c g v o :
  sched_ok p r s w -> pcpus w !! p = Some c -> vcpus w !! v = Some o ->
  state o <> VCPU_STATE_RUNNING ->
  save_current (current_vcpu c) g (sys w) (vcpus w) !! v = Some o.
Proof.
  intros Hok Hc Hv Hst. unfold save_current. destruct (truth (current_vcpu c)) eqn:Ht; [|done].
  apply truth_true in Ht. destruct (so_cur _ _ _ _ Hok) as (c' & Hc' & Hcur).
  rewrite Hc in Hc'. injection Hc' as <-. destruct Hcur as [?|(q & ? & ?)]; [done|].
  rewrite lookup_alter_ne; [done|]. intros ?. congruence.
Qed.

Lemma pcpu_switch_run p v r s w g gp :
  sched_ok p (v :: r) s w -> frames w !! gp = Some g ->
  exists c o L', pcpus w !! p = Some c /\ vcpus w !! v = Some o /\
    let w' := switched p v c o (save_current (current_vcpu c) g (sys w) (vcpus w)) L' w in
    pcpu_switch p gp w = Stop msr_read_only w' /\ sched_ok p r s w'.
Proof.
  intros Hok Hg. destruct (so_cur _ _ _ _ Hok) as (c & Hc & _).
  destruct (so_ready_st _ _ _ _ Hok v) as (o & Ho & Hst); [set_solver|].
  pose proof (sched_ok_saved p _ _ w c g Hok Hc) as Hok1.
  pose proof (save_current_lookup _ _ _ _ _ g _ _ Hok Hc Ho ltac:(congruence)) as Hm.
  set (w1 := set_pcpus _ _) in Hok1.
  destruct (so_vcpu _ _ _ _ Hok1 _ _ Hm) as (_ & _ & Hdom & Hrh & _).
  destruct (del_node (lnk w) (ready_head p) [] v r) as (L' & E & Hr' & HF & Hn & Hpv);
    [by eapply so_ready|].
  assert (Hvr : v ∉ r).
  { destruct (so_ready _ _ _ _ Hok) as [Hnd _]. apply NoDup_cons in Hnd as [_ Hnd].
    apply NoDup_fmap_1, NoDup_cons in Hnd. tauto. }
  exists c, o, L'. split; [done|]. split; [done|]. cbn zeta. split.
  - unfold pcpu_switch. mstep (fetch_run pcpus _ _ _ Hc).
    mstep (switch_save_phase _ _ _ _ _ _ _ Hok Hc Hg).
    apply (switch_in_run p v gp c o (set_vcpus (save_current (current_vcpu c) g (sys w)) w));
      try done; [exact (clist_nxt_head _ _ _ (so_ready _ _ _ _ Hok))|].
    intros E0. rewrite E0 in Hdom. destruct Hdom as [? Hd].
    by rewrite (so_null _ _ _ _ Hok1) in Hd.
  - eapply (sched_ok_step p (v :: r) s w1); [done|exact Hm|done|done|done|..|exact HF| |done|]; try done.
    + eapply clist_frame; [exact HF| |by eapply so_susp]. intros x Hx. by eapply lists_apart.
    + intros u Hu. right. split; [by intros ->|]. set_solver.
    + intros u Hu. right. split; [|done]. intros ->.
      destruct (so_susp_st _ _ _ _ Hok _ Hu) as (? & ? & ?). congruence.
    + intros u _ (q & Hq & Hqs). eapply node_not_ready; [exact Hok1|done|congruence].
    + eexists. cbn. rewrite lookup_insert_eq. split; [done|]. right.
      unfold in_state. cbn. rewrite lookup_insert_eq. eauto.
Qed.

(** With no ready vCPU the test against NULL fails to detect the empty list, and its head is
    taken for the node of a vCPU. *)
Lemma pcpu_switch_empty_run p s w g gp :
  sched_ok p [] s w -> frames w !! gp = Some g -> ready_head p <> NULL ->
  exists w', pcpu_switch p gp w = Stop (Fault (ready_head p - off_node)) w' /\
    nxt (lnk w') (ready_head p) = Some NULL /\ prv (lnk w') (ready_head p) = Some NULL.
Proof.
  intros Hok Hg H0. destruct (so_cur _ _ _ _ Hok) as (c & Hc & _).
  pose proof (sched_ok_saved p _ _ w c g Hok Hc) as Hok1.
  unfold pcpu_switch. mstep (fetch_run pcpus _ _ _ Hc).
  mstep (switch_save_phase _ _ _ _ _ _ _ Hok Hc Hg).
  set (t := set_vcpus _ w).
  pose proof (so_ready _ _ _ _ Hok) as Hcl.
  assert (E1 : lists (list_next (p + off_ready_vcpus)) t = Ok (ready_head p) t).
  { unfold lists, zoom. fold (ready_head p). change (lnk t) with (lnk w).
    by rewrite (list_next_run _ _ _ (clist_nxt_head _ _ _ Hcl)). }
  mstep E1. destruct (Z.eqb_spec (ready_head p) NULL) as [|_]; [done|]. cbv zeta.
  set (x := list_entry (ready_head p) off_node).
  assert (Hx : x + off_node = ready_head p) by (unfold x, list_entry; lia).
  rewrite Hx.
  assert (is_Some (lnk w !! ready_head p)) as Hd by (eapply clist_dom; [exact Hcl|set_solver]).
  destruct (list_del_run (ready_head p) (ready_head p) (ready_head p) (lnk w)) as (L' & E & F & N & P);
    [exact (clist_prv_head _ _ _ Hcl)|exact (clist_nxt_head _ _ _ Hcl)|done|done|].
  mstep (lists_run _ t _ _ E). exists (set_lnk t L'). split; [|split; [link_at N|link_at P]].
  apply bind_Stop. unfold set_state. apply bind_Stop. unfold fetch. cbn.
  destruct (save_current _ _ _ _ !! x) as [o|] eqn:Ho; [|done].
  by destruct (so_vcpu _ _ _ _ Hok1 _ _ Ho) as (_ & _ & _ & ? & _).
Qed.
