(* ===== verification/VcpuTheorems.v ===== *)
(** The properties of the vCPU scheduler (vcpu.c), each with a concrete instance. *)
From Stdlib Require Import ZArith Lia.
From stdpp Require Import base gmap list.
From S2P Require Import Prelude CList Vcpu VcpuProof.

Open Scope Z_scope.

(** * The operations as a step relation *)

Inductive sched_op :=
  | OpStart (v : Z)
  | OpSuspend (v : Z)
  | OpResume (v : Z)
  | OpHalt (v : Z)
  | OpSwitch (gp : Z).

Definition run_op (p : Z) (op : sched_op) : M world unit :=
  match op with
  | OpStart v => vcpu_start v
  | OpSuspend v => vcpu_suspend v
  | OpResume v => vcpu_resume v
  | OpHalt v => vcpu_halt v
  | OpSwitch gp => pcpu_switch p gp
  end.

(** A call that returns, or that stops at the [msr] of a read-only register: the second kind
    is followed too, so that what is shown of later operations does not rest on the trap. *)
Definition leaves (r : res world unit) (w' : world) : Prop :=
  r = Ok tt w' \/ r = Stop msr_read_only w'.

(** One operation. A switch is given an existing trap frame. *)
Inductive sched_step (p : Z) (w w' : world) : Prop :=
  | sched_step_op op :
      (forall gp, op = OpSwitch gp -> is_Some (frames w !! gp)) ->
      leaves (run_op p op w) w' -> sched_step p w w'.

(** A vCPU that is ready but that no list holds. *)
Definition lost (v : Z) (ready : list Z) (w : world) : Prop :=
  in_state w VCPU_STATE_READY v /\ v ∉ ready.

Lemma lost_insert u r w w' v o o' :
  lost u r w -> vcpus w !! v = Some o -> state o <> VCPU_STATE_READY ->
  vcpus w' = <[v := o']> (vcpus w) -> u <> v /\ in_state w' VCPU_STATE_READY u.
Proof.
  intros [(q & Hq & Hs) _] Hv Hne Hvs. assert (u <> v) by (intros ->; congruence).
  split; [done|]. exists q. by rewrite Hvs, lookup_insert_ne.
Qed.

Lemma leaves_Ok w w' : leaves (Ok tt w) w' -> w = w'.
Proof. intros [H|H]; congruence. Qed.

Lemma leaves_msr r w w' : r = Stop msr_read_only w -> leaves r w' -> w = w'.
Proof. intros -> [H|H]; congruence. Qed.

Lemma leaves_Fault r a w w' : r = Stop (Fault a) w -> leaves r w' -> False.
Proof. intros -> [H|H]; discriminate. Qed.

Lemma op_object p op v w w' :
  (op = OpStart v \/ op = OpSuspend v \/ op = OpResume v \/ op = OpHalt v) ->
  leaves (run_op p op w) w' -> is_Some (vcpus w !! v).
Proof.
  intros Hop. destruct (vcpus w !! v) as [o|] eqn:E; [eauto|].
  destruct Hop as [-> |[-> |[-> | ->]]]; cbn;
    unfold vcpu_start, vcpu_suspend, vcpu_resume, vcpu_halt, fetch, mbind, M_bind;
    rewrite E; by intros [?|?].
Qed.

(** The operations on one vCPU keep the invariant, and a lost vCPU lost. *)
Lemma vcpu_op_lost p r s w w' u op v :
  sched_ok p r s w -> lost u r w ->
  (op = OpStart v \/ op = OpSuspend v \/ op = OpResume v \/ op = OpHalt v) ->
  leaves (run_op p op w) w' -> exists r' s', sched_ok p r' s' w' /\ lost u r' w'.
Proof.
  intros Hok Hl Hop Hrun. destruct (op_object _ _ _ _ _ Hop Hrun) as [o Hv].
  destruct (vcpu_ops_ignored v o w Hv) as (Istart & Irun & Isusp).
  destruct (state o) eqn:Hst; destruct Hop as [-> |[-> |[-> | ->]]]; cbn in Hrun;
    try (rewrite ?Istart, ?Isusp, ?(proj1 (Irun ltac:(done))), ?(proj2 (Irun ltac:(done))) in Hrun by done;
         apply leaves_Ok in Hrun as <-; by eauto).
  - destruct (vcpu_start_run _ _ _ _ _ _ Hok Hv Hst) as (w1 & E & Hok1 & Hvs & _).
    rewrite E in Hrun. apply leaves_Ok in Hrun as <-. exists (r ++ [v]), s. split; [done|].
    destruct (lost_insert u r w w1 v o _ Hl Hv ltac:(congruence) Hvs) as [? ?].
    split; [done|]. destruct Hl as [_ ?]. set_solver.
  - destruct (running_stuck _ _ _ _ v Hok) as [[w1 E] _]; [by exists o|]. by apply (leaves_Fault _ _ _ _ E) in Hrun.
  - destruct (running_stuck _ _ _ _ v Hok) as [_ [w1 E]]; [by exists o|]. by apply (leaves_Fault _ _ _ _ E) in Hrun.
  - pose proof (so_susp_all _ _ _ _ Hok v ltac:(by exists o)) as Hs.
    apply list_elem_of_split in Hs as (s1 & s2 & ->).
    destruct (vcpu_resume_run _ _ _ _ _ _ Hok) as (o1 & w1 & Ho1 & E & Hok1 & Hvs & _).
    rewrite E in Hrun. apply leaves_Ok in Hrun as <-. exists (r ++ [v]), (s1 ++ s2).
    split; [done|]. assert (o1 = o) as -> by congruence.
    destruct (lost_insert u r w w1 v o _ Hl Hv ltac:(congruence) Hvs) as [? ?].
    split; [done|]. destruct Hl as [_ ?]. set_solver.
Qed.

Lemma switch_lost p r s w w' u gp :
  sched_ok p r s w -> lost u r w -> ready_head p <> NULL -> is_Some (frames w !! gp) ->
  leaves (pcpu_switch p gp w) w' -> exists r' s', sched_ok p r' s' w' /\ lost u r' w'.
Proof.
  intros Hok [(q & Hq & Hqs) Hu] H0 [g Hg] Hrun. destruct r as [|v r].
  { destruct (pcpu_switch_empty_run p s w g gp Hok Hg H0) as (w1 & E & _). by apply (leaves_Fault _ _ _ _ E) in Hrun. }
  destruct (pcpu_switch_run p v r s w g gp Hok Hg) as (c & o & L' & Hc & Ho & E & Hok').
  apply (leaves_msr _ _ _ E) in Hrun as <-. exists r, s. split; [done|].
  apply not_elem_of_cons in Hu as [Huv Hur]. split; [|done]. exists q.
  unfold switched. cbn. rewrite lookup_insert_ne by done. split; [|done].
  eapply save_current_lookup; [done..|congruence].
Qed.

Lemma sched_step_lost p r s w w' u :
  sched_ok p r s w -> lost u r w -> ready_head p <> NULL -> sched_step p w w' ->
  exists r' s', sched_ok p r' s' w' /\ lost u r' w'.
Proof.
  intros Hok Hl H0 [op Hgp Hrun]. destruct op as [v|v|v|v|gp].
  1-4: eapply (vcpu_op_lost p r s w w' u _ v); [done|done| |exact Hrun]; tauto.
  eapply (switch_lost p r s w); eauto.
Qed.

(** * A concrete pCPU

    pCPU 0x1000 runs vCPU 0x4000; 0x2000 is ready, 0x3000 suspended, 0x5000 offline. The
    trap frame is at 0x9000. *)
Definition demo_vcpu (n : Z) (st : vcpu_state) : vcpu :=
  {| id := n; state := st; lrs := replicate 16 lrs_zero;
     vgpregs := {| x := replicate 31 n; sp := n; pc := n; pstate := n |};
     vsysregs_el1 := sysregs_zero; vpcpu := 0x1000 |}.

Definition demo_frame : gpregs := {| x := replicate 31 7; sp := 8; pc := 9; pstate := 10 |}.

Definition demo : world :=
  {| vcpus := {[ 0x2000 := demo_vcpu 2 VCPU_STATE_READY;
                 0x3000 := demo_vcpu 3 VCPU_STATE_SUSPENDED;
                 0x4000 := demo_vcpu 4 VCPU_STATE_RUNNING;
                 0x5000 := demo_vcpu 5 VCPU_STATE_OFFLINE ]};
     pcpus := {[ 0x1000 := {| pid := 0; current_vcpu := 0x4000 |} ]};
     lnk := {[ 0x1008 := {| prev := 0x2210; next := 0x2210 |};
               0x1018 := {| prev := 0x3210; next := 0x3210 |};
               0x2210 := {| prev := 0x1008; next := 0x1008 |};
               0x3210 := {| prev := 0x1018; next := 0x1018 |};
               0x4210 := {| prev := NULL; next := NULL |};
               0x5210 := {| prev := 0x5210; next := 0x5210 |} ]};
     frames := {[ 0x9000 := demo_frame ]};
     sys := sysregs_zero |}.

Lemma demo_vcpus v o : vcpus demo !! v = Some o ->
  (v = 0x2000 /\ o = demo_vcpu 2 VCPU_STATE_READY) \/
  (v = 0x3000 /\ o = demo_vcpu 3 VCPU_STATE_SUSPENDED) \/
  (v = 0x4000 /\ o = demo_vcpu 4 VCPU_STATE_RUNNING) \/
  (v = 0x5000 /\ o = demo_vcpu 5 VCPU_STATE_OFFLINE).
Proof.
  intros H. cbn [vcpus demo] in H.
  repeat (apply lookup_insert_Some in H as [[<- <-]|[_ H]]; [tauto|]).
  apply lookup_singleton_Some in H as [<- <-]. tauto.
Qed.

Lemma demo_ok : sched_ok 0x1000 [0x2000] [0x3000] demo.
Proof.
  split.
  - split; [by apply (bool_decide_unpack _); vm_compute|]. by vm_compute.
  - split; [by apply (bool_decide_unpack _); vm_compute|]. by vm_compute.
  - intros v ->%list_elem_of_singleton. by eexists.
  - intros v ->%list_elem_of_singleton. by eexists.
  - intros v (o & Hv & Hs). apply demo_vcpus in Hv.
    destruct Hv as [[-> ->]|[[-> ->]|[[-> ->]|[-> ->]]]]; cbn in Hs; try done. set_solver.
  - intros v o Hv. apply demo_vcpus in Hv.
    destruct Hv as [[-> ->]|[[-> ->]|[[-> ->]|[-> ->]]]]; by (split_and!; [..|eexists| |]).
  - intros v (o & Hv & Hs). apply demo_vcpus in Hv.
    destruct Hv as [[-> ->]|[[-> ->]|[[-> ->]|[-> ->]]]]; cbn in Hs; by try done.
  - done.
  - eexists. split; [done|]. right. by eexists.
Qed.

(** * Properties *)

(** C26: pcpu_switch is first-in first-out, and traps: the context of the vCPU that ran is
    stored in its structure, the first ready vCPU leaves the ready list, is marked running
    and is made the current one, and no other vCPU changes; but the restore of its context
    ends at the [msr] of the read-only MPIDR_EL1, when ELR_EL1 and SPSR_EL1 are the only
    registers it has put back and the trap frame is still the one of the vCPU before. *)
Theorem pcpu_switch_fifo p v r s w g gp :
  sched_ok p (v :: r) s w -> frames w !! gp = Some g ->
  exists w' o, pcpu_switch p gp w = Stop msr_read_only w' /\ sched_ok p r s w' /\
    vcpus w !! v = Some o /\
    current_vcpu <$> pcpus w' !! p = Some v /\
    vcpus w' !! v = Some (with_state VCPU_STATE_RUNNING o) /\
    frames w' = frames w /\
    sys w' = set_el1 SPSR_EL1 (spsr_el1 (vsysregs_el1 o))
               (set_el1 ELR_EL1 (elr_el1 (vsysregs_el1 o)) (sys w)) /\
    (forall c oc, pcpus w !! p = Some c -> current_vcpu c <> NULL ->
       vcpus w !! current_vcpu c = Some oc ->
       vcpus w' !! current_vcpu c = Some (saved g (sys w) oc)) /\
    (forall u, u <> v -> current_vcpu <$> pcpus w !! p <> Some u -> vcpus w' !! u = vcpus w !! u).
Proof.
  intros Hok Hg. destruct (pcpu_switch_run p v r s w g gp Hok Hg) as (c & o & L' & Hc & Ho & E & Hok').
  eexists _, o. split; [exact E|]. split; [done|]. split; [done|].
  unfold switched, save_current. cbn. rewrite !lookup_insert_eq. do 4 (split; [done|]). split.
  - intros c' oc Hc' Hn Hoc. rewrite Hc in Hc'. injection Hc' as <-.
    destruct (so_cur _ _ _ _ Hok) as (c' & Hc' & Hcur). rewrite Hc in Hc'. injection Hc' as <-.
    destruct Hcur as [?|(q & Hq & Hqs)]; [done|].
    destruct (so_ready_st _ _ _ _ Hok v ltac:(set_solver)) as (ov & Hov & Hovs).
    rewrite lookup_insert_ne by congruence.
    rewrite (proj2 (truth_true _)) by done. by rewrite lookup_alter_eq, Hoc.
  - intros u Hu Hcu. rewrite Hc in Hcu. cbn in Hcu. rewrite lookup_insert_ne by done.
    destruct (truth (current_vcpu c)); [|done]. rewrite lookup_alter_ne; congruence.
Qed.

Lemma pcpu_switch_fifo_witness :
  exists w' o, pcpu_switch 0x1000 0x9000 demo = Stop msr_read_only w' /\ sched_ok 0x1000 [] [0x3000] w' /\
    vcpus demo !! 0x2000 = Some o /\
    current_vcpu <$> pcpus w' !! 0x1000 = Some 0x2000 /\
    vcpus w' !! 0x2000 = Some (with_state VCPU_STATE_RUNNING o) /\
    frames w' = frames demo /\
    sys w' = set_el1 SPSR_EL1 (spsr_el1 (vsysregs_el1 o))
               (set_el1 ELR_EL1 (elr_el1 (vsysregs_el1 o)) (sys demo)) /\
    (forall c oc, pcpus demo !! 0x1000 = Some c -> current_vcpu c <> NULL ->
       vcpus demo !! current_vcpu c = Some oc ->
       vcpus w' !! current_vcpu c = Some (saved demo_frame (sys demo) oc)) /\
    (forall u, u <> 0x2000 -> current_vcpu <$> pcpus demo !! 0x1000 <> Some u ->
       vcpus w' !! u = vcpus demo !! u).
Proof. apply (pcpu_switch_fifo 0x1000 0x2000 [] [0x3000] demo demo_frame 0x9000 demo_ok eq_refl). Defined.

(** C27: vcpu_start makes an offline vCPU ready and queues it last, vcpu_resume does the
    same for a suspended one and takes it off the suspended list, and each leaves a vCPU in
    any other state alone. *)
Theorem vcpu_queued_last p r s w v o :
  sched_ok p r s w -> vcpus w !! v = Some o ->
  (exists w', vcpu_start v w = Ok tt w' /\
    if decide (state o = VCPU_STATE_OFFLINE)
    then sched_ok p (r ++ [v]) s w' /\ same_rest w w' /\
         vcpus w' = <[v := with_state VCPU_STATE_READY o]> (vcpus w)
    else w' = w) /\
  (exists w', vcpu_resume v w = Ok tt w' /\
    if decide (state o = VCPU_STATE_SUSPENDED)
    then (exists s1 s2, s = s1 ++ v :: s2 /\ sched_ok p (r ++ [v]) (s1 ++ s2) w') /\
         same_rest w w' /\ vcpus w' = <[v := with_state VCPU_STATE_READY o]> (vcpus w)
    else w' = w).
Proof.
  intros Hok Hv. destruct (vcpu_ops_ignored v o w Hv) as (Istart & _ & Isusp). split.
  - case_decide as Hs; [|exists w; by split; [apply Istart|]].
    destruct (vcpu_start_run _ _ _ _ _ _ Hok Hv Hs) as (w' & ? & ? & ? & ?). eauto 6.
  - case_decide as Hs; [|exists w; by split; [apply Isusp|]].
    pose proof (so_susp_all _ _ _ _ Hok v ltac:(by exists o)) as Hin.
    apply list_elem_of_split in Hin as (s1 & s2 & ->).
    destruct (vcpu_resume_run _ _ _ _ _ _ Hok) as (o1 & w' & Ho1 & E & Hok1 & Hvs & ?).
    assert (o1 = o) as -> by congruence. exists w'. eauto 8.
Qed.

Lemma vcpu_queued_last_witness :
  (exists w', vcpu_start 0x5000 demo = Ok tt w' /\
    if decide (state (demo_vcpu 5 VCPU_STATE_OFFLINE) = VCPU_STATE_OFFLINE)
    then sched_ok 0x1000 ([0x2000] ++ [0x5000]) [0x3000] w' /\ same_rest demo w' /\
         vcpus w' = <[0x5000 := with_state VCPU_STATE_READY (demo_vcpu 5 VCPU_STATE_OFFLINE)]> (vcpus demo)
    else w' = demo) /\
  (exists w', vcpu_resume 0x5000 demo = Ok tt w' /\
    if decide (state (demo_vcpu 5 VCPU_STATE_OFFLINE) = VCPU_STATE_SUSPENDED)
    then (exists s1 s2, [0x3000] = s1 ++ 0x5000 :: s2 /\
            sched_ok 0x1000 ([0x2000] ++ [0x5000]) (s1 ++ s2) w') /\
         same_rest demo w' /\
         vcpus w' = <[0x5000 := with_state VCPU_STATE_READY (demo_vcpu 5 VCPU_STATE_OFFLINE)]> (vcpus demo)
    else w' = demo).
Proof. apply (vcpu_queued_last 0x1000 [0x2000] [0x3000] demo 0x5000 _ demo_ok eq_refl). Defined.

(** Vcpu_restore_context of any vCPU traps, with a trap frame or without: the vCPU is
    marked running, ELR_EL1 and SPSR_EL1 have been written, and nothing else. *)
Lemma restore_traps v gp o w :
  vcpus w !! v = Some o ->
  exists w', vcpu_restore_context v gp w = Stop msr_read_only w' /\
    vcpus w' = <[v := with_state VCPU_STATE_RUNNING o]> (vcpus w) /\
    pcpus w' = pcpus w /\ lnk w' = lnk w /\ frames w' = frames w /\
    sys w' = partly_restored (vsysregs_el1 o) (sys w).
Proof. intros Hv. eexists. by rewrite (restore_run _ _ _ _ Hv). Qed.

(** Vcpu_suspend and vcpu_halt never work: on the only vCPUs they act on, the running
    ones, pcpu_switch has already cleared the list node, and taking it off a list again
    dereferences NULL. On a vCPU in any other state both return and change nothing. *)
Theorem running_vcpu_stuck p r s w v o :
  sched_ok p r s w -> vcpus w !! v = Some o ->
  if decide (state o = VCPU_STATE_RUNNING)
  then (exists w', vcpu_suspend v w = Stop (Fault NULL) w') /\
       (exists w', vcpu_halt v w = Stop (Fault NULL) w')
  else vcpu_suspend v w = Ok tt w /\ vcpu_halt v w = Ok tt w.
Proof.
  intros Hok Hv. case_decide as Hs.
  - eapply running_stuck; [done|]. by exists o.
  - by eapply vcpu_ops_ignored.
Qed.

Lemma running_vcpu_stuck_witness :
  if decide (state (demo_vcpu 4 VCPU_STATE_RUNNING) = VCPU_STATE_RUNNING)
  then (exists w', vcpu_suspend 0x4000 demo = Stop (Fault NULL) w') /\
       (exists w', vcpu_halt 0x4000 demo = Stop (Fault NULL) w')
  else vcpu_suspend 0x4000 demo = Ok tt demo /\ vcpu_halt 0x4000 demo = Ok tt demo.
Proof. apply (running_vcpu_stuck 0x1000 [0x2000] [0x3000] demo 0x4000 _ demo_ok eq_refl). Defined.

(** Pcpu_switch with no ready vCPU does not go idle: the test against NULL never holds
    for an initialised list, the head of the list is taken for a vCPU, the ready list is
    left with NULL links, and the write of the "next" vCPU's state goes to an address 520
    bytes below the pCPU, where no vCPU is. *)
Theorem pcpu_switch_empty p s w g gp :
  sched_ok p [] s w -> frames w !! gp = Some g -> p + off_ready_vcpus <> NULL ->
  exists w', pcpu_switch p gp w = Stop (Fault (p - 520)) w' /\
    nxt (lnk w') (p + off_ready_vcpus) = Some NULL /\
    prv (lnk w') (p + off_ready_vcpus) = Some NULL.
Proof.
  intros Hok Hg H0. destruct (pcpu_switch_empty_run p s w g gp Hok Hg H0) as (w' & E & ? & ?).
  exists w'. split; [|done]. rewrite E. do 2 f_equal. unfold ready_head, off_ready_vcpus, off_node. lia.
Qed.

Definition demo_idle : world := state_after (pcpu_switch 0x1000 0x9000) demo.

Lemma demo_idle_ok : sched_ok 0x1000 [] [0x3000] demo_idle.
Proof.
  destruct (pcpu_switch_run 0x1000 0x2000 [] [0x3000] demo demo_frame 0x9000 demo_ok eq_refl)
    as (c & o & L & _ & _ & E & Hok).
  unfold demo_idle, state_after. by rewrite E.
Qed.

Lemma pcpu_switch_empty_witness :
  exists w', pcpu_switch 0x1000 0x9000 demo_idle = Stop (Fault (0x1000 - 520)) w' /\
    nxt (lnk w') (0x1000 + off_ready_vcpus) = Some NULL /\
    prv (lnk w') (0x1000 + off_ready_vcpus) = Some NULL.
Proof.
  apply (pcpu_switch_empty 0x1000 [0x3000] demo_idle
           demo_frame 0x9000 demo_idle_ok); done.
Defined.

(** C28: a vCPU that pcpu_switch preempts is lost. Saving its context already makes it
    READY, so the branch that would queue it is dead: it is READY but on no list, and no
    sequence of operations on any vCPUs, further switches included, ever makes it the
    current vCPU or changes its state again. That a switch stops at the [msr] of a
    read-only register plays no part: the operations go on from where it stopped. *)
Theorem preempted_vcpu_lost p v r s w w1 w2 c gp :
  sched_ok p (v :: r) s w -> is_Some (frames w !! gp) -> p + off_ready_vcpus <> NULL ->
  pcpus w !! p = Some c -> current_vcpu c <> NULL ->
  leaves (pcpu_switch p gp w) w1 -> rtc (sched_step p) w1 w2 ->
  in_state w2 VCPU_STATE_READY (current_vcpu c) /\
  current_vcpu <$> pcpus w2 !! p <> Some (current_vcpu c) /\
  exists r2 s2, sched_ok p r2 s2 w2 /\ current_vcpu c ∉ r2.
Proof.
  intros Hok [g Hg] H0 Hc Hn E Hsteps. set (u := current_vcpu c) in *.
  assert (Hl : exists r1 s1, sched_ok p r1 s1 w1 /\ lost u r1 w1).
  { destruct (pcpu_switch_run p v r s w g gp Hok Hg) as (c' & o & L' & Hc' & Ho & E' & Hok').
    apply (leaves_msr _ _ _ E') in E as <-. exists r, s. split; [done|].
    assert (c' = c) as -> by congruence.
    destruct (so_cur _ _ _ _ Hok) as (c' & Hc'' & Hcur). assert (c' = c) as -> by congruence.
    fold u in Hcur. destruct Hcur as [?|(q & Hq & Hqs)]; [done|].
    destruct (so_ready_st _ _ _ _ Hok v ltac:(set_solver)) as (ov & Hov & Hovs).
    assert (u <> v) by congruence. split.
    - exists (saved g (sys w) q). unfold switched, save_current. cbn.
      fold u. rewrite lookup_insert_ne by done.
      rewrite (proj2 (truth_true u)) by done. by rewrite lookup_alter_eq, Hq.
    - intros Hin. destruct (so_ready_st _ _ _ _ Hok u ltac:(set_solver)) as (ou & Hou & ?). congruence. }
  clear E. induction Hsteps as [w1|w1 w1' w2 Hstep _ IH].
  - destruct Hl as (r1 & s1 & Hok1 & Hst & Hnot). split; [done|]. split; [|eauto].
    destruct (so_cur _ _ _ _ Hok1) as (c1 & Hc1 & Hcur). rewrite Hc1. cbn. intros [= Hu].
    rewrite Hu in Hcur. destruct Hcur as [?|Hr]; [done|].
    by pose proof (in_state_unique _ _ _ _ Hst Hr).
  - apply IH. destruct Hl as (r1 & s1 & Hok1 & Hl). by eapply sched_step_lost.
Qed.

Lemma preempted_vcpu_lost_witness :
  in_state demo_idle VCPU_STATE_READY 0x4000 /\
  current_vcpu <$> pcpus demo_idle !! 0x1000 <> Some 0x4000 /\
  exists r2 s2, sched_ok 0x1000 r2 s2 demo_idle /\ 0x4000 ∉ r2.
Proof.
  apply (preempted_vcpu_lost 0x1000 0x2000 [] [0x3000] demo demo_idle demo_idle
           {| pid := 0; current_vcpu := 0x4000 |} 0x9000 demo_ok);
    [by eexists|done|done|done|right; by vm_compute|apply rtc_refl].
Defined.
