(* ===== verification/Layout.v ===== *)
(** The image: lds/linker.lds, the sizes of the structures the program keeps in it, and the
    entry main/start.S.

    A structure is a list of members placed by the rules of the procedure call standard for
    AArch64, bit-fields included. The linker script is a list of statements, as the file has
    them, run on a location counter; the sizes and alignments of the input sections, which the
    compiler decides, are parameters. The entry runs on the core of Vectors beside the state of
    Boot. *)
From Stdlib Require Import ZArith Lia.
From stdpp Require Import base gmap list strings.
From S2P Require Import Prelude Mem Printf Io Spinlock GicRegs Gic GicIntr CList Console Timer Miniheap Host Exception Boot Vectors Vcpu.

Open Scope Z_scope.

(** * Structures *)

(** A bit-field of [width] bits in units of [unit] bytes, or a member of [size] bytes. *)
Inductive cfield := Bits (unit width : Z) | Bytes (size align : Z).

Definition u32_field : cfield := Bytes 4 4.
Definition u64_field : cfield := Bytes 8 8.
Definition pointer : cfield := Bytes 8 8.
Definition bits32 (width : Z) : cfield := Bits 4 width.
Definition bits64 (width : Z) : cfield := Bits 8 width.

Definition field_align (f : cfield) : Z := match f with Bits u _ => u | Bytes _ a => a end.

(** Where a member starts, in bits, when [b] bits are taken: a bit-field stays in the unit it
    starts in. *)
Definition field_start (b : Z) (f : cfield) : Z :=
  match f with
  | Bits u w => if b / (8 * u) =? (b + w - 1) / (8 * u) then b else align_up b (8 * u)
  | Bytes _ a => align_up b (8 * a)
  end.
Definition field_width (f : cfield) : Z := match f with Bits _ w => w | Bytes s _ => 8 * s end.

Fixpoint struct_bits (b : Z) (l : list cfield) : Z :=
  match l with
  | [] => b
  | f :: l' => struct_bits (field_start b f + field_width f) l'
  end.

Definition struct_align (l : list cfield) : Z := foldr (fun f a => Z.max (field_align f) a) 1 l.
Definition struct_size (l : list cfield) : Z := align_up (struct_bits 0 l) (8 * struct_align l) / 8.

(** The byte at which the members [l] after the members [front] begin. *)
Definition member_offset (front : list cfield) (f : cfield) : Z := field_start (struct_bits 0 front) f / 8.

Definition struct_array (n : Z) (l : list cfield) : cfield := Bytes (n * struct_size l) (struct_align l).
Definition nested (l : list cfield) : cfield := struct_array 1 l.

Definition list_head_fields : list cfield := [pointer; pointer].

(** gicv3.h: intid, group, security, irm, trigger, priority, nsac, reserved; the union; handle,
    arg, ops. *)
Definition irq_context_fields : list cfield :=
  (bits32 <$> [10; 1; 1; 1; 1; 8; 2; 8]) ++ [u32_field; pointer; pointer; pointer].

(** gicv3_internal.h: cpu_id; the control word; the identifier; the type; four pointers; the
    contexts of the SGIs and PPIs. *)
Definition gicr_context_fields : list cfield :=
  [u32_field] ++ (bits32 <$> [1; 1; 1; 1; 28]) ++ (bits32 <$> [12; 4; 4; 8; 4]) ++
  (bits64 <$> [1; 1; 1; 1; 1; 16; 2; 32; 9]) ++ [pointer; pointer; pointer; pointer] ++
  [struct_array 16 irq_context_fields; struct_array 16 irq_context_fields].

Definition gicd_context_fields : list cfield :=
  (bits32 <$> [10; 1; 1; 1; 1; 1; 17]) ++ (bits32 <$> [5; 3; 1; 1; 1; 5; 1; 1; 8]) ++
  (bits32 <$> [12; 4; 4; 8; 4]) ++ [pointer; pointer; pointer] ++
  [struct_array MAX_SUPPORTED_CPUS gicr_context_fields;
   struct_array MAX_SPI_CONTEXTS irq_context_fields].

Definition console_fields : list cfield :=
  [u32_field] ++ (bits32 <$> [1; 5; 12; 14]) ++ [pointer; pointer].

Definition timer_front : list cfield :=
  [u64_field; u32_field] ++ (bits32 <$> [1; 1; 30]) ++ [pointer; pointer; pointer].
Definition zhyper_timer_fields : list cfield := timer_front ++ [nested list_head_fields].

Definition manager_front : list cfield := [u32_field; u64_field].
Definition percpu_timer_manager_fields : list cfield := manager_front ++ [nested list_head_fields].

(** aarch64_utils.h: x, sp, pc, spsr. *)
Definition gpregs_fields : list cfield := [Bytes (31 * 8) 8; u64_field; u64_field; u64_field].

(** vcpu.h: the enumeration takes four bytes; list registers are one word each. *)
Definition gic_lrs_fields : list cfield := bits32 <$> [10; 10; 3; 6; 2; 1; 1].
Definition sysregs_el1_fields : list cfield := replicate 11 u64_field.
Definition vcpu_front : list cfield := [u32_field; u32_field].
Definition vcpu_lists : list cfield := [nested list_head_fields; nested list_head_fields].
Definition vcpu_registers : list cfield :=
  [struct_array 16 gic_lrs_fields; nested gpregs_fields; nested sysregs_el1_fields].
Definition vcpu_fields : list cfield :=
  vcpu_front ++ vcpu_lists ++ vcpu_registers ++ [nested list_head_fields; pointer].
Definition pcpu_fields : list cfield := [u32_field; nested list_head_fields; nested list_head_fields; pointer].

(** miniheap.h: the header of a free block and of a used one. *)
Definition freeblock_fields : list cfield := [u32_field; u32_field; u64_field].
Definition usedheader_fields : list cfield := [u32_field; u32_field].

(** * The linker script *)

(** An input section: its size, and its alignment as a power of two. *)
Record input := { i_size : Z; i_p2align : Z }.

(** Inside an output section: input sections, [name = .] and [. += n]. *)
Inductive piece := Inputs (l : list input) | Symbol (name : string) | Skip (n : Z).

(** [. = ALIGN(n)], an output section, and [name = .]. *)
Inductive stmt := AlignDot (n : Z) | Output (name : string) (l : list piece) | Assign (name : string).

(** The location counter, the symbols and the sections so far, the last first. *)
Record linking := { dot : Z; symbols : list (string * Z); sections : list (string * (Z * Z)) }.

Definition place (d : Z) (i : input) : Z := align_up d (2 ^ i_p2align i) + i_size i.

Definition set_dot (d : Z) (s : linking) : linking := {| dot := d; symbols := symbols s; sections := sections s |}.
Definition define (name : string) (s : linking) : linking :=
  {| dot := dot s; symbols := (name, dot s) :: symbols s; sections := sections s |}.
Definition finish (name : string) (start : Z) (s : linking) : linking :=
  {| dot := dot s; symbols := symbols s; sections := (name, (start, dot s)) :: sections s |}.

Definition run_piece (s : linking) (p : piece) : linking :=
  match p with
  | Inputs l => set_dot (foldl place (dot s) l) s
  | Symbol name => define name s
  | Skip n => set_dot (dot s + n) s
  end.

(** An output section is aligned as its most aligned input. *)
Definition piece_p2align (p : piece) : Z :=
  match p with Inputs l => foldr (fun i a => Z.max (i_p2align i) a) 0 l | _ => 0 end.
Definition output_align (l : list piece) : Z := 2 ^ foldr (fun p a => Z.max (piece_p2align p) a) 0 l.

Definition run_stmt (s : linking) (t : stmt) : linking :=
  match t with
  | AlignDot n => set_dot (align_up (dot s) n) s
  | Output name l =>
      let start := align_up (dot s) (output_align l) in
      finish name start (foldl run_piece (set_dot start s) l)
  | Assign name => define name s
  end.

Definition link (l : list stmt) (d : Z) : linking :=
  foldl run_stmt {| dot := d; symbols := []; sections := [] |} l.

(** The value of a symbol. *)
Definition find_symbol (name : string) (l : list (string * Z)) : Z :=
  default 0 (snd <$> head (filter (fun p => p.1 = name) l)).
Definition symbol (s : linking) (name : string) : Z := find_symbol name (symbols s).

(** layout.h and the script agree on it. *)
Definition ZHIMGE_VADDR : Z := 0x40200000.

(** What the compiler made of the program: the input sections each pattern matches. *)
Record inputs := {
  text_boot : list input; xtable : list input; text_in : list input; rodata : list input;
  data_console : list input; data_in : list input; bss : list input }.

(** The sections that come from the program. *)
Definition program_sections (i : inputs) : list stmt := [
  Output ".text.boot" [Inputs (text_boot i)];
  AlignDot 0x1000;
  Output ".xtable" [Inputs (xtable i)];
  AlignDot 0x1000;
  Output ".text" [Inputs (text_in i)];
  AlignDot 0x1000;
  Output ".rodata" [Inputs (rodata i)];
  AlignDot 0x1000;
  Output ".data" [Symbol "__start___console"; Inputs (data_console i); Symbol "__stop___console"; Inputs (data_in i)];
  Output ".bss" [Symbol "__bss_start"; Inputs (bss i); Symbol "__bss_end"]].

(** The sections the script reserves. *)
Definition reserved_sections : list stmt := [
  AlignDot 0x1000;
  Output ".gic_context" [Symbol "__gic_context_start"; Skip 0x10000; Symbol "__gic_context_end"];
  AlignDot 0x1000;
  Output ".stack" [Symbol "__stack_start"; Skip 0x8000; Symbol "__stack_end"];
  AlignDot 0x1000;
  Output ".heap" [Symbol "__heap_start"; Skip ZHYPER_HEAP_SIZE];
  Assign "HIMAGE_END"].

Definition linker_lds (i : inputs) : list stmt := program_sections i ++ reserved_sections.
Definition image (i : inputs) : linking := link (linker_lds i) ZHIMGE_VADDR.

(** * The entry *)

Section Start.
Context {D : Type} `{Hardware D} `{Config} `{TimerLayout} `{BootLayout}.

Definition on_boot {A} (m : M (boot D) A) : M (core * boot D) A := zoom snd (fun p b => (fst p, b)) m.

(** start.S: [ldr x0, =__stack_end; mov sp, x0; bl platform_init; b .]. [after_bl] is the
    address of the last. *)
Definition _start (i : inputs) (after_bl : Z) (fuel : nat) : M (core * boot D) unit :=
  on_core (set_reg 0 (symbol (image i) "__stack_end")) ;;
  on_core (exec (MovToSp 0)) ;;
  on_core (set_reg 30 after_bl) ;;
  _ ← on_boot (platform_init fuel);
  stop_with Hang.
End Start.
