(* ===== verification/LayoutProof.v ===== *)
(** The layout of the image: every section after the one before, and the addresses of the
    reserved ones; and the boot of the linked program. *)
From Stdlib Require Import ZArith Lia.
From stdpp Require Import base gmap list strings.
From S2P Require Import Prelude Mem HeapSpec Miniheap HeapProof HeapClient CStringProof Printf PrintfProof Io IoProof.
From S2P Require Import Spinlock GicRegs Gic GicIntr GicProof GicIntrProof GicOpsProof GicInitProof.
From S2P Require Import HostProof CList Console ConsoleProof Timer TimerProof Host Exception IrqProof Boot BootProof Vectors Layout.

Open Scope Z_scope.

(** * Alignment *)

Lemma align_up_bounds x a : 0 < a -> x <= align_up x a < x + a.
Proof.
  intros Ha. unfold align_up. pose proof (Z.div_mod (x + a - 1) a ltac:(lia)).
  pose proof (Z.mod_pos_bound (x + a - 1) a Ha). lia.
Qed.

Lemma align_up_mod x a : 0 < a -> align_up x a mod a = 0.
Proof. intros Ha. unfold align_up. rewrite Z.mul_comm. apply Z.mod_mul. lia. Qed.

Lemma align_up_id x a : 0 < a -> x mod a = 0 -> align_up x a = x.
Proof.
  intros Ha Hx. apply Z.mod_divide in Hx as [p ->]; [|lia]. unfold align_up.
  replace (p * a + a - 1) with (a - 1 + p * a) by lia.
  rewrite Z.div_add, Z.div_small by lia. lia.
Qed.

Lemma align_up_1 x : align_up x 1 = x.
Proof. apply align_up_id; [lia|apply Z.mod_1_r]. Qed.

(** * Any script *)

Definition input_ok (i : input) : Prop := 0 <= i_size i /\ 0 <= i_p2align i.
Definition piece_ok (p : piece) : Prop :=
  match p with Inputs l => Forall input_ok l | Symbol _ => True | Skip n => 0 <= n end.
Definition stmt_ok (t : stmt) : Prop :=
  match t with AlignDot n => 0 < n | Output _ l => Forall piece_ok l | Assign _ => True end.

Lemma place_le d i : input_ok i -> d <= place d i.
Proof.
  intros [Hs Ha]. unfold place. pose proof (align_up_bounds d (2 ^ i_p2align i) ltac:(lia)). lia.
Qed.

Lemma foldl_le {A B} (f : A -> B -> A) (m : A -> Z) (P : B -> Prop) (l : list B) a :
  (forall a b, P b -> m a <= m (f a b)) -> Forall P l -> m a <= m (foldl f a l).
Proof.
  intros Hf Hl. revert a. induction Hl as [|b l Hb Hl IH]; intros a; cbn; [done|].
  etrans; [apply (Hf a b Hb)|apply IH].
Qed.

Lemma run_piece_le s p : piece_ok p -> dot s <= dot (run_piece s p).
Proof.
  intros Hp. destruct p as [l|n|n]; cbn in *; [|lia|lia].
  apply (foldl_le place id input_ok); [exact place_le|done].
Qed.

Lemma run_pieces_le s l : Forall piece_ok l -> dot s <= dot (foldl run_piece s l).
Proof. apply foldl_le. exact run_piece_le. Qed.

Lemma run_pieces_sections s l : sections (foldl run_piece s l) = sections s.
Proof. revert s. induction l as [|[] l IH]; intros s; cbn; [done|by rewrite IH..]. Qed.

Lemma output_align_pos l : 0 < output_align l.
Proof.
  unfold output_align. apply Z.pow_pos_nonneg; [lia|]. induction l; cbn; lia.
Qed.

(** The sections lie one after the other, up to the location counter. *)
Fixpoint laid_out (top : Z) (l : list (string * (Z * Z))) : Prop :=
  match l with
  | [] => True
  | (_, (a, b)) :: l' => a <= b /\ b <= top /\ laid_out a l'
  end.

Lemma laid_out_le t t' l : t <= t' -> laid_out t l -> laid_out t' l.
Proof. intros Ht. destruct l as [|[n [a b]] l]; cbn; [done|]. intros (? & ? & ?). split; [done|]. split; [lia|done]. Qed.

Lemma run_stmt_laid_out s t :
  stmt_ok t -> laid_out (dot s) (sections s) ->
  dot s <= dot (run_stmt s t) /\ laid_out (dot (run_stmt s t)) (sections (run_stmt s t)).
Proof.
  intros Ht Hl. destruct t as [n|name l|name]; cbn in *.
  - pose proof (align_up_bounds (dot s) n Ht). split; [lia|]. by apply (laid_out_le (dot s)); [lia|].
  - pose proof (align_up_bounds (dot s) _ (output_align_pos l)) as Ha.
    set (s0 := set_dot (align_up (dot s) (output_align l)) s).
    pose proof (run_pieces_le s0 l Ht) as Hd. cbn in Hd.
    split; [lia|]. split; [done|]. split; [done|]. rewrite run_pieces_sections. cbn.
    by apply (laid_out_le (dot s)); [lia|].
  - done.
Qed.

Lemma link_laid_out l s :
  Forall stmt_ok l -> laid_out (dot s) (sections s) ->
  dot s <= dot (foldl run_stmt s l) /\ laid_out (dot (foldl run_stmt s l)) (sections (foldl run_stmt s l)).
Proof.
  intros Hl. revert s. induction Hl as [|t l Ht _ IH]; intros s Hs; cbn; [done|].
  destruct (run_stmt_laid_out s t Ht Hs) as [H1 H2]. destruct (IH _ H2) as [H3 H4]. split; [lia|done].
Qed.

(** Sections that are laid out do not overlap. *)
Lemma laid_out_lookup t l i n a b : laid_out t l -> l !! i = Some (n, (a, b)) -> a <= b /\ b <= t.
Proof.
  revert t i. induction l as [|[m [c d]] l IH]; intros t i Hl Hi; [done|]. destruct Hl as (? & ? & Hl).
  destruct i as [|i]; cbn in Hi; [by simplify_eq|]. destruct (IH _ _ Hl Hi). lia.
Qed.

Lemma laid_out_disjoint t l i j n a b m c d :
  laid_out t l -> l !! i = Some (n, (a, b)) -> l !! j = Some (m, (c, d)) -> (i < j)%nat -> d <= a.
Proof.
  revert t i j. induction l as [|[k [e f]] l IH]; intros t i j Hl Hi Hj Hij; [done|]. destruct Hl as (? & ? & Hl).
  destruct j as [|j]; [lia|]. destruct i as [|i]; cbn in *; simplify_eq.
  - by eapply laid_out_lookup.
  - eapply IH; eauto. lia.
Qed.

(** * The script of the hypervisor *)

Record inputs_ok (i : inputs) : Prop := {
  ok_boot : Forall input_ok (text_boot i); ok_xtable : Forall input_ok (xtable i);
  ok_text : Forall input_ok (text_in i); ok_rodata : Forall input_ok (rodata i);
  ok_console : Forall input_ok (data_console i); ok_data : Forall input_ok (data_in i);
  ok_bss : Forall input_ok (bss i) }.

Lemma linker_lds_ok i : inputs_ok i -> Forall stmt_ok (linker_lds i).
Proof. intros []. repeat constructor; try done. Qed.

Definition initial_link : linking := {| dot := ZHIMGE_VADDR; symbols := []; sections := [] |}.

Lemma image_laid_out i : inputs_ok i ->
  ZHIMGE_VADDR <= dot (image i) /\ laid_out (dot (image i)) (sections (image i)).
Proof. intros Hi. by apply (link_laid_out _ initial_link); [apply linker_lds_ok|]. Qed.

(** What the program's own sections leave. *)
Definition program_link (i : inputs) : linking := foldl run_stmt initial_link (program_sections i).

Lemma image_split i : image i = foldl run_stmt (program_link i) reserved_sections.
Proof. unfold image, link, linker_lds, program_link. by rewrite foldl_app. Qed.

(** The page after the program's sections. *)
Definition reserved_page (i : inputs) : Z := align_up (dot (program_link i)) 0x1000.

Record reserved (i : inputs) : Prop := {
  r_gic_start : symbol (image i) "__gic_context_start" = reserved_page i;
  r_gic_end : symbol (image i) "__gic_context_end" = reserved_page i + 0x10000;
  r_stack_start : symbol (image i) "__stack_start" = reserved_page i + 0x10000;
  r_stack_end : symbol (image i) "__stack_end" = reserved_page i + 0x18000;
  r_heap_start : symbol (image i) "__heap_start" = reserved_page i + 0x18000;
  r_top : symbol (image i) "HIMAGE_END" = reserved_page i + 0x18000 + ZHYPER_HEAP_SIZE;
  r_dot : dot (image i) = reserved_page i + 0x18000 + ZHYPER_HEAP_SIZE;
  r_sections : sections (image i) =
    [(".heap", (reserved_page i + 0x18000, reserved_page i + 0x18000 + ZHYPER_HEAP_SIZE));
     (".stack", (reserved_page i + 0x10000, reserved_page i + 0x18000));
     (".gic_context", (reserved_page i, reserved_page i + 0x10000))]%string ++ sections (program_link i) }.

Lemma page_up p n : p mod 0x1000 = 0 -> n mod 0x1000 = 0 -> align_up (p + n) 0x1000 = p + n.
Proof. intros Hp Hn. apply align_up_id; [lia|]. by rewrite Z.add_mod, Hp, Hn by lia. Qed.

Lemma run_reserved s : let p := align_up (dot s) 0x1000 in
  foldl run_stmt s reserved_sections = {|
    dot := p + 0x10000 + 0x8000 + ZHYPER_HEAP_SIZE;
    symbols := [("HIMAGE_END", p + 0x10000 + 0x8000 + ZHYPER_HEAP_SIZE); ("__heap_start", p + 0x10000 + 0x8000);
      ("__stack_end", p + 0x10000 + 0x8000); ("__stack_start", p + 0x10000);
      ("__gic_context_end", p + 0x10000); ("__gic_context_start", p)]%string ++ symbols s;
    sections := [(".heap", (p + 0x10000 + 0x8000, p + 0x10000 + 0x8000 + ZHYPER_HEAP_SIZE));
      (".stack", (p + 0x10000, p + 0x10000 + 0x8000)); (".gic_context", (p, p + 0x10000))]%string ++ sections s |}.
Proof.
  cbn zeta. assert (Hp : align_up (dot s) 0x1000 mod 0x1000 = 0) by (apply align_up_mod; lia).
  unfold reserved_sections, output_align. cbn -[align_up]. set (p := align_up (dot s) 4096) in *.
  rewrite !align_up_1, (page_up p 0x10000) by done.
  rewrite <- (Z.add_assoc p 0x10000 0x8000), (page_up p (0x10000 + 0x8000)) by done. reflexivity.
Qed.

Lemma image_reserved i : reserved i.
Proof.
  pose proof (image_split i) as E. rewrite run_reserved in E. fold (reserved_page i) in E.
  split; rewrite E; cbn; rewrite <- ?Z.add_assoc; reflexivity.
Qed.

(** The console registry and .bss. *)
Definition data_pieces (i : inputs) : list piece :=
  [Symbol "__start___console"; Inputs (data_console i); Symbol "__stop___console"; Inputs (data_in i)].
Definition front_link (i : inputs) : linking := foldl run_stmt initial_link (take 8 (program_sections i)).
Definition data_start (i : inputs) : Z := align_up (dot (front_link i)) (output_align (data_pieces i)).
Definition data_end (i : inputs) : Z := foldl place (foldl place (data_start i) (data_console i)) (data_in i).
Definition bss_start (i : inputs) : Z := align_up (data_end i) (output_align [Symbol "__bss_start"; Inputs (bss i); Symbol "__bss_end"]).

Lemma run_program i :
  dot (program_link i) = foldl place (bss_start i) (bss i) /\
  exists old, symbols (program_link i) =
    [("__bss_end", foldl place (bss_start i) (bss i)); ("__bss_start", bss_start i);
     ("__stop___console", foldl place (data_start i) (data_console i)); ("__start___console", data_start i)]%string ++ old.
Proof.
  unfold program_link. rewrite <- (take_drop 8 (program_sections i)), foldl_app. fold (front_link i).
  unfold bss_start, data_end, data_start. fold (data_pieces i).
  generalize (front_link i). intros s. unfold program_sections, data_pieces. cbn -[align_up output_align place].
  split; [done|]. by eexists.
Qed.

Lemma image_program_symbols i :
  symbol (image i) "__bss_end" = dot (program_link i) /\ symbol (image i) "__bss_start" = bss_start i /\
  symbol (image i) "__start___console" = data_start i /\
  symbol (image i) "__stop___console" = foldl place (data_start i) (data_console i).
Proof.
  destruct (run_program i) as (E & old & Es). rewrite E. unfold symbol.
  rewrite image_split, run_reserved. cbn [symbols]. rewrite Es. by split_and!.
Qed.

Lemma front_le i : inputs_ok i -> ZHIMGE_VADDR <= dot (front_link i).
Proof.
  intros Hi. apply (link_laid_out (take 8 (program_sections i)) initial_link); [|done].
  apply Forall_take. pose proof (linker_lds_ok i Hi) as Hl. by apply Forall_app in Hl as [Hl _].
Qed.

Lemma foldl_place_le l d : Forall input_ok l -> d <= foldl place d l.
Proof. intros Hl. by apply (foldl_le place id input_ok); [exact place_le|]. Qed.

(** .bss lies in the image, below the reserved sections. *)
Lemma bss_range i : inputs_ok i ->
  ZHIMGE_VADDR <= symbol (image i) "__start___console" /\
  symbol (image i) "__start___console" <= symbol (image i) "__stop___console" <= symbol (image i) "__bss_start" /\
  symbol (image i) "__bss_start" <= symbol (image i) "__bss_end" <= reserved_page i.
Proof.
  intros Hi. destruct (image_program_symbols i) as (-> & -> & -> & ->).
  pose proof (front_le i Hi) as Hf. destruct Hi as [_ _ _ _ Hc Hd Hb].
  pose proof (align_up_bounds (dot (front_link i)) _ (output_align_pos (data_pieces i))).
  pose proof (align_up_bounds (data_end i) _ (output_align_pos [Symbol "__bss_start"; Inputs (bss i); Symbol "__bss_end"])).
  pose proof (foldl_place_le (data_console i) (data_start i) Hc).
  pose proof (foldl_place_le (data_in i) (foldl place (data_start i) (data_console i)) Hd).
  pose proof (foldl_place_le (bss i) (bss_start i) Hb).
  destruct (run_program i) as [E _]. unfold reserved_page.
  pose proof (align_up_bounds (dot (program_link i)) 0x1000 ltac:(lia)).
  change (align_up (dot (front_link i)) (output_align (data_pieces i))) with (data_start i) in *.
  change (align_up (data_end i) _) with (bss_start i) in *.
  change (foldl place (foldl place (data_start i) (data_console i)) (data_in i)) with (data_end i) in *. lia.
Qed.

(** What CONSOLE_REGISTER puts in .data.console in one source file: [n] consoles. *)
Definition console_section (n : nat) : input := {| i_size := Z.of_nat n * struct_size console_fields; i_p2align := 3 |}.

Lemma foldl_place_consoles d l :
  d mod 8 = 0 -> foldl place d (console_section <$> l) = d + struct_size console_fields * Z.of_nat (sum_list l).
Proof.
  change (struct_size console_fields) with 24. revert d. induction l as [|n l IH]; intros d Hd; [cbn; lia|].
  rewrite fmap_cons. cbn [foldl]. unfold place at 2. cbn [console_section i_size i_p2align].
  change (struct_size console_fields) with 24. change (2 ^ 3) with 8. rewrite align_up_id by (done || lia).
  rewrite IH; [cbn; lia|]. replace (Z.of_nat n * 24) with (3 * Z.of_nat n * 8) by lia. by rewrite Z.mod_add.
Qed.

(** The registry is an array: no padding, and aligned for its elements. *)
Lemma console_array i l : inputs_ok i -> data_console i = console_section <$> l ->
  symbol (image i) "__stop___console" =
    symbol (image i) "__start___console" + struct_size console_fields * Z.of_nat (sum_list l) /\
  (l <> [] -> symbol (image i) "__start___console" mod 8 = 0).
Proof.
  intros Hi El. destruct (image_program_symbols i) as (_ & _ & -> & ->). rewrite El.
  assert (Ha : l <> [] -> data_start i mod 8 = 0).
  { intros Hl. unfold data_start. pose proof (output_align_pos (data_pieces i)) as Hpos.
    pose proof (align_up_mod (dot (front_link i)) _ Hpos) as Hm.
    apply Z.mod_divide in Hm; [|lia]. apply Z.mod_divide; [lia|]. etrans; [|exact Hm].
    unfold output_align, data_pieces. cbn [foldr piece_p2align]. rewrite El. change 8 with (2 ^ 3).
    assert (H3 : 3 <= foldr (fun j a => Z.max (i_p2align j) a) 0 (console_section <$> l)).
    { destruct l; [done|]. cbn. lia. }
    match goal with |- (_ | 2 ^ ?k) => replace k with (3 + (k - 3)) by lia end.
    rewrite Z.pow_add_r by lia. apply Z.divide_factor_l. }
  split; [|done]. destruct l as [|n l]; [cbn; lia|]. by apply foldl_place_consoles, Ha.
Qed.

(** * The linked program *)

#[global] Instance started_traced {D} : Traced (core * boot D) := fun p => trace_of (snd p).

Section Start.
Context {D : Type} `{Hardware D} `{Config} `{TimerLayout} `{BootLayout}.

(** What the boot relies on when the addresses are the linker's: the statically allocated
    objects lie in .bss, the heap is mapped and the image ends below 2^64; the objects are
    initialised as the program declares them, and the hardware answers. *)
Record loaded (i : inputs) (b : boot D) (name ops : Z) (g0 : gicr_context) (c0 : irq_context) : Prop := {
  ld_inputs : inputs_ok i;
  ld_top : symbol (image i) "HIMAGE_END" < 2 ^ 64;
  ld_heap : __heap_start = symbol (image i) "__heap_start";
  ld_mapped : mapped (hmem (theap (board b))) __heap_start ZHYPER_HEAP_SIZE;
  ld_manager : symbol (image i) "__bss_start" <= s_timer_manager;
  ld_manager_end : s_timer_manager + sizeof_timer_manager * NR_CPU <= symbol (image i) "__bss_end";
  ld_ops : ZHIMGE_VADDR <= ops;
  ld_console : registry b = program_consoles name ops;
  ld_name : cstr (strings b) name (str "pl011");
  ld_literal : cstr (strings b) pl011_literal (str "pl011");
  ld_once : heap_once b = ONCE_INITIALIZER;
  ld_gic_once : gicd_init_once (tgic (board b)) = ONCE_INITIALIZER;
  ld_gicr : gicrs (tgic (board b)) !! 0 = Some g0;
  ld_gicr_id : r_cpu_id g0 = 0;
  ld_ppi : irqs (tgic (board b)) !! PpiCtx 0 (PPI_TIMER_INTID_EL2 - 16) = Some c0;
  ld_managers : exists mm, managers (board b) !! s_timer_manager = Some mm;
  ld_manager_list : is_Some (tlinks (board b) !! (s_timer_manager + off_timer_list));
  ld_no_timers : objs (board b) = ∅;
  ld_cpu : on_this_cpu (D:=D) 0;
  ld_hz : 0 < HZ;
  ld_gicd_answers : gicd_settles (D:=D) GICD_BASE;
  ld_gicr_answers : gicr_settles (D:=D) (frame_base 0);
  ld_gicr_wakes : wakes (D:=D) (frame_base 0) }.

(** The linker script gives the addresses the boot needs. *)
Lemma loaded_powered_on i b name ops g0 c0 : loaded i b name ops g0 c0 -> powered_on b name ops g0 c0.
Proof.
  intros []. pose proof (r_heap_start i (image_reserved i)) as Eh. pose proof (r_top i (image_reserved i)) as Et.
  destruct (bss_range i ld_inputs0) as (Hc & Hcs & Hbs). rewrite Eh in ld_heap0. rewrite Et in ld_top0.
  assert (Hn : 0 < NR_CPU) by (destruct ld_cpu0; lia).
  unfold sizeof_timer_manager, ZHIMGE_VADDR in *. split; try done.
  - lia.
  - split; [rewrite ld_heap0; lia|rewrite ld_heap0; lia|unfold ZHYPER_HEAP_SIZE; lia|done].
  - lia.
  - left. rewrite ld_heap0. unfold off_timer_list. lia.
Qed.

(** The core as platform_init finds it. *)
Definition entered (i : inputs) (after_bl : Z) (c : core) : core :=
  set_gp (<[30%nat := after_bl]> (<[0%nat := symbol (image i) "__stack_end"]> (gp c)))
    (set_sp (symbol (image i) "__stack_end") c).

Lemma start_enters i after_bl fuel c b w b' l :
  length (gp c) = 31%nat -> halts (platform_init fuel) b w b' l ->
  halts (_start i after_bl fuel) (c, b) w (entered i after_bl c, b') l.
Proof.
  intros Hc [E T]. split; [|exact T]. unfold _start, on_core, on_boot, exec, set_reg, reg, zoom, mbind, M_bind, gets, modify.
  cbn -[symbol image platform_init]. rewrite list_lookup_total_insert_eq by lia.
  unfold entered, set_gp, set_sp in *. cbn -[symbol image platform_init]. by rewrite E.
Qed.
End Start.
