(* ===== verification/LayoutTheorems.v ===== *)
(** The properties of the image, and the program from its entry on. *)
From Stdlib Require Import ZArith Lia.
From stdpp Require Import base gmap list strings.
From S2P Require Import Prelude Mem HeapSpec Miniheap HeapProof HeapClient CStringProof Printf PrintfProof Io IoProof.
From S2P Require Import Spinlock GicRegs Gic GicIntr GicProof GicIntrProof GicOpsProof GicInitProof.
From S2P Require Import HostProof CList Console ConsoleProof ConsoleTheorems Timer TimerProof TimerTheorems Exception IrqProof.
From S2P Require Import Boot BootProof BootTheorems Vectors Vcpu Layout LayoutProof.

Open Scope Z_scope.

(** The sizes and offsets the models of the components use are those the declarations have. *)
Lemma declared_sizes :
  struct_size zhyper_timer_fields = sizeof_zhyper_timer /\
  member_offset timer_front (nested list_head_fields) = off_list /\
  struct_size percpu_timer_manager_fields = sizeof_timer_manager /\
  member_offset manager_front (nested list_head_fields) = off_timer_list /\
  struct_size gpregs_fields = FRAME /\
  struct_size usedheader_fields = sizeof_usedheader /\
  member_offset [u32_field] u32_field = fb_size 0 /\
  member_offset [u32_field; u32_field] u64_field = fb_next 0 /\
  member_offset vcpu_front (nested list_head_fields) = off_irq_list /\
  member_offset (vcpu_front ++ [nested list_head_fields]) (nested list_head_fields) = off_preempt_list /\
  member_offset (vcpu_front ++ vcpu_lists ++ vcpu_registers) (nested list_head_fields) = off_node /\
  member_offset [u32_field] (nested list_head_fields) = off_ready_vcpus /\
  member_offset [u32_field; nested list_head_fields] (nested list_head_fields) = off_suspend_vcpus.
Proof. by vm_compute. Qed.

(** * A concrete image *)

(** One input section of each kind, with the sizes of a small build: one console, one timer
    manager. *)
Definition demo_input (size p2align : Z) : input := {| i_size := size; i_p2align := p2align |}.
Definition demo_inputs : inputs := {|
  text_boot := []; xtable := []; text_in := [demo_input 0x1234 2; demo_input 0x1800 11];
  rodata := [demo_input 0x345 3]; data_console := [console_section 1];
  data_in := [demo_input 0x40 3]; bss := [demo_input 0x10 3; demo_input 0x24 3] |}.

Lemma demo_inputs_ok : inputs_ok demo_inputs.
Proof. split; repeat constructor; cbn; try lia; by vm_compute. Qed.

Example demo_heap_start : symbol (image demo_inputs) "__heap_start" = 0x4021d000.
Proof. vm_compute. reflexivity. Qed.

(** The machine of BootTheorems with the objects where the linker puts them. *)
#[local] Instance image_boot_layout : BootLayout :=
  {| hyper_vector := 0x40202800; pl011_literal := 16; __heap_start := 0x4021d000; test_timer_cb_code := 0x40202000 |}.
#[local] Instance image_timer_layout : TimerLayout := {| s_timer_manager := 0x40204068; timer_irq_handler_code := 0x40202100 |}.

Definition image_timers : timers clock app :=
  {| tgic := {| gio := {| dev := Clock; trace := [] |}; gicd := gicd_context_zero; gicrs := {[0 := gicr_context_zero]};
                irqs := {[PpiCtx 0 10 := irq_context_zero]}; gicd_init_once := ONCE_INITIALIZER |};
     theap := HeapState (Miniheap 0 0 0 0 0) (zeros 0x4021d000 (Z.to_nat ZHYPER_HEAP_SIZE));
     tlinks := {[0x40204078 := {| prev := 0; next := 0 |}]}; objs := ∅;
     managers := {[0x40204068 := {| nr_timers := 0; last_tick := 0 |}]}; g_counter := 0; user := App 0 [] |}.

Definition image_start : boot clock := Boot image_timers name_mem (program_consoles 0 0x40204018) 0 ONCE_INITIALIZER.

Lemma image_loaded : loaded demo_inputs image_start 0 0x40204018 gicr_context_zero irq_context_zero.
Proof.
  split.
  4: { pose proof (zeros_mapped 0x4021d000 (Z.to_nat ZHYPER_HEAP_SIZE)) as Hz.
       rewrite Z2Nat.id in Hz by (unfold ZHYPER_HEAP_SIZE; lia). exact Hz. }
  all: try reflexivity.
  - exact demo_inputs_ok.
  - by vm_compute.
  - by vm_compute.
  - by vm_compute.
  - change (cstr name_mem 0 (str "pl011")). by vm_compute.
  - change (cstr name_mem 16 (str "pl011")). by vm_compute.
  - eexists. reflexivity.
  - eexists. reflexivity.
  - split; [cbn; lia|done].
  - intros d. by left.
  - intros d. by left.
  - intros d. by left.
Qed.

(** * Properties *)

(** C12: the memory map. Whatever the sizes and alignments of the compiler's sections, the
    sections of the image lie one after the other without overlapping, above 0x40200000. The
    contexts of the interrupt controller fit the 64 KiB reserved for them, with room for every
    SPI and eight CPUs, and are aligned; the stack is the 32 KiB below the heap and its top is
    aligned as the procedure call standard asks; the heap is the 1 MiB that miniheap_init is
    given, page-aligned and the last of the image; .bss is below all of these; and the console
    registry is an array without padding, so that its loops visit exactly the registered
    consoles. *)
Theorem image_layout i l :
  inputs_ok i -> data_console i = console_section <$> l ->
  (forall j k n a b m c d, sections (image i) !! j = Some (n, (a, b)) -> sections (image i) !! k = Some (m, (c, d)) ->
     (j < k)%nat -> d <= a) /\
  struct_size gicd_context_fields <= symbol (image i) "__gic_context_end" - symbol (image i) "__gic_context_start" /\
  symbol (image i) "__gic_context_start" mod struct_align gicd_context_fields = 0 /\
  symbol (image i) "__stack_start" = symbol (image i) "__gic_context_end" /\
  symbol (image i) "__stack_end" = symbol (image i) "__stack_start" + 0x8000 /\
  symbol (image i) "__heap_start" = symbol (image i) "__stack_end" /\
  symbol (image i) "__stack_end" mod 0x1000 = 0 /\
  symbol (image i) "HIMAGE_END" = symbol (image i) "__heap_start" + ZHYPER_HEAP_SIZE /\
  ZHIMGE_VADDR <= symbol (image i) "__start___console" /\
  symbol (image i) "__stop___console" =
    symbol (image i) "__start___console" + struct_size console_fields * Z.of_nat (sum_list l) /\
  symbol (image i) "__stop___console" <= symbol (image i) "__bss_start" /\
  symbol (image i) "__bss_end" <= symbol (image i) "__gic_context_start".
Proof.
  intros Hi Hl. destruct (image_laid_out i Hi) as [_ Ho]. destruct (image_reserved i) as [-> -> -> -> -> -> _ _].
  destruct (bss_range i Hi) as (Hc & [_ Hb] & Hbs & Hbe). destruct (console_array i l Hi Hl) as [Hcons _].
  assert (Hp : reserved_page i mod 0x1000 = 0) by (apply align_up_mod; lia).
  change (struct_size gicd_context_fields) with 40296. change (struct_align gicd_context_fields) with 8.
  split_and!; try done; try lia.
  - intros j k n a b m c d Hj Hk Hjk. by eapply laid_out_disjoint.
  - apply Z.mod_divide in Hp as [q ->]; [|lia]. apply Z.mod_divide; [lia|]. exists (q * 512). lia.
  - by rewrite Z.add_mod, Hp by lia.
Qed.

Lemma image_layout_witness :
  symbol (image demo_inputs) "__heap_start" = symbol (image demo_inputs) "__stack_end" /\
  symbol (image demo_inputs) "__stop___console" = symbol (image demo_inputs) "__start___console" + 24 * 1.
Proof.
  destruct (image_layout demo_inputs [1%nat] demo_inputs_ok eq_refl) as (_ & _ & _ & _ & _ & H6 & _ & _ & _ & H10 & _).
  split; [exact H6|exact H10].
Defined.

(** C10: the program from its entry, as linked. [_start] sets the stack pointer to the top of
    the 32 KiB stack, page-aligned and below the heap, and calls platform_init, which on
    hardware that answers reaches its idle loop with exactly the register writes of the boot.
    Of the addresses it asks only that the objects lie where the linker script puts them: the
    heap is the script's, mapped, the timer managers lie in .bss, and the image ends below
    2^64. *)
Theorem image_boots {D} `{Hardware D} `{Config} `{TimerLayout} `{BootLayout} fuel i after_bl c (b : boot D) name ops g0 c0 :
  loaded i b name ops g0 c0 -> length (gp c) = 31%nat -> (5 <= fuel)%nat ->
  c_sp (entered i after_bl c) = symbol (image i) "__stack_end" /\
  c_sp (entered i after_bl c) mod 0x1000 = 0 /\ c_sp (entered i after_bl c) <= __heap_start /\
  exists hcr typer ty waker ctlr cntfrq le b' l,
    halts (_start i after_bl fuel) (c, b) Hang (entered i after_bl c, b') l /\
    effects l = boot_writes hcr typer waker ctlr cntfrq le /\
    enable_writes (tgic (board b)) (gicr_attributes 0 ty g0) (PpiCtx 0 (PPI_TIMER_INTID_EL2 - 16))
      (timer_context s_timer_manager (ppi_context_of PPI_TIMER_INTID_EL2 c0)) le /\
    booted c0 (board b') (user (board b)) /\
    registry b' = set_enabled true <$> program_consoles name ops /\ uart_base b' = PL011_BASE_ADDR /\
    flag (heap_once b') = 1.
Proof.
  intros Hld Hc Hf. pose proof (image_reserved i) as [_ _ _ Es Eh _ _ _].
  assert (Hp : reserved_page i mod 0x1000 = 0) by (apply align_up_mod; lia).
  cbn [entered c_sp set_gp set_sp]. rewrite (ld_heap _ _ _ _ _ _ Hld), Eh, Es.
  split; [done|]. split; [by rewrite Z.add_mod, Hp by lia|]. split; [done|].
  destruct (boot_run fuel b name ops g0 c0 (loaded_powered_on _ _ _ _ _ _ Hld) Hf)
    as (hcr & typer & ty & waker & ctlr & cntfrq & le & b' & l & R & E & Hle & B & _ & Hr & Hu & Hfl).
  exists hcr, typer, ty, waker, ctlr, cntfrq, le, b', l. split; [by apply start_enters|done].
Qed.

Definition reset_core : core := Core (replicate 31 0) 0 0x40202000 0 0 0 ∅.

Lemma image_boots_witness :
  c_sp (entered demo_inputs 0x40202010 reset_core) = symbol (image demo_inputs) "__stack_end" /\
  exists b' l, halts (_start demo_inputs 0x40202010 5) (reset_core, image_start) Hang
                 (entered demo_inputs 0x40202010 reset_core, b') l.
Proof.
  destruct (image_boots 5 demo_inputs 0x40202010 reset_core image_start 0 0x40204018 gicr_context_zero irq_context_zero
    image_loaded eq_refl ltac:(lia)) as (H1 & _ & _ & hcr & typer & ty & waker & ctlr & cntfrq & le & b' & l & R & _).
  split; [exact H1|exists b', l; exact R].
Defined.
